(* ===== verification/_CoqProject ===== *)
-Q . S2P
Prelude.v
Ddop.v
DdopExample.v
Hierarchy.v
ClientState.v
TcServer.v
ServerFacts.v
Setpoints.v
Activation.v
FileNames.v
Subscription.v
Reports.v
ServerInvariant.v
BusMessages.v
Refinement.v
Locking.v
ServerLocks.v
Udp.v
UdpFacts.v
Settings.v
SettingsLocks.v
PacketHandler.v
Heartbeat.v
DemandMonitor.v
Network.v
VtObjects.v
Vt.v
VtFacts.v
App.v
AppFacts.v
EndToEnd.v
Feedback.v
ClosedLoop.v
Wiring.v
Setup.v
SetupFacts.v
Diagnostics.v
LogTexts.v
Args.v
Program.v
WindowsMain.v
IopValidator.v
Lateness.v
AsyncLog.v
AsyncLogFacts.v
Flush.v
LogFile.v
JsonExample.v
Tests.v
Witnesses.v
ProgramWitnesses.v
