(* ===== verification/Prelude.v ===== *)
(** * AOG-TaskController: a verification library

    AOG-TaskController connects the guidance program AgOpenGPS (AOG), which
    speaks small UDP frames, to implements on an ISOBUS (CAN) network. It is a
    task controller server: an implement uploads a pool of device descriptor
    objects, the program finds the implement's sections in it, tells AOG how
    many there are and which are working, and passes AOG's demand for each
    section on to the implement. It also relays speed and guidance values,
    keeps settings in a JSON file, and shows its state on a virtual terminal.
    The CAN stack, with the pool classes and the terminal client, is the
    library AgIsoStack; it is not part of the sources and is a parameter here.

    ** Files and what they model

    - Prelude.v: conversions to the fixed-width integers, zero-based access to
      lists with Z, the loop results, the hint database, shared lemmas.
    - Ddop.v: the interface of the pool library ([DdopApi] with the laws
      [DdopLaws], [DdiCodes] with [DdiLaws]) and the program's loops over a
      pool; DdopExample.v is an instance, a sprayer with two sections.
    - Hierarchy.v: include/element_hierarchy.hpp.
    - ClientState.v: class [ClientState] of src/task_controller.cpp, one
      definition per member function, and its invariant [wf].
    - TcServer.v: class [MyTCServer] of src/task_controller.cpp. The map of
      clients is a [gmap] from the handle of the control function; a method
      returns the new server and the messages for the bus. Activation.v holds
      [activate_object_pool], the longest method, with the files it writes.
    - ServerFacts.v, Setpoints.v, Subscription.v, Reports.v, FileNames.v,
      ServerInvariant.v: the theorems on the server. Refinement.v: what the
      server promises an implement, as a specification without messages, and
      the proof that the server implements it. BusMessages.v: the messages of
      the server go to what their receiver has declared.
    - Locking.v, ServerLocks.v: the recursive mutex of the server between the
      main loop and the CAN thread, and the methods of the server as the small
      steps at which the other thread may try to come in. SettingsLocks.v: the
      same for the settings.
    - Udp.v, UdpFacts.v: src/udp_connections.cpp, framing in both directions
      and the choice and binding of the address.
    - Settings.v: src/settings.cpp; JsonExample.v instantiates the JSON
      library ([JsonApi]) and the clock ([Timing]).
    - PacketHandler.v: the handler of AOG's packets in src/app.cpp.
    - Heartbeat.v, DemandMonitor.v, Network.v, Vt.v with VtFacts.v: the parts
      of src/app.cpp that send the periodic messages, watch the demand, derive
      what an implement and the bus look like, and serve the terminal.
      VtObjects.v: resources/AOG_TC.iop.h, the objects of the terminal.
    - App.v, AppFacts.v: [Application::update], the round of the main loop,
      which composes all of the above on one state record [Application],
      interleaved with the thread of the CAN stack. EndToEnd.v: what any number
      of rounds does to an implement. Feedback.v: the way back, from the reports
      of an implement to the heartbeat AOG gets; ClosedLoop.v: both ways
      together. Wiring.v: which pools lead to the clients of these theorems.
    - Setup.v, SetupFacts.v: [Application::initialize] with its waits for
      address claims, and [Application::stop].
    - Args.v: the command line and [prepare_application] of src/main.cpp;
      Program.v: [run_application_loop] and [main], from the command line over
      the set-up and the rounds to the exit status or the death of the process.
      WindowsMain.v: the entry point of the Windows build, with its adapters,
      its hidden window and its message loop.
    - Lateness.v: the warnings about a main loop that is late.
    - AsyncLog.v, AsyncLogFacts.v: src/async_log.cpp, the program's only
      lock-based queue, as a transition system over all interleavings; Flush.v
      adds a caller of [flush], with its tries, its wait and its deadline;
      LogFile.v adds the console and the log file behind the writer, a
      character at a time, with other threads that print past the queue.
    - Diagnostics.v: src/logging.cpp, include/logging_utils.hpp and
      src/crash_handler.cpp. LogTexts.v: what the program only logs, where the
      text has a structure or a pace of its own.
    - IopValidator.v: tools/iop_validator.cpp; Tests.v: the checks of
      tools/test_element_hierarchy.cpp and tools/test_async_log.cpp, evaluated
      on the models.
    - Witnesses.v, ProgramWitnesses.v: every theorem with hypotheses at a
      concrete input.

    Definitions have the names of the C++ functions they translate. A [const]
    method is a function of the state, any other a function to the new state.
    What a call writes to a socket, a file, the bus or the terminal is a list
    of outputs in the order of the calls.

    ** How the parts interact

    [main] (Program.v) turns the command line into a driver, sets the
    application up ([initialize], Setup.v), runs rounds until a signal clears
    the flag, and stops.

    A round, [update] of App.v, polls two sockets. Address detection (Udp.v)
    changes the subnet in the settings and binds the connection again. The
    other socket's frames go to [packetHandler], which calls the server: a
    section demand becomes [update_section_states], automatic mode
    [update_section_control_enabled]. Then the server subscribes new clients
    ([request_measurement_commands]), the terminal is brought up to date, and
    the rest of the round sends what is due.

    The CAN stack runs a thread of its own, which calls the overrides of
    [MyTCServer] (uploads, activations, reported values: [server_call]) and
    the listeners of the terminal client at any time. Every entry point of the
    server takes its mutex, so a round is a list of [action]s, each of which
    enters the server once at most, and before each of them, and at the end,
    the CAN thread runs any number of its events. The theorems on rounds hold
    for every such schedule. An exception that leaves the CAN thread, of a
    setting that cannot be saved or of an activation whose file has no place
    ([call_throws]), ends the process ([Terminates]). That the mutex makes a method of the server one
    step is itself a theorem ([threads_take_turns]), and so it is for the
    settings ([settings_take_turns]). [merge] of this file is
    the interleaving of two sequences of calls.

    The theorems follow the same route: the invariant [wf] of one client is
    kept by every operation of the server ([run_call_wf]), so it holds in
    every reachable server ([server_reachable_wf]), is part of the invariant
    [app_ok] of the whole application, [update_keeps_invariant] shows that a
    round keeps it and [program_ends_orderly] that the run of the program
    does. The simulation of the section controller by the server
    ([server_refines_controller]) becomes one by the application
    ([rounds_refine_controller]), because a round is, for the server, an
    interleaving of the calls of the packets and of the CAN thread.

    ** The theorems

    - The contract of section control: an implement that hears only the
      messages sent to it has, after any run, the latest demand that arrived
      in automatic mode ([server_refines_controller]), once it is subscribed;
      a demand before that is lost, unless the implement is told element by
      element ([early_demand_never_sent]). An implement
      speaks one of two dialects, sixteen sections in a message or an element
      for each section ([dialect]), and the theorems hold for both. The same
      for the whole application, from the datagrams to the bus, with the CAN
      thread in between ([rounds_refine_controller]); and one datagram of
      section states arrives within its round ([section_states_delivered]).
      In the other direction a due heartbeat shows AOG what the implement has
      reported up to that moment ([reports_reach_aog]), so that AOG sees what
      it asked for when the implement is truthful ([demand_comes_back]).
      Which pools make such an implement, and which kind is never told
      anything, is [pool_decides_dialect].
      Every message goes to something that its receiver has declared
      ([bus_messages_declared]).
      None of this depends on how the operating system schedules the two
      threads inside of the server ([threads_take_turns]).
    - The program: the set-up always ends, with what was asked for
      ([initialize_spec]), and respects the 250 ms after a claim
      ([claim_delays_respected]); the process ends by the flag or for a named
      cause ([program_ends_orderly]), and by the flag when nothing is wrong
      ([program_stops_when_asked]), on Windows when its window is asked to
      close ([windows_program_closes]); a round keeps the invariant
      ([update_keeps_invariant]).
    - Section control in detail: which messages a demand
      causes and which it does not ([update_section_states_spec],
      [master_follows_setpoints]); packing and unpacking of sixteen sections
      in two bits each ([condensed_roundtrip], [condensed_report_unpacked]);
      what counts as working ([get_section_actual_state_spec],
      [any_in_chain_spec], [actual_work_state_report]).
    - Activation and subscription: [activate_object_pool_spec],
      [activated_state_spec], [request_measurement_commands_spec],
      [value_from_unknown_client], [ddop_file_name_safe].
    - The wire: [send_receive_roundtrip], [receive_handlers_safe], [send_spec],
      [subnet_detection_spec]; three theorems describe where frames are lost or
      the loop does not end ([length_250_never_returns],
      [second_frame_in_buffer], [one_byte_payload_delayed]).
    - Settings: [save_load_roundtrip], [load_spec], [save_crash_safe], and
      whatever the two threads do at once, the file is at any moment one that
      their calls leave when made one at a time ([settings_take_turns]).
    - AOG's values and the periodic messages: [process_data_packet],
      [xte_packet].
    - The demand monitor: [warning_once_per_spell],
      [check_section_demand_spec], [describe_section_demand_spec].
    - The terminal: [vt_display_current], [vt_switch_consistent],
      [vt_outage_reported_once].
    - The log: [log_keeps_lines], [log_drains], [flush_answers], and that the
      log file is complete when [flush] has answered ([log_file_complete]), as
      long as no print past the queue has met the writer inside the file
      stream, where nothing keeps the two apart.
    - Diagnostics: [crash_leaves_trace], [gap_warnings_spec]; the build tool:
      [iop_validator_accepts].

    Further theorems that other parts rely on or that round a component off
    stand beside them, such as [block_messages_branches],
    [section_demand_packet], [heartbeat_encodes_sections],
    [j1939_speed_rounding], [hardware_message_spec],
    [set_boolean_transactional], [gnss_quality_choice],
    [periodic_messages_paced], [implement_messages_spec] and
    [prepare_application_spec].

    ** Bounds and fuel

    Integers are Z with the conversion of the C++ type written out (u8, u16,
    u32, i32). Loops that are not structural have fuel, and a loop that does
    not end within it is [Running], never a result: the receive loops have
    1024 rounds for a buffer of 512 bytes ([receive_handlers_safe] proves them
    enough unless a byte of value 250 is buffered), the checksum 256 rounds of
    an 8-bit counter ([send_spec]), the heartbeat 32 for at most 255 sections
    ([heartbeat_encodes_sections]), a wait of the set-up 501 looks at the
    clock, 10 ms apart at least, for at most 5000 ms ([wait_loop_spec]); the
    ancestor walk has the bound of the code itself. The main loop has fuel
    because it ends only when it is asked to; [program_stops_when_asked] says
    how much is enough. The theorems on the log assume that less than 2^64 bytes
    were ever submitted, the range of [std::size_t].

    ** What is not modelled

    Log texts, apart from the section demand line and the lines of
    Diagnostics.v and LogTexts.v; the internals of the CAN stack, the JSON
    library and the operating system, which are parameters with their
    documented behaviour as laws, or environments whose fields are what the
    calls answer. A method of the server and one of the settings is one step in a
    round, which ServerLocks.v and SettingsLocks.v justify; the calls of the
    terminal client, which both threads make without a lock, are taken as
    atomic. One
    reading of the clock stands for all within a round (Lateness.v and Setup.v
    have each of them).

    ** Plan

    Next come the calls of the terminal client, which both threads make
    without a lock, at the grain ServerLocks.v has for the server. *)

From stdpp Require Export base option list gmap strings pretty sorting.
From Stdlib Require Export ZArith Lia.

#[export] Set Default Goal Selector "!".
#[export] Set Default Proof Using "Type".

Open Scope Z_scope.

(** ** Machine integers *)

(** Conversions to the fixed-width types of [<cstdint>]: an unsigned type
    keeps the value modulo [2^w]; [std::int32_t] is two's complement. *)
Definition u8 (x : Z) : Z := x mod 256.
Definition u16 (x : Z) : Z := x mod 65536.
Definition u32 (x : Z) : Z := x mod 4294967296.
Definition u64 (x : Z) : Z := x mod 18446744073709551616.
Definition i32 (x : Z) : Z :=
  let y := u32 x in if y <? 2147483648 then y else y - 4294967296.

Definition is_u8 (x : Z) : Prop := 0 <= x < 256.
Definition is_u16 (x : Z) : Prop := 0 <= x < 65536.
Definition is_u32 (x : Z) : Prop := 0 <= x < 4294967296.
Definition is_i32 (x : Z) : Prop := -2147483648 <= x < 2147483648.

(** [width] closes range goals about the conversions. *)
Ltac width :=
  unfold is_u8, is_u16, is_u32, is_i32, u8, u16, u32, u64 in *;
  Z.div_mod_to_equations; lia.

Lemma u8_id x : is_u8 x -> u8 x = x.
Proof. intros. apply Z.mod_small. width. Qed.

Lemma u16_id x : is_u16 x -> u16 x = x.
Proof. intros. apply Z.mod_small. width. Qed.

Lemma u32_id x : is_u32 x -> u32 x = x.
Proof. intros. apply Z.mod_small. width. Qed.

Lemma u8_range x : is_u8 (u8 x).
Proof. apply Z.mod_pos_bound. lia. Qed.

Lemma u16_range x : is_u16 (u16 x).
Proof. apply Z.mod_pos_bound. lia. Qed.

Lemma u32_range x : is_u32 (u32 x).
Proof. apply Z.mod_pos_bound. lia. Qed.

Lemma i32_range x : is_i32 (i32 x).
Proof.
  unfold i32, is_i32. pose proof (u32_range x) as H. unfold is_u32 in H.
  destruct (Z.ltb_spec (u32 x) 2147483648); lia.
Qed.

Lemma i32_id x : is_i32 x -> i32 x = x.
Proof.
  unfold is_i32, i32, u32. intros H.
  destruct (Z.ltb_spec (x mod 4294967296) 2147483648);
    Z.div_mod_to_equations; lia.
Qed.

Create HintDb aog.
#[export] Hint Resolve u8_range u16_range u32_range i32_range : aog.

(** ** Case analysis on the boolean tests of the code *)

(** [bool_cases] turns the integer comparisons that guard the branches of a
    translated body into hypotheses of linear arithmetic. *)
Ltac bool_cases :=
  repeat match goal with
  | |- context [Z.ltb ?a ?b] => destruct (Z.ltb_spec a b)
  | |- context [Z.leb ?a ?b] => destruct (Z.leb_spec a b)
  | |- context [Z.eqb ?a ?b] => destruct (Z.eqb_spec a b)
  | H : context [Z.ltb ?a ?b] |- _ => destruct (Z.ltb_spec a b)
  | H : context [Z.leb ?a ?b] |- _ => destruct (Z.leb_spec a b)
  | H : context [Z.eqb ?a ?b] |- _ => destruct (Z.eqb_spec a b)
  end.

(** ** Lists indexed by machine integers *)

Section zlist.
Context {A : Type}.
Implicit Types (l : list A) (i : Z).

(** [v\[i\]] on a [std::vector] and [v\[i\] = x], for an index that is an
    unsigned integer. *)
Definition zlookup l i : option A := l !! Z.to_nat i.
Definition zinsert i (x : A) l : list A := <[Z.to_nat i := x]> l.
Definition zlength l : Z := Z.of_nat (length l).

Lemma zlookup_insert_eq l i x :
  0 <= i < zlength l -> zlookup (zinsert i x l) i = Some x.
Proof. intros H. apply list_lookup_insert_eq. unfold zlength in H. lia. Qed.

Lemma zlookup_insert_ne l i j x :
  0 <= i -> 0 <= j -> i <> j -> zlookup (zinsert i x l) j = zlookup l j.
Proof. intros. apply list_lookup_insert_ne. lia. Qed.

Lemma zlength_insert l i x : zlength (zinsert i x l) = zlength l.
Proof. unfold zlength, zinsert. by rewrite length_insert. Qed.

Lemma zlookup_is_Some l i :
  0 <= i < zlength l -> is_Some (zlookup l i).
Proof. intros H. apply lookup_lt_is_Some. unfold zlength in H. lia. Qed.

Lemma zlookup_ge l i : zlength l <= i -> zlookup l i = None.
Proof. intros H. apply lookup_ge_None. unfold zlength in H. lia. Qed.

Lemma zlength_nonneg l : 0 <= zlength l.
Proof. unfold zlength. lia. Qed.

Lemma Forall_zinsert (P : A -> Prop) l i x :
  Forall P l -> P x -> Forall P (zinsert i x l).
Proof. intros. by apply Forall_insert. Qed.

Lemma Forall_zlookup (P : A -> Prop) l i x :
  Forall P l -> zlookup l i = Some x -> P x.
Proof. intros HF Hl. by apply (Forall_lookup_1 P l (Z.to_nat i)). Qed.
End zlist.

#[export] Hint Resolve zlength_nonneg : aog.

(** [std::vector::resize (n, x)]. *)
Definition vec_resize {A} (n : Z) (x : A) (l : list A) : list A :=
  resize (Z.to_nat n) x l.

Lemma zlength_vec_resize {A} n (x : A) l :
  0 <= n -> zlength (vec_resize n x l) = n.
Proof. intros. unfold zlength, vec_resize. rewrite length_resize. lia. Qed.

Lemma Forall_vec_resize {A} (P : A -> Prop) n x l :
  P x -> Forall P l -> Forall P (vec_resize n x l).
Proof. intros. by apply Forall_resize. Qed.

(** A list of [k] values of [f] repeats one, unless they all differ. *)
Lemma dup_indices_fmap_seq {A} `{EqDecision A} (f : nat -> A) (k : nat) :
  NoDup (f <$> seq 0 k) \/ exists i j, (i < j < k)%nat /\ f i = f j.
Proof.
  induction k as [|k [IH|(i & j & Hij & Heq)]].
  - left. constructor.
  - rewrite seq_S, fmap_app, NoDup_app. simpl.
    destruct (decide (f k ∈ f <$> seq 0 k)) as [Hin|Hnin].
    + right. apply list_elem_of_fmap in Hin as (i & Heq & Hi%elem_of_seq).
      exists i, k. split; [lia|done].
    + left. split_and!; [done| |apply NoDup_singleton].
      intros x Hx ->%list_elem_of_singleton. done.
  - right. exists i, j. split; [lia|done].
Qed.

(** ** Loops *)

#[global] Arguments seqZ : simpl never.

Lemma seqZ_snoc (m n : Z) : 0 <= n -> seqZ m (n + 1) = seqZ m n ++ [m + n].
Proof. intros. rewrite seqZ_app by lia. f_equal. Qed.

(** The proof rule of [for (i = 0; i < n; i++) body]: an invariant that holds
    initially and is kept by every round holds at the end. *)
Lemma for_loop_ind {B} (P : Z -> B -> Prop) (body : B -> Z -> B) (b : B) (n : Z) :
  0 <= n -> P 0 b ->
  (forall i b', 0 <= i < n -> P i b' -> P (i + 1) (body b' i)) ->
  P n (foldl body b (seqZ 0 n)).
Proof.
  intros Hn H0 Hstep.
  assert (forall m, 0 <= m -> m <= n -> P m (foldl body b (seqZ 0 m))) as Hm;
    [|by apply Hm].
  apply (natlike_ind (fun m => m <= n -> P m (foldl body b (seqZ 0 m)))); [done|].
  intros m Hm IH Hle. unfold Z.succ in *. rewrite seqZ_snoc, foldl_app by lia.
  simpl. apply Hstep; [lia|]. apply IH. lia.
Qed.

(** The same for a loop over any list. *)
Lemma foldl_ind {A B} (P : B -> Prop) (body : B -> A -> B) (b : B) (l : list A) :
  P b -> (forall x b', x ∈ l -> P b' -> P (body b' x)) -> P (foldl body b l).
Proof.
  revert b. induction l as [|x l IH]; intros b Hb Hstep; simpl; [done|].
  apply IH; [apply Hstep; [left|done]|]. intros y b' ?. apply Hstep. by right.
Qed.

Lemma foldl_ext_in {A B} (f g : B -> A -> B) (b : B) (l : list A) :
  (forall b x, x ∈ l -> f b x = g b x) -> foldl f b l = foldl g b l.
Proof.
  revert b. induction l as [|x l IH]; intros b Hfg; simpl; [done|].
  rewrite Hfg by left. apply IH. intros. apply Hfg. by right.
Qed.

Lemma existsb_seqZ_true (f : Z -> bool) (m n : Z) :
  existsb f (seqZ m n) = true <-> exists i, m <= i < m + n /\ f i = true.
Proof.
  rewrite existsb_exists. setoid_rewrite <- list_elem_of_In.
  setoid_rewrite elem_of_seqZ. done.
Qed.

Lemma existsb_seqZ_snoc (f : Z -> bool) (m n : Z) :
  0 <= n -> existsb f (seqZ m (n + 1)) = existsb f (seqZ m n) || f (m + n).
Proof.
  intros. rewrite seqZ_snoc, existsb_app by done. simpl. by rewrite orb_false_r.
Qed.

Lemma existsb_ext_in {A} (f g : A -> bool) (l : list A) :
  (forall x, x ∈ l -> f x = g x) -> existsb f l = existsb g l.
Proof.
  induction l as [|x l IH]; intros Hfg; [done|]. simpl.
  rewrite (Hfg x) by left. rewrite IH; [done|]. intros y Hy. apply Hfg. by right.
Qed.

(** ** Text *)

(** [std::string] literals and [std::to_string] as bytes. *)
Fixpoint bytes_of_string (s : string) : list Z :=
  match s with
  | EmptyString => []
  | String c s => Z.of_N (Ascii.N_of_ascii c) :: bytes_of_string s
  end.

Definition to_string (n : Z) : list Z := bytes_of_string (pretty (Z.to_N n)).

(** A digit of [std::hex]. *)
Definition hex_digit (d : Z) : Z := if d <? 10 then 48 + d else 87 + d.

Definition is_digit (c : Z) : Prop := 48 <= c < 58.

Lemma bytes_of_string_app s1 s2 :
  bytes_of_string (s1 +:+ s2) = bytes_of_string s1 ++ bytes_of_string s2.
Proof. induction s1 as [|c s1 IH]; [done|]. simpl. by rewrite <- IH. Qed.

Lemma pretty_N_char_digit x : is_digit (Z.of_N (Ascii.N_of_ascii (pretty_N_char x))).
Proof.
  unfold is_digit, pretty_N_char.
  destruct x as [|[[[[]|[]|]|[[]|[]|]|]|[[[]|[]|]|[[]|[]|]|]|]]; vm_compute; split; congruence.
Qed.

Lemma pretty_N_go_digits x s :
  Forall is_digit (bytes_of_string s) ->
  Forall is_digit (bytes_of_string (pretty_N_go x s)).
Proof.
  revert s. induction (N.lt_wf_0 x) as [x _ IH]. intros s Hs.
  destruct (decide (x = 0)%N) as [->|Hx].
  { by rewrite pretty_N_go_0. }
  rewrite pretty_N_go_step by lia. apply IH; [apply N.div_lt; lia|].
  cbn [bytes_of_string]. constructor; [apply pretty_N_char_digit|done].
Qed.

Lemma to_string_digits n : Forall is_digit (to_string n).
Proof.
  unfold to_string, pretty, pretty_N. case_decide.
  - cbn. repeat constructor; unfold is_digit; lia.
  - apply pretty_N_go_digits. constructor.
Qed.

(** ** Bit fields *)

Lemma testbit_small (s k : Z) : 0 <= s <= 3 -> k < 0 \/ 2 <= k -> Z.testbit s k = false.
Proof.
  intros Hs [Hk|Hk]; [by apply Z.testbit_neg_r|].
  apply Z.bits_above_log2; [lia|].
  pose proof (Z.log2_le_mono s 3). simpl in *. lia.
Qed.

Lemma testbit_i32 (x j : Z) : 0 <= j < 32 -> Z.testbit (i32 x) j = Z.testbit x j.
Proof.
  intros Hj.
  assert (i32 x mod 2 ^ 32 = x mod 2 ^ 32) as Hm.
  { unfold i32, u32. change (2 ^ 32) with 4294967296.
    destruct (Z.ltb_spec (x mod 4294967296) 2147483648);
      Z.div_mod_to_equations; lia. }
  rewrite <- (Z.mod_pow2_bits_low (i32 x) 32), Hm by lia.
  by rewrite Z.mod_pow2_bits_low by lia.
Qed.

(** Joining a high part and a low part of [k] bits. *)
Lemma lor_shiftl_add (a b k : Z) :
  0 <= k -> 0 <= b < 2 ^ k -> Z.lor (Z.shiftl a k) b = a * 2 ^ k + b.
Proof.
  intros Hk Hb. rewrite <- Z.shiftl_mul_pow2 by done. rewrite <- Z.add_lor_land.
  assert (Z.land (Z.shiftl a k) b = 0) as ->; [|lia].
  apply Z.bits_inj'. intros n Hn. rewrite Z.land_spec, Z.bits_0, Z.shiftl_spec by done.
  destruct (Z.ltb_spec n k); [by rewrite Z.testbit_neg_r by lia|].
  rewrite <- (Z.mod_small b (2 ^ k)) by done.
  by rewrite Z.mod_pow2_bits_high, andb_false_r by lia.
Qed.

(** Two bits at position [2 j]. *)
Definition bit_pair (v j : Z) : Z := Z.land (Z.shiftr v (2 * j)) 3.

Lemma bit_pair_range v j : 0 <= bit_pair v j <= 3.
Proof.
  unfold bit_pair. change 3 with (Z.ones 2) at 1 2.
  rewrite Z.land_ones by lia. change (Z.ones 2) with 3.
  pose proof (Z.mod_pos_bound (Z.shiftr v (2 * j)) (2 ^ 2)).
  change (2 ^ 2) with 4 in *. lia.
Qed.

Lemma testbit_bit_pair v j k :
  0 <= j -> Z.testbit (bit_pair v j) k =
            (0 <=? k) && (k <? 2) && Z.testbit v (k + 2 * j).
Proof.
  intros Hj. unfold bit_pair. rewrite Z.land_spec.
  destruct (Z.leb_spec 0 k); [|by rewrite !Z.testbit_neg_r by lia].
  rewrite Z.shiftr_spec by lia. change 3 with (Z.ones 2).
  rewrite Z.testbit_ones_nonneg by lia. simpl. apply andb_comm.
Qed.

Lemma bit_pair_i32 v j : 0 <= j < 16 -> bit_pair (i32 v) j = bit_pair v j.
Proof.
  intros Hj. apply Z.bits_inj'. intros k Hk. rewrite !testbit_bit_pair by lia.
  destruct (Z.ltb_spec k 2); [|by rewrite andb_false_r].
  by rewrite testbit_i32 by lia.
Qed.

Lemma foldl_lor_testbit {A} (f : A -> Z) (l : list A) (v j : Z) :
  Z.testbit (foldl (fun v i => Z.lor v (f i)) v l) j =
  Z.testbit v j || existsb (fun i => Z.testbit (f i) j) l.
Proof.
  revert v. induction l as [|x l IH]; intros v; simpl; [by rewrite orb_false_r|].
  by rewrite IH, Z.lor_spec, orb_assoc.
Qed.

(** Sixteen two-bit fields packed into one 32-bit word. *)
Definition pack_pairs (g : Z -> Z) : Z :=
  foldl (fun v i => Z.lor v (u32 (Z.shiftl (g i) (2 * i)))) 0 (seqZ 0 16).

Lemma bit_pair_pack (g : Z -> Z) (j : Z) :
  (forall i, 0 <= i < 16 -> 0 <= g i <= 3) -> 0 <= j < 16 ->
  bit_pair (pack_pairs g) j = g j.
Proof.
  intros Hg Hj. apply Z.bits_inj'. intros k Hk. rewrite testbit_bit_pair by lia.
  destruct (Z.leb_spec 0 k), (Z.ltb_spec k 2); try lia; simpl;
    [|by rewrite testbit_small by auto with lia].
  unfold pack_pairs. rewrite foldl_lor_testbit, Z.testbit_0_l, orb_false_l.
  assert (Hbit : forall i, 0 <= i < 16 ->
    Z.testbit (u32 (Z.shiftl (g i) (2 * i))) (k + 2 * j) =
    Z.testbit (g i) (k + 2 * j - 2 * i)).
  { intros i Hi. unfold u32. change 4294967296 with (2 ^ 32).
    rewrite Z.mod_pow2_bits_low by lia. by rewrite Z.shiftl_spec by lia. }
  apply eq_true_iff_eq. rewrite existsb_seqZ_true. split.
  - intros (i & Hi & Hb). rewrite Hbit in Hb by lia.
    destruct (decide (i = j)) as [->|Hne]; [by replace (k + 2 * j - 2 * j) with k in Hb by lia|].
    rewrite testbit_small in Hb; [done|auto|lia].
  - intros Hb. exists j. split; [lia|]. rewrite Hbit by lia.
    by replace (k + 2 * j - 2 * j) with k by lia.
Qed.

Lemma pack_pairs_ext (g h : Z -> Z) :
  (forall i, 0 <= i < 16 -> g i = h i) -> pack_pairs g = pack_pairs h.
Proof.
  intros Hgh. unfold pack_pairs. apply (foldl_ext_in _ _ 0 (seqZ 0 16)).
  intros v i Hi%elem_of_seqZ. by rewrite Hgh by lia.
Qed.

Lemma elem_of_concat {A} (x : A) (ls : list (list A)) :
  x ∈ concat ls <-> exists l, x ∈ l /\ l ∈ ls.
Proof.
  rewrite list_elem_of_In, in_concat. setoid_rewrite list_elem_of_In. naive_solver.
Qed.

(** ** Filters that keep everything or nothing *)

Lemma filter_all {A} (P : A -> Prop) `{forall x, Decision (P x)} (l : list A) :
  Forall P l -> filter P l = l.
Proof.
  induction 1; [done|]. rewrite filter_cons_True by done. by f_equal.
Qed.

Lemma filter_none {A} (P : A -> Prop) `{forall x, Decision (P x)} (l : list A) :
  Forall (fun x => ~ P x) l -> filter P l = [].
Proof. induction 1; [done|]. by rewrite filter_cons_False. Qed.

Lemma filter_ext_in {A} (P Q : A -> Prop) `{!forall x, Decision (P x)}
    `{!forall x, Decision (Q x)} (l : list A) :
  (forall x, x ∈ l -> P x <-> Q x) -> filter P l = filter Q l.
Proof.
  induction l as [|x l IH]; intros Hpq; [done|]. rewrite !filter_cons.
  rewrite IH by (intros y Hy; apply Hpq; by right).
  destruct (Hpq x ltac:(by left)). repeat case_decide; tauto || done.
Qed.

(** ** Interleavings *)

(** [merge a b l]: [l] consists of the entries of [a] and of [b], each in its
    order. *)
Inductive merge {A} : list A -> list A -> list A -> Prop :=
  | merge_nil : merge [] [] []
  | merge_left x a b l : merge a b l -> merge (x :: a) b (x :: l)
  | merge_right x a b l : merge a b l -> merge a (x :: b) (x :: l).

Lemma merge_app {A} (a1 b1 l1 a2 b2 l2 : list A) :
  merge a1 b1 l1 -> merge a2 b2 l2 -> merge (a1 ++ a2) (b1 ++ b2) (l1 ++ l2).
Proof. intros H1 H2. induction H1; simpl; [done|by constructor..]. Qed.

Lemma merge_left_only {A} (a : list A) : merge a [] a.
Proof. induction a; by constructor. Qed.

Lemma merge_right_only {A} (b : list A) : merge [] b b.
Proof. induction b; by constructor. Qed.

Lemma merge_Forall {A} (P : A -> Prop) a b l :
  merge a b l -> Forall P a -> Forall P b -> Forall P l.
Proof.
  induction 1; intros Ha Hb; [done|apply Forall_cons in Ha as []|apply Forall_cons in Hb as []];
    constructor; auto.
Qed.

(** Entries that change nothing can be left out of an interleaving. *)
Lemma merge_elem {A} (a b l : list A) (x : A) : merge a b l -> x ∈ l -> x ∈ a \/ x ∈ b.
Proof. induction 1; set_solver. Qed.

Lemma merge_fmap_inv {A B} (f : A -> B) a b l : merge (f <$> a) (f <$> b) l ->
  exists l', merge a b l' /\ l = f <$> l'.
Proof.
  remember (f <$> a) as a' eqn:Ha. remember (f <$> b) as b' eqn:Hb. intros Hm.
  revert a b Ha Hb. induction Hm as [|x a' b' l Hm IH|x a' b' l Hm IH]; intros a b Ha Hb.
  - symmetry in Ha, Hb. apply fmap_nil_inv in Ha as ->. apply fmap_nil_inv in Hb as ->.
    exists []. split; [constructor|done].
  - symmetry in Ha. apply fmap_cons_inv in Ha as (y & a2 & -> & -> & ->).
    destruct (IH a2 b eq_refl Hb) as (l' & Hm' & ->). exists (y :: l'). by split; [constructor|].
  - symmetry in Hb. apply fmap_cons_inv in Hb as (y & b2 & -> & -> & ->).
    destruct (IH a b2 Ha eq_refl) as (l' & Hm' & ->). exists (y :: l'). by split; [constructor|].
Qed.

Lemma merge_foldl {A B} (P : B -> Prop) (f : B -> A -> B) (a b l : list A) (y : B) :
  merge a b l -> Forall (fun x => forall y, P y -> f y x = y) a ->
  Forall (fun x => forall y, P y -> P (f y x)) b -> P y -> foldl f y l = foldl f y b.
Proof.
  intros Hm. revert y. induction Hm as [|x a b l _ IH|x a b l _ IH]; intros y Ha Hb Hy; [done| |].
  - apply Forall_cons in Ha as [Hx Ha]. cbn [foldl]. rewrite (Hx y Hy). by apply IH.
  - apply Forall_cons in Hb as [Hx Hb]. cbn [foldl]. apply IH; auto.
Qed.

(** ** Maps in key order *)

(** A [std::map] from integers is visited in key order. *)
Definition key_order {A} (m : gmap Z A) : list Z := merge_sort Z.le (elements (dom m)).

Lemma elem_of_key_order {A} (m : gmap Z A) k : k ∈ key_order m <-> is_Some (m !! k).
Proof.
  unfold key_order. rewrite merge_sort_Permutation, elem_of_elements. apply elem_of_dom.
Qed.
