(* ===== verification/Ddop.v ===== *)
(** * The device descriptor object pool, as the task controller sees it

    A device describes itself with a device descriptor object pool (DDOP).
    The classes that hold and parse a pool belong to the AgIsoStack library
    and are not part of this repository, so they are parameters here: the
    class [DdopApi] has one field per library member that the sources under
    src/ and include/ call, and every model of code that reads a pool is
    proved for an arbitrary instance. *)

From S2P Require Import Prelude.

(** [isobus::task_controller_object::ObjectTypes], as far as the code tells
    the enumerators apart. *)
Inductive ObjectTypes : Type :=
  | Device
  | DeviceElement
  | DeviceProcessData
  | OtherObjectType.

#[export] Instance ObjectTypes_eq_dec : EqDecision ObjectTypes.
Proof. solve_decision. Defined.

(** [DeviceProcessDataObject::AvailableTriggerMethods], the two the code asks
    for. *)
Inductive TriggerMethod : Type :=
  | OnChange
  | TimeInterval.

(** The geometry records of [isobus::DeviceDescriptorObjectPoolHelper]; an
    [ObjectPoolValue] is an [option]: [exists()] is [is_Some], [get()] the
    value in millimetres. *)
Record Section_ := {
  section_elementNumber : Z;
  section_xOffset_mm : option Z;
  section_yOffset_mm : option Z;
  section_zOffset_mm : option Z;
  section_width_mm : option Z
}.

Record SubBoom := {
  subBoom_elementNumber : Z;
  subBoom_sections : list Section_;
  subBoom_width_mm : option Z
}.

Record Boom := {
  boom_elementNumber : Z;
  boom_subBooms : list SubBoom;
  boom_sections : list Section_;
  boom_xOffset_mm : option Z;
  boom_yOffset_mm : option Z
}.

Record Implement := { booms : list Boom }.

(** The sections in the order the code enumerates them: boom by boom, first
    the sections of the sub-booms, then those attached to the boom itself. *)
Definition boom_all_sections (boom : Boom) : list Section_ :=
  concat (subBoom_sections <$> boom_subBooms boom) ++ boom_sections boom.

Definition implement_sections (implement : Implement) : list Section_ :=
  concat (boom_all_sections <$> booms implement).

(** The library members the code calls on a pool and its objects. *)
Class DdopApi := {
  pool : Type;
  object : Type;
  (** a default-constructed [DeviceDescriptorObjectPool] *)
  empty_pool : pool;
  set_task_controller_compatibility_level : Z -> pool -> pool;
  (** the returned flag, and the pool after the call *)
  deserialize_binary_object_pool : list Z -> Z -> pool -> bool * pool;
  (** [None] when the library reports failure *)
  generate_binary_object_pool : pool -> option (list Z);
  pool_size : pool -> Z;
  (** [None] is a null [shared_ptr] *)
  get_object_by_index : pool -> Z -> option object;
  get_object_by_id : pool -> Z -> option object;
  get_object_type : object -> ObjectTypes;
  get_object_id : object -> Z;
  get_designator : object -> list Z;
  (** of a device object *)
  get_localization_label : object -> list Z;
  (** of a device element object *)
  get_element_number : object -> Z;
  get_parent_object : object -> Z;
  get_child_object_ids : object -> list Z;
  (** of a process data object *)
  get_ddi : object -> Z;
  is_settable : object -> bool;
  has_trigger_method : object -> TriggerMethod -> bool;
  (** [DeviceDescriptorObjectPoolHelper::get_implement_geometry] *)
  get_implement_geometry : pool -> Implement;
  (** [isobus::NULL_OBJECT_ID] *)
  NULL_OBJECT_ID : Z
}.

(** What the loops over a pool rely on: [size()] is a [std::uint16_t] and the
    getters return values of their declared type. *)
Class DdopLaws `{DdopApi} := {
  pool_size_u16 : forall p, is_u16 (pool_size p);
  get_element_number_u16 : forall o, is_u16 (get_element_number o);
  get_ddi_u16 : forall o, is_u16 (get_ddi o);
  geometry_sections_u16 : forall p s,
    s ∈ implement_sections (get_implement_geometry p) ->
    is_u16 (section_elementNumber s)
}.

Section pool_loops.
Context `{DdopApi}.

(** Every loop of the program over a pool has the shape
    [for (i = 0; i < pool.size(); i++) { object = get_object_by_index(i);
    if (object && ...) ... }]: it visits the non-null objects in index
    order. *)
Definition pool_objects (p : pool) : list object :=
  omap (get_object_by_index p) (seqZ 0 (pool_size p)).

Definition objects_of_type (t : ObjectTypes) (p : pool) : list object :=
  filter (fun o => get_object_type o = t) (pool_objects p).

Lemma elem_of_pool_objects p o :
  o ∈ pool_objects p <->
  exists i, 0 <= i < pool_size p /\ get_object_by_index p i = Some o.
Proof.
  unfold pool_objects. rewrite list_elem_of_omap.
  setoid_rewrite elem_of_seqZ. naive_solver lia.
Qed.
End pool_loops.

(** ** Data description indices

    Enumerators of [isobus::DataDescriptionIndex]. The numbers that the
    sources spell out (src/task_controller.cpp lines 506-508, 842, 968-971,
    src/app.cpp line 581) are constants; sixteen consecutive codes make a
    condensed group. *)
Definition ActualWorkState : Z := 141.
Definition ActualCondensedWorkState1_16 : Z := 161.
Definition ActualCondensedWorkState241_256 : Z := 176.
Definition SetpointWorkState : Z := 289.
Definition SetpointCondensedWorkState1_16 : Z := 290.
Definition SetpointCondensedWorkState241_256 : Z := 305.
Definition GNSSQuality : Z := 514.
Definition TotalDistance : Z := 597.

(** The enumerators whose number no source file spells out stay abstract. *)
Class DdiCodes := {
  SectionControlState : Z;
  CondensedSectionOverrideState1_16 : Z;
  CondensedSectionOverrideState241_256 : Z;
  ActualSpeed : Z;
  GuidanceLineDeviation : Z
}.

(** The enumerators of one [enum] are pairwise different codes. *)
Class DdiLaws `{DdiCodes} := {
  SectionControlState_u16 : is_u16 SectionControlState;
  SectionControlState_fresh :
    SectionControlState <> ActualWorkState /\
    ~ (ActualCondensedWorkState1_16 <= SectionControlState
        <= ActualCondensedWorkState241_256) /\
    ~ (SetpointWorkState <= SectionControlState
        <= SetpointCondensedWorkState241_256) /\
    SectionControlState <> GNSSQuality;
  process_data_codes_distinct :
    ActualSpeed <> GuidanceLineDeviation /\
    ActualSpeed <> TotalDistance /\
    GuidanceLineDeviation <> TotalDistance
}.
