(* ===== verification/DdopExample.v ===== *)
(** * A concrete descriptor pool for the witnesses

    The library classes behind [DdopApi] and the enumerators behind
    [DdiCodes] are parameters of the models. Here they are instantiated with
    the simplest functions of the right type (a pool is a list of possibly
    null objects), so that the hypotheses of the theorems can be checked on
    concrete inputs. The numbers are those of the ISO 11783-11 data
    dictionary. No theorem about the program depends on this file. *)

From S2P Require Import Prelude Ddop.

Record ListObject := {
  lo_type : ObjectTypes;
  lo_id : Z;
  lo_designator : list Z;
  lo_label : list Z;
  lo_element : Z;
  lo_parent : Z;
  lo_children : list Z;
  lo_ddi : Z;
  lo_settable : bool;
  lo_on_change : bool;
  lo_interval : bool
}.

Record ListPool := {
  lp_objects : list (option ListObject);
  lp_geometry : Implement
}.

Definition lp_empty : ListPool := {| lp_objects := []; lp_geometry := {| booms := [] |} |}.

Definition lp_by_id (p : ListPool) (id : Z) : option ListObject :=
  head (filter (fun o => lo_id o = id) (omap (fun o => o) (lp_objects p))).

(** Element numbers are 16-bit values. *)
Definition u16_section (s : Section_) : Section_ := {|
  section_elementNumber := u16 (section_elementNumber s);
  section_xOffset_mm := section_xOffset_mm s;
  section_yOffset_mm := section_yOffset_mm s;
  section_zOffset_mm := section_zOffset_mm s;
  section_width_mm := section_width_mm s |}.

Definition u16_geometry (g : Implement) : Implement := {|
  booms := (fun b => {|
    boom_elementNumber := boom_elementNumber b;
    boom_subBooms := (fun sb => {|
      subBoom_elementNumber := subBoom_elementNumber sb;
      subBoom_sections := u16_section <$> subBoom_sections sb;
      subBoom_width_mm := subBoom_width_mm sb |}) <$> boom_subBooms b;
    boom_sections := u16_section <$> boom_sections b;
    boom_xOffset_mm := boom_xOffset_mm b;
    boom_yOffset_mm := boom_yOffset_mm b |}) <$> booms g |}.

Lemma implement_sections_u16_geometry g :
  implement_sections (u16_geometry g) = u16_section <$> implement_sections g.
Proof.
  unfold implement_sections, u16_geometry. cbn [booms].
  induction (booms g) as [|b bs IH]; [done|].
  rewrite !fmap_cons. cbn [concat]. rewrite fmap_app, <- IH. f_equal.
  unfold boom_all_sections. cbn [boom_subBooms boom_sections].
  rewrite fmap_app. f_equal.
  induction (boom_subBooms b) as [|sb sbs IHs]; [done|].
  rewrite !fmap_cons. cbn [concat]. by rewrite fmap_app, <- IHs.
Qed.

(** [decode] stands for the library's parser. *)
#[export] Instance list_ddop (decode : list Z -> option ListPool) : DdopApi := {|
  pool := ListPool;
  object := ListObject;
  empty_pool := lp_empty;
  set_task_controller_compatibility_level _ p := p;
  deserialize_binary_object_pool bytes _ p :=
    match decode bytes with Some p' => (true, p') | None => (false, p) end;
  generate_binary_object_pool p :=
    if decide (lp_objects p = []) then None else Some [Z.of_nat (length (lp_objects p))];
  pool_size p := u16 (zlength (lp_objects p));
  get_object_by_index p i := mjoin (zlookup (lp_objects p) i);
  get_object_by_id := lp_by_id;
  get_object_type := lo_type;
  get_object_id := lo_id;
  get_designator := lo_designator;
  get_localization_label := lo_label;
  get_element_number o := u16 (lo_element o);
  get_parent_object := lo_parent;
  get_child_object_ids := lo_children;
  get_ddi o := u16 (lo_ddi o);
  is_settable := lo_settable;
  has_trigger_method o m :=
    match m with OnChange => lo_on_change o | TimeInterval => lo_interval o end;
  get_implement_geometry p := u16_geometry (lp_geometry p);
  NULL_OBJECT_ID := 65535
|}.

#[export] Instance list_ddop_laws decode : @DdopLaws (list_ddop decode).
Proof.
  split; intros; try apply u16_range.
  change (s ∈ implement_sections (u16_geometry (lp_geometry p))) in H.
  rewrite implement_sections_u16_geometry in H.
  apply list_elem_of_fmap in H as (s' & -> & _). apply u16_range.
Qed.

#[export] Instance iso_codes : DdiCodes := {|
  SectionControlState := 160;
  CondensedSectionOverrideState1_16 := 367;
  CondensedSectionOverrideState241_256 := 382;
  ActualSpeed := 397;
  GuidanceLineDeviation := 513
|}.

#[export] Instance iso_laws : DdiLaws.
Proof. split; vm_compute; intuition discriminate. Qed.

Definition element (id number parent : Z) (children : list Z) : ListObject := {|
  lo_type := DeviceElement; lo_id := id; lo_designator := []; lo_label := [];
  lo_element := number; lo_parent := parent; lo_children := children;
  lo_ddi := 0; lo_settable := false; lo_on_change := false; lo_interval := false |}.

Definition process_data (id ddi : Z) (settable on_change : bool) : ListObject := {|
  lo_type := DeviceProcessData; lo_id := id; lo_designator := []; lo_label := [];
  lo_element := 0; lo_parent := 0; lo_children := [];
  lo_ddi := ddi; lo_settable := settable; lo_on_change := on_change;
  lo_interval := false |}.

Definition device (label designator : list Z) : ListObject := {|
  lo_type := Device; lo_id := 0; lo_designator := designator; lo_label := label;
  lo_element := 0; lo_parent := 65535; lo_children := [];
  lo_ddi := 0; lo_settable := false; lo_on_change := false; lo_interval := false |}.

Definition section_of (number : Z) : Section_ := {|
  section_elementNumber := number; section_xOffset_mm := None;
  section_yOffset_mm := None; section_zOffset_mm := None;
  section_width_mm := Some 3000 |}.

(** A boom (element 1 below element 0) with sections 2 and 3, as in
    tools/test_element_hierarchy.cpp, with a modern set of DDIs. *)
Definition sprayer : ListPool := {|
  lp_objects :=
    [Some (device [83; 80; 82; 10] [83]);
     Some (element 1 0 0 []);
     Some (element 20 2 10 [30]);
     Some (element 21 3 10 []);
     None;
     Some (element 10 1 1 [31; 32; 33; 34]);
     Some (process_data 30 141 false true);
     Some (process_data 31 290 true true);
     Some (process_data 32 289 true true);
     Some (process_data 33 160 true true);
     Some (process_data 34 514 true false)];
  lp_geometry := {| booms := [ {|
    boom_elementNumber := 1; boom_subBooms := [];
    boom_sections := [section_of 2; section_of 3];
    boom_xOffset_mm := None; boom_yOffset_mm := None |} ] |}
|}.

(** An implement whose parents form a cycle. *)
Definition cyclic_pool : ListPool := {|
  lp_objects := [Some (device [] []); Some (element 50 5 51 []); Some (element 51 6 50 [])];
  lp_geometry := {| booms := [] |}
|}.

Definition decode_sprayer (bytes : list Z) : option ListPool :=
  match bytes with [1] => Some sprayer | [2] => Some cyclic_pool | _ => None end.
