(* ===== verification/Hierarchy.v ===== *)
(** * The element hierarchy (include/element_hierarchy.hpp)

    [build_parent_map] reads the parent of every device element out of a
    pool once; [any_in_chain] walks that map from an element towards the
    root. The walk is cut off after [parents.size() + 1] elements, so it
    ends even on a pool whose parents form a cycle; the theorems show that
    the cut-off never changes the answer. *)

From S2P Require Import Prelude Ddop.

Section build.
Context `{DdopApi}.

(** One pass of the loop body. *)
Definition parent_map_step (p : pool) (parents : gmap Z Z) (obj : object)
    : gmap Z Z :=
  if decide (get_object_type obj = DeviceElement) then
    match get_object_by_id p (get_parent_object obj) with
    | None => parents
    | Some parent =>
        if decide (get_object_type parent = DeviceElement) then
          if decide (get_element_number parent = get_element_number obj)
          then parents
          else <[get_element_number obj := get_element_number parent]> parents
        else parents
    end
  else parents.

Definition build_parent_map (p : pool) : gmap Z Z :=
  foldl (parent_map_step p) ∅ (pool_objects p).

(** [obj] is a device element whose parent object is another device
    element, with number [up]. *)
Definition declares_parent (p : pool) (obj : object) (up : Z) : Prop :=
  get_object_type obj = DeviceElement /\
  exists parent,
    get_object_by_id p (get_parent_object obj) = Some parent /\
    get_object_type parent = DeviceElement /\
    get_element_number parent = up /\
    up <> get_element_number obj.

Lemma parent_map_step_spec p m obj :
  (exists up, declares_parent p obj up /\
     parent_map_step p m obj = <[get_element_number obj := up]> m) \/
  ((forall up, ~ declares_parent p obj up) /\ parent_map_step p m obj = m).
Proof.
  unfold parent_map_step, declares_parent.
  repeat case_decide; [|naive_solver].
  destruct (get_object_by_id _ _) as [par|] eqn:E; [|naive_solver].
  repeat case_decide; naive_solver.
Qed.

Lemma foldl_parent_map_sound p objs m e up :
  foldl (parent_map_step p) m objs !! e = Some up ->
  m !! e = Some up \/
  exists obj, obj ∈ objs /\ get_element_number obj = e /\
              declares_parent p obj up.
Proof.
  revert m. induction objs as [|o objs IH]; intros m Hl; simpl in *; [by left|].
  apply IH in Hl as [Hl|(obj & ? & ? & ?)].
  - destruct (parent_map_step_spec p m o) as [(up' & Hd & Hs)|[_ Hs]];
      rewrite Hs in Hl; [|by left].
    destruct (decide (get_element_number o = e)) as [<-|].
    + rewrite lookup_insert_eq in Hl. simplify_eq. right. exists o.
      split_and!; [left|done|done].
    + rewrite lookup_insert_ne in Hl by done. by left.
  - right. exists obj. split_and!; [by right|done|done].
Qed.

Lemma foldl_parent_map_kept p objs m e up :
  m !! e = Some up ->
  (forall obj up', obj ∈ objs -> get_element_number obj = e ->
     declares_parent p obj up' -> up' = up) ->
  foldl (parent_map_step p) m objs !! e = Some up.
Proof.
  revert m. induction objs as [|o objs IH]; intros m Hm Hun; simpl; [done|].
  apply IH; [|intros; eapply Hun; [by right| |]; done].
  destruct (parent_map_step_spec p m o) as [(up' & Hd & ->)|[_ ->]]; [|done].
  destruct (decide (get_element_number o = e)) as [He|He].
  - rewrite He, lookup_insert_eq. f_equal. by eapply (Hun o); [left| |].
  - by rewrite lookup_insert_ne.
Qed.

(** Different device elements of the pool have different numbers. *)
Definition unique_element_numbers (p : pool) : Prop :=
  forall o1 o2, o1 ∈ pool_objects p -> o2 ∈ pool_objects p ->
    get_object_type o1 = DeviceElement ->
    get_object_type o2 = DeviceElement ->
    get_element_number o1 = get_element_number o2 -> o1 = o2.

Lemma declares_parent_inj p o up1 up2 :
  declares_parent p o up1 -> declares_parent p o up2 -> up1 = up2.
Proof. unfold declares_parent. naive_solver. Qed.

Lemma foldl_parent_map_complete p objs m obj up :
  (forall o1 o2, o1 ∈ objs -> o2 ∈ objs ->
     get_object_type o1 = DeviceElement -> get_object_type o2 = DeviceElement ->
     get_element_number o1 = get_element_number o2 -> o1 = o2) ->
  obj ∈ objs -> declares_parent p obj up ->
  foldl (parent_map_step p) m objs !! get_element_number obj = Some up.
Proof.
  intros Hun Hin Hd. revert m. induction objs as [|o objs IH]; intros m.
  { by apply elem_of_nil in Hin. }
  simpl. apply elem_of_cons in Hin as [<-|Hin].
  - destruct (parent_map_step_spec p m obj) as [(up' & Hd' & ->)|[Hno _]];
      [|by destruct (Hno up)].
    assert (up' = up) as -> by (by eapply declares_parent_inj).
    apply foldl_parent_map_kept; [by rewrite lookup_insert_eq|].
    intros o' up' Ho' Heq Hd''.
    assert (o' = obj) as ->.
    { apply Hun; [by right|by left| | |done]; [apply Hd''|apply Hd]. }
    by eapply declares_parent_inj.
  - apply IH; [|done]. intros o1 o2 ??. apply Hun; by right.
Qed.

(** Every entry of the map is the parent declaration of one of the
    pool's device elements, and when element numbers are unique every
    declaration is in the map. *)
Lemma build_parent_map_lookup (p : pool) (e up : Z)
    (Hun : unique_element_numbers p) :
  build_parent_map p !! e = Some up <->
  exists obj, obj ∈ pool_objects p /\ get_element_number obj = e /\
              declares_parent p obj up.
Proof.
  unfold build_parent_map. split.
  - intros Hl%foldl_parent_map_sound.
    destruct Hl as [Hl|?]; [by rewrite lookup_empty in Hl|done].
  - intros (obj & Hin & <- & Hd). by apply foldl_parent_map_complete.
Qed.
End build.

(** ** The bounded walk *)

Section walk.
Implicit Types (parents : gmap Z Z) (predicate : Z -> bool).

(** The loop of [any_in_chain], [fuel] rounds being left. *)
Fixpoint chain_loop (fuel : nat) parents (elementNumber : Z) predicate : bool :=
  match fuel with
  | O => false
  | S fuel =>
      if predicate elementNumber then true
      else match parents !! elementNumber with
           | None => false
           | Some parent => chain_loop fuel parents parent predicate
           end
  end.

(** [for (visited = 0; visited <= parents.size(); visited++)]. *)
Definition any_in_chain parents (elementNumber : Z) predicate : bool :=
  chain_loop (S (size parents)) parents elementNumber predicate.

(** [up] is the parent of [e]; ancestors are its reflexive transitive
    closure. *)
Definition parent_of parents (e up : Z) : Prop := parents !! e = Some up.

(** The [k]-th ancestor. *)
Fixpoint ancestor parents (k : nat) (e : Z) : option Z :=
  match k with
  | O => Some e
  | S k => match parents !! e with
           | Some up => ancestor parents k up
           | None => None
           end
  end.

Lemma ancestor_rtc parents e a :
  rtc (parent_of parents) e a <-> exists k, ancestor parents k e = Some a.
Proof.
  split.
  - induction 1 as [e|e up a Hp _ [k IH]]; [by exists O|].
    exists (S k). simpl. unfold parent_of in Hp. by rewrite Hp.
  - intros [k Hk]. revert e Hk. induction k as [|k IH]; intros e Hk; simpl in Hk.
    + simplify_eq. constructor.
    + destruct (parents !! e) as [up|] eqn:E; [|done].
      apply rtc_l with up; [done|]. by apply IH.
Qed.

Lemma chain_loop_true fuel parents e predicate :
  chain_loop fuel parents e predicate = true <->
  exists k a, (k < fuel)%nat /\ ancestor parents k e = Some a /\
              predicate a = true.
Proof.
  revert e. induction fuel as [|fuel IH]; intros e; simpl.
  { split; [done|]. intros (? & ? & ? & _). lia. }
  destruct (predicate e) eqn:Hp.
  { split; [|done]. intros _. exists O, e. split_and!; [lia|done|done]. }
  destruct (parents !! e) as [up|] eqn:E.
  - rewrite IH. split.
    + intros (k & a & Hk & Ha & Hpa). exists (S k), a. simpl. rewrite E.
      split_and!; [lia|done|done].
    + intros ([|k] & a & Hk & Ha & Hpa); simpl in Ha; [simplify_eq; congruence|].
      rewrite E in Ha. exists k, a. split_and!; [lia|done|done].
  - split; [done|]. intros ([|k] & a & Hk & Ha & Hpa); simpl in Ha; [simplify_eq; congruence|].
    by rewrite E in Ha.
Qed.

Lemma ancestor_add parents i j e a :
  ancestor parents i e = Some a ->
  ancestor parents (i + j) e = ancestor parents j a.
Proof.
  revert e. induction i as [|i IH]; intros e Hi; simpl in *; [by simplify_eq|].
  destruct (parents !! e); [by apply IH|done].
Qed.

Lemma ancestor_le parents k i e a :
  ancestor parents k e = Some a -> (i < k)%nat ->
  exists b, ancestor parents i e = Some b /\ b ∈ dom parents.
Proof.
  revert i e. induction k as [|k IH]; intros i e Hk Hi; [lia|].
  simpl in Hk. destruct (parents !! e) as [up|] eqn:E; [|done].
  destruct i as [|i]; simpl.
  - exists e. split; [done|]. apply elem_of_dom. eauto.
  - rewrite E. apply IH; [done|lia].
Qed.

Lemma ancestor_pigeonhole parents k e a :
  ancestor parents k e = Some a -> (size parents < k)%nat ->
  exists i j b, (i < j < k)%nat /\ ancestor parents i e = Some b /\
                ancestor parents j e = Some b.
Proof.
  intros Hk Hsz.
  set (f := fun i => default e (ancestor parents i e)).
  assert (Hf : forall i, (i < k)%nat ->
            ancestor parents i e = Some (f i) /\ f i ∈ dom parents).
  { intros i Hi. destruct (ancestor_le _ _ _ _ _ Hk Hi) as (b & Hb & Hd).
    unfold f. by rewrite Hb. }
  destruct (dup_indices_fmap_seq f k) as [Hnd|(i & j & Hij & Heq)].
  - exfalso.
    assert (Hsub : list_to_set (f <$> seq 0 k) ⊆ dom parents).
    { intros x Hx. apply elem_of_list_to_set, list_elem_of_fmap in Hx
        as (i & -> & Hi%elem_of_seq). apply Hf. lia. }
    apply subseteq_size in Hsub. rewrite size_list_to_set in Hsub by done.
    rewrite size_dom, length_fmap, length_seq in Hsub. lia.
  - exists i, j, (f i). split; [lia|].
    rewrite (proj1 (Hf i ltac:(lia))), (proj1 (Hf j ltac:(lia))).
    by rewrite Heq.
Qed.

(** Every ancestor is reached within [size parents] steps, because a longer
    path repeats an element and can be shortened. *)
Lemma ancestor_within_size parents e a k :
  ancestor parents k e = Some a ->
  exists k', (k' <= size parents)%nat /\ ancestor parents k' e = Some a.
Proof.
  induction (lt_wf k) as [k _ IH]. intros Hk.
  destruct (decide (k <= size parents)%nat) as [|Hgt]; [by exists k|].
  destruct (ancestor_pigeonhole parents k e a Hk) as (i & j & b & Hij & Hi & Hj);
    [lia|].
  apply (IH (i + (k - j))%nat); [lia|].
  rewrite (ancestor_add _ _ _ _ _ Hi), <- (ancestor_add _ _ (k - j) _ _ Hj).
  replace (j + (k - j))%nat with k by lia. done.
Qed.

Lemma any_in_chain_iff parents (e : Z) predicate :
  any_in_chain parents e predicate = true <->
  exists a, rtc (parent_of parents) e a /\ predicate a = true.
Proof.
  unfold any_in_chain. rewrite chain_loop_true. split.
  - intros (k & a & _ & Ha & Hp). exists a. split; [|done].
    apply ancestor_rtc. eauto.
  - intros (a & [k Hk]%ancestor_rtc & Hp).
    destruct (ancestor_within_size _ _ _ _ Hk) as (k' & Hk' & Ha).
    exists k', a. split_and!; [lia|done|done].
Qed.

(** C28: [any_in_chain] answers exactly whether the predicate holds for the
    element or one of its ancestors, cycles included, and the cut-off after
    [parents.size() + 1] elements never changes the answer: any longer walk
    gives the same one. *)
Theorem any_in_chain_spec parents (e : Z) predicate :
  (any_in_chain parents e predicate = true <->
   exists a, rtc (parent_of parents) e a /\ predicate a = true) /\
  forall more : nat,
    chain_loop (S (size parents) + more) parents e predicate =
    any_in_chain parents e predicate.
Proof.
  split; [apply any_in_chain_iff|]. intros more. apply eq_true_iff_eq.
  rewrite any_in_chain_iff, chain_loop_true. split.
  - intros (k & a & _ & Ha & Hp). exists a. split; [|done].
    apply ancestor_rtc. eauto.
  - intros (a & [k Hk]%ancestor_rtc & Hp).
    destruct (ancestor_within_size _ _ _ _ Hk) as (k' & Hk' & Ha).
    exists k', a. split_and!; [lia|done|done].
Qed.
End walk.
