(* ===== verification/ClientState.v ===== *)
(** * The state of one client (class [ClientState] of
    include/task_controller.hpp, src/task_controller.cpp lines 111-329)

    [ClientState] is the record of the data members; every member function is
    a definition of the same name. A member function that changes the object
    returns the changed record. [wf] is the class invariant: the vectors have
    one entry per section, so no access that the section guards let through
    is out of range. *)

From S2P Require Import Prelude Ddop Hierarchy.

(** [enum SectionState : std::uint8_t]. *)
Definition OFF : Z := 0.
Definition ON : Z := 1.
Definition ERROR_SATE : Z := 2.
Definition NOT_INSTALLED : Z := 3.

Definition NUMBER_SECTIONS_PER_CONDENSED_MESSAGE : Z := 16.

Definition is_section_state (s : Z) : Prop := 0 <= s <= 3.

Section client_state.
Context `{DdopApi}.

Record ClientState := {
  cs_pool : pool;
  areMeasurementCommandsSent : bool;
  ddiToElementNumber : gmap Z Z;
  numberOfSections : Z;
  sectionSetpointStates : list Z;
  sectionActualStates : list Z;
  sectionToElementNumber : list Z;
  elementToSection : gmap Z Z;
  setpointWorkState : bool;
  actualWorkState : bool;
  elementWorkStates : gmap Z bool;
  elementParents : gmap Z Z;
  isSectionControlEnabled : bool;
  usesPerElementControl : bool;
  perElementSetpointDDI : Z
}.

(** A value-initialised [ClientState()]: the members without an initialiser
    are zeroed, the vectors and maps are empty. *)
Definition new_ClientState : ClientState := {|
  cs_pool := empty_pool;
  areMeasurementCommandsSent := false;
  ddiToElementNumber := ∅;
  numberOfSections := 0;
  sectionSetpointStates := [];
  sectionActualStates := [];
  sectionToElementNumber := [];
  elementToSection := ∅;
  setpointWorkState := false;
  actualWorkState := false;
  elementWorkStates := ∅;
  elementParents := ∅;
  isSectionControlEnabled := false;
  usesPerElementControl := false;
  perElementSetpointDDI := 0
|}.

(** *** Assignments to single members *)

Definition with_cs_pool (x : pool) (st : ClientState) : ClientState :=
  Build_ClientState x (areMeasurementCommandsSent st) (ddiToElementNumber st)
    (numberOfSections st) (sectionSetpointStates st)
    (sectionActualStates st) (sectionToElementNumber st)
    (elementToSection st) (setpointWorkState st)
    (actualWorkState st) (elementWorkStates st)
    (elementParents st) (isSectionControlEnabled st)
    (usesPerElementControl st) (perElementSetpointDDI st).

Definition with_areMeasurementCommandsSent (x : bool) (st : ClientState) : ClientState :=
  Build_ClientState (cs_pool st) x (ddiToElementNumber st) (numberOfSections st)
    (sectionSetpointStates st) (sectionActualStates st)
    (sectionToElementNumber st) (elementToSection st)
    (setpointWorkState st) (actualWorkState st)
    (elementWorkStates st) (elementParents st)
    (isSectionControlEnabled st) (usesPerElementControl st)
    (perElementSetpointDDI st).

Definition with_ddiToElementNumber (x : gmap Z Z) (st : ClientState) : ClientState :=
  Build_ClientState (cs_pool st) (areMeasurementCommandsSent st) x
    (numberOfSections st) (sectionSetpointStates st)
    (sectionActualStates st) (sectionToElementNumber st)
    (elementToSection st) (setpointWorkState st)
    (actualWorkState st) (elementWorkStates st)
    (elementParents st) (isSectionControlEnabled st)
    (usesPerElementControl st) (perElementSetpointDDI st).

Definition with_numberOfSections (x : Z) (st : ClientState) : ClientState :=
  Build_ClientState (cs_pool st) (areMeasurementCommandsSent st)
    (ddiToElementNumber st) x (sectionSetpointStates st)
    (sectionActualStates st) (sectionToElementNumber st)
    (elementToSection st) (setpointWorkState st)
    (actualWorkState st) (elementWorkStates st)
    (elementParents st) (isSectionControlEnabled st)
    (usesPerElementControl st) (perElementSetpointDDI st).

Definition with_sectionSetpointStates (x : list Z) (st : ClientState) : ClientState :=
  Build_ClientState (cs_pool st) (areMeasurementCommandsSent st)
    (ddiToElementNumber st) (numberOfSections st) x
    (sectionActualStates st) (sectionToElementNumber st)
    (elementToSection st) (setpointWorkState st)
    (actualWorkState st) (elementWorkStates st)
    (elementParents st) (isSectionControlEnabled st)
    (usesPerElementControl st) (perElementSetpointDDI st).

Definition with_sectionActualStates (x : list Z) (st : ClientState) : ClientState :=
  Build_ClientState (cs_pool st) (areMeasurementCommandsSent st)
    (ddiToElementNumber st) (numberOfSections st)
    (sectionSetpointStates st) x (sectionToElementNumber st)
    (elementToSection st) (setpointWorkState st)
    (actualWorkState st) (elementWorkStates st)
    (elementParents st) (isSectionControlEnabled st)
    (usesPerElementControl st) (perElementSetpointDDI st).

Definition with_sectionToElementNumber (x : list Z) (st : ClientState) : ClientState :=
  Build_ClientState (cs_pool st) (areMeasurementCommandsSent st)
    (ddiToElementNumber st) (numberOfSections st)
    (sectionSetpointStates st) (sectionActualStates st) x
    (elementToSection st) (setpointWorkState st)
    (actualWorkState st) (elementWorkStates st)
    (elementParents st) (isSectionControlEnabled st)
    (usesPerElementControl st) (perElementSetpointDDI st).

Definition with_elementToSection (x : gmap Z Z) (st : ClientState) : ClientState :=
  Build_ClientState (cs_pool st) (areMeasurementCommandsSent st)
    (ddiToElementNumber st) (numberOfSections st)
    (sectionSetpointStates st) (sectionActualStates st)
    (sectionToElementNumber st) x (setpointWorkState st)
    (actualWorkState st) (elementWorkStates st)
    (elementParents st) (isSectionControlEnabled st)
    (usesPerElementControl st) (perElementSetpointDDI st).

Definition with_setpointWorkState (x : bool) (st : ClientState) : ClientState :=
  Build_ClientState (cs_pool st) (areMeasurementCommandsSent st)
    (ddiToElementNumber st) (numberOfSections st)
    (sectionSetpointStates st) (sectionActualStates st)
    (sectionToElementNumber st) (elementToSection st) x
    (actualWorkState st) (elementWorkStates st)
    (elementParents st) (isSectionControlEnabled st)
    (usesPerElementControl st) (perElementSetpointDDI st).

Definition with_actualWorkState (x : bool) (st : ClientState) : ClientState :=
  Build_ClientState (cs_pool st) (areMeasurementCommandsSent st)
    (ddiToElementNumber st) (numberOfSections st)
    (sectionSetpointStates st) (sectionActualStates st)
    (sectionToElementNumber st) (elementToSection st)
    (setpointWorkState st) x (elementWorkStates st)
    (elementParents st) (isSectionControlEnabled st)
    (usesPerElementControl st) (perElementSetpointDDI st).

Definition with_elementWorkStates (x : gmap Z bool) (st : ClientState) : ClientState :=
  Build_ClientState (cs_pool st) (areMeasurementCommandsSent st)
    (ddiToElementNumber st) (numberOfSections st)
    (sectionSetpointStates st) (sectionActualStates st)
    (sectionToElementNumber st) (elementToSection st)
    (setpointWorkState st) (actualWorkState st) x
    (elementParents st) (isSectionControlEnabled st)
    (usesPerElementControl st) (perElementSetpointDDI st).

Definition with_elementParents (x : gmap Z Z) (st : ClientState) : ClientState :=
  Build_ClientState (cs_pool st) (areMeasurementCommandsSent st)
    (ddiToElementNumber st) (numberOfSections st)
    (sectionSetpointStates st) (sectionActualStates st)
    (sectionToElementNumber st) (elementToSection st)
    (setpointWorkState st) (actualWorkState st)
    (elementWorkStates st) x (isSectionControlEnabled st)
    (usesPerElementControl st) (perElementSetpointDDI st).

Definition with_isSectionControlEnabled (x : bool) (st : ClientState) : ClientState :=
  Build_ClientState (cs_pool st) (areMeasurementCommandsSent st)
    (ddiToElementNumber st) (numberOfSections st)
    (sectionSetpointStates st) (sectionActualStates st)
    (sectionToElementNumber st) (elementToSection st)
    (setpointWorkState st) (actualWorkState st)
    (elementWorkStates st) (elementParents st) x
    (usesPerElementControl st) (perElementSetpointDDI st).

Definition with_usesPerElementControl (x : bool) (st : ClientState) : ClientState :=
  Build_ClientState (cs_pool st) (areMeasurementCommandsSent st)
    (ddiToElementNumber st) (numberOfSections st)
    (sectionSetpointStates st) (sectionActualStates st)
    (sectionToElementNumber st) (elementToSection st)
    (setpointWorkState st) (actualWorkState st)
    (elementWorkStates st) (elementParents st)
    (isSectionControlEnabled st) x (perElementSetpointDDI st).

Definition with_perElementSetpointDDI (x : Z) (st : ClientState) : ClientState :=
  Build_ClientState (cs_pool st) (areMeasurementCommandsSent st)
    (ddiToElementNumber st) (numberOfSections st)
    (sectionSetpointStates st) (sectionActualStates st)
    (sectionToElementNumber st) (elementToSection st)
    (setpointWorkState st) (actualWorkState st)
    (elementWorkStates st) (elementParents st)
    (isSectionControlEnabled st) (usesPerElementControl st) x.

(** *** Sections *)

Definition set_number_of_sections (number : Z) (st : ClientState) : ClientState :=
  with_sectionToElementNumber (vec_resize number 0 (sectionToElementNumber st))
    (with_sectionActualStates (vec_resize number 0 (sectionActualStates st))
       (with_sectionSetpointStates (vec_resize number 0 (sectionSetpointStates st))
          (with_numberOfSections number st))).

Definition set_section_setpoint_state (section state : Z) (st : ClientState)
    : ClientState :=
  if section <? numberOfSections st
  then with_sectionSetpointStates
         (zinsert section state (sectionSetpointStates st)) st
  else st.

Definition set_section_actual_state (section state : Z) (st : ClientState)
    : ClientState :=
  if section <? numberOfSections st
  then with_sectionActualStates
         (zinsert section state (sectionActualStates st)) st
  else st.

Definition get_element_number_for_section (section : Z) (st : ClientState) : Z :=
  if (section <? numberOfSections st) &&
     (section <? zlength (sectionToElementNumber st))
  then default 0 (zlookup (sectionToElementNumber st) section)
  else 0.

Definition set_element_number_for_section (section elementNumber : Z)
    (st : ClientState) : ClientState :=
  if (section <? numberOfSections st) &&
     (section <? zlength (sectionToElementNumber st))
  then with_elementToSection
         (<[elementNumber := section]> (elementToSection st))
         (with_sectionToElementNumber
            (zinsert section elementNumber (sectionToElementNumber st)) st)
  else st.

Definition try_get_section_for_element (elementNumber : Z) (st : ClientState)
    : option Z := elementToSection st !! elementNumber.

Definition get_number_of_sections (st : ClientState) : Z := numberOfSections st.

Definition get_section_setpoint_state (section : Z) (st : ClientState) : Z :=
  if section <? numberOfSections st
  then default 0 (zlookup (sectionSetpointStates st) section)
  else NOT_INSTALLED.

(** *** Element work states and the hierarchy *)

Definition set_element_work_state (elementNumber : Z) (isWorking : bool)
    (st : ClientState) : ClientState :=
  with_elementWorkStates (<[elementNumber := isWorking]> (elementWorkStates st)) st.

Definition try_get_element_work_state (elementNumber : Z) (st : ClientState)
    : option bool := elementWorkStates st !! elementNumber.

Definition build_element_hierarchy (st : ClientState) : ClientState :=
  with_elementParents (build_parent_map (cs_pool st)) st.

Definition is_element_or_parent_off (elementNumber : Z) (st : ClientState) : bool :=
  any_in_chain (elementParents st) elementNumber (fun element =>
    match try_get_element_work_state element st with
    | Some elementWorkState => negb elementWorkState
    | None => false
    end).

Definition get_section_actual_state (section : Z) (st : ClientState) : Z :=
  if section <? numberOfSections st then
    if usesPerElementControl st
    then default 0 (zlookup (sectionActualStates st) section)
    else
      let elementNumber := get_element_number_for_section section st in
      if is_element_or_parent_off elementNumber st then OFF
      else default 0 (zlookup (sectionActualStates st) section)
  else NOT_INSTALLED.

Definition is_any_section_setpoint_on (st : ClientState) : bool :=
  existsb (fun state => state =? ON) (sectionSetpointStates st).

(** *** Plain accessors *)

Definition get_setpoint_work_state (st : ClientState) : bool := setpointWorkState st.
Definition set_setpoint_work_state (state : bool) (st : ClientState) : ClientState :=
  with_setpointWorkState state st.
Definition get_actual_work_state (st : ClientState) : bool := actualWorkState st.
Definition set_actual_work_state (state : bool) (st : ClientState) : ClientState :=
  with_actualWorkState state st.
Definition is_section_control_enabled (st : ClientState) : bool :=
  isSectionControlEnabled st.
Definition set_section_control_enabled (state : bool) (st : ClientState) : ClientState :=
  with_isSectionControlEnabled state st.
Definition uses_per_element_control (st : ClientState) : bool :=
  usesPerElementControl st.
Definition set_uses_per_element_control (state : bool) (st : ClientState) : ClientState :=
  with_usesPerElementControl state st.
Definition get_per_element_setpoint_ddi (st : ClientState) : Z :=
  perElementSetpointDDI st.
Definition set_per_element_setpoint_ddi (ddi : Z) (st : ClientState) : ClientState :=
  with_perElementSetpointDDI ddi st.
Definition get_pool (st : ClientState) : pool := cs_pool st.
Definition are_measurement_commands_sent (st : ClientState) : bool :=
  areMeasurementCommandsSent st.
Definition mark_measurement_commands_sent (st : ClientState) : ClientState :=
  with_areMeasurementCommandsSent true st.

(** *** The DDI to element map *)

Definition get_element_number_for_ddi (ddi : Z) (st : ClientState) : Z :=
  default 0 (ddiToElementNumber st !! ddi).
Definition set_element_number_for_ddi (ddi elementNumber : Z) (st : ClientState)
    : ClientState :=
  with_ddiToElementNumber (<[ddi := elementNumber]> (ddiToElementNumber st)) st.
Definition has_element_number_for_ddi (ddi : Z) (st : ClientState) : bool :=
  bool_decide (is_Some (ddiToElementNumber st !! ddi)).

(** ** The class invariant *)

Record wf (st : ClientState) : Prop := {
  wf_number : is_u8 (numberOfSections st);
  wf_setpoint_length : zlength (sectionSetpointStates st) = numberOfSections st;
  wf_actual_length : zlength (sectionActualStates st) = numberOfSections st;
  wf_element_length : zlength (sectionToElementNumber st) = numberOfSections st;
  wf_setpoint_states :
    Forall (fun s => s = OFF \/ s = ON) (sectionSetpointStates st);
  wf_actual_states : Forall is_section_state (sectionActualStates st);
  wf_element_numbers : Forall is_u16 (sectionToElementNumber st);
  wf_element_sections :
    map_Forall (fun _ s => 0 <= s < numberOfSections st) (elementToSection st)
}.

Lemma wf_new : wf new_ClientState.
Proof.
  split; simpl; try done; try (unfold is_u8; lia); try constructor.
Qed.

(** Writing a member that [wf] does not mention. *)
Ltac wf_frame := intros []; split; done.

Lemma wf_with_areMeasurementCommandsSent b st :
  wf st -> wf (with_areMeasurementCommandsSent b st).
Proof. wf_frame. Qed.
Lemma wf_with_setpointWorkState b st : wf st -> wf (with_setpointWorkState b st).
Proof. wf_frame. Qed.
Lemma wf_with_isSectionControlEnabled b st :
  wf st -> wf (with_isSectionControlEnabled b st).
Proof. wf_frame. Qed.
Lemma wf_with_usesPerElementControl b st :
  wf st -> wf (with_usesPerElementControl b st).
Proof. wf_frame. Qed.
Lemma wf_with_perElementSetpointDDI d st :
  wf st -> wf (with_perElementSetpointDDI d st).
Proof. wf_frame. Qed.
Lemma wf_with_elementWorkStates m st : wf st -> wf (with_elementWorkStates m st).
Proof. wf_frame. Qed.
Lemma wf_with_elementParents m st : wf st -> wf (with_elementParents m st).
Proof. wf_frame. Qed.
Lemma wf_with_ddiToElementNumber m st : wf st -> wf (with_ddiToElementNumber m st).
Proof. wf_frame. Qed.
Lemma wf_with_cs_pool p st : wf st -> wf (with_cs_pool p st).
Proof. wf_frame. Qed.

Lemma wf_set_section_setpoint_state section state st :
  wf st -> state = OFF \/ state = ON ->
  wf (set_section_setpoint_state section state st).
Proof.
  intros [] Hs. unfold set_section_setpoint_state. case_match; [|done].
  split; simpl; rewrite ?zlength_insert; auto using Forall_zinsert.
Qed.

Lemma wf_set_section_actual_state section state st :
  wf st -> is_section_state state ->
  wf (set_section_actual_state section state st).
Proof.
  intros [] Hs. unfold set_section_actual_state. case_match; [|done].
  split; simpl; rewrite ?zlength_insert; auto using Forall_zinsert.
Qed.

Lemma wf_set_element_number_for_section section elementNumber st :
  wf st -> 0 <= section -> is_u16 elementNumber ->
  wf (set_element_number_for_section section elementNumber st).
Proof.
  intros [] H0 Hs. unfold set_element_number_for_section. case_match eqn:E; [|done].
  apply andb_true_iff in E as [E%Z.ltb_lt _].
  split; simpl; rewrite ?zlength_insert; auto using Forall_zinsert.
  apply map_Forall_insert_2; [lia|done].
Qed.

(** The number of sections is set once, on a new client. *)
Lemma wf_set_number_of_sections number st :
  wf st -> is_u8 number -> numberOfSections st <= number ->
  wf (set_number_of_sections number st).
Proof.
  intros [] Hn Hle. unfold is_u8 in Hn.
  split; simpl; rewrite ?zlength_vec_resize by lia; try done.
  - apply Forall_vec_resize; [by left|done].
  - apply Forall_vec_resize; [unfold is_section_state; lia|done].
  - apply Forall_vec_resize; [unfold is_u16; lia|done].
  - eapply map_Forall_impl; [done|]. simpl. lia.
Qed.
End client_state.

Arguments ClientState {_}.

#[export] Hint Resolve
  wf_new wf_with_areMeasurementCommandsSent wf_with_setpointWorkState
  wf_with_isSectionControlEnabled wf_with_usesPerElementControl
  wf_with_perElementSetpointDDI wf_with_elementWorkStates
  wf_with_elementParents wf_with_ddiToElementNumber wf_with_cs_pool
  wf_set_section_setpoint_state wf_set_section_actual_state
  wf_set_element_number_for_section wf_set_number_of_sections : aog.
