(* ===== verification/TcServer.v ===== *)
(** * The task controller server (class [MyTCServer] of
    include/task_controller.hpp, src/task_controller.cpp lines 331-1064)

    [MyTCServer] holds the two maps the mutex [clientsMutex] guards; every
    entry point takes the lock for its whole body, so it is one atomic
    function of the state (ServerLocks.v). Control functions are compared by the address of
    their [shared_ptr], modelled as an integer handle. The library calls
    that put a process data message on the bus are outputs ([bus_out]); their
    return values are ignored by the code. A body that addresses
    [clients[client]] or the loop reference [client.second] throughout is a
    function of that one [ClientState]; [modify_client] and
    [for_each_client] lift it to the map. Activation is in Activation.v. *)

From S2P Require Import Prelude Ddop Hierarchy ClientState.

(** A [std::shared_ptr<isobus::ControlFunction>]. *)
Notation control_function := Z (only parsing).

(** Calls of the [TaskControllerServer] base class that transmit. *)
Inductive bus_out : Type :=
  | send_set_value (client : control_function) (ddi element value : Z)
  | send_change_threshold_measurement_command
      (client : control_function) (ddi element threshold : Z)
  | send_time_interval_measurement_command
      (client : control_function) (ddi element interval_ms : Z).

#[export] Instance bus_out_eq_dec : EqDecision bus_out.
Proof. solve_decision. Defined.

Section server.
Context `{DdopApi} `{DdiCodes}.

Record MyTCServer := {
  clients : gmap Z ClientState;
  uploadedPools : gmap Z (list (list Z))
}.

Definition with_clients (m : gmap Z ClientState) (srv : MyTCServer) : MyTCServer :=
  {| clients := m; uploadedPools := uploadedPools srv |}.
Definition with_uploadedPools (m : gmap Z (list (list Z))) (srv : MyTCServer)
    : MyTCServer := {| clients := clients srv; uploadedPools := m |}.

(** [clients[client]]: a missing entry is value-initialised first. *)
Definition client_ref (client : control_function) (srv : MyTCServer) : ClientState :=
  default new_ClientState (clients srv !! client).

Definition modify_client (client : control_function)
    (body : ClientState -> ClientState) (srv : MyTCServer) : MyTCServer :=
  with_clients (<[client := body (client_ref client srv)]> (clients srv)) srv.

(** [for (auto &client : clients)]: a [std::map] is visited in key order. *)
Definition client_order (m : gmap Z ClientState) : list Z :=
  merge_sort Z.le (elements (dom m)).

Definition for_each_step
    (body : control_function -> ClientState -> ClientState * list bus_out)
    (acc : gmap Z ClientState * list bus_out) (client : control_function)
    : gmap Z ClientState * list bus_out :=
  match acc.1 !! client with
  | Some st =>
      let '(st', outs) := body client st in
      (<[client := st']> acc.1, acc.2 ++ outs)
  | None => acc
  end.

Definition for_each_client
    (body : control_function -> ClientState -> ClientState * list bus_out)
    (srv : MyTCServer) : MyTCServer * list bus_out :=
  let '(m, outs) := foldl (for_each_step body) (clients srv, [])
                          (client_order (clients srv)) in
  (with_clients m srv, outs).

Definition get_clients (srv : MyTCServer) : gmap Z ClientState := clients srv.

(** ** Bookkeeping callbacks *)

Definition change_designator : bool := true.

Definition deactivate_object_pool (partnerCF : control_function) (srv : MyTCServer)
    : bool * MyTCServer :=
  (true, {| clients := delete partnerCF (clients srv);
            uploadedPools := delete partnerCF (uploadedPools srv) |}).

Definition delete_device_descriptor_object_pool (partnerCF : control_function)
    (srv : MyTCServer) : bool * MyTCServer :=
  (true, {| clients := delete partnerCF (clients srv);
            uploadedPools := delete partnerCF (uploadedPools srv) |}).

Definition get_is_stored_device_descriptor_object_pool_by_structure_label : bool := false.
Definition get_is_stored_device_descriptor_object_pool_by_localization_label : bool :=
  false.
Definition get_is_enough_memory_available : bool := true.

Definition on_client_timeout (partner : control_function) (srv : MyTCServer)
    : MyTCServer :=
  with_clients (delete partner (clients srv)) srv.

Definition store_device_descriptor_object_pool (partnerCF : control_function)
    (binaryPool : list Z) (srv : MyTCServer) : bool * MyTCServer :=
  let pools :=
    match uploadedPools srv !! partnerCF with
    | None => <[partnerCF := []]> (uploadedPools srv)
    | Some _ => uploadedPools srv
    end in
  (true, with_uploadedPools
     (<[partnerCF := default [] (pools !! partnerCF) ++ [binaryPool]]> pools) srv).

(** ** Values reported by a client *)

(** Section [i] of a condensed message occupies bits [2 i] and [2 i + 1]. *)
Definition condensed_section_step (sectionIndexOffset elementNumber processDataValue : Z)
    (st : ClientState) (i : Z) : ClientState :=
  let sectionState := u8 (Z.land (Z.shiftr processDataValue (2 * i)) 3) in
  set_element_number_for_section (u8 (i + sectionIndexOffset)) elementNumber
    (set_section_actual_state (u8 (i + sectionIndexOffset)) sectionState st).

Definition on_condensed_work_state (ddi elementNumber processDataValue : Z)
    (st : ClientState) : ClientState :=
  let sectionIndexOffset :=
    u8 (NUMBER_SECTIONS_PER_CONDENSED_MESSAGE *
        u8 (ddi - ActualCondensedWorkState1_16)) in
  foldl (condensed_section_step sectionIndexOffset elementNumber processDataValue)
    st (seqZ 0 NUMBER_SECTIONS_PER_CONDENSED_MESSAGE).

Definition on_actual_work_state (elementNumber processDataValue : Z)
    (st : ClientState) : ClientState :=
  let st := set_element_work_state elementNumber (processDataValue =? 1) st in
  if uses_per_element_control st then
    match try_get_section_for_element elementNumber st with
    | Some sectionIndex =>
        set_section_actual_state sectionIndex
          (if processDataValue =? 1 then ON else OFF) st
    | None => st
    end
  else st.

Definition is_actual_condensed (ddi : Z) : bool :=
  (ActualCondensedWorkState1_16 <=? ddi) && (ddi <=? ActualCondensedWorkState241_256).
Definition is_setpoint_condensed (ddi : Z) : bool :=
  (SetpointCondensedWorkState1_16 <=? ddi) &&
  (ddi <=? SetpointCondensedWorkState241_256).
Definition is_condensed_override (ddi : Z) : bool :=
  (CondensedSectionOverrideState1_16 <=? ddi) &&
  (ddi <=? CondensedSectionOverrideState241_256).

Definition on_value_command (partner : control_function)
    (dataDescriptionIndex elementNumber processDataValue : Z) (srv : MyTCServer)
    : bool * MyTCServer :=
  (true,
   if is_actual_condensed dataDescriptionIndex then
     modify_client partner
       (on_condensed_work_state dataDescriptionIndex elementNumber processDataValue)
       srv
   else if dataDescriptionIndex =? SectionControlState then
     modify_client partner
       (set_section_control_enabled (processDataValue =? 1)) srv
   else if dataDescriptionIndex =? ActualWorkState then
     modify_client partner (on_actual_work_state elementNumber processDataValue) srv
   else srv).

(** ** Setpoints sent to a client *)

Definition condensed_setpoint_step (sectionOffset : Z) (st : ClientState)
    (value i : Z) : Z :=
  Z.lor value
    (u32 (Z.shiftl (get_section_setpoint_state (u8 (sectionOffset + i)) st) (2 * i))).

Definition condensed_setpoint_value (sectionOffset : Z) (st : ClientState) : Z :=
  foldl (condensed_setpoint_step sectionOffset st) 0
    (seqZ 0 NUMBER_SECTIONS_PER_CONDENSED_MESSAGE).

(** The first process data object with this DDI decides. *)
Fixpoint is_ddi_settable_loop (ddi : Z) (objs : list object) : bool :=
  match objs with
  | [] => false
  | obj :: rest =>
      if decide (get_object_type obj = DeviceProcessData) then
        if get_ddi obj =? ddi then is_settable obj else is_ddi_settable_loop ddi rest
      else is_ddi_settable_loop ddi rest
  end.

Definition is_ddi_settable (ddi : Z) (st : ClientState) : bool :=
  is_ddi_settable_loop ddi (pool_objects (get_pool st)).

(** The loop over the sixteen sections of the block, with its [break]. *)
Fixpoint per_element_loop (client : control_function) (setpointDDI sectionOffset : Z)
    (st : ClientState) (sections : list Z) : list bus_out :=
  match sections with
  | [] => []
  | i :: rest =>
      let sectionIndex := u8 (sectionOffset + i) in
      if get_number_of_sections st <=? sectionIndex then []
      else
        let elementNumber := get_element_number_for_section sectionIndex st in
        (if elementNumber =? 0 then []
         else [send_set_value client setpointDDI elementNumber
                 (if get_section_setpoint_state sectionIndex st =? ON then 1 else 0)])
        ++ per_element_loop client setpointDDI sectionOffset st rest
  end.

(** DDI 289, sent when the overall setpoint changed and the client has it. *)
Definition send_setpoint_work_state (client : control_function) (st : ClientState)
    : ClientState * list bus_out :=
  let setpointWorkState := is_any_section_setpoint_on st in
  if negb (Bool.eqb (get_setpoint_work_state st) setpointWorkState) &&
     has_element_number_for_ddi SetpointWorkState st
  then (set_setpoint_work_state setpointWorkState st,
        [send_set_value client SetpointWorkState
           (get_element_number_for_ddi SetpointWorkState st)
           (if setpointWorkState then 1 else 0)])
  else (st, []).

Definition send_section_setpoint_states (client : control_function) (ddiOffset : Z)
    (st : ClientState) : ClientState * list bus_out :=
  let sectionOffset := u8 (ddiOffset * NUMBER_SECTIONS_PER_CONDENSED_MESSAGE) in
  let value := condensed_setpoint_value sectionOffset st in
  let ddiTarget := u16 (SetpointCondensedWorkState1_16 + ddiOffset) in
  let ddiTargetLegacy := u16 (ActualCondensedWorkState1_16 + ddiOffset) in
  if has_element_number_for_ddi ddiTarget st then
    let elementNumber := get_element_number_for_ddi ddiTarget st in
    let '(st', outs) := send_setpoint_work_state client st in
    (st', send_set_value client ddiTarget elementNumber value :: outs)
  else if has_element_number_for_ddi ddiTargetLegacy st then
    if is_ddi_settable ddiTargetLegacy st
    then (st, [send_set_value client ddiTargetLegacy
                 (get_element_number_for_ddi ddiTargetLegacy st) value])
    else (st, [])
  else if uses_per_element_control st then
    let setpointDDI := get_per_element_setpoint_ddi st in
    let outs := per_element_loop client setpointDDI sectionOffset st
                  (seqZ 0 NUMBER_SECTIONS_PER_CONDENSED_MESSAGE) in
    let '(st', outs') := send_setpoint_work_state client st in
    (st', outs ++ outs')
  else (st, []).

(** One round of the section loop of [update_section_states]; it carries the
    state, the flag [requiresUpdate] and the messages sent so far. First the
    previous sixteen sections are sent if one of them changed ... *)
Definition flush_previous_block (client : control_function) (i : Z)
    (acc : ClientState * bool * list bus_out) : ClientState * bool * list bus_out :=
  let '(st, requiresUpdate, outs) := acc in
  if (i mod NUMBER_SECTIONS_PER_CONDENSED_MESSAGE =? 0) && requiresUpdate then
    let ddiOffset := u8 (i / NUMBER_SECTIONS_PER_CONDENSED_MESSAGE - 1) in
    let '(st', outs') := send_section_setpoint_states client ddiOffset st in
    (st', false, outs ++ outs')
  else acc.

(** ... then section [i] takes over its demand. *)
Definition follow_demand (sectionStates : list bool) (i : Z)
    (acc : ClientState * bool * list bus_out) : ClientState * bool * list bus_out :=
  let '(st, requiresUpdate, outs) := acc in
  match zlookup sectionStates i with
  | None => acc
  | Some demand =>
      if Bool.eqb demand (get_section_setpoint_state i st =? ON)
      then acc
      else (set_section_setpoint_state i (if demand then ON else OFF) st, true, outs)
  end.

Definition update_section_step (client : control_function) (sectionStates : list bool)
    (acc : ClientState * bool * list bus_out) (i : Z)
    : ClientState * bool * list bus_out :=
  follow_demand sectionStates i (flush_previous_block client i acc).

Definition update_client_section_states (sectionStates : list bool)
    (client : control_function) (st : ClientState) : ClientState * list bus_out :=
  if negb (is_section_control_enabled st) then (st, [])
  else if get_number_of_sections st =? 0 then (st, [])
  else
    let '(st, requiresUpdate, outs) :=
      foldl (update_section_step client sectionStates) (st, false, [])
        (seqZ 0 (get_number_of_sections st)) in
    if requiresUpdate then
      let ddiOffset :=
        u8 ((get_number_of_sections st - 1) / NUMBER_SECTIONS_PER_CONDENSED_MESSAGE) in
      let '(st', outs') := send_section_setpoint_states client ddiOffset st in
      (st', outs ++ outs')
    else (st, outs).

Definition update_section_states (sectionStates : list bool) (srv : MyTCServer)
    : MyTCServer * list bus_out :=
  for_each_client (update_client_section_states sectionStates) srv.

Definition send_section_control_state (client : control_function) (enabled : bool)
    (st : ClientState) : list bus_out :=
  [send_set_value client SectionControlState
     (get_element_number_for_ddi SectionControlState st) (if enabled then 1 else 0)].

Definition update_client_section_control_enabled (enabled : bool)
    (client : control_function) (st : ClientState) : ClientState * list bus_out :=
  let st := if negb (Bool.eqb (is_section_control_enabled st) enabled)
            then set_section_control_enabled enabled st else st in
  (st, if has_element_number_for_ddi SectionControlState st &&
          (0 <? get_number_of_sections st)
       then send_section_control_state client enabled st else []).

Definition update_section_control_enabled (enabled : bool) (srv : MyTCServer)
    : MyTCServer * list bus_out :=
  for_each_client (update_client_section_control_enabled enabled) srv.

Definition send_client_gnss_quality (quality : Z) (client : control_function)
    (st : ClientState) : ClientState * list bus_out :=
  (st, if has_element_number_for_ddi GNSSQuality st
       then [send_set_value client GNSSQuality
               (get_element_number_for_ddi GNSSQuality st) quality]
       else []).

Definition send_gnss_quality (quality : Z) (srv : MyTCServer)
    : MyTCServer * list bus_out :=
  for_each_client (send_client_gnss_quality quality) srv.

(** ** Subscribing to a client's process data *)

Definition is_work_state_ddi (ddi : Z) : bool :=
  (ddi =? ActualWorkState) || is_actual_condensed ddi || is_condensed_override ddi.
Definition is_section_control_ddi (ddi : Z) : bool :=
  (ddi =? SectionControlState) || (ddi =? SetpointWorkState) ||
  is_setpoint_condensed ddi.

(** The child references of [elementObject] that name [processDataObject],
    each handled by the innermost body of the loop nest. *)
Definition subscribe_work_state_child (client : control_function)
    (processDataObject elementObject : object)
    (acc : ClientState * list bus_out) (elementObjectChild : Z)
    : ClientState * list bus_out :=
  if elementObjectChild =? get_object_id processDataObject then
    let ddi := get_ddi processDataObject in
    let element := get_element_number elementObject in
    (set_element_number_for_ddi ddi element acc.1,
     acc.2 ++
     (if has_trigger_method processDataObject OnChange
      then [send_change_threshold_measurement_command client ddi element 1] else []) ++
     (if has_trigger_method processDataObject TimeInterval
      then [send_time_interval_measurement_command client ddi element 1000] else []))
  else acc.

Definition subscribe_section_control_child (client : control_function)
    (processDataObject elementObject : object)
    (acc : ClientState * list bus_out) (elementObjectChild : Z)
    : ClientState * list bus_out :=
  if elementObjectChild =? get_object_id processDataObject then
    let ddi := get_ddi processDataObject in
    let element := get_element_number elementObject in
    (set_element_number_for_ddi ddi element acc.1,
     acc.2 ++
     (if has_trigger_method processDataObject OnChange
      then [send_change_threshold_measurement_command client ddi element 1] else []))
  else acc.

(** The two middle loops: all elements [j], and all their children. *)
Definition for_each_child
    (body : object -> ClientState * list bus_out -> Z -> ClientState * list bus_out)
    (p : pool) (acc : ClientState * list bus_out) : ClientState * list bus_out :=
  foldl (fun acc parentObject =>
           foldl (body parentObject) acc (get_child_object_ids parentObject))
    acc (objects_of_type DeviceElement p).

Definition subscribe_work_states (client : control_function) (p : pool)
    (acc : ClientState * list bus_out) (processDataObject : object)
    : ClientState * list bus_out :=
  if is_work_state_ddi (get_ddi processDataObject)
  then for_each_child (subscribe_work_state_child client processDataObject) p acc
  else acc.

Definition subscribe_section_control (client : control_function) (p : pool)
    (acc : ClientState * list bus_out) (processDataObject : object)
    : ClientState * list bus_out :=
  if is_section_control_ddi (get_ddi processDataObject)
  then for_each_child (subscribe_section_control_child client processDataObject) p acc
  else acc.

(** The number of the first device element that lists the object. *)
Fixpoint find_owning_element_loop (processData : object) (objs : list object)
    : option Z :=
  match objs with
  | [] => None
  | obj :: rest =>
      if decide (get_object_type obj = DeviceElement) then
        if existsb (fun childId => childId =? get_object_id processData)
             (get_child_object_ids obj)
        then Some (get_element_number obj)
        else find_owning_element_loop processData rest
      else find_owning_element_loop processData rest
  end.

Definition find_owning_element_number (p : pool) (processData : object) : option Z :=
  find_owning_element_loop processData (pool_objects p).

Definition map_gnss_quality (p : pool) (st : ClientState) (processDataObject : object)
    : ClientState :=
  if negb (get_ddi processDataObject =? GNSSQuality) then st
  else if negb (is_settable processDataObject) then st
  else match find_owning_element_number p processDataObject with
       | Some elementNumber => set_element_number_for_ddi GNSSQuality elementNumber st
       | None => st
       end.

Definition request_client_measurement_commands (client : control_function)
    (st : ClientState) : ClientState * list bus_out :=
  if negb (are_measurement_commands_sent st) && (0 <? get_number_of_sections st) then
    let p := get_pool st in
    let processData := objects_of_type DeviceProcessData p in
    let acc := foldl (subscribe_work_states client p) (st, []) processData in
    let '(st, outs) := foldl (subscribe_section_control client p) acc processData in
    let st := foldl (map_gnss_quality p) st processData in
    (mark_measurement_commands_sent st, outs)
  else (st, []).

Definition request_measurement_commands (srv : MyTCServer)
    : MyTCServer * list bus_out :=
  for_each_client request_client_measurement_commands srv.
End server.
