(* ===== verification/ServerFacts.v ===== *)
(** * Shared facts about the task controller server

    The rule of the loop over all clients, and the frame facts of the client
    operations that the components' theorems use. *)

From S2P Require Import Prelude Ddop Hierarchy ClientState TcServer.

(** The client a message is addressed to. *)
Definition bus_client (o : bus_out) : Z :=
  match o with
  | send_set_value c _ _ _ => c
  | send_change_threshold_measurement_command c _ _ _ => c
  | send_time_interval_measurement_command c _ _ _ => c
  end.

Definition bus_ddi (o : bus_out) : Z :=
  match o with
  | send_set_value _ d _ _ => d
  | send_change_threshold_measurement_command _ d _ _ => d
  | send_time_interval_measurement_command _ d _ _ => d
  end.

(** The messages of a trace that go to one client. *)
Definition to_client (c : Z) (outs : list bus_out) : list bus_out :=
  filter (fun o => bus_client o = c) outs.

Lemma to_client_app c o1 o2 : to_client c (o1 ++ o2) = to_client c o1 ++ to_client c o2.
Proof. apply filter_app. Qed.

Lemma to_client_all c outs :
  Forall (fun o => bus_client o = c) outs -> to_client c outs = outs.
Proof. intros. by apply filter_all. Qed.

Lemma to_client_none c c' outs :
  Forall (fun o => bus_client o = c') outs -> c <> c' -> to_client c outs = [].
Proof.
  intros HF Hne. apply filter_none. eapply Forall_impl; [done|].
  simpl. congruence.
Qed.

Section for_each.
Context `{DdopApi}.
Variable body : Z -> ClientState -> ClientState * list bus_out.

(** A body that only addresses its own client. *)
Definition own_messages : Prop :=
  forall c st, Forall (fun o => bus_client o = c) (body c st).2.

Lemma for_each_steps_spec (ks : list Z) m outs :
  own_messages -> NoDup ks ->
  forall c,
    (foldl (for_each_step body) (m, outs) ks).1 !! c =
      (if decide (c ∈ ks) then (fun st => (body c st).1) <$> m !! c else m !! c) /\
    to_client c (foldl (for_each_step body) (m, outs) ks).2 =
      to_client c outs ++
      (if decide (c ∈ ks)
       then match m !! c with Some st => (body c st).2 | None => [] end else []).
Proof.
  intros Hown. revert m outs. induction ks as [|k ks IH]; intros m outs Hnd c.
  { simpl. by rewrite app_nil_r. }
  apply NoDup_cons in Hnd as [Hk Hnd]. simpl.
  assert (Hdec : forall A (x y : A), (if decide (c ∈ k :: ks) then x else y) =
            if decide (c = k) then x else if decide (c ∈ ks) then x else y).
  { intros A x y. repeat case_decide; set_solver. }
  rewrite !Hdec. unfold for_each_step at 2 4. simpl.
  destruct (m !! k) as [st|] eqn:Em.
  - destruct (body k st) as [st' o] eqn:Eb.
    destruct (IH (<[k:=st']> m) (outs ++ o) Hnd c) as [-> ->].
    pose proof (Hown k st) as Hf. rewrite Eb in Hf. simpl in Hf.
    rewrite to_client_app. destruct (decide (c = k)) as [->|Hne].
    + destruct (decide (k ∈ ks)); [done|].
      rewrite lookup_insert_eq, Em, (to_client_all k o) by done.
      simpl. by rewrite Eb, app_nil_r.
    + by rewrite lookup_insert_ne, (to_client_none c k o), app_nil_r by done.
  - destruct (IH m outs Hnd c) as [-> ->].
    destruct (decide (c = k)) as [->|Hne]; [|done].
    destruct (decide (k ∈ ks)); [done|]. by rewrite Em.
Qed.

(** The loop over the clients treats each client on its own. *)
Lemma for_each_client_spec (srv : MyTCServer) (c : Z) :
  own_messages ->
  clients (for_each_client body srv).1 !! c =
    (fun st => (body c st).1) <$> clients srv !! c /\
  to_client c (for_each_client body srv).2 =
    match clients srv !! c with Some st => (body c st).2 | None => [] end /\
  uploadedPools (for_each_client body srv).1 = uploadedPools srv.
Proof.
  intros Hown. unfold for_each_client.
  assert (Hnd : NoDup (client_order (clients srv))).
  { unfold client_order. rewrite merge_sort_Permutation. apply NoDup_elements. }
  assert (Hin : c ∈ client_order (clients srv) <-> is_Some (clients srv !! c)).
  { unfold client_order. rewrite merge_sort_Permutation, elem_of_elements.
    apply elem_of_dom. }
  destruct (for_each_steps_spec _ (clients srv) [] Hown Hnd c) as [H1 H2].
  destruct (foldl _ _ _) as [m outs]. simpl in *. rewrite H1, H2.
  destruct (decide (c ∈ client_order (clients srv))) as [Hc|Hc].
  - rewrite Hin in Hc. destruct Hc as [st ->]. done.
  - rewrite Hin in Hc. apply eq_None_not_Some in Hc as ->. done.
Qed.
End for_each.

Section facts.
Context `{DdopApi} `{DdiCodes}.

(** *** Who receives what *)

Lemma own_send_setpoint_work_state c st :
  Forall (fun o => bus_client o = c) (send_setpoint_work_state c st).2.
Proof. unfold send_setpoint_work_state. case_match; repeat constructor. Qed.

Lemma own_per_element_loop c d off st l :
  Forall (fun o => bus_client o = c) (per_element_loop c d off st l).
Proof.
  induction l as [|i l IH]; simpl; [constructor|].
  repeat case_match; repeat constructor; done.
Qed.

Lemma own_send_section_setpoint_states c off st :
  Forall (fun o => bus_client o = c) (send_section_setpoint_states c off st).2.
Proof.
  unfold send_section_setpoint_states.
  pose proof (own_send_setpoint_work_state c st) as Hw.
  destruct (send_setpoint_work_state c st) as [st' o]. simpl in Hw.
  assert (forall d e v, Forall (fun o => bus_client o = c) [send_set_value c d e v])
    by (repeat constructor).
  repeat case_match; cbn [fst snd]; rewrite ?Forall_cons, ?Forall_app;
    auto using own_per_element_loop.
Qed.

Lemma own_update_section_step c ss acc i :
  Forall (fun o => bus_client o = c) acc.2 ->
  Forall (fun o => bus_client o = c) (update_section_step c ss acc i).2.
Proof.
  intros Ho. unfold update_section_step.
  assert (Forall (fun o => bus_client o = c) (flush_previous_block c i acc).2) as Hf.
  { destruct acc as [[st req] outs]. unfold flush_previous_block.
    destruct (_ && req); [|done].
    pose proof (own_send_section_setpoint_states c
      (u8 (i / NUMBER_SECTIONS_PER_CONDENSED_MESSAGE - 1)) st) as Hs.
    destruct (send_section_setpoint_states c _ st). by apply Forall_app_2. }
  destruct (flush_previous_block c i acc) as [[st req] outs]. unfold follow_demand.
  destruct (zlookup ss i); [|done]. by destruct (Bool.eqb _ _).
Qed.

Lemma own_update_client_section_states ss :
  own_messages (update_client_section_states ss).
Proof.
  intros c st. unfold update_client_section_states.
  destruct (negb _); [by constructor|]. destruct (_ =? 0); [by constructor|].
  destruct (foldl _ _ _) as [[st' req] outs] eqn:E.
  assert (Forall (fun o => bus_client o = c) outs) as Ho.
  { change outs with (st', req, outs).2. rewrite <- E.
    apply (foldl_ind (fun acc => Forall (fun o => bus_client o = c) acc.2));
      [by constructor|]. eauto using own_update_section_step. }
  destruct req; [|done].
  pose proof (own_send_section_setpoint_states c
    (u8 ((get_number_of_sections st' - 1) / NUMBER_SECTIONS_PER_CONDENSED_MESSAGE)) st')
    as Hs.
  destruct (send_section_setpoint_states _ _ _). cbn [snd] in *.
  by apply Forall_app_2.
Qed.

Lemma own_update_client_section_control_enabled b :
  own_messages (update_client_section_control_enabled b).
Proof.
  intros c st. unfold update_client_section_control_enabled, send_section_control_state.
  simpl. repeat case_match; repeat constructor.
Qed.

Lemma own_send_client_gnss_quality q : own_messages (send_client_gnss_quality q).
Proof.
  intros c st. unfold send_client_gnss_quality. simpl. case_match; repeat constructor.
Qed.
End facts.
