(* ===== verification/Setpoints.v ===== *)
(** * Section setpoints: packing, unpacking and updating

    The condensed messages carry sixteen sections in two bits each.
    [on_value_command] unpacks what a client reports,
    [send_section_setpoint_states] packs what the client should do, and
    [update_section_states] brings a client's setpoints in line with the
    demand of AgOpenGPS, sending every block of sixteen sections that
    changed, once, with its final contents. *)

From S2P Require Import Prelude Ddop Hierarchy ClientState TcServer ServerFacts.

Section packing.
Context `{DdopApi} `{DdiCodes}.
Implicit Types (st : ClientState).

Lemma get_section_setpoint_state_range st s :
  wf st -> 0 <= s -> is_section_state (get_section_setpoint_state s st).
Proof.
  intros [] Hs. unfold get_section_setpoint_state, is_section_state.
  destruct (Z.ltb_spec s (numberOfSections st)); [|unfold NOT_INSTALLED; lia].
  destruct (zlookup (sectionSetpointStates st) s) as [x|] eqn:E; simpl; [|lia].
  destruct (Forall_zlookup _ _ _ _ wf_setpoint_states E); unfold OFF, ON in *; lia.
Qed.

Lemma condensed_setpoint_value_pack off st :
  condensed_setpoint_value off st =
  pack_pairs (fun i => get_section_setpoint_state (u8 (off + i)) st).
Proof.
  unfold condensed_setpoint_value, condensed_setpoint_step, pack_pairs,
    NUMBER_SECTIONS_PER_CONDENSED_MESSAGE. reflexivity.
Qed.

Lemma bit_pair_condensed_setpoint_value st k j :
  wf st -> 0 <= k < 16 -> 0 <= j < 16 ->
  bit_pair (condensed_setpoint_value (16 * k) st) j =
  get_section_setpoint_state (16 * k + j) st.
Proof.
  intros Hwf Hk Hj. rewrite condensed_setpoint_value_pack, bit_pair_pack; [|..|lia].
  - by rewrite u8_id by width.
  - intros i Hi. apply get_section_setpoint_state_range; [done|width].
Qed.

(** *** Unpacking a report *)

(** After [i] rounds of the unpacking loop. *)
Definition unpacked k v e n st i st' : Prop :=
  wf st' /\ numberOfSections st' = n /\
  sectionSetpointStates st' = sectionSetpointStates st /\
  elementWorkStates st' = elementWorkStates st /\
  isSectionControlEnabled st' = isSectionControlEnabled st /\
  forall s, 0 <= s < n ->
    let written := (16 * k <=? s) && (s <? 16 * k + i) in
    zlookup (sectionActualStates st') s =
      (if written then Some (bit_pair v (s - 16 * k))
       else zlookup (sectionActualStates st) s) /\
    zlookup (sectionToElementNumber st') s =
      (if written then Some e else zlookup (sectionToElementNumber st) s).

Lemma condensed_section_step_unpacked k v e st i st' :
  0 <= k < 16 -> 0 <= i < 16 -> is_u16 e ->
  unpacked k v e (numberOfSections st) st i st' ->
  unpacked k v e (numberOfSections st) st (i + 1)
    (condensed_section_step (16 * k) e v st' i).
Proof.
  intros Hk Hi He (Hwf & Hn & Hsp & Hew & Hen & Hs).
  unfold condensed_section_step. fold (bit_pair v i).
  pose proof (bit_pair_range v i) as Hb.
  rewrite (u8_id (bit_pair v i)), (u8_id (i + 16 * k)) by width.
  assert (Hw1 : wf (set_section_actual_state (i + 16 * k) (bit_pair v i) st')) by auto with aog.
  split; [apply wf_set_element_number_for_section; [done|lia|done]|].
  unfold set_element_number_for_section, set_section_actual_state in *.
  destruct Hwf. rewrite Hn in *.
  destruct (Z.ltb_spec (i + 16 * k) (numberOfSections st)) as [Hlt|Hge]; simpl;
    rewrite ?Hn, ?wf_element_length.
  - rewrite (proj2 (Z.ltb_lt _ _) Hlt). simpl. split_and!; try done.
    intros s Hsn. specialize (Hs s Hsn) as [Ha Hel]. simpl in *.
    destruct (decide (s = i + 16 * k)) as [->|Hne].
    + rewrite !zlookup_insert_eq by lia.
      replace (i + 16 * k - 16 * k) with i by lia. by bool_cases; try lia.
    + rewrite !zlookup_insert_ne, Ha, Hel by lia. by bool_cases; try lia.
  - rewrite (proj2 (Z.ltb_ge _ _) Hge). simpl. split_and!; try done.
    intros s Hsn. specialize (Hs s Hsn) as [Ha Hel]. simpl in *.
    rewrite Ha, Hel. by bool_cases; try lia.
Qed.

Lemma on_condensed_work_state_unpacked st k e v :
  wf st -> 0 <= k < 16 -> is_u16 e ->
  unpacked k v e (numberOfSections st) st 16
    (on_condensed_work_state (ActualCondensedWorkState1_16 + k) e v st).
Proof.
  intros Hwf Hk He. unfold on_condensed_work_state.
  replace (u8 _) with (16 * k).
  2:{ unfold NUMBER_SECTIONS_PER_CONDENSED_MESSAGE, ActualCondensedWorkState1_16. width. }
  apply (for_loop_ind (fun i st' => unpacked k v e (numberOfSections st) st i st'));
    [done| |].
  - split_and!; try done. intros s Hs. by bool_cases; simpl; try lia.
  - intros i st' Hi. by apply condensed_section_step_unpacked.
Qed.

(** A report on DDI 161 + k sets exactly the sections [16k .. 16k+15] the
    client has, section [16k + j] to bits [2j, 2j+1] of the value, and binds
    them to the reporting element. *)
Theorem condensed_report_unpacked (st : ClientState) (k e v s : Z)
    (Hwf : wf st) (Hk : 0 <= k < 16) (He : is_u16 e)
    (Hs : 0 <= s < numberOfSections st) :
  let st' := on_condensed_work_state (ActualCondensedWorkState1_16 + k) e v st in
  wf st' /\ numberOfSections st' = numberOfSections st /\
  sectionSetpointStates st' = sectionSetpointStates st /\
  zlookup (sectionActualStates st') s =
    (if (16 * k <=? s) && (s <? 16 * k + 16)
     then Some (bit_pair v (s - 16 * k)) else zlookup (sectionActualStates st) s) /\
  get_element_number_for_section s st' =
    (if (16 * k <=? s) && (s <? 16 * k + 16)
     then e else get_element_number_for_section s st).
Proof.
  destruct (on_condensed_work_state_unpacked st k e v Hwf Hk He)
    as (Hwf' & Hn & Hsp & _ & _ & Hall).
  destruct (Hall s Hs) as [Ha He']. split_and!; try done.
  unfold get_element_number_for_section.
  rewrite (wf_element_length _ Hwf'), (wf_element_length _ Hwf), Hn, He'.
  rewrite !(proj2 (Z.ltb_lt _ _) (proj2 Hs)). simpl. by destruct (_ && _).
Qed.

(** C22: packing a client's setpoints into a condensed message and unpacking
    that 32-bit value as a report reproduces the setpoints of the block. *)
Theorem condensed_roundtrip (st peer : ClientState) (k e s : Z)
    (Hwf : wf st) (Hpeer : wf peer) (Hk : 0 <= k < 16) (He : is_u16 e)
    (Hn : numberOfSections peer = numberOfSections st)
    (Hs : 16 * k <= s < 16 * k + 16) (Hsn : s < numberOfSections st) :
  zlookup (sectionActualStates
    (on_condensed_work_state (ActualCondensedWorkState1_16 + k) e
       (i32 (condensed_setpoint_value (16 * k) st)) peer)) s =
  Some (get_section_setpoint_state s st).
Proof.
  destruct (on_condensed_work_state_unpacked peer k e
    (i32 (condensed_setpoint_value (16 * k) st)) Hpeer Hk He)
    as (_ & _ & _ & _ & _ & Hall).
  destruct (Hall s ltac:(lia)) as [-> _].
  destruct (Z.leb_spec (16 * k) s), (Z.ltb_spec s (16 * k + 16)); try lia. simpl.
  rewrite bit_pair_i32, bit_pair_condensed_setpoint_value by (done || lia).
  do 2 f_equal. lia.
Qed.
End packing.

(** ** Following the demand *)

#[local] Create HintDb variant.

Section demand.
Context `{DdopApi} `{DdiCodes}.
Implicit Types (st : ClientState) (ss : list bool).

(** What AgOpenGPS wants section [i] to be; sections it does not mention
    keep their setpoint. *)
Definition demanded ss (i cur : Z) : Z :=
  match zlookup ss i with
  | Some true => ON
  | Some false => OFF
  | None => cur
  end.

(** The client with every setpoint as demanded. *)
Definition apply_demand ss st : ClientState :=
  with_sectionSetpointStates
    (imap (fun i cur => demanded ss (Z.of_nat i) cur) (sectionSetpointStates st)) st.

Definition section_changed ss st (i : Z) : bool :=
  negb (demanded ss i (get_section_setpoint_state i st) =?
        get_section_setpoint_state i st).

(** Some section of block [b] has to change. *)
Definition block_changed ss st (b : Z) : bool :=
  existsb (section_changed ss st)
    (seqZ (16 * b) (Z.min 16 (numberOfSections st - 16 * b))).

Definition number_of_blocks st : Z := (numberOfSections st + 15) / 16.

(** Messages other than DDI 289, the overall work state. *)
Definition section_messages (outs : list bus_out) : list bus_out :=
  filter (fun o => bus_ddi o <> SetpointWorkState) outs.

(** *** What one block sends *)

(** The sections of block [b] that a per-element client is told about. *)
Definition per_element_messages (c : Z) st (b : Z) : list bus_out :=
  omap (fun s =>
          let e := get_element_number_for_section s st in
          if e =? 0 then None
          else Some (send_set_value c (get_per_element_setpoint_ddi st) e
                       (if get_section_setpoint_state s st =? ON then 1 else 0)))
    (seqZ (16 * b) (Z.min 16 (numberOfSections st - 16 * b))).

Lemma per_element_loop_omap c b st (k : nat) (i : Z) :
  0 <= b -> 0 <= i -> 16 * b + i + Z.of_nat k <= 256 ->
  per_element_loop c (get_per_element_setpoint_ddi st) (16 * b) st (seqZ i (Z.of_nat k)) =
  omap (fun s =>
          let e := get_element_number_for_section s st in
          if e =? 0 then None
          else Some (send_set_value c (get_per_element_setpoint_ddi st) e
                       (if get_section_setpoint_state s st =? ON then 1 else 0)))
    (seqZ (16 * b + i) (Z.min (Z.of_nat k) (numberOfSections st - 16 * b - i))).
Proof.
  revert i. induction k as [|k IH]; intros i Hb Hi Hle.
  { rewrite seqZ_nil by lia. by rewrite seqZ_nil by lia. }
  rewrite (seqZ_cons i) by lia. cbn [per_element_loop].
  rewrite (u8_id (16 * b + i)) by width. unfold get_number_of_sections.
  destruct (Z.leb_spec (numberOfSections st) (16 * b + i)).
  { by rewrite seqZ_nil by lia. }
  rewrite (seqZ_cons (16 * b + i)) by lia.
  replace (Z.pred (Z.of_nat (S k))) with (Z.of_nat k) by lia.
  rewrite IH by lia. cbn [omap list_omap].
  replace (Z.succ (16 * b + i)) with (16 * b + Z.succ i) by lia.
  replace (Z.pred (Z.min (Z.of_nat (S k)) (numberOfSections st - 16 * b - i)))
    with (Z.min (Z.of_nat k) (numberOfSections st - 16 * b - Z.succ i)) by lia.
  by destruct (get_element_number_for_section (16 * b + i) st =? 0).
Qed.

(** The sections of block [b], to the condensed setpoint DDI when the client
    has it, else to the condensed actual DDI provided it is settable, else one
    message per section element, else none. *)
Definition section_block (c : Z) st (b : Z) : list bus_out :=
  let modern := SetpointCondensedWorkState1_16 + b in
  let legacy := ActualCondensedWorkState1_16 + b in
  let value := condensed_setpoint_value (16 * b) st in
  if has_element_number_for_ddi modern st
  then [send_set_value c modern (get_element_number_for_ddi modern st) value]
  else if has_element_number_for_ddi legacy st
  then (if is_ddi_settable legacy st
        then [send_set_value c legacy (get_element_number_for_ddi legacy st) value]
        else [])
  else if uses_per_element_control st then per_element_messages c st b
  else [].

(** A legacy block is not followed by DDI 289. *)
Definition carries_work_state st (b : Z) : bool :=
  has_element_number_for_ddi (SetpointCondensedWorkState1_16 + b) st ||
  (negb (has_element_number_for_ddi (ActualCondensedWorkState1_16 + b) st) &&
   uses_per_element_control st).

Lemma send_section_setpoint_states_spec c b st :
  0 <= b < 16 ->
  send_section_setpoint_states c b st =
    let r := if carries_work_state st b then send_setpoint_work_state c st else (st, []) in
    (r.1, section_block c st b ++ r.2).
Proof.
  intros Hb. unfold send_section_setpoint_states, section_block, carries_work_state,
    NUMBER_SECTIONS_PER_CONDENSED_MESSAGE.
  replace (u8 (b * 16)) with (16 * b) by width.
  rewrite (u16_id (SetpointCondensedWorkState1_16 + b)),
    (u16_id (ActualCondensedWorkState1_16 + b)) by
    (unfold SetpointCondensedWorkState1_16, ActualCondensedWorkState1_16; width).
  pose proof (per_element_loop_omap c b st 16 0 ltac:(lia) ltac:(lia) ltac:(lia)) as Hloop.
  change (Z.of_nat 16) with 16 in Hloop. rewrite Z.add_0_r, Z.sub_0_r in Hloop.
  fold (per_element_messages c st b) in Hloop. cbv zeta. rewrite Hloop.
  destruct (send_setpoint_work_state c st) as [st' o].
  by repeat case_match.
Qed.

Definition block_messages (c : Z) st (b : Z) : list bus_out :=
  section_messages (send_section_setpoint_states c b st).2.

(** Two states that differ in the setpoints and the overall state only. *)
Definition setpoint_variant (w : bool) (l : list Z) st : ClientState :=
  with_setpointWorkState w (with_sectionSetpointStates l st).

Section variant.
Context (w : bool) (l : list Z) (st : ClientState).

Lemma variant_number : numberOfSections (setpoint_variant w l st) = numberOfSections st.
Proof. done. Qed.
Lemma variant_has d :
  has_element_number_for_ddi d (setpoint_variant w l st) =
  has_element_number_for_ddi d st.
Proof. done. Qed.
Lemma variant_element d :
  get_element_number_for_ddi d (setpoint_variant w l st) =
  get_element_number_for_ddi d st.
Proof. done. Qed.
Lemma variant_settable d :
  is_ddi_settable d (setpoint_variant w l st) = is_ddi_settable d st.
Proof. done. Qed.
Lemma variant_per_element :
  uses_per_element_control (setpoint_variant w l st) = uses_per_element_control st.
Proof. done. Qed.
Lemma variant_per_element_ddi :
  get_per_element_setpoint_ddi (setpoint_variant w l st) =
  get_per_element_setpoint_ddi st.
Proof. done. Qed.
End variant.

Hint Rewrite variant_number variant_has variant_element variant_settable
  variant_per_element variant_per_element_ddi : variant.

Lemma section_messages_app o1 o2 :
  section_messages (o1 ++ o2) = section_messages o1 ++ section_messages o2.
Proof. apply filter_app. Qed.

Lemma section_messages_work_state c st :
  section_messages (send_setpoint_work_state c st).2 = [].
Proof.
  apply filter_none. unfold send_setpoint_work_state.
  case_match; repeat constructor. simpl. auto.
Qed.

Lemma block_messages_section_block c st b :
  0 <= b < 16 -> block_messages c st b = section_messages (section_block c st b).
Proof.
  intros Hb. unfold block_messages. rewrite send_section_setpoint_states_spec by done.
  cbn [snd]. rewrite section_messages_app.
  destruct (carries_work_state st b); [rewrite section_messages_work_state|]; apply app_nil_r.
Qed.

(** The messages on the sections of a block depend on these only. *)
Lemma section_block_ext c b w l w' l' st :
  0 <= b < 16 ->
  (forall s, 16 * b <= s < 16 * b + 16 ->
     get_section_setpoint_state s (setpoint_variant w l st) =
     get_section_setpoint_state s (setpoint_variant w' l' st)) ->
  section_block c (setpoint_variant w l st) b = section_block c (setpoint_variant w' l' st) b.
Proof.
  intros Hb Heq. unfold section_block. autorewrite with variant.
  rewrite !condensed_setpoint_value_pack.
  rewrite (pack_pairs_ext _ (fun i => get_section_setpoint_state (u8 (16 * b + i))
    (setpoint_variant w' l' st))) by (intros i Hi; rewrite u8_id by width; apply Heq; lia).
  replace (per_element_messages c (setpoint_variant w l st) b)
    with (per_element_messages c (setpoint_variant w' l' st) b); [done|].
  unfold per_element_messages. autorewrite with variant.
  apply list_omap_ext, Forall_Forall2_diag, Forall_forall. intros s Hs%elem_of_seqZ.
  change (get_element_number_for_section s (setpoint_variant w' l' st))
    with (get_element_number_for_section s (setpoint_variant w l st)).
  by rewrite Heq by lia.
Qed.

(** *** The section loop *)

Section loop.
Context (ss : list bool) (c : Z) (st0 : ClientState) (Hwf : wf st0).
Let n := numberOfSections st0.
Let old (j : Z) := get_section_setpoint_state j st0.
Let new (j : Z) := demanded ss j (old j).

(** Whether a section is on once the first [m] are as demanded. *)
Definition any_on (m : Z) : bool :=
  existsb (fun j => (if j <? m then new j else old j) =? ON) (seqZ 0 n).

(** Block [b] when the client was last told [w] as overall work state: its
    sections as demanded, and DDI 289 if it has changed by then. *)
Definition tell_block (w : bool) (b : Z) : bool * list bus_out :=
  let any := any_on (16 * b + 16) in
  let sections := section_block c (apply_demand ss st0) b in
  if carries_work_state st0 b && has_element_number_for_ddi SetpointWorkState st0 &&
     negb (Bool.eqb w any)
  then (any, sections ++ [send_set_value c SetpointWorkState
                            (get_element_number_for_ddi SetpointWorkState st0)
                            (if any then 1 else 0)])
  else (w, sections).

Definition tell_next (acc : bool * list bus_out) (b : Z) : bool * list bus_out :=
  let r := tell_block acc.1 b in (r.1, acc.2 ++ r.2).

(** What the client is told on the first [cb] blocks: the overall work state
    in the end, and the messages. *)
Definition told_blocks (cb : Z) : bool * list bus_out :=
  foldl tell_next (setpointWorkState st0, [])
    (filter (fun b => block_changed ss st0 b = true) (seqZ 0 cb)).

(** Sections below [i] are done and the blocks below [cb] are sent. *)
Definition progress (cb i : Z) (acc : ClientState * bool * list bus_out) : Prop :=
  exists w l,
    acc.1.1 = setpoint_variant w l st0 /\ zlength l = n /\
    (forall j, 0 <= j < n -> zlookup l j = Some (if j <? i then new j else old j)) /\
    acc.1.2 = existsb (section_changed ss st0) (seqZ (16 * cb) (i - 16 * cb)) /\
    (w, acc.2) = told_blocks cb.

Lemma old_lookup j : 0 <= j < n -> zlookup (sectionSetpointStates st0) j = Some (old j).
Proof using Hwf.
  intros Hj. unfold old, get_section_setpoint_state. fold n.
  rewrite (proj2 (Z.ltb_lt _ _) (proj2 Hj)).
  destruct (zlookup_is_Some (sectionSetpointStates st0) j) as [x ->]; [|done].
  by rewrite (wf_setpoint_length _ Hwf).
Qed.

Lemma old_on_off j : 0 <= j < n -> old j = OFF \/ old j = ON.
Proof using Hwf.
  intros Hj%old_lookup. by apply (Forall_zlookup _ _ _ _ (wf_setpoint_states _ Hwf)) in Hj.
Qed.

Lemma variant_setpoint w l j :
  get_section_setpoint_state j (setpoint_variant w l st0) =
  if j <? n then default 0 (zlookup l j) else NOT_INSTALLED.
Proof. done. Qed.

Lemma apply_demand_variant :
  apply_demand ss st0 =
  setpoint_variant (setpointWorkState st0)
    (sectionSetpointStates (apply_demand ss st0)) st0.
Proof. done. Qed.

Lemma apply_demand_lookup j :
  0 <= j < n -> zlookup (sectionSetpointStates (apply_demand ss st0)) j = Some (new j).
Proof using Hwf.
  intros Hj. pose proof (old_lookup j Hj) as Ho. unfold zlookup in *.
  simpl. rewrite list_lookup_imap, Ho. simpl. unfold new. by rewrite Z2Nat.id by lia.
Qed.

Lemma told_blocks_snoc cb :
  0 <= cb ->
  told_blocks (cb + 1) = if block_changed ss st0 cb then tell_next (told_blocks cb) cb else told_blocks cb.
Proof.
  intros. unfold told_blocks. rewrite seqZ_snoc, filter_app, foldl_app, Z.add_0_l by lia.
  rewrite filter_cons, filter_nil.
  destruct (block_changed ss st0 cb);
    [by rewrite decide_True by done|by rewrite decide_False by done].
Qed.

Lemma any_section_on_any_on i w l :
  zlength l = n ->
  (forall j, 0 <= j < n -> zlookup l j = Some (if j <? i then new j else old j)) ->
  is_any_section_setpoint_on (setpoint_variant w l st0) = any_on i.
Proof.
  intros Hlen Hl. unfold is_any_section_setpoint_on, any_on. cbn [sectionSetpointStates].
  change (existsb (fun state => state =? ON) l = any_on i).
  assert (l = (fun j => if j <? i then new j else old j) <$> seqZ 0 n) as ->.
  { apply list_eq. intros k. rewrite list_lookup_fmap.
    destruct (decide (Z.of_nat k < n)) as [Hk|Hk].
    - specialize (Hl (Z.of_nat k) ltac:(lia)). unfold zlookup in Hl. rewrite Nat2Z.id in Hl.
      by rewrite Hl, lookup_seqZ_lt by lia.
    - unfold zlength in Hlen. rewrite lookup_ge_None_2, lookup_seqZ_ge by lia. done. }
  clear Hl Hlen. unfold any_on.
  induction (seqZ 0 n) as [|j js IH]; [done|]. cbn [fmap list_fmap existsb]. by f_equal.
Qed.

Lemma any_on_all i m : n <= i -> n <= m -> any_on i = any_on m.
Proof.
  intros Hi Hm. unfold any_on. apply existsb_ext_in. intros j Hj%elem_of_seqZ.
  by rewrite !(proj2 (Z.ltb_lt _ _)) by lia.
Qed.

(** Sending block [cb] once all its sections are done. *)
Lemma flush_block cb i w l outs :
  0 <= cb < 16 -> Z.min n (16 * cb + 16) <= i <= 16 * cb + 16 ->
  zlength l = n ->
  (forall j, 0 <= j < n -> zlookup l j = Some (if j <? i then new j else old j)) ->
  (w, outs) = told_blocks cb ->
  block_changed ss st0 cb = true ->
  let r := send_section_setpoint_states c cb (setpoint_variant w l st0) in
  exists w', r.1 = setpoint_variant w' l st0 /\ (w', outs ++ r.2) = told_blocks (cb + 1).
Proof using Hwf.
  intros Hcb Hi Hlen Hl Ho Hch. cbv zeta.
  rewrite told_blocks_snoc, Hch, <- Ho, send_section_setpoint_states_spec by lia.
  unfold tell_next, tell_block. cbn [fst snd].
  replace (section_block c (setpoint_variant w l st0) cb)
    with (section_block c (apply_demand ss st0) cb).
  2:{ rewrite apply_demand_variant. apply section_block_ext; [done|]. intros s Hs.
      rewrite !variant_setpoint. destruct (Z.ltb_spec s n); [|done].
      rewrite Hl, apply_demand_lookup by lia. by destruct (Z.ltb_spec s i); [|lia]. }
  change (carries_work_state (setpoint_variant w l st0) cb) with (carries_work_state st0 cb).
  destruct (carries_work_state st0 cb); cbn [andb fst snd];
    [|exists w; by rewrite app_nil_r].
  unfold send_setpoint_work_state. rewrite (any_section_on_any_on i w l Hlen Hl).
  replace (any_on i) with (any_on (16 * cb + 16)).
  2:{ destruct (decide (i = 16 * cb + 16)) as [->|]; [done|apply any_on_all; lia]. }
  change (get_setpoint_work_state (setpoint_variant w l st0)) with w.
  rewrite variant_has, variant_element, andb_comm.
  destruct (has_element_number_for_ddi SetpointWorkState st0 && _); cbn [fst snd];
    eexists; (split; [reflexivity|]); by rewrite ?app_nil_r.
Qed.

(** Entering section [i], the blocks before [i / 16] are complete. *)
Lemma flush_previous_block_progress i acc :
  0 <= i < n ->
  progress (Z.max 0 (i - 1) / 16) i acc ->
  progress (i / 16) i (flush_previous_block c i acc).
Proof using Hwf.
  intros Hi. destruct acc as [[st req] outs].
  intros (w & l & Hst & Hlen & Hl & Hreq & Ho). cbn [fst snd] in *.
  pose proof (wf_number _ Hwf) as Hn8. fold n in Hn8. unfold is_u8 in Hn8.
  unfold flush_previous_block, NUMBER_SECTIONS_PER_CONDENSED_MESSAGE.
  destruct (Z.eqb_spec (i mod 16) 0) as [Hm|Hm]; cbn [andb]; last first.
  { replace (Z.max 0 (i - 1) / 16) with (i / 16) in * by
      (Z.div_mod_to_equations; lia). by exists w, l. }
  destruct (decide (i = 0)) as [->|Hi0].
  { change (existsb _ _) with false in Hreq. subst req. by exists w, l. }
  set (b := i / 16 - 1). assert (Hib : i = 16 * b + 16) by
    (subst b; Z.div_mod_to_equations; lia).
  replace (Z.max 0 (i - 1) / 16) with b in * by (Z.div_mod_to_equations; lia).
  replace (i / 16) with (b + 1) by lia.
  assert (Hbc : req = block_changed ss st0 b).
  { rewrite Hreq. unfold block_changed. f_equal. f_equal. fold n. lia. }
  destruct req; last first.
  { exists w, l. cbn [fst snd]. split_and!; try done.
    - by replace (i - 16 * (b + 1)) with 0 by lia.
    - rewrite told_blocks_snoc, <- Hbc by lia. done. }
  rewrite (u8_id b) by width. subst st.
  destruct (flush_block b i w l outs ltac:(lia) ltac:(lia) Hlen Hl Ho (eq_sym Hbc)) as (w' & Hw' & Hf).
  destruct (send_section_setpoint_states c b _) as [st' outs']. cbn [fst snd] in *.
  exists w', l. cbn [fst snd]. split_and!; try done.
  by replace (i - 16 * (b + 1)) with 0 by lia.
Qed.

(** Section [i] is done when its entry is the demanded one. *)
Lemma progress_section i w l outs req :
  0 <= i < n -> zlength l = n ->
  (forall j, 0 <= j < n -> zlookup l j = Some (if j <? i + 1 then new j else old j)) ->
  (w, outs) = told_blocks (i / 16) ->
  req = existsb (section_changed ss st0) (seqZ (16 * (i / 16)) (i - 16 * (i / 16)))
        || section_changed ss st0 i ->
  progress (i / 16) (i + 1) (setpoint_variant w l st0, req, outs).
Proof using Hwf.
  intros Hi Hlen Hl Ho Hreq. exists w, l. cbn [fst snd]. split_and!; try done.
  replace (i + 1 - 16 * (i / 16)) with (i - 16 * (i / 16) + 1) by lia.
  rewrite existsb_seqZ_snoc by (Z.div_mod_to_equations; lia).
  rewrite Hreq. do 2 f_equal. lia.
Qed.

Lemma section_unchanged i : new i = old i -> section_changed ss st0 i = false.
Proof.
  intros Heq. unfold section_changed. fold (old i). fold (new i).
  by rewrite Heq, Z.eqb_refl.
Qed.

Lemma follow_demand_progress i acc :
  0 <= i < n ->
  progress (i / 16) i acc -> progress (i / 16) (i + 1) (follow_demand ss i acc).
Proof using Hwf.
  intros Hi. destruct acc as [[st req] outs].
  intros (w & l & Hst & Hlen & Hl & Hreq & Ho). cbn [fst snd] in *. subst st.
  assert (Hcur : get_section_setpoint_state i (setpoint_variant w l st0) = old i).
  { rewrite variant_setpoint, (proj2 (Z.ltb_lt _ _) (proj2 Hi)), Hl by lia.
    by rewrite Z.ltb_irrefl. }
  assert (Hkeep : new i = old i ->
    progress (i / 16) (i + 1) (setpoint_variant w l st0, req, outs)).
  { intros Heq. apply progress_section; try done.
    - intros j Hj. rewrite Hl by done.
      destruct (decide (j = i)) as [->|]; [rewrite Heq|]; bool_cases; done || lia.
    - by rewrite section_unchanged, orb_false_r. }
  unfold follow_demand. rewrite Hcur.
  destruct (zlookup ss i) as [d|] eqn:Ed;
    [|apply Hkeep; unfold new, demanded; by rewrite Ed].
  assert (Hnew : new i = if d then ON else OFF)
    by (unfold new, demanded; by rewrite Ed; destruct d).
  destruct (Bool.eqb d (old i =? ON)) eqn:Eq.
  - apply Hkeep. rewrite Hnew. apply eqb_prop in Eq.
    destruct (old_on_off i Hi) as [Hv|Hv]; rewrite Hv in *; by subst d.
  - assert (Hch : section_changed ss st0 i = true).
    { unfold section_changed. fold (old i). fold (new i). rewrite Hnew.
      destruct (old_on_off i Hi) as [Hv|Hv]; rewrite Hv in *; by destruct d. }
    unfold set_section_setpoint_state. rewrite variant_number. fold n.
    rewrite (proj2 (Z.ltb_lt _ _) (proj2 Hi)).
    apply (progress_section i w (zinsert i (if d then ON else OFF) l)); try done.
    + by rewrite zlength_insert.
    + intros j Hj. destruct (decide (j = i)) as [->|Hne].
      * rewrite zlookup_insert_eq by lia. rewrite <- Hnew. by bool_cases; try lia.
      * rewrite zlookup_insert_ne, Hl by lia. bool_cases; done || lia.
    + by rewrite Hch, orb_true_r.
Qed.

Lemma progress_init : progress (Z.max 0 (0 - 1) / 16) 0 (st0, false, []).
Proof using Hwf.
  exists (setpointWorkState st0), (sectionSetpointStates st0). cbn [fst snd].
  split_and!; [by destruct st0|apply (wf_setpoint_length _ Hwf)| |done|done].
  intros j Hj. rewrite old_lookup by done. bool_cases; done || lia.
Qed.

Lemma section_loop_progress :
  progress (Z.max 0 (n - 1) / 16) n
    (foldl (update_section_step c ss) (st0, false, []) (seqZ 0 n)).
Proof using Hwf.
  pose proof (wf_number _ Hwf) as Hn8. fold n in Hn8. unfold is_u8 in Hn8.
  apply (for_loop_ind (fun i acc => progress (Z.max 0 (i - 1) / 16) i acc));
    [lia|apply progress_init|].
  - intros i acc Hi Hp. unfold update_section_step.
    replace (Z.max 0 (i + 1 - 1)) with i by lia.
    auto using follow_demand_progress, flush_previous_block_progress.
Qed.
End loop.

Lemma get_section_setpoint_state_apply_demand ss st i :
  wf st -> 0 <= i < numberOfSections st ->
  get_section_setpoint_state i (apply_demand ss st) =
  demanded ss i (get_section_setpoint_state i st).
Proof.
  intros Hwf Hi. rewrite (apply_demand_variant ss st), variant_setpoint.
  rewrite (proj2 (Z.ltb_lt _ _) (proj2 Hi)), apply_demand_lookup by done. done.
Qed.

Lemma number_of_blocks_pos st :
  0 < numberOfSections st -> number_of_blocks st = (numberOfSections st - 1) / 16 + 1.
Proof. unfold number_of_blocks. intros. Z.div_mod_to_equations. lia. Qed.

(** The messages due on the sections of the first [cb] blocks. *)
Definition due_messages ss (c : Z) st (cb : Z) : list bus_out :=
  concat (block_messages c (apply_demand ss st) <$>
          filter (fun b => block_changed ss st b = true) (seqZ 0 cb)).

Lemma section_messages_told ss c st cb :
  0 <= cb <= 16 -> section_messages (told_blocks ss c st cb).2 = due_messages ss c st cb.
Proof.
  intros Hcb. unfold told_blocks, due_messages.
  assert (Hin : forall b, b ∈ filter (fun b => block_changed ss st b = true) (seqZ 0 cb) ->
    0 <= b < 16) by (intros b [_ Hb%elem_of_seqZ]%list_elem_of_filter; lia).
  induction (filter _ _) as [|b bs IH] using rev_ind; [done|].
  rewrite foldl_snoc, fmap_app, concat_app. cbn [fmap list_fmap concat]. rewrite app_nil_r.
  rewrite <- IH by (intros; apply Hin; set_solver). clear IH.
  destruct (foldl _ _ bs) as [w outs]. unfold tell_next. cbn [fst snd].
  rewrite section_messages_app.
  f_equal. rewrite block_messages_section_block by (apply Hin; set_solver).
  unfold tell_block. destruct (_ && _ && _); cbn [snd]; [|done].
  by rewrite section_messages_app, app_nil_r.
Qed.

(** The last block is sent after the loop. *)
Lemma update_client_section_states_told ss c st :
  wf st -> is_section_control_enabled st = true -> 0 < numberOfSections st ->
  let r := update_client_section_states ss c st in
  let t := told_blocks ss c st (number_of_blocks st) in
  r.1 = setpoint_variant t.1 (sectionSetpointStates (apply_demand ss st)) st /\ r.2 = t.2.
Proof.
  intros Hwf Hen Hpos. unfold update_client_section_states. rewrite Hen. cbn [negb].
  unfold get_number_of_sections. set (n := numberOfSections st) in *.
  pose proof (wf_number _ Hwf) as Hn8. fold n in Hn8. unfold is_u8 in Hn8.
  destruct (section_loop_progress ss c st Hwf) as (w & l & Hst & Hlen & Hl & Hreq & Ho).
  fold n in Hst, Hlen, Hl, Hreq, Ho.
  assert (l = sectionSetpointStates (apply_demand ss st)) as Hall.
  { apply list_eq. intros j. destruct (decide (Z.of_nat j < n)) as [Hj|Hj].
    - pose proof (Hl (Z.of_nat j) ltac:(lia)) as Hlj.
      pose proof (apply_demand_lookup ss st Hwf (Z.of_nat j) ltac:(fold n; lia)) as Ha.
      unfold zlookup in *. rewrite Nat2Z.id in *. rewrite Hlj, Ha.
      by rewrite (proj2 (Z.ltb_lt _ _) Hj).
    - pose proof (wf_setpoint_length _ Hwf) as Hw. unfold zlength in *. fold n in Hw.
      rewrite !lookup_ge_None_2; [done| |lia].
      simpl. rewrite length_imap. lia. }
  rewrite (proj2 (Z.eqb_neq n 0)) by lia.
  destruct (foldl _ _ _) as [[st' req] outs]. cbn [fst snd] in *. subst st'.
  rewrite number_of_blocks_pos by (fold n; lia). fold n.
  replace (Z.max 0 (n - 1)) with (n - 1) in * by lia.
  assert (Hbc : req = block_changed ss st ((n - 1) / 16)).
  { rewrite Hreq. unfold block_changed. f_equal. f_equal. fold n.
    Z.div_mod_to_equations. lia. }
  rewrite <- Hall. destruct req; cbn [fst snd].
  - rewrite variant_number. fold n. unfold NUMBER_SECTIONS_PER_CONDENSED_MESSAGE.
    rewrite u8_id by width.
    destruct (flush_block ss c st Hwf ((n - 1) / 16) n w l outs
      ltac:(Z.div_mod_to_equations; lia) ltac:(fold n; Z.div_mod_to_equations; lia) Hlen Hl Ho
      (eq_sym Hbc)) as (w' & Hw' & <-).
    destruct (send_section_setpoint_states c _ _) as [st' outs']. by cbn [fst snd] in *.
  - rewrite told_blocks_snoc, <- Hbc, <- Ho by (Z.div_mod_to_equations; lia). done.
Qed.

Lemma update_client_section_states_spec ss c st :
  wf st -> is_section_control_enabled st = true ->
  let r := update_client_section_states ss c st in
  (exists w, r.1 =
     setpoint_variant w (sectionSetpointStates (apply_demand ss st)) st) /\
  section_messages r.2 = due_messages ss c st (number_of_blocks st).
Proof.
  intros Hwf Hen. cbv zeta.
  pose proof (wf_number _ Hwf) as Hn8. unfold is_u8 in Hn8.
  destruct (decide (0 < numberOfSections st)) as [Hpos|Hz].
  - destruct (update_client_section_states_told ss c st Hwf Hen Hpos) as [-> ->].
    split; [by eexists|]. apply section_messages_told.
    unfold number_of_blocks. Z.div_mod_to_equations. lia.
  - assert (Hzero : numberOfSections st = 0) by lia.
    unfold update_client_section_states, get_number_of_sections, number_of_blocks.
    rewrite Hen, Hzero. cbn. split; [|done]. exists (setpointWorkState st).
    pose proof (wf_setpoint_length _ Hwf) as Hl. unfold zlength in Hl.
    assert (Hnil : sectionSetpointStates st = []) by (apply nil_length_inv; lia).
    destruct st; cbn in *. by subst.
Qed.

(** C7: [update_section_states] treats every client separately. A client in
    manual mode or without sections is left alone. For any other client
    every setpoint becomes the demanded one, and the messages are given
    exactly: the blocks of sixteen sections in which a setpoint changed, in
    block order, each packed from the final setpoints and, where the dialect
    of the block has it, followed by DDI 289 when the client has it and the
    overall work state, taken over the sections up to this block as demanded
    and the later ones as they were, differs from the one it was last told;
    that is what the client keeps as its overall work state, and nothing else
    of it changes. *)
Theorem update_section_states_spec (ss : list bool) (srv : MyTCServer) (c : Z)
    (st : ClientState) (Hc : clients srv !! c = Some st) (Hwf : wf st) :
  let r := update_section_states ss srv in
  let t := told_blocks ss c st (number_of_blocks st) in
  if is_section_control_enabled st && (0 <? numberOfSections st) then
    exists st',
      clients r.1 !! c = Some st' /\
      st' = setpoint_variant t.1 (sectionSetpointStates (apply_demand ss st)) st /\
      (forall i, 0 <= i < numberOfSections st ->
         get_section_setpoint_state i st' =
         demanded ss i (get_section_setpoint_state i st)) /\
      to_client c r.2 = t.2 /\
      section_messages (to_client c r.2) =
        concat (block_messages c (apply_demand ss st) <$>
          filter (fun b => block_changed ss st b = true)
            (seqZ 0 (number_of_blocks st)))
  else clients r.1 !! c = Some st /\ to_client c r.2 = [].
Proof.
  destruct (for_each_client_spec (update_client_section_states ss) srv c
    (own_update_client_section_states ss)) as (Hl & Ho & _).
  fold (update_section_states ss srv) in Hl, Ho. cbv zeta. rewrite Hl, Ho, Hc.
  cbn [fmap option_fmap option_map].
  destruct (is_section_control_enabled st) eqn:Hen;
    [|unfold update_client_section_states; by rewrite Hen].
  cbn [andb]. destruct (Z.ltb_spec 0 (numberOfSections st)) as [Hpos|Hz].
  - destruct (update_client_section_states_told ss c st Hwf Hen Hpos) as [Hw Hm].
    destruct (update_client_section_states_spec ss c st Hwf Hen) as [_ Hs].
    exists (update_client_section_states ss c st).1. split_and!; try done.
    intros i Hi. rewrite Hw, <- get_section_setpoint_state_apply_demand by done. done.
  - pose proof (wf_number _ Hwf) as Hn8. unfold is_u8 in Hn8.
    unfold update_client_section_states, get_number_of_sections.
    rewrite Hen. by rewrite (proj2 (Z.eqb_eq _ 0)) by lia.
Qed.

(** *** What one block sends *)

(** The DDI that carries block [b] in condensed form, if any. *)
Definition block_ddi st (b : Z) : option Z :=
  if has_element_number_for_ddi (SetpointCondensedWorkState1_16 + b) st
  then Some (SetpointCondensedWorkState1_16 + b)
  else if has_element_number_for_ddi (ActualCondensedWorkState1_16 + b) st &&
          is_ddi_settable (ActualCondensedWorkState1_16 + b) st
  then Some (ActualCondensedWorkState1_16 + b)
  else None.

Lemma section_block_ddi c st b :
  0 <= b < 16 -> get_per_element_setpoint_ddi st <> SetpointWorkState ->
  block_messages c st b = section_block c st b.
Proof.
  intros Hb Hd. rewrite block_messages_section_block by done. apply filter_all.
  unfold section_block, SetpointCondensedWorkState1_16, ActualCondensedWorkState1_16.
  repeat case_match; repeat constructor; cbn [bus_ddi]; try (unfold SetpointWorkState; lia).
  apply Forall_forall. intros o (s & _ & Hs)%list_elem_of_omap. simpl in Hs.
  destruct (_ =? 0); by simplify_eq.
Qed.

Lemma block_messages_condensed c st b d :
  0 <= b < 16 -> block_ddi st b = Some d ->
  block_messages c st b =
    [send_set_value c d (get_element_number_for_ddi d st) (condensed_setpoint_value (16 * b) st)].
Proof.
  intros Hb. rewrite block_messages_section_block by done. unfold block_ddi, section_block,
    SetpointCondensedWorkState1_16, ActualCondensedWorkState1_16.
  intros Hd. repeat case_match; simplify_eq/=; try done;
    (apply filter_all; repeat constructor; cbn [bus_ddi]; unfold SetpointWorkState; lia).
Qed.

(** Per element, when the client has neither condensed DDI. *)
Lemma block_messages_per_element c st b :
  0 <= b < 16 -> get_per_element_setpoint_ddi st <> SetpointWorkState ->
  has_element_number_for_ddi (SetpointCondensedWorkState1_16 + b) st = false ->
  has_element_number_for_ddi (ActualCondensedWorkState1_16 + b) st = false ->
  uses_per_element_control st = true -> block_messages c st b = per_element_messages c st b.
Proof.
  intros Hb Hd Hm Hl Hp. rewrite section_block_ddi by done. unfold section_block.
  by rewrite Hm, Hl, Hp.
Qed.

(** The branches of [send_section_setpoint_states] for block [b]: the
    condensed setpoint DDI when the client has it, else the condensed actual
    DDI provided it is settable, else one message per section element, else
    nothing. *)
Theorem block_messages_branches (c : Z) (st : ClientState) (b : Z)
    (Hb : 0 <= b < 16) (Hd : get_per_element_setpoint_ddi st <> SetpointWorkState) :
  let modern := SetpointCondensedWorkState1_16 + b in
  let legacy := ActualCondensedWorkState1_16 + b in
  let value := condensed_setpoint_value (16 * b) st in
  block_messages c st b =
  if has_element_number_for_ddi modern st
  then [send_set_value c modern (get_element_number_for_ddi modern st) value]
  else if has_element_number_for_ddi legacy st
  then (if is_ddi_settable legacy st
        then [send_set_value c legacy (get_element_number_for_ddi legacy st) value]
        else [])
  else if uses_per_element_control st then per_element_messages c st b
  else [].
Proof. exact (section_block_ddi c st b Hb Hd). Qed.

(** *** The overall work state *)

(** The value of DDI 289 a client last received, [w] if none. *)
Definition commanded_work_state (w : bool) (outs : list bus_out) : bool :=
  foldl (fun w o =>
           match o with
           | send_set_value _ ddi _ v => if ddi =? SetpointWorkState then v =? 1 else w
           | _ => w
           end) w outs.

Lemma commanded_work_state_app w o1 o2 :
  commanded_work_state w (o1 ++ o2) =
  commanded_work_state (commanded_work_state w o1) o2.
Proof. apply foldl_app. Qed.

(** A client with the condensed setpoint DDI of each block and DDI 289. *)
Definition modern_client st : Prop :=
  has_element_number_for_ddi SetpointWorkState st = true /\
  forall b, 0 <= b < number_of_blocks st ->
    has_element_number_for_ddi (SetpointCondensedWorkState1_16 + b) st = true.

Lemma send_modern_block c b w l st :
  modern_client st -> 0 <= b < number_of_blocks st -> b < 16 ->
  let v := setpoint_variant w l st in
  let r := send_section_setpoint_states c b v in
  r.1 = setpoint_variant (is_any_section_setpoint_on v) l st /\
  commanded_work_state w r.2 = is_any_section_setpoint_on v.
Proof.
  intros [Hm Hall] Hb Hb16 v. unfold send_section_setpoint_states.
  rewrite (u16_id (SetpointCondensedWorkState1_16 + b)) by
    (unfold SetpointCondensedWorkState1_16; width).
  assert (Hh : forall d, has_element_number_for_ddi d v = has_element_number_for_ddi d st)
    by done.
  unfold send_setpoint_work_state. rewrite !Hh, (Hall b Hb), Hm, andb_true_r.
  change (get_setpoint_work_state v) with w.
  assert (Hne : (SetpointCondensedWorkState1_16 + b =? SetpointWorkState) = false)
    by (apply Z.eqb_neq; unfold SetpointCondensedWorkState1_16, SetpointWorkState; lia).
  set (any := is_any_section_setpoint_on v).
  destruct (Bool.eqb w any) eqn:Eq; cbn [negb fst snd].
  - apply eqb_prop in Eq as <-. unfold commanded_work_state. cbn [foldl].
    by rewrite Hne.
  - unfold commanded_work_state. cbn [foldl]. rewrite Hne, Z.eqb_refl.
    by destruct any.
Qed.

Section master_loop.
Context (ss : list bool) (c : Z) (st0 : ClientState) (Hwf : wf st0)
  (Hmodern : modern_client st0).
Let n := numberOfSections st0.

(** The overall work state follows the setpoints unless a block is still
    to be sent, and equals what the client was told. *)
Definition master (i : Z) (acc : ClientState * bool * list bus_out) : Prop :=
  exists w l,
    acc.1.1 = setpoint_variant w l st0 /\
    commanded_work_state (setpointWorkState st0) acc.2 = w /\
    (if existsb (section_changed ss st0) (seqZ 0 i)
     then acc.1.2 = false -> w = is_any_section_setpoint_on acc.1.1
     else acc.1.2 = false /\ acc.2 = []).

Lemma send_master b w l outs :
  0 <= b < number_of_blocks st0 -> b < 16 ->
  commanded_work_state (setpointWorkState st0) outs = w ->
  let r := send_section_setpoint_states c b (setpoint_variant w l st0) in
  exists w', r.1 = setpoint_variant w' l st0 /\
    commanded_work_state (setpointWorkState st0) (outs ++ r.2) = w' /\
    w' = is_any_section_setpoint_on r.1.
Proof using Hmodern.
  intros Hb Hb16 Hw. destruct (send_modern_block c b w l st0 Hmodern Hb Hb16) as [Hs1 Hs2].
  eexists. split_and!; [exact Hs1|by rewrite commanded_work_state_app, Hw, Hs2|].
  by rewrite Hs1.
Qed.

Lemma flush_master i acc :
  0 <= i < n -> master i acc -> master i (flush_previous_block c i acc).
Proof using Hwf Hmodern.
  intros Hi. destruct acc as [[st req] outs]. intros (w & l & Hst & Hw & Hm).
  pose proof (wf_number _ Hwf) as Hn8. fold n in Hn8. unfold is_u8 in Hn8.
  unfold flush_previous_block, NUMBER_SECTIONS_PER_CONDENSED_MESSAGE.
  cbn [fst snd] in *.
  destruct (Z.eqb_spec (i mod 16) 0) as [Hmod|]; cbn [andb]; [|by exists w, l].
  destruct req; [|by exists w, l].
  destruct (existsb _ _) eqn:Ech; [|naive_solver].
  assert (i <> 0) by (intros ->; done).
  rewrite (u8_id (i / 16 - 1)) by (Z.div_mod_to_equations; width).
  destruct (send_master (i / 16 - 1) w l outs) as (w' & Hs1 & Hs2 & Hs3); [|width|done|].
  { rewrite number_of_blocks_pos by (fold n; lia). fold n. Z.div_mod_to_equations. lia. }
  subst st. destruct (send_section_setpoint_states _ _ _) as [st' outs'].
  cbn [fst snd] in *. exists w', l. cbn [fst snd]. rewrite Ech. split_and!; auto.
Qed.

Lemma follow_master i acc :
  0 <= i < n -> progress ss c st0 (i / 16) i acc -> master i acc ->
  master (i + 1) (follow_demand ss i acc).
Proof using Hwf.
  intros Hi (w0 & l0 & Hst0 & _ & Hl & _ & _) (w & l & Hst & Hw & Hm).
  destruct acc as [[st req] outs]. cbn [fst snd] in *.
  assert (Hcur : get_section_setpoint_state i st = get_section_setpoint_state i st0).
  { rewrite Hst0, variant_setpoint. fold n.
    rewrite (proj2 (Z.ltb_lt _ _) (proj2 Hi)), Hl by done.
    by rewrite Z.ltb_irrefl. }
  assert (Hold := old_on_off st0 Hwf i Hi).
  unfold follow_demand. rewrite Hcur.
  assert (Hkeep : section_changed ss st0 i = false -> master (i + 1) (st, req, outs)).
  { intros Hch. exists w, l. cbn [fst snd]. split_and!; try done.
    rewrite existsb_seqZ_snoc, Z.add_0_l, Hch, orb_false_r by lia. done. }
  destruct (zlookup ss i) as [d|] eqn:Ed.
  - destruct (Bool.eqb d (get_section_setpoint_state i st0 =? ON)) eqn:Eq.
    + apply Hkeep, section_unchanged. unfold demanded. rewrite Ed.
      apply eqb_prop in Eq. destruct Hold as [Hv|Hv]; rewrite Hv in *; by subst d.
    + exists w, (if i <? n then zinsert i (if d then ON else OFF) l else l).
      cbn [fst snd]. clear Hst0. subst st. split_and!; [|done|].
      { unfold set_section_setpoint_state. rewrite variant_number. fold n.
        by destruct (i <? n). }
      assert (section_changed ss st0 i = true) as Hch.
      { unfold section_changed, demanded. rewrite Ed.
        destruct Hold as [Hv|Hv]; rewrite Hv in *; by destruct d. }
      by rewrite existsb_seqZ_snoc, Z.add_0_l, Hch, orb_true_r by lia.
  - apply Hkeep, section_unchanged. unfold demanded. by rewrite Ed.
Qed.

Lemma section_loop_master :
  master n (foldl (update_section_step c ss) (st0, false, []) (seqZ 0 n)).
Proof using Hwf Hmodern.
  pose proof (wf_number _ Hwf) as Hn8. fold n in Hn8. unfold is_u8 in Hn8.
  apply (for_loop_ind (fun i acc =>
    progress ss c st0 (Z.max 0 (i - 1) / 16) i acc /\ master i acc)); [lia| |].
  - split; [by apply (progress_init ss c st0)|].
    exists (setpointWorkState st0), (sectionSetpointStates st0).
    split_and!; [by destruct st0|done|done].
  - intros i acc Hi [Hp Hm]. unfold update_section_step.
    replace (Z.max 0 (i + 1 - 1)) with i by lia.
    split; [auto using follow_demand_progress, flush_previous_block_progress|].
    auto using follow_master, flush_master, flush_previous_block_progress.
Qed.
End master_loop.

Lemma update_client_master ss c st :
  wf st -> modern_client st -> is_section_control_enabled st = true ->
  let r := update_client_section_states ss c st in
  if existsb (section_changed ss st) (seqZ 0 (numberOfSections st))
  then commanded_work_state (setpointWorkState st) r.2 =
         is_any_section_setpoint_on r.1 /\
       get_setpoint_work_state r.1 = is_any_section_setpoint_on r.1
  else r.2 = [].
Proof.
  intros Hwf Hmod Hen. unfold update_client_section_states. rewrite Hen. cbn [negb].
  unfold get_number_of_sections. set (n := numberOfSections st).
  pose proof (wf_number _ Hwf) as Hn8. fold n in Hn8. unfold is_u8 in Hn8.
  destruct (section_loop_master ss c st Hwf Hmod) as (w & l & Hst & Hw & Hm).
  fold n in Hst, Hw, Hm.
  destruct (Z.eqb_spec n 0) as [Hz|Hz]; [by rewrite Hz|].
  destruct (foldl _ _ _) as [[st' req] outs]. cbn [fst snd] in *.
  destruct (existsb _ _); [|destruct Hm as [-> ->]; done].
  destruct req; cbn [fst snd]; subst st'.
  - rewrite variant_number. fold n. unfold NUMBER_SECTIONS_PER_CONDENSED_MESSAGE.
    rewrite u8_id by width.
    destruct (send_master c st Hmod ((n - 1) / 16) w l outs) as (w' & Hs1 & Hs2 & Hs3);
      [|width|done|].
    { rewrite number_of_blocks_pos by (fold n; lia). fold n. Z.div_mod_to_equations. lia. }
    destruct (send_section_setpoint_states _ _ _) as [st1 outs1].
    cbn [fst snd] in *. split; [congruence|]. rewrite Hs1 at 1. rewrite <- Hs3. done.
  - specialize (Hm eq_refl). split; [congruence|]. rewrite <- Hm. done.
Qed.

(** C16: for a client with the condensed setpoint DDIs and DDI 289 in automatic
    mode, one call of [update_section_states] that changes some setpoint
    leaves the overall work state the client was last told equal to whether
    any of its section setpoints is on; a call that changes none sends it
    nothing at all. *)
Theorem master_follows_setpoints (ss : list bool) (srv : MyTCServer) (c : Z)
    (st : ClientState) (Hc : clients srv !! c = Some st) (Hwf : wf st)
    (Hmod : modern_client st) (Hen : is_section_control_enabled st = true) :
  let r := update_section_states ss srv in
  exists st', clients r.1 !! c = Some st' /\
  if existsb (section_changed ss st) (seqZ 0 (numberOfSections st))
  then commanded_work_state (get_setpoint_work_state st) (to_client c r.2) =
         is_any_section_setpoint_on st' /\
       get_setpoint_work_state st' = is_any_section_setpoint_on st'
  else to_client c r.2 = [].
Proof.
  destruct (for_each_client_spec (update_client_section_states ss) srv c
    (own_update_client_section_states ss)) as (Hl & Ho & _).
  fold (update_section_states ss srv) in Hl, Ho. simpl. rewrite Hl, Ho, Hc. simpl.
  eexists. split; [done|]. by apply update_client_master.
Qed.
End demand.
