(* ===== verification/Activation.v ===== *)
(** * Uploading and activating a descriptor pool
    (src/task_controller.cpp lines 24-109, 343-580)

    A client uploads its pool in chunks ([store_device_descriptor_object_pool]
    in TcServer.v queues them) and then asks for activation.
    [activate_object_pool] drains the queue through the library's parser,
    saves the pool, derives the sections from the geometry, picks the section
    control method and registers the client, or rejects the pool with an
    error code.

    The file system is an environment: whether [Settings::get_filename_path]
    throws, whether a file exists and whether it can be opened. Files written
    are outputs. Strings are byte lists. *)

From S2P Require Import Prelude Ddop Hierarchy ClientState TcServer.

(** The characters backslash, slash, star, colon, question mark, double
    quote, less than, greater than and bar. *)
Definition invalid_chars : list Z := [92; 47; 42; 58; 63; 34; 60; 62; 124].

Definition sanitize_filename (input : list Z) : list Z :=
  (fun c => if decide (c ∈ invalid_chars) then 95 else c) <$> input.

(** The label up to the first control or non-ASCII character. *)
Fixpoint trim_label (label : list Z) : list Z :=
  match label with
  | [] => []
  | c :: rest => if (c <? 32) || (127 <=? c) then [] else c :: trim_label rest
  end.

(** FNV-1a, 64 bits. *)
Definition fnv1a64 (rawPool : list Z) : Z :=
  foldl (fun hash byte => u64 (Z.lxor hash byte * 1099511628211))
    14695981039346656037 rawPool.

(** Sixteen hexadecimal digits, most significant first. *)
Definition hex16 (hash : Z) : list Z :=
  (fun k => hex_digit (Z.land (Z.shiftr hash (4 * (15 - k))) 15)) <$> seqZ 0 16.

(** The file system, as far as activation can observe it. *)
Record FileSystem := {
  path_throws : list Z -> bool;
  file_exists : list Z -> bool;
  can_open : list Z -> bool
}.

Inductive nvm_out : Type :=
  | write_file (fileName : list Z) (contents : list Z).

Definition received_file_name (clientName : Z) (rawPool : list Z) : list Z :=
  to_string clientName ++ bytes_of_string "/received/" ++ hex16 (fnv1a64 rawPool)
  ++ bytes_of_string ".ddop".

(** Exceptions are caught inside, so this never affects activation. *)
Definition save_received_ddop (fs : FileSystem) (clientName : Z) (rawPool : list Z)
    : list nvm_out :=
  let fileName := received_file_name clientName rawPool in
  if path_throws fs fileName then []
  else if file_exists fs fileName then []
  else if can_open fs fileName then [write_file fileName rawPool]
  else [].

Inductive ObjectPoolActivationError : Type :=
  | ActivationNoErrors
  | ThereAreErrorsInTheDDOP
  | ActivationAnyOtherError.

Inductive ObjectPoolErrorCodes : Type :=
  | PoolNoErrors
  | UnknownObjectReference
  | PoolAnyOtherError.

(** The output parameters of [activate_object_pool]. *)
Record ActivationErrors := {
  activationError : ObjectPoolActivationError;
  objectPoolError : ObjectPoolErrorCodes;
  parentObjectIDOfFaultyObject : Z;
  faultyObjectID : Z
}.

Definition activation_errors `{DdopApi} (a : ObjectPoolActivationError)
    (p : ObjectPoolErrorCodes) : ActivationErrors := {|
  activationError := a;
  objectPoolError := p;
  parentObjectIDOfFaultyObject := NULL_OBJECT_ID;
  faultyObjectID := NULL_OBJECT_ID
|}.

(** The call returns, or an exception of [Settings::get_filename_path]
    leaves it. *)
Inductive activation_result : Type :=
  | Returned (accepted : bool) (errors : ActivationErrors)
  | Threw.

(** The hierarchy Modern > Old > Oldest of section control methods. *)
Inductive SectionControlMethod : Type :=
  | Modern
  | Old
  | Oldest
  | Unsupported.

#[export] Instance SectionControlMethod_eq_dec : EqDecision SectionControlMethod.
Proof. solve_decision. Defined.

Section activation.
Context `{DdopApi} `{DdiCodes}.

(** [static_cast<std::uint8_t>(TaskControllerVersion::SecondEditionDraft)]. *)
Definition SecondEditionDraft : Z := 3.

(** The loop over the uploaded chunks: the pool parsed so far and the flag
    of the last chunk. *)
Fixpoint deserialize_chunks (clientName : Z) (chunks : list (list Z))
    (p : pool) (deserialized : bool) : pool * bool :=
  match chunks with
  | [] => (p, deserialized)
  | binaryPool :: rest =>
      let '(deserialized, p) := deserialize_binary_object_pool binaryPool clientName p in
      deserialize_chunks clientName rest p deserialized
  end.

(** The first device object. *)
Fixpoint find_device (objs : list object) : option object :=
  match objs with
  | [] => None
  | obj :: rest =>
      if decide (get_object_type obj = Device) then Some obj else find_device rest
  end.

Definition ddop_file_name (clientName : Z) (deviceObject : object) : list Z :=
  to_string clientName ++ bytes_of_string "/"
  ++ sanitize_filename (trim_label (get_localization_label deviceObject))
  ++ bytes_of_string ".ddop".

(** The second copy, in the library's own encoding. [None]: the path
    function threw, and nothing here catches it. *)
Definition save_ddop (fs : FileSystem) (clientName : Z) (deviceObject : object)
    (p : pool) : option (list nvm_out) :=
  match generate_binary_object_pool p with
  | None => Some []
  | Some binaryPool =>
      let fileName := ddop_file_name clientName deviceObject in
      if path_throws fs fileName then None
      else if can_open fs fileName then Some [write_file fileName binaryPool]
      else Some []
  end.

Definition section_element_numbers (p : pool) : list Z :=
  section_elementNumber <$> implement_sections (get_implement_geometry p).

(** [numberOfSections] is a [std::uint8_t] incremented per section. *)
Definition count_sections (p : pool) : Z :=
  foldl (fun n _ => u8 (n + 1)) 0 (section_element_numbers p).

Definition map_section_elements (sectionElementNumbers : list Z) (st : ClientState)
    : ClientState :=
  foldl (fun st i =>
           set_element_number_for_section i
             (default 0 (zlookup sectionElementNumbers i)) st)
    st (seqZ 0 (Z.min (numberOfSections st) (zlength sectionElementNumbers))).

Definition has_condensed_setpoint (p : pool) : bool :=
  existsb (fun o => is_setpoint_condensed (get_ddi o))
    (objects_of_type DeviceProcessData p).
Definition has_settable_condensed_actual (p : pool) : bool :=
  existsb (fun o => is_actual_condensed (get_ddi o) && is_settable o)
    (objects_of_type DeviceProcessData p).
Definition has_settable_actual_work_state (p : pool) : bool :=
  existsb (fun o => (get_ddi o =? ActualWorkState) && is_settable o)
    (objects_of_type DeviceProcessData p).

Definition section_control_method (p : pool) : SectionControlMethod :=
  if has_condensed_setpoint p then Modern
  else if has_settable_condensed_actual p then Old
  else if has_settable_actual_work_state p then Oldest
  else Unsupported.

(** Only the oldest method leaves a mark in the client state. *)
Definition configure_section_control (p : pool) (st : ClientState) : ClientState :=
  match section_control_method p with
  | Oldest =>
      set_per_element_setpoint_ddi ActualWorkState
        (set_uses_per_element_control true st)
  | _ => st
  end.

(** The state built from a parsed pool. *)
Definition activated_state (p : pool) : ClientState :=
  let st := build_element_hierarchy (with_cs_pool p new_ClientState) in
  let st := set_number_of_sections (count_sections p) st in
  let st := map_section_elements (section_element_numbers p) st in
  configure_section_control p st.

Definition activate_object_pool (fs : FileSystem) (partnerCF clientName : Z)
    (srv : MyTCServer) : activation_result * MyTCServer * list nvm_out :=
  match uploadedPools srv !! partnerCF with
  | None =>
      (Returned false (activation_errors ActivationAnyOtherError PoolNoErrors), srv, [])
  | Some chunks =>
      let '(p, deserialized) :=
        deserialize_chunks clientName chunks
          (set_task_controller_compatibility_level SecondEditionDraft empty_pool)
          false in
      let srv := with_uploadedPools (<[partnerCF := []]> (uploadedPools srv)) srv in
      let received := save_received_ddop fs clientName (concat chunks) in
      if negb deserialized then
        (Returned false (activation_errors ThereAreErrorsInTheDDOP PoolAnyOtherError),
         srv, received)
      else
        match find_device (pool_objects p) with
        | None =>
            (Returned false
               (activation_errors ThereAreErrorsInTheDDOP UnknownObjectReference),
             srv, received)
        | Some deviceObject =>
            match save_ddop fs clientName deviceObject p with
            | None => (Threw, srv, received)
            | Some saved =>
                (Returned true (activation_errors ActivationNoErrors PoolNoErrors),
                 with_clients (<[partnerCF := activated_state p]> (clients srv)) srv,
                 received ++ saved)
            end
        end
  end.
End activation.
