(* ===== verification/FileNames.v ===== *)
(** * The files a descriptor pool is saved under

    The names are built from the client's NAME, printed in decimal, and from
    the pool: its localization label, cleaned up, or the FNV hash of the
    received bytes. The theorems say that whatever label a device sends, the
    name stays inside the client's own directory. *)

From S2P Require Import Prelude Ddop Hierarchy ClientState TcServer Activation.

Lemma hex_digit_range d : 0 <= d < 16 ->
  48 <= hex_digit d < 58 \/ 97 <= hex_digit d < 103.
Proof. unfold hex_digit. intros. bool_cases; lia. Qed.

Lemma hex_digit_inj d1 d2 :
  0 <= d1 < 16 -> 0 <= d2 < 16 -> hex_digit d1 = hex_digit d2 -> d1 = d2.
Proof. unfold hex_digit. intros ??. bool_cases; lia. Qed.

Lemma nibble_range h k : 0 <= Z.land (Z.shiftr h k) 15 < 16.
Proof.
  change 15 with (Z.ones 4). rewrite Z.land_ones by lia.
  apply Z.mod_pos_bound. lia.
Qed.

Lemma hex16_inj h1 h2 :
  0 <= h1 < 2 ^ 64 -> 0 <= h2 < 2 ^ 64 -> hex16 h1 = hex16 h2 -> h1 = h2.
Proof.
  intros H1 H2 Heq. apply Z.bits_inj'. intros i Hi.
  destruct (Z.ltb_spec i 64) as [Hlt|Hge].
  2: { rewrite <- (Z.mod_small h1 (2 ^ 64)), <- (Z.mod_small h2 (2 ^ 64)) by done.
       by rewrite !Z.mod_pow2_bits_high by lia. }
  set (k := 15 - i / 4). assert (Hk : 0 <= k < 16) by (subst k; Z.div_mod_to_equations; lia).
  assert (Hnib : Z.land (Z.shiftr h1 (4 * (15 - k))) 15 =
                 Z.land (Z.shiftr h2 (4 * (15 - k))) 15).
  { apply hex_digit_inj; try apply nibble_range.
    apply (f_equal (fun l => l !! Z.to_nat k)) in Heq. unfold hex16 in Heq.
    rewrite !list_lookup_fmap, lookup_seqZ_lt in Heq by lia.
    simpl in Heq. rewrite Z2Nat.id in Heq by lia. by simplify_eq. }
  apply (f_equal (fun z => Z.testbit z (i mod 4))) in Hnib.
  rewrite !Z.land_spec, !Z.shiftr_spec in Hnib by (Z.div_mod_to_equations; lia).
  replace (i mod 4 + 4 * (15 - k)) with i in Hnib by (subst k; Z.div_mod_to_equations; lia).
  change 15 with (Z.ones 4) in Hnib.
  rewrite Z.testbit_ones_nonneg in Hnib by (Z.div_mod_to_equations; lia).
  rewrite (proj2 (Z.ltb_lt (i mod 4) 4)) in Hnib by (Z.div_mod_to_equations; lia).
  by rewrite !andb_true_r in Hnib.
Qed.

Lemma fnv1a64_range bytes : 0 <= fnv1a64 bytes < 2 ^ 64.
Proof.
  unfold fnv1a64. apply (foldl_ind (fun h => 0 <= h < 2 ^ 64)); [lia|].
  intros x h _ _. apply Z.mod_pos_bound. lia.
Qed.

Lemma hex16_digits h : Forall (fun c => 48 <= c < 58 \/ 97 <= c < 103) (hex16 h).
Proof.
  apply Forall_fmap, Forall_forall. intros k _. apply hex_digit_range, nibble_range.
Qed.

Lemma sanitize_filename_valid input :
  Forall (fun c => c ∉ invalid_chars) (sanitize_filename input).
Proof.
  apply Forall_fmap, Forall_forall. intros c _. simpl. case_decide; [|done].
  unfold invalid_chars. set_solver by lia.
Qed.

Lemma trim_label_prefix label : trim_label label `prefix_of` label.
Proof.
  induction label as [|c label IH]; simpl; [done|].
  case_match; [apply prefix_nil|by apply prefix_cons].
Qed.

Lemma trim_label_printable label : Forall (fun c => 32 <= c < 127) (trim_label label).
Proof.
  induction label as [|c label IH]; simpl; [constructor|].
  destruct (Z.ltb_spec c 32), (Z.leb_spec 127 c); simpl; constructor; try done; lia.
Qed.

Lemma sanitize_trim_id label :
  Forall (fun c => 32 <= c < 127 /\ c ∉ invalid_chars) label ->
  sanitize_filename (trim_label label) = label.
Proof.
  induction 1 as [|c l [Hc Hv] _ IH]; [done|]. cbn [trim_label].
  destruct (Z.ltb_spec c 32), (Z.leb_spec 127 c); try lia. cbn [orb].
  unfold sanitize_filename in *. rewrite fmap_cons, IH. by rewrite decide_False.
Qed.

(** [std::count]. *)
Definition count_char (c : Z) (s : list Z) : nat := length (filter (fun x => x = c) s).

Lemma count_char_app c s1 s2 :
  count_char c (s1 ++ s2) = (count_char c s1 + count_char c s2)%nat.
Proof. unfold count_char. by rewrite filter_app, length_app. Qed.

Lemma count_char_none c s : Forall (fun x => x <> c) s -> count_char c s = O.
Proof. intros Hs. unfold count_char. by rewrite filter_none. Qed.

Section names.
Context `{DdopApi}.

(** The name [save_ddop] writes to is the client's decimal NAME, one
    slash, printable characters and the extension: whatever the device put
    into its label, the name contains none of the characters invalid in a
    file name beyond that one slash, so the file lies in the client's own
    directory; a label without control or invalid characters is kept. *)
Theorem ddop_file_name_safe (clientName : Z) (o : object) :
  exists dir base,
    ddop_file_name clientName o = dir ++ [47] ++ base ++ bytes_of_string ".ddop" /\
    Forall is_digit dir /\
    Forall (fun c => 32 <= c < 127 /\ c ∉ invalid_chars) base /\
    length base = length (trim_label (get_localization_label o)) /\
    count_char 47 (ddop_file_name clientName o) = 1%nat /\
    (Forall (fun c => 32 <= c < 127 /\ c ∉ invalid_chars) (get_localization_label o) ->
     base = get_localization_label o).
Proof.
  set (base := sanitize_filename (trim_label (get_localization_label o))).
  assert (Hbase : Forall (fun c => 32 <= c < 127 /\ c ∉ invalid_chars) base).
  { apply Forall_and. split; [|apply sanitize_filename_valid].
    apply Forall_fmap. eapply Forall_impl; [apply trim_label_printable|].
    intros c Hc. simpl in *. case_decide; simpl; lia. }
  exists (to_string clientName), base. split_and!; try done.
  - apply to_string_digits.
  - apply length_fmap.
  - unfold ddop_file_name. fold base. rewrite !count_char_app.
    rewrite (count_char_none 47 (to_string clientName)).
    2: { eapply Forall_impl; [apply to_string_digits|]. unfold is_digit. simpl. lia. }
    rewrite (count_char_none 47 base); [done|].
    eapply Forall_impl; [done|]. simpl. intros c [_ Hc] ->. apply Hc.
    unfold invalid_chars. set_solver.
  - intros Hl. by apply sanitize_trim_id.
Qed.
End names.

(** Two received pools of one client share a file exactly when their
    64-bit FNV hashes agree, and the name is safe: the decimal NAME, the
    directory, sixteen hexadecimal digits and the extension. *)
Theorem received_file_name_spec (clientName : Z) (pool1 pool2 : list Z) :
  (received_file_name clientName pool1 = received_file_name clientName pool2 <->
   fnv1a64 pool1 = fnv1a64 pool2) /\
  exists hash, received_file_name clientName pool1 =
    to_string clientName ++ bytes_of_string "/received/" ++ hash ++
    bytes_of_string ".ddop" /\ length hash = 16%nat /\
    Forall (fun c => 48 <= c < 58 \/ 97 <= c < 103) hash.
Proof.
  split.
  - split; [|unfold received_file_name; by intros ->].
    unfold received_file_name. rewrite !(app_assoc (to_string clientName)).
    intros Heq%app_inv_head. apply app_inv_tail in Heq.
    apply hex16_inj; [apply fnv1a64_range..|done].
  - exists (hex16 (fnv1a64 pool1)). split_and!; [done|done|apply hex16_digits].
Qed.
