(* ===== verification/Subscription.v ===== *)
(** * Subscribing to a client's process data

    [request_measurement_commands] walks a freshly activated pool with three
    nested loops. The theorem says what the walk amounts to: which process
    data the server addresses afterwards, at which element, and which
    measurement commands it sends; and that a client is subscribed once. *)

From S2P Require Import Prelude Ddop Hierarchy ClientState TcServer ServerFacts.

Section subscription.
Context `{DdopApi} `{DdiCodes}.
Implicit Types (st : ClientState) (acc : ClientState * list bus_out).

(** The element [el] lists the process data object [pd] among its children. *)
Definition listed_by (p : pool) (pd el : object) : Prop :=
  pd ∈ objects_of_type DeviceProcessData p /\
  el ∈ objects_of_type DeviceElement p /\
  get_object_id pd ∈ get_child_object_ids el.

(** The process data the server remembers an element for. *)
Definition addressed (pd : object) : bool :=
  is_work_state_ddi (get_ddi pd) || is_section_control_ddi (get_ddi pd) ||
  ((get_ddi pd =? GNSSQuality) && is_settable pd).

(** The commands that subscribe to [pd] at [el]. *)
Definition subscription (c : Z) (pd el : object) (o : bus_out) : Prop :=
  let ddi := get_ddi pd in
  let e := get_element_number el in
  (has_trigger_method pd OnChange = true /\
   (is_work_state_ddi ddi = true \/ is_section_control_ddi ddi = true) /\
   o = send_change_threshold_measurement_command c ddi e 1) \/
  (has_trigger_method pd TimeInterval = true /\ is_work_state_ddi ddi = true /\
   o = send_time_interval_measurement_command c ddi e 1000).

(** [acc] turns into [acc'] by entries for references in [R] and the
    commands [msgs] of these references. *)
Definition subscribed (R : object -> object -> Prop)
    (msgs : object -> object -> list bus_out) acc acc' : Prop :=
  exists m, acc'.1 = with_ddiToElementNumber m acc.1 /\
  (forall d, is_Some (m !! d) <->
     is_Some (ddiToElementNumber acc.1 !! d) \/
     exists pd el, R pd el /\ get_ddi pd = d) /\
  (forall d e, m !! d = Some e ->
     ddiToElementNumber acc.1 !! d = Some e \/
     exists pd el, R pd el /\ get_ddi pd = d /\ get_element_number el = e) /\
  (forall o, o ∈ acc'.2 <->
     o ∈ acc.2 \/ exists pd el, R pd el /\ o ∈ msgs pd el).

Lemma subscribed_refl msgs acc : subscribed (fun _ _ => False) msgs acc acc.
Proof.
  exists (ddiToElementNumber acc.1). split_and!; try naive_solver.
  by destruct acc as [[] ?].
Qed.

Lemma subscribed_trans msgs R1 R2 acc acc1 acc2 :
  subscribed R1 msgs acc acc1 -> subscribed R2 msgs acc1 acc2 ->
  subscribed (fun pd el => R1 pd el \/ R2 pd el) msgs acc acc2.
Proof.
  intros (m1 & Hst1 & Hd1 & He1 & Ho1) (m2 & Hst2 & Hd2 & He2 & Ho2).
  exists m2. rewrite Hst1 in Hd2, He2. cbn [ddiToElementNumber with_ddiToElementNumber] in *.
  split_and!.
  - rewrite Hst2, Hst1. done.
  - intros d. rewrite Hd2, Hd1. naive_solver.
  - intros d e [He|?]%He2; [apply He1 in He|]; naive_solver.
  - intros o. rewrite Ho2, Ho1. naive_solver.
Qed.

Lemma subscribed_ext msgs (R1 R2 : object -> object -> Prop) acc acc' :
  (forall pd el, R1 pd el <-> R2 pd el) ->
  subscribed R1 msgs acc acc' -> subscribed R2 msgs acc acc'.
Proof.
  intros HR (m & Hst & Hd & He & Ho). exists m. split_and!; [done|..].
  - intros d. rewrite Hd. by setoid_rewrite HR.
  - intros d e Hm%He. by setoid_rewrite <- HR.
  - intros o. rewrite Ho. by setoid_rewrite HR.
Qed.

Lemma subscribed_foldl {A} msgs (body : ClientState * list bus_out -> A ->
    ClientState * list bus_out) (R : A -> object -> object -> Prop) (l : list A) acc :
  (forall acc x, x ∈ l -> subscribed (R x) msgs acc (body acc x)) ->
  subscribed (fun pd el => exists x, x ∈ l /\ R x pd el) msgs acc (foldl body acc l).
Proof.
  revert acc. induction l as [|x l IH]; intros acc Hb; simpl.
  - eapply subscribed_ext; [|apply subscribed_refl]. set_solver.
  - eapply subscribed_ext; [|eapply subscribed_trans;
      [apply Hb; left|apply IH; intros; apply Hb; by right]].
    intros pd el. set_solver.
Qed.

(** The innermost body, for either set of commands. *)
Lemma subscribed_child msgs pd el acc (child : Z) :
  subscribed (fun pd' el' => pd' = pd /\ el' = el /\ child = get_object_id pd) msgs acc
    (if child =? get_object_id pd
     then (set_element_number_for_ddi (get_ddi pd) (get_element_number el) acc.1,
           acc.2 ++ msgs pd el)
     else acc).
Proof.
  destruct (Z.eqb_spec child (get_object_id pd)) as [Heq|Hne].
  - exists (<[get_ddi pd := get_element_number el]> (ddiToElementNumber acc.1)).
    cbn [fst snd]. split_and!; [done|..].
    + intros d. destruct (decide (get_ddi pd = d)) as [<-|].
      * rewrite lookup_insert_eq. naive_solver.
      * rewrite lookup_insert_ne by done. naive_solver.
    + intros d e. destruct (decide (get_ddi pd = d)) as [<-|].
      * rewrite lookup_insert_eq. naive_solver.
      * rewrite lookup_insert_ne by done. naive_solver.
    + intros o. rewrite elem_of_app. naive_solver.
  - eapply subscribed_ext; [|apply subscribed_refl]. naive_solver.
Qed.

Definition work_state_commands (c : Z) (pd el : object) : list bus_out :=
  (if has_trigger_method pd OnChange
   then [send_change_threshold_measurement_command c (get_ddi pd) (get_element_number el) 1]
   else []) ++
  (if has_trigger_method pd TimeInterval
   then [send_time_interval_measurement_command c (get_ddi pd) (get_element_number el) 1000]
   else []).

Definition section_control_commands (c : Z) (pd el : object) : list bus_out :=
  if has_trigger_method pd OnChange
  then [send_change_threshold_measurement_command c (get_ddi pd) (get_element_number el) 1]
  else [].

Lemma subscribed_for_each_child msgs body p pd acc :
  (forall el acc child, body el acc child =
     if child =? get_object_id pd
     then (set_element_number_for_ddi (get_ddi pd) (get_element_number el) acc.1,
           acc.2 ++ msgs pd el)
     else acc) ->
  subscribed (fun pd' el => pd' = pd /\ el ∈ objects_of_type DeviceElement p /\
                get_object_id pd ∈ get_child_object_ids el)
    msgs acc (for_each_child body p acc).
Proof.
  intros Hbody. unfold for_each_child. eapply subscribed_ext.
  2: { apply (subscribed_foldl msgs _ (fun el pd' el' => pd' = pd /\ el' = el /\
         get_object_id pd ∈ get_child_object_ids el)). intros acc' el Hel.
       eapply subscribed_ext.
       2: { apply (subscribed_foldl msgs _ (fun child pd' el' => pd' = pd /\ el' = el /\
              child = get_object_id pd)). intros acc2 child _. rewrite Hbody.
            apply subscribed_child. }
       naive_solver. }
  naive_solver.
Qed.

(** One of the two outer loops over the process data. *)
Lemma subscribed_loop msgs (wanted : Z -> bool) body step p acc :
  (forall acc pd, step acc pd =
     if wanted (get_ddi pd) then for_each_child (body pd) p acc else acc) ->
  (forall pd el acc child, body pd el acc child =
     if child =? get_object_id pd
     then (set_element_number_for_ddi (get_ddi pd) (get_element_number el) acc.1,
           acc.2 ++ msgs pd el)
     else acc) ->
  subscribed (fun pd el => listed_by p pd el /\ wanted (get_ddi pd) = true) msgs acc
    (foldl step acc (objects_of_type DeviceProcessData p)).
Proof.
  intros Hstep Hbody. eapply subscribed_ext.
  2: { apply (subscribed_foldl msgs _ (fun x pd el => pd = x /\
         wanted (get_ddi x) = true /\ el ∈ objects_of_type DeviceElement p /\
         get_object_id x ∈ get_child_object_ids el)).
       intros acc' pd _. rewrite Hstep. destruct (wanted (get_ddi pd)) eqn:Ew.
       - eapply subscribed_ext; [|by apply (subscribed_for_each_child msgs)]. naive_solver.
       - eapply subscribed_ext; [|apply subscribed_refl]. naive_solver. }
  unfold listed_by. naive_solver.
Qed.

(** *** GNSS quality *)

Lemma find_owning_element_loop_Some pd objs e :
  find_owning_element_loop pd objs = Some e ->
  exists el, el ∈ filter (fun o => get_object_type o = DeviceElement) objs /\
    get_object_id pd ∈ get_child_object_ids el /\ get_element_number el = e.
Proof.
  induction objs as [|o objs IH]; simpl; [done|]. rewrite filter_cons.
  case_decide; [|done]. destruct (existsb _ _) eqn:E.
  - intros [= <-]. apply existsb_exists in E as (x & Hx & ->%Z.eqb_eq).
    exists o. split_and!; [left|by apply list_elem_of_In|done].
  - intros (el & ? & ? & ?)%IH. exists el. split_and!; [by right|done|done].
Qed.

Lemma find_owning_element_loop_None pd objs :
  find_owning_element_loop pd objs = None ->
  forall el, el ∈ filter (fun o => get_object_type o = DeviceElement) objs ->
    get_object_id pd ∉ get_child_object_ids el.
Proof.
  induction objs as [|o objs IH]; simpl; [set_solver|]. rewrite filter_cons.
  case_decide; [|done]. destruct (existsb _ _) eqn:E; [done|].
  intros Hf el [->|Hel]%elem_of_cons; [|by apply IH]. intros Hin.
  assert (existsb (fun childId => childId =? get_object_id pd)
    (get_child_object_ids o) = true) as Ht; [|congruence].
  apply existsb_exists. exists (get_object_id pd).
  split; [by apply list_elem_of_In|apply Z.eqb_refl].
Qed.

Lemma subscribed_map_gnss_quality p acc pd :
  pd ∈ objects_of_type DeviceProcessData p ->
  subscribed (fun pd' el => pd' = pd /\ listed_by p pd el /\
                get_ddi pd = GNSSQuality /\ is_settable pd = true)
    (fun _ _ => []) acc (map_gnss_quality p acc.1 pd, acc.2).
Proof.
  intros Hpd. unfold map_gnss_quality.
  assert (Hnone : (forall el, ~ (listed_by p pd el /\ get_ddi pd = GNSSQuality /\
                                 is_settable pd = true)) ->
    subscribed (fun pd' el => pd' = pd /\ listed_by p pd el /\
                  get_ddi pd = GNSSQuality /\ is_settable pd = true)
      (fun _ _ => []) acc (acc.1, acc.2)).
  { intros Hno. destruct acc. eapply subscribed_ext; [|apply subscribed_refl]. naive_solver. }
  destruct (Z.eqb_spec (get_ddi pd) GNSSQuality) as [Hd|]; simpl; [|naive_solver].
  destruct (is_settable pd) eqn:Es; simpl; [|naive_solver].
  unfold find_owning_element_number.
  destruct (find_owning_element_loop pd (pool_objects p)) as [e|] eqn:Ef.
  - apply find_owning_element_loop_Some in Ef as (el & Hel & Hc & He).
    exists (<[GNSSQuality := e]> (ddiToElementNumber acc.1)).
    split_and!; [done| | |set_solver]; intros d;
      destruct (decide (GNSSQuality = d)) as [<-|];
      rewrite ?lookup_insert_eq, ?lookup_insert_ne by done; try naive_solver.
    + split; [|eauto]. intros _. right. exists pd, el. by unfold listed_by.
    + intros e' [= <-]. right. exists pd, el. by unfold listed_by.
  - apply Hnone. intros el ((_ & Hel & Hc) & _).
    by apply (find_owning_element_loop_None _ _ Ef el).
Qed.

Lemma foldl_lift {A} (f : ClientState -> A -> ClientState) (l : list A) acc :
  (foldl f acc.1 l, acc.2) = foldl (fun acc x => (f acc.1 x, acc.2)) acc l.
Proof.
  revert acc. induction l as [|x l IH]; intros acc; simpl; [by destruct acc|].
  by rewrite <- IH.
Qed.

Lemma subscribed_gnss p acc :
  subscribed (fun pd el => listed_by p pd el /\
                get_ddi pd = GNSSQuality /\ is_settable pd = true)
    (fun _ _ => []) acc
    (foldl (map_gnss_quality p) acc.1 (objects_of_type DeviceProcessData p), acc.2).
Proof.
  rewrite foldl_lift. eapply subscribed_ext; [|apply subscribed_foldl;
    intros acc' pd Hpd; by apply subscribed_map_gnss_quality].
  intros pd el. unfold listed_by. naive_solver.
Qed.

Lemma addressed_cases p (Q : object -> object -> Prop) :
  (exists pd el, listed_by p pd el /\ addressed pd = true /\ Q pd el) <->
  (exists pd el, (listed_by p pd el /\ is_work_state_ddi (get_ddi pd) = true) /\ Q pd el) \/
  (exists pd el, (listed_by p pd el /\ is_section_control_ddi (get_ddi pd) = true) /\
     Q pd el) \/
  (exists pd el, (listed_by p pd el /\ get_ddi pd = GNSSQuality /\
     is_settable pd = true) /\ Q pd el).
Proof.
  assert (Haddr : forall pd, addressed pd = true <->
    is_work_state_ddi (get_ddi pd) = true \/ is_section_control_ddi (get_ddi pd) = true \/
    (get_ddi pd = GNSSQuality /\ is_settable pd = true)).
  { intros pd. unfold addressed. rewrite !orb_true_iff, andb_true_iff, Z.eqb_eq. tauto. }
  setoid_rewrite Haddr. split.
  - intros (pd & el & Hl & [Ha|[Ha|Ha]] & HQ);
      [left|right; left|right; right]; by exists pd, el.
  - intros [(pd & el & [Hl Ha] & HQ)|[(pd & el & [Hl Ha] & HQ)|(pd & el & [Hl Ha] & HQ)]];
      exists pd, el; tauto.
Qed.

(** *** One client *)

Lemma request_client_spec c st :
  are_measurement_commands_sent st = false -> 0 < numberOfSections st ->
  let r := request_client_measurement_commands c st in
  let p := cs_pool st in
  (exists m, r.1 = mark_measurement_commands_sent (with_ddiToElementNumber m st)) /\
  (forall d, has_element_number_for_ddi d r.1 = true <->
     has_element_number_for_ddi d st = true \/
     exists pd el, listed_by p pd el /\ addressed pd = true /\ get_ddi pd = d) /\
  (forall d, has_element_number_for_ddi d r.1 = true ->
     (has_element_number_for_ddi d st = true /\
      get_element_number_for_ddi d r.1 = get_element_number_for_ddi d st) \/
     exists pd el, listed_by p pd el /\ addressed pd = true /\ get_ddi pd = d /\
       get_element_number_for_ddi d r.1 = get_element_number el) /\
  (forall o, o ∈ r.2 <-> exists pd el, listed_by p pd el /\ subscription c pd el o).
Proof.
  intros Hsent Hn. unfold request_client_measurement_commands, get_number_of_sections.
  rewrite Hsent, (proj2 (Z.ltb_lt 0 _) Hn). cbn [negb andb].
  unfold get_pool. set (p := cs_pool st).
  pose proof (subscribed_loop (work_state_commands c) is_work_state_ddi
    (subscribe_work_state_child c) (subscribe_work_states c p) p (st, [])
    ltac:(done) ltac:(done)) as (m1 & Hs1 & Hd1 & He1 & Ho1).
  set (acc1 := foldl (subscribe_work_states c p) _ _) in *. clearbody acc1.
  pose proof (subscribed_loop (section_control_commands c) is_section_control_ddi
    (subscribe_section_control_child c) (subscribe_section_control c p) p acc1
    ltac:(done) ltac:(done)) as (m2 & Hs2 & Hd2 & He2 & Ho2).
  set (acc2 := foldl (subscribe_section_control c p) _ _) in *. clearbody acc2.
  pose proof (subscribed_gnss p acc2) as (m3 & Hs3 & Hd3 & He3 & _).
  destruct acc1 as [st1 o1], acc2 as [st2 o2]. cbn [fst snd] in *. rewrite Hs3.
  subst st1 st2. cbn [ddiToElementNumber with_ddiToElementNumber] in *.
  unfold has_element_number_for_ddi, get_element_number_for_ddi. setoid_rewrite bool_decide_eq_true.
  cbn. clear Hs3.
  pose proof (fun Q => addressed_cases p Q) as Haddr. split_and!.
  - by exists m3.
  - intros d. rewrite Hd3, Hd2, Hd1, (Haddr (fun pd _ => get_ddi pd = d)). tauto.
  - intros d [e He]. rewrite He. cbn.
    rewrite (Haddr (fun pd el => get_ddi pd = d /\ e = get_element_number el)).
    apply He3 in He as [[[He|He]%He1|He]%He2|He].
    + left. rewrite He. eauto.
    + right. left. naive_solver.
    + right. right. left. naive_solver.
    + right. right. right. naive_solver.
  - intros o. rewrite Ho2, Ho1. unfold work_state_commands, section_control_commands, subscription.
    setoid_rewrite elem_of_app. split.
    + intros [[[]%elem_of_nil|(pd & el & [HR Hw] & [Ho|Ho])]|(pd & el & [HR Hw] & Ho)];
        exists pd, el; (split; [done|]); case_match; set_solver.
    + intros (pd & el & HR & [(Ht & [Hw|Hw] & ->)|(Ht & Hw & ->)]).
      * left. right. exists pd, el. rewrite Ht. set_solver.
      * right. exists pd, el. rewrite Ht. set_solver.
      * left. right. exists pd, el. rewrite Ht. set_solver.
Qed.
Lemma request_client_skipped c st :
  are_measurement_commands_sent st = true \/ numberOfSections st <= 0 ->
  request_client_measurement_commands c st = (st, []).
Proof.
  unfold request_client_measurement_commands, get_number_of_sections.
  intros [->|Hn]; [done|]. rewrite (proj2 (Z.ltb_ge 0 _) Hn). by rewrite andb_false_r.
Qed.

Lemma request_client_cases st :
  (are_measurement_commands_sent st = true \/ numberOfSections st <= 0) \/
  (are_measurement_commands_sent st = false /\ 0 < numberOfSections st).
Proof. destruct (are_measurement_commands_sent st); [tauto|]. lia. Qed.

Lemma own_request_client_measurement_commands :
  own_messages request_client_measurement_commands.
Proof.
  intros c st. destruct (request_client_cases st) as [Hs|[Hs Hn]].
  - rewrite request_client_skipped by done. constructor.
  - destruct (request_client_spec c st Hs Hn) as (_ & _ & _ & Ho).
    apply Forall_forall. intros o (pd & el & _ & [(_ & _ & ->)|(_ & _ & ->)])%Ho; done.
Qed.

Lemma request_client_frame c st :
  exists b m, (request_client_measurement_commands c st).1 =
    with_areMeasurementCommandsSent b (with_ddiToElementNumber m st).
Proof.
  destruct (request_client_cases st) as [Hs|[Hs Hn]].
  - rewrite request_client_skipped by done.
    exists (areMeasurementCommandsSent st), (ddiToElementNumber st). by destruct st.
  - destruct (request_client_spec c st Hs Hn) as ([m Hm] & _). by exists true, m.
Qed.

Lemma request_client_twice c st :
  request_client_measurement_commands c (request_client_measurement_commands c st).1 =
  ((request_client_measurement_commands c st).1, []).
Proof.
  apply request_client_skipped. destruct (request_client_cases st) as [Hs|[Hs Hn]].
  - by rewrite request_client_skipped.
  - left. destruct (request_client_spec c st Hs Hn) as ([m ->] & _). done.
Qed.

(** C20: [request_measurement_commands] subscribes each client that has
    sections and was not subscribed before, exactly once. The server then
    addresses exactly the work-state, section-control and settable GNSS
    quality data that some element of the client's pool lists, each at an
    element listing it; it sends the client exactly the measurement
    commands for these pairs that the trigger methods allow; a repeated
    call sends nothing and changes nothing. *)
Theorem request_measurement_commands_spec (srv : MyTCServer) (c : Z)
    (st : ClientState) (Hc : clients srv !! c = Some st) :
  let r := request_measurement_commands srv in
  let again := request_measurement_commands r.1 in
  (clients again.1 !! c = clients r.1 !! c /\ to_client c again.2 = []) /\
  exists st', clients r.1 !! c = Some st' /\
  if negb (are_measurement_commands_sent st) && (0 <? numberOfSections st) then
    let p := cs_pool st in
    (exists m, st' = mark_measurement_commands_sent (with_ddiToElementNumber m st)) /\
    (forall d, has_element_number_for_ddi d st' = true <->
       has_element_number_for_ddi d st = true \/
       exists pd el, listed_by p pd el /\ addressed pd = true /\ get_ddi pd = d) /\
    (forall d, has_element_number_for_ddi d st' = true ->
       (has_element_number_for_ddi d st = true /\
        get_element_number_for_ddi d st' = get_element_number_for_ddi d st) \/
       exists pd el, listed_by p pd el /\ addressed pd = true /\ get_ddi pd = d /\
         get_element_number_for_ddi d st' = get_element_number el) /\
    (forall o, o ∈ to_client c r.2 <->
       exists pd el, listed_by p pd el /\ subscription c pd el o)
  else st' = st /\ to_client c r.2 = [].
Proof.
  intros r again.
  destruct (for_each_client_spec request_client_measurement_commands srv c
    own_request_client_measurement_commands) as (Hl & Ho & _).
  destruct (for_each_client_spec request_client_measurement_commands r.1 c
    own_request_client_measurement_commands) as (Hl2 & Ho2 & _).
  fold (request_measurement_commands srv) in Hl, Ho.
  fold (request_measurement_commands r.1) in Hl2, Ho2.
  fold r in Hl, Ho. fold again in Hl2, Ho2. clearbody r again.
  rewrite Hc in Hl, Ho. rewrite Hl in *. simpl in *.
  rewrite Hl2, Ho2, request_client_twice. split; [done|]. eexists. split; [done|].
  rewrite Ho. destruct (request_client_cases st) as [Hs|[Hs Hn]].
  - rewrite request_client_skipped by done.
    destruct Hs as [->|Hn]; [done|]. rewrite (proj2 (Z.ltb_ge 0 _) Hn).
    by rewrite andb_false_r.
  - rewrite Hs, (proj2 (Z.ltb_lt 0 _) Hn). by apply request_client_spec.
Qed.
End subscription.
