(* ===== verification/Reports.v ===== *)
(** * What the clients report and what they are told

    [on_value_command] files what a client reports: condensed states,
    automatic mode, work states of single elements. A section's actual state,
    as the heartbeat shows it, combines the reported state with the work
    states of the section's element and that element's ancestors. The two
    remaining broadcasts, automatic mode and GNSS quality, are here too. *)

From S2P Require Import Prelude Ddop Hierarchy ClientState TcServer ServerFacts.
From S2P Require Import Setpoints Subscription.

Section reports.
Context `{DdopApi} `{DdiCodes}.
Implicit Types (st : ClientState) (srv : MyTCServer).

(** [up] is declared as the parent of element [e] in the pool. *)
Definition declared_parent (p : pool) (e up : Z) : Prop :=
  exists obj, obj ∈ pool_objects p /\ get_element_number obj = e /\
              declares_parent p obj up.

Lemma rtc_iff {A} (R S : A -> A -> Prop) x y :
  (forall a b, R a b <-> S a b) -> rtc R x y <-> rtc S x y.
Proof.
  intros HRS. split; induction 1; try constructor; econstructor; try done; by apply HRS.
Qed.

Lemma is_element_or_parent_off_iff st e :
  is_element_or_parent_off e st = true <->
  exists a, rtc (parent_of (elementParents st)) e a /\
            elementWorkStates st !! a = Some false.
Proof.
  unfold is_element_or_parent_off, try_get_element_work_state.
  rewrite any_in_chain_iff. split; intros (a & Ha & Hw); exists a; (split; [done|]).
  - by destruct (elementWorkStates st !! a) as [[]|].
  - by rewrite Hw.
Qed.

(** C23: the actual state of an installed section of a client with condensed
    control is OFF when its element, or an element above it in the
    hierarchy that the pool declares, last reported "not working", and the
    reported state otherwise. Unreported elements do not count as off. A
    client under per-element control shows the reported state alone. *)
Theorem get_section_actual_state_spec st (s : Z) (Hwf : wf st)
    (Hparents : elementParents st = build_parent_map (cs_pool st))
    (Hun : unique_element_numbers (cs_pool st))
    (Hs : 0 <= s < numberOfSections st) :
  let e := get_element_number_for_section s st in
  exists reported,
    zlookup (sectionActualStates st) s = Some reported /\
    ((usesPerElementControl st = false /\
      exists a, rtc (declared_parent (cs_pool st)) e a /\
                elementWorkStates st !! a = Some false) ->
     get_section_actual_state s st = OFF) /\
    ((usesPerElementControl st = true \/
      forall a, rtc (declared_parent (cs_pool st)) e a ->
                elementWorkStates st !! a <> Some false) ->
     get_section_actual_state s st = reported).
Proof.
  intros e. destruct (zlookup_is_Some (sectionActualStates st) s) as [r Hr].
  { by rewrite (wf_actual_length _ Hwf). }
  exists r. split; [done|].
  assert (Hrtc : forall a, rtc (declared_parent (cs_pool st)) e a <->
                           rtc (parent_of (elementParents st)) e a).
  { intros a. apply rtc_iff. intros x y. unfold parent_of. rewrite Hparents.
    by rewrite build_parent_map_lookup. }
  unfold get_section_actual_state. rewrite (proj2 (Z.ltb_lt _ _) (proj2 Hs)), Hr.
  fold e. setoid_rewrite Hrtc. split.
  - intros [-> Hoff]. apply is_element_or_parent_off_iff in Hoff. by rewrite Hoff.
  - intros [->|Hon]; [done|]. destruct (usesPerElementControl st); [done|].
    destruct (is_element_or_parent_off e st) eqn:E; [|done].
    apply is_element_or_parent_off_iff in E as (a & Ha & Hw). by destruct (Hon a).
Qed.

Lemma dispatch_actual_work_state `{!DdiLaws} c e v srv :
  (on_value_command c ActualWorkState e v srv).2 =
  modify_client c (on_actual_work_state e v) srv.
Proof.
  pose proof SectionControlState_fresh as (Hne & _). unfold on_value_command.
  change (is_actual_condensed ActualWorkState) with false.
  destruct (Z.eqb_spec ActualWorkState SectionControlState); [congruence|].
  by rewrite Z.eqb_refl.
Qed.

(** An entry that [operator\[\]] created and no activation filled. *)
Definition empty_client st : Prop :=
  numberOfSections st = 0 /\ ddiToElementNumber st = ∅ /\ cs_pool st = empty_pool /\
  sectionActualStates st = [] /\ sectionSetpointStates st = [].

Lemma empty_new : empty_client new_ClientState.
Proof. done. Qed.

Lemma set_section_actual_state_none s x st :
  numberOfSections st = 0 -> 0 <= s -> set_section_actual_state s x st = st.
Proof.
  intros Hn Hs. unfold set_section_actual_state. rewrite Hn.
  by rewrite (proj2 (Z.ltb_ge _ _) Hs).
Qed.

Lemma empty_condensed d e v st :
  empty_client st -> empty_client (on_condensed_work_state d e v st).
Proof.
  intros Hst. unfold on_condensed_work_state. apply foldl_ind; [done|].
  intros i st' _ Hst'. unfold condensed_section_step.
  set (s := u8 (i + _)). pose proof (u8_range (i + u8
    (NUMBER_SECTIONS_PER_CONDENSED_MESSAGE * u8 (d - ActualCondensedWorkState1_16)))) as Hs.
  fold s in Hs. unfold is_u8 in Hs. pose proof (proj1 Hst') as Hn.
  rewrite set_section_actual_state_none by (done || lia).
  unfold set_element_number_for_section. rewrite Hn.
  by rewrite (proj2 (Z.ltb_ge s 0)) by lia.
Qed.

Lemma empty_actual e v st :
  empty_client st -> elementToSection st = ∅ \/ usesPerElementControl st = false ->
  empty_client (on_actual_work_state e v st).
Proof.
  intros Hst He. unfold on_actual_work_state, uses_per_element_control,
    try_get_section_for_element. simpl.
  destruct He as [->| ->]; [rewrite lookup_empty; by case_match|done].
Qed.

Lemma empty_silent body srv c st :
  own_messages body -> clients srv !! c = Some st -> (body c st).2 = [] ->
  to_client c (for_each_client body srv).2 = [].
Proof.
  intros Hown Hc Hb. destruct (for_each_client_spec body srv c Hown) as (_ & -> & _).
  by rewrite Hc.
Qed.

(** A report of DDI 141 from element [e] is filed as the element's work
    state; under per-element control it also sets the one section bound to
    that element, to ON for the value 1 and OFF for any other, and no other
    section; under condensed control no section changes. Other clients are
    left alone. *)
Theorem actual_work_state_report `{!DdiLaws} (srv : MyTCServer) (c e v : Z)
    (st : ClientState) (Hc : clients srv !! c = Some st) (Hwf : wf st) :
  let srv' := (on_value_command c ActualWorkState e v srv).2 in
  (forall c', c' <> c -> clients srv' !! c' = clients srv !! c') /\
  exists st', clients srv' !! c = Some st' /\
    elementWorkStates st' = <[e := (v =? 1)]> (elementWorkStates st) /\
    numberOfSections st' = numberOfSections st /\
    sectionSetpointStates st' = sectionSetpointStates st /\
    sectionToElementNumber st' = sectionToElementNumber st /\
    forall s, 0 <= s < numberOfSections st ->
      zlookup (sectionActualStates st') s =
      if decide (usesPerElementControl st = true /\ elementToSection st !! e = Some s)
      then Some (if v =? 1 then ON else OFF)
      else zlookup (sectionActualStates st) s.
Proof.
  rewrite dispatch_actual_work_state. intros srv'. split.
  { intros c' Hne. unfold srv'. simpl. by rewrite lookup_insert_ne. }
  exists (on_actual_work_state e v st).
  split; [unfold srv', modify_client, client_ref; simpl; by rewrite Hc, lookup_insert_eq|].
  unfold on_actual_work_state, uses_per_element_control, try_get_section_for_element.
  cbn [set_element_work_state with_elementWorkStates usesPerElementControl elementToSection].
  destruct (usesPerElementControl st) eqn:Ep; last first.
  { split_and!; try done. }
  destruct (elementToSection st !! e) as [s0|] eqn:Ee; last first.
  { split_and!; try done. }
  pose proof (wf_element_sections _ Hwf e s0 Ee) as Hs0. simpl in Hs0.
  unfold set_section_actual_state. cbn [numberOfSections set_element_work_state with_elementWorkStates].
  rewrite (proj2 (Z.ltb_lt _ _) (proj2 Hs0)). split_and!; try done.
  intros s Hs. cbn. destruct (decide (s = s0)) as [->|Hne].
  - rewrite decide_True by done. apply zlookup_insert_eq. by rewrite (wf_actual_length _ Hwf).
  - rewrite decide_False by naive_solver. apply zlookup_insert_ne; lia.
Qed.

Definition handled_ddi (ddi : Z) : bool :=
  is_actual_condensed ddi || (ddi =? SectionControlState) || (ddi =? ActualWorkState).

(** A value from a control function that is not registered, such as one
    that timed out, registers an empty client when its DDI is one the server
    files, and is ignored otherwise. The empty client has no sections and no
    addresses, so none of the broadcasts sends it anything, and no
    subscription is requested from it. *)
Theorem value_from_unknown_client (srv : MyTCServer) (c ddi e v : Z)
    (Hc : clients srv !! c = None) :
  let srv' := (on_value_command c ddi e v srv).2 in
  if handled_ddi ddi then
    (exists st, clients srv' !! c = Some st /\ numberOfSections st = 0 /\
       ddiToElementNumber st = ∅ /\ cs_pool st = empty_pool /\
       sectionActualStates st = [] /\ sectionSetpointStates st = []) /\
    (forall c', c' <> c -> clients srv' !! c' = clients srv !! c') /\
    (forall ss, to_client c (update_section_states ss srv').2 = []) /\
    (forall b, to_client c (update_section_control_enabled b srv').2 = []) /\
    (forall q, to_client c (send_gnss_quality q srv').2 = []) /\
    to_client c (request_measurement_commands srv').2 = []
  else srv' = srv.
Proof.
  intros srv'. destruct (handled_ddi ddi) eqn:Ed; last first.
  { unfold srv', on_value_command, handled_ddi in *. simpl.
    by destruct (is_actual_condensed ddi), (ddi =? SectionControlState),
      (ddi =? ActualWorkState). }
  assert (Hst : exists st, srv' = with_clients (<[c := st]> (clients srv)) srv /\
    empty_client st).
  { unfold srv', on_value_command, modify_client, client_ref. rewrite Hc. simpl.
    unfold handled_ddi in Ed. repeat case_match; try done; eexists; (split; [done|]).
    - apply empty_condensed, empty_new.
    - apply empty_new.
    - apply empty_actual; [apply empty_new|by left]. }
  destruct Hst as (st & -> & Hst). split_and!.
  - exists st. simpl. rewrite lookup_insert_eq. split; [done|]. apply Hst.
  - intros c' Hne. simpl. by rewrite lookup_insert_ne.
  - intros ss. apply empty_silent with st; [apply own_update_client_section_states| |].
    + simpl. apply lookup_insert_eq.
    + unfold update_client_section_states, get_number_of_sections.
      rewrite (proj1 Hst). by destruct (negb _).
  - intros b. apply empty_silent with st; [apply own_update_client_section_control_enabled| |].
    + simpl. apply lookup_insert_eq.
    + destruct Hst as (Hn & Hd & _). unfold update_client_section_control_enabled.
      unfold has_element_number_for_ddi.
      destruct (negb _); simpl; by rewrite Hd, lookup_empty.
  - intros q. apply empty_silent with st; [apply own_send_client_gnss_quality| |].
    + simpl. apply lookup_insert_eq.
    + destruct Hst as (Hn & Hd & _). unfold send_client_gnss_quality, has_element_number_for_ddi.
      by rewrite Hd, lookup_empty.
  - apply empty_silent with st; [apply own_request_client_measurement_commands| |].
    + simpl. apply lookup_insert_eq.
    + rewrite request_client_skipped; [done|]. right. by rewrite (proj1 Hst).
Qed.

(** ** Broadcasts *)

(** Switching automatic mode on or off reaches every registered client:
    each one's local flag takes the value, nothing else of it changes, and
    each client that has sections and the section control DDI is sent the
    value at the element owning that DDI, once. *)
Theorem update_section_control_enabled_spec (srv : MyTCServer) (c : Z) (b : bool)
    (st : ClientState) (Hc : clients srv !! c = Some st) :
  let r := update_section_control_enabled b srv in
  clients r.1 !! c = Some (with_isSectionControlEnabled b st) /\
  to_client c r.2 =
    match ddiToElementNumber st !! SectionControlState with
    | Some e => if 0 <? numberOfSections st
                then [send_set_value c SectionControlState e (if b then 1 else 0)]
                else []
    | None => []
    end.
Proof.
  destruct (for_each_client_spec (update_client_section_control_enabled b) srv c
    (own_update_client_section_control_enabled b)) as (Hl & Ho & _).
  fold (update_section_control_enabled b srv) in Hl, Ho. simpl. rewrite Hl, Ho, Hc.
  assert (Hst : (if negb (Bool.eqb (is_section_control_enabled st) b)
                 then set_section_control_enabled b st else st) =
                with_isSectionControlEnabled b st).
  { destruct (Bool.eqb _ b) eqn:Eb; [|done]. apply eqb_prop in Eb as <-.
    by destruct st. }
  cbn [fmap option_fmap option_map]. unfold update_client_section_control_enabled. rewrite Hst. cbn [fst snd]. split; [done|].
  unfold has_element_number_for_ddi, send_section_control_state,
    get_element_number_for_ddi, get_number_of_sections. simpl.
  by destruct (ddiToElementNumber st !! SectionControlState).
Qed.

(** The GNSS quality goes to exactly the clients whose pool offers it as
    settable data, at the element that owns it, and changes no client. *)
Theorem send_gnss_quality_spec (srv : MyTCServer) (c q : Z) :
  let r := send_gnss_quality q srv in
  clients r.1 !! c = clients srv !! c /\
  to_client c r.2 =
    match clients srv !! c with
    | Some st => match ddiToElementNumber st !! GNSSQuality with
                 | Some e => [send_set_value c GNSSQuality e q]
                 | None => []
                 end
    | None => []
    end.
Proof.
  destruct (for_each_client_spec (send_client_gnss_quality q) srv c
    (own_send_client_gnss_quality q)) as (Hl & Ho & _).
  fold (send_gnss_quality q srv) in Hl, Ho. simpl. rewrite Hl, Ho.
  destruct (clients srv !! c) as [st|]; [|done]. split; [done|].
  unfold send_client_gnss_quality, has_element_number_for_ddi, get_element_number_for_ddi.
  by destruct (ddiToElementNumber st !! GNSSQuality).
Qed.
End reports.
