(* ===== verification/ServerInvariant.v ===== *)
(** * Activation and the invariant of the server

    What a successful activation registers, when it is rejected, and the
    invariant of every state the server can reach through its entry points,
    in any order and from any number of clients: each registered client
    satisfies the class invariant [wf]. *)

From S2P Require Import Prelude Ddop Hierarchy ClientState TcServer ServerFacts.
From S2P Require Import Setpoints Activation Subscription.

Section activated.
Context `{DdopApi} `{DdiCodes}.
Implicit Types (st : ClientState) (p : pool).

Lemma count_sections_length p :
  count_sections p = u8 (zlength (section_element_numbers p)).
Proof.
  unfold count_sections.
  assert (forall l (k : Z), foldl (fun n (_ : Z) => u8 (n + 1)) (u8 k) l = u8 (k + zlength l)) as Hl.
  { induction l as [|x l IH]; intros k; cbn [foldl].
    - f_equal. unfold zlength. simpl. lia.
    - replace (u8 (u8 k + 1)) with (u8 (k + 1)) by width.
      rewrite IH. f_equal. unfold zlength. simpl. lia. }
  apply (Hl (section_element_numbers p) 0).
Qed.

(** After [i] rounds of the mapping loop. *)
Definition mapped (elements : list Z) st0 (i : Z) st : Prop :=
  wf st /\
  (exists v m, st = with_elementToSection m (with_sectionToElementNumber v st0)) /\
  (forall s, 0 <= s < i -> zlookup (sectionToElementNumber st) s = zlookup elements s) /\
  (forall e s, elementToSection st !! e = Some s ->
     0 <= s < i /\ zlookup elements s = Some e) /\
  (forall s e, 0 <= s < i -> zlookup elements s = Some e ->
     is_Some (elementToSection st !! e)).

Lemma map_section_elements_mapped elements st :
  wf st -> elementToSection st = ∅ -> Forall is_u16 elements ->
  let k := Z.min (numberOfSections st) (zlength elements) in
  mapped elements st k (map_section_elements elements st).
Proof.
  intros Hwf Hempty Hu k. unfold map_section_elements. fold k.
  pose proof (wf_number _ Hwf) as Hn. unfold is_u8 in Hn.
  apply (for_loop_ind (mapped elements st)); [unfold k, zlength; lia| |].
  - split_and!; try done; try lia.
    + exists (sectionToElementNumber st), (elementToSection st). by destruct st.
    + intros e s. by rewrite Hempty, lookup_empty.
  - intros i st' Hi (Hwf' & (v & m & Hst) & Hvec & Hrev & Hcov).
    destruct (zlookup_is_Some elements i) as [e He]; [lia|]. rewrite He. simpl.
    assert (Hui : is_u16 e) by (by apply (Forall_zlookup _ _ _ _ Hu He)).
    assert (Hn' : numberOfSections st' = numberOfSections st) by (by rewrite Hst).
    split; [apply wf_set_element_number_for_section; auto; lia|].
    unfold set_element_number_for_section.
    rewrite (wf_element_length _ Hwf'), Hn'.
    rewrite !(proj2 (Z.ltb_lt i _)) by lia. simpl. split_and!.
    + subst st'. by eexists _, _.
    + intros s Hs. destruct (decide (s = i)) as [->|].
      * rewrite zlookup_insert_eq; [done|].
        rewrite (wf_element_length _ Hwf'), Hn'. lia.
      * rewrite zlookup_insert_ne by lia. apply Hvec. lia.
    + intros e' s. destruct (decide (e = e')) as [<-|].
      * rewrite lookup_insert_eq. intros. simplify_eq. split; [lia|done].
      * rewrite lookup_insert_ne by done. intros [? ?]%Hrev. split; [lia|done].
    + intros s e' Hs He'. destruct (decide (e = e')) as [<-|].
      * rewrite lookup_insert_eq. eauto.
      * rewrite lookup_insert_ne by done. apply (Hcov s); [|done].
        destruct (decide (s = i)) as [->|]; [congruence|lia].
Qed.

(** The client before its sections are mapped. *)
Definition unmapped_state p : ClientState :=
  set_number_of_sections (count_sections p)
    (build_element_hierarchy (with_cs_pool p new_ClientState)).

Lemma wf_unmapped_state p : wf (unmapped_state p).
Proof.
  unfold unmapped_state. rewrite count_sections_length.
  apply wf_set_number_of_sections; [|apply u8_range|].
  { apply wf_with_elementParents, wf_with_cs_pool, wf_new. }
  simpl. pose proof (u8_range (zlength (section_element_numbers p))). width.
Qed.

Lemma activated_state_eq p :
  activated_state p = configure_section_control p
    (map_section_elements (section_element_numbers p) (unmapped_state p)).
Proof. done. Qed.

Lemma section_element_numbers_u16 `{!DdopLaws} p :
  Forall is_u16 (section_element_numbers p).
Proof.
  apply Forall_forall. intros e He. unfold section_element_numbers in He.
  apply list_elem_of_fmap in He as (s & -> & Hs). by eapply geometry_sections_u16.
Qed.

Lemma configure_section_control_eq p st :
  exists b d, configure_section_control p st =
    with_perElementSetpointDDI d (with_usesPerElementControl b st) /\
    (b = true <-> (section_control_method p = Oldest \/ usesPerElementControl st = true)).
Proof.
  unfold configure_section_control. destruct (section_control_method p) eqn:E.
  3: { eexists true, _. split; [done|]. naive_solver. }
  all: exists (usesPerElementControl st), (perElementSetpointDDI st).
  all: split; [by destruct st|naive_solver].
Qed.

Lemma activated_state_wf `{!DdopLaws} p : wf (activated_state p).
Proof.
  rewrite activated_state_eq.
  destruct (configure_section_control_eq p (map_section_elements
    (section_element_numbers p) (unmapped_state p))) as (b & d & -> & _).
  apply wf_with_perElementSetpointDDI, wf_with_usesPerElementControl.
  apply map_section_elements_mapped;
    [apply wf_unmapped_state|done|apply section_element_numbers_u16].
Qed.

Lemma mapped_state_frame elements st0 i st :
  mapped elements st0 i st ->
  numberOfSections st = numberOfSections st0 /\ cs_pool st = cs_pool st0 /\
  sectionSetpointStates st = sectionSetpointStates st0 /\
  sectionActualStates st = sectionActualStates st0 /\
  elementParents st = elementParents st0 /\
  isSectionControlEnabled st = isSectionControlEnabled st0 /\
  areMeasurementCommandsSent st = areMeasurementCommandsSent st0 /\
  usesPerElementControl st = usesPerElementControl st0.
Proof. intros (_ & (v & m & ->) & _). done. Qed.

Lemma vec_resize_lookup (n i : Z) :
  0 <= i < n -> zlookup (vec_resize n 0 []) i = Some 0.
Proof.
  intros Hi. unfold zlookup, vec_resize. rewrite resize_nil.
  apply lookup_replicate_2. lia.
Qed.

(** The state that activation builds. *)
Lemma activated_facts `{!DdopLaws} (p : pool) :
  let st := activated_state p in
  let elements := section_element_numbers p in
  wf st /\ numberOfSections st = zlength elements mod 256 /\
  (forall i, 0 <= i < numberOfSections st ->
     zlookup elements i = Some (get_element_number_for_section i st) /\
     is_Some (try_get_section_for_element (get_element_number_for_section i st) st) /\
     get_section_setpoint_state i st = OFF /\
     zlookup (sectionActualStates st) i = Some OFF) /\
  (forall e s, try_get_section_for_element e st = Some s ->
     0 <= s < numberOfSections st /\ zlookup elements s = Some e) /\
  (uses_per_element_control st = true <-> section_control_method p = Oldest) /\
  is_section_control_enabled st = false /\
  are_measurement_commands_sent st = false /\
  elementParents st = build_parent_map p.
Proof.
  intros st elements.
  assert (Hwf : wf st) by apply activated_state_wf.
  pose proof (map_section_elements_mapped elements (unmapped_state p)
    (wf_unmapped_state p) eq_refl (section_element_numbers_u16 p)) as Hmap.
  destruct (configure_section_control_eq p
    (map_section_elements elements (unmapped_state p))) as (b & d & Hst & Hb).
  destruct (mapped_state_frame _ _ _ _ Hmap) as (Hn & _ & Hsp & Hac & Hpar & Hen & Hse & Hpe).
  destruct Hmap as (Hwf0 & _ & Hvec & Hrev & Hcov).
  set (st1 := map_section_elements elements (unmapped_state p)) in *.
  assert (Heq : st = with_perElementSetpointDDI d (with_usesPerElementControl b st1)) by done.
  clearbody st. subst st.
  set (st := with_perElementSetpointDDI d (with_usesPerElementControl b st1)) in *.
  assert (Hnum : numberOfSections (unmapped_state p) = u8 (zlength elements))
    by apply count_sections_length.
  assert (Hmin : Z.min (numberOfSections (unmapped_state p)) (zlength elements) =
                 numberOfSections (unmapped_state p))
    by (rewrite Hnum; pose proof (zlength_nonneg elements); width).
  rewrite Hmin, <- Hn in Hvec, Hrev, Hcov. rewrite <- Hn in Hnum, Hmin. clear Hn.
  assert (Hns : numberOfSections st = numberOfSections st1) by done.
  rewrite Hns. split_and!; try done.
  - intros i Hi. assert (Helt : get_element_number_for_section i st =
      default 0 (zlookup elements i)).
    { unfold get_element_number_for_section.
      rewrite (wf_element_length _ Hwf), Hns, (proj2 (Z.ltb_lt i _)) by lia.
      cbn [andb]. rewrite <- Hvec by done. done. }
    destruct (zlookup_is_Some elements i) as [e He]; [lia|].
    rewrite Helt, He. simpl. split_and!; try done.
    + by apply (Hcov i).
    + unfold get_section_setpoint_state. rewrite Hns, (proj2 (Z.ltb_lt i _)) by lia.
      change (sectionSetpointStates st) with (sectionSetpointStates st1). rewrite Hsp.
      simpl. rewrite vec_resize_lookup; [done|].
      rewrite count_sections_length. fold elements. by rewrite <- Hnum.
    + change (sectionActualStates st) with (sectionActualStates st1). rewrite Hac.
      simpl. rewrite vec_resize_lookup; [done|].
      rewrite count_sections_length. fold elements. by rewrite <- Hnum.
  - simpl. rewrite Hb, Hpe. simpl. naive_solver.
Qed.

Lemma activated_frame `{!DdopLaws} (p : pool) :
  cs_pool (activated_state p) = p /\ ddiToElementNumber (activated_state p) = ∅ /\
  elementWorkStates (activated_state p) = ∅ /\
  (section_control_method p = Oldest ->
     perElementSetpointDDI (activated_state p) = ActualWorkState).
Proof.
  rewrite activated_state_eq.
  destruct (map_section_elements_mapped (section_element_numbers p) (unmapped_state p)
    (wf_unmapped_state p) eq_refl (section_element_numbers_u16 p)) as (_ & (v & m & ->) & _).
  unfold configure_section_control. by destruct (section_control_method p).
Qed.

(** *** The section control method *)

(** The pool has a process data object with a DDI from [first] to [last],
    which may be set if that is asked. *)
Definition offers p (first last : Z) (settable : bool) : Prop :=
  exists pd, pd ∈ pool_objects p /\ get_object_type pd = DeviceProcessData /\
    first <= get_ddi pd <= last /\ (settable = true -> is_settable pd = true).

Lemma offers_existsb p first last settable (test : object -> bool) :
  (forall pd, test pd = true <->
     first <= get_ddi pd <= last /\ (settable = true -> is_settable pd = true)) ->
  existsb test (objects_of_type DeviceProcessData p) = true <-> offers p first last settable.
Proof.
  intros Ht. rewrite existsb_exists. unfold offers, objects_of_type. split.
  - intros (pd & Hin%list_elem_of_In & Hpd%Ht). apply list_elem_of_filter in Hin as [Hty Hin].
    exists pd. tauto.
  - intros (pd & Hin & Hty & Hpd). exists pd. rewrite <- list_elem_of_In, list_elem_of_filter, Ht.
    tauto.
Qed.

Lemma has_condensed_setpoint_offers p : has_condensed_setpoint p = true <-> offers p 290 305 false.
Proof.
  apply offers_existsb. intros pd. unfold is_setpoint_condensed, SetpointCondensedWorkState1_16,
    SetpointCondensedWorkState241_256. rewrite andb_true_iff, !Z.leb_le. naive_solver.
Qed.

Lemma has_settable_condensed_actual_offers p :
  has_settable_condensed_actual p = true <-> offers p 161 176 true.
Proof.
  apply offers_existsb. intros pd. unfold is_actual_condensed, ActualCondensedWorkState1_16,
    ActualCondensedWorkState241_256. rewrite !andb_true_iff, !Z.leb_le. naive_solver.
Qed.

Lemma has_settable_actual_work_state_offers p :
  has_settable_actual_work_state p = true <-> offers p 141 141 true.
Proof.
  apply offers_existsb. intros pd. unfold ActualWorkState.
  rewrite andb_true_iff, Z.eqb_eq. assert (get_ddi pd = 141 <-> 141 <= get_ddi pd <= 141) by lia.
  naive_solver.
Qed.

(** Modern before Old before Oldest. *)
Lemma section_control_method_spec p :
  match section_control_method p with
  | Modern => offers p 290 305 false
  | Old => ~ offers p 290 305 false /\ offers p 161 176 true
  | Oldest => ~ offers p 290 305 false /\ ~ offers p 161 176 true /\ offers p 141 141 true
  | Unsupported => ~ offers p 290 305 false /\ ~ offers p 161 176 true /\ ~ offers p 141 141 true
  end.
Proof.
  unfold section_control_method.
  pose proof (has_condensed_setpoint_offers p) as H1.
  pose proof (has_settable_condensed_actual_offers p) as H2.
  pose proof (has_settable_actual_work_state_offers p) as H3.
  destruct (has_condensed_setpoint p); [by apply H1|].
  destruct (has_settable_condensed_actual p); [split; [by intros ?%H1|by apply H2]|].
  destruct (has_settable_actual_work_state p);
    (split; [by intros ?%H1|split; [by intros ?%H2|]]); [by apply H3|by intros ?%H3].
Qed.

Lemma activated_per_element_ddi p :
  get_per_element_setpoint_ddi (activated_state p) =
    if uses_per_element_control (activated_state p) then ActualWorkState else 0.
Proof.
  assert (Hm : forall elements st, uses_per_element_control (map_section_elements elements st) =
    uses_per_element_control st /\ get_per_element_setpoint_ddi (map_section_elements elements st) =
    get_per_element_setpoint_ddi st).
  { intros elements st. unfold map_section_elements. apply foldl_ind; [done|]. intros i st' _ Hst.
    unfold set_element_number_for_section. by case_match. }
  rewrite activated_state_eq. unfold configure_section_control.
  destruct (Hm (section_element_numbers p) (unmapped_state p)) as [Hu Hd].
  destruct (section_control_method p); rewrite ?Hu, ?Hd; done.
Qed.

(** C18: a freshly activated client satisfies the invariant, has one section
    per section of the geometry (modulo 256), section [i] bound to the
    element of the [i]-th geometry section and found again from that
    element, every section off, automatic mode off and nothing subscribed.
    Its sections are controlled by the first of the three methods that the
    process data objects of its pool offer: condensed setpoints (a DDI from
    290 to 305), condensed actual states that may be set (161 to 176), or the
    actual work state of an element that may be set (141). So it is
    controlled element by element, under DDI 141, exactly when the pool
    offers the last and neither of the others. *)
Theorem activated_state_spec `{!DdopLaws} (p : pool) :
  let st := activated_state p in
  let elements := section_element_numbers p in
  wf st /\ numberOfSections st = zlength elements mod 256 /\
  (forall i, 0 <= i < numberOfSections st ->
     zlookup elements i = Some (get_element_number_for_section i st) /\
     is_Some (try_get_section_for_element (get_element_number_for_section i st) st) /\
     get_section_setpoint_state i st = OFF /\
     zlookup (sectionActualStates st) i = Some OFF) /\
  (forall e s, try_get_section_for_element e st = Some s ->
     0 <= s < numberOfSections st /\ zlookup elements s = Some e) /\
  (uses_per_element_control st = true <->
     ~ offers p 290 305 false /\ ~ offers p 161 176 true /\ offers p 141 141 true) /\
  get_per_element_setpoint_ddi st = (if uses_per_element_control st then 141 else 0) /\
  match section_control_method p with
  | Modern => offers p 290 305 false
  | Old => ~ offers p 290 305 false /\ offers p 161 176 true
  | Oldest => ~ offers p 290 305 false /\ ~ offers p 161 176 true /\ offers p 141 141 true
  | Unsupported => ~ offers p 290 305 false /\ ~ offers p 161 176 true /\ ~ offers p 141 141 true
  end /\
  is_section_control_enabled st = false /\
  are_measurement_commands_sent st = false /\
  elementParents st = build_parent_map p.
Proof.
  destruct (activated_facts p) as (Hwf & Hn & Hs & Hr & Hu & Hen & Hm & Hp).
  pose proof (section_control_method_spec p) as Hmethod.
  cbv zeta. split_and!; try done; [|apply activated_per_element_ddi].
  rewrite Hu. destruct (section_control_method p); (split; [|tauto || done]); try done; tauto.
Qed.

Lemma find_device_Some objs o :
  find_device objs = Some o -> o ∈ objs /\ get_object_type o = Device.
Proof.
  induction objs as [|x objs IH]; simpl; [done|]. case_decide; intros Hf.
  - simplify_eq. split; [left|done].
  - apply IH in Hf as [? ?]. split; [by right|done].
Qed.

Lemma find_device_None objs :
  find_device objs = None -> forall o, o ∈ objs -> get_object_type o <> Device.
Proof.
  induction objs as [|x objs IH]; simpl; [intros _ o []%elem_of_nil|].
  case_decide; [done|]. intros Hf o [->|Ho]%elem_of_cons; [done|by apply IH].
Qed.

Definition parsed (clientName : Z) (chunks : list (list Z)) : pool * bool :=
  deserialize_chunks clientName chunks
    (set_task_controller_compatibility_level SecondEditionDraft empty_pool) false.

(** C8: activation drains the partner's upload queue and touches no other
    client. It accepts exactly a pool whose last chunk parsed and that has
    a Device object, and then registers the state built from it; a
    rejected or aborted activation leaves the clients as they were and
    names the reason in the error codes. *)
Theorem activate_object_pool_spec (fs : FileSystem) (c name : Z) (srv : MyTCServer) :
  let '(r, srv', _) := activate_object_pool fs c name srv in
  uploadedPools srv' !! c = (fun _ => []) <$> uploadedPools srv !! c /\
  (forall c', c' <> c -> clients srv' !! c' = clients srv !! c' /\
                         uploadedPools srv' !! c' = uploadedPools srv !! c') /\
  match r with
  | Returned true errors =>
      errors = activation_errors ActivationNoErrors PoolNoErrors /\
      exists chunks p o,
        uploadedPools srv !! c = Some chunks /\ parsed name chunks = (p, true) /\
        o ∈ pool_objects p /\ get_object_type o = Device /\
        clients srv' !! c = Some (activated_state p)
  | Returned false errors =>
      clients srv' = clients srv /\
      parentObjectIDOfFaultyObject errors = NULL_OBJECT_ID /\
      faultyObjectID errors = NULL_OBJECT_ID /\
      ((activationError errors = ActivationAnyOtherError /\
        uploadedPools srv !! c = None) \/
       exists chunks p ok,
         uploadedPools srv !! c = Some chunks /\ parsed name chunks = (p, ok) /\
         activationError errors = ThereAreErrorsInTheDDOP /\
         if ok
         then objectPoolError errors = UnknownObjectReference /\
              forall o, o ∈ pool_objects p -> get_object_type o <> Device
         else objectPoolError errors = PoolAnyOtherError)
  | Threw =>
      clients srv' = clients srv /\
      exists chunks p o,
        uploadedPools srv !! c = Some chunks /\ parsed name chunks = (p, true) /\
        o ∈ pool_objects p /\ get_object_type o = Device /\
        path_throws fs (ddop_file_name name o) = true
  end.
Proof.
  unfold activate_object_pool.
  destruct (uploadedPools srv !! c) as [chunks|] eqn:Eu.
  2: { rewrite Eu. simpl. split_and!; try done. by left. }
  fold (parsed name chunks).
  destruct (parsed name chunks) as [p ok] eqn:Ep.
  assert (Hq : forall c', c' <> c ->
    (<[c:=[]]> (uploadedPools srv)) !! c' = uploadedPools srv !! c')
    by (intros; by rewrite lookup_insert_ne).
  destruct ok; simpl; last first.
  { rewrite lookup_insert_eq. split_and!; auto.
    right. exists chunks, p, false. done. }
  destruct (find_device (pool_objects p)) as [o|] eqn:Ed; simpl; last first.
  { rewrite lookup_insert_eq. split_and!; auto.
    right. exists chunks, p, true. split_and!; try done. by apply find_device_None. }
  apply find_device_Some in Ed as [Hin Hty].
  destruct (save_ddop fs name o p) as [saved|] eqn:Es; simpl.
  - rewrite !lookup_insert_eq. split_and!; [done| |done|].
    + intros c' Hc'. by rewrite !lookup_insert_ne by done.
    + exists chunks, p, o. done.
  - rewrite lookup_insert_eq. split_and!; auto. exists chunks, p, o.
    split_and!; try done. unfold save_ddop in Es. by repeat case_match.
Qed.
End activated.

(** ** Every reachable server *)

#[export] Hint Resolve activated_state_wf bit_pair_range : aog.

Section reachable.
Context `{DdopApi} `{DdiCodes}.
Implicit Types (st : ClientState) (srv : MyTCServer).

Definition server_wf srv : Prop := map_Forall (fun _ st => wf st) (clients srv).

(** The server's entry points, as the library's worker thread and the main
    loop call them. Values come off the bus, so an element number is any
    16-bit value. *)
Inductive server_call : Type :=
  | Store (c : Z) (binaryPool : list Z)
  | Activate (fs : FileSystem) (c clientName : Z)
  | Deactivate (c : Z)
  | Delete (c : Z)
  | Timeout (c : Z)
  | Value (c ddi element value : Z)
  | Request
  | UpdateSections (sectionStates : list bool)
  | UpdateControlEnabled (enabled : bool)
  | SendGnss (quality : Z).

(** The server that a call leaves behind, by a return or by an exception. *)
Definition run_call (call : server_call) srv : MyTCServer :=
  match call with
  | Store c bytes => (store_device_descriptor_object_pool c bytes srv).2
  | Activate fs c name => (activate_object_pool fs c name srv).1.2
  | Deactivate c => (deactivate_object_pool c srv).2
  | Delete c => (delete_device_descriptor_object_pool c srv).2
  | Timeout c => on_client_timeout c srv
  | Value c ddi e v => (on_value_command c ddi (u16 e) v srv).2
  | Request => (request_measurement_commands srv).1
  | UpdateSections ss => (update_section_states ss srv).1
  | UpdateControlEnabled b => (update_section_control_enabled b srv).1
  | SendGnss q => (send_gnss_quality q srv).1
  end.

(** Whether an exception leaves the call: the path of the file for a pool that
    was parsed is the only thing that throws outside of a [try]. *)
Definition call_throws (call : server_call) srv : bool :=
  match call with
  | Activate fs c name =>
      match (activate_object_pool fs c name srv).1.1 with
      | Threw => true
      | Returned _ _ => false
      end
  | _ => false
  end.

Lemma call_throws_path call srv :
  call_throws call srv = true ->
  exists fs c name device, call = Activate fs c name /\
    path_throws fs (ddop_file_name name device) = true.
Proof.
  destruct call as [|fs c name| | | | | | | |]; try done. cbn [call_throws].
  unfold activate_object_pool. intros Ht. exists fs, c, name.
  destruct (uploadedPools srv !! c) as [chunks|]; [|done].
  destruct (deserialize_chunks _ _ _ _) as [p [|]]; cbn [negb] in Ht; [|done].
  destruct (find_device _) as [device|]; [|done]. exists device. split; [done|].
  unfold save_ddop in Ht. destruct (generate_binary_object_pool p); [|done].
  cbn zeta in Ht. destruct (path_throws fs _); [done|]. by destruct (can_open fs _).
Qed.

(** The messages of a call; the callbacks of the library send none. *)
Definition call_outputs (call : server_call) srv : list bus_out :=
  match call with
  | Request => (request_measurement_commands srv).2
  | UpdateSections ss => (update_section_states ss srv).2
  | UpdateControlEnabled enabled => (update_section_control_enabled enabled srv).2
  | SendGnss quality => (send_gnss_quality quality srv).2
  | _ => []
  end.

Definition initial_server : MyTCServer := {| clients := ∅; uploadedPools := ∅ |}.

(** By any calls, also after one that threw, which the program does not
    survive. *)
Inductive reachable : MyTCServer -> Prop :=
  | reachable_init : reachable initial_server
  | reachable_step srv call : reachable srv -> reachable (run_call call srv).

(** *** Preservation, operation by operation *)

Lemma wf_setpoint_variant w l st :
  wf st -> zlength l = numberOfSections st ->
  Forall (fun s => s = OFF \/ s = ON) l -> wf (setpoint_variant w l st).
Proof. intros [] Hl Hf. by split. Qed.

Lemma demanded_on_off ss i cur :
  cur = OFF \/ cur = ON -> demanded ss i cur = OFF \/ demanded ss i cur = ON.
Proof. unfold demanded. case_match; [case_match|]; auto. Qed.

Lemma wf_apply_demand ss st : wf st -> wf (apply_demand ss st).
Proof.
  intros Hwf. pose proof Hwf as []. split; simpl; try done.
  - unfold zlength in *. by rewrite length_imap.
  - apply Forall_lookup. intros i x. rewrite list_lookup_imap.
    destruct (sectionSetpointStates st !! i) as [y|] eqn:E; [|done]. simpl.
    intros [= <-]. apply demanded_on_off.
    by apply (Forall_lookup_1 _ _ _ _ wf_setpoint_states E).
Qed.

Lemma wf_update_client_section_states ss c st :
  wf st -> wf (update_client_section_states ss c st).1.
Proof.
  intros Hwf. destruct (is_section_control_enabled st) eqn:Hen.
  - destruct (update_client_section_states_spec ss c st Hwf Hen) as [[w ->] _].
    destruct (wf_apply_demand ss st Hwf). by apply wf_setpoint_variant.
  - unfold update_client_section_states. by rewrite Hen.
Qed.

Lemma wf_on_condensed_work_state d e v st :
  wf st -> is_u16 e -> wf (on_condensed_work_state d e v st).
Proof.
  intros Hwf He. unfold on_condensed_work_state. apply foldl_ind; [done|].
  intros i st' _ Hst. unfold condensed_section_step. fold (bit_pair v i).
  pose proof (bit_pair_range v i). rewrite (u8_id (bit_pair v i)) by width.
  pose proof (u8_range (i + u8 (NUMBER_SECTIONS_PER_CONDENSED_MESSAGE *
    u8 (d - ActualCondensedWorkState1_16)))) as Hu. unfold is_u8 in Hu.
  apply wf_set_element_number_for_section; [|lia|done]. auto with aog.
Qed.

Lemma wf_on_actual_work_state e v st : wf st -> wf (on_actual_work_state e v st).
Proof.
  intros Hwf. unfold on_actual_work_state, set_element_work_state.
  repeat case_match; try apply wf_set_section_actual_state; auto with aog;
    unfold is_section_state, ON, OFF; lia.
Qed.

Lemma client_ref_wf c srv : server_wf srv -> wf (client_ref c srv).
Proof.
  intros Hs. unfold client_ref. destruct (clients srv !! c) eqn:E; simpl;
    [by apply (Hs c)|apply wf_new].
Qed.

Lemma modify_client_wf c f srv :
  (forall st, wf st -> wf (f st)) -> server_wf srv -> server_wf (modify_client c f srv).
Proof. intros Hf Hs. apply map_Forall_insert_2; [|done]. by apply Hf, client_ref_wf. Qed.

Lemma for_each_client_wf body srv :
  own_messages body -> (forall c st, wf st -> wf (body c st).1) ->
  server_wf srv -> server_wf (for_each_client body srv).1.
Proof.
  intros Hown Hb Hs c st Hst.
  destruct (for_each_client_spec body srv c Hown) as (Hl & _). rewrite Hl in Hst.
  destruct (clients srv !! c) as [st0|] eqn:E; simplify_eq/=. by apply Hb, (Hs c).
Qed.
Lemma activate_object_pool_clients fs c name srv :
  clients (activate_object_pool fs c name srv).1.2 = clients srv \/
  exists p, clients (activate_object_pool fs c name srv).1.2 =
            <[c := activated_state p]> (clients srv).
Proof.
  unfold activate_object_pool.
  destruct (uploadedPools srv !! c) as [chunks|]; [|by left].
  destruct (deserialize_chunks _ _ _ _) as [p ok].
  destruct ok; simpl; [|by left].
  destruct (find_device _); [|by left].
  destruct (save_ddop _ _ _ _); [right; by exists p|by left].
Qed.

Lemma run_call_wf `{!DdopLaws} call srv : server_wf srv -> server_wf (run_call call srv).
Proof.
  intros Hs. destruct call as [c bytes|fs c name|c|c|c|c d e v| |ss|b|q]; simpl.
  - done.
  - unfold server_wf.
    destruct (activate_object_pool_clients fs c name srv) as [->|[p ->]]; [done|].
    apply map_Forall_insert_2; auto with aog.
  - by apply map_Forall_delete.
  - by apply map_Forall_delete.
  - by apply map_Forall_delete.
  - repeat case_match; try done; apply modify_client_wf; try done; intros st Hst;
      auto using wf_on_condensed_work_state, wf_on_actual_work_state with aog.
  - apply for_each_client_wf; [apply own_request_client_measurement_commands| |done].
    intros c st Hst. destruct (request_client_frame c st) as (b & m & ->). auto with aog.
  - apply for_each_client_wf; [apply own_update_client_section_states| |done].
    auto using wf_update_client_section_states.
  - apply for_each_client_wf; [apply own_update_client_section_control_enabled| |done].
    intros c st Hst. simpl. case_match; [by apply wf_with_isSectionControlEnabled|done].
  - by apply for_each_client_wf; [apply own_send_client_gnss_quality| |].
Qed.

(** C19: every client of every server state that the entry points can reach,
    in any order and with any arguments, satisfies the class invariant: the
    section vectors have exactly [numberOfSections] entries of legal values
    and the element index points inside them. Every section index that
    passes the members' guards therefore finds an element. *)
Theorem server_reachable_wf `{!DdopLaws} (srv : MyTCServer) (c : Z) (st : ClientState)
    (Hr : reachable srv) (Hc : clients srv !! c = Some st) :
  wf st /\
  forall s, 0 <= s < get_number_of_sections st ->
    is_Some (zlookup (sectionSetpointStates st) s) /\
    is_Some (zlookup (sectionActualStates st) s) /\
    is_Some (zlookup (sectionToElementNumber st) s).
Proof.
  assert (Hs : server_wf srv).
  { clear Hc. induction Hr; [apply map_Forall_empty|by apply run_call_wf]. }
  specialize (Hs c st Hc). simpl in Hs. split; [done|]. intros s Hsn.
  unfold get_number_of_sections in Hsn. destruct Hs.
  split_and!; apply zlookup_is_Some; lia.
Qed.
End reachable.
