(* ===== verification/BusMessages.v ===== *)
(** * What goes out on the bus

    Every process data message of a server that any calls have led to is
    addressed to something its receiver declared: a process data object that
    an element of its pool lists, or the element of one of its sections, which
    comes from the geometry of the pool or from a report of the client itself.
    The values are the section states the call asks for, the switch of the
    automatic mode, the fix quality or a subscription; and each number fits
    the type it is passed as, so that no conversion on the way to the CAN
    stack changes it. *)

From S2P Require Import Prelude Ddop Hierarchy ClientState TcServer ServerFacts.
From S2P Require Import Setpoints Activation Subscription ServerInvariant.

#[local] Set Default Proof Using "All".

(** A process data message has room for a DDI and an element of sixteen bits
    and a value of thirty-two. *)
Definition typed_out (o : bus_out) : Prop :=
  match o with
  | send_set_value _ d e v
  | send_change_threshold_measurement_command _ d e v
  | send_time_interval_measurement_command _ d e v => is_u16 d /\ is_u16 e /\ is_u32 v
  end.

Lemma lor_u32 a b : is_u32 a -> is_u32 b -> is_u32 (Z.lor a b).
Proof.
  unfold is_u32. intros Ha Hb. split; [apply Z.lor_nonneg; lia|].
  destruct (decide (Z.lor a b = 0)) as [->|Hne]; [lia|].
  assert (Hpos : 0 < Z.lor a b).
  { assert (0 <= Z.lor a b) by (apply Z.lor_nonneg; lia). lia. }
  change 4294967296 with (2 ^ 32). apply Z.log2_lt_pow2; [done|].
  rewrite Z.log2_lor by lia.
  assert (Hlog : forall x, 0 <= x < 4294967296 -> Z.log2 x < 32).
  { intros x Hx. destruct (decide (x = 0)) as [->|]; [done|].
    apply Z.log2_lt_pow2; [lia|]. change (2 ^ 32) with 4294967296. lia. }
  pose proof (Hlog a Ha). pose proof (Hlog b Hb). lia.
Qed.

Lemma flag_u32 (b : bool) : is_u32 (if b then 1 else 0).
Proof. unfold is_u32. destruct b; lia. Qed.

Lemma condensed_setpoint_value_u32 `{DdopApi} off st : is_u32 (condensed_setpoint_value off st).
Proof.
  unfold condensed_setpoint_value. apply foldl_ind; [unfold is_u32; lia|].
  intros i v _ Hv. unfold condensed_setpoint_step. apply lor_u32; [done|].
  unfold is_u32, u32. pose proof (Z.mod_pos_bound
    (Z.shiftl (get_section_setpoint_state (u8 (off + i)) st) (2 * i)) 4294967296). lia.
Qed.

Section messages.
Context `{DdopApi} `{DdiCodes} `{!DdopLaws}.
Implicit Types (st : ClientState) (srv : MyTCServer).

(** *** What a client declares *)

(** An element of its pool lists process data that the server may address. *)
Definition declared st (d e : Z) : Prop :=
  exists pd el, listed_by (cs_pool st) pd el /\ addressed pd = true /\
    get_ddi pd = d /\ get_element_number el = e.

(** Some process data object with this DDI may be set. *)
Definition settable_data st (d : Z) : Prop :=
  exists pd, pd ∈ objects_of_type DeviceProcessData (cs_pool st) /\
    get_ddi pd = d /\ is_settable pd = true.

(** The element sent a report on sixteen sections. *)
Definition reported (calls : list server_call) (c e : Z) : Prop :=
  exists d e' v, Value c d e' v ∈ calls /\ is_actual_condensed d = true /\ e = u16 e'.

(** What the server keeps of a client leads back to what it declared. *)
Record described (named : Z -> Prop) st : Prop := {
  de_wf : wf st;
  de_ddis : map_Forall (declared st) (ddiToElementNumber st);
  de_sections : Forall (fun e => e = 0 \/ e ∈ section_element_numbers (cs_pool st) \/ named e)
    (sectionToElementNumber st);
  de_per_element : usesPerElementControl st = true ->
    perElementSetpointDDI st = ActualWorkState /\ settable_data st ActualWorkState
}.

(** *** What it may be sent *)

(** On a demand for its sections: whether any is on, the sixteen states of a
    block, three standing for a section that it does not have, or the state of
    one section at its element. *)
Inductive section_message (ss : list bool) (c : Z) (named : Z -> Prop) st : bus_out -> Prop :=
  | OverallState e (on : bool) :
      declared st SetpointWorkState e ->
      section_message ss c named st
        (send_set_value c SetpointWorkState e (if on then 1 else 0))
  | BlockStates b d e v :
      0 <= b < number_of_blocks st ->
      d = SetpointCondensedWorkState1_16 + b \/
        (d = ActualCondensedWorkState1_16 + b /\ settable_data st d) ->
      declared st d e -> is_u32 v ->
      (forall j, 0 <= j < 16 -> bit_pair v j =
         if 16 * b + j <? numberOfSections st
         then demanded ss (16 * b + j) (get_section_setpoint_state (16 * b + j) st)
         else NOT_INSTALLED) ->
      section_message ss c named st (send_set_value c d e v)
  | SectionState s e :
      0 <= s < numberOfSections st -> settable_data st ActualWorkState ->
      get_element_number_for_section s st = e -> e <> 0 ->
      e ∈ section_element_numbers (cs_pool st) \/ named e ->
      section_message ss c named st
        (send_set_value c ActualWorkState e
           (if demanded ss s (get_section_setpoint_state s st) =? ON then 1 else 0)).

(** On a call. *)
Definition message_for (call : server_call) (c : Z) (named : Z -> Prop) st (o : bus_out) : Prop :=
  match call with
  | Request =>
      are_measurement_commands_sent st = false /\
      exists pd el, listed_by (cs_pool st) pd el /\ subscription c pd el o
  | UpdateSections ss => is_section_control_enabled st = true /\ section_message ss c named st o
  | UpdateControlEnabled enabled =>
      exists e, declared st SectionControlState e /\
        o = send_set_value c SectionControlState e (if enabled then 1 else 0)
  | SendGnss quality =>
      exists e, declared st GNSSQuality e /\ o = send_set_value c GNSSQuality e quality
  | _ => False
  end.

Lemma described_declared named st d :
  described named st -> has_element_number_for_ddi d st = true ->
  declared st d (get_element_number_for_ddi d st).
Proof.
  intros Hd. unfold has_element_number_for_ddi, get_element_number_for_ddi.
  rewrite bool_decide_eq_true. intros [e He]. rewrite He. exact (de_ddis _ _ Hd d e He).
Qed.

Lemma is_ddi_settable_data d st : is_ddi_settable d st = true -> settable_data st d.
Proof.
  unfold is_ddi_settable, settable_data, objects_of_type, get_pool.
  induction (pool_objects (cs_pool st)) as [|o objs IH]; [done|]. cbn [is_ddi_settable_loop].
  rewrite filter_cons. intros Hs. case_decide as Ht.
  - destruct (Z.eqb_spec (get_ddi o) d) as [Hd|].
    + exists o. split_and!; [left|done|done].
    + destruct (IH Hs) as (pd & ? & ? & ?). exists pd. split_and!; [by right|done|done].
  - exact (IH Hs).
Qed.

Lemma described_section named st s :
  described named st -> get_element_number_for_section s st <> 0 ->
  get_element_number_for_section s st ∈ section_element_numbers (cs_pool st) \/
  named (get_element_number_for_section s st).
Proof.
  intros Hd Hne. unfold get_element_number_for_section in *. destruct (_ && _); [|done].
  destruct (zlookup (sectionToElementNumber st) s) as [e|] eqn:E; [|done]. cbn in *.
  by destruct (Forall_zlookup _ _ _ _ (de_sections _ _ Hd) E).
Qed.

(** *** The messages of each call *)

Lemma block_pairs ss st b j :
  wf st -> 0 <= b < 16 -> 0 <= j < 16 ->
  bit_pair (condensed_setpoint_value (16 * b) (apply_demand ss st)) j =
    if 16 * b + j <? numberOfSections st
    then demanded ss (16 * b + j) (get_section_setpoint_state (16 * b + j) st)
    else NOT_INSTALLED.
Proof.
  intros Hwf Hb Hj. rewrite bit_pair_condensed_setpoint_value by (done || by apply wf_apply_demand).
  destruct (Z.ltb_spec (16 * b + j) (numberOfSections st)) as [Hlt|Hge].
  - apply get_section_setpoint_state_apply_demand; [done|lia].
  - unfold get_section_setpoint_state. cbn [numberOfSections apply_demand with_sectionSetpointStates].
    by rewrite (proj2 (Z.ltb_ge _ _) Hge).
Qed.

Lemma section_block_messages ss c named st b o :
  described named st -> 0 <= b < number_of_blocks st -> b < 16 ->
  o ∈ section_block c (apply_demand ss st) b -> section_message ss c named st o.
Proof.
  intros Hd Hb Hb16. unfold section_block.
  assert (Hblock : forall d e, d = SetpointCondensedWorkState1_16 + b \/
      (d = ActualCondensedWorkState1_16 + b /\ settable_data st d) ->
    declared st d e -> o = send_set_value c d e (condensed_setpoint_value (16 * b) (apply_demand ss st)) ->
    section_message ss c named st o).
  { intros d e Hde Hdec Ho. rewrite Ho.
    apply (BlockStates _ _ _ _ b); [done..|apply condensed_setpoint_value_u32|].
    intros j Hj. apply block_pairs; [apply Hd|lia|done]. }
  change (has_element_number_for_ddi ?d (apply_demand ss st)) with (has_element_number_for_ddi d st).
  destruct (has_element_number_for_ddi (SetpointCondensedWorkState1_16 + b) st) eqn:E1.
  { intros ->%list_elem_of_singleton.
    exact (Hblock _ _ (or_introl eq_refl) (described_declared named st _ Hd E1) eq_refl). }
  destruct (has_element_number_for_ddi (ActualCondensedWorkState1_16 + b) st) eqn:E2.
  { change (is_ddi_settable ?d (apply_demand ss st)) with (is_ddi_settable d st).
    destruct (is_ddi_settable _ st) eqn:E3; [|by intros ?%elem_of_nil].
    intros ->%list_elem_of_singleton.
    exact (Hblock _ _ (or_intror (conj eq_refl (is_ddi_settable_data _ _ E3)))
      (described_declared named st _ Hd E2) eq_refl). }
  change (uses_per_element_control (apply_demand ss st)) with (uses_per_element_control st).
  destruct (uses_per_element_control st) eqn:E3; [|by intros ?%elem_of_nil].
  destruct (de_per_element _ _ Hd E3) as [Hddi Hset].
  unfold per_element_messages. intros (s & Hs%elem_of_seqZ & Ho)%list_elem_of_omap.
  cbv zeta in Ho. change (numberOfSections (apply_demand ss st)) with (numberOfSections st) in Hs.
  change (get_element_number_for_section s (apply_demand ss st))
    with (get_element_number_for_section s st) in Ho.
  destruct (Z.eqb_spec (get_element_number_for_section s st) 0) as [|Hne]; [done|].
  injection Ho as <-. unfold get_per_element_setpoint_ddi. cbn [perElementSetpointDDI apply_demand
    with_sectionSetpointStates]. rewrite Hddi.
  rewrite get_section_setpoint_state_apply_demand by (apply Hd || lia).
  apply SectionState; [lia|done..|by apply described_section].
Qed.

Lemma update_messages ss c named st o :
  described named st -> o ∈ (update_client_section_states ss c st).2 ->
  message_for (UpdateSections ss) c named st o.
Proof.
  intros Hd Ho. destruct (is_section_control_enabled st) eqn:Hen; last first.
  { unfold update_client_section_states in Ho. rewrite Hen in Ho. by apply elem_of_nil in Ho. }
  split; [done|].
  assert (Hwf := de_wf _ _ Hd). pose proof (wf_number _ Hwf) as Hn8. unfold is_u8 in Hn8.
  destruct (decide (0 < numberOfSections st)) as [Hpos|Hz]; last first.
  { unfold update_client_section_states, get_number_of_sections in Ho.
    rewrite Hen, (proj2 (Z.eqb_eq _ 0)) in Ho by lia. by apply elem_of_nil in Ho. }
  destruct (update_client_section_states_told ss c st Hwf Hen Hpos) as [_ Hm]. rewrite Hm in Ho.
  unfold told_blocks in Ho. revert o Ho. apply (foldl_ind (fun acc => forall o, o ∈ acc.2 ->
    section_message ss c named st o)); [by intros o ?%elem_of_nil|].
  intros b acc [_ Hb%elem_of_seqZ]%list_elem_of_filter IH o. unfold tell_next. cbn [snd].
  assert (Hb16 : b < 16) by (unfold number_of_blocks in Hb; Z.div_mod_to_equations; lia).
  intros [Ho|Ho]%elem_of_app; [by apply IH|]. revert Ho. unfold tell_block.
  destruct (_ && _ && _) eqn:E; cbn [snd];
    [|apply section_block_messages; [done|lia|done]].
  apply andb_prop in E as [[_ E]%andb_prop _].
  intros [Ho| ->%list_elem_of_singleton]%elem_of_app;
    [revert Ho; apply section_block_messages; [done|lia|done]|].
  apply OverallState. by apply (described_declared named).
Qed.

Lemma request_messages c named st o :
  o ∈ (request_client_measurement_commands c st).2 -> message_for Request c named st o.
Proof.
  destruct (request_client_cases st) as [Hs|[Hs Hn]].
  { rewrite request_client_skipped by done. by intros ?%elem_of_nil. }
  destruct (request_client_spec c st Hs Hn) as (_ & _ & _ & Ho). intros Hin%Ho. by split.
Qed.

Lemma enabled_messages b c named st o :
  described named st -> o ∈ (update_client_section_control_enabled b c st).2 ->
  message_for (UpdateControlEnabled b) c named st o.
Proof.
  intros Hd. unfold update_client_section_control_enabled. cbn [snd].
  set (st' := if negb _ then set_section_control_enabled b st else st).
  assert (Hst : ddiToElementNumber st' = ddiToElementNumber st) by (unfold st'; by destruct (negb _)).
  destruct (_ && _) eqn:E; [|by intros ?%elem_of_nil]. apply andb_prop in E as [E _].
  intros ->%list_elem_of_singleton. exists (get_element_number_for_ddi SectionControlState st).
  unfold has_element_number_for_ddi in E. rewrite Hst in E.
  split; [by apply (described_declared named)|].
  unfold get_element_number_for_ddi. by rewrite Hst.
Qed.

Lemma gnss_messages q c named st o :
  described named st -> o ∈ (send_client_gnss_quality q c st).2 ->
  message_for (SendGnss q) c named st o.
Proof.
  intros Hd. unfold send_client_gnss_quality. cbn [snd].
  destruct (has_element_number_for_ddi GNSSQuality st) eqn:E; [|by intros ?%elem_of_nil].
  intros ->%list_elem_of_singleton. exists (get_element_number_for_ddi GNSSQuality st).
  split; [by apply (described_declared named)|done].
Qed.

(** *** What is kept of a client *)

Lemma declared_same_pool st st' d e :
  cs_pool st' = cs_pool st -> declared st d e -> declared st' d e.
Proof. unfold declared. by intros ->. Qed.

(** The part of a client that ends up as an address on the bus. *)
Definition addresses st : pool * gmap Z Z * bool * Z :=
  (cs_pool st, ddiToElementNumber st, usesPerElementControl st, perElementSetpointDDI st).

Lemma described_same (named : Z -> Prop) st st' :
  described named st -> addresses st' = addresses st -> wf st' ->
  Forall (fun e => e ∈ sectionToElementNumber st \/ e = 0 \/ named e) (sectionToElementNumber st') ->
  described named st'.
Proof.
  intros [_ Hd Hs Hp] [= Hpool Hddi Huse Hper] Hwf Hsec. split; [done| | |].
  - rewrite Hddi. eapply map_Forall_impl; [exact Hd|]. intros d e. by apply declared_same_pool.
  - eapply Forall_impl; [exact Hsec|]. cbv beta. rewrite Hpool. intros e [He|He]; [|tauto].
    by apply (proj1 (Forall_forall _ _) Hs).
  - rewrite Huse, Hper. unfold settable_data. by rewrite Hpool.
Qed.

Lemma sections_kept (named : Z -> Prop) (l : list Z) :
  Forall (fun e => e ∈ l \/ e = 0 \/ named e) l.
Proof. apply Forall_forall. by left. Qed.

Lemma described_mono (named named' : Z -> Prop) st :
  (forall e, named e -> named' e) -> described named st -> described named' st.
Proof.
  intros Hn [Hwf Hd Hs Hp]. split; try done. eapply Forall_impl; [exact Hs|]. cbv beta. intros e.
  intros [?|[?|?%Hn]]; auto.
Qed.

Lemma described_new named : described named new_ClientState.
Proof. split; [apply wf_new|apply map_Forall_empty|constructor|done]. Qed.

Lemma condensed_report_described (named : Z -> Prop) d e v st :
  is_u16 e -> named e -> described named st -> described named (on_condensed_work_state d e v st).
Proof.
  intros Hu He Hd.
  assert (Hf : addresses (on_condensed_work_state d e v st) = addresses st /\
    Forall (fun x => x ∈ sectionToElementNumber st \/ x = 0 \/ named x)
      (sectionToElementNumber (on_condensed_work_state d e v st))).
  { unfold on_condensed_work_state.
    apply (foldl_ind (fun st' => addresses st' = addresses st /\
      Forall (fun x => x ∈ sectionToElementNumber st \/ x = 0 \/ named x) (sectionToElementNumber st')));
      [split; [done|apply sections_kept]|].
    intros i st' _ [Ha Hs]. unfold condensed_section_step, set_element_number_for_section,
      set_section_actual_state.
    repeat case_match; cbn; (split; [exact Ha|]); try apply Forall_zinsert; auto. }
  destruct Hf as [Ha Hs]. apply (described_same named st); [done..| |done].
  apply wf_on_condensed_work_state; [apply Hd|done].
Qed.

Lemma actual_report_described named e v st :
  described named st -> described named (on_actual_work_state e v st).
Proof.
  intros Hd. assert (Hf : addresses (on_actual_work_state e v st) = addresses st /\
    sectionToElementNumber (on_actual_work_state e v st) = sectionToElementNumber st).
  { unfold on_actual_work_state, set_element_work_state, set_section_actual_state.
    by repeat case_match. }
  destruct Hf as [Ha Hs]. apply (described_same named st); [done..| |rewrite Hs; apply sections_kept].
  apply wf_on_actual_work_state, Hd.
Qed.

Lemma request_described c named st :
  described named st -> described named (request_client_measurement_commands c st).1.
Proof.
  intros Hd. destruct (request_client_cases st) as [Hs|[Hs Hn]].
  { by rewrite request_client_skipped. }
  destruct (request_client_spec c st Hs Hn) as ([m Hm] & _ & Hddi & _). destruct Hd as [Hwf Hd Hsec Hp].
  rewrite Hm in Hddi |- *. split; [| |done|done].
  - by apply wf_with_areMeasurementCommandsSent, wf_with_ddiToElementNumber.
  - intros d e He. cbn in He. specialize (Hddi d).
    unfold has_element_number_for_ddi, get_element_number_for_ddi in Hddi. cbn in Hddi.
    rewrite He in Hddi. cbn in Hddi. rewrite !bool_decide_eq_true in Hddi.
    destruct Hddi as [[[e' He'] Heq]|(pd & el & ? & ? & ? & ?)]; [done| |by exists pd, el].
    rewrite He' in Heq. cbn in Heq. subst e'. exact (Hd d e He').
Qed.

Lemma update_described ss c named st :
  described named st -> described named (update_client_section_states ss c st).1.
Proof.
  intros Hd. destruct (is_section_control_enabled st) eqn:Hen; last first.
  { unfold update_client_section_states. by rewrite Hen. }
  pose proof (wf_update_client_section_states ss c st (de_wf _ _ Hd)) as Hwf.
  destruct (update_client_section_states_spec ss c st (de_wf _ _ Hd) Hen) as [[w Hw] _].
  rewrite Hw in *. apply (described_same named st); [done..|apply sections_kept].
Qed.

Lemma enabled_described b named st :
  described named st -> described named (with_isSectionControlEnabled b st).
Proof.
  intros Hd. apply (described_same named st); [done..| |apply sections_kept].
  apply wf_with_isSectionControlEnabled, Hd.
Qed.

Lemma activated_described named p : described named (activated_state p).
Proof.
  destruct (activated_frame p) as (Hpool & Hddi & _ & Hper).
  destruct (activated_facts p) as (Hwf & _ & Hsec & _ & Huse & _).
  split; [done|rewrite Hddi; apply map_Forall_empty| |].
  - rewrite Hpool. apply Forall_lookup. intros i e Hi.
    assert (Hlt : 0 <= Z.of_nat i < numberOfSections (activated_state p)).
    { pose proof (wf_element_length _ Hwf) as Hl. apply lookup_lt_Some in Hi. unfold zlength in Hl. lia. }
    destruct (Hsec (Z.of_nat i) Hlt) as [He _]. right. left.
    unfold get_element_number_for_section in He. rewrite (wf_element_length _ Hwf) in He.
    rewrite (proj2 (Z.ltb_lt _ _) (proj2 Hlt)) in He. cbn [andb] in He.
    unfold zlookup in He. rewrite Nat2Z.id, Hi in He. cbn in He. by apply list_elem_of_lookup_2 in He.
  - intros Ho%Huse. split; [by apply Hper|]. unfold settable_data. rewrite Hpool.
    unfold section_control_method in Ho. destruct (has_condensed_setpoint p); [done|].
    destruct (has_settable_condensed_actual p); [done|].
    destruct (has_settable_actual_work_state p) eqn:E; [|done]. unfold has_settable_actual_work_state in E.
    apply existsb_exists in E as (pd & Hpd%list_elem_of_In & [Hd%Z.eqb_eq Hs]%andb_prop).
    by exists pd.
Qed.

(** *** The server *)

Definition server_described (calls : list server_call) srv : Prop :=
  map_Forall (fun c st => described (reported calls c) st) (clients srv).

Lemma reported_snoc calls call c e : reported calls c e -> reported (calls ++ [call]) c e.
Proof.
  intros (d & e' & v & Hin & Hd & He). exists d, e', v. split; [|done]. apply elem_of_app. by left.
Qed.

Lemma for_each_client_described named body srv :
  own_messages body -> (forall c st, described (named c) st -> described (named c) (body c st).1) ->
  map_Forall (fun c st => described (named c) st) (clients srv) ->
  map_Forall (fun c st => described (named c) st) (clients (for_each_client body srv).1).
Proof.
  intros Hown Hb Hs c st Hst.
  destruct (for_each_client_spec body srv c Hown) as (Hl & _). rewrite Hl in Hst.
  destruct (clients srv !! c) as [st0|] eqn:E; simplify_eq/=. by apply Hb, (Hs c).
Qed.

Lemma modify_client_described (named : Z -> Z -> Prop) c f srv :
  (forall st, described (named c) st -> described (named c) (f st)) ->
  map_Forall (fun c st => described (named c) st) (clients srv) ->
  map_Forall (fun c st => described (named c) st) (clients (modify_client c f srv)).
Proof.
  intros Hf Hs. apply map_Forall_insert_2; [|done]. apply Hf. unfold client_ref.
  destruct (clients srv !! c) eqn:E; [by apply (Hs c)|apply described_new].
Qed.

Lemma run_call_described calls call srv :
  server_described calls srv -> server_described (calls ++ [call]) (run_call call srv).
Proof.
  intros Hs0. assert (Hs : map_Forall (fun c st => described (reported (calls ++ [call]) c) st)
    (clients srv)).
  { eapply map_Forall_impl; [exact Hs0|]. intros c st. cbv beta. apply described_mono, reported_snoc. }
  clear Hs0. unfold server_described.
  assert (Hin : call ∈ calls ++ [call]) by (apply elem_of_app; right; left).
  destruct call as [c bytes|fs c name|c|c|c|c d e v| |ss|b|q]; cbn [run_call].
  - done.
  - destruct (activate_object_pool_clients fs c name srv) as [->|[p ->]]; [done|].
    apply map_Forall_insert_2; [apply activated_described|done].
  - by apply map_Forall_delete.
  - by apply map_Forall_delete.
  - by apply map_Forall_delete.
  - cbn [on_value_command snd].
    destruct (is_actual_condensed d) eqn:Ed; [|case_match; [|case_match; [|done]]];
      apply modify_client_described; try done; intros st Hst.
    + apply condensed_report_described; [apply u16_range| |done]. by exists d, e, v.
    + by apply enabled_described.
    + by apply actual_report_described.
  - apply for_each_client_described; [apply own_request_client_measurement_commands| |done].
    intros c st. apply request_described.
  - apply for_each_client_described; [apply own_update_client_section_states| |done].
    intros c st. apply update_described.
  - apply for_each_client_described; [apply own_update_client_section_control_enabled| |done].
    intros c st Hst. cbn. destruct (negb _); [by apply enabled_described|done].
  - by apply for_each_client_described; [apply own_send_client_gnss_quality| |].
Qed.

Lemma for_each_client_out body srv o :
  own_messages body -> o ∈ (for_each_client body srv).2 ->
  exists st, clients srv !! bus_client o = Some st /\ o ∈ (body (bus_client o) st).2.
Proof.
  intros Hown Ho. destruct (for_each_client_spec body srv (bus_client o) Hown) as (_ & Hl & _).
  assert (Hin : o ∈ to_client (bus_client o) (for_each_client body srv).2)
    by (by apply list_elem_of_filter).
  rewrite Hl in Hin. destruct (clients srv !! bus_client o) as [st|];
    [by exists st|by apply elem_of_nil in Hin].
Qed.

Lemma call_messages calls call srv o :
  server_described calls srv -> o ∈ call_outputs call srv ->
  exists st, clients srv !! bus_client o = Some st /\
    message_for call (bus_client o) (reported calls (bus_client o)) st o.
Proof.
  intros Hs. destruct call; cbn [call_outputs]; try (by intros ?%elem_of_nil);
    (intros (st & Hst & Ho)%for_each_client_out;
     [exists st; split; [exact Hst|]; pose proof (Hs _ _ Hst) as Hd|]).
  - by apply request_messages.
  - apply own_request_client_measurement_commands.
  - by apply update_messages.
  - apply own_update_client_section_states.
  - by apply enabled_messages.
  - apply own_update_client_section_control_enabled.
  - by apply gnss_messages.
  - apply own_send_client_gnss_quality.
Qed.

(** *** Types *)

Lemma declared_u16 st d e : declared st d e -> is_u16 d /\ is_u16 e.
Proof. intros (pd & el & _ & _ & <- & <-). split; [apply get_ddi_u16|apply get_element_number_u16]. Qed.

(** The fix quality is a [std::uint8_t]; the other arguments do not reach the
    bus as they are. *)
Definition typed_call (call : server_call) : Prop :=
  match call with SendGnss quality => is_u8 quality | _ => True end.

Lemma message_for_typed call c named st o :
  typed_call call -> wf st -> message_for call c named st o -> typed_out o.
Proof.
  intros Ht Hwf. destruct call; cbn [message_for]; try done.
  - intros (_ & pd & el & _ & [(_ & _ & ->)|(_ & _ & ->)]);
      (split; [apply get_ddi_u16|split; [apply get_element_number_u16|unfold is_u32; lia]]).
  - intros (_ & [e on Hd|b d e v _ _ Hd Hv _|s e Hs _ He _ _]).
    + apply declared_u16 in Hd as [? ?]. split; [done|split; [done|apply flag_u32]].
    + apply declared_u16 in Hd as [? ?]. done.
    + split; [unfold is_u16, ActualWorkState; lia|]. split; [|apply flag_u32]. subst e.
      unfold get_element_number_for_section. assert (is_u16 0) by (unfold is_u16; lia).
      destruct (_ && _); [|done].
      destruct (zlookup (sectionToElementNumber st) s) as [e|] eqn:E; [|done].
      by apply (Forall_zlookup _ _ _ _ (wf_element_numbers _ Hwf) E).
  - intros (e & [? ?]%declared_u16 & ->). split; [done|split; [done|apply flag_u32]].
  - intros (e & [? ?]%declared_u16 & ->). split; [done|split; [done|]].
    cbn in Ht. unfold is_u8, is_u32 in *. lia.
Qed.

(** C17: every process data message is addressed to something its receiver
    declared. Whatever calls the server has received, in any order and with
    any values reported by the clients, a message of the next call goes to a
    registered client and is one that the call has for it ([message_for]): the
    subscription of process data that an element of its pool lists; the
    switch of the automatic mode, the fix quality, the overall work state or
    the states of sixteen sections as demanded, under a DDI and at an element
    for which the pool lists such an object; or the demanded state of one
    section at the element of this section, which the geometry of the pool or a
    report of the client has named, under DDI 141, which the pool lets be set.
    Each number fits the type it is passed as. *)
Theorem bus_messages_declared (calls : list server_call) (call : server_call) (o : bus_out)
    (Hcall : typed_call call) :
  let srv := foldl (fun srv call => run_call call srv) initial_server calls in
  o ∈ call_outputs call srv ->
  typed_out o /\
  exists st, clients srv !! bus_client o = Some st /\
    message_for call (bus_client o) (reported calls (bus_client o)) st o.
Proof.
  intros srv Ho. assert (Hs : server_described calls srv).
  { clear Ho Hcall call o. induction calls as [|call calls IH] using rev_ind; [apply map_Forall_empty|].
    unfold srv in *. rewrite foldl_snoc. by apply run_call_described. }
  destruct (call_messages calls call srv o Hs Ho) as (st & Hst & Hm).
  split; [|by exists st]. apply (message_for_typed call _ _ st o Hcall (de_wf _ _ (Hs _ _ Hst)) Hm).
Qed.
End messages.
