(* ===== verification/Refinement.v ===== *)
(** * The server as a section controller (specification and refinement)

    What the server promises about one implement, without messages, blocks and
    bit pairs: a target for every section, which follows the demand while
    automatic mode is on ([SectionController]). The theorem shows that the
    server implements it over any run of its entry points, on the side of the
    implement: whoever listens to its messages ends up with the target of
    every section. Implements differ in the messages they listen to
    ([dialect]): sixteen sections at a time, or one element at a time. *)

From S2P Require Import Prelude Ddop Hierarchy ClientState TcServer ServerFacts.
From S2P Require Import Setpoints Activation Subscription ServerInvariant.

(** ** The specification *)

Record SectionController := {
  automatic : bool;
  target : list bool
}.

(** Sections the demand does not mention keep their target. *)
Definition demand_targets (ss : list bool) (targets : list bool) : list bool :=
  imap (fun i current => default current (ss !! i)) targets.

Section refinement.
Context `{DdopApi} `{DdiCodes}.
Implicit Types (st : ClientState) (srv : MyTCServer) (ss : list bool).

(** The entry points, as far as client [c] is concerned. *)
Definition controller_step (c : Z) (sc : SectionController) (call : server_call)
    : SectionController :=
  match call with
  | UpdateSections ss =>
      if automatic sc
      then {| automatic := true; target := demand_targets ss (target sc) |}
      else sc
  | UpdateControlEnabled enabled => {| automatic := enabled; target := target sc |}
  | Value c' ddi _ v =>
      if (c' =? c) && (ddi =? SectionControlState)
      then {| automatic := v =? 1; target := target sc |}
      else sc
  | _ => sc
  end.

(** The calls that leave client [c] registered with its pool. *)
Definition keeps (c : Z) (call : server_call) : bool :=
  match call with
  | Activate _ c' _ | Deactivate c' | Delete c' | Timeout c' => negb (c' =? c)
  | _ => true
  end.

(** ** The implementation *)

(** A run of calls with its messages. *)
Definition serve_call (acc : MyTCServer * list bus_out) (call : server_call)
    : MyTCServer * list bus_out :=
  (run_call call acc.1, acc.2 ++ call_outputs call acc.1).

Definition serve_calls (calls : list server_call) srv : MyTCServer * list bus_out :=
  foldl serve_call (srv, []) calls.

(** What was sent before a run stays sent. *)
Lemma serve_calls_outputs calls srv outs outs' :
  foldl serve_call (srv, outs ++ outs') calls =
    ((foldl serve_call (srv, outs') calls).1, outs ++ (foldl serve_call (srv, outs') calls).2).
Proof.
  revert srv outs'. induction calls as [|call calls IH]; intros srv outs'; [done|].
  cbn [foldl].
  pose proof (IH (run_call call srv) (outs' ++ call_outputs call srv)) as Hc.
  by rewrite app_assoc in Hc.
Qed.

(** How an implement takes its setpoints: in condensed messages of either
    kind, or from the work state of the element of each section, given here
    in the order of the sections. *)
Inductive dialect : Type :=
  | Condensed
  | PerElement (elements : list Z).

Definition condensed_block (ddi : Z) : option Z :=
  if is_setpoint_condensed ddi then Some (ddi - SetpointCondensedWorkState1_16)
  else if is_actual_condensed ddi then Some (ddi - ActualCondensedWorkState1_16)
  else None.

(** What the implement believes it should do, section by section. *)
Definition hear (d : dialect) (view : Z -> Z) (o : bus_out) : Z -> Z :=
  match o with
  | send_set_value _ ddi element value =>
      match d with
      | Condensed =>
          match condensed_block ddi with
          | Some b => fun s =>
              if (16 * b <=? s) && (s <? 16 * b + 16) then bit_pair value (s - 16 * b) else view s
          | None => view
          end
      | PerElement elements =>
          if ddi =? ActualWorkState then fun s =>
            if bool_decide (zlookup elements s = Some element)
            then (if value =? 1 then ON else OFF) else view s
          else view
      end
  | _ => view
  end.

Definition heard (d : dialect) (outs : list bus_out) (view : Z -> Z) : Z -> Z :=
  foldl (hear d) view outs.

(** ** The relation between the two *)

Definition controller st : SectionController :=
  {| automatic := is_section_control_enabled st;
     target := (fun s => s =? ON) <$> sectionSetpointStates st |}.

Definition in_step st (view : Z -> Z) : Prop :=
  forall s, 0 <= s < numberOfSections st -> view s = get_section_setpoint_state s st.

(** The client is wired for the dialect: it takes condensed messages for all
    its sections, or none, and then has an element of its own for each. *)
Definition per_element_client (elements : list Z) st : Prop :=
  uses_per_element_control st = true /\ get_per_element_setpoint_ddi st = ActualWorkState /\
  sectionToElementNumber st = elements /\ NoDup elements /\ 0 ∉ elements /\
  forall b, 0 <= b < number_of_blocks st ->
    has_element_number_for_ddi (SetpointCondensedWorkState1_16 + b) st = false /\
    has_element_number_for_ddi (ActualCondensedWorkState1_16 + b) st = false.

Definition blocks_wired (d : dialect) st : Prop :=
  match d with
  | Condensed => forall b, 0 <= b < number_of_blocks st -> is_Some (block_ddi st b)
  | PerElement elements => per_element_client elements st
  end.

(** A subscribed client of the dialect. *)
Record wired (d : dialect) st : Prop := {
  wi_wf : wf st;
  wi_subscribed : are_measurement_commands_sent st = true;
  wi_blocks : blocks_wired d st
}.

(** What the calls in question do not touch; condensed reports assign the
    elements of sections anew. *)
Definition same_elements (d : dialect) st st' : Prop :=
  match d with
  | Condensed => True
  | PerElement _ => sectionToElementNumber st' = sectionToElementNumber st
  end.

Definition same_wiring (d : dialect) st st' : Prop :=
  cs_pool st' = cs_pool st /\ ddiToElementNumber st' = ddiToElementNumber st /\
  areMeasurementCommandsSent st' = areMeasurementCommandsSent st /\
  numberOfSections st' = numberOfSections st /\
  usesPerElementControl st' = usesPerElementControl st /\
  perElementSetpointDDI st' = perElementSetpointDDI st /\ same_elements d st st'.

Lemma same_wiring_block_ddi d st st' b : same_wiring d st st' -> block_ddi st' b = block_ddi st b.
Proof.
  intros (Hp & Hd & _).
  unfold block_ddi, has_element_number_for_ddi, is_ddi_settable, get_pool. by rewrite Hp, Hd.
Qed.

Lemma wired_step d st st' : wired d st -> same_wiring d st st' -> wf st' -> wired d st'.
Proof.
  intros [Hwf Hs Hb] Hw Hwf'. pose proof Hw as (_ & Hd & Hs' & Hn & Hu & Hp & He). split; [done| |].
  - unfold are_measurement_commands_sent in *. congruence.
  - destruct d as [|elements]; cbn [blocks_wired] in *.
    + intros b Hbn. rewrite (same_wiring_block_ddi Condensed st st' b Hw). apply Hb.
      unfold number_of_blocks in *. by rewrite <- Hn.
    + destruct Hb as (Hu0 & Hp0 & He0 & Hnd & Hz & Hb).
      unfold per_element_client, uses_per_element_control, get_per_element_setpoint_ddi,
        has_element_number_for_ddi, number_of_blocks in *. cbn in He.
      rewrite Hu, Hp, He, Hd, Hn. by split_and!.
Qed.
(** ** One call, seen from one client *)

Definition client_value (ddi element v : Z) st : ClientState :=
  if is_actual_condensed ddi then on_condensed_work_state ddi element v st
  else if ddi =? SectionControlState then set_section_control_enabled (v =? 1) st
  else if ddi =? ActualWorkState then on_actual_work_state element v st
  else st.

Definition client_call (c : Z) (call : server_call) st : ClientState * list bus_out :=
  match call with
  | Value c' ddi e v => (if c' =? c then client_value ddi (u16 e) v st else st, [])
  | Request => request_client_measurement_commands c st
  | UpdateSections ss => update_client_section_states ss c st
  | UpdateControlEnabled enabled => update_client_section_control_enabled enabled c st
  | SendGnss quality => send_client_gnss_quality quality c st
  | _ => (st, [])
  end.

Lemma lookup_modify_client c c' f srv st :
  clients srv !! c = Some st ->
  clients (modify_client c' f srv) !! c = Some (if c' =? c then f st else st).
Proof.
  intros Hc. unfold modify_client, client_ref. simpl.
  destruct (Z.eqb_spec c' c) as [->|Hne].
  - by rewrite lookup_insert_eq, Hc.
  - by rewrite lookup_insert_ne.
Qed.

Lemma lookup_for_each body srv c st :
  own_messages body -> clients srv !! c = Some st ->
  clients (for_each_client body srv).1 !! c = Some (body c st).1 /\
  to_client c (for_each_client body srv).2 = (body c st).2.
Proof.
  intros Hown Hc. destruct (for_each_client_spec body srv c Hown) as (-> & -> & _).
  by rewrite Hc.
Qed.

Lemma run_call_client c call srv st :
  keeps c call = true -> clients srv !! c = Some st ->
  clients (run_call call srv) !! c = Some (client_call c call st).1 /\
  to_client c (call_outputs call srv) = (client_call c call st).2.
Proof.
  intros Hk Hc. destruct call as [c' bytes|fs c' name|c'|c'|c'|c' d e v| |ss|b|q];
    cbn [keeps run_call call_outputs client_call fst snd] in Hk |- *; simpl;
    try (apply negb_true_iff in Hk; apply Z.eqb_neq in Hk).
  - done.
  - split; [|done]. destruct (activate_object_pool_clients fs c' name srv) as [->|[p ->]]; [done|].
    by rewrite lookup_insert_ne.
  - split; [by rewrite lookup_delete_ne|done].
  - split; [by rewrite lookup_delete_ne|done].
  - split; [by rewrite lookup_delete_ne|done].
  - split; [|done]. unfold client_value.
    destruct (is_actual_condensed d); [by apply lookup_modify_client|].
    destruct (d =? SectionControlState); [by apply lookup_modify_client|].
    destruct (d =? ActualWorkState); [by apply lookup_modify_client|].
    by destruct (c' =? c).
  - exact (lookup_for_each _ srv c st (own_request_client_measurement_commands) Hc).
  - exact (lookup_for_each _ srv c st (own_update_client_section_states ss) Hc).
  - exact (lookup_for_each _ srv c st (own_update_client_section_control_enabled b) Hc).
  - exact (lookup_for_each _ srv c st (own_send_client_gnss_quality q) Hc).
Qed.
(** *** Calls other than a demand *)

Lemma same_setpoints_in_step d st st' view :
  same_wiring d st st' -> sectionSetpointStates st' = sectionSetpointStates st ->
  in_step st view -> in_step st' view.
Proof.
  intros (_ & _ & _ & Hn & _) Hs Hv s Hsn. rewrite Hn in Hsn. rewrite (Hv s Hsn).
  unfold get_section_setpoint_state. by rewrite Hs, Hn.
Qed.

(** Nothing but the actual states and their bookkeeping changes. *)
Definition same_control (d : dialect) st st' : Prop :=
  same_wiring d st st' /\ sectionSetpointStates st' = sectionSetpointStates st /\
  isSectionControlEnabled st' = isSectionControlEnabled st.

Lemma same_control_report st ddi e v :
  same_control Condensed st (on_condensed_work_state ddi e v st).
Proof.
  unfold on_condensed_work_state. apply foldl_ind; [done|].
  intros i st' _ (Hw & Hs & He). unfold condensed_section_step,
    set_element_number_for_section, set_section_actual_state.
  split_and!; repeat case_match; done.
Qed.

Lemma same_control_actual d st e v : same_control d st (on_actual_work_state e v st).
Proof.
  unfold on_actual_work_state, set_element_work_state, set_section_actual_state.
  split_and!; try destruct d; repeat case_match; done.
Qed.

Lemma same_control_controller d st st' : same_control d st st' -> controller st' = controller st.
Proof.
  intros (_ & Hs & He). unfold controller, is_section_control_enabled. by rewrite Hs, He.
Qed.
(** *** A demand *)

Lemma heard_app d o1 o2 view : heard d (o1 ++ o2) view = heard d o2 (heard d o1 view).
Proof. apply foldl_app. Qed.

(** The overall work state says nothing about single sections. *)
Lemma heard_section_messages d outs : forall view,
  heard d (section_messages outs) view = heard d outs view.
Proof.
  induction outs as [|o outs IH]; intros view; [done|].
  unfold section_messages. rewrite filter_cons. fold (section_messages outs).
  unfold heard in *. case_decide as Hd; cbn [foldl]; rewrite IH; [done|].
  destruct o as [c ddi e v|c ddi e v|c ddi e v]; [|done..]. f_equal. cbn in Hd.
  destruct (decide (ddi = SetpointWorkState)) as [->|]; [by destruct d|tauto].
Qed.

Lemma condensed_block_ddi st b d :
  0 <= b < 16 -> block_ddi st b = Some d -> condensed_block d = Some b.
Proof.
  unfold block_ddi, condensed_block, is_setpoint_condensed, is_actual_condensed,
    SetpointCondensedWorkState1_16, SetpointCondensedWorkState241_256,
    ActualCondensedWorkState1_16, ActualCondensedWorkState241_256.
  intros Hb Hd. repeat case_match; simplify_eq; try (f_equal; lia);
    rewrite ?andb_true_iff, ?andb_false_iff, ?Z.leb_le, ?Z.leb_gt in *; lia.
Qed.

Lemma heard_condensed_block c st b view s :
  wf st -> 0 <= b < 16 -> is_Some (block_ddi st b) -> 0 <= s ->
  heard Condensed (block_messages c st b) view s =
    if s / 16 =? b then get_section_setpoint_state s st else view s.
Proof.
  intros Hwf Hb [d Hd] Hs. rewrite (block_messages_condensed c st b d Hb Hd).
  cbn [heard foldl hear]. rewrite (condensed_block_ddi st b d Hb Hd).
  destruct (Z.eqb_spec (s / 16) b) as [Heq|Hne].
  - rewrite (proj2 (Z.leb_le _ _)), (proj2 (Z.ltb_lt _ _)) by (Z.div_mod_to_equations; lia).
    cbn [andb]. rewrite bit_pair_condensed_setpoint_value by
      (done || Z.div_mod_to_equations; lia). f_equal. lia.
  - destruct (Z.leb_spec (16 * b) s), (Z.ltb_spec s (16 * b + 16)); try done.
    exfalso. apply Hne. Z.div_mod_to_equations. lia.
Qed.

(** *** Element by element *)

Lemma element_of_section st s :
  wf st -> 0 <= s < numberOfSections st ->
  zlookup (sectionToElementNumber st) s = Some (get_element_number_for_section s st).
Proof.
  intros Hwf Hs. destruct (zlookup_is_Some (sectionToElementNumber st) s) as [e He];
    [by rewrite (wf_element_length _ Hwf)|].
  unfold get_element_number_for_section. rewrite He.
  rewrite (wf_element_length _ Hwf), (proj2 (Z.ltb_lt _ _) (proj2 Hs)). done.
Qed.

Lemma setpoint_on_off st s :
  wf st -> 0 <= s < numberOfSections st ->
  get_section_setpoint_state s st =
    if (if get_section_setpoint_state s st =? ON then 1 else 0) =? 1 then ON else OFF.
Proof.
  intros Hwf Hs. unfold get_section_setpoint_state.
  rewrite (proj2 (Z.ltb_lt _ _) (proj2 Hs)).
  destruct (zlookup_is_Some (sectionSetpointStates st) s) as [x Hx];
    [by rewrite (wf_setpoint_length _ Hwf)|]. rewrite Hx. cbn.
  by destruct (Forall_zlookup _ _ _ _ (wf_setpoint_states _ Hwf) Hx) as [->| ->].
Qed.

(** The messages for the sections [l] of a per-element client. *)
Lemma heard_elements c st elements l s : forall view,
  wf st -> per_element_client elements st -> 0 <= s < numberOfSections st ->
  (forall i, i ∈ l -> 0 <= i < numberOfSections st) ->
  heard (PerElement elements)
    (omap (fun i =>
       let e := get_element_number_for_section i st in
       if e =? 0 then None
       else Some (send_set_value c (get_per_element_setpoint_ddi st) e
                    (if get_section_setpoint_state i st =? ON then 1 else 0))) l) view s =
    if bool_decide (s ∈ l) then get_section_setpoint_state s st else view s.
Proof.
  intros view Hwf Hp Hs. pose proof Hp as (_ & Hddi & He & Hnd & Hz & _).
  assert (Hel : forall i, 0 <= i < numberOfSections st ->
    zlookup elements i = Some (get_element_number_for_section i st))
    by (intros i Hi; rewrite <- He; by apply element_of_section).
  revert view. induction l as [|i l IH]; intros view Hl; [done|]. cbn [omap list_omap].
  assert (Hi : 0 <= i < numberOfSections st) by (apply Hl; left).
  assert (Hne : get_element_number_for_section i st <> 0).
  { intros E. apply Hz. rewrite <- E. specialize (Hel i Hi).
    by apply list_elem_of_lookup_2 in Hel. }
  rewrite (proj2 (Z.eqb_neq _ _) Hne). unfold heard in IH |- *. cbn [foldl].
  rewrite IH by (intros; apply Hl; by right). cbn [hear]. rewrite Hddi, Z.eqb_refl.
  rewrite (Hel s Hs). destruct (decide (s = i)) as [->|Hsi].
  - rewrite (bool_decide_eq_true_2 (i ∈ i :: l)) by left.
    rewrite (bool_decide_eq_true_2 (Some _ = _)) by done.
    rewrite <- (setpoint_on_off st i Hwf Hi). by destruct (bool_decide (i ∈ l)).
  - rewrite (bool_decide_eq_false_2 (Some _ = _)).
    2: { intros [= E]. apply Hsi. pose proof (Hel s Hs) as H1. pose proof (Hel i Hi) as H2.
         rewrite E in H1. unfold zlookup in H1, H2.
         pose proof (NoDup_lookup _ _ _ _ Hnd H1 H2). lia. }
    assert (Hiff : s ∈ i :: l <-> s ∈ l) by (rewrite elem_of_cons; tauto).
    by rewrite (bool_decide_ext _ _ Hiff).
Qed.

Lemma heard_element_block c st elements b view s :
  wf st -> per_element_client elements st -> 0 <= b < number_of_blocks st -> b < 16 ->
  0 <= s < numberOfSections st ->
  heard (PerElement elements) (block_messages c st b) view s =
    if s / 16 =? b then get_section_setpoint_state s st else view s.
Proof.
  intros Hwf Hp Hb Hb16 Hs. pose proof Hp as (Hu & Hddi & _ & _ & _ & Hno).
  destruct (Hno b Hb) as [Hm Hl].
  rewrite block_messages_per_element by (done || lia || by rewrite Hddi).
  unfold per_element_messages. rewrite (heard_elements c st elements _ s view Hwf Hp Hs).
  - destruct (Z.eqb_spec (s / 16) b) as [E|E].
    + rewrite bool_decide_eq_true_2; [done|]. apply elem_of_seqZ. Z.div_mod_to_equations. lia.
    + rewrite bool_decide_eq_false_2; [done|]. intros Hin%elem_of_seqZ. apply E.
      Z.div_mod_to_equations. lia.
  - intros i Hi%elem_of_seqZ. unfold number_of_blocks in Hb. lia.
Qed.

(** *** Either way *)

Lemma heard_block d c st b view s :
  wired d st -> 0 <= b < number_of_blocks st -> 0 <= s < numberOfSections st ->
  heard d (block_messages c st b) view s =
    if s / 16 =? b then get_section_setpoint_state s st else view s.
Proof.
  intros [Hwf _ Hblocks] Hb Hs.
  assert (Hn : number_of_blocks st <= 16).
  { pose proof (wf_number _ Hwf) as Hu. unfold number_of_blocks. width. }
  destruct d as [|elements].
  - apply heard_condensed_block; [done|lia|by apply Hblocks|lia].
  - apply heard_element_block; [done..|lia|done].
Qed.

Lemma heard_blocks d c st bs : forall view s,
  wired d st -> (forall b, b ∈ bs -> 0 <= b < number_of_blocks st) ->
  0 <= s < numberOfSections st ->
  heard d (concat (block_messages c st <$> bs)) view s =
    if decide (s / 16 ∈ bs) then get_section_setpoint_state s st else view s.
Proof.
  induction bs as [|b bs IH]; intros view s Hw Hbs Hs; cbn [fmap list_fmap concat].
  { by rewrite decide_False by apply not_elem_of_nil. }
  rewrite heard_app, IH by (try done; intros; apply Hbs; by right).
  rewrite heard_block by (try done; apply Hbs; left).
  destruct (Z.eqb_spec (s / 16) b) as [->|Hne].
  - rewrite (decide_True (P := b ∈ b :: bs)) by left. by case_decide.
  - repeat case_decide; set_solver.
Qed.
Lemma apply_demand_targets ss st :
  (fun s => s =? ON) <$> sectionSetpointStates (apply_demand ss st) =
  demand_targets ss ((fun s => s =? ON) <$> sectionSetpointStates st).
Proof.
  unfold demand_targets. apply list_eq. intros i.
  rewrite list_lookup_imap, !list_lookup_fmap. cbn. rewrite list_lookup_imap.
  destruct (sectionSetpointStates st !! i) as [cur|]; [|done]. cbn. f_equal.
  unfold demanded, zlookup. rewrite Nat2Z.id. by destruct (ss !! i) as [[]|].
Qed.

Lemma section_of_block s n : 0 <= s < n -> 0 <= s / 16 < (n + 15) / 16.
Proof. intros. Z.div_mod_to_equations. lia. Qed.

Lemma unchanged_block ss st s :
  0 <= s < numberOfSections st -> block_changed ss st (s / 16) = false ->
  demanded ss s (get_section_setpoint_state s st) = get_section_setpoint_state s st.
Proof.
  intros Hs Hb. destruct (section_changed ss st s) eqn:Hc.
  - assert (Ht : block_changed ss st (s / 16) = true); [|congruence].
    apply existsb_exists. exists s. split; [|done]. apply list_elem_of_In, elem_of_seqZ.
    Z.div_mod_to_equations. lia.
  - unfold section_changed in Hc. apply negb_false_iff, Z.eqb_eq in Hc. done.
Qed.

Lemma wired_apply_demand d ss st : wired d st -> wired d (apply_demand ss st).
Proof.
  intros Hw. apply (wired_step d st); [done| |by apply wf_apply_demand, Hw].
  by destruct d.
Qed.

Lemma demand_step d ss c st view :
  wired d st -> is_section_control_enabled st = true -> in_step st view ->
  let r := update_client_section_states ss c st in
  same_wiring d st r.1 /\ wf r.1 /\ in_step r.1 (heard d r.2 view) /\
  controller r.1 =
    {| automatic := true; target := demand_targets ss (target (controller st)) |}.
Proof.
  intros Hw Hen Hv. cbn zeta. pose proof (wi_wf _ _ Hw) as Hwf.
  destruct (update_client_section_states_spec ss c st Hwf Hen) as [[w Hst] Ho].
  pose proof (wf_update_client_section_states ss c st Hwf) as Hwf'.
  rewrite <- (heard_section_messages d _ view), Ho. clear Ho. rewrite Hst in Hwf' |- *.
  split_and!; [by destruct d|..| |]; [done| |].
  - intros s Hs. cbn in Hs. unfold due_messages.
    change (get_section_setpoint_state s (setpoint_variant w _ st))
      with (get_section_setpoint_state s (apply_demand ss st)).
    pose proof (section_of_block s _ Hs) as Hsb. fold (number_of_blocks st) in Hsb.
    rewrite heard_blocks; [|by apply wired_apply_demand| |done].
    + case_decide as Hin; [done|]. rewrite get_section_setpoint_state_apply_demand by done.
      rewrite unchanged_block, Hv; [done..|].
      destruct (block_changed ss st (s / 16)) eqn:Hc; [|done]. destruct Hin.
      apply list_elem_of_filter. split; [done|]. apply elem_of_seqZ. lia.
    + intros b (_ & Hb%elem_of_seqZ)%list_elem_of_filter.
      change (number_of_blocks (apply_demand ss st)) with (number_of_blocks st). lia.
  - unfold controller at 2. cbn [target]. rewrite <- apply_demand_targets.
    unfold controller. f_equal. exact Hen.
Qed.

(** *** Every call *)

(** The relation between specification and implementation. *)
Record implements (d : dialect) st (view : Z -> Z) (sc : SectionController) : Prop := {
  im_client : wired d st;
  im_view : in_step st view;
  im_controller : controller st = sc
}.

(** The calls that leave the client registered, and its elements where they
    are when it depends on them. *)
Definition permits (d : dialect) (c : Z) (call : server_call) : bool :=
  keeps c call &&
  match d, call with
  | PerElement _, Value c' ddi _ _ => negb ((c' =? c) && is_actual_condensed ddi)
  | _, _ => true
  end.

Lemma permits_keeps d c call : permits d c call = true -> keeps c call = true.
Proof. by intros [? _]%andb_prop. Qed.

Lemma implements_same_control d st st' view sc :
  same_control d st st' -> wf st' -> implements d st view sc -> implements d st' view sc.
Proof.
  intros Hsame Hwf' [Hc Hv <-]. pose proof Hsame as (Hw & Hs & _). split.
  - by apply (wired_step d st).
  - by apply (same_setpoints_in_step d st).
  - by apply (same_control_controller d).
Qed.

Lemma implements_automatic d b st view sc :
  implements d st view sc ->
  implements d (with_isSectionControlEnabled b st) view {| automatic := b; target := target sc |}.
Proof.
  intros [Hc Hv <-]. split; [|done..].
  apply (wired_step d st); [done|by destruct d|]. apply wf_with_isSectionControlEnabled, Hc.
Qed.

Lemma client_value_implements `{!DdiLaws} d ddi e v st view sc :
  is_u16 e -> match d with Condensed => True | PerElement _ => is_actual_condensed ddi = false end ->
  implements d st view sc ->
  implements d (client_value ddi e v st) view
    (if ddi =? SectionControlState then {| automatic := v =? 1; target := target sc |} else sc).
Proof.
  intros He Hd Hi. pose proof (wi_wf _ _ (im_client _ _ _ _ Hi)) as Hwf. unfold client_value.
  destruct (Z.eqb_spec ddi SectionControlState) as [->|Hne].
  - assert (is_actual_condensed SectionControlState = false) as ->.
    { destruct SectionControlState_fresh as (_ & Hr & _). unfold is_actual_condensed.
      apply andb_false_iff. rewrite !Z.leb_gt. lia. }
    by apply implements_automatic.
  - destruct (is_actual_condensed ddi).
    { destruct d; [|done]. apply (implements_same_control _ st); [apply same_control_report| |done].
      by apply wf_on_condensed_work_state. }
    destruct (ddi =? ActualWorkState); [|done].
    apply (implements_same_control _ st); [apply same_control_actual| |done].
    by apply wf_on_actual_work_state.
Qed.

(** The section control state is not a setpoint in either dialect. *)
Lemma hear_control `{!DdiLaws} d view c e v :
  hear d view (send_set_value c SectionControlState e v) = view.
Proof.
  destruct SectionControlState_fresh as (Hw & Ha & Hs & _). destruct d; cbn [hear].
  - unfold condensed_block, is_setpoint_condensed, is_actual_condensed.
    unfold SetpointWorkState, SetpointCondensedWorkState1_16 in *. bool_cases; done || lia.
  - by rewrite (proj2 (Z.eqb_neq _ _) Hw).
Qed.

Lemma client_call_implements `{!DdiLaws} d c call st view sc :
  permits d c call = true -> implements d st view sc ->
  implements d (client_call c call st).1 (heard d (client_call c call st).2 view)
    (controller_step c sc call).
Proof.
  intros Hp Hi. pose proof (im_client _ _ _ _ Hi) as Hc.
  destruct call as [| | | | |c' ddi e v| |ss|b|q]; try exact Hi; cbn [client_call controller_step].
  - cbn [fst snd heard foldl].
    destruct (Z.eqb_spec c' c) as [->|]; cbn [andb]; [|done].
    apply client_value_implements; [apply u16_range| |done].
    destruct d; [done|]. cbn in Hp. rewrite Z.eqb_refl in Hp. by apply negb_true_iff in Hp.
  - rewrite request_client_skipped by (left; apply Hc). exact Hi.
  - destruct Hi as [_ Hv <-]. cbn [controller automatic].
    destruct (is_section_control_enabled st) eqn:Hen.
    + destruct (demand_step d ss c st view Hc Hen Hv) as (Hw & Hwf & Hv' & Hsc).
      split; [by apply (wired_step d st)|done|done].
    + unfold update_client_section_states. rewrite Hen. by split.
  - unfold update_client_section_control_enabled, send_section_control_state. cbn [fst snd].
    replace (heard d _ view) with view.
    + destruct Hi as [Hcc Hv <-]. pose proof (implements_automatic d b st view (controller st)) as Hb.
      destruct (Bool.eqb _ b) eqn:E; [|by apply Hb].
      apply Bool.eqb_prop in E. cbn [negb]. split; [done..|].
      unfold controller. by rewrite E.
    + destruct (_ && _); [|done]. cbn [heard foldl]. by rewrite hear_control.
  - unfold send_client_gnss_quality. cbn [fst snd].
    destruct (has_element_number_for_ddi _ _); [|done]. by destruct d.
Qed.

Lemma serve_calls_app calls call srv :
  serve_calls (calls ++ [call]) srv = serve_call (serve_calls calls srv) call.
Proof. unfold serve_calls. by rewrite foldl_app. Qed.

Lemma serve_calls_implements `{!DdiLaws} d c calls srv st view :
  clients srv !! c = Some st -> implements d st view (controller st) ->
  Forall (fun call => permits d c call = true) calls ->
  exists st', clients (serve_calls calls srv).1 !! c = Some st' /\
    implements d st' (heard d (to_client c (serve_calls calls srv).2) view)
      (foldl (controller_step c) (controller st) calls).
Proof.
  intros Hc Hi. induction calls as [|call calls IH] using rev_ind; [by exists st|].
  intros [Hk Hks]%Forall_app. apply Forall_cons in Hks as [Hkc _].
  destruct (IH Hk) as (st' & Hc' & Hi'). clear IH. rewrite serve_calls_app.
  destruct (serve_calls calls srv) as [srv' outs]. cbn [serve_call fst snd] in *.
  destruct (run_call_client c call srv' st' (permits_keeps _ _ _ Hkc) Hc') as [Hl Ho].
  exists (client_call c call st').1. split; [done|].
  rewrite to_client_app, heard_app, Ho, foldl_app. by apply client_call_implements.
Qed.
Lemma controller_length c calls sc :
  length (target (foldl (controller_step c) sc calls)) = length (target sc).
Proof.
  revert sc. induction calls as [|call calls IH]; intros sc; [done|].
  cbn [foldl]. rewrite IH. destruct call; try done; cbn [controller_step].
  - by destruct (_ && _).
  - destruct (automatic sc); [|done]. apply length_imap.
Qed.

Lemma implements_target d st view sc s :
  implements d st view sc -> 0 <= s < numberOfSections st ->
  view s = if nth (Z.to_nat s) (target sc) false then ON else OFF.
Proof.
  intros [[Hwf _ _] Hv <-] Hs. rewrite (Hv s Hs). unfold get_section_setpoint_state.
  rewrite (proj2 (Z.ltb_lt _ _) (proj2 Hs)). cbn [controller target].
  destruct (zlookup_is_Some (sectionSetpointStates st) s) as [x Hx];
    [by rewrite (wf_setpoint_length _ Hwf)|].
  rewrite Hx. cbn [default from_option].
  assert (Hn : ((fun s => s =? ON) <$> sectionSetpointStates st) !! Z.to_nat s = Some (x =? ON)).
  { rewrite list_lookup_fmap. unfold zlookup in Hx. by rewrite Hx. }
  rewrite (nth_lookup_Some _ _ _ _ Hn).
  by destruct (Forall_zlookup _ _ _ _ (wf_setpoint_states _ Hwf) Hx) as [->| ->].
Qed.

Lemma implements_sections d st' view st calls c :
  implements d st' view (foldl (controller_step c) (controller st) calls) -> wf st ->
  numberOfSections st' = numberOfSections st.
Proof.
  intros Hi Hwf. pose proof (controller_length c calls (controller st)) as Hl.
  rewrite <- (im_controller _ _ _ _ Hi) in Hl. cbn in Hl. rewrite !length_fmap in Hl.
  rewrite <- (wf_setpoint_length st') by apply Hi.
  rewrite <- (wf_setpoint_length st) by done. unfold zlength. by rewrite Hl.
Qed.

(** C5: the server implements the specification. Take any run of its entry
    points during which client [c] stays registered with the same pool, a
    subscribed client that takes its setpoints in dialect [d], in condensed
    messages for all its sections or by an element of its own for each, in
    step with the server at the start; one that depends on its elements does
    not send condensed reports. At the end the implement, which only hears the
    messages of its dialect among those sent to it, believes of every section
    exactly what the section controller has as its target: the latest demand
    that arrived in automatic mode. *)
Theorem server_refines_controller `{!DdiLaws} (d : dialect) (c : Z) (calls : list server_call)
    (srv : MyTCServer) (st : ClientState) (view : Z -> Z)
    (Hc : clients srv !! c = Some st) (Hw : wired d st) (Hv : in_step st view)
    (Hk : Forall (fun call => permits d c call = true) calls) :
  let '(srv', outs) := serve_calls calls srv in
  let sc := foldl (controller_step c) (controller st) calls in
  exists st', clients srv' !! c = Some st' /\ controller st' = sc /\
    numberOfSections st' = numberOfSections st /\
    forall s, 0 <= s < numberOfSections st ->
      heard d (to_client c outs) view s =
      if nth (Z.to_nat s) (target sc) false then ON else OFF.
Proof.
  destruct (serve_calls_implements d c calls srv st view Hc) as (st' & Hc' & Hi); [by split|done|].
  destruct (serve_calls calls srv) as [srv' outs]. cbn [fst snd] in *.
  pose proof (implements_sections _ _ _ st calls c Hi (wi_wf _ _ Hw)) as Hn.
  exists st'. split_and!; [done|apply Hi|done|]. intros s Hs.
  eapply implements_target; [done|by rewrite Hn].
Qed.

(** ** A demand before the subscription *)

(** A loop in which no section changes. *)
Lemma unchanged_loop ss c st :
  (forall i d, 0 <= i < numberOfSections st -> zlookup ss i = Some d ->
     d = (get_section_setpoint_state i st =? ON)) ->
  update_client_section_states ss c st = (st, []).
Proof.
  intros Hsame. unfold update_client_section_states, get_number_of_sections.
  destruct (negb _); [done|]. destruct (_ =? 0); [done|].
  replace (foldl _ _ _) with (st, false, @nil bus_out); [done|]. symmetry.
  apply (foldl_ind (fun acc => acc = (st, false, @nil bus_out))); [done|].
  intros i acc Hi%elem_of_seqZ ->. unfold update_section_step, flush_previous_block.
  rewrite andb_false_r. unfold follow_demand.
  destruct (zlookup ss i) as [d|] eqn:Hd; [|done].
  by rewrite (Hsame i d ltac:(lia) Hd), eqb_reflx.
Qed.

(** Before the subscription no process data object is addressed: a client is
    told of a block element by element or not at all. *)
Lemma unsubscribed_block c b st :
  ddiToElementNumber st = ∅ ->
  section_block c st b = if uses_per_element_control st then per_element_messages c st b else [].
Proof.
  intros Hd. unfold section_block, has_element_number_for_ddi. by rewrite Hd, !lookup_empty.
Qed.

(** What a client that is controlled by element is told on a demand. *)
Definition element_messages ss c st : list bus_out :=
  concat (per_element_messages c (apply_demand ss st) <$>
    filter (fun b => block_changed ss st b = true) (seqZ 0 (number_of_blocks st))).

Lemma unsubscribed_update ss c st :
  wf st -> is_section_control_enabled st = true -> ddiToElementNumber st = ∅ ->
  (update_client_section_states ss c st).2 =
    if uses_per_element_control st then element_messages ss c st else [].
Proof.
  intros Hwf Hauto Hd. destruct (decide (0 < numberOfSections st)) as [Hpos|Hz].
  - destruct (update_client_section_states_told ss c st Hwf Hauto Hpos) as [_ ->].
    unfold told_blocks, element_messages.
    induction (filter _ _) as [|b bs IH] using rev_ind; [by destruct (uses_per_element_control st)|].
    rewrite foldl_snoc, fmap_app, concat_app. unfold tell_next at 1. cbn [snd]. rewrite IH.
    unfold tell_block, has_element_number_for_ddi. rewrite Hd, lookup_empty, andb_false_r.
    cbn [andb snd fmap list_fmap concat]. rewrite unsubscribed_block by exact Hd.
    change (uses_per_element_control (apply_demand ss st)) with (uses_per_element_control st).
    destruct (uses_per_element_control st); [by rewrite app_nil_r|done].
  - pose proof (wf_number _ Hwf) as Hn8. unfold is_u8 in Hn8.
    assert (Hzero : numberOfSections st = 0) by lia.
    unfold update_client_section_states, element_messages, number_of_blocks,
      get_number_of_sections.
    rewrite Hauto, Hzero. by destruct (uses_per_element_control st).
Qed.

Lemma unchanged_again ss c st st' :
  wf st -> numberOfSections st' = numberOfSections st ->
  (forall i, 0 <= i < numberOfSections st -> get_section_setpoint_state i st' =
     demanded ss i (get_section_setpoint_state i st)) ->
  update_client_section_states ss c st' = (st', []).
Proof.
  intros Hwf Hn Hs. apply unchanged_loop. intros i d Hi Hd. rewrite Hn in Hi.
  rewrite Hs by done. unfold demanded. rewrite Hd. by destruct d.
Qed.

(** C21: a demand that reaches a client in automatic mode before the
    subscription to its process data is lost, unless the client is controlled
    by element. With condensed messages nothing is sent, since the elements
    behind the process data are not known yet, but the setpoints are changed;
    after the subscription the same demand, however often it is repeated,
    changes no setpoint and is therefore never sent. A client that is
    controlled by element is told at once, the elements of the sections of
    each block with a change. *)
Theorem early_demand_never_sent (ss : list bool) (c : Z) (srv : MyTCServer)
    (st : ClientState) (Hc : clients srv !! c = Some st) (Hwf : wf st)
    (Hunsubscribed : ddiToElementNumber st = ∅)
    (Hauto : is_section_control_enabled st = true) :
  let '(srv1, outs1) := update_section_states ss srv in
  let srv2 := (request_measurement_commands srv1).1 in
  let '(srv3, outs3) := update_section_states ss srv2 in
  to_client c outs1 =
    (if uses_per_element_control st then element_messages ss c st else []) /\
  to_client c outs3 = [] /\
  exists st2, clients srv2 !! c = Some st2 /\ clients srv3 !! c = Some st2 /\
    forall i, 0 <= i < numberOfSections st ->
      get_section_setpoint_state i st2 =
      demanded ss i (get_section_setpoint_state i st).
Proof.
  destruct (lookup_for_each (update_client_section_states ss) srv c st
    (own_update_client_section_states ss) Hc) as [Hc1 Ho1].
  fold (update_section_states ss srv) in Hc1, Ho1.
  destruct (update_section_states ss srv) as [srv1 outs1]. cbn [fst snd] in *.
  destruct (lookup_for_each _ srv1 c _ own_request_client_measurement_commands Hc1)
    as [Hc2 _]. fold (request_measurement_commands srv1) in Hc2.
  set (srv2 := (request_measurement_commands srv1).1) in *.
  destruct (lookup_for_each (update_client_section_states ss) srv2 c _
    (own_update_client_section_states ss) Hc2) as [Hc3 Ho3].
  fold (update_section_states ss srv2) in Hc3, Ho3.
  destruct (update_section_states ss srv2) as [srv3 outs3]. cbn [fst snd] in *.
  destruct (update_client_section_states_spec ss c st Hwf Hauto) as [[w Hst1] _].
  rewrite Ho1, unsubscribed_update by done.
  destruct (request_client_frame c (update_client_section_states ss c st).1) as (b & m & Hst2).
  rewrite Hst2, Hst1 in Hc2, Hc3, Ho3.
  set (st2 := with_areMeasurementCommandsSent _ _) in *.
  assert (Hsp : forall i, 0 <= i < numberOfSections st -> get_section_setpoint_state i st2 =
    demanded ss i (get_section_setpoint_state i st)).
  { intros i Hi. by rewrite <- get_section_setpoint_state_apply_demand. }
  rewrite (unchanged_again ss c st st2 Hwf eq_refl Hsp) in Hc3, Ho3.
  split; [done|]. split; [done|]. by exists st2.
Qed.
End refinement.
