(* ===== verification/Locking.v ===== *)
(** * Two threads and one recursive mutex

    What [std::lock_guard<std::recursive_mutex>] at the top of every method
    gives. The code of a method is a tree of the places where another thread
    can come in between: it takes or releases the mutex, or reads and writes
    the protected state and sends something, and goes on with what it has
    read. Two threads run their methods step by step, in any order that the
    mutex allows. If every method keeps its accesses inside of one outermost
    lock, such a run does what the methods do one at a time, in an order that
    is an interleaving of the two threads, and the threads do not block each
    other for good. ServerLocks.v has the methods of the server as such
    code. *)

From S2P Require Import Prelude.

#[local] Set Default Proof Using "All".

Inductive thread_id : Type := MainThread | CanThread.

#[export] Instance thread_id_eq_dec : EqDecision thread_id.
Proof. solve_decision. Defined.

Section locking.
(** The protected state, and what is sent while it is held. *)
Context {St Out : Type}.

Inductive code : Type :=
  | Done
  | Lock (k : code)
  | Unlock (k : code)
  | Access (f : St -> St * list Out) (k : St -> code).

(** The code alone, without another thread. The continuation of an access gets
    the state that was read. *)
Fixpoint exec (c : code) (s : St) : St * list Out :=
  match c with
  | Done => (s, [])
  | Lock k | Unlock k => exec k s
  | Access f k =>
      let '(s', outs) := f s in
      let '(s'', outs') := exec (k s) s' in
      (s'', outs ++ outs')
  end.

(** The states that the code passes through alone, the first and the last one
    included. *)
Fixpoint passes (c : code) (s : St) : list St :=
  match c with
  | Done => [s]
  | Lock k | Unlock k => s :: passes k s
  | Access f k => s :: passes (k s) (f s).1
  end.

(** What was sent before, and then the rest. *)
Definition after (outs : list Out) (r : St * list Out) : St * list Out := (r.1, outs ++ r.2).

Lemma after_nil r : after [] r = r.
Proof. by destruct r. Qed.

Lemma after_after a b r : after a (after b r) = after (a ++ b) r.
Proof. unfold after. cbn. by rewrite app_assoc. Qed.

Lemma exec_access (f : St -> St * list Out) k s :
  exec (Access f k) s = after (f s).2 (exec (k s) (f s).1).
Proof. cbn. destruct (f s) as [s' outs]. cbn. by destruct (exec (k s) s'). Qed.

Lemma exec_lock k s : exec (Lock k) s = exec k s.
Proof. done. Qed.

Lemma exec_unlock k s : exec (Unlock k) s = exec k s.
Proof. done. Qed.

(** Code that holds the mutex [d] times: it gives all of them back, takes it
    again only while it holds it, and touches the state only then. *)
Fixpoint guarded (d : nat) (c : code) : Prop :=
  match c with
  | Done => d = 0%nat
  | Lock k => d <> 0%nat /\ guarded (S d) k
  | Unlock k => match d with O => False | S d => guarded d k end
  | Access f k => d <> 0%nat /\ forall s, guarded d (k s)
  end.

(** A method takes the mutex first. *)
Definition method (c : code) : Prop :=
  match c with Lock k => guarded 1 k | _ => False end.

(** A thread between two methods, or inside of one with the rest of its code;
    and the methods it has still to call. *)
Inductive thread : Type :=
  | Between (calls : list code)
  | Inside (call rest : code) (calls : list code).

(** [holder]: the owner of the mutex and how often it has taken it. *)
Record Machine := {
  shared : St;
  sent : list Out;
  holder : option (thread_id * nat);
  threads : thread_id -> thread
}.

Definition start (s : St) (main can : list code) : Machine := {|
  shared := s; sent := []; holder := None;
  threads := fun t => Between (match t with MainThread => main | CanThread => can end) |}.

Definition set_thread (t : thread_id) (x : thread) (m : Machine) : Machine := {|
  shared := shared m; sent := sent m; holder := holder m;
  threads := fun t' => if decide (t' = t) then x else threads m t' |}.

Definition set_holder (h : option (thread_id * nat)) (m : Machine) : Machine :=
  {| shared := shared m; sent := sent m; holder := h; threads := threads m |}.

Definition set_shared (s : St) (outs : list Out) (m : Machine) : Machine :=
  {| shared := s; sent := sent m ++ outs; holder := holder m; threads := threads m |}.

(** Whether the mutex is a recursive one. *)
Context (recursive : bool).

(** [None]: the caller blocks. *)
Definition acquire (t : thread_id) (h : option (thread_id * nat)) : option (thread_id * nat) :=
  match h with
  | None => Some (t, 1%nat)
  | Some (t', d) => if bool_decide (t' = t) && recursive then Some (t, S d) else None
  end.

Definition release (h : option (thread_id * nat)) : option (thread_id * nat) :=
  match h with
  | Some (t, S (S d)) => Some (t, S d)
  | _ => None
  end.

(** The next step of a thread; [None]: it is blocked, or has nothing left. *)
Definition thread_step (t : thread_id) (m : Machine) : option Machine :=
  match threads m t with
  | Between [] => None
  | Between (call :: calls) => Some (set_thread t (Inside call call calls) m)
  | Inside call Done calls => Some (set_thread t (Between calls) m)
  | Inside call (Lock k) calls =>
      h ← acquire t (holder m);
      Some (set_holder (Some h) (set_thread t (Inside call k calls) m))
  | Inside call (Unlock k) calls =>
      Some (set_holder (release (holder m)) (set_thread t (Inside call k calls) m))
  | Inside call (Access f k) calls =>
      let '(s', outs) := f (shared m) in
      Some (set_shared s' outs (set_thread t (Inside call (k (shared m)) calls) m))
  end.

Fixpoint run_schedule (ts : list thread_id) (m : Machine) : option Machine :=
  match ts with
  | [] => Some m
  | t :: ts => m' ← thread_step t m; run_schedule ts m'
  end.

Definition finished (m : Machine) : Prop := forall t, threads m t = Between [].

(** Methods one at a time. *)
Definition exec_step (acc : St * list Out) (c : code) : St * list Out :=
  let '(s', outs) := exec c acc.1 in (s', acc.2 ++ outs).

Definition exec_all (cs : list code) (s : St) : St * list Out := foldl exec_step (s, []) cs.
End locking.

Arguments code : clear implicits.
Arguments Machine : clear implicits.

(** ** The same code with other outputs *)

Section outputs.
Context {St Out Out' : Type} (g : Out -> Out').

Fixpoint map_code (c : code St Out) : code St Out' :=
  match c with
  | Done => Done
  | Lock k => Lock (map_code k)
  | Unlock k => Unlock (map_code k)
  | Access f k => Access (fun s => let '(s', outs) := f s in (s', g <$> outs)) (fun s => map_code (k s))
  end.

Lemma exec_map_code c : forall s, exec (map_code c) s = ((exec c s).1, g <$> (exec c s).2).
Proof.
  induction c as [|k IH|k IH|f k IH]; intros s; cbn; auto.
  destruct (f s) as [s' outs]. rewrite IH. destruct (exec (k s) s') as [s'' outs']. cbn.
  by rewrite fmap_app.
Qed.

Lemma guarded_map_code c : forall d, guarded d c -> guarded d (map_code c).
Proof.
  induction c as [|k IH|k IH|f k IH]; intros d Hg; cbn in *; [done|..].
  - destruct Hg. auto.
  - destruct d; auto.
  - destruct Hg. auto.
Qed.

Lemma method_map_code c : method c -> method (map_code c).
Proof. destruct c; [done|apply guarded_map_code|done..]. Qed.
End outputs.

(** ** Serializability *)

(** Reduces the parts of a machine, and nothing else. *)
#[local] Ltac parts :=
  unfold set_thread, set_holder, set_shared in *; cbn [shared sent holder threads release].

Section serial.
Context {St Out : Type}.
Implicit Types (m : Machine St Out) (c call : code St Out).

(** The calls of each thread so far in an order they could have been made. *)
Definition picks (t : thread_id) (a : list (code St Out)) (b : list (code St Out)) :=
  match t with MainThread => a | CanThread => b end.

(** Where a thread is: [done] are the methods it has completed. *)
Definition thread_ok (all done : list (code St Out)) (holds : option nat) (x : thread) : Prop :=
  match x with
  | Between calls => all = done ++ calls /\ holds = None
  | Inside call c calls =>
      match holds with
      | Some d => all = done ++ call :: calls /\ d <> 0%nat /\ guarded d c
      | None => all = done ++ call :: calls /\ c = call \/ all = done ++ calls /\ c = Done
      end
  end.

Definition holds m (t : thread_id) : option nat :=
  match holder m with
  | Some (t', d) => if decide (t' = t) then Some d else None
  | None => None
  end.

(** What the methods in the order [l] have done, and what the method that is
    under way will have done when it is let through to its end; until then it
    passes through the states it has alone. *)
Definition state_ok (s0 : St) (l : list (code St Out)) m : Prop :=
  match holder m with
  | None => exec_all l s0 = (shared m, sent m)
  | Some (t, _) => exists call c calls, threads m t = Inside call c calls /\
      exec_all (l ++ [call]) s0 = ((exec c (shared m)).1, sent m ++ (exec c (shared m)).2) /\
      passes c (shared m) ⊆ passes call (exec_all l s0).1
  end.

Record machine_ok (s0 : St) (main can main1 can1 l : list (code St Out)) m : Prop := {
  mo_merge : merge main1 can1 l;
  mo_thread : forall t, thread_ok (picks t main can) (picks t main1 can1) (holds m t) (threads m t);
  mo_state : state_ok s0 l m
}.

Lemma machine_ok_start s0 main can : machine_ok s0 main can [] [] [] (start s0 main can).
Proof. split; [constructor|by intros []|done]. Qed.

Lemma exec_all_snoc l c s0 :
  exec_all (l ++ [c]) s0 =
    ((exec c (exec_all l s0).1).1, (exec_all l s0).2 ++ (exec c (exec_all l s0).1).2).
Proof.
  unfold exec_all at 1. rewrite foldl_app. cbn [foldl]. unfold exec_step at 1.
  unfold exec_all. by destruct (exec c _).
Qed.

(** A step of a thread that changes nothing but the place of that thread. *)
Lemma machine_ok_place s0 main can main1 can1 l m t x :
  machine_ok s0 main can main1 can1 l m -> holds m t = None ->
  thread_ok (picks t main can) (picks t main1 can1) None x ->
  machine_ok s0 main can main1 can1 l (set_thread t x m).
Proof.
  intros [Hm Ht Hs] Hh Hx. split; [done|..].
  - intros t'. change (holds (set_thread t x m) t') with (holds m t'). parts.
    destruct (decide (t' = t)) as [->|]; [by rewrite Hh|apply Ht].
  - unfold state_ok in *. parts. destruct (holder m) as [[t' d]|] eqn:E; [|done].
    unfold holds in Hh. rewrite E in Hh. case_decide as Hne; [done|].
    exact Hs.
Qed.

(** A step of the owner of the mutex that leaves it the owner. *)
Lemma machine_ok_owner s0 main can main1 can1 l m t d call c calls d' c' s' outs' :
  machine_ok s0 main can main1 can1 l m ->
  holder m = Some (t, d) -> threads m t = Inside call c calls ->
  d' <> 0%nat -> guarded d' c' ->
  ((exec c (shared m)).1, sent m ++ (exec c (shared m)).2) =
    ((exec c' s').1, (sent m ++ outs') ++ (exec c' s').2) ->
  passes c' s' ⊆ passes c (shared m) ->
  machine_ok s0 main can main1 can1 l
    (set_shared s' outs' (set_holder (Some (t, d')) (set_thread t (Inside call c' calls) m))).
Proof.
  intros [Hm Ht Hs] Hh Hc Hd Hg He Hp. split; [done|..].
  - intros t'. specialize (Ht t'). unfold holds in *. rewrite Hh in Ht. parts.
    destruct (decide (t' = t)) as [->|Hne].
    + rewrite decide_True in Ht |- * by done. rewrite Hc in Ht. cbn in *. by destruct Ht.
    + rewrite decide_False in Ht |- * by congruence. done.
  - unfold state_ok in *. rewrite Hh in Hs. parts. destruct Hs as (call' & c1 & calls' & Hc' & Hs & Hl).
    rewrite Hc in Hc'. injection Hc' as <- <- <-. exists call, c', calls.
    rewrite decide_True by done. split_and!; [done|by rewrite Hs, He|]. by etransitivity.
Qed.

(** The owner gives the mutex back for good: its method is complete. *)
Lemma machine_ok_complete s0 main can main1 can1 l m t call calls :
  machine_ok s0 main can main1 can1 l m ->
  holder m = Some (t, 1%nat) -> threads m t = Inside call (Unlock Done) calls ->
  exists main2 can2, machine_ok s0 main can main2 can2 (l ++ [call])
    (set_holder None (set_thread t (Inside call Done calls) m)).
Proof.
  intros [Hm Ht Hs] Hh Hx.
  exists (match t with MainThread => main1 ++ [call] | CanThread => main1 end),
    (match t with MainThread => can1 | CanThread => can1 ++ [call] end). split.
  - destruct t.
    + rewrite <- (app_nil_r can1). apply merge_app; [done|apply merge_left_only].
    + rewrite <- (app_nil_r main1). apply merge_app; [done|apply merge_right_only].
  - intros t'. specialize (Ht t'). unfold holds in *. rewrite Hh in Ht. parts.
    destruct (decide (t' = t)) as [->|Hne].
    + rewrite decide_True, Hx in Ht by done. destruct Ht as [Ha _]. right. split; [|done].
      by destruct t; cbn in *; rewrite <- app_assoc.
    + rewrite decide_False in Ht by congruence. by destruct t, t'.
  - unfold state_ok in *. rewrite Hh in Hs. parts. destruct Hs as (call' & c & calls' & Hc & Hs & _).
    rewrite Hx in Hc. injection Hc as <- <- <-. rewrite Hs. cbn. by rewrite app_nil_r.
Qed.

(** A thread takes the free mutex for its method. *)
Lemma machine_ok_enter s0 main can main1 can1 l m t k calls :
  machine_ok s0 main can main1 can1 l m ->
  holder m = None -> threads m t = Inside (Lock k) (Lock k) calls -> guarded 1 k ->
  picks t main can = picks t main1 can1 ++ Lock k :: calls ->
  machine_ok s0 main can main1 can1 l
    (set_holder (Some (t, 1%nat)) (set_thread t (Inside (Lock k) k calls) m)).
Proof.
  intros [Hm Ht Hs] Hh Hx Hg Ha. split; [done|..].
  - intros t'. specialize (Ht t'). unfold holds in *. rewrite Hh in Ht. parts.
    destruct (decide (t' = t)) as [->|Hne]; [by rewrite decide_True|by rewrite decide_False by congruence].
  - unfold state_ok in *. rewrite Hh in Hs. parts. exists (Lock k), k, calls.
    rewrite decide_True by done. split_and!; [done|by rewrite exec_all_snoc, Hs|].
    rewrite Hs. cbn. set_solver.
Qed.

Lemma holds_holder m t d : holds m t = Some d -> holder m = Some (t, d).
Proof. unfold holds. destruct (holder m) as [[t' d']|]; [|done]. case_decide; congruence. Qed.

Lemma owner_step_ok s0 main can main1 can1 l m m' t d call c calls :
  machine_ok s0 main can main1 can1 l m -> holder m = Some (t, d) ->
  threads m t = Inside call c calls -> d <> 0%nat -> guarded d c ->
  thread_step true t m = Some m' ->
  exists main2 can2 l2, machine_ok s0 main can main2 can2 l2 m'.
Proof.
  intros Hok Hh Hx Hd Hg Hstep. unfold thread_step in Hstep. rewrite Hx, Hh in Hstep.
  assert (Hkeep : forall d' c', d' <> 0%nat -> guarded d' c' -> exec c (shared m) = exec c' (shared m) ->
    passes c' (shared m) ⊆ passes c (shared m) ->
    machine_ok s0 main can main1 can1 l (set_holder (Some (t, d')) (set_thread t (Inside call c' calls) m))).
  { intros d' c' Hd' Hg' He Hp.
    pose proof (machine_ok_owner s0 main can main1 can1 l m t d call c calls d' c' (shared m) []
      Hok Hh Hx Hd' Hg') as Hnew. parts. rewrite !app_nil_r in Hnew. apply Hnew; [by rewrite He|done]. }
  destruct c as [|k|k|f k]; cbn [guarded] in Hg; [congruence|..].
  - cbn in Hstep. rewrite bool_decide_eq_true_2 in Hstep by done. injection Hstep as <-.
    exists main1, can1, l. by apply Hkeep; [|apply Hg| |set_solver].
  - injection Hstep as <-. destruct d as [|[|d]]; [done|..].
    + destruct k; cbn in Hg; try (by destruct Hg).
      destruct (machine_ok_complete _ _ _ _ _ _ _ _ _ _ Hok Hh Hx) as (main2 & can2 & Hnew).
      by exists main2, can2, (l ++ [call]).
    + exists main1, can1, l. by apply Hkeep; [..|set_solver].
  - destruct (f (shared m)) as [s' outs] eqn:Hf. injection Hstep as <-. exists main1, can1, l.
    pose proof (machine_ok_owner s0 main can main1 can1 l m t d call (Access f k) calls d
      (k (shared m)) s' outs Hok Hh Hx Hd (proj2 Hg _)) as Hnew.
    parts. rewrite Hh. apply Hnew; cbn; rewrite Hf; [|set_solver].
    destruct (exec (k (shared m)) s'). cbn. by rewrite app_assoc.
Qed.

Lemma thread_step_ok s0 main can main1 can1 l m t m' :
  Forall method main -> Forall method can ->
  machine_ok s0 main can main1 can1 l m -> thread_step true t m = Some m' ->
  exists main2 can2 l2, machine_ok s0 main can main2 can2 l2 m'.
Proof.
  intros Hmain Hcan Hok Hstep. pose proof (mo_thread _ _ _ _ _ _ _ Hok t) as Ht.
  destruct (threads m t) as [calls|call c calls] eqn:Hx.
  - destruct Ht as [Ha Hh]. unfold thread_step in Hstep. rewrite Hx in Hstep.
    destruct calls as [|call calls]; simplify_eq. exists main1, can1, l.
    apply machine_ok_place; [done..|by left].
  - destruct (holds m t) as [d|] eqn:Hh.
    { destruct Ht as (_ & Hd & Hg). eapply owner_step_ok; eauto using holds_holder. }
    unfold thread_step in Hstep. rewrite Hx in Hstep. destruct Ht as [[Ha ->]|[Ha ->]].
    + assert (Hmeth : method call).
      { assert (Hall : Forall method (picks t main can)) by (by destruct t).
        rewrite Ha in Hall. apply Forall_app in Hall as [_ Hall]. by apply Forall_cons in Hall as [? _]. }
      destruct call as [|k|k|f k]; try done. apply bind_Some in Hstep as (h & Hacq & [= <-]).
      destruct (holder m) as [[t' d]|] eqn:Hholder.
      * unfold holds in Hh. rewrite Hholder in Hh. cbn in Hacq. case_decide as Hne; [done|].
        by rewrite bool_decide_eq_false_2 in Hacq.
      * cbn in Hacq. injection Hacq as <-. exists main1, can1, l. by apply machine_ok_enter.
    + injection Hstep as <-. exists main1, can1, l. by apply machine_ok_place.
Qed.

Lemma run_schedule_ok s0 main can ts : Forall method main -> Forall method can ->
  forall m main1 can1 l m', machine_ok s0 main can main1 can1 l m ->
  run_schedule true ts m = Some m' ->
  exists main2 can2 l2, machine_ok s0 main can main2 can2 l2 m'.
Proof.
  intros Hmain Hcan. induction ts as [|t ts IH]; intros m main1 can1 l m' Hok Hrun; cbn in Hrun.
  - simplify_eq. by exists main1, can1, l.
  - apply bind_Some in Hrun as (m1 & Hstep & Hrun).
    destruct (thread_step_ok _ _ _ _ _ _ _ _ _ Hmain Hcan Hok Hstep) as (main2 & can2 & l2 & Hok').
    by apply (IH m1 main2 can2 l2).
Qed.

(** A finished run has done the methods one at a time. *)
Lemma finished_serial s0 main can ts m :
  Forall method main -> Forall method can ->
  run_schedule true ts (start s0 main can) = Some m -> finished m ->
  exists l, merge main can l /\ exec_all l s0 = (shared m, sent m).
Proof.
  intros Hmain Hcan Hrun Hfin.
  destruct (run_schedule_ok s0 main can ts Hmain Hcan _ _ _ _ _ (machine_ok_start s0 main can) Hrun)
    as (main1 & can1 & l & [Hm Ht Hs]). exists l.
  assert (Hall : forall t, picks t main can = picks t main1 can1 /\ holds m t = None).
  { intros t. specialize (Ht t). rewrite Hfin in Ht. destruct Ht as [-> Hh].
    by rewrite app_nil_r. }
  rewrite (proj1 (Hall MainThread) : main = main1), (proj1 (Hall CanThread) : can = can1).
  split; [done|]. unfold state_ok in Hs. destruct (holder m) as [[t d]|] eqn:Hh; [|done].
  destruct (Hall t) as [_ Hno]. unfold holds in Hno. by rewrite Hh, decide_True in Hno.
Qed.

(** ** In the middle of a run *)

Lemma passes_first c s : s ∈ passes c s.
Proof. destruct c; cbn; set_solver. Qed.

(** At any moment the state is one that the methods pass through when they are
    called one at a time: each thread has completed the first of its calls,
    and one method at most is under way. *)
Lemma any_moment_serial s0 main can ts m :
  Forall method main -> Forall method can ->
  run_schedule true ts (start s0 main can) = Some m ->
  exists main1 can1 l, main1 `prefix_of` main /\ can1 `prefix_of` can /\ merge main1 can1 l /\
    (shared m = (exec_all l s0).1 \/
     exists call main2 can2, main2 `prefix_of` main /\ can2 `prefix_of` can /\
       merge main2 can2 (l ++ [call]) /\ shared m ∈ passes call (exec_all l s0).1).
Proof.
  intros Hmain Hcan Hrun.
  destruct (run_schedule_ok s0 main can ts Hmain Hcan _ _ _ _ _ (machine_ok_start s0 main can) Hrun)
    as (main1 & can1 & l & [Hm Ht Hs]). exists main1, can1, l.
  assert (Hpre : forall t, picks t main1 can1 `prefix_of` picks t main can).
  { intros t. specialize (Ht t). destruct (threads m t) as [calls|call c calls].
    - destruct Ht as [-> _]. by exists calls.
    - destruct (holds m t); [destruct Ht as (-> & _)|destruct Ht as [[-> _]|[-> _]]]; by eexists. }
  pose proof (Hpre MainThread : main1 `prefix_of` main).
  pose proof (Hpre CanThread : can1 `prefix_of` can). split_and!; [done..|].
  unfold state_ok in Hs. destruct (holder m) as [[t d]|] eqn:Hh; [right|left; by rewrite Hs].
  destruct Hs as (call & c & calls & Hx & _ & Hp). specialize (Ht t).
  unfold holds in Ht. rewrite Hh, decide_True, Hx in Ht by done. destruct Ht as (Ha & _).
  exists call, (picks t (main1 ++ [call]) main1), (picks t can1 (can1 ++ [call])).
  assert (Hin : shared m ∈ passes call (exec_all l s0).1) by (apply Hp, passes_first).
  destruct t; cbn [picks] in *; split_and!; try done.
  - exists calls. by rewrite <- app_assoc.
  - rewrite <- (app_nil_r can1). apply merge_app; [done|apply merge_left_only].
  - exists calls. by rewrite <- app_assoc.
  - rewrite <- (app_nil_r main1). apply merge_app; [done|apply merge_right_only].
Qed.

(** What changes in one step of each method, if at all, is at any moment what
    it is between two methods called one at a time. *)
Lemma any_moment_atomic {O} (obs : St -> O) s0 main can ts m :
  Forall method main -> Forall method can ->
  Forall (fun call => forall s, Forall (fun x => obs x = obs s \/ obs x = obs (exec call s).1)
    (passes call s)) (main ++ can) ->
  run_schedule true ts (start s0 main can) = Some m ->
  exists main1 can1 l, main1 `prefix_of` main /\ can1 `prefix_of` can /\ merge main1 can1 l /\
    obs (shared m) = obs (exec_all l s0).1.
Proof.
  intros Hmain Hcan Hat Hrun.
  destruct (any_moment_serial s0 main can ts m Hmain Hcan Hrun)
    as (main1 & can1 & l & Hp1 & Hp2 & Hm & [Hs|(call & main2 & can2 & Hp3 & Hp4 & Hm' & Hin)]).
  { exists main1, can1, l. by rewrite Hs. }
  assert (Hcall : call ∈ main ++ can).
  { destruct (merge_elem _ _ _ call Hm' ltac:(set_solver)) as [Hc|Hc]; apply elem_of_app;
      [left|right]; [destruct Hp3 as [? ->]|destruct Hp4 as [? ->]]; set_solver. }
  rewrite Forall_forall in Hat. specialize (Hat call Hcall (exec_all l s0).1).
  rewrite Forall_forall in Hat. destruct (Hat _ Hin) as [->| ->].
  - by exists main1, can1, l.
  - exists main2, can2, (l ++ [call]). by rewrite exec_all_snoc.
Qed.

(** ** No deadlock *)

Lemma not_stuck s0 main can main1 can1 l m :
  Forall method main -> Forall method can ->
  machine_ok s0 main can main1 can1 l m ->
  finished m \/ exists t m', thread_step true t m = Some m'.
Proof.
  intros Hmain Hcan [Hm Ht Hs]. destruct (holder m) as [[t d]|] eqn:Hh.
  - right. specialize (Ht t). unfold holds in Ht. rewrite Hh, decide_True in Ht by done.
    unfold state_ok in Hs. rewrite Hh in Hs. destruct Hs as (call & c & calls & Hx & _).
    rewrite Hx in Ht. destruct Ht as (_ & Hd & Hg). exists t. unfold thread_step. rewrite Hx, Hh.
    destruct c as [|k|k|f k]; cbn; [by eexists| |by eexists|destruct (f (shared m)); by eexists].
    rewrite bool_decide_eq_true_2 by done. by eexists.
  - assert (Hstep : forall t, threads m t = Between [] \/ exists m', thread_step true t m = Some m').
    { intros t. specialize (Ht t). unfold holds in Ht. rewrite Hh in Ht. unfold thread_step.
      destruct (threads m t) as [[|call calls]|call c calls]; [by left|right; by eexists|].
      right. rewrite Hh. destruct Ht as [[Ha ->]|[_ ->]]; [|by eexists].
      destruct call; cbn; try (by eexists). destruct (f (shared m)); by eexists. }
    destruct (Hstep MainThread) as [Hmt|?]; [|right; by exists MainThread].
    destruct (Hstep CanThread) as [Hct|?]; [|right; by exists CanThread].
    left. by intros [].
Qed.

(** ** Every run ends *)

(** Whatever the scheduler does, both threads get to the end of their calls. *)
Inductive always_finishes : Machine St Out -> Prop :=
  | finishes_now m : finished m -> always_finishes m
  | finishes_later m :
      (exists t m', thread_step true t m = Some m') ->
      (forall t m', thread_step true t m = Some m' -> always_finishes m') ->
      always_finishes m.

(** [next x y]: a step takes a thread from [y] to [x]. *)
Inductive next : thread (St := St) (Out := Out) -> thread -> Prop :=
  | next_call call calls : next (Inside call call calls) (Between (call :: calls))
  | next_lock call k calls : next (Inside call k calls) (Inside call (Lock k) calls)
  | next_unlock call k calls : next (Inside call k calls) (Inside call (Unlock k) calls)
  | next_access call f k s calls : next (Inside call (k s) calls) (Inside call (Access f k) calls)
  | next_return call calls : next (Between calls) (Inside call Done calls).

Lemma next_wf : well_founded next.
Proof.
  assert (Hin : forall call calls, Acc next (Between calls) -> forall c, Acc next (Inside call c calls)).
  { intros call calls Hb c. induction c as [|k IH|k IH|f k IH]; constructor; intros x Hx;
      inversion Hx; subst; auto. }
  assert (Hbe : forall calls, Acc next (Between calls)).
  { induction calls as [|call calls IH]; constructor; intros x Hx; inversion Hx; subst.
    by apply Hin. }
  intros []; auto.
Qed.

Lemma thread_step_next t m m' :
  thread_step true t m = Some m' ->
  next (threads m' t) (threads m t) /\ forall t', t' <> t -> threads m' t' = threads m t'.
Proof.
  unfold thread_step. intros Hs.
  destruct (threads m t) as [[|call calls]|call [|k|k|f k] calls] eqn:Hx; [done|..].
  3: apply bind_Some in Hs as (h & _ & Hs).
  5: destruct (f (shared m)) as [s' outs].
  all: injection Hs as <-; parts; rewrite decide_True by done; split;
    [constructor|intros t' Hne; by rewrite decide_False].
Qed.

Lemma machine_always_finishes s0 main can : Forall method main -> Forall method can ->
  forall m main1 can1 l, machine_ok s0 main can main1 can1 l m -> always_finishes m.
Proof.
  intros Hmain Hcan m.
  remember (threads m MainThread) as x eqn:Hx. revert m Hx.
  induction (next_wf x) as [x _ IHx]. intros m Hx.
  remember (threads m CanThread) as y eqn:Hy. revert m Hx Hy.
  induction (next_wf y) as [y _ IHy]. intros m Hx Hy main1 can1 l Hok.
  destruct (not_stuck _ _ _ _ _ _ _ Hmain Hcan Hok) as [Hf|Hstep]; [by constructor|].
  apply finishes_later; [done|]. intros t m' Hs.
  destruct (thread_step_ok _ _ _ _ _ _ _ _ _ Hmain Hcan Hok Hs) as (main2 & can2 & l2 & Hok').
  destruct (thread_step_next _ _ _ Hs) as [Hn Hsame]. destruct t.
  - eapply (IHx (threads m' MainThread)); [by rewrite Hx|done|done].
  - eapply (IHy (threads m' CanThread)); [by rewrite Hy| |done|done].
    rewrite Hx. symmetry. by apply Hsame.
Qed.

Lemma start_always_finishes s0 main can :
  Forall method main -> Forall method can -> always_finishes (start s0 main can).
Proof.
  intros Hmain Hcan.
  exact (machine_always_finishes s0 main can Hmain Hcan _ _ _ _ (machine_ok_start s0 main can)).
Qed.
End serial.
