(* ===== verification/ServerLocks.v ===== *)
(** * The server between two threads (src/task_controller.cpp)

    The entry points of [MyTCServer] as the main loop and the CAN thread run
    them: every [lock_guard] is there, the nested ones included, and between
    two of the small steps of one method the other thread may go on. Alone,
    each method is the definition of TcServer.v ([exec_method]); with both
    threads, a run is one of methods that are not interrupted, which is what
    the other files take a call to be. *)

From S2P Require Import Prelude Ddop Hierarchy ClientState TcServer Activation ServerFacts.
From S2P Require Import ServerInvariant Refinement Locking.

#[local] Set Default Proof Using "All".

Section methods.
Context `{DdopApi} `{DdiCodes}.

Notation code := (code MyTCServer bus_out).
Notation after_nil := (after_nil (St := MyTCServer) (Out := bus_out)).

(** ** Pieces of code *)

(** Reads and goes on. *)
Definition read (k : MyTCServer -> code) : code := Access (fun srv => (srv, [])) k.

Definition emit (outs : list bus_out) (k : code) : code :=
  Access (fun srv => (srv, outs)) (fun _ => k).

(** Changes the state of one client. *)
Definition update_client (client : control_function)
    (f : ClientState -> ClientState * list bus_out) (k : MyTCServer -> code) : code :=
  Access (fun srv => let '(st, outs) := f (client_ref client srv) in
                     (with_clients (<[client := st]> (clients srv)) srv, outs)) k.

(** ** Methods that other methods call *)

Definition is_ddi_settable_code (client : control_function) (ddi : Z) (k : bool -> code) : code :=
  Lock (read (fun srv =>
    let settable := is_ddi_settable ddi (client_ref client srv) in Unlock (k settable))).

(** The loop over the sixteen sections of the block, with its [break]. *)
Fixpoint per_element_code (client : control_function) (setpointDDI sectionOffset : Z)
    (sections : list Z) (k : code) : code :=
  match sections with
  | [] => k
  | i :: rest =>
      read (fun srv =>
        let st := client_ref client srv in
        let sectionIndex := u8 (sectionOffset + i) in
        if get_number_of_sections st <=? sectionIndex then k
        else
          let elementNumber := get_element_number_for_section sectionIndex st in
          let next := per_element_code client setpointDDI sectionOffset rest k in
          if elementNumber =? 0 then next
          else emit [send_set_value client setpointDDI elementNumber
                       (if get_section_setpoint_state sectionIndex st =? ON then 1 else 0)] next)
  end.

Definition send_section_setpoint_states_code (client : control_function) (ddiOffset : Z) (k : code)
    : code :=
  Lock (read (fun srv =>
    let st := client_ref client srv in
    let sectionOffset := u8 (ddiOffset * NUMBER_SECTIONS_PER_CONDENSED_MESSAGE) in
    let value := condensed_setpoint_value sectionOffset st in
    let ddiTarget := u16 (SetpointCondensedWorkState1_16 + ddiOffset) in
    let ddiTargetLegacy := u16 (ActualCondensedWorkState1_16 + ddiOffset) in
    let work_state := update_client client (send_setpoint_work_state client) (fun _ => Unlock k) in
    if has_element_number_for_ddi ddiTarget st then
      emit [send_set_value client ddiTarget (get_element_number_for_ddi ddiTarget st) value] work_state
    else if has_element_number_for_ddi ddiTargetLegacy st then
      is_ddi_settable_code client ddiTargetLegacy (fun settable =>
        if settable
        then emit [send_set_value client ddiTargetLegacy
                     (get_element_number_for_ddi ddiTargetLegacy st) value] (Unlock k)
        else Unlock k)
    else if uses_per_element_control st then
      per_element_code client (get_per_element_setpoint_ddi st) sectionOffset
        (seqZ 0 NUMBER_SECTIONS_PER_CONDENSED_MESSAGE) work_state
    else Unlock k)).

Definition send_section_control_state_code (client : control_function) (enabled : bool) (k : code)
    : code :=
  Lock (read (fun srv =>
    emit (send_section_control_state client enabled (client_ref client srv)) (Unlock k))).

(** ** The loops over the clients *)

(** The loop over the sections of one client, with [requiresUpdate]. *)
Fixpoint section_loop_code (client : control_function) (sectionStates : list bool) (sections : list Z)
    (requiresUpdate : bool) (k : bool -> code) : code :=
  match sections with
  | [] => k requiresUpdate
  | i :: rest =>
      let section (requiresUpdate : bool) :=
        update_client client (fun st => ((follow_demand sectionStates i (st, requiresUpdate, [])).1.1, []))
          (fun srv => section_loop_code client sectionStates rest
             (follow_demand sectionStates i (client_ref client srv, requiresUpdate, [])).1.2 k) in
      if (i mod NUMBER_SECTIONS_PER_CONDENSED_MESSAGE =? 0) && requiresUpdate
      then send_section_setpoint_states_code client
             (u8 (i / NUMBER_SECTIONS_PER_CONDENSED_MESSAGE - 1)) (section false)
      else section requiresUpdate
  end.

Definition update_client_section_states_code (sectionStates : list bool) (client : control_function)
    (k : code) : code :=
  read (fun srv =>
    let st := client_ref client srv in
    if negb (is_section_control_enabled st) then k
    else if get_number_of_sections st =? 0 then k
    else
      section_loop_code client sectionStates (seqZ 0 (get_number_of_sections st)) false
        (fun requiresUpdate =>
           if requiresUpdate
           then read (fun srv =>
             let lastSection := get_number_of_sections (client_ref client srv) - 1 in
             send_section_setpoint_states_code client
               (u8 (lastSection / NUMBER_SECTIONS_PER_CONDENSED_MESSAGE)) k)
           else k)).

Definition update_client_section_control_enabled_code (enabled : bool) (client : control_function)
    (k : code) : code :=
  update_client client
    (fun st => (if negb (Bool.eqb (is_section_control_enabled st) enabled)
                then set_section_control_enabled enabled st else st, []))
    (fun _ => read (fun srv =>
       let st := client_ref client srv in
       if has_element_number_for_ddi SectionControlState st && (0 <? get_number_of_sections st)
       then send_section_control_state_code client enabled k
       else k)).

(** One client in one step. *)
Definition whole_client (body : control_function -> ClientState -> ClientState * list bus_out)
    (client : control_function) (k : code) : code := update_client client (body client) (fun _ => k).

Definition for_clients_code (body : control_function -> code -> code) : code :=
  Lock (read (fun srv => foldr body (Unlock Done) (client_order (clients srv)))).

(** A report in condensed form, section by section. *)
Fixpoint condensed_code (client sectionIndexOffset elementNumber processDataValue : Z)
    (sections : list Z) (k : code) : code :=
  match sections with
  | [] => k
  | i :: rest =>
      update_client client
        (fun st => (condensed_section_step sectionIndexOffset elementNumber processDataValue st i, []))
        (fun _ => condensed_code client sectionIndexOffset elementNumber processDataValue rest k)
  end.

(** ** The entry points *)

Definition method_code (call : server_call) : code :=
  match call with
  | Request => for_clients_code (whole_client request_client_measurement_commands)
  | UpdateSections ss => for_clients_code (update_client_section_states_code ss)
  | UpdateControlEnabled enabled => for_clients_code (update_client_section_control_enabled_code enabled)
  | SendGnss quality => for_clients_code (whole_client (send_client_gnss_quality quality))
  | Value c ddi element value =>
      if is_actual_condensed ddi then
        Lock (condensed_code c
          (u8 (NUMBER_SECTIONS_PER_CONDENSED_MESSAGE * u8 (ddi - ActualCondensedWorkState1_16)))
          (u16 element) value (seqZ 0 NUMBER_SECTIONS_PER_CONDENSED_MESSAGE) (Unlock Done))
      else Lock (Access (fun srv => (run_call call srv, [])) (fun _ => Unlock Done))
  | _ => Lock (Access (fun srv => (run_call call srv, [])) (fun _ => Unlock Done))
  end.

(** ** Alone, each method does what TcServer.v says *)

Definition set_client (c : Z) (st : ClientState) (srv : MyTCServer) : MyTCServer :=
  with_clients (<[c := st]> (clients srv)) srv.

Lemma client_ref_found c srv st : clients srv !! c = Some st -> client_ref c srv = st.
Proof. unfold client_ref. by intros ->. Qed.

Lemma set_client_same c srv st : clients srv !! c = Some st -> set_client c st srv = srv.
Proof.
  intros Hc. unfold set_client, with_clients. rewrite insert_id by done. by destruct srv.
Qed.

Lemma set_client_twice c st st' srv : set_client c st' (set_client c st srv) = set_client c st' srv.
Proof. unfold set_client, with_clients. cbn. by rewrite insert_insert_eq. Qed.

Lemma set_client_found c st srv : clients (set_client c st srv) !! c = Some st.
Proof. apply lookup_insert_eq. Qed.

Lemma exec_read k srv : exec (read k) srv = exec (k srv) srv.
Proof. unfold read. rewrite exec_access. apply after_nil. Qed.

Lemma exec_emit outs k srv : exec (emit outs k) srv = after outs (exec k srv).
Proof. unfold emit. by rewrite exec_access. Qed.

Lemma exec_update_client c f k srv :
  exec (update_client c f k) srv =
    after (f (client_ref c srv)).2 (exec (k srv) (set_client c (f (client_ref c srv)).1 srv)).
Proof. unfold update_client. rewrite exec_access. by destruct (f _). Qed.

Lemma exec_per_element c ddi offset sections k srv :
  exec (per_element_code c ddi offset sections k) srv =
    after (per_element_loop c ddi offset (client_ref c srv) sections) (exec k srv).
Proof.
  induction sections as [|i rest IH]; cbn [per_element_code per_element_loop]; [by rewrite after_nil|].
  rewrite exec_read. destruct (_ <=? _); [by rewrite after_nil|].
  destruct (_ =? 0); [exact IH|]. by rewrite exec_emit, IH, after_after.
Qed.

Lemma exec_send_section_setpoint_states c ddiOffset k srv st :
  clients srv !! c = Some st ->
  exec (send_section_setpoint_states_code c ddiOffset k) srv =
    let '(st', outs) := send_section_setpoint_states c ddiOffset st in
    after outs (exec k (set_client c st' srv)).
Proof.
  intros Hc. unfold send_section_setpoint_states_code, send_section_setpoint_states.
  cbn [exec]. rewrite exec_read. cbn zeta. rewrite (client_ref_found _ _ _ Hc).
  destruct (has_element_number_for_ddi _ st).
  { rewrite exec_emit, exec_update_client, (client_ref_found _ _ _ Hc), after_after.
    by destruct (send_setpoint_work_state c st). }
  destruct (has_element_number_for_ddi _ st).
  { unfold is_ddi_settable_code. cbn [exec]. rewrite exec_read, (client_ref_found _ _ _ Hc). cbn [exec].
    destruct (is_ddi_settable _ st); rewrite ?exec_emit; by rewrite set_client_same, ?after_nil. }
  destruct (uses_per_element_control st); [|by rewrite set_client_same, after_nil].
  rewrite exec_per_element, exec_update_client, (client_ref_found _ _ _ Hc), after_after.
  by destruct (send_setpoint_work_state c st).
Qed.

Lemma follow_demand_outs ss i st ru outs :
  follow_demand ss i (st, ru, outs) =
    ((follow_demand ss i (st, ru, [])).1.1, (follow_demand ss i (st, ru, [])).1.2, outs).
Proof. unfold follow_demand. destruct (zlookup ss i); [|done]. by destruct (Bool.eqb _ _). Qed.

Lemma exec_section_loop c ss sections : forall ru k srv st outs0,
  clients srv !! c = Some st ->
  after outs0 (exec (section_loop_code c ss sections ru k) srv) =
    let '(st', ru', outs) := foldl (update_section_step c ss) (st, ru, outs0) sections in
    after outs (exec (k ru') (set_client c st' srv)).
Proof.
  induction sections as [|i rest IH]; intros ru k srv st outs0 Hc; cbn [section_loop_code foldl].
  { by rewrite set_client_same. }
  assert (Hsection : forall ru srv st outs0, clients srv !! c = Some st ->
    after outs0 (exec (update_client c (fun st => ((follow_demand ss i (st, ru, [])).1.1, []))
      (fun srv => section_loop_code c ss rest (follow_demand ss i (client_ref c srv, ru, [])).1.2 k)) srv) =
    let '(st', ru', outs) := foldl (update_section_step c ss) (follow_demand ss i (st, ru, outs0)) rest in
    after outs (exec (k ru') (set_client c st' srv))).
  { clear srv st outs0 Hc ru. intros ru srv st outs0 Hc.
    rewrite exec_update_client, (client_ref_found _ _ _ Hc), after_nil. cbn [fst].
    rewrite (IH _ _ _ _ _ (set_client_found _ _ _)), (follow_demand_outs ss i st ru outs0).
    destruct (foldl _ _ rest) as [[st' ru'] outs]. by rewrite set_client_twice. }
  unfold update_section_step at 2, flush_previous_block.
  destruct (_ && ru); [|by apply Hsection].
  rewrite (exec_send_section_setpoint_states _ _ _ _ _ Hc).
  destruct (send_section_setpoint_states c _ st) as [st1 outs1]. rewrite after_after.
  rewrite (Hsection _ _ _ _ (set_client_found _ _ _)).
  destruct (foldl _ _ rest) as [[st' ru'] outs]. by rewrite set_client_twice.
Qed.

(** The code of one client's part of a loop is this definition. *)
Definition client_body (bodyc : control_function -> code -> code)
    (body : control_function -> ClientState -> ClientState * list bus_out) : Prop :=
  forall c k srv st, clients srv !! c = Some st ->
    exec (bodyc c k) srv = after (body c st).2 (exec k (set_client c (body c st).1 srv)).

Lemma whole_client_body body : client_body (whole_client body) body.
Proof.
  intros c k srv st Hc. unfold whole_client. by rewrite exec_update_client, (client_ref_found _ _ _ Hc).
Qed.

Lemma update_client_section_states_body ss :
  client_body (update_client_section_states_code ss) (update_client_section_states ss).
Proof.
  intros c k srv st Hc. unfold update_client_section_states_code, update_client_section_states.
  rewrite exec_read, (client_ref_found _ _ _ Hc).
  destruct (negb (is_section_control_enabled st)); [by rewrite set_client_same, after_nil|].
  destruct (_ =? 0); [by rewrite set_client_same, after_nil|].
  rewrite <- (after_nil (exec _ srv)), (exec_section_loop _ _ _ _ _ _ _ _ Hc).
  destruct (foldl _ _ _) as [[st1 ru] outs1]. destruct ru; [|done].
  rewrite exec_read, (client_ref_found _ _ _ (set_client_found _ _ _)). cbn zeta.
  rewrite (exec_send_section_setpoint_states _ _ _ _ _ (set_client_found _ _ _)).
  destruct (send_section_setpoint_states _ _ _) as [st2 outs2].
  by rewrite set_client_twice, after_after.
Qed.

Lemma update_client_section_control_enabled_body enabled :
  client_body (update_client_section_control_enabled_code enabled)
    (update_client_section_control_enabled enabled).
Proof.
  intros c k srv st Hc. unfold update_client_section_control_enabled_code.
  rewrite exec_update_client, (client_ref_found _ _ _ Hc), after_nil, exec_read.
  rewrite (client_ref_found _ _ _ (set_client_found _ _ _)).
  unfold update_client_section_control_enabled. cbn [fst snd].
  set (st1 := if negb _ then _ else _).
  destruct (has_element_number_for_ddi SectionControlState st1 && _); [|by rewrite after_nil].
  unfold send_section_control_state_code. cbn [exec].
  by rewrite exec_read, exec_emit, (client_ref_found _ _ _ (set_client_found _ _ _)).
Qed.

Lemma exec_for_clients bodyc body k : client_body bodyc body ->
  forall cs srv outs0, Forall (fun c => is_Some (clients srv !! c)) cs ->
  after outs0 (exec (foldr bodyc k cs) srv) =
    let '(m, outs) := foldl (for_each_step body) (clients srv, outs0) cs in
    after outs (exec k (with_clients m srv)).
Proof.
  intros Hbody. induction cs as [|c cs IH]; intros srv outs0 Hcs; cbn [foldr foldl].
  - unfold with_clients. by destruct srv.
  - apply Forall_cons in Hcs as [[st Hc] Hcs]. rewrite (Hbody _ _ _ _ Hc), after_after.
    unfold for_each_step at 2. cbn [fst snd]. rewrite Hc.
    destruct (body c st) as [st' outs]. cbn [fst snd]. rewrite IH; [done|].
    eapply Forall_impl; [exact Hcs|]. intros c' Hc'. cbn.
    destruct (decide (c = c')) as [->|]; rewrite ?lookup_insert_eq, ?lookup_insert_ne by done; [by eexists|done].
Qed.

Lemma exec_for_each_client bodyc body srv : client_body bodyc body ->
  exec (for_clients_code bodyc) srv = for_each_client body srv.
Proof.
  intros Hbody. unfold for_clients_code, for_each_client. cbn [exec]. rewrite exec_read.
  rewrite <- (after_nil (exec _ _)), (exec_for_clients bodyc body (Unlock Done) Hbody).
  - destruct (foldl _ _ _) as [m outs]. unfold after. cbn. by rewrite app_nil_r.
  - apply Forall_forall. intros c Hc. unfold client_order in Hc.
    rewrite merge_sort_Permutation in Hc. by apply elem_of_elements, elem_of_dom in Hc.
Qed.

Lemma exec_condensed c offset e v sections : forall k srv,
  sections <> [] ->
  exec (condensed_code c offset e v sections k) srv =
    exec k (set_client c (foldl (condensed_section_step offset e v) (client_ref c srv) sections) srv).
Proof.
  induction sections as [|i rest IH]; intros k srv Hne; [done|]. cbn [condensed_code foldl].
  rewrite exec_update_client, after_nil. cbn [fst]. destruct rest as [|i' rest]; [done|].
  rewrite IH by done. by rewrite set_client_twice, (client_ref_found _ _ _ (set_client_found _ _ _)).
Qed.

Lemma exec_value c ddi e v srv :
  exec (method_code (Value c ddi e v)) srv =
    (run_call (Value c ddi e v) srv, call_outputs (Value c ddi e v) srv).
Proof.
  cbn [method_code]. destruct (is_actual_condensed ddi) eqn:Ha; [|done].
  assert (Hrun : run_call (Value c ddi e v) srv =
    set_client c (on_condensed_work_state ddi (u16 e) v (client_ref c srv)) srv).
  { unfold run_call, on_value_command. cbn [snd]. by rewrite Ha. }
  rewrite Hrun, exec_lock. unfold on_condensed_work_state.
  generalize (seqZ 0 NUMBER_SECTIONS_PER_CONDENSED_MESSAGE) (eq_refl : zlength (seqZ 0 NUMBER_SECTIONS_PER_CONDENSED_MESSAGE) = 16).
  intros sections Hne. by rewrite exec_condensed by by intros ->.
Qed.

Lemma exec_method call srv : exec (method_code call) srv = (run_call call srv, call_outputs call srv).
Proof.
  destruct call as [| | | | |c ddi e v| |ss|enabled|quality]; try done; cbn [method_code].
  - apply exec_value.
  - rewrite (exec_for_each_client _ _ _ (whole_client_body _)). apply surjective_pairing.
  - rewrite (exec_for_each_client _ _ _ (update_client_section_states_body _)). apply surjective_pairing.
  - rewrite (exec_for_each_client _ _ _ (update_client_section_control_enabled_body _)).
    apply surjective_pairing.
  - rewrite (exec_for_each_client _ _ _ (whole_client_body _)). apply surjective_pairing.
Qed.

(** ** The discipline *)

Lemma guarded_read d k : d <> 0%nat -> (forall srv, guarded d (k srv)) -> guarded d (read k).
Proof. done. Qed.

Lemma guarded_per_element d c ddi offset sections k :
  d <> 0%nat -> guarded d k -> guarded d (per_element_code c ddi offset sections k).
Proof.
  intros Hd Hk. induction sections as [|i rest IH]; [done|]. cbn [per_element_code].
  split; [done|]. intros srv. destruct (_ <=? _); [done|]. destruct (_ =? 0); [done|]. by split.
Qed.

Lemma guarded_send d c off k :
  d <> 0%nat -> guarded d k -> guarded d (send_section_setpoint_states_code c off k).
Proof.
  intros Hd Hk. split; [done|]. split; [done|]. intros srv. cbn zeta.
  repeat case_match; try apply guarded_per_element; cbn; split_and?; try done.
  intros srv'. by case_match.
Qed.

Lemma guarded_section_loop d c ss sections : forall ru k,
  d <> 0%nat -> (forall ru, guarded d (k ru)) -> guarded d (section_loop_code c ss sections ru k).
Proof.
  induction sections as [|i rest IH]; intros ru k Hd Hk; [by apply Hk|]. cbn [section_loop_code].
  assert (Hs : forall ru, guarded d (update_client c
    (fun st => ((follow_demand ss i (st, ru, [])).1.1, []))
    (fun srv => section_loop_code c ss rest (follow_demand ss i (client_ref c srv, ru, [])).1.2 k))).
  { intros ru'. split; [done|]. intros srv. by apply IH. }
  case_match; [apply guarded_send|]; by auto.
Qed.

Definition guarded_body (bodyc : control_function -> code -> code) : Prop :=
  forall d c k, d <> 0%nat -> guarded d k -> guarded d (bodyc c k).

Lemma guarded_whole_client body : guarded_body (whole_client body).
Proof. by intros d c k Hd Hk. Qed.

Lemma guarded_section_states ss : guarded_body (update_client_section_states_code ss).
Proof.
  intros d c k Hd Hk. split; [done|]. intros srv. cbn zeta. repeat case_match; try done.
  apply guarded_section_loop; [done|]. intros [|]; [|done]. split; [done|].
  intros srv'. by apply guarded_send.
Qed.

Lemma guarded_control_enabled enabled :
  guarded_body (update_client_section_control_enabled_code enabled).
Proof.
  intros d c k Hd Hk. split; [done|]. intros _. split; [done|]. intros srv. cbn zeta.
  destruct (_ && _); [|done]. split; [done|]. split; [done|]. by intros srv'.
Qed.

Lemma method_for_clients bodyc : guarded_body bodyc -> method (for_clients_code bodyc).
Proof.
  intros Hb. split; [done|]. intros srv.
  induction (client_order (clients srv)) as [|c cs IH]; [done|]. by apply Hb.
Qed.

Lemma method_ok call : method (method_code call).
Proof.
  destruct call as [| | | | |c ddi e v| |ss|enabled|quality]; try done; cbn [method_code].
  - destruct (is_actual_condensed ddi); [|done]. cbn [method].
    induction (seqZ 0 _) as [|i rest IH]; [done|]. by split.
  - apply method_for_clients, guarded_whole_client.
  - apply method_for_clients, guarded_section_states.
  - apply method_for_clients, guarded_control_enabled.
  - apply method_for_clients, guarded_whole_client.
Qed.

(** ** Both threads *)

(** What is called: an entry point, or [get_clients] on the main loop. *)
Inductive entry : Type := Enter (call : server_call) | GetClients.

(** What comes out: a message, or the copy that [get_clients] returns. *)
Inductive produced : Type := Sent (o : bus_out) | Snapshot (m : gmap Z ClientState).

(** The copy is made while the lock is held. *)
Definition get_clients_code : Locking.code MyTCServer produced :=
  Lock (Access (fun srv => (srv, [Snapshot (get_clients srv)])) (fun _ => Unlock Done)).

Definition entry_code (e : entry) : Locking.code MyTCServer produced :=
  match e with
  | Enter call => map_code Sent (method_code call)
  | GetClients => get_clients_code
  end.

(** One at a time. *)
Definition serve_entry (acc : MyTCServer * list produced) (e : entry) : MyTCServer * list produced :=
  match e with
  | Enter call => let '(srv, outs) := serve_call (acc.1, []) call in (srv, acc.2 ++ (Sent <$> outs))
  | GetClients => (acc.1, acc.2 ++ [Snapshot (get_clients acc.1)])
  end.

Definition serve_entries (es : list entry) (srv : MyTCServer) : MyTCServer * list produced :=
  foldl serve_entry (srv, []) es.

Definition calls_of (es : list entry) : list server_call :=
  omap (fun e => match e with Enter call => Some call | GetClients => None end) es.

Definition messages_of (outs : list produced) : list bus_out :=
  omap (fun o => match o with Sent o => Some o | Snapshot _ => None end) outs.

Lemma messages_of_sent outs : messages_of (Sent <$> outs) = outs.
Proof. induction outs as [|o outs IH]; [done|]. cbn. by f_equal. Qed.

Lemma messages_of_app outs outs' : messages_of (outs ++ outs') = messages_of outs ++ messages_of outs'.
Proof. apply omap_app. Qed.

Lemma serve_entries_calls es : forall srv outs,
  foldl serve_call (srv, messages_of outs) (calls_of es) =
    ((foldl serve_entry (srv, outs) es).1, messages_of (foldl serve_entry (srv, outs) es).2).
Proof.
  induction es as [|[call|] es IH]; intros srv outs; [done|..];
    cbn [calls_of omap list_omap foldl serve_entry serve_call fst snd].
  - specialize (IH (run_call call srv) (outs ++ (Sent <$> call_outputs call srv))).
    rewrite messages_of_app, messages_of_sent in IH. exact IH.
  - specialize (IH srv (outs ++ [Snapshot (get_clients srv)])).
    rewrite messages_of_app, app_nil_r in IH. exact IH.
Qed.

Lemma method_entry e : method (entry_code e).
Proof. destruct e as [call|]; [apply method_map_code, method_ok|by split]. Qed.

Lemma exec_all_entries es : forall srv outs,
  foldl exec_step (srv, outs) (entry_code <$> es) = foldl serve_entry (srv, outs) es.
Proof.
  induction es as [|e es IH]; intros srv outs; [done|]. cbn [fmap list_fmap foldl].
  unfold exec_step at 2. cbn [fst snd]. destruct e as [call|]; cbn [entry_code]; [|apply IH].
  rewrite exec_map_code, exec_method. apply IH.
Qed.

Lemma threads_serial main can ts srv m :
  run_schedule true ts (start srv (entry_code <$> main) (entry_code <$> can)) = Some m ->
  finished m ->
  exists es, merge main can es /\ serve_entries es srv = (shared m, sent m).
Proof.
  intros Hrun Hfin.
  assert (Hall : forall es, Forall method (entry_code <$> es))
    by (intros es; apply Forall_fmap, Forall_forall; intros e _; apply method_entry).
  destruct (finished_serial _ _ _ _ _ (Hall main) (Hall can) Hrun Hfin) as (l & Hm & Hl).
  apply merge_fmap_inv in Hm as (es & Hm & ->). exists es. split; [done|].
  unfold serve_entries. by rewrite <- exec_all_entries.
Qed.

(** C6: what the mutex of the server is for. The main loop calls entry points
    and [get_clients], the CAN thread entry points, switched at any of the
    small steps between which the mutex lets the other thread in. However they
    are scheduled, neither is blocked for good: every run comes to the end of
    both. When it does, the server, the messages and the copies that
    [get_clients] has returned are those of the same calls made one at a time,
    in an order that keeps each thread's own order; so a copy is the map
    between two whole calls. And a subscribed implement that stays registered
    has exactly the latest demand of that order that arrived in automatic
    mode. *)
Theorem threads_take_turns `{!DdiLaws} (main : list entry) (can : list server_call)
    (srv : MyTCServer) :
  let m0 := start srv (entry_code <$> main) (entry_code <$> (Enter <$> can)) in
  always_finishes m0 /\
  forall ts m, run_schedule true ts m0 = Some m -> finished m ->
  exists es, merge main (Enter <$> can) es /\ serve_entries es srv = (shared m, sent m) /\
    forall d c st view, clients srv !! c = Some st -> wired d st -> in_step st view ->
      Forall (fun call => permits d c call = true) (calls_of es) ->
      forall s, 0 <= s < numberOfSections st ->
        heard d (to_client c (messages_of (sent m))) view s =
        if nth (Z.to_nat s) (target (foldl (controller_step c) (controller st) (calls_of es))) false
        then ON else OFF.
Proof.
  cbn zeta. split.
  { apply start_always_finishes; apply Forall_fmap, Forall_forall; intros e _; apply method_entry. }
  intros ts m Hrun Hfin. destruct (threads_serial main _ ts srv m Hrun Hfin) as (es & Hm & Hs).
  exists es. split_and!; [done..|]. intros d c st view Hc Hw Hv Hk s Hsec.
  pose proof (serve_entries_calls es srv []) as Hcalls. unfold serve_entries in Hs.
  rewrite Hs in Hcalls. cbn [fst snd] in Hcalls.
  destruct (serve_calls_implements d c (calls_of es) srv st view Hc) as (st' & Hc' & Hi);
    [by split|done|].
  change (foldl serve_call (srv, messages_of []) (calls_of es))
    with (serve_calls (calls_of es) srv) in Hcalls.
  rewrite Hcalls in Hi. cbn [snd] in Hi. eapply implements_target; [exact Hi|].
  by rewrite (implements_sections _ _ _ st (calls_of es) c Hi (wi_wf _ _ Hw)).
Qed.
End methods.
