(* ===== verification/Udp.v ===== *)
(** * The UDP link to AgOpenGPS (src/udp_connections.cpp)

    A frame is [0x80 0x81 source pgn length payload checksum]. [send] builds
    one, [handle_incoming_packets] and [handle_address_detection] parse what
    a socket delivers.

    Buffers are lists of byte values. An access outside a 512-byte array is
    [OutOfRange]; a [while] loop runs on fuel and answers [Running] when the
    fuel does not suffice, so that both kinds of failure are values the
    theorems talk about. The two functions keep [rxBuffer] and [rxIndex] in
    [static] locals, which are the record [RxState]; [index] is a
    [std::uint8_t] that is reset once per call, not once per frame. The two
    operands of the expression that reads the start marker are unsequenced in
    C++; they are taken from left to right, as the code intends. *)

From S2P Require Import Prelude.

Definition PACKET_START : Z := 32897. (* 0x8081 *)
Definition MAX_PACKET_SIZE : Z := 512.

(** What a loop over buffers comes to. *)
Inductive loop_result (A : Type) : Type :=
  | Finished (a : A)
  | OutOfRange
  | Running.
Arguments Finished {_} _.
Arguments OutOfRange {_}.
Arguments Running {_}.

(** ** Sending *)

Section crc.
Implicit Types data : list Z.

(** [for (uint8_t i = 0; i < data.size(); i++) result += data\[i\]]. *)
Fixpoint crc_loop (fuel : nat) data (i result : Z) : loop_result Z :=
  if i <? zlength data then
    match fuel with
    | O => Running
    | S fuel =>
        match zlookup data i with
        | Some byte => crc_loop fuel data (u8 (i + 1)) (result + byte)
        | None => OutOfRange
        end
    end
  else Finished (Z.land result 255).

Definition calculate_crc (fuel : nat) data : loop_result Z := crc_loop fuel data 0 0.
End crc.

(** The bytes [send] hands to the socket. A payload that does not fit behind
    the header overruns [txBuffer]. *)
Definition send (fuel : nat) (src pgn : Z) (data : list Z) : loop_result (list Z) :=
  let header := [Z.shiftr PACKET_START 8; Z.land PACKET_START 255; src; pgn;
                 u8 (zlength data)] in
  let txBuffer := header ++ data in
  let index := zlength txBuffer in
  if MAX_PACKET_SIZE <=? index then OutOfRange
  else
    match calculate_crc fuel (drop 2 txBuffer) with
    | Finished crc => Finished (txBuffer ++ [crc])
    | OutOfRange => OutOfRange
    | Running => Running
    end.

(** ** Receiving *)

(** One call of the packet callback. *)
Record Packet := { src : Z; pgn : Z; payload : list Z }.

Record RxState := { rxBuffer : list Z; rxIndex : Z }.

Definition initial_rx : RxState := {| rxBuffer := replicate 512 0; rxIndex := 0 |}.

(** What [receive_from] reports. A datagram that exceeds the space left in
    the buffer is cut off. *)
Inductive Received : Type :=
  | WouldBlock
  | Failed
  | Datagram (bytes : list Z).

Definition fill_buffer (bytes : list Z) (rx : RxState) : RxState :=
  let at_ := Z.to_nat (rxIndex rx) in
  let got := take (512 - at_) bytes in
  {| rxBuffer := take at_ (rxBuffer rx) ++ got ++ drop (at_ + length got) (rxBuffer rx);
     rxIndex := rxIndex rx + zlength got |}.

(** [{ rxBuffer.data() + index, len }]. *)
Definition span_at (index len : Z) (buffer : list Z) : option (list Z) :=
  if index + len <=? zlength buffer
  then Some (take (Z.to_nat len) (drop (Z.to_nat index) buffer)) else None.

(** [(rxBuffer\[index++\] << 8) | rxBuffer\[index++\]]. *)
Definition read_start (index : Z) (buffer : list Z) : option Z :=
  hi ← zlookup buffer index;
  lo ← zlookup buffer (u8 (index + 1));
  Some (u16 (Z.lor (Z.shiftl hi 8) lo)).

(** Source, PGN and length, the checksum byte being read and ignored. *)
Definition read_header (index : Z) (buffer : list Z) : option (Z * Z * Z) :=
  src ← zlookup buffer index;
  pgn ← zlookup buffer (u8 (index + 1));
  len ← zlookup buffer (u8 (index + 2));
  _ ← zlookup buffer (u8 (index + 3) + len);
  Some (src, pgn, len).

(** Move any remaining data to the front of the buffer. *)
Definition advance (index : Z) (rx : RxState) : RxState :=
  if index <? rxIndex rx then
    let n := Z.to_nat (rxIndex rx - index) in
    {| rxBuffer := take n (drop (Z.to_nat index) (rxBuffer rx)) ++ drop n (rxBuffer rx);
       rxIndex := rxIndex rx - index |}
  else {| rxBuffer := rxBuffer rx; rxIndex := 0 |}.

(** One round of the [while (rxIndex >= 8)] loop: the new state, the new
    [index] and what the round did to the outside. *)
Definition round_fn (Out : Type) : Type :=
  RxState -> Z -> option (RxState * Z * list Out).

Definition incoming_round : round_fn Packet := fun rx index =>
  start ← read_start index (rxBuffer rx);
  let index := u8 (index + 2) in
  if start =? PACKET_START then
    '(src, pgn, len) ← read_header index (rxBuffer rx);
    let index := u8 (index + 3) in
    data ← span_at index len (rxBuffer rx);
    let index := u8 (index + (len + 1)) in
    Some (advance index rx, index, [{| src := src; pgn := pgn; payload := data |}])
  else
    Some (advance index {| rxBuffer := rxBuffer rx; rxIndex := 0 |}, index, []).

(** A new subnet is stored and the connection bound again. *)
Inductive subnet_out : Type :=
  | set_subnet (a b c : Z).

Definition address_round : round_fn subnet_out := fun rx index =>
  start ← read_start index (rxBuffer rx);
  let index := u8 (index + 2) in
  if start =? PACKET_START then
    '(src, pgn, len) ← read_header index (rxBuffer rx);
    let index := u8 (index + 3) in
    if (src =? 127) && (pgn =? 201) && (len =? 5) then
      magic1 ← zlookup (rxBuffer rx) index;
      let index := u8 (index + 1) in
      if negb (magic1 =? 201) then
        let index := u8 (index + (len + 1)) in Some (advance index rx, index, [])
      else
        magic2 ← zlookup (rxBuffer rx) index;
        let index := u8 (index + 1) in
        if negb (magic2 =? 201) then
          let index := u8 (index + (len + 1)) in Some (advance index rx, index, [])
        else
          a ← zlookup (rxBuffer rx) index;
          b ← zlookup (rxBuffer rx) (u8 (index + 1));
          c ← zlookup (rxBuffer rx) (u8 (index + 2));
          let index := u8 (u8 (index + 3) + (len - 4)) in
          Some (advance index rx, index, [set_subnet a b c])
    else
      let index := u8 (index + (len + 1)) in Some (advance index rx, index, [])
  else
    Some (advance index {| rxBuffer := rxBuffer rx; rxIndex := 0 |}, index, []).

Section rx_loop.
Context {Out : Type} (round : round_fn Out).

Fixpoint rx_loop (fuel : nat) (rx : RxState) (index : Z)
    : loop_result (RxState * list Out) :=
  if 8 <=? rxIndex rx then
    match fuel with
    | O => Running
    | S fuel =>
        match round rx index with
        | None => OutOfRange
        | Some (rx', index', outs) =>
            match rx_loop fuel rx' index' with
            | Finished (rx'', outs') => Finished (rx'', outs ++ outs')
            | OutOfRange => OutOfRange
            | Running => Running
            end
        end
    end
  else Finished (rx, []).

(** The body the two handlers share. *)
Definition handle_received (fuel : nat) (received : Received) (rx : RxState)
    : loop_result (RxState * list Out) :=
  match received with
  | WouldBlock | Failed => Finished (rx, [])
  | Datagram bytes => rx_loop fuel (fill_buffer bytes rx) 0
  end.
End rx_loop.

Definition handle_incoming_packets : nat -> Received -> RxState ->
    loop_result (RxState * list Packet) := handle_received incoming_round.

Definition handle_address_detection : nat -> Received -> RxState ->
    loop_result (RxState * list subnet_out) := handle_received address_round.

(** ** Choosing the local address *)

(** An IPv4 address as its four octets. *)
Definition octets : Type := Z * Z * Z * Z.

Definition same_subnet (subnet : Z * Z * Z) (addr : octets) : bool :=
  let '(s0, s1, s2) := subnet in
  let '(a0, a1, a2, _) := addr in
  (s0 =? a0) && (s1 =? a1) && (s2 =? a2).

Definition loopback : octets := (127, 0, 0, 1).

(** [interfaces] is what [getifaddrs] lists, [None] when it fails;
    [resolved] what the resolver answers before it ends or throws. *)
Definition get_local_endpoint (subnet : Z * Z * Z)
    (interfaces : option (list octets)) (resolved : list octets) : octets :=
  match List.find (same_subnet subnet) (default [] interfaces) with
  | Some addr => addr
  | None => match List.find (same_subnet subnet) resolved with
            | Some addr => addr
            | None => loopback
            end
  end.

(** What the operating system offers: the addresses of its interfaces and of
    the resolver, and which addresses, and whether port 8888 of all
    addresses, can be bound. *)
Record Sockets := {
  interfaces : option (list octets);
  resolved : list octets;
  bind_ok : octets -> bool;
  bind_any_ok : bool
}.

(** Opens the connection and binds it; [None]: [bind] throws. The same lines
    rebind it after the subnet has changed. *)
Definition bind_connection (env : Sockets) (subnet : Z * Z * Z) : option octets :=
  let endpoint := get_local_endpoint subnet (interfaces env) (resolved env) in
  if bind_ok env endpoint then Some endpoint else None.

Definition open (env : Sockets) (subnet : Z * Z * Z) : option octets :=
  endpoint ← bind_connection env subnet;
  if bind_any_ok env then Some endpoint else None.

(** A socket that is not open has no local endpoint. *)
Definition get_bound_ip_address (bound : option octets) : list Z :=
  match bound with
  | None => bytes_of_string "not available"
  | Some (a, b, c, d) =>
      to_string a ++ [46] ++ to_string b ++ [46] ++ to_string c ++ [46] ++ to_string d
  end.
