(* ===== verification/UdpFacts.v ===== *)
(** * The UDP link: safety, termination and round trips

    The receive loops never leave their buffer. They end on every buffer
    without the byte 250, and do not end on a frame of payload length 250.
    A frame that [send] builds is delivered by the receiver; what happens to
    several frames in the buffer depends on their lengths, because [index] is
    not reset when the rest of the buffer is moved to the front. *)

From S2P Require Import Prelude Udp.

(** ** Memory safety and termination *)

Record rx_ok (rx : RxState) : Prop := {
  rx_length : length (rxBuffer rx) = 512%nat;
  rx_bytes : Forall is_u8 (rxBuffer rx);
  rx_index_range : 0 <= rxIndex rx <= 512
}.

Lemma rx_read rx i :
  rx_ok rx -> 0 <= i < 512 ->
  exists b, zlookup (rxBuffer rx) i = Some b /\ is_u8 b /\ b ∈ rxBuffer rx.
Proof.
  intros [Hl Hb _] Hi. destruct (zlookup_is_Some (rxBuffer rx) i) as [b Hbi].
  { unfold zlength. lia. }
  exists b. split_and!; [done|by eapply Forall_zlookup|].
  by eapply list_elem_of_lookup_2.
Qed.

Lemma advance_ok i rx : rx_ok rx -> 0 <= i -> rx_ok (advance i rx).
Proof.
  intros [Hl Hb Hr] Hi. unfold advance. destruct (Z.ltb_spec i (rxIndex rx)).
  - split; simpl.
    + rewrite length_app, length_take, !length_drop. lia.
    + apply Forall_app; split; auto using Forall_take, Forall_drop.
    + lia.
  - split; simpl; done.
Qed.

Lemma advance_elem i rx b : b ∈ rxBuffer (advance i rx) -> b ∈ rxBuffer rx.
Proof.
  unfold advance. case_match; simpl; [|done].
  intros [Hb%elem_of_take|Hb]%elem_of_app.
  - destruct Hb as (j & Hj & _). rewrite lookup_drop in Hj. by eapply list_elem_of_lookup_2.
  - apply list_elem_of_lookup in Hb as [j Hj]. rewrite lookup_drop in Hj.
    by eapply list_elem_of_lookup_2.
Qed.

Lemma advance_rxIndex i rx :
  rxIndex (advance i rx) = if i <? rxIndex rx then rxIndex rx - i else 0.
Proof. unfold advance. by case_match. Qed.

(** The buffer without the payload length that stops the loop's progress. *)
Definition no_250 (rx : RxState) : Prop := 250 ∉ rxBuffer rx.

Section loops.
Context {Out : Type} (round : round_fn Out).

(** A round reads inside the buffer, and makes progress unless the byte 250
    is in the buffer. *)
Definition round_ok : Prop := forall rx i,
  rx_ok rx -> is_u8 i -> 8 <= rxIndex rx ->
  exists rx' i' outs, round rx i = Some (rx', i', outs) /\
    rx_ok rx' /\ is_u8 i' /\ (no_250 rx -> no_250 rx') /\
    (no_250 rx -> rxIndex rx' < rxIndex rx \/
                  (rxIndex rx' = rxIndex rx /\ i <> 0 /\ i' = 0)).

Context (Hround : round_ok).

Lemma rx_loop_safe fuel rx i :
  rx_ok rx -> is_u8 i ->
  match rx_loop round fuel rx i with
  | Finished (rx', _) => rx_ok rx' /\ rxIndex rx' < 8
  | OutOfRange => False
  | Running => True
  end.
Proof using Hround.
  revert rx i. induction fuel as [|fuel IH]; intros rx i Hrx Hi; simpl;
    (destruct (Z.leb_spec 8 (rxIndex rx)); [|done]); [done|].
  destruct (Hround rx i) as (rx' & i' & outs & -> & Hrx' & Hi' & _); [done..|].
  specialize (IH rx' i' Hrx' Hi'). by destruct (rx_loop round fuel rx' i') as [[]| |].
Qed.

Lemma rx_loop_ends fuel rx i :
  rx_ok rx -> is_u8 i -> no_250 rx ->
  2 * rxIndex rx + (if i =? 0 then 0 else 1) <= Z.of_nat fuel ->
  exists rx' outs, rx_loop round fuel rx i = Finished (rx', outs).
Proof using Hround.
  revert rx i. induction fuel as [|fuel IH]; intros rx i Hrx Hi Hno Hf;
    pose proof (rx_index_range _ Hrx); simpl;
    (destruct (Z.leb_spec 8 (rxIndex rx)); [|by eexists _, _]).
  { destruct (i =? 0); lia. }
  destruct (Hround rx i) as (rx' & i' & outs & -> & Hrx' & Hi' & Hn & Hp); [done..|].
  destruct (IH rx' i' Hrx' Hi' (Hn Hno)) as (rx'' & outs' & ->); [|by eexists _, _].
  destruct (Hp Hno) as [Hlt|(Heq & Hi0 & ->)].
  - destruct (i =? 0), (i' =? 0); lia.
  - rewrite (proj2 (Z.eqb_neq i 0) Hi0) in Hf. simpl. lia.
Qed.

Lemma rx_loop_no_250 fuel rx i rx' outs :
  rx_ok rx -> is_u8 i -> no_250 rx -> rx_loop round fuel rx i = Finished (rx', outs) ->
  no_250 rx'.
Proof using Hround.
  revert rx i outs. induction fuel as [|fuel IH]; intros rx i outs Hrx Hi Hno; simpl;
    (destruct (Z.leb_spec 8 (rxIndex rx)); [|by intros [= <- _]]); [done|].
  destruct (Hround rx i) as (rx1 & i1 & outs1 & -> & Hrx1 & Hi1 & Hn & _); [done..|].
  destruct (rx_loop round fuel rx1 i1) as [[rx2 outs2]| |] eqn:E; [|done..].
  intros [= <- _]. by apply (IH rx1 i1 outs2); auto.
Qed.
End loops.

Lemma read_start_ok rx i :
  rx_ok rx -> is_u8 i -> exists start, read_start i (rxBuffer rx) = Some start.
Proof.
  intros Hrx Hi. unfold read_start.
  destruct (rx_read rx i Hrx) as (b0 & -> & _); [width|].
  destruct (rx_read rx (u8 (i + 1)) Hrx) as (b1 & -> & _); [width|]. simpl. eauto.
Qed.

Lemma read_header_ok rx i :
  rx_ok rx -> is_u8 i ->
  exists src pgn len, read_header i (rxBuffer rx) = Some (src, pgn, len) /\
    is_u8 len /\ len ∈ rxBuffer rx.
Proof.
  intros Hrx Hi. unfold read_header.
  destruct (rx_read rx i Hrx) as (b0 & -> & _); [width|].
  destruct (rx_read rx (u8 (i + 1)) Hrx) as (b1 & -> & _); [width|].
  destruct (rx_read rx (u8 (i + 2)) Hrx) as (b2 & -> & Hb2 & Hin); [width|]. simpl.
  destruct (rx_read rx (u8 (i + 3) + b2) Hrx) as (b3 & -> & _); [width|]. simpl. eauto 6.
Qed.

(** Leaving a round with [index' = i'], the marker having been seen. *)
Lemma advance_round {Out} rx i i' (outs : list Out) :
  rx_ok rx -> is_u8 i' -> 8 <= rxIndex rx -> (no_250 rx -> i = 0 -> i' <> 0) ->
  exists rx' i'' outs', Some (advance i' rx, i', outs) = Some (rx', i'', outs') /\
    rx_ok rx' /\ is_u8 i'' /\ (no_250 rx -> no_250 rx') /\
    (no_250 rx -> rxIndex rx' < rxIndex rx \/
                  (rxIndex rx' = rxIndex rx /\ i <> 0 /\ i'' = 0)).
Proof.
  intros Hrx Hi' H8 Hne. exists (advance i' rx), i', outs. split_and!; [done| |done|..].
  - apply advance_ok; [done|width].
  - unfold no_250. intros Hno Hin. by apply advance_elem in Hin.
  - intros Hno. rewrite advance_rxIndex. unfold is_u8 in Hi'.
    destruct (Z.ltb_spec i' (rxIndex rx)); [|lia].
    destruct (decide (i' = 0)) as [->|]; [right|left; lia].
    split_and!; [lia| |done]. intros ->. by apply Hne.
Qed.

(** Leaving a round that saw something else. *)
Lemma reset_round {Out} rx i i' :
  rx_ok rx -> is_u8 i' -> 8 <= rxIndex rx ->
  exists rx' i'' (outs' : list Out),
    Some (advance i' {| rxBuffer := rxBuffer rx; rxIndex := 0 |}, i', []) =
      Some (rx', i'', outs') /\
    rx_ok rx' /\ is_u8 i'' /\ (no_250 rx -> no_250 rx') /\
    (no_250 rx -> rxIndex rx' < rxIndex rx \/
                  (rxIndex rx' = rxIndex rx /\ i <> 0 /\ i'' = 0)).
Proof.
  intros Hrx Hi' H8. pose proof Hrx as [Hl Hb Hr].
  assert (rx_ok {| rxBuffer := rxBuffer rx; rxIndex := 0 |}) by (split; simpl; done || lia).
  unfold is_u8 in Hi'. eexists _, _, _. split_and!; [done| |done|..].
  - apply advance_ok; [done|lia].
  - unfold no_250. intros Hno Hin. by apply advance_elem in Hin.
  - intros _. left. rewrite advance_rxIndex. simpl.
    rewrite (proj2 (Z.ltb_ge i' 0)) by lia. lia.
Qed.

Lemma incoming_round_ok : round_ok incoming_round.
Proof.
  intros rx i Hrx Hi H8. unfold incoming_round.
  destruct (read_start_ok rx i Hrx Hi) as [start ->]. simpl.
  destruct (start =? PACKET_START); [|apply reset_round; auto with aog].
  destruct (read_header_ok rx (u8 (i + 2)) Hrx) as (s & p & len & -> & Hlen & Hin); [width|].
  simpl. unfold span_at, zlength. rewrite (rx_length _ Hrx).
  rewrite (proj2 (Z.leb_le _ _)) by width. simpl.
  apply advance_round; auto with aog. intros Hno ->.
  assert (len <> 250) by (intros ->; by apply Hno). width.
Qed.

Lemma address_round_ok : round_ok address_round.
Proof.
  intros rx i Hrx Hi H8. unfold address_round.
  destruct (read_start_ok rx i Hrx Hi) as [start ->]. simpl.
  destruct (start =? PACKET_START); [|apply reset_round; auto with aog].
  destruct (read_header_ok rx (u8 (i + 2)) Hrx) as (s & p & len & -> & Hlen & Hin); [width|].
  simpl. set (j := u8 (u8 (i + 2) + 3)).
  assert (Hread : forall k, exists b, zlookup (rxBuffer rx) (u8 k) = Some b).
  { intros k. destruct (rx_read rx (u8 k) Hrx) as (b & ? & _); [width|eauto]. }
  destruct ((s =? 127) && (p =? 201) && (len =? 5)) eqn:E.
  - apply andb_true_iff in E as [_ ->%Z.eqb_eq].
    destruct (Hread (u8 (i + 2) + 3)) as [m1 Hm1]. fold j in Hm1. rewrite Hm1. simpl.
    destruct (negb (m1 =? 201)).
    { apply advance_round; auto with aog. intros _ ->. done. }
    destruct (Hread (j + 1)) as [m2 ->]. simpl. destruct (negb (m2 =? 201)).
    { apply advance_round; auto with aog. intros _ ->. done. }
    destruct (Hread (u8 (j + 1) + 1)) as [a ->], (Hread (u8 (u8 (j + 1) + 1) + 1)) as [b ->],
      (Hread (u8 (u8 (j + 1) + 1) + 2)) as [c ->]. simpl.
    apply advance_round; auto with aog. intros _ ->. done.
  - apply advance_round; auto with aog. intros Hno ->.
    assert (len <> 250) by (intros ->; by apply Hno). subst j. width.
Qed.

Lemma fill_buffer_ok bytes rx :
  rx_ok rx -> Forall is_u8 bytes -> rx_ok (fill_buffer bytes rx).
Proof.
  intros [Hl Hb Hr] Hbytes. unfold fill_buffer, zlength. split; simpl.
  - rewrite !length_app, !length_take, length_drop. lia.
  - rewrite !Forall_app. auto using Forall_take, Forall_drop.
  - rewrite length_take. lia.
Qed.

Lemma fill_buffer_no_250 bytes rx : no_250 rx -> 250 ∉ bytes -> no_250 (fill_buffer bytes rx).
Proof.
  unfold no_250, fill_buffer. simpl. intros Hrx Hb. rewrite !elem_of_app.
  intros [Hin|[Hin|Hin]].
  - apply Hrx. by eapply subseteq_take.
  - apply Hb. by eapply subseteq_take.
  - apply Hrx. by eapply subseteq_drop.
Qed.

(** What the rounds put out. *)
Lemma rx_loop_outs {Out} (round : round_fn Out) (P : Out -> Prop) fuel rx i rx' outs :
  round_ok round ->
  (forall rx i rx' i' outs, rx_ok rx -> is_u8 i -> round rx i = Some (rx', i', outs) ->
     Forall P outs) ->
  rx_ok rx -> is_u8 i -> rx_loop round fuel rx i = Finished (rx', outs) -> Forall P outs.
Proof.
  intros Hround HP. revert rx i outs. induction fuel as [|fuel IH]; intros rx i outs Hrx Hi;
    simpl; destruct (Z.leb_spec 8 (rxIndex rx)) as [H8|H8]; try done; intros Hrun.
  1, 3: simplify_eq; constructor.
  destruct (Hround rx i) as (rx1 & i1 & outs1 & Hr & Hrx1 & Hi1 & _); [done..|].
  rewrite Hr in Hrun. destruct (rx_loop round fuel rx1 i1) as [[rx2 outs2]| |] eqn:E;
    simplify_eq. apply Forall_app. split; [by apply (HP rx i rx1 i1)|by apply (IH rx1 i1)].
Qed.

Lemma incoming_round_outs rx i rx' i' outs :
  rx_ok rx -> is_u8 i -> incoming_round rx i = Some (rx', i', outs) ->
  Forall (fun p => Forall is_u8 (payload p)) outs.
Proof.
  intros Hrx Hi. unfold incoming_round.
  destruct (read_start_ok rx i Hrx Hi) as [start ->]. simpl.
  destruct (start =? PACKET_START); [|intros; simplify_eq; constructor].
  destruct (read_header_ok rx (u8 (i + 2)) Hrx) as (s & p & len & -> & _ & _); [width|].
  simpl. unfold span_at. destruct (_ <=? _); [|done]. simpl. intros [= <- <- <-].
  repeat constructor. simpl. apply Forall_take, Forall_drop, (rx_bytes _ Hrx).
Qed.

Lemma address_round_outs rx i rx' i' outs :
  rx_ok rx -> is_u8 i -> address_round rx i = Some (rx', i', outs) ->
  Forall (fun o => match o with set_subnet a b c => is_u8 a /\ is_u8 b /\ is_u8 c end) outs.
Proof.
  intros Hrx Hi. unfold address_round.
  destruct (read_start_ok rx i Hrx Hi) as [start ->]. simpl.
  destruct (start =? PACKET_START); [|intros; simplify_eq; constructor].
  destruct (read_header_ok rx (u8 (i + 2)) Hrx) as (s & p & len & -> & _ & _); [width|].
  simpl. assert (Hread : forall k, exists b, zlookup (rxBuffer rx) (u8 k) = Some b /\ is_u8 b).
  { intros k. destruct (rx_read rx (u8 k) Hrx) as (b & ? & ? & _); [width|eauto]. }
  destruct (_ && _); [|intros; simplify_eq; constructor].
  destruct (Hread (u8 (i + 2) + 3)) as (m1 & -> & _). simpl.
  destruct (negb _); [intros; simplify_eq; constructor|].
  destruct (Hread (u8 (u8 (i + 2) + 3) + 1)) as (m2 & -> & _). simpl.
  destruct (negb _); [intros; simplify_eq; constructor|].
  set (j := u8 (u8 (u8 (i + 2) + 3) + 1)).
  destruct (Hread (j + 1)) as (a & -> & Ha), (Hread (u8 (j + 1) + 1)) as (b & -> & Hb),
    (Hread (u8 (j + 1) + 2)) as (c & -> & Hc). simpl.
  intros [= <- <- <-]. constructor; [done|constructor].
Qed.

(** One call of a handler. *)
Definition poll_safe {Out} (round : round_fn Out) (received : Received) (rx : RxState) : Prop :=
  (forall fuel, match handle_received round fuel received rx with
                | Finished (rx', _) => rx_ok rx' /\ rxIndex rx' < 8
                | OutOfRange => False
                | Running => True
                end) /\
  (no_250 rx -> (forall bytes, received = Datagram bytes -> 250 ∉ bytes) ->
   exists rx' outs, handle_received round 1024 received rx = Finished (rx', outs)).

Lemma poll_safe_round {Out} (round : round_fn Out) received rx :
  round_ok round -> rx_ok rx -> rxIndex rx < 8 ->
  (forall bytes, received = Datagram bytes -> Forall is_u8 bytes) ->
  poll_safe round received rx.
Proof.
  intros Hround Hrx H8 Hbytes. destruct received as [| |bytes];
    [split; [done|by eexists _, _]..|]. specialize (Hbytes bytes eq_refl).
  pose proof (fill_buffer_ok bytes rx Hrx Hbytes) as Hfill.
  split; [intros fuel; apply rx_loop_safe; done|]. intros Hno Hb.
  apply rx_loop_ends; try done; [by apply fill_buffer_no_250, Hb|].
  destruct Hfill as [_ _ Hr]. rewrite Z.eqb_refl. lia.
Qed.

Lemma handle_received_no_250 {Out} (round : round_fn Out) fuel received rx rx' outs :
  round_ok round -> rx_ok rx ->
  (forall bytes, received = Datagram bytes -> Forall is_u8 bytes /\ 250 ∉ bytes) ->
  no_250 rx -> handle_received round fuel received rx = Finished (rx', outs) -> no_250 rx'.
Proof.
  intros Hround Hrx Hbytes Hno. destruct received as [| |bytes]; [by intros [= <- _]..|].
  destruct (Hbytes bytes eq_refl) as [Hb Hn].
  apply (rx_loop_no_250 round); [done|by apply fill_buffer_ok|done|by apply fill_buffer_no_250].
Qed.

(** C32: whatever bytes arrive, both receive handlers stay inside their 512-byte
    buffer and leave fewer than eight bytes waiting when they return; and they
    do return, within 1024 rounds, unless the byte 250 is in the buffer. *)
Theorem receive_handlers_safe (received : Received) (rx : RxState)
    (Hrx : rx_ok rx) (H8 : rxIndex rx < 8)
    (Hbytes : forall bytes, received = Datagram bytes -> Forall is_u8 bytes) :
  poll_safe incoming_round received rx /\ poll_safe address_round received rx.
Proof. split; apply poll_safe_round; auto using incoming_round_ok, address_round_ok. Qed.

(** ** Frames *)

Definition checksum (s p : Z) (data : list Z) : Z :=
  Z.land (foldl Z.add 0 ([s; p; zlength data] ++ data)) 255.

Definition frame (s p : Z) (data : list Z) : list Z :=
  [128; 129; s; p; zlength data] ++ data ++ [checksum s p data].

Lemma zlength_frame s p data : zlength (frame s p data) = zlength data + 6.
Proof. unfold zlength, frame. simpl. rewrite length_app. simpl. lia. Qed.

(** The checksum loop adds up all bytes of a span shorter than 256. *)
Lemma crc_loop_spec fuel data i r :
  zlength data < 256 -> 0 <= i -> zlength data <= i + Z.of_nat fuel ->
  crc_loop fuel data i r =
  Finished (Z.land (foldl Z.add r (drop (Z.to_nat i) data)) 255).
Proof.
  intros Hd. revert i r. induction fuel as [|fuel IH]; intros i r Hi Hf; cbn [crc_loop].
  - rewrite (proj2 (Z.ltb_ge i _)) by lia. rewrite drop_ge; [done|]. unfold zlength in *. lia.
  - destruct (Z.ltb_spec i (zlength data)) as [Hlt|Hge].
    + destruct (zlookup_is_Some data i) as [b Hb]; [lia|]. rewrite Hb.
      rewrite u8_id by width. rewrite IH by lia. unfold zlookup in Hb.
      rewrite (drop_S data b (Z.to_nat i)) by done.
      by replace (Z.to_nat (i + 1)) with (S (Z.to_nat i)) by lia.
    + rewrite drop_ge; [done|]. unfold zlength in *. lia.
Qed.

(** On a span of 256 bytes or more the 8-bit counter wraps for ever. *)
Lemma crc_loop_diverges fuel data i r :
  256 <= zlength data -> is_u8 i -> crc_loop fuel data i r = Running.
Proof.
  intros Hd. revert i r. induction fuel as [|fuel IH]; intros i r Hi; cbn [crc_loop];
    unfold is_u8 in Hi; rewrite (proj2 (Z.ltb_lt i _)) by lia; [done|].
  destruct (zlookup_is_Some data i) as [b ->]; [lia|]. apply IH. apply u8_range.
Qed.

Lemma send_crc_span s p data :
  drop 2 ([128; 129; s; p; u8 (zlength data)] ++ data) = [s; p; u8 (zlength data)] ++ data.
Proof. done. Qed.

Lemma send_finished s p data :
  zlength data <= 252 -> send 256 s p data = Finished (frame s p data).
Proof.
  intros Hd. pose proof (zlength_nonneg data). unfold send.
  change (Z.shiftr PACKET_START 8) with 128. change (Z.land PACKET_START 255) with 129.
  assert (Hl : zlength ([128; 129; s; p; u8 (zlength data)] ++ data) = zlength data + 5)
    by (unfold zlength; simpl; lia).
  rewrite Hl, (proj2 (Z.leb_gt _ _)) by (unfold MAX_PACKET_SIZE; lia).
  rewrite send_crc_span. unfold calculate_crc. rewrite crc_loop_spec.
  - rewrite u8_id by width. done.
  - unfold zlength in *. simpl. lia.
  - lia.
  - unfold zlength in *. simpl. lia.
Qed.

(** [send] puts out exactly one frame (marker, source, PGN, length, payload
    and the sum of everything after the marker modulo 256) for a payload of up
    to 252 bytes. From 253 to 506 bytes the 8-bit loop counter of the checksum
    never reaches the end and the call never returns; beyond that the payload
    overruns the transmit buffer. *)
Theorem send_spec (s p : Z) (data : list Z) :
  if zlength data <=? 252 then send 256 s p data = Finished (frame s p data)
  else if zlength data <=? 506 then forall fuel, send fuel s p data = Running
  else forall fuel, send fuel s p data = OutOfRange.
Proof.
  destruct (Z.leb_spec (zlength data) 252); [by apply send_finished|].
  assert (Hl : zlength ([Z.shiftr PACKET_START 8; Z.land PACKET_START 255; s; p;
    u8 (zlength data)] ++ data) = zlength data + 5) by (unfold zlength; simpl; lia).
  destruct (Z.leb_spec (zlength data) 506); intros fuel; unfold send; rewrite Hl.
  - rewrite (proj2 (Z.leb_gt _ _)) by (unfold MAX_PACKET_SIZE; lia).
    unfold calculate_crc. rewrite crc_loop_diverges; [done| |unfold is_u8; lia].
    unfold zlength in *. simpl. lia.
  - by rewrite (proj2 (Z.leb_le _ _)) by (unfold MAX_PACKET_SIZE; lia).
Qed.

(** ** Receiving frames *)

(** [l] is waiting at the front of the buffer. *)
Definition holds (l : list Z) (rx : RxState) : Prop :=
  length (rxBuffer rx) = 512%nat /\ rxIndex rx = zlength l /\ l `prefix_of` rxBuffer rx.

Lemma holds_nil rx :
  length (rxBuffer rx) = 512%nat -> rxIndex rx = 0 -> holds [] rx.
Proof. intros. split_and!; [done|done|apply prefix_nil]. Qed.

Lemma holds_fill l bytes rx :
  holds l rx -> zlength l + zlength bytes <= 512 -> holds (l ++ bytes) (fill_buffer bytes rx).
Proof.
  intros (Hl & Hi & [tail Ht]) Hlen. unfold zlength in *.
  assert (Hat : Z.to_nat (rxIndex rx) = length l) by lia.
  unfold fill_buffer, holds. cbn [rxBuffer rxIndex]. rewrite Hat.
  rewrite (take_ge bytes) by lia. split_and!.
  - rewrite !length_app, length_take, length_drop. lia.
  - unfold zlength. rewrite length_app. lia.
  - rewrite Ht, take_app_length, app_assoc. by eexists.
Qed.

(** Reading relative to what lies at position [i]. *)
Lemma zlookup_drop (buf l : list Z) i j :
  drop (Z.to_nat i) buf = l -> 0 <= i -> 0 <= j -> zlookup buf (i + j) = l !! Z.to_nat j.
Proof.
  intros <- Hi Hj. unfold zlookup. rewrite lookup_drop. f_equal. lia.
Qed.

Lemma span_at_frame (buf data rest h : list Z) i :
  drop (Z.to_nat i) buf = h ++ data ++ rest -> 0 <= i -> zlength h = 5 ->
  span_at (i + 5) (zlength data) buf = Some data.
Proof.
  intros Hd Hi Hh.
  assert (Hlen : (Z.to_nat i + length (h ++ data ++ rest) = length buf \/
                  length (h ++ data ++ rest) = 0)%nat).
  { rewrite <- Hd, length_drop. lia. }
  rewrite !length_app in Hlen. unfold span_at, zlength in *.
  rewrite (proj2 (Z.leb_le _ _)) by lia.
  replace (Z.to_nat (i + 5)) with (Z.to_nat i + length h)%nat by lia.
  rewrite <- drop_drop, Hd, drop_app_length, Nat2Z.id, take_app_length. done.
Qed.

(** A round at a frame. *)
Lemma incoming_round_frame rx i s p data rest :
  drop (Z.to_nat i) (rxBuffer rx) = frame s p data ++ rest -> 0 <= i ->
  i + zlength (frame s p data) <= 255 ->
  incoming_round rx i =
    Some (advance (i + zlength (frame s p data)) rx, i + zlength (frame s p data),
          [{| src := s; pgn := p; payload := data |}]).
Proof.
  intros Hd Hi Hlen. rewrite zlength_frame in *. pose proof (zlength_nonneg data).
  assert (Hr : forall j x, 0 <= j -> (frame s p data ++ rest) !! Z.to_nat j = Some x ->
    zlookup (rxBuffer rx) (i + j) = Some x).
  { intros j x Hj <-. by apply zlookup_drop. }
  unfold incoming_round, read_start, read_header.
  rewrite !(u8_id (i + _)) by width.
  rewrite <- (Z.add_0_r i) at 1. rewrite (Hr 0 128), (Hr 1 129) by done.
  cbn [mbind option_bind]. change (u16 (Z.lor (Z.shiftl 128 8) 129)) with PACKET_START.
  rewrite Z.eqb_refl. rewrite <- !Z.add_assoc. rewrite !(u8_id (i + _)) by width.
  change (2 + 1) with 3. change (2 + 2) with 4. change (2 + 3) with 5.
  rewrite (Hr 2 s), (Hr 3 p), (Hr 4 (zlength data)) by done. cbn [mbind option_bind].
  rewrite <- (Z.add_assoc i 5), (Hr (5 + zlength data) (checksum s p data)); [|lia|].
  2: { unfold frame. replace (Z.to_nat (5 + zlength data)) with (5 + length data)%nat
         by (unfold zlength; lia). simpl. rewrite <- app_assoc.
       by rewrite lookup_app_r, Nat.sub_diag by lia. }
  cbn [mbind option_bind].
  rewrite (span_at_frame _ data ([checksum s p data] ++ rest) [128; 129; s; p; zlength data]);
    [|by rewrite Hd; unfold frame; simpl; rewrite <- app_assoc|done|done].
  cbn [mbind option_bind]. rewrite <- (Z.add_assoc i 5).
  rewrite (u8_id (i + (5 + (zlength data + 1)))) by width.
  by replace (5 + (zlength data + 1)) with (zlength data + 6) by lia.
Qed.

(** Reading the marker. *)
Lemma incoming_round_other rx i b0 b1 :
  zlookup (rxBuffer rx) i = Some b0 -> zlookup (rxBuffer rx) (i + 1) = Some b1 ->
  0 <= i <= 253 -> is_u8 b0 -> is_u8 b1 -> (b0, b1) <> (128, 129) ->
  exists i', incoming_round rx i =
    Some ({| rxBuffer := rxBuffer rx; rxIndex := 0 |}, i', []).
Proof.
  intros H0 H1 Hi Hb0 Hb1 Hne. unfold incoming_round, read_start.
  rewrite (u8_id (i + 1)) by width. rewrite H0, H1. cbn [mbind option_bind].
  rewrite (lor_shiftl_add b0 b1 8) by (unfold is_u8 in *; lia).
  destruct (Z.eqb_spec (u16 (b0 * 2 ^ 8 + b1)) PACKET_START) as [Heq|_].
  { exfalso. apply Hne. unfold PACKET_START in Heq. change (2 ^ 8) with 256 in Heq.
    assert (b0 = 128 /\ b1 = 129) as [-> ->] by width. done. }
  eexists. unfold advance. simpl. rewrite (proj2 (Z.ltb_ge (u8 (i + 2)) 0)) by width. done.
Qed.

Definition packet (s p : Z) (data : list Z) : Packet :=
  {| src := s; pgn := p; payload := data |}.

(** The buffer of a round that consumed the front [l1] of [l1 ++ l2]. *)
Lemma advance_holds l1 l2 rx :
  holds (l1 ++ l2) rx -> l2 <> [] ->
  advance (zlength l1) rx =
    {| rxBuffer := l2 ++ drop (length l2) (rxBuffer rx); rxIndex := zlength l2 |}.
Proof.
  intros (Hl & Hi & [tail Ht]) Hne. unfold advance, zlength in *. rewrite length_app in Hi.
  assert (length l2 <> 0)%nat by (by destruct l2).
  rewrite (proj2 (Z.ltb_lt _ _)) by lia. rewrite Nat2Z.id.
  replace (Z.to_nat (rxIndex rx - Z.of_nat (length l1))) with (length l2) by lia.
  f_equal; [|lia]. f_equal. by rewrite Ht, <- app_assoc, drop_app_length, take_app_length.
Qed.

Lemma advance_all l rx : holds l rx -> rxIndex (advance (zlength l) rx) = 0.
Proof.
  intros (_ & Hi & _). rewrite advance_rxIndex, Hi. by rewrite Z.ltb_irrefl.
Qed.

Lemma advance_buffer_length i rx :
  length (rxBuffer rx) = 512%nat -> rxIndex rx <= 512 -> 0 <= i ->
  length (rxBuffer (advance i rx)) = 512%nat.
Proof.
  intros Hl Hr Hi. unfold advance. destruct (Z.ltb_spec i (rxIndex rx)); [|done]. simpl.
  rewrite length_app, length_take, !length_drop. lia.
Qed.

Lemma rx_loop_stop {Out} (round : round_fn Out) fuel rx i :
  rxIndex rx < 8 -> rx_loop round fuel rx i = Finished (rx, []).
Proof. intros H8. destruct fuel; simpl; by rewrite (proj2 (Z.leb_gt _ _) H8). Qed.

Lemma rx_loop_single s p data rx fuel :
  holds (frame s p data) rx -> 2 <= zlength data <= 249 ->
  exists rx', rx_loop incoming_round (S fuel) rx 0 = Finished (rx', [packet s p data]) /\
    holds [] rx'.
Proof.
  intros Hh Hd. pose proof Hh as (Hl & Hi & [tail Ht]). cbn [rx_loop].
  rewrite zlength_frame in Hi. rewrite (proj2 (Z.leb_le 8 _)) by lia.
  rewrite (incoming_round_frame rx 0 s p data tail);
    [|by rewrite drop_0|done|rewrite zlength_frame; lia].
  pose proof (advance_all _ _ Hh) as H0.
  rewrite Z.add_0_l, rx_loop_stop by lia. eexists. split; [done|].
  apply holds_nil; [|done]. apply advance_buffer_length; [done|lia|apply zlength_nonneg].
Qed.

(** C31: a payload of 2 to 249 bytes survives the wire: [send] puts out one
    frame, and a receiver with an empty buffer hands exactly this source, PGN
    and payload to the packet callback and has an empty buffer again. *)
Theorem send_receive_roundtrip (s p : Z) (data : list Z) (rx : RxState) (fuel : nat)
    (Hd : 2 <= zlength data <= 249) (Hl : length (rxBuffer rx) = 512%nat)
    (Hempty : rxIndex rx = 0) :
  exists f rx', send 256 s p data = Finished f /\
    handle_incoming_packets (S fuel) (Datagram f) rx =
      Finished (rx', [{| src := s; pgn := p; payload := data |}]) /\
    length (rxBuffer rx') = 512%nat /\ rxIndex rx' = 0.
Proof.
  pose proof (holds_fill [] (frame s p data) rx (holds_nil rx Hl Hempty)) as Hf.
  rewrite zlength_frame in Hf. specialize (Hf ltac:(unfold zlength at 1; simpl; lia)).
  destruct (rx_loop_single s p data _ fuel Hf Hd) as (rx' & Hrun & Hl' & Hi' & _).
  exists (frame s p data), rx'. split_and!; try done. by apply send_finished; lia.
Qed.

(** ** The length that never ends *)

Lemma round_250 rx s p rest :
  holds ([128; 129; s; p; 250] ++ rest) rx -> 3 <= zlength rest ->
  (exists outs, incoming_round rx 0 = Some (rx, 0, outs)) /\
  (exists outs, address_round rx 0 = Some (rx, 0, outs)).
Proof.
  intros (Hl & Hi & [tail Ht]) Hr.
  assert (Hrd : forall j x, 0 <= j -> ([128; 129; s; p; 250] ++ rest ++ tail) !! Z.to_nat j =
    Some x -> zlookup (rxBuffer rx) j = Some x).
  { intros j x Hj <-. unfold zlookup. by rewrite Ht, <- app_assoc. }
  assert (Hadv : advance 0 rx = rx).
  { unfold advance. assert (rxIndex rx = zlength rest + 5) as Hi'
      by (rewrite Hi; unfold zlength; simpl; lia).
    rewrite (proj2 (Z.ltb_lt 0 _)) by lia. rewrite drop_0, take_drop.
    rewrite Z.sub_0_r. by destruct rx. }
  destruct (zlookup_is_Some (rxBuffer rx) 255) as [crc Hcrc]; [unfold zlength; lia|].
  unfold incoming_round, address_round, read_start, read_header, span_at, zlength.
  rewrite Hl.
  rewrite (Hrd 0 128), (Hrd (u8 (0 + 1)) 129) by done.
  cbn [mbind option_bind]. change (u16 (Z.lor (Z.shiftl 128 8) 129)) with PACKET_START.
  rewrite Z.eqb_refl. change (u8 (0 + 2)) with 2. change (u8 (2 + 1)) with 3.
  change (u8 (2 + 2)) with 4. change (u8 (2 + 3)) with 5.
  rewrite (Hrd 2 s), (Hrd 3 p), (Hrd 4 250) by done. cbn [mbind option_bind].
  change (5 + 250) with 255. rewrite Hcrc. cbn [mbind option_bind].
  change (u8 (5 + (250 + 1))) with 0. change (250 =? 5) with false.
  rewrite andb_false_r, Hadv. simpl. split; by eexists.
Qed.

(** C33: a datagram of at least eight bytes that starts with a header of length
    250, which the protocol still allows, is never left behind: in both
    handlers the 8-bit [index] wraps to 0, nothing is removed from the buffer
    and the loop runs for ever. *)
Theorem length_250_never_returns (rx : RxState) (s p : Z) (rest : list Z) (fuel : nat)
    (Hl : length (rxBuffer rx) = 512%nat) (Hempty : rxIndex rx = 0)
    (Hrest : 3 <= zlength rest <= 507) :
  let datagram := Datagram ([128; 129; s; p; 250] ++ rest) in
  handle_incoming_packets fuel datagram rx = Running /\
  handle_address_detection fuel datagram rx = Running.
Proof.
  intros datagram.
  pose proof (holds_fill [] ([128; 129; s; p; 250] ++ rest) rx (holds_nil rx Hl Hempty)) as Hf.
  simpl in Hf. specialize (Hf ltac:(unfold zlength in *; simpl; lia)).
  unfold handle_incoming_packets, handle_address_detection, handle_received, datagram.
  set (rx1 := fill_buffer _ rx) in *. clearbody rx1.
  assert (H8 : 8 <=? rxIndex rx1 = true).
  { destruct Hf as (_ & -> & _). apply Z.leb_le. unfold zlength in *. simpl. lia. }
  destruct (round_250 rx1 s p rest Hf) as [[o1 Ho1] [o2 Ho2]]; [lia|].
  split; induction fuel as [|fuel IH]; cbn [rx_loop]; rewrite H8; try done;
    rewrite ?Ho1, ?Ho2, IH; done.
Qed.

(** ** More than one frame *)

Lemma rx_loop_two s1 p1 d1 f2 rx fuel :
  holds (frame s1 p1 d1 ++ f2) rx -> 8 <= zlength f2 -> zlength (frame s1 p1 d1) <= 255 ->
  rx_loop incoming_round (S fuel) rx 0 =
    match rx_loop incoming_round fuel
      {| rxBuffer := f2 ++ drop (length f2) (rxBuffer rx); rxIndex := zlength f2 |}
      (zlength (frame s1 p1 d1)) with
    | Finished (rx', outs) => Finished (rx', packet s1 p1 d1 :: outs)
    | OutOfRange => OutOfRange
    | Running => Running
    end.
Proof.
  intros Hh Hf2 Hk. pose proof Hh as (Hl & Hi & [tail Ht]). cbn [rx_loop].
  assert (8 <=? rxIndex rx = true) as ->.
  { apply Z.leb_le. rewrite Hi. unfold zlength in *. rewrite length_app. lia. }
  rewrite (incoming_round_frame rx 0 s1 p1 d1 (f2 ++ tail));
    [|by rewrite drop_0, app_assoc|done|lia].
  rewrite Z.add_0_l, (advance_holds _ f2) by (done || (intros ->; unfold zlength in Hf2; simpl in Hf2; lia)).
  done.
Qed.

(** The second round of two frames. *)
Lemma second_frame_cases (rx : RxState) (waiting bytes : list Z)
    (s1 p1 s2 p2 : Z) (d1 d2 : list Z) (fuel : nat)
    (Hw : holds waiting rx)
    (Hsplit : waiting ++ bytes = frame s1 p1 d1 ++ frame s2 p2 d2)
    (Hd2 : 2 <= zlength d2) (Hsize : zlength d1 + zlength d2 + 12 <= 255)
    (Hu8 : Forall is_u8 (frame s2 p2 d2)) :
  let k := zlength (frame s1 p1 d1) in
  (zlength d2 <= zlength d1 ->
   exists rx', rxIndex rx' = 0 /\
     handle_incoming_packets (S (S fuel)) (Datagram bytes) rx =
       Finished (rx', [packet s1 p1 d1; packet s2 p2 d2])) /\
  (zlength d1 + 2 <= zlength d2 ->
   (zlookup (frame s2 p2 d2) k, zlookup (frame s2 p2 d2) (k + 1)) <> (Some 128, Some 129) ->
   exists rx', rxIndex rx' = 0 /\
     handle_incoming_packets (S (S fuel)) (Datagram bytes) rx =
       Finished (rx', [packet s1 p1 d1])).
Proof.
  intros k. pose proof (zlength_nonneg d1). pose proof (zlength_nonneg d2).
  assert (Hsum : zlength waiting + zlength bytes = zlength d1 + zlength d2 + 12).
  { pose proof (zlength_frame s1 p1 d1) as H1. pose proof (zlength_frame s2 p2 d2) as H2.
    apply (f_equal length) in Hsplit. rewrite !length_app in Hsplit. unfold zlength in *. lia. }
  pose proof (holds_fill waiting bytes rx Hw ltac:(lia)) as Hf. rewrite Hsplit in Hf.
  unfold handle_incoming_packets, handle_received.
  set (rx1 := fill_buffer bytes rx) in *. clearbody rx1.
  rewrite (rx_loop_two _ _ _ _ _ (S fuel) Hf) by (rewrite zlength_frame; lia). fold k.
  assert (Hk : k = zlength d1 + 6) by apply zlength_frame.
  set (f2 := frame s2 p2 d2) in *. assert (Hm : zlength f2 = zlength d2 + 6) by apply zlength_frame.
  set (rx2 := {| rxBuffer := _; rxIndex := _ |}).
  destruct Hf as (Hl & _ & [tail Ht]).
  assert (Hrx2 : rxIndex rx2 = zlength f2) by done.
  assert (H8 : 8 <=? rxIndex rx2 = true) by (apply Z.leb_le; lia).
  split.
  - intros Hle. cbn [rx_loop]. rewrite H8.
    rewrite (incoming_round_frame rx2 k s2 p2 d2 tail).
    + fold f2. assert (Hend : rxIndex (advance (k + zlength f2) rx2) = 0).
      { rewrite advance_rxIndex, (proj2 (Z.ltb_ge _ _)); [done|lia]. }
      rewrite rx_loop_stop by (rewrite Hend; lia). eexists. split; [|done]. done.
    + unfold rx2. cbn [rxBuffer]. rewrite drop_app_ge, drop_drop by (unfold zlength in *; lia).
      fold f2. rewrite Ht, <- app_assoc.
      replace (length f2 + (Z.to_nat k - length f2))%nat with (length (frame s1 p1 d1))
        by (unfold k, zlength in *; lia).
      apply drop_app_length.
    + lia.
    + rewrite zlength_frame. lia.
  - intros Hlt Hne. cbn [rx_loop]. rewrite H8.
    assert (Hrd : forall j, 0 <= j < zlength f2 -> exists b, zlookup (rxBuffer rx2) j = Some b /\
      zlookup f2 j = Some b /\ is_u8 b).
    { intros j Hj. destruct (zlookup_is_Some f2 j Hj) as [b Hb]. exists b.
      split_and!; [|done|by eapply Forall_zlookup].
      unfold zlookup, rx2 in *. cbn [rxBuffer]. by apply lookup_app_l_Some. }
    destruct (Hrd k) as (b0 & Hb0 & Hb0' & Hu0); [lia|].
    destruct (Hrd (k + 1)) as (b1 & Hb1 & Hb1' & Hu1); [lia|].
    destruct (incoming_round_other rx2 k b0 b1) as [i' ->]; try done; [lia| |].
    + intros Heq. apply Hne. rewrite Hb0', Hb1'. by simplify_eq.
    + rewrite rx_loop_stop by done. eexists. split; [|done]. done.
Qed.

(** Two frames that lie in the receive buffer together, whether one
    datagram brought both or the first waited there, are both delivered when
    the second is not longer than the first, because moving it to the front
    leaves a copy where [index] still points. When the second is longer, the
    parser reads at the first frame's length into the second one and, unless
    that happens to look like a marker, the second frame is lost. *)
Theorem second_frame_in_buffer (rx : RxState) (waiting bytes : list Z)
    (s1 p1 s2 p2 : Z) (d1 d2 : list Z) (fuel : nat)
    (Hw : holds waiting rx)
    (Hsplit : waiting ++ bytes = frame s1 p1 d1 ++ frame s2 p2 d2)
    (Hd2 : 2 <= zlength d2) (Hsize : zlength d1 + zlength d2 + 12 <= 255)
    (Hu8 : Forall is_u8 (frame s2 p2 d2)) :
  let k := zlength (frame s1 p1 d1) in
  (zlength d2 <= zlength d1 ->
   exists rx', rxIndex rx' = 0 /\
     handle_incoming_packets (S (S fuel)) (Datagram bytes) rx =
       Finished (rx', [packet s1 p1 d1; packet s2 p2 d2])) /\
  (zlength d1 + 2 <= zlength d2 ->
   (zlookup (frame s2 p2 d2) k, zlookup (frame s2 p2 d2) (k + 1)) <> (Some 128, Some 129) ->
   exists rx', rxIndex rx' = 0 /\
     handle_incoming_packets (S (S fuel)) (Datagram bytes) rx =
       Finished (rx', [packet s1 p1 d1])).
Proof. by apply second_frame_cases with waiting. Qed.

(** A payload of one byte, which the section control command has, makes a
    frame of seven bytes, one too few for the loop: the call that receives it
    delivers nothing. The next datagram's call delivers it, at the price of
    that datagram's own frame if the frame is at least nine bytes long and
    does not happen to have a marker at its offset 7. *)
Theorem one_byte_payload_delayed (rx : RxState) (s1 p1 x s2 p2 : Z) (d2 : list Z)
    (fuel : nat) (Hl : length (rxBuffer rx) = 512%nat) (Hempty : rxIndex rx = 0)
    (Hd2 : 3 <= zlength d2 <= 242) (Hu8 : Forall is_u8 (frame s2 p2 d2))
    (Hmark : (zlookup (frame s2 p2 d2) 7, zlookup (frame s2 p2 d2) 8) <> (Some 128, Some 129)) :
  exists rx1 rx2,
    handle_incoming_packets fuel (Datagram (frame s1 p1 [x])) rx = Finished (rx1, []) /\
    handle_incoming_packets (S (S fuel)) (Datagram (frame s2 p2 d2)) rx1 =
      Finished (rx2, [packet s1 p1 [x]]) /\ rxIndex rx2 = 0.
Proof.
  pose proof (holds_fill [] (frame s1 p1 [x]) rx (holds_nil rx Hl Hempty) ltac:(done)) as Hf.
  exists (fill_buffer (frame s1 p1 [x]) rx).
  destruct (second_frame_cases (fill_buffer (frame s1 p1 [x]) rx) (frame s1 p1 [x])
    (frame s2 p2 d2) s1 p1 s2 p2 [x] d2 fuel Hf eq_refl) as [_ Hlost];
    [lia|unfold zlength at 1; simpl; lia|done|].
  destruct Hlost as (rx2 & H0 & Hrun); [unfold zlength at 1; simpl; lia|done|].
  exists rx2. split_and!; [|done|done].
  apply rx_loop_stop. destruct Hf as (_ & -> & _). done.
Qed.

(** ** Address detection *)

Definition subnet_message (s p : Z) (data : list Z) : list subnet_out :=
  match data with
  | [m1; m2; a; b; c] =>
      if (s =? 127) && (p =? 201) && (m1 =? 201) && (m2 =? 201)
      then [set_subnet a b c] else []
  | _ => []
  end.

Lemma address_round_frame rx s p data tail :
  rxBuffer rx = frame s p data ++ tail -> zlength data <= 249 ->
  exists i', zlength (frame s p data) <= i' /\
    address_round rx 0 = Some (advance i' rx, i', subnet_message s p data).
Proof.
  intros Ht Hd. rewrite zlength_frame. pose proof (zlength_nonneg data).
  assert (Hr : forall j x, 0 <= j -> (frame s p data ++ tail) !! Z.to_nat j = Some x ->
    zlookup (rxBuffer rx) j = Some x) by (intros; unfold zlookup; by rewrite Ht).
  unfold address_round, read_start, read_header.
  rewrite (Hr 0 128), (Hr (u8 (0 + 1)) 129) by done. cbn [mbind option_bind].
  change (u16 (Z.lor (Z.shiftl 128 8) 129)) with PACKET_START. rewrite Z.eqb_refl.
  change (u8 (0 + 2)) with 2. change (u8 (2 + 1)) with 3.
  change (u8 (2 + 2)) with 4. change (u8 (2 + 3)) with 5.
  rewrite (Hr 2 s), (Hr 3 p), (Hr 4 (zlength data)) by done. cbn [mbind option_bind].
  rewrite (Hr (5 + zlength data) (checksum s p data)); [|lia|].
  2: { unfold frame. replace (Z.to_nat (5 + zlength data)) with (5 + length data)%nat
         by (unfold zlength; lia). simpl. rewrite <- app_assoc.
       by rewrite lookup_app_r, Nat.sub_diag by lia. }
  cbn [mbind option_bind].
  destruct (decide (zlength data = 5)) as [H5|H5]; last first.
  { rewrite (proj2 (Z.eqb_neq _ _) H5), andb_false_r. eexists. split; [|do 3 f_equal].
    - width.
    - unfold subnet_message. by do 6 (try destruct data as [|? data]). }
  destruct data as [|m1 [|m2 [|a [|b [|c [|]]]]]]; try (unfold zlength in H5; simpl in H5; lia).
  change (zlength [m1; m2; a; b; c]) with 5 in *. change (5 =? 5) with true.
  rewrite andb_true_r. unfold subnet_message.
  destruct ((s =? 127) && (p =? 201)); simpl; [|eexists; split; [|done]; vm_compute; congruence].
  change (u8 (5 + 1)) with 6. change (u8 (6 + 1)) with 7. change (u8 (7 + 1)) with 8.
  change (u8 (7 + 2)) with 9.
  rewrite (Hr 5 m1), (Hr 6 m2) by done. simpl.
  destruct (m1 =? 201); simpl; [|eexists; split; [|done]; vm_compute; congruence].
  destruct (m2 =? 201); simpl; [|eexists; split; [|done]; vm_compute; congruence].
  rewrite (Hr 7 a), (Hr 8 b), (Hr 9 c) by done. simpl.
  eexists. split; [|done]. vm_compute. congruence.
Qed.

(** On an empty buffer, address detection takes the subnet from exactly one
    kind of frame: source 127, PGN 201 and a payload of five bytes that starts
    with 201, 201; any other frame of 2 to 249 payload bytes changes no
    setting. Either way the frame is consumed. *)
Theorem subnet_detection_spec (s p : Z) (data : list Z) (rx : RxState) (fuel : nat)
    (Hd : 2 <= zlength data <= 249) (Hl : length (rxBuffer rx) = 512%nat)
    (Hempty : rxIndex rx = 0) :
  exists rx', handle_address_detection (S fuel) (Datagram (frame s p data)) rx =
    Finished (rx', subnet_message s p data) /\ rxIndex rx' = 0.
Proof.
  pose proof (holds_fill [] (frame s p data) rx (holds_nil rx Hl Hempty)) as Hf.
  rewrite zlength_frame in Hf. specialize (Hf ltac:(unfold zlength at 1; simpl; lia)).
  unfold handle_address_detection, handle_received.
  set (rx1 := fill_buffer _ rx) in *. clearbody rx1.
  destruct Hf as (Hl1 & Hi1 & [tail Ht]). cbn [app] in *. cbn [rx_loop].
  rewrite zlength_frame in Hi1. rewrite (proj2 (Z.leb_le 8 _)) by lia.
  destruct (address_round_frame rx1 s p data tail Ht) as (i' & Hi' & ->); [lia|].
  rewrite zlength_frame in Hi'.
  assert (H0 : rxIndex (advance i' rx1) = 0)
    by (rewrite advance_rxIndex, (proj2 (Z.ltb_ge _ _)); [done|lia]).
  rewrite rx_loop_stop by lia. eexists. split; [|done]. by rewrite app_nil_r.
Qed.

(** ** The local address *)

(** The socket is bound to an address of the configured /24 subnet when an
    interface or the resolver has one, the interfaces first, and to the
    loopback address when neither has. *)
Theorem get_local_endpoint_spec (subnet : Z * Z * Z) (interfaces : option (list octets))
    (resolved : list octets) :
  let addr := get_local_endpoint subnet interfaces resolved in
  let candidates := default [] interfaces ++ resolved in
  (same_subnet subnet addr = true /\ addr ∈ candidates /\
   ((exists a, a ∈ default [] interfaces /\ same_subnet subnet a = true) ->
    addr ∈ default [] interfaces)) \/
  (addr = loopback /\ forall a, a ∈ candidates -> same_subnet subnet a = false).
Proof.
  unfold get_local_endpoint. set (ifs := default [] interfaces).
  destruct (List.find (same_subnet subnet) ifs) as [a|] eqn:E1.
  { apply List.find_some in E1 as [Hin Hs]. rewrite <- list_elem_of_In in Hin.
    left. set_solver. }
  pose proof (List.find_none _ _ E1) as Hn1. setoid_rewrite <- list_elem_of_In in Hn1.
  destruct (List.find (same_subnet subnet) resolved) as [a|] eqn:E2.
  - apply List.find_some in E2 as [Hin Hs]. rewrite <- list_elem_of_In in Hin.
    left. split_and!; [done|set_solver|]. intros (b & Hb & Hsb). by rewrite Hn1 in Hsb.
  - pose proof (List.find_none _ _ E2) as Hn2. setoid_rewrite <- list_elem_of_In in Hn2.
    right. split; [done|]. intros a [Ha|Ha]%elem_of_app; auto.
Qed.
