(* ===== verification/Settings.v ===== *)
(** * The settings (src/settings.cpp, include/settings.hpp)

    The object is the record [Settings]; its recursive mutex makes every
    member function one atomic step (SettingsLocks.v). The JSON library is not part of this
    repository: [JsonApi] has the operations [load] and [save] use, an
    [option] where the library throws, and [JsonLaws] is what its
    documentation says of them. The file system is explicit: [SaveEnv] says
    how the calls of one [save] turn out, [fs_step] is one effect on the two
    files involved and [Disk] their contents, so that what a crash between
    two effects leaves behind can be stated. *)

From S2P Require Import Prelude.

(** A string as its bytes. *)
Notation bytes := (list Z) (only parsing).

(** ** The JSON library *)

(** The values that [save] assigns to members. *)
Inductive json_value : Type :=
  | JArray (a b c : Z)
  | JBool (b : bool)
  | JInt (n : Z)
  | JString (s : bytes).

Class JsonApi := {
  json : Type;
  json_null : json;
  (** [data\[key\] = value] *)
  set_member : string -> json_value -> json -> json;
  (** [data.contains (key)] *)
  contains : string -> json -> bool;
  (** [data\[key\].get<std::array<int, 3>> ()] and so on; [None] throws *)
  get_array3 : string -> json -> option (Z * Z * Z);
  get_int : string -> json -> option Z;
  get_string : string -> json -> option bytes;
  (** [data.value (key, default)] *)
  value_bool : string -> bool -> json -> option bool;
  (** [data.dump (4)], which throws on text that is not UTF-8 *)
  dump : json -> option bytes;
  (** [file >> data] *)
  parse : bytes -> option json
}.

Class JsonLaws `{JsonApi} := {
  parse_dump : forall j b, dump j = Some b -> parse b = Some j;
  contains_set : forall k k' v j,
    contains k (set_member k' v j) = bool_decide (k = k') || contains k j;
  get_array3_set : forall k a b c j,
    get_array3 k (set_member k (JArray a b c) j) = Some (a, b, c);
  get_array3_set_ne : forall k k' v j, k <> k' ->
    get_array3 k (set_member k' v j) = get_array3 k j;
  get_int_set : forall k n j, get_int k (set_member k (JInt n) j) = Some n;
  get_int_set_ne : forall k k' v j, k <> k' ->
    get_int k (set_member k' v j) = get_int k j;
  get_string_set : forall k s j, get_string k (set_member k (JString s) j) = Some s;
  get_string_set_ne : forall k k' v j, k <> k' ->
    get_string k (set_member k' v j) = get_string k j;
  value_bool_set : forall k b d j, value_bool k d (set_member k (JBool b) j) = Some b;
  value_bool_set_ne : forall k k' v d j, k <> k' ->
    value_bool k d (set_member k' v j) = value_bool k d j;
  (** the default, or an exception when [j] is no object *)
  value_bool_absent : forall k d j, contains k j = false ->
    value_bool k d j = Some d \/ value_bool k d j = None
}.

(** ** The object *)

Record Settings := {
  configuredSubnet : Z * Z * Z;
  tecuEnabled : bool;
  nmeaSendEnabled : bool;
  aogHeartbeatEnabled : bool;
  vtEnabled : bool;
  tcVersion : Z;
  languageCode : bytes;
  countryCode : bytes
}.

Definition DEFAULT_SUBNET : Z * Z * Z := (192, 168, 5).
Definition DEFAULT_TC_VERSION : Z := 3.
Definition DEFAULT_LANGUAGE_CODE : bytes := bytes_of_string "en".
Definition DEFAULT_COUNTRY_CODE : bytes := bytes_of_string "US".

Definition default_settings : Settings := {|
  configuredSubnet := DEFAULT_SUBNET;
  tecuEnabled := true;
  nmeaSendEnabled := true;
  aogHeartbeatEnabled := true;
  vtEnabled := true;
  tcVersion := DEFAULT_TC_VERSION;
  languageCode := DEFAULT_LANGUAGE_CODE;
  countryCode := DEFAULT_COUNTRY_CODE
|}.

(** A call returns a value or lets an exception escape. *)
Inductive outcome (A : Type) : Type :=
  | Returns (a : A)
  | Throws.
Arguments Returns {_} _.
Arguments Throws {_}.

(** ** Where the file is *)

(** Where the three builds look for a place: Linux and other Unix at two
    environment variables, macOS at one, Windows at the answer of
    [SHGetFolderPathA]. *)
Inductive ConfigRoot : Type :=
  | Unix (XDG_CONFIG_HOME HOME : option bytes)
  | Apple (HOME : option bytes)
  | Windows (app_data : option bytes).

(** [create_ok]: the directories could be made. *)
Record PathEnv := {
  config_root : ConfigRoot;
  PROJECT_NAME : bytes;
  create_ok : bool
}.

(** [a / b] for a relative [b], with the separator of the build. *)
Definition path_join (root : ConfigRoot) (a b : bytes) : bytes :=
  a ++ [match root with Windows _ => 92 | _ => 47 end] ++ b.

(** [None]: an exception. *)
Definition get_base_config_dir (env : PathEnv) : option bytes :=
  let join := path_join (config_root env) in
  match config_root env with
  | Windows app_data => (fun path => join path (PROJECT_NAME env)) <$> app_data
  | Apple HOME =>
      (fun home => join (join (join home (bytes_of_string "Library"))
                           (bytes_of_string "Application Support")) (PROJECT_NAME env)) <$> HOME
  | Unix (Some (c :: xdg)) _ => Some (join (c :: xdg) (PROJECT_NAME env))
  | Unix _ HOME => (fun home => join (join home (bytes_of_string ".config")) (PROJECT_NAME env)) <$> HOME
  end.

Definition get_filename_path (env : PathEnv) (fileName : bytes) : option bytes :=
  match get_base_config_dir env with
  | Some basePath => if create_ok env then Some (path_join (config_root env) basePath fileName) else None
  | None => None
  end.

Definition settings_json : bytes :=
  bytes_of_string "settings.json".

Section settings.
Context `{JsonApi}.

(** ** Loading *)

(** A key that is absent or whose value has the wrong type. *)
Definition load_subnet (data : json) : Z * Z * Z :=
  if contains "subnet" data then
    match get_array3 "subnet" data with
    | Some (a, b, c) => (u8 a, u8 b, u8 c)
    | None => DEFAULT_SUBNET
    end
  else DEFAULT_SUBNET.

Definition loadBoolean (data : json) (key : string) (defaultValue : bool) : bool :=
  match value_bool key defaultValue data with
  | Some b => b
  | None => defaultValue
  end.

Definition load_version (data : json) : Z :=
  if contains "tcVersion" data then
    match get_int "tcVersion" data with
    | Some version =>
        if (0 <=? version) && (version <=? 4) then u8 version else DEFAULT_TC_VERSION
    | None => DEFAULT_TC_VERSION
    end
  else DEFAULT_TC_VERSION.

Definition load_string (data : json) (key : string) (defaultValue : bytes) : bytes :=
  if contains key data then
    match get_string key data with Some s => s | None => defaultValue end
  else defaultValue.

(** [contents] is what the file at that path holds, [None] when it cannot
    be opened. *)
Definition load (env : PathEnv) (contents : option bytes) (s : Settings)
    : outcome bool * Settings :=
  match get_filename_path env settings_json with
  | None => (Throws, s)
  | Some _ =>
      match contents with
      | None => (Returns false, s)
      | Some text =>
          match parse text with
          | None => (Throws, s)
          | Some data =>
              (Returns true, {|
                 configuredSubnet := load_subnet data;
                 tecuEnabled := loadBoolean data "tecuEnabled" true;
                 nmeaSendEnabled := loadBoolean data "nmeaSendEnabled" true;
                 aogHeartbeatEnabled := loadBoolean data "aogHeartbeatEnabled" true;
                 vtEnabled := loadBoolean data "vtEnabled" true;
                 tcVersion := load_version data;
                 languageCode := load_string data "languageCode" DEFAULT_LANGUAGE_CODE;
                 countryCode := load_string data "countryCode" DEFAULT_COUNTRY_CODE |})
          end
      end
  end.

(** ** Saving *)

Definition to_json (s : Settings) : json :=
  let '(a, b, c) := configuredSubnet s in
  set_member "countryCode" (JString (countryCode s))
    (set_member "languageCode" (JString (languageCode s))
       (set_member "tcVersion" (JInt (tcVersion s))
          (set_member "vtEnabled" (JBool (vtEnabled s))
             (set_member "aogHeartbeatEnabled" (JBool (aogHeartbeatEnabled s))
                (set_member "nmeaSendEnabled" (JBool (nmeaSendEnabled s))
                   (set_member "tecuEnabled" (JBool (tecuEnabled s))
                      (set_member "subnet" (JArray a b c) json_null))))))).
End settings.

(** The two files; [None] is a missing file. *)
Record Disk := { settings_file : option bytes; temporary_file : option bytes }.

Inductive fs_step : Type :=
  | OpenTrunc
  | Write (b : bytes)
  | Rename
  | Remove.

Definition run_fs_step (d : Disk) (e : fs_step) : Disk :=
  match e with
  | OpenTrunc => {| settings_file := settings_file d; temporary_file := Some [] |}
  | Write b => {| settings_file := settings_file d;
                  temporary_file := (fun old => old ++ b) <$> temporary_file d |}
  | Rename => {| settings_file := temporary_file d; temporary_file := None |}
  | Remove => {| settings_file := settings_file d; temporary_file := None |}
  end.

Definition run_fs (d : Disk) (es : list fs_step) : Disk := foldl run_fs_step d es.

(** How the file operations of one [save] turn out: a failed write may have
    put [written] bytes into the file. [rename_ok] is the answer of
    [std::filesystem::rename] or, on Windows, of [MoveFileExW]. *)
Record SaveEnv := {
  paths : PathEnv;
  open_ok : bool;
  write_ok : bool;
  written : nat;
  rename_ok : bool
}.

Section save.
Context `{JsonApi}.

Definition save (env : SaveEnv) (s : Settings) : outcome bool * list fs_step :=
  match get_filename_path (paths env) settings_json with
  | None => (Throws, [])
  | Some _ =>
      if negb (open_ok env) then (Returns false, [])
      else
        match dump (to_json s) with
        | None => (Throws, [OpenTrunc])
        | Some text =>
            if negb (write_ok env)
            then (Returns false, [OpenTrunc; Write (take (written env) text); Remove])
            else if rename_ok env
            then (Returns true, [OpenTrunc; Write text; Rename])
            else (Returns false, [OpenTrunc; Write text; Remove])
        end
  end.

(** ** Accessors *)

Definition get_subnet (s : Settings) : Z * Z * Z := configuredSubnet s.
Definition is_tecu_enabled (s : Settings) : bool := tecuEnabled s.
Definition is_nmea_send_enabled (s : Settings) : bool := nmeaSendEnabled s.
Definition is_vt_enabled (s : Settings) : bool := vtEnabled s.
Definition is_aog_heartbeat_enabled (s : Settings) : bool := aogHeartbeatEnabled s.
Definition get_tc_version (s : Settings) : Z := tcVersion s.
Definition get_language_code (s : Settings) : bytes := languageCode s.
Definition get_country_code (s : Settings) : bytes := countryCode s.

Definition get_subnet_string (s : Settings) : bytes :=
  let '(a, b, c) := configuredSubnet s in
  to_string a ++ [46] ++ to_string b ++ [46] ++ to_string c ++ bytes_of_string ".0".

(** [if (save) return this->save(); return true;] *)
Definition maybe_save (env : SaveEnv) (save_ : bool) (s : Settings)
    : outcome bool * Settings * list fs_step :=
  if save_ then let '(r, es) := save env s in (r, s, es) else (Returns true, s, []).

Definition set_subnet (env : SaveEnv) (subnet : Z * Z * Z) (save_ : bool) (s : Settings)
    : outcome bool * Settings * list fs_step :=
  maybe_save env save_
    (Build_Settings subnet (tecuEnabled s) (nmeaSendEnabled s) (aogHeartbeatEnabled s)
       (vtEnabled s) (tcVersion s) (languageCode s) (countryCode s)).

(** The member a [bool &] parameter refers to. *)
Inductive bool_setting : Type := Tecu | NmeaSend | AogHeartbeat | Vt.

Definition get_bool (b : bool_setting) (s : Settings) : bool :=
  match b with
  | Tecu => tecuEnabled s
  | NmeaSend => nmeaSendEnabled s
  | AogHeartbeat => aogHeartbeatEnabled s
  | Vt => vtEnabled s
  end.

Definition put_bool (b : bool_setting) (x : bool) (s : Settings) : Settings :=
  Build_Settings (configuredSubnet s)
    (match b with Tecu => x | _ => tecuEnabled s end)
    (match b with NmeaSend => x | _ => nmeaSendEnabled s end)
    (match b with AogHeartbeat => x | _ => aogHeartbeatEnabled s end)
    (match b with Vt => x | _ => vtEnabled s end)
    (tcVersion s) (languageCode s) (countryCode s).

(** The previous value comes back when saving fails; an exception of [save]
    leaves before that. *)
Definition set_boolean (env : SaveEnv) (setting : bool_setting) (enabled save_ : bool)
    (s : Settings) : outcome bool * Settings * list fs_step :=
  let previousValue := get_bool setting s in
  let s := put_bool setting enabled s in
  if negb save_ then (Returns true, s, [])
  else
    match save env s with
    | (Returns true, es) => (Returns true, s, es)
    | (Returns false, es) => (Returns false, put_bool setting previousValue s, es)
    | (Throws, es) => (Throws, s, es)
    end.

Definition set_tecu_enabled env := set_boolean env Tecu.
Definition set_nmea_send_enabled env := set_boolean env NmeaSend.
Definition set_vt_enabled env := set_boolean env Vt.
Definition set_aog_heartbeat_enabled env := set_boolean env AogHeartbeat.

Definition set_tc_version (env : SaveEnv) (version : Z) (save_ : bool) (s : Settings)
    : outcome bool * Settings * list fs_step :=
  maybe_save env save_
    (Build_Settings (configuredSubnet s) (tecuEnabled s) (nmeaSendEnabled s)
       (aogHeartbeatEnabled s) (vtEnabled s)
       (if 4 <? version then DEFAULT_TC_VERSION else version)
       (languageCode s) (countryCode s)).

Definition set_language_code (env : SaveEnv) (code : bytes) (save_ : bool) (s : Settings)
    : outcome bool * Settings * list fs_step :=
  maybe_save env save_
    (Build_Settings (configuredSubnet s) (tecuEnabled s) (nmeaSendEnabled s)
       (aogHeartbeatEnabled s) (vtEnabled s) (tcVersion s) code (countryCode s)).

Definition set_country_code (env : SaveEnv) (code : bytes) (save_ : bool) (s : Settings)
    : outcome bool * Settings * list fs_step :=
  maybe_save env save_
    (Build_Settings (configuredSubnet s) (tecuEnabled s) (nmeaSendEnabled s)
       (aogHeartbeatEnabled s) (vtEnabled s) (tcVersion s) (languageCode s) code).
End save.

(** ** Correctness *)

(** Values of the declared types, and a version the library knows. *)
Record settings_ok (s : Settings) : Prop := {
  subnet_ok : let '(a, b, c) := configuredSubnet s in is_u8 a /\ is_u8 b /\ is_u8 c;
  version_ok : 0 <= tcVersion s <= 4
}.

Lemma default_settings_ok : settings_ok default_settings.
Proof. split; simpl; unfold is_u8, DEFAULT_TC_VERSION; lia. Qed.

Section facts.
Context `{JsonApi}.

Lemma loaded_subnet_ok data :
  let '(a, b, c) := load_subnet data in is_u8 a /\ is_u8 b /\ is_u8 c.
Proof.
  unfold load_subnet, DEFAULT_SUBNET.
  destruct (contains "subnet" data); [destruct (get_array3 "subnet" data) as [[[a b] c]|]|];
    auto with aog; unfold is_u8; lia.
Qed.

Lemma loaded_version_ok data : 0 <= load_version data <= 4.
Proof.
  unfold load_version, DEFAULT_TC_VERSION.
  destruct (contains _ data); [|lia]. destruct (get_int _ data) as [v|]; [|lia].
  destruct (Z.leb_spec 0 v), (Z.leb_spec v 4); simpl; try lia. width.
Qed.

Lemma load_settings_ok env contents s : settings_ok s -> settings_ok (load env contents s).2.
Proof.
  intros Hs. unfold load. destruct (get_filename_path env settings_json); [|done].
  destruct contents as [text|]; [|done]. destruct (parse text); [|done].
  split; [apply loaded_subnet_ok|apply loaded_version_ok].
Qed.

(** What a switch or a text is after [load]: the value of its key when this is
    there and has the type, otherwise the default. *)
Definition switch_loaded (key : string) (data : json) (b : bool) : Prop :=
  (forall v, contains key data = true -> value_bool key true data = Some v -> b = v) /\
  (contains key data = false -> b = true) /\ (value_bool key true data = None -> b = true).

Definition text_loaded (key : string) (default : bytes) (data : json) (t : bytes) : Prop :=
  (forall v, contains key data = true -> get_string key data = Some v -> t = v) /\
  (contains key data = false -> t = default) /\ (get_string key data = None -> t = default).

Lemma loadBoolean_loaded `{!JsonLaws} key data : switch_loaded key data (loadBoolean data key true).
Proof.
  unfold loadBoolean. split; [by intros v _ ->|]. split; [|by intros ->].
  by intros [-> | ->]%(value_bool_absent key true).
Qed.

Lemma load_string_loaded key default data :
  text_loaded key default data (load_string data key default).
Proof. unfold load_string. split; [by intros v -> ->|]. by split; intros ->; [|case_match]. Qed.

(** C35: whatever the settings file holds, [load] either leaves every setting
    as it was or replaces all eight. It leaves them when the file cannot be
    opened, answering [false], and when its path cannot be had or its text
    does not parse, with an exception. Otherwise each setting has the value
    of its key when the file has that key with a value of its type, the
    numbers of the subnet cut to eight bits and a version outside of 0 to 4
    refused, and its default in every other case; all are legal. *)
Theorem load_spec `{!JsonLaws} (env : PathEnv) (contents : option (list Z)) (s : Settings)
    (Hs : settings_ok s) :
  let '(r, s') := load env contents s in
  settings_ok s' /\
  match r with
  | Returns true =>
      is_Some (get_filename_path env settings_json) /\
      exists text data, contents = Some text /\ parse text = Some data /\
      ((forall a b c, contains "subnet" data = true -> get_array3 "subnet" data = Some (a, b, c) ->
          configuredSubnet s' = (u8 a, u8 b, u8 c)) /\
       (contains "subnet" data = false -> configuredSubnet s' = DEFAULT_SUBNET) /\
       (get_array3 "subnet" data = None -> configuredSubnet s' = DEFAULT_SUBNET)) /\
      switch_loaded "tecuEnabled" data (tecuEnabled s') /\
      switch_loaded "nmeaSendEnabled" data (nmeaSendEnabled s') /\
      switch_loaded "aogHeartbeatEnabled" data (aogHeartbeatEnabled s') /\
      switch_loaded "vtEnabled" data (vtEnabled s') /\
      ((forall v, contains "tcVersion" data = true -> get_int "tcVersion" data = Some v ->
          tcVersion s' = if decide (0 <= v <= 4) then v else DEFAULT_TC_VERSION) /\
       (contains "tcVersion" data = false -> tcVersion s' = DEFAULT_TC_VERSION) /\
       (get_int "tcVersion" data = None -> tcVersion s' = DEFAULT_TC_VERSION)) /\
      text_loaded "languageCode" DEFAULT_LANGUAGE_CODE data (languageCode s') /\
      text_loaded "countryCode" DEFAULT_COUNTRY_CODE data (countryCode s')
  | Returns false => s' = s /\ is_Some (get_filename_path env settings_json) /\ contents = None
  | Throws => s' = s /\
      (get_filename_path env settings_json = None \/
       exists text, contents = Some text /\ parse text = None)
  end.
Proof.
  unfold load. destruct (get_filename_path env settings_json); [|by split; [|split; [|left]]].
  destruct contents as [text|]; [|by split_and!].
  destruct (parse text) as [data|] eqn:Ep; [|split; [done|]; split; [done|]; right; by exists text].
  split; [split; [apply loaded_subnet_ok|apply loaded_version_ok]|].
  split; [done|]. exists text, data. cbn [configuredSubnet tecuEnabled nmeaSendEnabled
    aogHeartbeatEnabled vtEnabled tcVersion languageCode countryCode].
  split_and!; try apply loadBoolean_loaded; try apply load_string_loaded; try done.
  - intros a b c. unfold load_subnet. by intros -> ->.
  - unfold load_subnet. by intros ->.
  - unfold load_subnet. intros ->. by case_match.
  - intros v Hc Hv. unfold load_version. rewrite Hc, Hv.
    destruct (Z.leb_spec 0 v), (Z.leb_spec v 4); simpl; case_decide; try lia; [width|done..].
  - unfold load_version. by intros ->.
  - unfold load_version. intros ->. by case_match.
Qed.

(** What reading back [to_json] gives. *)
Lemma to_json_members `{!JsonLaws} s :
  settings_ok s ->
  load_subnet (to_json s) = configuredSubnet s /\
  loadBoolean (to_json s) "tecuEnabled" true = tecuEnabled s /\
  loadBoolean (to_json s) "nmeaSendEnabled" true = nmeaSendEnabled s /\
  loadBoolean (to_json s) "aogHeartbeatEnabled" true = aogHeartbeatEnabled s /\
  loadBoolean (to_json s) "vtEnabled" true = vtEnabled s /\
  load_version (to_json s) = tcVersion s /\
  load_string (to_json s) "languageCode" DEFAULT_LANGUAGE_CODE = languageCode s /\
  load_string (to_json s) "countryCode" DEFAULT_COUNTRY_CODE = countryCode s.
Proof.
  intros [Hsub Hver]. unfold load_subnet, loadBoolean, load_version, load_string, to_json.
  destruct (configuredSubnet s) as [[a b] c]. destruct Hsub as (Ha & Hb & Hc).
  rewrite !contains_set. simpl.
  repeat rewrite ?value_bool_set, ?get_int_set, ?get_string_set, ?get_array3_set,
    ?value_bool_set_ne, ?get_int_set_ne, ?get_string_set_ne, ?get_array3_set_ne by done.
  split_and!; try done.
  - by rewrite !u8_id.
  - rewrite (proj2 (Z.leb_le 0 _)), (proj2 (Z.leb_le _ 4)) by lia. simpl. width.
Qed.

Lemma save_cases env s :
  let '(r, es) := save env s in
  match r with
  | Returns true => exists text, dump (to_json s) = Some text /\
      get_filename_path (paths env) settings_json <> None /\
      es = [OpenTrunc; Write text; Rename]
  | _ => exists b, es = [] \/ es = [OpenTrunc] \/ es = [OpenTrunc; Write b; Remove]
  end /\
  forall d, settings_file (run_fs d es) =
    match r with Returns true => dump (to_json s) | _ => settings_file d end.
Proof.
  unfold save. destruct (get_filename_path (paths env) settings_json) eqn:Ep;
    [|by split; [exists []; left|]].
  destruct (open_ok env); simpl; [|by split; [exists []; left|]].
  destruct (dump (to_json s)) as [text|] eqn:Ed; [|by split; [exists []; right; left|]].
  destruct (write_ok env); simpl; [|by split; [eexists; right; right|]].
  destruct (rename_ok env); [|by split; [eexists; right; right|]].
  split; [by exists text|]. intros d. done.
Qed.

(** C34: settings that [save] reported as saved come back: loading from the
    file it left, into whatever settings, reports success and gives exactly
    the settings that were saved. *)
Theorem save_load_roundtrip `{!JsonLaws} (env : SaveEnv) (s other : Settings) (d : Disk)
    (Hs : settings_ok s) (Hsaved : (save env s).1 = Returns true) :
  load (paths env) (settings_file (run_fs d (save env s).2)) other = (Returns true, s).
Proof.
  pose proof (save_cases env s) as Hc. destruct (save env s) as [r es].
  cbn [fst snd] in *. subst r.
  destruct Hc as [(text & Hd & Hp & ->) Hf]. rewrite Hf, Hd. unfold load.
  destruct (get_filename_path (paths env) settings_json); [|done].
  rewrite (parse_dump _ _ Hd).
  destruct (to_json_members s Hs) as (-> & -> & -> & -> & -> & -> & -> & ->).
  by destruct s.
Qed.

(** A crash at any moment of [save] leaves the settings file either as it
    was or with the complete new text, never truncated or half written; and
    a [save] that fails or throws leaves it as it was. *)
Theorem save_crash_safe (env : SaveEnv) (s : Settings) (d : Disk) (k : nat) :
  let '(r, es) := save env s in
  (settings_file (run_fs d (take k es)) = settings_file d \/
   (r = Returns true /\ settings_file (run_fs d (take k es)) = dump (to_json s) /\
    is_Some (dump (to_json s)))) /\
  (r <> Returns true -> settings_file (run_fs d es) = settings_file d).
Proof.
  pose proof (save_cases env s) as Hc. destruct (save env s) as [r es].
  destruct Hc as [Hes Hf]. split.
  - assert (Hno : forall b, es = [] \/ es = [OpenTrunc] \/ es = [OpenTrunc; Write b; Remove] ->
      settings_file (run_fs d (take k es)) = settings_file d).
    { intros b [->|[->| ->]]; by do 4 (try destruct k as [|k]). }
    destruct r as [[]|]; [|left; destruct Hes as [b Hb]; by apply (Hno b)..].
    destruct Hes as (text & Ht & _ & ->). rewrite Ht.
    do 3 (destruct k as [|k]; [by left|]). right. simpl. by destruct k.
  - intros Hr. rewrite Hf. by destruct r as [[]|].
Qed.

(** The four switches are transactional: [true] means the switch has the
    new value, which is also on disk when saving was asked for; [false]
    means that neither the settings in memory nor the file changed. Only an
    exception of [save] leaves the new value in memory with the old file. *)
Theorem set_boolean_transactional (env : SaveEnv) (setting : bool_setting)
    (enabled save_ : bool) (s : Settings) (d : Disk) :
  let '(r, s', es) := set_boolean env setting enabled save_ s in
  match r with
  | Returns true => s' = put_bool setting enabled s /\ get_bool setting s' = enabled /\
      settings_file (run_fs d es) =
        (if save_ then dump (to_json s') else settings_file d)
  | Returns false => s' = s /\ save_ = true /\ settings_file (run_fs d es) = settings_file d
  | Throws => s' = put_bool setting enabled s /\ save_ = true /\
      settings_file (run_fs d es) = settings_file d
  end.
Proof.
  unfold set_boolean.
  assert (Hget : get_bool setting (put_bool setting enabled s) = enabled) by by destruct setting.
  destruct save_; simpl; [|done].
  pose proof (save_cases env (put_bool setting enabled s)) as Hc.
  destruct (save env (put_bool setting enabled s)) as [r es].
  destruct Hc as [_ Hf]. destruct r as [[]|].
  - by rewrite Hf.
  - rewrite Hf. split_and!; [|done|done]. by destruct s, setting.
  - by rewrite Hf.
Qed.

(** The other setters are not: a subnet, version or code set with a save
    that fails is reported as not set, but stays in memory. The version is
    legal in every case. *)
Theorem set_keeps_unsaved (env : SaveEnv) (s : Settings) (subnet : Z * Z * Z) (version : Z)
    (code : list Z) (Hopen : open_ok env = false)
    (Hpath : get_filename_path (paths env) settings_json <> None)
    (Hversion : is_u8 version) :
  (exists s', set_subnet env subnet true s = (Returns false, s', []) /\
              get_subnet s' = subnet) /\
  (exists s', set_tc_version env version true s = (Returns false, s', []) /\
              0 <= get_tc_version s' <= 4 /\ (version <= 4 -> get_tc_version s' = version)) /\
  (exists s', set_language_code env code true s = (Returns false, s', []) /\
              get_language_code s' = code) /\
  (exists s', set_country_code env code true s = (Returns false, s', []) /\
              get_country_code s' = code).
Proof.
  assert (Hsave : forall s, save env s = (Returns false, [])).
  { intros s0. unfold save. destruct (get_filename_path _ _); [|done]. by rewrite Hopen. }
  unfold set_subnet, set_tc_version, set_language_code, set_country_code, maybe_save.
  rewrite !Hsave. split_and!; eexists; try done. split_and!; [done|..]; simpl;
    unfold DEFAULT_TC_VERSION, is_u8 in *; destruct (Z.ltb_spec 4 version); lia.
Qed.
End facts.
