(* ===== verification/SettingsLocks.v ===== *)
(** * The settings between two threads (src/settings.cpp)

    The switches of the terminal are set on the CAN thread, everything else is
    read and set by the main loop. Here the member functions of [Settings] are
    written as the small steps between which the mutex may let the other
    thread in: assignments, and the effects of a [save] on the two files. The
    lock is a recursive one because a setter calls [save], which locks again;
    the lock is given back when an exception leaves a function. Alone, each
    function is the definition of Settings.v ([exec_settings]). *)

From S2P Require Import Prelude Settings Locking.

#[local] Set Default Proof Using "All".

(** The object and the files. *)
Record SettingsStore := { memory : Settings; disk : Disk }.

Definition with_memory (s : Settings) (st : SettingsStore) : SettingsStore := {| memory := s; disk := disk st |}.
Definition with_disk (d : Disk) (st : SettingsStore) : SettingsStore := {| memory := memory st; disk := d |}.

(** What a call returns. *)
Inductive answer : Type :=
  | SubnetIs (subnet : Z * Z * Z)
  | SwitchIs (enabled : bool)
  | VersionIs (version : Z)
  | TextIs (text : bytes)
  | Ended (r : outcome bool).

Inductive settings_call : Type :=
  | GetSubnet
  | GetSubnetString
  | IsEnabled (setting : bool_setting)
  | GetTcVersion
  | GetLanguageCode
  | GetCountryCode
  | LoadCall (env : PathEnv) (readable : bool)
  | SaveCall (env : SaveEnv)
  | SetSubnet (env : SaveEnv) (subnet : Z * Z * Z) (save_ : bool)
  | SetEnabled (env : SaveEnv) (setting : bool_setting) (enabled save_ : bool)
  | SetTcVersion (env : SaveEnv) (version : Z) (save_ : bool)
  | SetLanguageCode (env : SaveEnv) (text : bytes) (save_ : bool)
  | SetCountryCode (env : SaveEnv) (text : bytes) (save_ : bool).

Section settings_locks.
Context `{JsonApi}.

Notation code := (code SettingsStore answer).

(** ** The calls in one step each *)

(** A setter that saves unless it is told not to. *)
Definition assign_call (set : bool -> Settings -> outcome bool * Settings * list fs_step)
    (save_ : bool) (st : SettingsStore) : SettingsStore * list answer :=
  let '(r, s, es) := set save_ (memory st) in
  ({| memory := s; disk := run_fs (disk st) es |}, [Ended r]).

Definition file_contents (readable : bool) (st : SettingsStore) : option bytes :=
  if readable then settings_file (disk st) else None.

Definition run_settings_call (call : settings_call) (st : SettingsStore) : SettingsStore * list answer :=
  match call with
  | GetSubnet => (st, [SubnetIs (get_subnet (memory st))])
  | GetSubnetString => (st, [TextIs (get_subnet_string (memory st))])
  | IsEnabled setting => (st, [SwitchIs (get_bool setting (memory st))])
  | GetTcVersion => (st, [VersionIs (get_tc_version (memory st))])
  | GetLanguageCode => (st, [TextIs (get_language_code (memory st))])
  | GetCountryCode => (st, [TextIs (get_country_code (memory st))])
  | LoadCall env readable =>
      let '(r, s) := load env (file_contents readable st) (memory st) in (with_memory s st, [Ended r])
  | SaveCall env =>
      let '(r, es) := save env (memory st) in (with_disk (run_fs (disk st) es) st, [Ended r])
  | SetSubnet env subnet save_ => assign_call (set_subnet env subnet) save_ st
  | SetEnabled env setting enabled save_ => assign_call (set_boolean env setting enabled) save_ st
  | SetTcVersion env version save_ => assign_call (set_tc_version env version) save_ st
  | SetLanguageCode env text save_ => assign_call (set_language_code env text) save_ st
  | SetCountryCode env text save_ => assign_call (set_country_code env text) save_ st
  end.

Definition settings_step (acc : SettingsStore * list answer) (call : settings_call) : SettingsStore * list answer :=
  let '(st, answers) := run_settings_call call acc.1 in (st, acc.2 ++ answers).

Definition run_settings_calls (calls : list settings_call) (st : SettingsStore) : SettingsStore * list answer :=
  foldl settings_step (st, []) calls.

(** ** The calls in small steps *)

Definition look (k : SettingsStore -> code) : code := Access (fun st => (st, [])) k.

Definition put (f : Settings -> Settings) (k : code) : code :=
  Access (fun st => (with_memory (f (memory st)) st, [])) (fun _ => k).

Definition effect (e : fs_step) (k : code) : code :=
  Access (fun st => (with_disk (run_fs_step (disk st) e) st, [])) (fun _ => k).

(** Returns, or lets an exception through, and gives the lock back. *)
Definition answer_with (a : answer) : code := Access (fun st => (st, [a])) (fun _ => Unlock Done).

Definition ended (r : outcome bool) : code := answer_with (Ended r).

Definition getter (value : Settings -> answer) : code :=
  Lock (look (fun st => answer_with (value (memory st)))).

(** [save], which reads the members before it opens the file; [k] goes on at
    its return, where the lock is still held. *)
Definition save_code (env : SaveEnv) (k : outcome bool -> code) : code :=
  Lock (look (fun st =>
    match get_filename_path (paths env) settings_json with
    | None => k Throws
    | Some _ =>
        if negb (open_ok env) then k (Returns false)
        else
          effect OpenTrunc
            match dump (to_json (memory st)) with
            | None => k Throws
            | Some text =>
                if negb (write_ok env)
                then effect (Write (take (written env) text)) (effect Remove (k (Returns false)))
                else
                  effect (Write text)
                    (if rename_ok env then effect Rename (k (Returns true))
                     else effect Remove (k (Returns false)))
            end
    end)).

(** [set save_] assigns and then saves; without the save it is the assignment
    alone. *)
Definition assign_code (env : SaveEnv)
    (set : bool -> Settings -> outcome bool * Settings * list fs_step) (save_ : bool) : code :=
  Lock (put (fun s => (set false s).1.2)
    (if save_ then save_code env (fun r => Unlock (ended r)) else ended (Returns true))).

Definition set_boolean_code (env : SaveEnv) (setting : bool_setting) (enabled save_ : bool) : code :=
  Lock (look (fun st =>
    let previousValue := get_bool setting (memory st) in
    put (put_bool setting enabled)
      (if negb save_ then ended (Returns true)
       else
         save_code env (fun r => Unlock
           match r with
           | Returns false => put (put_bool setting previousValue) (ended (Returns false))
           | r => ended r
           end)))).

(** [load] assigns the members one after the other. *)
Definition put_members (data : json) (k : code) : code :=
  put (fun s => Build_Settings (load_subnet data) (tecuEnabled s) (nmeaSendEnabled s)
                  (aogHeartbeatEnabled s) (vtEnabled s) (tcVersion s) (languageCode s) (countryCode s))
  (put (put_bool Tecu (loadBoolean data "tecuEnabled" true))
  (put (put_bool NmeaSend (loadBoolean data "nmeaSendEnabled" true))
  (put (put_bool AogHeartbeat (loadBoolean data "aogHeartbeatEnabled" true))
  (put (put_bool Vt (loadBoolean data "vtEnabled" true))
  (put (fun s => Build_Settings (configuredSubnet s) (tecuEnabled s) (nmeaSendEnabled s)
                   (aogHeartbeatEnabled s) (vtEnabled s) (load_version data) (languageCode s)
                   (countryCode s))
  (put (fun s => Build_Settings (configuredSubnet s) (tecuEnabled s) (nmeaSendEnabled s)
                   (aogHeartbeatEnabled s) (vtEnabled s) (tcVersion s)
                   (load_string data "languageCode" DEFAULT_LANGUAGE_CODE) (countryCode s))
  (put (fun s => Build_Settings (configuredSubnet s) (tecuEnabled s) (nmeaSendEnabled s)
                   (aogHeartbeatEnabled s) (vtEnabled s) (tcVersion s) (languageCode s)
                   (load_string data "countryCode" DEFAULT_COUNTRY_CODE)) k))))))).

Definition load_code (env : PathEnv) (readable : bool) : code :=
  Lock (look (fun st =>
    match get_filename_path env settings_json, file_contents readable st with
    | None, _ => ended Throws
    | Some _, None => ended (Returns false)
    | Some _, Some text =>
        match parse text with
        | None => ended Throws
        | Some data => put_members data (ended (Returns true))
        end
    end)).

Definition settings_code (call : settings_call) : code :=
  match call with
  | GetSubnet => getter (fun s => SubnetIs (get_subnet s))
  | GetSubnetString => getter (fun s => TextIs (get_subnet_string s))
  | IsEnabled setting => getter (fun s => SwitchIs (get_bool setting s))
  | GetTcVersion => getter (fun s => VersionIs (get_tc_version s))
  | GetLanguageCode => getter (fun s => TextIs (get_language_code s))
  | GetCountryCode => getter (fun s => TextIs (get_country_code s))
  | LoadCall env readable => load_code env readable
  | SaveCall env => save_code env ended
  | SetSubnet env subnet save_ => assign_code env (set_subnet env subnet) save_
  | SetEnabled env setting enabled save_ => set_boolean_code env setting enabled save_
  | SetTcVersion env version save_ => assign_code env (set_tc_version env version) save_
  | SetLanguageCode env text save_ => assign_code env (set_language_code env text) save_
  | SetCountryCode env text save_ => assign_code env (set_country_code env text) save_
  end.

(** ** Alone, each call does what Settings.v says *)

Lemma exec_look k st : exec (look k) st = exec (k st) st.
Proof. unfold look. rewrite exec_access. apply after_nil. Qed.

Lemma exec_put f k st : exec (put f k) st = exec k (with_memory (f (memory st)) st).
Proof. unfold put. rewrite exec_access. apply after_nil. Qed.

Lemma exec_effect e k st : exec (effect e k) st = exec k (with_disk (run_fs_step (disk st) e) st).
Proof. unfold effect. rewrite exec_access. apply after_nil. Qed.

Lemma exec_answer a st : exec (answer_with a) st = (st, [a]).
Proof. done. Qed.

Lemma store_eta st : {| memory := memory st; disk := disk st |} = st.
Proof. by destruct st. Qed.

Lemma exec_save_code env k st :
  exec (save_code env k) st =
    let '(r, es) := save env (memory st) in exec (k r) (with_disk (run_fs (disk st) es) st).
Proof.
  unfold save_code, save. rewrite exec_lock, exec_look.
  assert (Hst : with_disk (run_fs (disk st) []) st = st) by apply store_eta.
  destruct (get_filename_path _ _); [|by rewrite Hst]. destruct (open_ok env); cbn [negb]; [|by rewrite Hst].
  rewrite exec_effect. destruct (dump _) as [text|]; [|done].
  destruct (write_ok env); cbn [negb]; [destruct (rename_ok env)|]; by rewrite !exec_effect.
Qed.

(** A setter that ends in [if (save) return this->save(); return true;]. *)
Definition assigns (env : SaveEnv)
    (set : bool -> Settings -> outcome bool * Settings * list fs_step) : Prop :=
  exists f, forall save_ s, set save_ s = maybe_save env save_ (f s).

Lemma exec_assign_code env set save_ st : assigns env set ->
  exec (assign_code env set save_) st = assign_call set save_ st.
Proof.
  intros [f Hset]. unfold assign_code, assign_call. rewrite exec_lock, exec_put, !Hset.
  unfold maybe_save. destruct save_; cbn [fst snd]; [|done].
  rewrite exec_save_code. cbn [memory with_memory]. by destruct (save env _).
Qed.

Lemma exec_set_boolean_code env setting enabled save_ st :
  exec (set_boolean_code env setting enabled save_) st =
    assign_call (set_boolean env setting enabled) save_ st.
Proof.
  unfold set_boolean_code, assign_call, set_boolean. rewrite exec_lock, exec_look, exec_put.
  destruct save_; cbn [negb]; [|done]. rewrite exec_save_code. cbn [memory with_memory].
  destruct (save env _) as [[[]|] es]; rewrite exec_unlock, ?exec_put; [done| |done].
  unfold ended. rewrite exec_answer. by destruct setting, (memory st).
Qed.

Lemma exec_load_code env readable st :
  exec (load_code env readable) st = run_settings_call (LoadCall env readable) st.
Proof.
  unfold load_code, load. cbn [run_settings_call]. rewrite exec_lock, exec_look. unfold load, ended.
  destruct (get_filename_path _ _); [|by rewrite exec_answer; destruct st].
  destruct (file_contents readable st) as [text|]; [|by rewrite exec_answer; destruct st].
  destruct (parse text) as [data|]; [|by rewrite exec_answer; destruct st].
  reflexivity.
Qed.

Lemma exec_settings call st : exec (settings_code call) st = run_settings_call call st.
Proof.
  destruct call; cbn [settings_code]; try done.
  - apply exec_load_code.
  - rewrite exec_save_code. cbn [run_settings_call]. by destruct (save env _).
  - apply exec_assign_code. by eexists.
  - apply exec_set_boolean_code.
  - apply exec_assign_code. by eexists.
  - apply exec_assign_code. by eexists.
  - apply exec_assign_code. by eexists.
Qed.

(** ** The lock is held around every access *)

Definition locked (d : nat) (c : code) : Prop :=
  match c with Lock k => guarded (S d) k | _ => False end.

Lemma locked_guarded d c : d <> 0%nat -> locked d c -> guarded d c.
Proof. by destruct c. Qed.

Lemma locked_save d env k : (forall r, guarded (S d) (k r)) -> locked d (save_code env k).
Proof. intros Hk. split; [done|]. intros st. repeat case_match; by split_and?. Qed.

Lemma method_settings call : method (settings_code call).
Proof.
  assert (Hended : forall r, guarded 1 (ended r)) by done.
  assert (Hsave : forall env, guarded 1 (save_code env (fun r => Unlock (ended r))))
    by (intros env; by apply locked_guarded, locked_save).
  assert (Hassign : forall env set save_, method (assign_code env set save_)).
  { intros env set save_. split; [done|]. intros st. by destruct save_. }
  destruct call; cbn [settings_code]; try apply Hassign; try (by repeat (split; [done|intros ?])).
  - split; [done|]. intros st. by repeat case_match.
  - by apply (locked_save 0).
  - split; [done|]. intros st. split; [done|]. intros _. case_match; [done|].
    apply locked_guarded, locked_save; [done|]. intros [[]|]; [done| |done].
    by split; [|intros _].
Qed.

(** ** The file changes at one moment of a call at most *)

Section file.
Context (Q : option bytes -> Prop).

Definition shows (st : SettingsStore) : Prop := Q (settings_file (disk st)).

Lemma passes_save env k st :
  shows st ->
  (let '(r, es) := save env (memory st) in
   Forall shows (passes (k r) (with_disk (run_fs (disk st) es) st))) ->
  Forall shows (passes (save_code env k) st).
Proof.
  intros Hst Hk. unfold save_code, save in *. cbn [passes look].
  assert (Hnil : with_disk (run_fs (disk st) []) st = st) by apply store_eta.
  constructor; [done|]. constructor; [done|]. cbn [fst].
  destruct (get_filename_path _ _); [|by rewrite Hnil in Hk].
  destruct (open_ok env); cbn [negb] in *; [|by rewrite Hnil in Hk].
  constructor; [done|]. cbn [fst]. destruct (dump _) as [text|]; [|done].
  destruct (write_ok env); cbn [negb] in *; [destruct (rename_ok env)|];
    (constructor; [done|]; constructor; [done|done]).
Qed.

Lemma passes_ended r st : shows st -> Forall shows (passes (ended r) st).
Proof. intros Hst. by repeat constructor. Qed.

Lemma passes_put f k st :
  shows st -> (forall s, Forall shows (passes k (with_memory s st))) ->
  Forall shows (passes (put f k) st).
Proof. intros Hst Hk. constructor; [done|apply Hk]. Qed.

Lemma passes_assign env set save_ st : assigns env set ->
  shows st -> shows (assign_call set save_ st).1 -> Forall shows (passes (assign_code env set save_) st).
Proof.
  intros [f Hset] Hst Hnew. unfold assign_code, assign_call in *. cbn [passes put].
  constructor; [done|]. constructor; [done|]. cbn [fst]. rewrite !Hset in *. unfold maybe_save in *.
  destruct save_; cbn [fst snd] in *; [|by apply passes_ended].
  apply passes_save; [done|]. cbn [memory with_memory].
  destruct (save env (f (memory st))) as [r es]. constructor; [done|]. by apply passes_ended.
Qed.

Lemma passes_set_boolean env setting enabled save_ st :
  shows st -> shows (assign_call (set_boolean env setting enabled) save_ st).1 ->
  Forall shows (passes (set_boolean_code env setting enabled save_) st).
Proof.
  intros Hst Hnew. unfold set_boolean_code, assign_call, set_boolean in *. cbn [passes look put].
  do 3 (constructor; [done|]). cbn [fst].
  destruct save_; cbn [negb fst] in *; [|by apply passes_ended].
  apply passes_save; [done|]. cbn [memory with_memory].
  destruct (save env _) as [[[]|] es]; repeat constructor; done.
Qed.

Lemma passes_settings call st :
  shows st -> shows (run_settings_call call st).1 -> Forall shows (passes (settings_code call) st).
Proof.
  intros Hst Hnew. destruct call; cbn [settings_code];
    try (apply passes_assign; [by eexists|done..]); try (by repeat constructor).
  - cbn [passes load_code look]. do 2 (constructor; [done|]). cbn [fst].
    repeat case_match; try (by apply passes_ended). unfold put_members.
    repeat (apply passes_put; [done|intros ?]). by apply passes_ended.
  - apply passes_save; [done|]. cbn [run_settings_call] in Hnew.
    destruct (save env (memory st)) as [r es]. by apply passes_ended.
  - by apply passes_set_boolean.
Qed.
End file.

(** ** Both threads *)

Lemma foldl_settings calls : forall st answers,
  foldl exec_step (st, answers) (settings_code <$> calls) = foldl settings_step (st, answers) calls.
Proof.
  induction calls as [|call calls IH]; intros st answers; [done|]. cbn [fmap list_fmap foldl].
  unfold exec_step at 2, settings_step at 2. cbn [fst snd]. rewrite exec_settings.
  destruct (run_settings_call call st). apply IH.
Qed.

Lemma exec_all_settings calls st : exec_all (settings_code <$> calls) st = run_settings_calls calls st.
Proof. apply foldl_settings. Qed.

Lemma prefix_fmap_inv {A B} (f : A -> B) (l : list A) (p : list B) :
  p `prefix_of` f <$> l -> exists l', l' `prefix_of` l /\ p = f <$> l'.
Proof.
  intros [k Hk]. apply fmap_app_inv in Hk as (l1 & l2 & -> & -> & ->).
  exists l1. split; [by exists l2|done].
Qed.

(** C36: what the mutex of the settings is for. The main loop and the CAN thread
    make any calls, of which any save may fail at any of its steps or throw,
    and are switched at any of the steps between which the mutex lets the
    other thread in. Neither is blocked for good and every run ends. At the
    end the settings, the files and the answers are those of the same calls
    made one at a time, in an order that keeps each thread's own. And at
    every moment in between, where the process may be killed, the settings
    file is what the first calls of such an order leave: never a truncated
    text, one that two saves have written to, or settings that have never been
    in memory. *)
Theorem settings_take_turns (main can : list settings_call) (st : SettingsStore) :
  let m0 := start st (settings_code <$> main) (settings_code <$> can) in
  always_finishes m0 /\
  forall ts m, run_schedule true ts m0 = Some m ->
    (exists main1 can1 calls, main1 `prefix_of` main /\ can1 `prefix_of` can /\
       merge main1 can1 calls /\
       settings_file (disk (shared m)) = settings_file (disk (run_settings_calls calls st).1)) /\
    (finished m -> exists calls, merge main can calls /\
       run_settings_calls calls st = (shared m, sent m)).
Proof.
  assert (Hall : forall calls, Forall method (settings_code <$> calls))
    by (intros calls; apply Forall_fmap, Forall_forall; intros call _; apply method_settings).
  cbn zeta. split; [by apply start_always_finishes|]. intros ts m Hrun. split.
  - destruct (any_moment_atomic (fun st => settings_file (disk st)) st _ _ ts m (Hall main) (Hall can))
      as (main1 & can1 & l & Hp1 & Hp2 & Hm & Hf); [|done|].
    { rewrite <- fmap_app. apply Forall_fmap, Forall_forall. intros call _ st'.
      rewrite exec_settings. apply (passes_settings (fun f => f = _ \/ f = _)); [by left|by right]. }
    apply prefix_fmap_inv in Hp1 as (main2 & Hp1 & ->).
    apply prefix_fmap_inv in Hp2 as (can2 & Hp2 & ->).
    apply merge_fmap_inv in Hm as (calls & Hm & ->).
    exists main2, can2, calls. by rewrite <- exec_all_settings.
  - intros Hfin. destruct (finished_serial _ _ _ _ _ (Hall main) (Hall can) Hrun Hfin) as (l & Hm & Hl).
    apply merge_fmap_inv in Hm as (calls & Hm & ->). exists calls. by rewrite <- exec_all_settings.
Qed.
End settings_locks.
