(* ===== verification/PacketHandler.v ===== *)
(** * Packets from AgOpenGPS (src/app.cpp lines 449-597)

    The packet handler that [setup_udp_connections] installs: fix quality
    (PGN 0xD6), section demand (0xE5), automatic mode (0xF1) and process data
    (0xF2). Its state, the members of [Application] it writes together with
    its static locals, is the record [Aog]; what it sends is a list of
    [app_out]. The environment of one call is [CallEnv]: the time, which
    interfaces exist and whether the CAN stack accepts the message. Logging
    is left out. *)

From S2P Require Import Prelude Ddop Hierarchy ClientState TcServer ServerFacts.
From S2P Require Import Setpoints Udp.

(** [isobus::SystemTiming::time_expired_ms (timestamp, timeout)] at time
    [now]. *)
Class Timing := time_expired_ms : Z -> Z -> Z -> bool.

(** It is true once [timeout] milliseconds have passed since [timestamp], on
    a 32-bit clock that wraps. *)
Class TimingLaws `{Timing} := time_expired_ms_spec :
  forall now timestamp timeout,
    time_expired_ms now timestamp timeout = (timeout <=? u32 (now - timestamp)).

Record CallEnv := {
  now : Z;
  has_speed_interface : bool;
  has_nmea2000_interface : bool;
  can_accepts : bool
}.

Inductive MachineDirection : Type := Forward | Reverse.

#[export] Instance MachineDirection_eq_dec : EqDecision MachineDirection.
Proof. solve_decision. Defined.

(** Calls of the virtual terminal client (Vt.v). *)
Inductive vt_out : Type :=
  | Initialize
  | UpdateClient
  | SendString (objectID : Z) (value : list Z)
  | SendNumeric (objectID value : Z)
  | SendEnable (objectID : Z) (enabled : bool)
  | SendActiveMask (workingSet mask : Z)
  (** the update helper's tracked value, sent by the library when it changes *)
  | SetTracked (objectID value : Z)
  | SetCogSogCyclic (enabled : bool)
  | LogNotConnected
  | LogCapabilities.

(** Effects outside the application object. *)
Inductive app_out : Type :=
  | Bus (o : bus_out)
  | UdpSend (src pgn : Z) (data : list Z)
  | CanSend (pgn : Z) (data : list Z)
  (** the three speed messages of the tractor ECU *)
  | SetMachineSpeed (direction : MachineDirection) (speed : Z)
  | SetMachineDistance (distance_mm : Z)
  | SetCogSog (sequence speed_over_ground course_over_ground : Z)
  | Terminal (o : vt_out).

#[export] Instance vt_out_eq_dec : EqDecision vt_out.
Proof. solve_decision. Defined.

#[export] Instance app_out_eq_dec : EqDecision app_out.
Proof. solve_decision. Defined.

(** [data\[j\]]. *)
Definition byte_at (data : list Z) (j : Z) : Z := default 0 (zlookup data j).

Section handler.
Context `{DdopApi} `{DdiCodes} `{Timing}.

Record Aog := {
  tcServer : MyTCServer;
  gnssFixQuality : Z;
  lastGnssQualityMs : Z;
  lastAogPacketMs : Z;
  sectionDemand : list bool;
  sectionDemandChangesSinceLog : Z;
  lastSectionDemandMs : Z;
  lastSpeedValue : Z;
  lastXteValue : Z;
  lastDistanceMm : Z;
  nmea2000SequenceIdentifier : Z;
  xteSid : Z;
  lastXteTransmit : Z
}.

Definition with_tcServer (x : MyTCServer) (a : Aog) : Aog :=
  Build_Aog x (gnssFixQuality a) (lastGnssQualityMs a) (lastAogPacketMs a)
    (sectionDemand a) (sectionDemandChangesSinceLog a) (lastSectionDemandMs a)
    (lastSpeedValue a) (lastXteValue a) (lastDistanceMm a)
    (nmea2000SequenceIdentifier a) (xteSid a) (lastXteTransmit a).

Definition with_gnssFixQuality (x : Z) (a : Aog) : Aog :=
  Build_Aog (tcServer a) x (lastGnssQualityMs a) (lastAogPacketMs a)
    (sectionDemand a) (sectionDemandChangesSinceLog a) (lastSectionDemandMs a)
    (lastSpeedValue a) (lastXteValue a) (lastDistanceMm a)
    (nmea2000SequenceIdentifier a) (xteSid a) (lastXteTransmit a).

Definition with_lastGnssQualityMs (x : Z) (a : Aog) : Aog :=
  Build_Aog (tcServer a) (gnssFixQuality a) x (lastAogPacketMs a) (sectionDemand a)
    (sectionDemandChangesSinceLog a) (lastSectionDemandMs a) (lastSpeedValue a)
    (lastXteValue a) (lastDistanceMm a) (nmea2000SequenceIdentifier a) (xteSid a)
    (lastXteTransmit a).

Definition with_lastAogPacketMs (x : Z) (a : Aog) : Aog :=
  Build_Aog (tcServer a) (gnssFixQuality a) (lastGnssQualityMs a) x
    (sectionDemand a) (sectionDemandChangesSinceLog a) (lastSectionDemandMs a)
    (lastSpeedValue a) (lastXteValue a) (lastDistanceMm a)
    (nmea2000SequenceIdentifier a) (xteSid a) (lastXteTransmit a).

Definition with_sectionDemand (x : list bool) (a : Aog) : Aog :=
  Build_Aog (tcServer a) (gnssFixQuality a) (lastGnssQualityMs a)
    (lastAogPacketMs a) x (sectionDemandChangesSinceLog a) (lastSectionDemandMs a)
    (lastSpeedValue a) (lastXteValue a) (lastDistanceMm a)
    (nmea2000SequenceIdentifier a) (xteSid a) (lastXteTransmit a).

Definition with_sectionDemandChangesSinceLog (x : Z) (a : Aog) : Aog :=
  Build_Aog (tcServer a) (gnssFixQuality a) (lastGnssQualityMs a)
    (lastAogPacketMs a) (sectionDemand a) x (lastSectionDemandMs a)
    (lastSpeedValue a) (lastXteValue a) (lastDistanceMm a)
    (nmea2000SequenceIdentifier a) (xteSid a) (lastXteTransmit a).

Definition with_lastSectionDemandMs (x : Z) (a : Aog) : Aog :=
  Build_Aog (tcServer a) (gnssFixQuality a) (lastGnssQualityMs a)
    (lastAogPacketMs a) (sectionDemand a) (sectionDemandChangesSinceLog a) x
    (lastSpeedValue a) (lastXteValue a) (lastDistanceMm a)
    (nmea2000SequenceIdentifier a) (xteSid a) (lastXteTransmit a).

Definition with_lastSpeedValue (x : Z) (a : Aog) : Aog :=
  Build_Aog (tcServer a) (gnssFixQuality a) (lastGnssQualityMs a)
    (lastAogPacketMs a) (sectionDemand a) (sectionDemandChangesSinceLog a)
    (lastSectionDemandMs a) x (lastXteValue a) (lastDistanceMm a)
    (nmea2000SequenceIdentifier a) (xteSid a) (lastXteTransmit a).

Definition with_lastXteValue (x : Z) (a : Aog) : Aog :=
  Build_Aog (tcServer a) (gnssFixQuality a) (lastGnssQualityMs a)
    (lastAogPacketMs a) (sectionDemand a) (sectionDemandChangesSinceLog a)
    (lastSectionDemandMs a) (lastSpeedValue a) x (lastDistanceMm a)
    (nmea2000SequenceIdentifier a) (xteSid a) (lastXteTransmit a).

Definition with_lastDistanceMm (x : Z) (a : Aog) : Aog :=
  Build_Aog (tcServer a) (gnssFixQuality a) (lastGnssQualityMs a)
    (lastAogPacketMs a) (sectionDemand a) (sectionDemandChangesSinceLog a)
    (lastSectionDemandMs a) (lastSpeedValue a) (lastXteValue a) x
    (nmea2000SequenceIdentifier a) (xteSid a) (lastXteTransmit a).

Definition with_nmea2000SequenceIdentifier (x : Z) (a : Aog) : Aog :=
  Build_Aog (tcServer a) (gnssFixQuality a) (lastGnssQualityMs a)
    (lastAogPacketMs a) (sectionDemand a) (sectionDemandChangesSinceLog a)
    (lastSectionDemandMs a) (lastSpeedValue a) (lastXteValue a) (lastDistanceMm a)
    x (xteSid a) (lastXteTransmit a).

Definition with_xteSid (x : Z) (a : Aog) : Aog :=
  Build_Aog (tcServer a) (gnssFixQuality a) (lastGnssQualityMs a)
    (lastAogPacketMs a) (sectionDemand a) (sectionDemandChangesSinceLog a)
    (lastSectionDemandMs a) (lastSpeedValue a) (lastXteValue a) (lastDistanceMm a)
    (nmea2000SequenceIdentifier a) x (lastXteTransmit a).

Definition with_lastXteTransmit (x : Z) (a : Aog) : Aog :=
  Build_Aog (tcServer a) (gnssFixQuality a) (lastGnssQualityMs a)
    (lastAogPacketMs a) (sectionDemand a) (sectionDemandChangesSinceLog a)
    (lastSectionDemandMs a) (lastSpeedValue a) (lastXteValue a) (lastDistanceMm a)
    (nmea2000SequenceIdentifier a) (xteSid a) x.

Definition initial_aog (srv : MyTCServer) : Aog := {|
  tcServer := srv; gnssFixQuality := 0; lastGnssQualityMs := 0;
  lastAogPacketMs := 0; sectionDemand := []; sectionDemandChangesSinceLog := 0;
  lastSectionDemandMs := 0; lastSpeedValue := 0; lastXteValue := 0;
  lastDistanceMm := 0; nmea2000SequenceIdentifier := 0; xteSid := 0;
  lastXteTransmit := 0 |}.

Definition GNSS_FIX_QUALITY_OFFSET : Z := 38.
Definition MIN_0xD6_PAYLOAD_SIZE : Z := GNSS_FIX_QUALITY_OFFSET + 1.
Definition GNSS_QUALITY_MAX : Z := 8.

Definition handle_gnss (env : CallEnv) (data : list Z) (a : Aog) : Aog :=
  if zlength data <? MIN_0xD6_PAYLOAD_SIZE then a
  else
    let quality := byte_at data GNSS_FIX_QUALITY_OFFSET in
    with_lastGnssQualityMs (now env)
      (with_gnssFixQuality (if quality <=? GNSS_QUALITY_MAX then quality else 1) a).

(** [sectionStates.push_back (data\[j\] & (1 << i))] for both loops. *)
Definition decode_section_states (data : list Z) : list bool :=
  concat ((fun j =>
    (fun i => negb (Z.land (byte_at data j) (Z.shiftl 1 i) =? 0)) <$> seqZ 0 8)
    <$> seqZ 0 8).

Definition handle_section_states (env : CallEnv) (data : list Z) (a : Aog)
    : Aog * list app_out :=
  let sectionStates := decode_section_states data in
  let a := with_lastSectionDemandMs (now env) (with_lastAogPacketMs (now env) a) in
  let a := if decide (sectionStates = sectionDemand a) then a
           else with_sectionDemandChangesSinceLog
                  (u32 (sectionDemandChangesSinceLog a + 1))
                  (with_sectionDemand sectionStates a) in
  let '(srv, outs) := update_section_states sectionStates (tcServer a) in
  (with_tcServer srv a, Bus <$> outs).

Definition handle_section_control (env : CallEnv) (data : list Z) (a : Aog)
    : Aog * list app_out :=
  let '(srv, outs) :=
    update_section_control_enabled (byte_at data 0 =? 1) (tcServer a) in
  (with_tcServer srv (with_lastAogPacketMs (now env) a), Bus <$> outs).

(** The process data identifier and value, little endian. *)
Definition process_data_identifier (data : list Z) : Z :=
  u16 (Z.lor (byte_at data 0) (Z.shiftl (byte_at data 1) 8)).

Definition process_data_value (data : list Z) : Z :=
  i32 (Z.lor (Z.lor (Z.lor (byte_at data 2) (Z.shiftl (byte_at data 3) 8))
               (Z.shiftl (byte_at data 4) 16)) (Z.shiftl (byte_at data 5) 24)).

Definition handle_speed (env : CallEnv) (value : Z) (a : Aog) : Aog * list app_out :=
  let speed := u16 (Z.abs value) in
  let direction := if value <? 0 then Reverse else Forward in
  let sid := nmea2000SequenceIdentifier a in
  (with_nmea2000SequenceIdentifier
     (if has_nmea2000_interface env then u8 (sid + 1) else sid)
     (with_lastSpeedValue value a),
   (if has_speed_interface env then [SetMachineSpeed direction speed] else []) ++
   (if has_nmea2000_interface env then [SetCogSog sid (speed / 10) 0] else [])).

(** [xteMode | 0b00110000 | 0b01000000]. *)
Definition xte_status_byte : Z := Z.lor (Z.lor 1 48) 64.

Definition xte_data (sid xte : Z) : list Z :=
  [sid; xte_status_byte; u8 (Z.land xte 255); u8 (Z.land (Z.shiftr xte 8) 255);
   u8 (Z.land (Z.shiftr xte 16) 255); u8 (Z.land (Z.shiftr xte 24) 255); 255; 255].

Definition handle_xte (env : CallEnv) (value : Z) (a : Aog) : Aog * list app_out :=
  let xte := Z.quot value 1000 in
  let sid := u8 (Z.rem (xteSid a) 253 + 1) in
  let a := with_xteSid sid (with_lastXteValue value a) in
  if time_expired_ms (now env) (lastXteTransmit a) 1000 then
    (if can_accepts env then with_lastXteTransmit (now env) a else a,
     [CanSend 129283 (xte_data sid xte)]) (* 0x1F903 *)
  else (a, []).

Definition handle_distance (env : CallEnv) (value : Z) (a : Aog) : Aog * list app_out :=
  let distance := if value <? 0 then 0 else u32 value in
  (with_lastDistanceMm distance a,
   if has_speed_interface env then [SetMachineDistance distance] else []).

Definition handle_process_data (env : CallEnv) (data : list Z) (a : Aog)
    : Aog * list app_out :=
  let a := with_lastAogPacketMs (now env) a in
  let identifier := process_data_identifier data in
  let value := process_data_value data in
  if identifier =? ActualSpeed then handle_speed env value a
  else if identifier =? GuidanceLineDeviation then handle_xte env value a
  else if identifier =? TotalDistance then handle_distance env value a
  else (a, []).

Definition packetHandler (env : CallEnv) (p : Packet) (a : Aog) : Aog * list app_out :=
  let data := payload p in
  if (src p =? 124) && (pgn p =? 214) then (handle_gnss env data a, [])
  else if negb (src p =? 127) then (a, [])
  else if (pgn p =? 229) && (8 <=? zlength data) then handle_section_states env data a
  else if (pgn p =? 241) && negb (zlength data =? 0) then handle_section_control env data a
  else if (pgn p =? 242) && (6 <=? zlength data) then handle_process_data env data a
  else (a, []).
End handler.

Arguments Aog {_}.

(** ** What the packets mean *)

Lemma land_bit_nonzero x i :
  0 <= i -> negb (Z.land x (Z.shiftl 1 i) =? 0) = Z.testbit x i.
Proof.
  intros Hi. assert (Hbit : forall j, 0 <= j ->
    Z.testbit (Z.land x (Z.shiftl 1 i)) j = Z.testbit x i && (j =? i)).
  { intros j Hj. rewrite Z.land_spec, Z.shiftl_spec by done.
    destruct (Z.eqb_spec j i) as [->|Hne].
    - by rewrite Z.sub_diag.
    - rewrite andb_false_r. destruct (Z.ltb_spec j i); [by rewrite (Z.testbit_neg_r 1), andb_false_r by lia|].
      rewrite (Z.bits_above_log2 1) by (simpl; lia). apply andb_false_r. }
  destruct (Z.eqb_spec (Z.land x (Z.shiftl 1 i)) 0) as [H0|H0]; simpl.
  - specialize (Hbit i Hi). rewrite H0, Z.bits_0, Z.eqb_refl, andb_true_r in Hbit. done.
  - destruct (Z.testbit x i) eqn:E; [done|]. exfalso. apply H0. apply Z.bits_inj'.
    intros j Hj. by rewrite Hbit, Z.bits_0 by done.
Qed.

Lemma length_decode_section_states data : length (decode_section_states data) = 64%nat.
Proof. reflexivity. Qed.

Lemma decode_section_states_bit data s :
  0 <= s < 64 ->
  zlookup (decode_section_states data) s = Some (Z.testbit (byte_at data (s / 8)) (s mod 8)).
Proof.
  intros Hs.
  assert (Hall : Forall (fun k => zlookup (decode_section_states data) k =
    Some (negb (Z.land (byte_at data (k / 8)) (Z.shiftl 1 (k mod 8)) =? 0))) (seqZ 0 64)).
  { cbn -[Z.land Z.shiftl byte_at]. repeat constructor. }
  rewrite Forall_forall in Hall. rewrite Hall by (apply elem_of_seqZ; lia).
  by rewrite land_bit_nonzero by (Z.div_mod_to_equations; lia).
Qed.

(** Four bytes, least significant first, and two. *)
Definition le32 (v : Z) : list Z :=
  [Z.land v 255; Z.land (Z.shiftr v 8) 255; Z.land (Z.shiftr v 16) 255;
   Z.land (Z.shiftr v 24) 255].

Definition le16 (v : Z) : list Z := [Z.land v 255; Z.land (Z.shiftr v 8) 255].

Lemma land_255 x : Z.land x 255 = x mod 256.
Proof. change 255 with (Z.ones 8). by rewrite Z.land_ones by lia. Qed.

Lemma lor_bytes b0 b1 k :
  0 <= k -> 0 <= b0 < 2 ^ k -> Z.lor b0 (Z.shiftl b1 k) = b0 + b1 * 2 ^ k.
Proof. intros. rewrite Z.lor_comm, lor_shiftl_add by done. lia. Qed.

Lemma lor_four_bytes a b c d :
  is_u8 a -> is_u8 b -> is_u8 c -> is_u8 d ->
  Z.lor (Z.lor (Z.lor a (Z.shiftl b 8)) (Z.shiftl c 16)) (Z.shiftl d 24) =
  a + 256 * b + 65536 * c + 16777216 * d.
Proof.
  intros Ha Hb Hc Hd. unfold is_u8 in *.
  rewrite (lor_bytes a b 8) by (change (2 ^ 8) with 256; lia). change (2 ^ 8) with 256.
  rewrite (lor_bytes _ c 16) by (change (2 ^ 16) with 65536; lia). change (2 ^ 16) with 65536.
  rewrite (lor_bytes _ d 24) by (change (2 ^ 24) with 16777216; lia).
  change (2 ^ 24) with 16777216. lia.
Qed.

Lemma split_four_bytes v :
  v mod 256 + 256 * (v / 256 mod 256) + 65536 * (v / 65536 mod 256) +
  16777216 * (v / 16777216 mod 256) = u32 v.
Proof.
  unfold u32. change 16777216 with (256 * 256 * 256) at 2. change 65536 with (256 * 256) at 2.
  rewrite <- !Z.div_div by lia.
  Z.div_mod_to_equations. lia.
Qed.

Lemma i32_u32 v : i32 (u32 v) = i32 v.
Proof. unfold i32, u32. by rewrite Z.mod_mod by lia. Qed.

Lemma process_data_value_le32 d0 d1 v rest :
  is_i32 v -> process_data_value (d0 :: d1 :: le32 v ++ rest) = v.
Proof.
  intros Hv. unfold process_data_value, byte_at, zlookup, le32. simpl.
  rewrite !land_255, !Z.shiftr_div_pow2 by lia.
  rewrite lor_four_bytes by apply u8_range.
  change (2 ^ 8) with 256. change (2 ^ 16) with 65536. change (2 ^ 24) with 16777216.
  rewrite split_four_bytes, i32_u32. by apply i32_id.
Qed.

Lemma process_data_identifier_le16 d rest :
  is_u16 d -> process_data_identifier (le16 d ++ rest) = d.
Proof.
  intros Hd. unfold process_data_identifier, byte_at, zlookup, le16. simpl.
  rewrite !land_255, Z.shiftr_div_pow2 by lia.
  rewrite (lor_bytes _ _ 8) by (try lia; apply Z.mod_pos_bound; lia).
  change (2 ^ 8) with 256. width.
Qed.

Section packets.
Context `{DdopApi} `{DdiCodes} `{Timing}.

Lemma packetHandler_states env data a :
  8 <= zlength data ->
  packetHandler env {| src := 127; pgn := 229; payload := data |} a =
  handle_section_states env data a.
Proof. intros Hd. unfold packetHandler. simpl. by rewrite (proj2 (Z.leb_le _ _) Hd). Qed.

Lemma packetHandler_process_data env data a :
  6 <= zlength data ->
  packetHandler env {| src := 127; pgn := 242; payload := data |} a =
  handle_process_data env data a.
Proof. intros Hd. unfold packetHandler. simpl. by rewrite (proj2 (Z.leb_le _ _) Hd). Qed.

(** A section demand packet (PGN 0xE5) is followed end to end: bit [s mod 8]
    of payload byte [s / 8] becomes the setpoint of section [s] of every
    client in automatic mode, for the first 64 sections; further sections
    and clients in manual mode keep theirs. The application remembers the
    demand and when it came. *)
Theorem section_demand_packet (env : CallEnv) (data : list Z) (a : Aog) (c : Z)
    (st : ClientState) (Hd : 8 <= zlength data)
    (Hc : clients (tcServer a) !! c = Some st) (Hwf : wf st) :
  let a' := (packetHandler env {| src := 127; pgn := 229; payload := data |} a).1 in
  length (sectionDemand a') = 64%nat /\
  (forall s, 0 <= s < 64 ->
     zlookup (sectionDemand a') s = Some (Z.testbit (byte_at data (s / 8)) (s mod 8))) /\
  lastSectionDemandMs a' = now env /\ lastAogPacketMs a' = now env /\
  exists st', clients (tcServer a') !! c = Some st' /\
    forall s, 0 <= s < numberOfSections st ->
      get_section_setpoint_state s st' =
      if is_section_control_enabled st && (s <? 64)
      then (if Z.testbit (byte_at data (s / 8)) (s mod 8) then ON else OFF)
      else get_section_setpoint_state s st.
Proof.
  rewrite packetHandler_states by done. intros a'.
  set (ss := decode_section_states data).
  assert (Ha' : sectionDemand a' = ss /\ lastSectionDemandMs a' = now env /\
    lastAogPacketMs a' = now env /\
    tcServer a' = (update_section_states ss (tcServer a)).1).
  { unfold a', handle_section_states. fold ss. case_decide as Heq; simpl.
    - destruct (update_section_states ss (tcServer a)). done.
    - destruct (update_section_states ss (tcServer a)). done. }
  destruct Ha' as (-> & -> & -> & ->). split_and!; try done.
  { intros s Hs. by apply decode_section_states_bit. }
  destruct (for_each_client_spec (update_client_section_states ss) (tcServer a) c
    (own_update_client_section_states ss)) as (Hl & _).
  fold (update_section_states ss (tcServer a)) in Hl. rewrite Hl, Hc.
  eexists. split; [done|]. intros s Hs.
  destruct (is_section_control_enabled st) eqn:Hen; simpl.
  - destruct (update_client_section_states_spec ss c st Hwf Hen) as [[w ->] _].
    change (get_section_setpoint_state s (setpoint_variant w
      (sectionSetpointStates (apply_demand ss st)) st)) with
      (get_section_setpoint_state s (apply_demand ss st)).
    rewrite get_section_setpoint_state_apply_demand by done. unfold demanded.
    destruct (Z.ltb_spec s 64).
    + unfold ss. rewrite decode_section_states_bit by lia. by destruct (Z.testbit _ _).
    + rewrite zlookup_ge; [done|]. unfold zlength. unfold ss.
      rewrite length_decode_section_states. lia.
  - unfold update_client_section_states. by rewrite Hen.
Qed.

(** Process data packets (PGN 0xF2) carry a data description index and a
    signed 32-bit value, both little endian. An actual speed is stored in
    full and announced with its sign as the direction and its magnitude cut
    to 16 bits; a total distance is stored, negative ones as zero; other
    values of unknown indices change nothing but the time of the last
    packet. *)
Theorem process_data_packet `{!DdiLaws} (env : CallEnv) (a : Aog) (ddi v : Z)
    (rest : list Z) (Hd : is_u16 ddi) (Hv : is_i32 v) :
  let p := {| src := 127; pgn := 242; payload := le16 ddi ++ le32 v ++ rest |} in
  let '(a', outs) := packetHandler env p a in
  lastAogPacketMs a' = now env /\ tcServer a' = tcServer a /\
  (ddi = ActualSpeed ->
     lastSpeedValue a' = v /\
     (has_speed_interface env = true ->
        SetMachineSpeed (if decide (v < 0) then Reverse else Forward) (u16 (Z.abs v)) ∈ outs) /\
     (has_nmea2000_interface env = true ->
        SetCogSog (nmea2000SequenceIdentifier a) (u16 (Z.abs v) / 10) 0 ∈ outs)) /\
  (ddi = TotalDistance ->
     lastDistanceMm a' = Z.max 0 v /\
     (has_speed_interface env = true -> outs = [SetMachineDistance (Z.max 0 v)])) /\
  (ddi <> ActualSpeed -> lastSpeedValue a' = lastSpeedValue a) /\
  (ddi <> TotalDistance -> lastDistanceMm a' = lastDistanceMm a) /\
  (ddi <> ActualSpeed -> ddi <> GuidanceLineDeviation -> ddi <> TotalDistance ->
     outs = []).
Proof.
  intros p. unfold p. rewrite packetHandler_process_data; last first.
  { unfold zlength. simpl. lia. }
  unfold handle_process_data. rewrite process_data_identifier_le16 by done.
  change (le16 ddi ++ le32 v ++ rest) with
    (Z.land ddi 255 :: Z.land (Z.shiftr ddi 8) 255 :: le32 v ++ rest).
  rewrite process_data_value_le32 by done.
  destruct process_data_codes_distinct as (Hsg & Hsd & Hgd).
  assert (Hmax : (if v <? 0 then 0 else u32 v) = Z.max 0 v).
  { unfold is_i32 in Hv. destruct (Z.ltb_spec v 0); [lia|]. unfold u32.
    rewrite Z.mod_small; lia. }
  destruct (Z.eqb_spec ddi ActualSpeed) as [->|Hns].
  { unfold handle_speed. simpl. split_and!; try done; intros; try congruence.
    split_and!; [done|..].
    - intros ->. destruct (Z.ltb_spec v 0); case_decide; try lia; left.
    - intros ->. apply elem_of_app. right. left. }
  destruct (Z.eqb_spec ddi GuidanceLineDeviation) as [->|Hng].
  { unfold handle_xte. destruct (time_expired_ms _ _ _), (can_accepts env); simpl;
      split_and!; try done; intros; congruence. }
  destruct (Z.eqb_spec ddi TotalDistance) as [->|Hnd]; simpl.
  - rewrite Hmax. split_and!; try done; intros; try congruence.
    split; [done|]. by intros ->.
  - split_and!; try done; intros; congruence.
Qed.

(** A guidance line deviation advances the XTE sequence number through
    1..253 and is sent on, cut to whole thousands towards zero, when a
    second has passed since the last message the CAN stack accepted; only an
    accepted message restarts that second. *)
Theorem xte_packet `{!DdiLaws} `{!TimingLaws} (env : CallEnv) (a : Aog) (v : Z)
    (rest : list Z) (Hd : is_u16 GuidanceLineDeviation) (Hv : is_i32 v)
    (Hsid : 0 <= xteSid a <= 253) :
  let p := {| src := 127; pgn := 242;
              payload := le16 GuidanceLineDeviation ++ le32 v ++ rest |} in
  let '(a', outs) := packetHandler env p a in
  let sid := if xteSid a =? 253 then 1 else xteSid a + 1 in
  xteSid a' = sid /\ 1 <= sid <= 253 /\ lastXteValue a' = v /\
  if 1000 <=? u32 (now env - lastXteTransmit a) then
    (exists xte, outs = [CanSend 129283 ([sid; 113] ++ le32 xte ++ [255; 255])] /\
       Z.abs (1000 * xte) <= Z.abs v /\ Z.abs (v - 1000 * xte) < 1000) /\
    lastXteTransmit a' = (if can_accepts env then now env else lastXteTransmit a)
  else outs = [] /\ lastXteTransmit a' = lastXteTransmit a.
Proof.
  intros p. unfold p. rewrite packetHandler_process_data; last first.
  { unfold zlength. simpl. lia. }
  unfold handle_process_data. rewrite process_data_identifier_le16 by done.
  change (le16 GuidanceLineDeviation ++ le32 v ++ rest) with
    (Z.land GuidanceLineDeviation 255 :: Z.land (Z.shiftr GuidanceLineDeviation 8) 255
       :: le32 v ++ rest).
  rewrite process_data_value_le32 by done.
  destruct process_data_codes_distinct as (Hsg & Hsd & Hgd).
  rewrite (proj2 (Z.eqb_neq GuidanceLineDeviation ActualSpeed)) by congruence.
  rewrite Z.eqb_refl. unfold handle_xte. rewrite time_expired_ms_spec. simpl.
  set (sid := u8 (Z.rem (xteSid a) 253 + 1)).
  assert (Hs : sid = if xteSid a =? 253 then 1 else xteSid a + 1).
  { unfold sid. destruct (Z.eqb_spec (xteSid a) 253) as [->|]; [done|].
    rewrite Z.rem_small by lia. apply u8_id. width. }
  assert (Hsr : 1 <= (if xteSid a =? 253 then 1 else xteSid a + 1) <= 253)
    by (destruct (Z.eqb_spec (xteSid a) 253); lia).
  assert (Hx : exists xte,
    [CanSend 129283 (xte_data sid (Z.quot v 1000))] =
      [CanSend 129283 ([if xteSid a =? 253 then 1 else xteSid a + 1; 113] ++
         le32 xte ++ [255; 255])] /\
    Z.abs (1000 * xte) <= Z.abs v /\ Z.abs (v - 1000 * xte) < 1000).
  { exists (Z.quot v 1000). split_and!.
    - unfold xte_data, le32. rewrite Hs. rewrite !u8_id; [done|..];
        rewrite land_255; apply u8_range.
    - Z.quot_rem_to_equations. lia.
    - Z.quot_rem_to_equations. lia. }
  destruct (1000 <=? _); [destruct (can_accepts env)|]; simpl; auto.
Qed.

(** The fix quality comes from source 0x7C, PGN 0xD6, byte 38 of the
    payload: a defined value is kept, any other becomes 1, and the time is
    noted; shorter payloads change nothing. All packets of other sources,
    of unknown PGNs or too short for their PGN are ignored altogether. *)
Theorem gnss_and_foreign_packets (env : CallEnv) (p : Packet) (a : Aog)
    (Hbytes : Forall is_u8 (payload p)) :
  let r := packetHandler env p a in
  (src p = 124 -> pgn p = 214 -> 39 <= zlength (payload p) ->
     r.2 = [] /\ lastGnssQualityMs r.1 = now env /\ 0 <= gnssFixQuality r.1 <= 8 /\
     (byte_at (payload p) 38 <= 8 -> gnssFixQuality r.1 = byte_at (payload p) 38) /\
     (8 < byte_at (payload p) 38 -> gnssFixQuality r.1 = 1)) /\
  ((src p <> 127 /\ ~ (src p = 124 /\ pgn p = 214 /\ 39 <= zlength (payload p))) \/
   (src p = 127 /\
    ~ (pgn p = 229 /\ 8 <= zlength (payload p)) /\
    ~ (pgn p = 241 /\ 1 <= zlength (payload p)) /\
    ~ (pgn p = 242 /\ 6 <= zlength (payload p))) -> r = (a, [])).
Proof.
  intros r. pose proof (zlength_nonneg (payload p)). split.
  - intros Hs Hp Hl. unfold r, packetHandler, handle_gnss, MIN_0xD6_PAYLOAD_SIZE,
      GNSS_FIX_QUALITY_OFFSET, GNSS_QUALITY_MAX. rewrite Hs, Hp. simpl.
    rewrite (proj2 (Z.ltb_ge _ _)) by lia. simpl.
    assert (Hb : 0 <= byte_at (payload p) 38).
    { unfold byte_at. destruct (zlookup (payload p) 38) as [x|] eqn:Ex; simpl; [|lia].
      pose proof (Forall_zlookup _ _ _ _ Hbytes Ex) as Hx. unfold is_u8 in Hx. lia. }
    destruct (Z.leb_spec (byte_at (payload p) 38) 8); split_and!; try done; lia.
  - intros Hf. unfold r, packetHandler, handle_gnss, MIN_0xD6_PAYLOAD_SIZE,
      GNSS_FIX_QUALITY_OFFSET.
    destruct Hf as [[Hn Hg]|(Hs & H229 & H241 & H242)].
    + rewrite (proj2 (Z.eqb_neq (src p) 127)) by done. simpl.
      destruct (Z.eqb_spec (src p) 124), (Z.eqb_spec (pgn p) 214); simpl; try done.
      rewrite (proj2 (Z.ltb_lt _ _)) by lia. done.
    + rewrite Hs. simpl.
      assert ((pgn p =? 229) && (8 <=? zlength (payload p)) = false) as ->
        by (apply andb_false_iff; bool_cases; lia || tauto).
      assert ((pgn p =? 241) && negb (zlength (payload p) =? 0) = false) as ->
        by (apply andb_false_iff; bool_cases; simpl; lia || tauto).
      assert ((pgn p =? 242) && (6 <=? zlength (payload p)) = false) as ->
        by (apply andb_false_iff; bool_cases; lia || tauto).
      done.
Qed.
End packets.
