(* ===== verification/Heartbeat.v ===== *)
(** * Periodic messages (src/app.cpp lines 728-866, 1070-1118)

    The section heartbeat to AgOpenGPS, the J1939 speed, the task controller
    status, the GNSS quality choice and the operator message. Each is the
    computation of one branch of [Application::update]; App.v puts them
    behind their timers. *)

From S2P Require Import Prelude Ddop Hierarchy ClientState TcServer ServerFacts.
From S2P Require Import Setpoints Udp UdpFacts PacketHandler.

Section heartbeat.
Context `{DdopApi}.
Implicit Types (st : ClientState).

(** One round of [for (i = 0; i < 8; i++)]: the byte and [sectionIndex]. *)
Definition heartbeat_bit st (acc : Z * Z) (i : Z) : Z * Z :=
  let '(byte, sectionIndex) := acc in
  if sectionIndex <? get_number_of_sections st
  then (u8 (Z.lor byte
              (Z.shiftl (if get_section_actual_state sectionIndex st =? ON then 1 else 0) i)),
        u8 (sectionIndex + 1))
  else acc.

(** The [while] loop over the bytes. *)
Fixpoint heartbeat_loop (fuel : nat) st (sectionIndex : Z) : loop_result (list Z) :=
  if sectionIndex <? get_number_of_sections st then
    match fuel with
    | O => Running
    | S fuel =>
        let '(byte, sectionIndex) :=
          foldl (heartbeat_bit st) (0, sectionIndex) (seqZ 0 8) in
        match heartbeat_loop fuel st sectionIndex with
        | Finished bytes => Finished (byte :: bytes)
        | OutOfRange => OutOfRange
        | Running => Running
        end
    end
  else Finished [].

(** At most 32 bytes follow the two leading ones. *)
Definition heartbeat_data st : loop_result (list Z) :=
  match heartbeat_loop 32 st 0 with
  | Finished bytes =>
      Finished ((if is_section_control_enabled st then 1 else 0)
                :: get_number_of_sections st :: bytes)
  | OutOfRange => OutOfRange
  | Running => Running
  end.

(** The payload of one client, none without sections. *)
Definition client_heartbeat st : list app_out :=
  if get_number_of_sections st =? 0 then []
  else match heartbeat_data st with
       | Finished data => [UdpSend 128 240 data]
       | _ => []
       end.

(** The loop over the copy that [get_clients] returns, and the idle
    heartbeat. *)
Definition send_heartbeats (aogHeartbeatEnabled : bool) (m : gmap Z ClientState)
    : list app_out :=
  let order := client_order m in
  let sent := concat ((fun c => match m !! c with
                                | Some st => client_heartbeat st
                                | None => []
                                end) <$> order) in
  let anyClientWithSections :=
    existsb (fun c => match m !! c with
                      | Some st => negb (get_number_of_sections st =? 0)
                      | None => false
                      end) order in
  sent ++ (if aogHeartbeatEnabled && negb anyClientWithSections
           then [UdpSend 128 240 [0; 0]] else []).
End heartbeat.

(** mm/s to (km/h) * 256: [(abs (v) * 576u + 312u) / 625u] in 32 bits, cut to
    16. *)
Definition speed_j1939 (lastSpeedValue : Z) : Z :=
  u16 (u32 (u32 (u32 (Z.abs lastSpeedValue) * 576) + 312) / 625).

Definition j1939_speed_data (lastSpeedValue : Z) : list Z :=
  let speed := speed_j1939 lastSpeedValue in
  [255; 255; u8 (Z.land speed 255); u8 (Z.land (Z.shiftr speed 8) 255); 255; 255; 255; 255].

(** ISO 11783-10 B.8.1. *)
Definition tc_status_data (task_totals_active : bool) : list Z :=
  let statusByte := if task_totals_active then Z.lor 0 1 else 0 in
  [254; 255; 255; 255; statusByte; 0; 0; 255].

Section gnss.
Context `{DdopApi} `{Timing}.

Definition GNSS_QUALITY_TIMEOUT_MS : Z := 2000.

Definition gnss_quality_to_send (now_ : Z) (a : Aog) : Z :=
  if lastGnssQualityMs a =? 0 then 1
  else if negb (time_expired_ms now_ (lastGnssQualityMs a) GNSS_QUALITY_TIMEOUT_MS)
  then gnssFixQuality a else 0.
End gnss.

(** ** The operator message *)

Definition MAX_TEXT_BYTES : Z := 60.
Definition HW_MSG_ALERT : Z := 0.
Definition HW_MSG_INFO : Z := 1.

(** A UTF-8 continuation byte. *)
Definition is_continuation (b : Z) : bool := Z.land b 192 =? 128.

(** [while (textLength > 0 && (text\[textLength\] & 0xC0) == 0x80)
    textLength--]. *)
Fixpoint back_to_boundary (text : list Z) (textLength : nat) : nat :=
  match textLength with
  | O => O
  | S n => if is_continuation (byte_at text (Z.of_nat textLength))
           then back_to_boundary text n else textLength
  end.

Definition hardware_message_text (text : list Z) : list Z :=
  if MAX_TEXT_BYTES <? zlength text
  then take (back_to_boundary text (Z.to_nat MAX_TEXT_BYTES)) text
  else text.

Definition send_hardware_message (text : list Z) (duration color : Z) : list app_out :=
  match hardware_message_text text with
  | [] => []
  | message => [UdpSend 128 221 ([duration; color] ++ message)]
  end.

(** ** The heartbeat carries the section states *)

Lemma testbit_u8 x j : Z.testbit (u8 x) j = (j <? 8) && Z.testbit x j.
Proof.
  unfold u8. change 256 with (2 ^ 8). destruct (Z.ltb_spec j 8); simpl.
  - by rewrite Z.mod_pow2_bits_low.
  - by rewrite Z.mod_pow2_bits_high by lia.
Qed.

Lemma testbit_shifted_flag (b : bool) i j :
  0 <= i -> 0 <= j ->
  Z.testbit (Z.shiftl (if b then 1 else 0) i) j = b && (j =? i).
Proof.
  intros Hi Hj. rewrite Z.shiftl_spec by done. destruct b; simpl; [|by rewrite Z.bits_0].
  destruct (Z.eqb_spec j i) as [->|Hne]; [by rewrite Z.sub_diag|].
  destruct (Z.ltb_spec j i); [by rewrite Z.testbit_neg_r by lia|].
  apply Z.bits_above_log2; simpl; lia.
Qed.

Section heartbeat_facts.
Context `{DdopApi}.
Context (st : ClientState).
Let n := get_number_of_sections st.
Let on (s : Z) : bool := get_section_actual_state s st =? ON.

Context (Hn : is_u8 n).

Lemma heartbeat_byte idx :
  0 <= idx <= n ->
  let r := foldl (heartbeat_bit st) (0, idx) (seqZ 0 8) in
  r.2 = Z.min (idx + 8) n /\ is_u8 r.1 /\
  forall j, 0 <= j -> Z.testbit r.1 j = (j <? 8) && ((idx + j <? n) && on (idx + j)).
Proof using Hn.
  intros Hidx.
  apply (for_loop_ind (fun i r => r.2 = Z.min (idx + i) n /\ is_u8 r.1 /\
    forall j, 0 <= j -> Z.testbit r.1 j = (j <? i) && ((idx + j <? n) && on (idx + j))));
    [lia| |].
  - cbn [fst snd]. split_and!; [lia|unfold is_u8; lia|]. intros j Hj.
    rewrite Z.bits_0. by rewrite (proj2 (Z.ltb_ge j 0)) by done.
  - intros i [byte sI] Hi (HsI & Hb & Hbits). cbn [fst snd] in *. unfold heartbeat_bit.
    fold n. unfold is_u8 in Hn. destruct (Z.ltb_spec sI n) as [Hlt|Hge]; cbn [fst snd].
    + assert (sI = idx + i) as -> by lia. split_and!; [|apply u8_range|].
      { rewrite u8_id by width. lia. }
      intros j Hj. rewrite testbit_u8, Z.lor_spec, Hbits, testbit_shifted_flag by lia.
      fold (on (idx + i)).
      destruct (Z.eqb_spec j i) as [->|Hne].
      * rewrite (proj2 (Z.ltb_lt i 8)), (proj2 (Z.ltb_lt i (i + 1))),
          (proj2 (Z.ltb_ge i i)), (proj2 (Z.ltb_lt (idx + i) n)) by lia.
        simpl. by rewrite andb_true_r.
      * rewrite andb_false_r, orb_false_r. bool_cases; simpl; try done; lia.
    + split_and!; [lia|done|]. intros j Hj. rewrite Hbits by done.
      bool_cases; simpl; try done; lia.
Qed.

Lemma heartbeat_loop_spec fuel idx :
  0 <= idx <= n -> n - idx <= 8 * Z.of_nat fuel ->
  exists bytes, heartbeat_loop fuel st idx = Finished bytes /\
    zlength bytes = (n - idx + 7) / 8 /\ Forall is_u8 bytes /\
    forall s, 0 <= s < 8 * zlength bytes ->
      Z.testbit (byte_at bytes (s / 8)) (s mod 8) = (idx + s <? n) && on (idx + s).
Proof using Hn.
  revert idx. induction fuel as [|fuel IH]; intros idx Hidx Hf; cbn [heartbeat_loop]; fold n;
    destruct (Z.ltb_spec idx n) as [Hlt|Hge].
  1: lia.
  1, 3: exists []; split_and!; [done|unfold zlength; simpl; Z.div_mod_to_equations; lia|
    constructor|intros s Hs; unfold zlength in Hs; simpl in Hs; lia].
  pose proof (heartbeat_byte idx Hidx) as Hbyte.
  destruct (foldl (heartbeat_bit st) (0, idx) (seqZ 0 8)) as [byte idx'].
  cbn [fst snd] in Hbyte. destruct Hbyte as (-> & Hb & Hbits).
  destruct (IH (Z.min (idx + 8) n)) as (bytes & -> & Hlen & Hall & Hrest); [lia..|].
  exists (byte :: bytes). assert (Hz : zlength (byte :: bytes) = zlength bytes + 1)
    by (unfold zlength; simpl; lia).
  split_and!; [done| |by constructor|].
  { rewrite Hz, Hlen. Z.div_mod_to_equations. lia. }
  intros s Hs. rewrite Hz in Hs.
  destruct (Z.ltb_spec s 8) as [H8|H8].
  - rewrite Z.div_small, Z.mod_small by lia. unfold byte_at, zlookup. simpl.
    rewrite Hbits by lia. by rewrite (proj2 (Z.ltb_lt s 8)).
  - replace (s / 8) with ((s - 8) / 8 + 1) by (Z.div_mod_to_equations; lia).
    replace (s mod 8) with ((s - 8) mod 8) by (Z.div_mod_to_equations; lia).
    assert (Hcons : byte_at (byte :: bytes) ((s - 8) / 8 + 1) = byte_at bytes ((s - 8) / 8)).
    { unfold byte_at, zlookup.
      replace (Z.to_nat ((s - 8) / 8 + 1)) with (S (Z.to_nat ((s - 8) / 8)))
        by (Z.div_mod_to_equations; lia). done. }
    rewrite Hcons, Hrest by lia.
    destruct (Z.leb_spec (idx + 8) n).
    + rewrite Z.min_l by lia. by replace (idx + 8 + (s - 8)) with (idx + s) by lia.
    + rewrite Z.min_r by lia. bool_cases; simpl; try done; lia.
Qed.
End heartbeat_facts.

Section heartbeat_claims.
Context `{DdopApi}.

Lemma udp_fits_client_heartbeat (st : ClientState) :
  wf st -> Forall (fun o => match o with
    | UdpSend s p data => send 256 s p data = Finished (frame s p data)
    | _ => True end) (client_heartbeat st).
Proof.
  intros Hwf. pose proof (wf_number _ Hwf) as Hn. pose proof Hn as Hr. unfold is_u8 in Hr.
  unfold client_heartbeat. destruct (_ =? 0); [constructor|].
  destruct (heartbeat_loop_spec st Hn 32 0) as (bytes & Hrun & Hlen & _);
    [unfold get_number_of_sections; lia..|].
  unfold heartbeat_data. rewrite Hrun. repeat constructor. apply send_finished.
  change (get_number_of_sections st) with (numberOfSections st) in *.
  unfold zlength in *. simpl. Z.div_mod_to_equations. lia.
Qed.

Lemma heartbeat_encodes (st : ClientState) (Hwf : wf st) :
  exists data,
    heartbeat_data st = Finished data /\
    zlength data = 2 + (numberOfSections st + 7) / 8 /\
    byte_at data 0 = (if is_section_control_enabled st then 1 else 0) /\
    byte_at data 1 = numberOfSections st /\
    (forall s, 0 <= s < 8 * (zlength data - 2) ->
       Z.testbit (byte_at data (2 + s / 8)) (s mod 8) =
       (s <? numberOfSections st) && (get_section_actual_state s st =? ON)) /\
    Forall is_u8 data /\
    send 256 128 240 data = Finished (frame 128 240 data).
Proof.
  pose proof (wf_number _ Hwf) as Hn. pose proof Hn as Hr. unfold is_u8 in Hr.
  destruct (heartbeat_loop_spec st Hn 32 0) as (bytes & Hrun & Hlen & Hall & Hbits);
    [unfold get_number_of_sections; lia..|].
  unfold heartbeat_data. rewrite Hrun. eexists. split; [done|].
  set (data := _ :: _ :: bytes). rewrite Z.sub_0_r in Hlen.
  change (get_number_of_sections st) with (numberOfSections st) in *.
  assert (Hz : zlength data = zlength bytes + 2) by (unfold data, zlength; simpl; lia).
  split_and!; try done.
  - lia.
  - intros s Hs. assert (Hcons : byte_at data (2 + s / 8) = byte_at bytes (s / 8)).
    { unfold byte_at, zlookup, data.
      replace (Z.to_nat (2 + s / 8)) with (S (S (Z.to_nat (s / 8))))
        by (Z.div_mod_to_equations; lia). done. }
    rewrite Hcons, Hbits by lia. done.
  - constructor; [by destruct (is_section_control_enabled st)|]. by constructor.
  - apply send_finished. rewrite Hz, Hlen. Z.div_mod_to_equations. lia.
Qed.

(** The heartbeat of a client with [n] sections is two bytes, its mode and
    [n], and then exactly as many bytes as [n] bits need; bit [s mod 8] of
    byte [2 + s / 8] says whether section [s] is on, and the unused bits are
    0. It always goes onto the wire: [send] returns one frame for it. *)
Theorem heartbeat_encodes_sections (st : ClientState) (Hwf : wf st) :
  exists data,
    heartbeat_data st = Finished data /\
    zlength data = 2 + (numberOfSections st + 7) / 8 /\
    byte_at data 0 = (if is_section_control_enabled st then 1 else 0) /\
    byte_at data 1 = numberOfSections st /\
    (forall s, 0 <= s < 8 * (zlength data - 2) ->
       Z.testbit (byte_at data (2 + s / 8)) (s mod 8) =
       (s <? numberOfSections st) && (get_section_actual_state s st =? ON)) /\
    Forall is_u8 data /\
    send 256 128 240 data = Finished (frame 128 240 data).
Proof. exact (heartbeat_encodes st Hwf). Qed.
End heartbeat_claims.

(** ** Numbers *)

(** For every speed up to 71.110 m/s either way the J1939 speed is the
    stored millimetres per second in units of 1/256 km/h, rounded to the
    nearest: off by at most half a unit, 312 of 625; its two bytes are its
    low and high part. Beyond, the 16-bit field cuts the value. *)
Theorem j1939_speed_rounding (v : Z) (Hv : Z.abs v <= 71110) :
  Z.abs (625 * speed_j1939 v - 576 * Z.abs v) <= 312 /\ is_u16 (speed_j1939 v) /\
  byte_at (j1939_speed_data v) 2 + 256 * byte_at (j1939_speed_data v) 3 = speed_j1939 v.
Proof.
  assert (Hs : speed_j1939 v = (Z.abs v * 576 + 312) / 625 /\ is_u16 (speed_j1939 v)).
  { unfold speed_j1939.
    rewrite (u32_id (Z.abs v)), (u32_id (Z.abs v * 576)), u32_id by (unfold is_u32; lia).
    rewrite u16_id; [split; [done|]|]; unfold is_u16; Z.div_mod_to_equations; lia. }
  destruct Hs as [Hs Hr]. split_and!; [|done|].
  - rewrite Hs. Z.div_mod_to_equations. lia.
  - unfold j1939_speed_data, byte_at, zlookup. simpl. unfold is_u16 in Hr.
    rewrite !land_255, Z.shiftr_div_pow2 by lia. change (2 ^ 8) with 256. width.
Qed.

(** The GNSS quality sent to the implements is always a defined value 0..8:
    1 while no quality has ever arrived, the received one while the last is
    less than two seconds old, and 0 once it is older. *)
Theorem gnss_quality_choice `{DdopApi} `{!Timing} `{!TimingLaws} (now_ : Z) (a : Aog)
    (Hq : 0 <= gnssFixQuality a <= 8) :
  let q := gnss_quality_to_send now_ a in
  0 <= q <= 8 /\
  (lastGnssQualityMs a = 0 -> q = 1) /\
  (lastGnssQualityMs a <> 0 -> u32 (now_ - lastGnssQualityMs a) < 2000 ->
   q = gnssFixQuality a) /\
  (lastGnssQualityMs a <> 0 -> 2000 <= u32 (now_ - lastGnssQualityMs a) -> q = 0).
Proof.
  unfold gnss_quality_to_send. rewrite time_expired_ms_spec. unfold GNSS_QUALITY_TIMEOUT_MS.
  destruct (Z.eqb_spec (lastGnssQualityMs a) 0), (Z.leb_spec 2000 (u32 (now_ - lastGnssQualityMs a)));
    simpl; split_and!; intros; try done; lia.
Qed.

(** ** The operator message *)

Lemma back_to_boundary_spec text n :
  let m := back_to_boundary text n in
  (m <= n)%nat /\
  (m = O \/ is_continuation (byte_at text (Z.of_nat m)) = false) /\
  forall k, (m < k <= n)%nat -> is_continuation (byte_at text (Z.of_nat k)) = true.
Proof.
  induction n as [|n IH]; [simpl; split_and!; [lia|by left|lia]|].
  cbn [back_to_boundary].
  destruct (is_continuation (byte_at text (Z.of_nat (S n)))) eqn:E.
  - destruct IH as (Hle & Hb & Hk). split_and!; [lia|done|]. intros k Hkr.
    destruct (decide (k = S n)) as [->|]; [done|]. apply Hk. lia.
  - split_and!; [lia|by right|lia].
Qed.

(** No run of four continuation bytes, as in every UTF-8 text. *)
Definition utf8_runs (text : list Z) : Prop :=
  forall i, 0 <= i -> exists j, i <= j < i + 4 /\ is_continuation (byte_at text j) = false.

Lemma hardware_message_text_cut text :
  let message := hardware_message_text text in
  message `prefix_of` text /\ zlength message <= 60 /\
  (zlength text <= 60 -> message = text) /\
  (60 < zlength text -> zlength message = Z.of_nat (back_to_boundary text 60)).
Proof.
  unfold hardware_message_text, MAX_TEXT_BYTES.
  destruct (Z.ltb_spec 60 (zlength text)) as [Hlt|Hle]; [|split_and!; try done; lia].
  change (Z.to_nat 60) with 60%nat. destruct (back_to_boundary_spec text 60) as (Hb & _).
  assert (Hlen : zlength (take (back_to_boundary text 60) text) =
    Z.of_nat (back_to_boundary text 60)).
  { unfold zlength in *. rewrite length_take. lia. }
  rewrite Hlen. split_and!; [apply prefix_take|lia|lia|done].
Qed.

(** A datagram that [send] really puts on the wire. *)
Definition udp_fits (o : app_out) : Prop :=
  match o with
  | UdpSend s p data => send 256 s p data = Finished (frame s p data)
  | _ => True
  end.

Lemma udp_fits_hardware text duration color :
  Forall udp_fits (send_hardware_message text duration color).
Proof.
  unfold send_hardware_message.
  destruct (hardware_message_text_cut text) as (_ & Hle & _).
  destruct (hardware_message_text text) as [|c m]; [constructor|].
  repeat constructor. simpl. apply send_finished. unfold zlength in *. simpl in *. lia.
Qed.

(** An operator message carries the whole text when it has at most 60
    bytes, and otherwise the longest prefix of at most 60 bytes that ends on a
    character boundary, which for UTF-8 loses at most three bytes of the 60;
    nothing is sent only for an empty message. The frame always fits. *)
Theorem hardware_message_spec (text : list Z) (duration color : Z) :
  let message := hardware_message_text text in
  message `prefix_of` text /\ zlength message <= 60 /\
  (zlength text <= 60 -> message = text) /\
  (60 < zlength text ->
     (message = [] \/ is_continuation (byte_at text (zlength message)) = false) /\
     (forall k, zlength message < k <= 60 -> is_continuation (byte_at text k) = true) /\
     (utf8_runs text -> 57 <= zlength message)) /\
  send_hardware_message text duration color =
    (if decide (message = []) then [] else [UdpSend 128 221 ([duration; color] ++ message)]) /\
  send 256 128 221 ([duration; color] ++ message) =
    Finished (frame 128 221 ([duration; color] ++ message)).
Proof.
  intros message.
  assert (Hsend : send_hardware_message text duration color =
    (if decide (message = []) then [] else [UdpSend 128 221 ([duration; color] ++ message)])).
  { unfold send_hardware_message. fold message. by destruct message. }
  rewrite Hsend. clear Hsend.
  pose proof (hardware_message_text_cut text) as Hcut. fold message in Hcut.
  destruct Hcut as (Hp & Hle & Hsame & Hcut). split_and!; try done.
  - intros Hlt. specialize (Hcut Hlt).
    destruct (back_to_boundary_spec text 60) as (Hb & Hend & Hk). rewrite Hcut. split_and!.
    + destruct Hend as [Hz|Hend]; [left|by right].
      rewrite Hz in Hcut. by destruct message.
    + intros k Hkr. rewrite <- (Z2Nat.id k) by lia. apply Hk. lia.
    + intros Hutf. set (m := back_to_boundary text 60) in *.
      destruct (decide (57 <= Z.of_nat m)); [done|exfalso].
      destruct (Hutf (Z.of_nat m + 1)) as (j & Hj & Hjc); [lia|].
      rewrite <- (Z2Nat.id j) in Hjc by lia. rewrite Hk in Hjc by lia. done.
  - apply send_finished. unfold zlength in *. rewrite length_app. simpl. lia.
Qed.
