(* ===== verification/DemandMonitor.v ===== *)
(** * Watching the section demand (src/app.cpp lines 950-1068)

    [describe_section_demand] prints the sections that are on as ranges,
    [log_section_demand] writes the demand to the log at a limited rate, and
    [check_section_demand] warns the operator when an implement in automatic
    mode keeps working although AgOpenGPS asks for no sections. *)

From S2P Require Import Prelude Ddop Hierarchy ClientState TcServer Activation.
From S2P Require Import Setpoints Udp PacketHandler Heartbeat.

(** ** Describing a demand *)

Section describe.
Context (demand : list bool).

(** [demand\[i\]]. *)
Definition on_at (i : Z) : bool := default false (zlookup demand i).

(** [while ((last + 1 < count) && demand\[last + 1\]) last++]. *)
Fixpoint run_end (fuel : nat) (count last : Z) : Z :=
  match fuel with
  | O => last
  | S fuel =>
      if (last + 1 <? count) && on_at (last + 1)
      then run_end fuel count (last + 1) else last
  end.

(** One round of the loop over the sections: the count so far and the text
    of [ranges]. *)
Definition describe_step (count : Z) (acc : Z * list Z) (i : Z) : Z * list Z :=
  let '(onCount, ranges) := acc in
  if negb (on_at i) || ((0 <? i) && on_at (i - 1))
  then (onCount + (if on_at i then 1 else 0), ranges)
  else
    let last := run_end (Z.to_nat count) count i in
    (onCount + 1,
     ranges ++ (if onCount =? 0 then [] else bytes_of_string ",") ++ to_string (i + 1)
     ++ (if i <? last then bytes_of_string "-" ++ to_string (last + 1) else [])).

Definition demand_count (numberOfSections : Z) : Z :=
  if numberOfSections =? 0 then zlength demand
  else Z.min numberOfSections (zlength demand).

Definition describe_section_demand (numberOfSections : Z) : list Z :=
  let count := demand_count numberOfSections in
  let '(onCount, ranges) := foldl (describe_step count) (0, []) (seqZ 0 count) in
  if onCount =? 0 then bytes_of_string "all off"
  else to_string onCount ++ bytes_of_string " on: " ++ ranges.
End describe.

(** ** The log line *)

Definition SECTION_DEMAND_LOG_INTERVAL_MS : Z := 200.

Record DemandLog := {
  loggedSectionDemand : list bool;
  lastSectionDemandLogMs : Z
}.

Section log.
Context `{DdopApi} `{Timing}.

Definition max_sections (m : gmap Z ClientState) : Z :=
  foldl (fun n c => match m !! c with
                    | Some st => Z.max n (get_number_of_sections st)
                    | None => n
                    end) 0 (client_order m).

(** The third component is what goes to the log. *)
Definition log_section_demand (now_ : Z) (a : Aog) (l : DemandLog)
    : Aog * DemandLog * option (list Z) :=
  if (sectionDemandChangesSinceLog a =? 0) ||
     negb (time_expired_ms now_ (lastSectionDemandLogMs l) SECTION_DEMAND_LOG_INTERVAL_MS)
  then (a, l, None)
  else
    let changed := negb (bool_decide (sectionDemand a = loggedSectionDemand l)) in
    (with_sectionDemandChangesSinceLog 0 a,
     {| loggedSectionDemand := if changed then sectionDemand a else loggedSectionDemand l;
        lastSectionDemandLogMs := now_ |},
     if changed
     then Some (describe_section_demand (sectionDemand a)
                  (max_sections (clients (tcServer a))))
     else None).
End log.

(** ** Working without demand *)

Definition SECTION_DEMAND_TIMEOUT_MS : Z := 2000.
Definition WORKING_WITHOUT_DEMAND_WARNING_MS : Z := 10000.

Record WorkingWithoutDemand := { sinceMs : Z; warned : bool }.

(** What the loop body does for one client whose entry is [w], at a moment at
    which it is in automatic and working while nothing is demanded
    ([unattended]) or not: its new entry and whether the operator is warned. *)
Definition monitor_step (nowMs : Z) (unattended : bool) (w : option WorkingWithoutDemand)
    : option WorkingWithoutDemand * bool :=
  if negb unattended then (None, false)
  else
    let tracked := default {| sinceMs := nowMs; warned := false |} w in
    if negb (warned tracked) &&
       (WORKING_WITHOUT_DEMAND_WARNING_MS <=? u32 (nowMs - sinceMs tracked))
    then (Some {| sinceMs := sinceMs tracked; warned := true |}, true)
    else (Some tracked, false).

Section check.
Context `{DdopApi} `{Timing}.
(** [get_NAME ().get_full_name ()] of a control function. *)
Context (full_name : Z -> Z).

Definition demand_arriving (now_ : Z) (a : Aog) : bool :=
  negb (lastSectionDemandMs a =? 0) &&
  negb (time_expired_ms now_ (lastSectionDemandMs a) SECTION_DEMAND_TIMEOUT_MS).

Definition actual_on (st : ClientState) : list bool :=
  (fun i => ON =? get_section_actual_state i st) <$> seqZ 0 (get_number_of_sections st).

Definition any_demanded (arriving : bool) (demand : list bool) (st : ClientState) : bool :=
  existsb (fun i => arriving && (i <? zlength demand) && on_at demand i)
    (seqZ 0 (get_number_of_sections st)).

Definition unattended (arriving : bool) (demand : list bool) (st : ClientState) : bool :=
  negb (negb (is_section_control_enabled st)
        || negb (existsb (fun b => b) (actual_on st))
        || any_demanded arriving demand st).

Definition warning_text (arriving : bool) : list Z :=
  bytes_of_string
    (if arriving then "Implement working, AOG sections off: turn on section Auto"
     else "Implement working but no field is open in AOG").

Definition check_client (nowMs : Z) (arriving : bool) (demand : list bool)
    (m : gmap Z ClientState) (acc : gmap Z WorkingWithoutDemand * list app_out) (c : Z)
    : gmap Z WorkingWithoutDemand * list app_out :=
  match m !! c with
  | None => acc
  | Some st =>
      let name := full_name c in
      let '(w, warn) := monitor_step nowMs (unattended arriving demand st) (acc.1 !! name) in
      (partial_alter (fun _ => w) name acc.1,
       acc.2 ++ (if warn then send_hardware_message (warning_text arriving) 20 HW_MSG_ALERT
                 else []))
  end.

(** The flag [sectionDemandArriving] only selects log lines. *)
Definition check_section_demand (now_ : Z) (a : Aog)
    (workingWithoutDemand : gmap Z WorkingWithoutDemand)
    : gmap Z WorkingWithoutDemand * list app_out :=
  let m := clients (tcServer a) in
  foldl (check_client now_ (demand_arriving now_ a) (sectionDemand a) m)
    (workingWithoutDemand, []) (client_order m).
End check.

(** ** The description names exactly the sections that are on *)

Definition render_run (r : Z * Z) : list Z :=
  to_string (r.1 + 1) ++
  (if r.1 <? r.2 then bytes_of_string "-" ++ to_string (r.2 + 1) else []).

(** Joined by commas. *)
Fixpoint render_runs (rs : list (Z * Z)) : list Z :=
  match rs with
  | [] => []
  | [r] => render_run r
  | r :: rs => render_run r ++ bytes_of_string "," ++ render_runs rs
  end.

Lemma render_runs_snoc rs r :
  render_runs (rs ++ [r]) =
  render_runs rs ++ (if decide (rs = []) then [] else bytes_of_string ",") ++ render_run r.
Proof.
  induction rs as [|x rs IH]; [done|]. rewrite decide_False by done.
  destruct rs as [|y rs]; [done|].
  change (render_run x ++ bytes_of_string "," ++ render_runs ((y :: rs) ++ [r]) =
    (render_run x ++ bytes_of_string "," ++ render_runs (y :: rs)) ++
    bytes_of_string "," ++ render_run r).
  rewrite IH, decide_False by done. by rewrite <- !app_assoc.
Qed.

Section describe_facts.
Context (demand : list bool) (count : Z).

Local Notation fuel := (Z.to_nat count).

Definition starts (i : Z) : bool := on_at demand i && negb ((0 <? i) && on_at demand (i - 1)).

Definition runs_before (k : Z) : list (Z * Z) :=
  omap (fun i => if starts i then Some (i, run_end demand fuel count i) else None) (seqZ 0 k).

Definition ons_before (k : Z) : Z :=
  zlength (filter (fun i => on_at demand i = true) (seqZ 0 k)).

Lemma run_end_spec f i :
  0 <= i < count -> count - i <= Z.of_nat f ->
  let e := run_end demand f count i in
  i <= e < count /\ (forall j, i < j <= e -> on_at demand j = true) /\
  (e + 1 < count -> on_at demand (e + 1) = false).
Proof.
  revert i. induction f as [|f IH]; intros i Hi Hf; [lia|]. cbn [run_end].
  destruct (Z.ltb_spec (i + 1) count) as [Hlt|Hge]; simpl.
  - destruct (on_at demand (i + 1)) eqn:E.
    + destruct (IH (i + 1)) as (He & Hon & Hoff); [lia..|]. split_and!; [lia..| |done].
      intros j Hj. destruct (decide (j = i + 1)) as [->|]; [done|]. apply Hon. lia.
    + split_and!; [lia..|done].
  - split_and!; lia.
Qed.

Lemma ons_before_snoc k :
  0 <= k -> ons_before (k + 1) = ons_before k + (if on_at demand k then 1 else 0).
Proof.
  intros Hk. unfold ons_before, zlength. rewrite seqZ_snoc, filter_app, length_app by done.
  rewrite Z.add_0_l, filter_cons, filter_nil. case_decide as Hon.
  - rewrite Hon. simpl. lia.
  - destruct (on_at demand k); [done|]. simpl. lia.
Qed.

Lemma runs_before_snoc k :
  0 <= k -> runs_before (k + 1) = runs_before k ++
    (if starts k then [(k, run_end demand fuel count k)] else []).
Proof.
  intros Hk. unfold runs_before. rewrite seqZ_snoc, omap_app by done. f_equal.
  rewrite Z.add_0_l. simpl. by destruct (starts k).
Qed.

Lemma describe_loop :
  0 <= count ->
  let r := foldl (describe_step demand count) (0, []) (seqZ 0 count) in
  r.1 = ons_before count /\ r.2 = render_runs (runs_before count) /\
  (ons_before count = 0 <-> runs_before count = []).
Proof.
  intros Hc. apply (for_loop_ind (fun k r => r.1 = ons_before k /\
    r.2 = render_runs (runs_before k) /\ (ons_before k = 0 <-> runs_before k = [])));
    [done|done|].
  intros k [onCount text] Hk (H1 & H2 & H3). cbn [fst snd] in *. subst onCount text.
  rewrite ons_before_snoc, runs_before_snoc by lia.
  pose proof (zlength_nonneg (filter (fun i => on_at demand i = true) (seqZ 0 k))) as Hnn.
  fold (ons_before k) in Hnn.
  unfold describe_step, starts. destruct (on_at demand k) eqn:Eon; cbn [negb orb andb].
  - destruct ((0 <? k) && on_at demand (k - 1)) eqn:Eprev; cbn [negb fst snd].
    + rewrite app_nil_r. split_and!; [done|done|].
      apply andb_true_iff in Eprev as [Hk0%Z.ltb_lt Hp].
      assert (0 < ons_before k).
      { replace k with (k - 1 + 1) by lia. rewrite ons_before_snoc, Hp by lia.
        pose proof (zlength_nonneg (filter (fun i => on_at demand i = true)
          (seqZ 0 (k - 1)))) as Hm. fold (ons_before (k - 1)) in Hm. lia. }
      rewrite <- H3. split; lia.
    + split_and!; [done| |].
      * rewrite render_runs_snoc. unfold render_run. cbn [fst snd].
        destruct (Z.eqb_spec (ons_before k) 0) as [Hz|Hz].
        -- rewrite decide_True by tauto. done.
        -- rewrite decide_False by tauto. done.
      * split; [lia|]. intros Hnil. by apply app_eq_nil in Hnil as [_ ?].
  - rewrite app_nil_r, Z.add_0_r. done.
Qed.

Lemma elem_of_runs f l :
  (f, l) ∈ runs_before count <->
  0 <= f < count /\ starts f = true /\ l = run_end demand fuel count f.
Proof.
  unfold runs_before. rewrite list_elem_of_omap. setoid_rewrite elem_of_seqZ. split.
  - intros (i & Hi & Hs). destruct (starts i) eqn:E; simplify_eq. split_and!; [lia..|done|done].
  - intros (Hf & Hs & ->). exists f. rewrite Hs. split; [lia|done].
Qed.

Lemma runs_cover s :
  0 <= s < count ->
  (on_at demand s = true <-> exists f l, (f, l) ∈ runs_before count /\ f <= s <= l).
Proof.
  intros Hs. split.
  - destruct Hs as [H0 Hs]. revert s H0 Hs. apply (natlike_ind (fun s => s < count ->
      on_at demand s = true -> exists f l, (f, l) ∈ runs_before count /\ f <= s <= l)).
    + intros Hs Hon. assert (Hst : starts 0 = true) by (unfold starts; by rewrite Hon).
      destruct (run_end_spec fuel 0) as (He & _); [lia|lia|].
      exists 0, (run_end demand fuel count 0). split; [by apply elem_of_runs; split_and!; [lia..|done|done]|]. lia.
    + intros s H0 IH Hs Hon. destruct (starts (Z.succ s)) eqn:Hst.
      * destruct (run_end_spec fuel (Z.succ s)) as (He & _); [lia|lia|].
        exists (Z.succ s), (run_end demand fuel count (Z.succ s)). split; [by apply elem_of_runs; split_and!; [lia..|done|done]|]. lia.
      * unfold starts in Hst. rewrite Hon, (proj2 (Z.ltb_lt 0 _)) in Hst by lia.
        cbn [andb] in Hst. apply negb_false_iff in Hst.
        replace (Z.succ s - 1) with s in Hst by lia.
        destruct (IH ltac:(lia) Hst) as (f & l & Hin & Hfl). exists f, l.
        split; [done|]. apply elem_of_runs in Hin as (Hf & _ & ->).
        destruct (run_end_spec fuel f) as (He & _ & Hoff); [lia|lia|].
        destruct (decide (run_end demand fuel count f = s)) as [Heq|]; [|lia].
        rewrite Heq in Hoff. unfold Z.succ in *. rewrite Hoff in Hon by lia. done.
  - intros (f & l & Hin & Hfl). apply elem_of_runs in Hin as (Hf & Hst & ->).
    destruct (run_end_spec fuel f) as (He & Hon & _); [lia|lia|].
    destruct (decide (s = f)) as [->|]; [|apply Hon; lia].
    unfold starts in Hst. by apply andb_true_iff in Hst as [? _].
Qed.

Lemma runs_sorted k : 0 <= k -> StronglySorted (fun a b => a.1 < b.1) (runs_before k).
Proof.
  apply (natlike_ind (fun k => StronglySorted (fun a b => a.1 < b.1) (runs_before k)));
    [constructor|].
  intros m Hm IH. unfold Z.succ. rewrite runs_before_snoc by done.
  destruct (starts m); [|by rewrite app_nil_r].
  apply StronglySorted_app_2; [|done|repeat constructor].
  intros x y Hx ->%list_elem_of_singleton. unfold runs_before in Hx.
  apply list_elem_of_omap in Hx as (i & Hi%elem_of_seqZ & Hs).
  destruct (starts i); simplify_eq/=. lia.
Qed.
End describe_facts.

(** The text for a demand is "all off" when no section is on, and otherwise
    the number of sections that are on followed by their ranges, one-based
    and separated by commas: the ranges list exactly the sections that are
    on, in ascending order, and no two of them touch. The loops always end. *)
Theorem describe_section_demand_spec (demand : list bool) (numberOfSections : Z)
    (Hn : 0 <= numberOfSections) :
  let count := demand_count demand numberOfSections in
  let n := zlength (filter (fun i => on_at demand i = true) (seqZ 0 count)) in
  exists runs,
    describe_section_demand demand numberOfSections =
      (if n =? 0 then bytes_of_string "all off"
       else to_string n ++ bytes_of_string " on: " ++ render_runs runs) /\
    StronglySorted (fun a b => a.1 < b.1) runs /\
    (forall s, 0 <= s < count ->
       (on_at demand s = true <-> exists f l, (f, l) ∈ runs /\ f <= s <= l)) /\
    (forall f l, (f, l) ∈ runs -> 0 <= f <= l /\ l < count /\
       (0 < f -> on_at demand (f - 1) = false) /\
       (l + 1 < count -> on_at demand (l + 1) = false)).
Proof.
  intros count n. assert (Hc : 0 <= count).
  { unfold count, demand_count. pose proof (zlength_nonneg demand). case_match; lia. }
  exists (runs_before demand count count). split_and!.
  - unfold describe_section_demand. fold count.
    destruct (describe_loop demand count Hc) as (H1 & H2 & _).
    destruct (foldl _ _ _) as [onCount text]. cbn [fst snd] in *. by subst.
  - by apply runs_sorted.
  - intros s. apply runs_cover.
  - intros f l Hin. apply elem_of_runs in Hin as (Hf & Hst & ->).
    destruct (run_end_spec demand count (Z.to_nat count) f) as (He & _ & Hoff); [lia..|].
    split_and!; [lia..| |done]. intros Hf0. unfold starts in Hst.
    rewrite (proj2 (Z.ltb_lt 0 f) Hf0) in Hst. apply andb_true_iff in Hst as [_ Hst].
    by apply negb_true_iff in Hst.
Qed.

(** ** The warning *)

Section monitor.
(** One observation per check: the time and whether the implement was
    working without demand. *)
Implicit Types (obs : list (Z * bool)).

Definition monitor_state obs : option WorkingWithoutDemand :=
  foldl (fun w o => (monitor_step o.1 o.2 w).1) None obs.

(** The current uninterrupted spell began with observation [j], at [tj]. *)
Definition spell obs (j : nat) (tj : Z) : Prop :=
  obs !! j = Some (tj, true) /\
  (forall i t u, (j <= i)%nat -> obs !! i = Some (t, u) -> u = true) /\
  (forall i t, S i = j -> obs !! i = Some (t, true) -> False).

(** The clock neither goes back nor wraps while the list is recorded. *)
Definition clocked obs : Prop :=
  Forall (fun o => 0 <= o.1 < 4294967296) obs /\
  forall i j t u t' u', (i <= j)%nat -> obs !! i = Some (t, u) -> obs !! j = Some (t', u') ->
    t <= t'.

Lemma clocked_snoc_inv obs o : clocked (obs ++ [o]) -> clocked obs.
Proof.
  intros [Hr Hm]. split; [by apply Forall_app in Hr as [? _]|].
  intros i j t u t' u' Hij Hi Hj. apply (Hm i j t u t' u' Hij); by apply lookup_app_l_Some.
Qed.

Lemma monitor_state_snoc obs o :
  monitor_state (obs ++ [o]) = (monitor_step o.1 o.2 (monitor_state obs)).1.
Proof. unfold monitor_state. by rewrite foldl_app. Qed.

Lemma spell_snoc obs t j tj :
  spell (obs ++ [(t, true)]) j tj <->
  spell obs j tj \/
  (j = length obs /\ tj = t /\ forall i t', S i = length obs -> obs !! i = Some (t', true) -> False).
Proof.
  split.
  - intros (Hj & Hall & Hprev). destruct (decide (j = length obs)) as [->|Hne].
    + right. rewrite lookup_app_r, Nat.sub_diag in Hj by lia. simplify_eq/=.
      split_and!; [done|done|]. intros i t' Hi Hl. apply (Hprev i t' Hi).
      by apply lookup_app_l_Some.
    + left. assert (j < length obs)%nat.
      { apply lookup_lt_Some in Hj. rewrite length_app in Hj. simpl in Hj. lia. }
      rewrite lookup_app_l in Hj by done. split_and!; [done| |].
      * intros i t' u Hi Hl. eapply Hall; [done|]. by apply lookup_app_l_Some.
      * intros i t' Hi Hl. apply (Hprev i t' Hi). by apply lookup_app_l_Some.
  - intros [(Hj & Hall & Hprev)|(-> & -> & Hprev)].
    + split_and!; [by apply lookup_app_l_Some| |].
      * intros i t' u Hi [Hl|[_ Hl]]%lookup_app_Some; [by eapply Hall|].
        destruct (i - length obs)%nat; by simplify_eq/=.
      * intros i t' Hi Hl. apply (Hprev i t' Hi). apply lookup_lt_Some in Hj.
        rewrite lookup_app_l in Hl by lia. done.
    + split_and!.
      * by rewrite lookup_app_r, Nat.sub_diag.
      * intros i t' u Hi [Hl|[_ Hl]]%lookup_app_Some; [apply lookup_lt_Some in Hl; lia|].
        destruct (i - length obs)%nat; by simplify_eq/=.
      * intros i t' Hi Hl. rewrite lookup_app_l in Hl by lia. by eapply Hprev.
Qed.

Lemma no_spell_snoc obs t j tj : ~ spell (obs ++ [(t, false)]) j tj.
Proof.
  intros (Hj & Hall & _). pose proof (lookup_lt_Some _ _ _ Hj) as Hl.
  rewrite length_app in Hl. simpl in Hl.
  assert (false = true); [|done]. apply (Hall (length obs) t); [lia|].
  by rewrite lookup_app_r, Nat.sub_diag.
Qed.

Definition warning_due (t tj : Z) : Prop := WORKING_WITHOUT_DEMAND_WARNING_MS <= t - tj.

Lemma clock_since obs t j tj :
  clocked (obs ++ [(t, true)]) -> spell obs j tj -> u32 (t - tj) = t - tj.
Proof.
  intros [Hr Hm] [Hj _].
  assert (Hlast : (obs ++ [(t, true)]) !! length obs = Some (t, true))
    by (by rewrite lookup_app_r, Nat.sub_diag).
  pose proof (lookup_lt_Some _ _ _ Hj).
  apply (lookup_app_l_Some _ [(t, true)]) in Hj.
  pose proof (Hm j (length obs) _ _ _ _ ltac:(lia) Hj Hlast).
  pose proof (Forall_lookup_1 _ _ _ _ Hr Hlast) as Hr1.
  pose proof (Forall_lookup_1 _ _ _ _ Hr Hj) as Hr2. simpl in *. apply u32_id. width.
Qed.

Lemma spell_unique obs j1 j2 t1 t2 :
  spell obs j1 t1 -> spell obs j2 t2 -> j1 = j2 /\ t1 = t2.
Proof.
  assert (Hle : forall j1 j2 t1 t2, spell obs j1 t1 -> spell obs j2 t2 -> (j2 <= j1)%nat).
  { intros a b ta tb (Ha & Halla & Hpa) (Hb & Hallb & Hpb).
    destruct (decide (b <= a)%nat) as [|Hgt]; [done|exfalso].
    destruct b as [|b]; [lia|].
    destruct (lookup_lt_is_Some_2 obs b) as [[t u] Hl];
      [apply lookup_lt_Some in Hb; lia|].
    pose proof (Halla b t u ltac:(lia) Hl) as ->. by apply (Hpb b t). }
  intros Hs1 Hs2. assert (j1 = j2) as -> by (apply Nat.le_antisymm; eauto).
  destruct Hs1 as [H1 _], Hs2 as [H2 _]. split; [done|]. congruence.
Qed.

(** What the entry stands for. *)
(** A warning was due in a spell, one observation later. *)
Lemma warned_snoc obs t j since :
  (j < length obs)%nat ->
  (exists i t', (j <= i)%nat /\ (obs ++ [(t, true)]) !! i = Some (t', true) /\
     warning_due t' since) <->
  (exists i t', (j <= i)%nat /\ obs !! i = Some (t', true) /\ warning_due t' since) \/
  warning_due t since.
Proof.
  intros Hj. split.
  - intros (i & t' & Hi & [Hl|[Hge Hl]]%lookup_app_Some & Hd); [left; eauto|right].
    destruct (i - length obs)%nat; by simplify_eq/=.
  - intros [(i & t' & Hi & Hl & Hd)|Hd].
    + exists i, t'. split_and!; [done|by apply lookup_app_l_Some|done].
    + exists (length obs), t. split_and!; [lia|by rewrite lookup_app_r, Nat.sub_diag|done].
Qed.

(** A suffix of working observations belongs to a spell. *)
Lemma spell_of_suffix obs i k :
  (k <= i)%nat -> S i = length obs ->
  (forall m t u, (k <= m)%nat -> obs !! m = Some (t, u) -> u = true) ->
  exists j tj, spell obs j tj.
Proof.
  intros Hk Hi. induction k as [|k IHk]; intros Hall.
  - destruct (lookup_lt_is_Some_2 obs 0) as [[t0 u0] H0]; [lia|].
    pose proof (Hall 0%nat t0 u0 ltac:(lia) H0) as ->. exists 0%nat, t0.
    split_and!; [done| |lia]. intros m t2 u2 Hm. apply Hall. lia.
  - destruct (lookup_lt_is_Some_2 obs k) as [[tk uk] Hk']; [lia|]. destruct uk.
    + apply IHk; [lia|]. intros m t2 u2 Hm Hl2.
      destruct (decide (m = k)) as [->|]; [by simplify_eq|]. apply (Hall m t2); [lia|done].
    + destruct (lookup_lt_is_Some_2 obs (S k)) as [[t0 u0] H0]; [lia|].
      pose proof (Hall (S k) t0 u0 ltac:(lia) H0) as ->. exists (S k), t0.
      split_and!; [done| |].
      * intros m t2 u2 Hm. apply Hall. lia.
      * intros m t2 Hm Hl2. assert (m = k) as -> by lia. by simplify_eq.
Qed.

Lemma idle_before obs :
  (forall j tj, ~ spell obs j tj) ->
  forall i t, S i = length obs -> obs !! i = Some (t, true) -> False.
Proof.
  intros Hno i t Hi Hl. destruct (spell_of_suffix obs i i) as (j & tj & Hsp); try done.
  - intros m t2 u2 Hm Hl2. pose proof (lookup_lt_Some _ _ _ Hl2).
    assert (m = i) as -> by lia. by simplify_eq.
  - by apply (Hno j tj).
Qed.

Lemma monitor_state_spec obs :
  clocked obs ->
  match monitor_state obs with
  | None => forall j tj, ~ spell obs j tj
  | Some w => exists j, spell obs j (sinceMs w) /\
      (warned w = true <-> exists i t, (j <= i)%nat /\ obs !! i = Some (t, true) /\
                                       warning_due t (sinceMs w))
  end.
Proof.
  induction obs as [|[t u] obs IH] using rev_ind; intros Hc.
  { simpl. intros j tj (Hj & _). done. }
  specialize (IH (clocked_snoc_inv _ _ Hc)). rewrite monitor_state_snoc. cbn [fst snd].
  unfold monitor_step. destruct u; cbn [negb fst]; [|intros j tj; apply no_spell_snoc].
  assert (Hlast : (obs ++ [(t, true)]) !! length obs = Some (t, true))
    by (by rewrite lookup_app_r, Nat.sub_diag).
  destruct (monitor_state obs) as [[since warned_]|]; cbn [from_option id sinceMs warned] in *.
  - destruct IH as (j & Hsp & Hw). cbn [sinceMs warned] in *.
    assert (Hsp' : spell (obs ++ [(t, true)]) j since) by (apply spell_snoc; by left).
    assert (Hj : (j < length obs)%nat) by (destruct Hsp as [Hj _]; by apply lookup_lt_Some in Hj).
    rewrite (clock_since obs t j) by done.
    pose proof (warned_snoc obs t j since Hj) as Hsnoc. rewrite <- Hw in Hsnoc.
    unfold warning_due in Hsnoc at 2.
    destruct warned_; cbn [negb andb fst].
    + exists j. cbn [sinceMs warned]. split; [done|]. rewrite Hsnoc. tauto.
    + destruct (Z.leb_spec WORKING_WITHOUT_DEMAND_WARNING_MS (t - since)) as [Hd|Hd];
        cbn [fst]; exists j; cbn [sinceMs warned]; (split; [done|]); rewrite Hsnoc.
      * tauto.
      * split; [done|]. intros [?|?]; [done|lia].
  - rewrite Z.sub_diag. cbn [negb andb fst].
    change (WORKING_WITHOUT_DEMAND_WARNING_MS <=? u32 0) with false. cbn [fst].
    pose proof (idle_before obs IH) as Hprev.
    exists (length obs). cbn [sinceMs warned]. split.
    + apply spell_snoc. right. split_and!; [done|done|]. intros i t' Hi. by apply Hprev.
    + split; [done|]. intros (i & t' & Hi & [Hl|[Hge Hl]]%lookup_app_Some & Hd).
      * apply lookup_lt_Some in Hl. lia.
      * destruct (i - length obs)%nat; simplify_eq/=. unfold warning_due in Hd.
        unfold WORKING_WITHOUT_DEMAND_WARNING_MS in Hd. lia.
Qed.

(** C37: over any sequence of checks, the operator is warned at a check exactly
    when the implement has been working without demand at every check of an
    uninterrupted spell that began at least ten seconds ago, and was not yet
    due at an earlier check of this spell: once per spell, no sooner. *)
Theorem warning_once_per_spell obs (t : Z) (u : bool) (Hc : clocked (obs ++ [(t, u)])) :
  (monitor_step t u (monitor_state obs)).2 = true <->
  exists j tj, spell (obs ++ [(t, u)]) j tj /\ warning_due t tj /\
    forall i t', (j <= i)%nat -> obs !! i = Some (t', true) -> ~ warning_due t' tj.
Proof.
  pose proof (monitor_state_spec obs (clocked_snoc_inv _ _ Hc)) as Hst.
  unfold monitor_step. destruct u; cbn [negb snd].
  2: { split; [done|]. intros (j & tj & Hsp & _). by apply no_spell_snoc in Hsp. }
  setoid_rewrite spell_snoc.
  destruct (monitor_state obs) as [[since warned_]|]; cbn [from_option id sinceMs warned] in *.
  - destruct Hst as (j & Hsp & Hw). rewrite (clock_since obs t j) by done.
    assert (Hdue : WORKING_WITHOUT_DEMAND_WARNING_MS <=? t - since = true <->
      warning_due t since) by (unfold warning_due; apply Z.leb_le).
    destruct warned_; cbn [negb andb].
    + split; [done|]. intros (j' & tj & [Hsp'|(-> & -> & Hno)] & Hd & Hnot).
      * destruct (spell_unique obs j j' since tj Hsp Hsp') as [<- <-].
        destruct (proj1 Hw eq_refl) as (i & t' & Hi & Hl & Hd'). by destruct (Hnot i t' Hi Hl).
      * unfold warning_due, WORKING_WITHOUT_DEMAND_WARNING_MS in Hd. lia.
    + destruct (WORKING_WITHOUT_DEMAND_WARNING_MS <=? t - since) eqn:E; cbn [snd].
      * split; [intros _|done]. exists j, since. split_and!; [by left|by apply Hdue|].
        intros i t' Hi Hl Hd. assert (false = true); [|done]. apply Hw. eauto.
      * split; [done|]. intros (j' & tj & [Hsp'|(-> & -> & Hno)] & Hd & Hnot).
        -- destruct (spell_unique obs j j' since tj Hsp Hsp') as [<- <-]. by apply Hdue in Hd.
        -- unfold warning_due, WORKING_WITHOUT_DEMAND_WARNING_MS in Hd. lia.
  - rewrite Z.sub_diag. change (WORKING_WITHOUT_DEMAND_WARNING_MS <=? u32 0) with false.
    cbn [negb andb snd]. split; [done|].
    intros (j' & tj & [Hsp'|(-> & -> & Hno)] & Hd & Hnot); [by apply Hst in Hsp'|].
    unfold warning_due, WORKING_WITHOUT_DEMAND_WARNING_MS in Hd. lia.
Qed.
End monitor.

(** ** The loop over the clients *)

Lemma client_order_NoDup `{DdopApi} (m : gmap Z ClientState) : NoDup (client_order m).
Proof. unfold client_order. rewrite merge_sort_Permutation. apply NoDup_elements. Qed.

Lemma elem_of_client_order `{DdopApi} (m : gmap Z ClientState) c :
  c ∈ client_order m <-> is_Some (m !! c).
Proof.
  unfold client_order. rewrite merge_sort_Permutation, elem_of_elements. apply elem_of_dom.
Qed.

Section check_facts.
Context `{DdopApi} `{Timing} (full_name : Z -> Z).
Context (nowMs : Z) (arriving : bool) (demand : list bool) (m : gmap Z ClientState).

Definition client_warned (w0 : gmap Z WorkingWithoutDemand) (c : Z) : bool :=
  match m !! c with
  | Some st => (monitor_step nowMs (unattended arriving demand st) (w0 !! full_name c)).2
  | None => false
  end.

Lemma check_clients_spec (l : list Z) (w0 : gmap Z WorkingWithoutDemand) outs :
  NoDup (full_name <$> l) -> Forall (fun c => is_Some (m !! c)) l ->
  let r := foldl (check_client full_name nowMs arriving demand m) (w0, outs) l in
  (forall c st, c ∈ l -> m !! c = Some st ->
     r.1 !! full_name c =
     (monitor_step nowMs (unattended arriving demand st) (w0 !! full_name c)).1) /\
  (forall name, (forall c, c ∈ l -> full_name c <> name) -> r.1 !! name = w0 !! name) /\
  r.2 = outs ++ concat ((fun c => if client_warned w0 c
                           then send_hardware_message (warning_text arriving) 20 HW_MSG_ALERT
                           else []) <$> l).
Proof.
  revert w0 outs. induction l as [|c l IH]; intros w0 outs Hnd Hall.
  { cbn. rewrite app_nil_r. split_and!; [set_solver|done|done]. }
  apply Forall_cons in Hall as [[st Hst] Hall].
  rewrite fmap_cons in Hnd. apply NoDup_cons in Hnd as [Hc Hnd].
  cbn [foldl]. unfold check_client at 2 4 6. rewrite Hst. cbn [fst snd].
  destruct (monitor_step nowMs (unattended arriving demand st) (w0 !! full_name c))
    as [w warn] eqn:Em.
  destruct (IH (partial_alter (fun _ => w) (full_name c) w0)
    (outs ++ (if warn then send_hardware_message (warning_text arriving) 20 HW_MSG_ALERT
              else [])) Hnd Hall) as (H1 & H2 & H3).
  assert (Hne : forall c', c' ∈ l -> full_name c' <> full_name c).
  { intros c' Hc' Heq. apply Hc. rewrite <- Heq. by apply list_elem_of_fmap_2. }
  split_and!.
  - intros c' st' [->|Hc']%elem_of_cons Hst'.
    + simplify_eq. rewrite H2, lookup_partial_alter_eq by done. by rewrite Em.
    + rewrite (H1 c' st') by done. by rewrite lookup_partial_alter_ne by (intros ?; by apply (Hne c')).
  - intros name Hname. rewrite H2 by (intros; apply Hname; by right).
    apply lookup_partial_alter_ne. apply Hname. left.
  - rewrite H3, <- app_assoc. f_equal. rewrite fmap_cons. cbn [concat].
    f_equal; [unfold client_warned; by rewrite Hst, Em|].
    f_equal. apply list_fmap_ext. intros i c' Hc'. apply list_elem_of_lookup_2 in Hc'.
    unfold client_warned. destruct (m !! c'); [|done].
    by rewrite lookup_partial_alter_ne by (intros ?; by apply (Hne c')).
Qed.
End check_facts.

Section check_claim.
Context `{DdopApi} `{Timing}.

(** One check moves every registered client's entry by exactly one step
    of the warning automaton, fed with whether the client is in automatic,
    has a section working and has no section demanded by packets that are
    still arriving; it sends one operator message per warning and nothing
    else; and it leaves the entries of clients that are gone untouched. *)
Theorem check_section_demand_spec (full_name : Z -> Z) (now_ : Z) (a : Aog)
    (w : gmap Z WorkingWithoutDemand)
    (Hinj : forall c1 c2, full_name c1 = full_name c2 -> c1 = c2) :
  let m := clients (tcServer a) in
  let arriving := demand_arriving now_ a in
  let r := check_section_demand full_name now_ a w in
  (forall c st, m !! c = Some st ->
     r.1 !! full_name c =
     (monitor_step now_ (unattended arriving (sectionDemand a) st) (w !! full_name c)).1) /\
  (forall name, (forall c, is_Some (m !! c) -> full_name c <> name) ->
     r.1 !! name = w !! name) /\
  r.2 = concat ((fun _ => [UdpSend 128 221 ([20; 0] ++ warning_text arriving)]) <$>
    filter (fun c => client_warned full_name now_ arriving (sectionDemand a) m w c = true)
      (client_order m)).
Proof.
  intros m arriving r.
  assert (Hnd : NoDup (full_name <$> client_order m)).
  { apply NoDup_fmap_2; [done|apply client_order_NoDup]. }
  destruct (check_clients_spec full_name now_ arriving (sectionDemand a) m (client_order m)
    w [] Hnd) as (H1 & H2 & H3).
  { apply Forall_forall. intros c. apply elem_of_client_order. }
  split_and!.
  - intros c st Hc. apply H1; [|done]. apply elem_of_client_order. by exists st.
  - intros name Hname. apply H2. intros c Hc%elem_of_client_order. by apply Hname.
  - unfold r, check_section_demand. fold m arriving. rewrite H3. cbn [app].
    clear H1 H2 H3 Hnd. induction (client_order m) as [|c l IH]; [done|].
    rewrite fmap_cons, filter_cons. cbn [concat]. rewrite IH.
    destruct (client_warned _ _ _ _ _ _ c) eqn:E;
      [rewrite decide_True by done|rewrite decide_False by done; done].
    rewrite fmap_cons. cbn [concat]. f_equal.
    by destruct arriving.
Qed.
End check_claim.
