(* ===== verification/Network.v ===== *)
(** * Implements and control functions (src/app.cpp lines 96-153, 868-948)

    What several parts of the application derive from the bus: the details of
    an implement, from its pool, and whether another task controller holds the
    preferred address. Constants of the CAN stack and the printing of decimal
    fractions are in the class [Platform]. Of the conflict check this file
    has the answer; LogTexts.v has the log with the static variables that pace
    it. *)

From S2P Require Import Prelude Ddop Hierarchy ClientState TcServer.

Class Platform := {
  (** [get_time_elapsed_ms (since)] at time [now] *)
  time_elapsed_ms : Z -> Z -> Z;
  PREFERRED_TC_ADDRESS : Z;
  (** [NAME::Function::TaskController] *)
  TaskControllerFunction : Z;
  (** millimetres as metres with two decimals; the same with a sign; a
      distance in metres and in kilometres *)
  format_metres : Z -> list Z;
  format_signed_metres : Z -> list Z;
  format_m : Z -> list Z;
  format_km : Z -> list Z
}.

(** ** Control functions *)

(** A control function on the bus: its handle, its address if that is valid,
    and what is read of its NAME. *)
Record ControlFunction := {
  cf_handle : Z;
  cf_address : option Z;
  function_code : Z;
  manufacturer_code : Z;
  identity_number : Z
}.

(** Our own control function and the entries of [get_control_functions] that
    are not null. *)
Record Network := {
  tcCF : option ControlFunction;
  control_functions : list ControlFunction
}.

Definition tc_address (net : Network) : option Z :=
  match tcCF net with Some cf => cf_address cf | None => None end.

Section network.
Context `{DdopApi} `{Platform}.

Definition have_preferred_address (net : Network) : bool :=
  match tc_address net with Some address => address =? PREFERRED_TC_ADDRESS | None => false end.

(** Another task controller at the preferred address. *)
Definition conflicting (our cf : ControlFunction) : bool :=
  match cf_address cf with
  | Some address =>
      (address =? PREFERRED_TC_ADDRESS) && negb (cf_handle cf =? cf_handle our) &&
      (function_code cf =? TaskControllerFunction)
  | None => false
  end.

Definition check_tc_address_conflict (net : Network) : bool :=
  match tcCF net with
  | Some our => negb (have_preferred_address net) && existsb (conflicting our) (control_functions net)
  | None => false
  end.

(** ** Implements *)

Record ImplementDetails := {
  details_displayName : list Z;
  details_sections : Z;
  details_widthText : list Z;
  boomOffsetText : list Z
}.

Definition boom_offset_text (p : pool) : list Z :=
  match booms (get_implement_geometry p) with
  | boom :: _ =>
      match boom_xOffset_mm boom, boom_yOffset_mm boom with
      | None, None => []
      | x, y =>
          bytes_of_string "X:"
          ++ (match x with Some x => format_signed_metres x | None => bytes_of_string "n/a" end)
          ++ bytes_of_string " Y:"
          ++ (match y with Some y => format_signed_metres y | None => bytes_of_string "n/a" end)
      end
  | [] => []
  end.

Definition sum_widths (total : Z) (ss : list Section_) : Z :=
  foldl (fun total s => match section_width_mm s with
                        | Some w => i32 (total + w)
                        | None => total
                        end) total ss.

Definition sub_boom_width (total : Z) (sb : SubBoom) : Z :=
  let total := match subBoom_sections sb, subBoom_width_mm sb with
               | [], Some w => i32 (total + w)
               | _, _ => total
               end in
  sum_widths total (subBoom_sections sb).

Definition boom_width (total : Z) (b : Boom) : Z :=
  foldl sub_boom_width (sum_widths total (boom_sections b)) (boom_subBooms b).

Definition derive_implement_details (st : ClientState) : ImplementDetails :=
  let p := get_pool st in
  let totalWidthMillimetres := foldl boom_width 0 (booms (get_implement_geometry p)) in
  {| details_displayName :=
       match get_designator <$> get_object_by_index p 0 with
       | Some (c :: designator) => c :: designator
       | _ => bytes_of_string "No implement"
       end;
     details_sections := get_number_of_sections st;
     details_widthText :=
       if 0 <? totalWidthMillimetres then format_metres totalWidthMillimetres else [];
     boomOffsetText := boom_offset_text p |}.
End network.
