(* ===== verification/VtObjects.v ===== *)
(** * The objects of the terminal (resources/AOG_TC.iop.h)

    The header that the designer of the object pool writes: the sizes of the
    masks and the identifier of every object. The program uses some of the
    identifiers; the others are objects of the pool that it leaves as they
    are. *)

From S2P Require Import Prelude.

(** ** Sizes *)

Definition ISO_DESIGNATOR_WIDTH : Z := 160.
Definition ISO_DESIGNATOR_HEIGHT : Z := 80.
Definition ISO_MASK_SIZE : Z := 480.
Definition MASK_WIDTH : Z := 480.
Definition MASK_HEIGHT : Z := 480.

(** ** Object identifiers *)

Definition WorkingSet_0 : Z := 0.
Definition DataMask_1000 : Z := 1000.
Definition DataMask_Config : Z := 1001.
Definition DataMask_Network : Z := 1002.
Definition DataMask_Implement : Z := 1003.
Definition DataMask_Diagnostics : Z := 1004.
Definition MainPageSoftKeys : Z := 4000.
Definition ListActiveControlFunctions : Z := 5000.
Definition ListImplementSize : Z := 5001.
Definition NavStatus : Z := 5002.
Definition NavNetwork : Z := 5003.
Definition NavImplement : Z := 5004.
Definition NavDiagnostics : Z := 5005.
Definition NavConfig : Z := 5006.
Definition VTControlFunctionsStr : Z := 8000.
Definition InputList_10000 : Z := 10000.
Definition ConfigHydliftAuxN : Z := 10001.
Definition ConfigNmeaRead : Z := 10002.
Definition ConfigNmeaSend : Z := 10003.
Definition ConfigTecuEnabled : Z := 10004.
Definition VTWorkingSetStatusStr : Z := 11000.
Definition VTWorkingSetStatusLabel : Z := 11001.
Definition VTSpeedLabel : Z := 11002.
Definition VTXteLabel : Z := 11003.
Definition VTSectionsFromAOGS : Z := 11004.
Definition VTAogIPStr : Z := 11005.
Definition VTSectionsFromAOGLabel : Z := 11006.
Definition VTControlFunctionsLabel : Z := 11007.
Definition DMConfigLabel : Z := 11008.
Definition OutputString_11009 : Z := 11009.
Definition OutputString_11010 : Z := 11010.
Definition OutputString_11011 : Z := 11011.
Definition StrLSendNMEA : Z := 11012.
Definition StrLReadNMEA : Z := 11013.
Definition NetworkTitle : Z := 11100.
Definition NetworkConnectedLabel : Z := 11101.
Definition NetworkConnectedValue : Z := 11102.
Definition NetworkTableHeader : Z := 11103.
Definition NetworkRows : Z := 11104.
Definition NetworkHint : Z := 11105.
Definition ImplementTitle : Z := 11200.
Definition ImplementLabels : Z := 11201.
Definition ImplementActiveDDOP : Z := 11202.
Definition ImplementSectionControl : Z := 11203.
Definition ImplementWorkingWidth : Z := 11204.
Definition ImplementSectionMap : Z := 11205.
Definition ImplementSectionCount : Z := 11206.
Definition ImplementHint : Z := 11207.
Definition ImplementBoomOffsetLabel : Z := 11208.
Definition ImplementBoomOffset : Z := 11209.
Definition DiagnosticsTitle : Z := 11300.
Definition DiagnosticsLabels : Z := 11301.
Definition DiagnosticsValues : Z := 11302.
Definition DiagnosticsAlarmHeader : Z := 11303.
Definition DiagnosticsAlarmValue : Z := 11304.
Definition DiagnosticsLastPacket : Z := 11305.
Definition DiagnosticsTcAddress : Z := 11306.
Definition DiagnosticsTaskState : Z := 11307.
Definition DiagnosticsActiveDDOP : Z := 11308.
Definition DiagnosticsTcClients : Z := 11309.
Definition NavLabelStatus : Z := 11400.
Definition NavLabelNetwork : Z := 11401.
Definition NavLabelImplement : Z := 11402.
Definition NavLabelDiagnostics : Z := 11403.
Definition NavLabelConfig : Z := 11404.
Definition ConfigTitle : Z := 11500.
Definition ConfigHydliftLabel : Z := 11501.
Definition ConfigNmeaReadLabel : Z := 11502.
Definition ConfigNmeaSendLabel : Z := 11503.
Definition ConfigTecuLabel : Z := 11504.
Definition ConfigHint : Z := 11505.
Definition ConfigOptionOff : Z := 11506.
Definition ConfigOptionOn : Z := 11507.
Definition VTSpeedValue : Z := 12000.
Definition VTXteValue : Z := 12001.
Definition icon_60x60_4bit_20000 : Z := 20000.
Definition agopen_80x80_20001 : Z := 20001.
Definition implement_measure_orange_60x60_20002 : Z := 20002.
Definition NavStatusImage : Z := 20010.
Definition NavNetworkImage : Z := 20011.
Definition NavImplementImage : Z := 20012.
Definition NavDiagnosticsImage : Z := 20013.
Definition NavConfigImage : Z := 20014.
Definition FontAttributes_23000 : Z := 23000.
Definition FontAttributes_23001 : Z := 23001.
Definition FontAttributes_23002 : Z := 23002.
Definition FontAttributes_23003 : Z := 23003.
Definition FontAttributes_23004 : Z := 23004.

(** In the order of the header. *)
Definition object_ids : list Z :=
  [WorkingSet_0; DataMask_1000; DataMask_Config; DataMask_Network; DataMask_Implement;
   DataMask_Diagnostics; MainPageSoftKeys; ListActiveControlFunctions; ListImplementSize;
   NavStatus; NavNetwork; NavImplement; NavDiagnostics; NavConfig; VTControlFunctionsStr;
   InputList_10000; ConfigHydliftAuxN; ConfigNmeaRead; ConfigNmeaSend; ConfigTecuEnabled;
   VTWorkingSetStatusStr; VTWorkingSetStatusLabel; VTSpeedLabel; VTXteLabel; VTSectionsFromAOGS;
   VTAogIPStr; VTSectionsFromAOGLabel; VTControlFunctionsLabel; DMConfigLabel; OutputString_11009;
   OutputString_11010; OutputString_11011; StrLSendNMEA; StrLReadNMEA; NetworkTitle;
   NetworkConnectedLabel; NetworkConnectedValue; NetworkTableHeader; NetworkRows; NetworkHint;
   ImplementTitle; ImplementLabels; ImplementActiveDDOP; ImplementSectionControl;
   ImplementWorkingWidth; ImplementSectionMap; ImplementSectionCount; ImplementHint;
   ImplementBoomOffsetLabel; ImplementBoomOffset; DiagnosticsTitle; DiagnosticsLabels;
   DiagnosticsValues; DiagnosticsAlarmHeader; DiagnosticsAlarmValue; DiagnosticsLastPacket;
   DiagnosticsTcAddress; DiagnosticsTaskState; DiagnosticsActiveDDOP; DiagnosticsTcClients;
   NavLabelStatus; NavLabelNetwork; NavLabelImplement; NavLabelDiagnostics; NavLabelConfig;
   ConfigTitle; ConfigHydliftLabel; ConfigNmeaReadLabel; ConfigNmeaSendLabel; ConfigTecuLabel;
   ConfigHint; ConfigOptionOff; ConfigOptionOn; VTSpeedValue; VTXteValue; icon_60x60_4bit_20000;
   agopen_80x80_20001; implement_measure_orange_60x60_20002; NavStatusImage; NavNetworkImage;
   NavImplementImage; NavDiagnosticsImage; NavConfigImage; FontAttributes_23000;
   FontAttributes_23001; FontAttributes_23002; FontAttributes_23003; FontAttributes_23004].

(** No identifier names two objects, and none is 65535, which stands for no
    object on the terminal. *)
Lemma object_ids_distinct : NoDup object_ids /\ Forall (fun i => 0 <= i < 65535) object_ids.
Proof.
  split; [apply (bool_decide_unpack _); vm_compute; exact I|].
  repeat constructor; vm_compute; congruence.
Qed.
