(* ===== verification/Vt.v ===== *)
(** * The virtual terminal client (src/app.cpp lines 1120-1573)

    The operator sees the task controller on a virtual terminal (VT). The
    library's [VirtualTerminalClient] does the protocol; the application
    starts it when a terminal appears, follows its connection state, keeps
    the strings and numbers of the object pool up to date, and handles the
    soft keys and the two configuration switches.

    The calls of the library are outputs ([vt_out] in PacketHandler.v); what the library reports
    is in [VtEnv]. Object identifiers are those of VtObjects.v. Of
    the log only the two messages that are paced by state are kept, without
    their text. *)

From S2P Require Import Prelude Ddop Hierarchy ClientState TcServer Settings.
From S2P Require Import Udp PacketHandler Network VtObjects.

(** ** The state and its surroundings *)

Record VtState := {
  vtClientStarted : bool;
  vtConfigSynced : bool;
  vtWasConnected : bool;
  vtConnectionWarningLogged : bool;
  vtCapabilitiesLogged : bool;
  vtDisconnectedSinceMs : Z;
  lastVtStatusUpdateMs : Z;
  lastVtSectionUpdateMs : Z;
  lastVtStrings : gmap Z (list Z)
}.

Definition with_vtClientStarted (x : bool) (a : VtState) : VtState :=
  Build_VtState x (vtConfigSynced a) (vtWasConnected a) (vtConnectionWarningLogged a)
    (vtCapabilitiesLogged a) (vtDisconnectedSinceMs a) (lastVtStatusUpdateMs a)
    (lastVtSectionUpdateMs a) (lastVtStrings a).

Definition with_vtConfigSynced (x : bool) (a : VtState) : VtState :=
  Build_VtState (vtClientStarted a) x (vtWasConnected a)
    (vtConnectionWarningLogged a) (vtCapabilitiesLogged a) (vtDisconnectedSinceMs a)
    (lastVtStatusUpdateMs a) (lastVtSectionUpdateMs a) (lastVtStrings a).

Definition with_vtWasConnected (x : bool) (a : VtState) : VtState :=
  Build_VtState (vtClientStarted a) (vtConfigSynced a) x
    (vtConnectionWarningLogged a) (vtCapabilitiesLogged a) (vtDisconnectedSinceMs a)
    (lastVtStatusUpdateMs a) (lastVtSectionUpdateMs a) (lastVtStrings a).

Definition with_vtConnectionWarningLogged (x : bool) (a : VtState) : VtState :=
  Build_VtState (vtClientStarted a) (vtConfigSynced a) (vtWasConnected a) x
    (vtCapabilitiesLogged a) (vtDisconnectedSinceMs a) (lastVtStatusUpdateMs a)
    (lastVtSectionUpdateMs a) (lastVtStrings a).

Definition with_vtCapabilitiesLogged (x : bool) (a : VtState) : VtState :=
  Build_VtState (vtClientStarted a) (vtConfigSynced a) (vtWasConnected a)
    (vtConnectionWarningLogged a) x (vtDisconnectedSinceMs a)
    (lastVtStatusUpdateMs a) (lastVtSectionUpdateMs a) (lastVtStrings a).

Definition with_vtDisconnectedSinceMs (x : Z) (a : VtState) : VtState :=
  Build_VtState (vtClientStarted a) (vtConfigSynced a) (vtWasConnected a)
    (vtConnectionWarningLogged a) (vtCapabilitiesLogged a) x (lastVtStatusUpdateMs a)
    (lastVtSectionUpdateMs a) (lastVtStrings a).

Definition with_lastVtStatusUpdateMs (x : Z) (a : VtState) : VtState :=
  Build_VtState (vtClientStarted a) (vtConfigSynced a) (vtWasConnected a)
    (vtConnectionWarningLogged a) (vtCapabilitiesLogged a) (vtDisconnectedSinceMs a)
    x (lastVtSectionUpdateMs a) (lastVtStrings a).

Definition with_lastVtSectionUpdateMs (x : Z) (a : VtState) : VtState :=
  Build_VtState (vtClientStarted a) (vtConfigSynced a) (vtWasConnected a)
    (vtConnectionWarningLogged a) (vtCapabilitiesLogged a) (vtDisconnectedSinceMs a)
    (lastVtStatusUpdateMs a) x (lastVtStrings a).

Definition with_lastVtStrings (x : gmap Z (list Z)) (a : VtState) : VtState :=
  Build_VtState (vtClientStarted a) (vtConfigSynced a) (vtWasConnected a)
    (vtConnectionWarningLogged a) (vtCapabilitiesLogged a) (vtDisconnectedSinceMs a)
    (lastVtStatusUpdateMs a) (lastVtSectionUpdateMs a) x.

Definition initial_vt : VtState := {|
  vtClientStarted := false; vtConfigSynced := false; vtWasConnected := false;
  vtConnectionWarningLogged := false; vtCapabilitiesLogged := false;
  vtDisconnectedSinceMs := 0; lastVtStatusUpdateMs := 0; lastVtSectionUpdateMs := 0;
  lastVtStrings := ∅ |}.

Record VtEnv := {
  vt_now : Z;
  partner_online : bool;
  vt_is_connected : bool;
  has_update_helper : bool;
  has_nmea2000 : bool;
  task_totals_active : bool;
  bound_ip_address : list Z;
  network : Network
}.

Definition with_bound_ip_address (x : list Z) (env : VtEnv) : VtEnv := {|
  vt_now := vt_now env;
  partner_online := partner_online env;
  vt_is_connected := vt_is_connected env;
  has_update_helper := has_update_helper env;
  has_nmea2000 := has_nmea2000 env;
  task_totals_active := task_totals_active env;
  bound_ip_address := x;
  network := network env
|}.

(** ** Formatting *)

Definition hex_upper (d : Z) : Z := if d <? 10 then 48 + d else 55 + d.

Definition format_hex_address (address : Z) : list Z :=
  bytes_of_string "0x" ++ [hex_upper (address / 16); hex_upper (address mod 16)].

(** [std::left << std::setw (n)]. *)
Definition pad_right (n : nat) (text : list Z) : list Z :=
  text ++ replicate (n - length text) 32.

(** ** Strings *)

Definition send_vt_string_if_changed (objectID : Z) (value : list Z)
    (acc : VtState * list vt_out) : VtState * list vt_out :=
  let '(vt, outs) := acc in
  if decide (lastVtStrings vt !! objectID = Some value) then acc
  else (with_lastVtStrings (<[objectID := value]> (lastVtStrings vt)) vt,
        outs ++ [SendString objectID value]).

Definition send_strings (strings : list (Z * list Z)) (acc : VtState * list vt_out)
    : VtState * list vt_out :=
  foldl (fun acc s => send_vt_string_if_changed s.1 s.2 acc) acc strings.

Section vt.
Context `{DdopApi} `{Timing} `{Platform}.

(** ** The section map *)

Definition section_map_step (st : ClientState) (text : list Z) (section : Z) : list Z :=
  text
  ++ (if section =? 0 then [] else [if section mod 16 =? 0 then 10 else 32])
  ++ [if get_section_actual_state section st =? ON then 49 else 48].

Definition section_map (m : gmap Z ClientState) : list Z :=
  match client_order m with
  | c :: _ =>
      match m !! c with
      | Some st =>
          let sectionCount := Z.min (get_number_of_sections st) 64 in
          if 0 <? sectionCount
          then foldl (section_map_step st) [] (seqZ 0 sectionCount)
          else bytes_of_string "No sections connected"
      | None => bytes_of_string "No sections connected"
      end
  | [] => bytes_of_string "No sections connected"
  end.

Definition update_vt_section_map (env : VtEnv) (m : gmap Z ClientState)
    (acc : VtState * list vt_out) : VtState * list vt_out :=
  if time_expired_ms (vt_now env) (lastVtSectionUpdateMs acc.1) 100 then
    let '(vt, outs) := send_vt_string_if_changed ImplementSectionMap (section_map m) acc in
    (with_lastVtSectionUpdateMs (vt_now env) vt, outs)
  else acc.

(** ** The connection *)

Definition try_start_vt_client (env : VtEnv) (vt : VtState) : VtState * list vt_out :=
  if partner_online env
  then (with_vtDisconnectedSinceMs (vt_now env) (with_vtClientStarted true vt), [Initialize])
  else (vt, []).

Definition handle_vt_disconnected (env : VtEnv) (vt : VtState) : VtState * list vt_out :=
  let vt :=
    if vtWasConnected vt
    then with_vtCapabilitiesLogged false
           (with_vtConnectionWarningLogged false
              (with_vtDisconnectedSinceMs (vt_now env) vt))
    else if vtDisconnectedSinceMs vt =? 0
    then with_vtDisconnectedSinceMs (vt_now env) vt
    else vt in
  let vt := with_vtWasConnected false vt in
  let '(vt, outs) :=
    if negb (vtConnectionWarningLogged vt) &&
       time_expired_ms (vt_now env) (vtDisconnectedSinceMs vt) 30000
    then (with_vtConnectionWarningLogged true vt, [LogNotConnected])
    else (vt, []) in
  (with_vtConfigSynced false (with_lastVtStrings ∅ vt), outs).

Definition log_vt_capabilities_once (acc : VtState * list vt_out) : VtState * list vt_out :=
  if vtCapabilitiesLogged acc.1 then acc
  else (with_vtCapabilitiesLogged true acc.1, acc.2 ++ [LogCapabilities]).

Definition flag (b : bool) : Z := if b then 1 else 0.

Definition config_messages (env : VtEnv) (s : Settings) : list vt_out :=
  [SendEnable ConfigHydliftAuxN false; SendEnable ConfigNmeaRead false;
   SendEnable ConfigNmeaSend (has_nmea2000 env);
   SendNumeric ConfigNmeaSend (flag (is_nmea_send_enabled s));
   SendNumeric ConfigTecuEnabled (flag (is_tecu_enabled s))].

Definition sync_vt_config_once (env : VtEnv) (s : Settings) (acc : VtState * list vt_out)
    : VtState * list vt_out :=
  if vtConfigSynced acc.1 then acc
  else (with_vtConfigSynced true acc.1, acc.2 ++ config_messages env s).

(** ** The status strings *)

(** The first client, whose implement the display shows. *)
Definition first_client (m : gmap Z ClientState) : option ClientState :=
  match client_order m with c :: _ => m !! c | [] => None end.

Definition or_text (text instead : list Z) : list Z :=
  match text with [] => instead | _ => text end.

Definition total_sections (m : gmap Z ClientState) : Z :=
  foldl (fun total c => match m !! c with
                        | Some st => u32 (total + get_number_of_sections st)
                        | None => total
                        end) 0 (client_order m).

Definition packet_age (env : VtEnv) (a : Aog) : list Z :=
  if lastAogPacketMs a =? 0 then bytes_of_string "never"
  else to_string (time_elapsed_ms (vt_now env) (lastAogPacketMs a) / 1000)
       ++ bytes_of_string " s".

Definition distance_text (a : Aog) : list Z :=
  if lastDistanceMm a <? 1000000
  then format_m (lastDistanceMm a) ++ bytes_of_string " m"
  else format_km (lastDistanceMm a) ++ bytes_of_string " km".

Definition online (env : VtEnv) : list (ControlFunction * Z) :=
  omap (fun cf => match cf_address cf with
                  | Some address => Some (cf, address)
                  | None => None
                  end) (control_functions (network env)).

Definition network_row (m : gmap Z ClientState) (cf : ControlFunction * Z) : list Z :=
  pad_right 6 (format_hex_address cf.2) ++ pad_right 10 (to_string (function_code cf.1))
  ++ pad_right 6 (to_string (manufacturer_code cf.1))
  ++ pad_right 9 (to_string (identity_number cf.1))
  ++ to_string (match m !! cf_handle cf.1 with
                | Some st => get_number_of_sections st
                | None => 0
                end).

(** At most seven rows, separated by line feeds. *)
Fixpoint network_rows (m : gmap Z ClientState) (cfs : list (ControlFunction * Z)) : list Z :=
  match cfs with
  | [] => []
  | [cf] => network_row m cf
  | cf :: cfs => network_row m cf ++ [10] ++ network_rows m cfs
  end.

Definition on_off (b : bool) : list Z := bytes_of_string (if b then "ON" else "OFF").

Definition implement_name (m : gmap Z ClientState) : list Z :=
  take 16 (match first_client m with
           | Some st => details_displayName (derive_implement_details st)
           | None => bytes_of_string "No implement"
           end).

Definition section_control_text (m : gmap Z ClientState) : list Z :=
  bytes_of_string
    (match first_client m with
     | Some st => if is_section_control_enabled st then "ENABLED" else "DISABLED"
     | None => "DISABLED"
     end).

Definition main_implement_status (m : gmap Z ClientState) : list Z :=
  bytes_of_string "Name             " ++ implement_name m ++ [10]
  ++ bytes_of_string "Sections         " ++ to_string (total_sections m) ++ [10]
  ++ bytes_of_string "Section control  " ++ section_control_text m.

Definition main_system_status (env : VtEnv) (aogConnected : bool) (a : Aog) : list Z :=
  bytes_of_string "Control funcs    " ++ to_string (zlength (online env)) ++ [10]
  ++ bytes_of_string "Task state       "
  ++ bytes_of_string (if task_totals_active env then "RUNNING" else "STOPPED") ++ [10]
  ++ bytes_of_string "Direction        "
  ++ bytes_of_string (if negb aogConnected then "--"
                      else if lastSpeedValue a <? 0 then "REV" else "FWD") ++ [10]
  ++ bytes_of_string "Distance         " ++ distance_text a ++ [10]
  ++ bytes_of_string "AOG packet age   " ++ packet_age env a.

Definition alarm_text (env : VtEnv) (aogConnected : bool) (m : gmap Z ClientState) : list Z :=
  bytes_of_string
    (if negb (have_preferred_address (network env)) then
       match tc_address (network env) with
       | Some _ => "TC address conflict"
       | None => "TC address not claimed"
       end
     else if negb aogConnected then "AOG heartbeat missing"
     else match client_order m with
          | [] => "Waiting for implement"
          | _ => "No active alarms"
          end).

(** The strings in the order in which they are sent. *)
Definition status_strings (env : VtEnv) (aogConnected : bool) (s : Settings) (a : Aog)
    : list (Z * list Z) :=
  let m := clients (tcServer a) in
  let task := bytes_of_string (if task_totals_active env then "RUNNING" else "STOPPED") in
  [(VTWorkingSetStatusLabel, bytes_of_string "AOG IP");
   (VTAogIPStr, bound_ip_address env);
   (VTWorkingSetStatusStr,
    bytes_of_string (if negb (have_preferred_address (network env)) then "ADDR!"
                     else if aogConnected then "OK" else "OFF"));
   (VTSectionsFromAOGS, main_implement_status m);
   (VTControlFunctionsStr, main_system_status env aogConnected a);
   (ConfigHydliftLabel, bytes_of_string "Hydlift: not impl.");
   (ConfigNmeaReadLabel, bytes_of_string "NMEA Read: N/A");
   (ConfigNmeaSendLabel,
    bytes_of_string "NMEA Send: "
    ++ (if has_nmea2000 env then on_off (is_nmea_send_enabled s) else bytes_of_string "N/A"));
   (ConfigTecuLabel,
    bytes_of_string "TECU: " ++ on_off (is_tecu_enabled s) ++ bytes_of_string " (restart req)");
   (NetworkConnectedValue, to_string (zlength (online env)));
   (NetworkRows, or_text (network_rows m (take 7 (online env)))
                   (bytes_of_string "No control functions online"));
   (ImplementActiveDDOP, implement_name m);
   (ImplementSectionControl, section_control_text m);
   (ImplementWorkingWidth,
    match first_client m with
    | Some st => or_text (details_widthText (derive_implement_details st))
                   (bytes_of_string "n/a")
    | None => bytes_of_string "n/a"
    end);
   (ImplementBoomOffset,
    take 16 (match first_client m with
             | Some st => or_text (boomOffsetText (derive_implement_details st)) (bytes_of_string "n/a")
             | None => bytes_of_string "n/a"
             end));
   (ImplementSectionCount,
    to_string (match first_client m with
               | Some st => details_sections (derive_implement_details st)
               | None => 0
               end));
   (DiagnosticsValues, bytes_of_string (if aogConnected then "ONLINE" else "OFFLINE"));
   (DiagnosticsLastPacket, packet_age env a);
   (DiagnosticsTcAddress,
    match tc_address (network env) with
    | Some address => format_hex_address address
    | None => bytes_of_string "not claimed"
    end);
   (DiagnosticsTaskState, task);
   (DiagnosticsActiveDDOP,
    match client_order m with [] => bytes_of_string "none" | _ => implement_name m end);
   (DiagnosticsTcClients, to_string (zlength (client_order m)));
   (DiagnosticsAlarmValue, alarm_text env aogConnected m)].

Definition update_vt_status_strings (env : VtEnv) (aogConnected : bool) (s : Settings) (a : Aog)
    (acc : VtState * list vt_out) : VtState * list vt_out :=
  send_strings (status_strings env aogConnected s a)
    (with_lastVtStatusUpdateMs (vt_now env) acc.1, acc.2).

(** ** One round *)

Definition aog_connected (env : VtEnv) (a : Aog) : bool :=
  negb (lastAogPacketMs a =? 0) && negb (time_expired_ms (vt_now env) (lastAogPacketMs a) 3000).

Definition tracked_values (env : VtEnv) (s : Settings) (a : Aog) : list vt_out :=
  [SetTracked VTSpeedValue (if aog_connected env a then u32 (Z.abs (lastSpeedValue a)) else 0);
   SetTracked VTXteValue
     (if aog_connected env a then Z.lxor (u32 (lastXteValue a)) 2147483648 else 2147483648);
   SetTracked ConfigNmeaSend (flag (is_nmea_send_enabled s));
   SetTracked ConfigTecuEnabled (flag (is_tecu_enabled s))].

(** What follows once the terminal is connected, up to the section map; the
    flag says whether the status strings are due. *)
Definition vt_connected_round (env : VtEnv) (s : Settings) (a : Aog)
    (acc : VtState * list vt_out) : VtState * list vt_out * bool :=
  let acc := log_vt_capabilities_once acc in
  if negb (has_update_helper env) then (acc, false)
  else
    let acc := sync_vt_config_once env s acc in
    let acc := (acc.1, acc.2 ++ tracked_values env s a) in
    let acc := update_vt_section_map env (clients (tcServer a)) acc in
    (acc, time_expired_ms (vt_now env) (lastVtStatusUpdateMs acc.1) 1000).

Definition vt_round (env : VtEnv) (s : Settings) (a : Aog) (vt : VtState)
    : VtState * list vt_out * bool :=
  if negb (vtClientStarted vt) then (try_start_vt_client env vt, false)
  else if negb (vt_is_connected env) then
    let '(vt, outs) := handle_vt_disconnected env vt in (vt, UpdateClient :: outs, false)
  else
    let vt :=
      if negb (vtWasConnected vt)
      then with_vtConnectionWarningLogged false
             (with_vtDisconnectedSinceMs 0 (with_vtWasConnected true vt))
      else vt in
    vt_connected_round env s a (vt, [UpdateClient]).

(** [update_vt_client]: the section map and the status strings are made from
    two snapshots of the clients, between which the CAN thread may run. So
    the settings and the rest of the application have a value at the one and
    at the other. *)
Definition update_vt_client (env : VtEnv) (s : Settings) (a : Aog) (s' : Settings) (a' : Aog)
    (vt : VtState) : VtState * list vt_out :=
  let '(acc, due) := vt_round env s a vt in
  if due then update_vt_status_strings env (aog_connected env a) s' a' acc else acc.

(** ** Operator input *)

Definition on_soft_key (pressed_or_latched : bool) (objectID : Z) : list vt_out :=
  if negb pressed_or_latched then []
  else
    let targetMask :=
      if objectID =? NavStatus then DataMask_1000
      else if objectID =? NavNetwork then DataMask_Network
      else if objectID =? NavImplement then DataMask_Implement
      else if objectID =? NavDiagnostics then DataMask_Diagnostics
      else if objectID =? NavConfig then DataMask_Config
      else 65535 in (* 0xFFFF *)
    if targetMask =? 65535 then [] else [SendActiveMask WorkingSet_0 targetMask].
End vt.

Section switches.
Context `{JsonApi}.

(** The switch an object stands for. *)
Definition switch_of (objectID : Z) : option bool_setting :=
  if objectID =? ConfigNmeaSend then Some NmeaSend
  else if objectID =? ConfigTecuEnabled then Some Tecu
  else None.

(** The [switch] of the listener: whether the setting was saved. *)
Definition apply_switch (env : SaveEnv) (has_nmea : bool) (setting : bool_setting)
    (enabled : bool) (s : Settings)
    : outcome bool * Settings * list fs_step * list vt_out :=
  match setting with
  | NmeaSend =>
      if has_nmea then
        let '(r, s', es) := set_nmea_send_enabled env enabled true s in
        (r, s', es, match r with Returns true => [SetCogSogCyclic enabled] | _ => [] end)
      else (Returns false, s, [], [])
  | _ => let '(r, s', es) := set_tecu_enabled env enabled true s in (r, s', es, [])
  end.

Definition on_change_numeric_value (env : SaveEnv) (has_nmea : bool) (objectID value : Z)
    (s : Settings) : outcome unit * Settings * list fs_step * list vt_out :=
  match switch_of objectID with
  | None => (Returns tt, s, [], [])
  | Some setting =>
      let enabled := negb (value =? 0) in
      match apply_switch env has_nmea setting enabled s with
      | (Returns true, s', es, outs) => (Returns tt, s', es, outs)
      | (Returns false, s', es, outs) =>
          (Returns tt, s', es, outs ++ [SendNumeric objectID (flag (get_bool setting s'))])
      | (Throws, s', es, outs) => (Throws, s', es, outs)
      end
  end.
End switches.
