(* ===== verification/VtFacts.v ===== *)
(** * The terminal shows what the application believes (facts about Vt.v)

    The string cache never disagrees with the display, switches and settings
    agree after every operator input, and an outage is reported once. *)

From S2P Require Import Prelude Ddop Hierarchy ClientState TcServer Settings.
From S2P Require Import Udp PacketHandler Network VtObjects Vt.

(** ** Strings *)

(** What the terminal displays after some messages. *)
Definition show (screen : gmap Z (list Z)) (o : vt_out) : gmap Z (list Z) :=
  match o with
  | SendString objectID value => <[objectID := value]> screen
  | _ => screen
  end.

Definition shown (screen : gmap Z (list Z)) (outs : list vt_out) : gmap Z (list Z) :=
  foldl show screen outs.

(** The messages that carry strings. *)
Definition strings_sent (outs : list vt_out) : list (Z * list Z) :=
  omap (fun o => match o with SendString id v => Some (id, v) | _ => None end) outs.

Lemma shown_app screen a b : shown screen (a ++ b) = shown (shown screen a) b.
Proof. apply foldl_app. Qed.

Lemma strings_sent_app a b : strings_sent (a ++ b) = strings_sent a ++ strings_sent b.
Proof. apply omap_app. Qed.

Lemma shown_silent screen outs : strings_sent outs = [] -> shown screen outs = screen.
Proof.
  induction outs as [|o outs IH]; [done|]. intros Hs.
  destruct o; try discriminate; cbn; by apply IH.
Qed.

(** [accurate]: what the cache holds is on the display. *)
Definition accurate (screen : gmap Z (list Z)) (acc : VtState * list vt_out) : Prop :=
  lastVtStrings acc.1 ⊆ shown screen acc.2.

(** One call makes the string current and leaves the others. *)
Lemma send_string_spec screen id v acc :
  accurate screen acc ->
  let r := send_vt_string_if_changed id v acc in
  accurate screen r /\ shown screen r.2 !! id = Some v /\
  (forall id', id' <> id -> shown screen r.2 !! id' = shown screen acc.2 !! id' /\
                            lastVtStrings r.1 !! id' = lastVtStrings acc.1 !! id') /\
  strings_sent r.2 = strings_sent acc.2 ++
    (if decide (lastVtStrings acc.1 !! id = Some v) then [] else [(id, v)]).
Proof.
  destruct acc as [vt outs]. unfold send_vt_string_if_changed, accurate. cbn.
  intros Ha. case_decide as Hd; cbn.
  - split_and!; [done| |done|by rewrite app_nil_r].
    by apply (lookup_weaken _ _ _ _ Hd).
  - rewrite shown_app, strings_sent_app. cbn. split_and!; [|by rewrite lookup_insert_eq| |done].
    + by apply insert_mono.
    + intros id' Hne. by rewrite !lookup_insert_ne.
Qed.

(** A list of strings with distinct objects: all are current afterwards, and
    those that the cache lacked are sent, each once. *)
Lemma send_strings_spec screen ss : forall acc,
  NoDup ss.*1 -> accurate screen acc ->
  let r := send_strings ss acc in
  accurate screen r /\
  (forall id v, (id, v) ∈ ss -> shown screen r.2 !! id = Some v) /\
  (forall id, id ∉ ss.*1 -> shown screen r.2 !! id = shown screen acc.2 !! id) /\
  strings_sent r.2 = strings_sent acc.2 ++
    filter (fun s => lastVtStrings acc.1 !! s.1 <> Some s.2) ss.
Proof.
  induction ss as [|[id v] ss IH]; intros acc Hnd Ha.
  { cbn. split_and!; [done| |done|by rewrite app_nil_r]. intros id v []%elem_of_nil. }
  apply NoDup_cons in Hnd as [Hid Hnd]. cbn [fst snd] in Hid.
  destruct (send_string_spec screen id v acc Ha) as (Ha1 & Hv & Hother & Hsent).
  unfold send_strings. cbn [foldl fst snd].
  set (acc1 := send_vt_string_if_changed id v acc) in *.
  destruct (IH acc1 Hnd Ha1) as (Ha2 & Hall & Hkeep & Hsent2).
  fold (send_strings ss acc1). split_and!; [done| | |].
  - intros id' v' [[= -> ->]|Hin]%elem_of_cons; [|by apply Hall].
    by rewrite Hkeep.
  - intros id' [Hne Hn]%not_elem_of_cons. rewrite Hkeep by done. by apply Hother.
  - rewrite Hsent2, Hsent, <- app_assoc. f_equal.
    rewrite filter_cons. cbn [fst snd].
    assert (Heq : filter (fun s => lastVtStrings acc1.1 !! s.1 <> Some s.2) ss =
                  filter (fun s => lastVtStrings acc.1 !! s.1 <> Some s.2) ss).
    { apply filter_ext_in. intros [id' v'] Hin. cbn.
      destruct (Hother id') as [_ ->]; [|done].
      intros ->. apply Hid. apply list_elem_of_fmap. by exists (id, v'). }
    rewrite Heq. by repeat case_decide.
Qed.

Lemma shown_sent outs : forall screen,
  shown screen outs = foldl (fun m s => <[s.1 := s.2]> m) screen (strings_sent outs).
Proof.
  induction outs as [|o outs IH]; intros screen; [done|].
  destruct o; cbn; apply IH.
Qed.

(** Two points of a round between which no string is sent. *)
Definition same_strings (acc acc' : VtState * list vt_out) : Prop :=
  lastVtStrings acc'.1 = lastVtStrings acc.1 /\ strings_sent acc'.2 = strings_sent acc.2.

Lemma same_strings_shown screen acc acc' :
  same_strings acc acc' -> shown screen acc'.2 = shown screen acc.2.
Proof. intros [_ Hs]. by rewrite !shown_sent, Hs. Qed.

Lemma same_strings_accurate screen acc acc' :
  same_strings acc acc' -> accurate screen acc -> accurate screen acc'.
Proof.
  intros Hs. unfold accurate. rewrite (same_strings_shown screen acc acc' Hs).
  by destruct Hs as [-> _].
Qed.

Lemma same_strings_trans a b c : same_strings a b -> same_strings b c -> same_strings a c.
Proof. intros [? ?] [? ?]. split; congruence. Qed.

(** ** A round *)

Section rounds.
Context `{DdopApi} `{Timing} `{Platform}.
Implicit Types (env : VtEnv) (s : Settings) (a : Aog) (vt : VtState).

Notation round := update_vt_client.
Notation statuses := status_strings.

Definition status_ids : list Z :=
  [VTWorkingSetStatusLabel; VTAogIPStr; VTWorkingSetStatusStr; VTSectionsFromAOGS;
   VTControlFunctionsStr; ConfigHydliftLabel; ConfigNmeaReadLabel; ConfigNmeaSendLabel;
   ConfigTecuLabel; NetworkConnectedValue; NetworkRows; ImplementActiveDDOP;
   ImplementSectionControl; ImplementWorkingWidth; ImplementBoomOffset;
   ImplementSectionCount; DiagnosticsValues; DiagnosticsLastPacket; DiagnosticsTcAddress;
   DiagnosticsTaskState; DiagnosticsActiveDDOP; DiagnosticsTcClients;
   DiagnosticsAlarmValue].

Lemma status_strings_ids env b s a : (statuses env b s a).*1 = status_ids.
Proof. reflexivity. Qed.

(** The strings that are due in a connected round. *)
Definition due_strings env a s2 a2 vt : list (Z * list Z) :=
  (if time_expired_ms (vt_now env) (lastVtSectionUpdateMs vt) 100
   then [(ImplementSectionMap, section_map (clients (tcServer a)))] else []) ++
  (if time_expired_ms (vt_now env) (lastVtStatusUpdateMs vt) 1000
   then statuses env (aog_connected env a) s2 a2 else []).

Lemma due_strings_NoDup env a s2 a2 vt : NoDup (due_strings env a s2 a2 vt).*1.
Proof.
  assert (Hall : NoDup (ImplementSectionMap :: status_ids))
    by (apply (bool_decide_unpack _); vm_compute; exact I).
  apply NoDup_cons in Hall as [Hn Hd]. unfold due_strings. rewrite fmap_app.
  destruct (time_expired_ms _ (lastVtSectionUpdateMs vt) _),
    (time_expired_ms _ (lastVtStatusUpdateMs vt) _);
    rewrite ?status_strings_ids; cbn [fmap list_fmap fst app].
  - by apply NoDup_cons.
  - apply NoDup_singleton.
  - done.
  - apply NoDup_nil_2.
Qed.

(** Before its strings a connected round sends none. *)
Definition before_strings env s a vt : VtState * list vt_out :=
  let vt :=
    if negb (vtWasConnected vt)
    then with_vtConnectionWarningLogged false
           (with_vtDisconnectedSinceMs 0 (with_vtWasConnected true vt))
    else vt in
  let acc := sync_vt_config_once env s (log_vt_capabilities_once (vt, [UpdateClient])) in
  (acc.1, acc.2 ++ tracked_values env s a).

Lemma before_strings_same env s a vt : same_strings (vt, []) (before_strings env s a vt).
Proof.
  unfold before_strings, sync_vt_config_once, log_vt_capabilities_once, same_strings.
  destruct (vtWasConnected vt); cbn; destruct (vtCapabilitiesLogged vt); cbn;
    destruct (vtConfigSynced vt); cbn; done.
Qed.

Lemma before_strings_timers env s a vt :
  lastVtSectionUpdateMs (before_strings env s a vt).1 = lastVtSectionUpdateMs vt /\
  lastVtStatusUpdateMs (before_strings env s a vt).1 = lastVtStatusUpdateMs vt.
Proof.
  unfold before_strings, sync_vt_config_once, log_vt_capabilities_once.
  destruct (vtWasConnected vt); cbn; destruct (vtCapabilitiesLogged vt); cbn;
    destruct (vtConfigSynced vt); cbn; done.
Qed.

Lemma send_strings_app ss1 ss2 acc :
  send_strings (ss1 ++ ss2) acc = send_strings ss2 (send_strings ss1 acc).
Proof. apply foldl_app. Qed.

Lemma send_strings_frame ss : forall acc acc',
  same_strings acc acc' -> same_strings (send_strings ss acc) (send_strings ss acc').
Proof.
  induction ss as [|[id v] ss IH]; intros acc acc' Hs; [done|].
  cbn. apply IH. destruct acc as [vt o], acc' as [vt' o'].
  unfold send_vt_string_if_changed. destruct Hs as [Hl Ho]. cbn [fst snd] in *.
  rewrite Hl. case_decide; [done|].
  split; cbn [fst snd]; [done|]. by rewrite !strings_sent_app, Ho.
Qed.

Lemma send_strings_timers ss : forall acc,
  lastVtSectionUpdateMs (send_strings ss acc).1 = lastVtSectionUpdateMs acc.1 /\
  lastVtStatusUpdateMs (send_strings ss acc).1 = lastVtStatusUpdateMs acc.1.
Proof.
  induction ss as [|[id v] ss IH]; intros acc; [done|].
  change (send_strings ((id, v) :: ss) acc)
    with (send_strings ss (send_vt_string_if_changed id v acc)).
  destruct (IH (send_vt_string_if_changed id v acc)) as [-> ->].
  destruct acc as [vt o]. unfold send_vt_string_if_changed. by case_decide.
Qed.

(** A connected round is the sending of the due strings. *)
Lemma connected_round_strings env s a s2 a2 vt :
  vtClientStarted vt = true -> vt_is_connected env = true -> has_update_helper env = true ->
  same_strings (send_strings (due_strings env a s2 a2 vt) (vt, [])) (round env s a s2 a2 vt).
Proof.
  intros Hst Hcon Hh. unfold update_vt_client, vt_round. rewrite Hst, Hcon. cbn [negb].
  unfold vt_connected_round. rewrite Hh. cbn [negb].
  pose proof (before_strings_timers env s a vt) as [Hts Htst].
  pose proof (before_strings_same env s a vt) as Hb.
  unfold before_strings in *.
  set (acc := (_, _ ++ tracked_values env s a)) in *.
  unfold due_strings. rewrite send_strings_app.
  eapply same_strings_trans; [apply send_strings_frame, send_strings_frame, Hb|].
  unfold update_vt_section_map. rewrite Hts.
  destruct (time_expired_ms _ (lastVtSectionUpdateMs vt) _).
  - change (send_strings [_] acc) with
      (send_vt_string_if_changed ImplementSectionMap (section_map (clients (tcServer a))) acc).
    pose proof (send_strings_timers
      [(ImplementSectionMap, section_map (clients (tcServer a)))] acc) as [_ Ht1].
    cbn [send_strings foldl fst snd] in Ht1.
    destruct (send_vt_string_if_changed _ _ acc) as [vt1 outs1].
    cbn [fst snd with_lastVtSectionUpdateMs lastVtStatusUpdateMs] in Ht1 |- *.
    rewrite Ht1, Htst.
    destruct (time_expired_ms _ (lastVtStatusUpdateMs vt) _); cbn [negb]; [|done].
    by apply send_strings_frame.
  - change (send_strings [] acc) with acc. rewrite Htst.
    destruct (time_expired_ms _ (lastVtStatusUpdateMs vt) _); cbn [negb]; [|done].
    by apply send_strings_frame.
Qed.

(** C29: the display never lags behind by more than its pace. As long as the
    cache holds only what the terminal displays, it does so after any round,
    and after a disconnected round it is empty, since the terminal starts
    over. In a connected round the strings that are due (the section map every
    100 ms, the status strings every second) are all displayed afterwards, and
    exactly those among them that the cache lacked are sent, each once. The
    section map and the status strings may be made from different states,
    since the CAN thread runs between them. *)
Theorem vt_display_current env s a s2 a2 vt (screen : gmap Z (list Z))
    (Hcache : lastVtStrings vt ⊆ screen) :
  let r := round env s a s2 a2 vt in
  lastVtStrings r.1 ⊆ shown screen r.2 /\
  (vtClientStarted vt = true -> vt_is_connected env = false -> lastVtStrings r.1 = ∅) /\
  (vtClientStarted vt = true -> vt_is_connected env = true -> has_update_helper env = true ->
   (forall id v, (id, v) ∈ due_strings env a s2 a2 vt -> shown screen r.2 !! id = Some v) /\
   strings_sent r.2 =
     filter (fun p => lastVtStrings vt !! p.1 <> Some p.2) (due_strings env a s2 a2 vt)).
Proof.
  intros r. unfold r. clear r.
  destruct (vtClientStarted vt) eqn:Hst; last first.
  { split; [|done]. unfold update_vt_client, vt_round, try_start_vt_client. rewrite Hst.
    by destruct (partner_online env). }
  destruct (vt_is_connected env) eqn:Hcon; last first.
  { unfold update_vt_client, vt_round, handle_vt_disconnected. rewrite Hst, Hcon. cbn [negb].
    destruct (negb _ && _); cbn; split_and!; try done; apply map_empty_subseteq. }
  destruct (has_update_helper env) eqn:Hh; last first.
  { split; [|done]. unfold update_vt_client, vt_round, vt_connected_round. rewrite Hst, Hcon, Hh.
    cbn [negb]. unfold log_vt_capabilities_once.
    destruct (vtWasConnected vt); cbn; by destruct (vtCapabilitiesLogged vt). }
  pose proof (connected_round_strings env s a s2 a2 vt Hst Hcon Hh) as Hsame.
  destruct (send_strings_spec screen (due_strings env a s2 a2 vt) (vt, [])
    (due_strings_NoDup env a s2 a2 vt) Hcache) as (Ha & Hall & _ & Hsent).
  pose proof (same_strings_accurate screen _ _ Hsame Ha) as Ha'.
  split; [done|]. split; [done|]. intros _ _ _.
  rewrite (same_strings_shown screen _ _ Hsame). split; [done|].
  destruct Hsame as [_ ->]. by rewrite Hsent.
Qed.

(** ** Outages *)

(** One call of [update_vt_client] with all it reads. *)
Definition vt_call : Type := VtEnv * (Settings * Aog) * (Settings * Aog).

Definition call_round (k : vt_call) vt : VtState * list vt_out :=
  let '(env, (s, a), (s2, a2)) := k in round env s a s2 a2 vt.

Definition call_now (k : vt_call) : Z := vt_now k.1.1.

Definition away (k : vt_call) : Prop := vt_is_connected k.1.1 = false.

(** A sequence of calls. *)
Definition rounds (ks : list vt_call) vt : VtState :=
  foldl (fun vt k => (call_round k vt).1) vt ks.

(** An outage is noticed and still too short at time [t] for a warning. *)
Definition overdue (since t : Z) : Prop := 30000 <= u32 (t - since).

#[global] Instance overdue_dec since t : Decision (overdue since t).
Proof. unfold overdue. apply _. Defined.

Lemma disconnected_round `{!TimingLaws} k vt t0 w :
  vtClientStarted vt = true -> away k -> t0 <> 0 ->
  vtWasConnected vt = false -> vtDisconnectedSinceMs vt = t0 ->
  vtConnectionWarningLogged vt = w ->
  let r := call_round k vt in
  vtClientStarted r.1 = true /\ vtWasConnected r.1 = false /\
  vtDisconnectedSinceMs r.1 = t0 /\
  vtConnectionWarningLogged r.1 = w || bool_decide (overdue t0 (call_now k)) /\
  (LogNotConnected ∈ r.2 <-> w = false /\ overdue t0 (call_now k)).
Proof.
  destruct k as [[env [s a]] [s2 a2]]. unfold away, call_now. cbn [fst call_round].
  intros Hst Hcon Hne Hwas Hsince Hw.
  unfold update_vt_client, vt_round, handle_vt_disconnected.
  rewrite Hst, Hcon, Hwas, Hsince, (proj2 (Z.eqb_neq t0 0) Hne). cbn.
  rewrite Hw, Hsince, time_expired_ms_spec. unfold overdue.
  destruct w; cbn; rewrite ?Hst, ?Hsince, ?Hw; cbn.
  - split_and!; auto. split; [|by intros []].
    intros [?|Hn%elem_of_nil]%elem_of_cons; done.
  - destruct (Z.leb_spec 30000 (u32 (vt_now env - t0))) as [Hle|Hlt]; cbn;
      rewrite ?Hst, ?Hsince; split_and!; auto.
    + by rewrite bool_decide_eq_true_2.
    + split; [done|]. intros _. right. by left.
    + rewrite bool_decide_eq_false_2 by lia. done.
    + split; [|lia]. intros [?|Hn%elem_of_nil]%elem_of_cons; done.
Qed.

(** The call that loses a connected terminal. *)
Lemma lost_round `{!TimingLaws} k vt :
  vtClientStarted vt = true -> vtWasConnected vt = true -> away k ->
  let r := call_round k vt in
  vtClientStarted r.1 = true /\ vtWasConnected r.1 = false /\
  vtDisconnectedSinceMs r.1 = call_now k /\ vtConnectionWarningLogged r.1 = false.
Proof.
  destruct k as [[env [s a]] [s2 a2]]. unfold away, call_now. cbn [fst call_round].
  intros Hst Hwas Hlost. unfold update_vt_client, vt_round, handle_vt_disconnected.
  rewrite Hst, Hlost, Hwas. cbn. rewrite time_expired_ms_spec, Z.sub_diag. by cbn.
Qed.

Lemma disconnected_rounds `{!TimingLaws} ks t0 : forall vt,
  Forall away ks -> t0 <> 0 -> vtClientStarted vt = true -> vtWasConnected vt = false ->
  vtDisconnectedSinceMs vt = t0 ->
  let vt' := rounds ks vt in
  vtClientStarted vt' = true /\ vtWasConnected vt' = false /\
  vtDisconnectedSinceMs vt' = t0 /\
  (vtConnectionWarningLogged vt' = false <-> vtConnectionWarningLogged vt = false /\
     Forall (fun k => ~ overdue t0 (call_now k)) ks).
Proof.
  induction ks as [|k ks IH]; intros vt Hks Ht Hs Hw Hd.
  { cbn. split_and!; try done. split; [by intros|by intros []]. }
  apply Forall_cons in Hks as [Hk Hks].
  destruct (disconnected_round k vt t0 _ Hs Hk Ht Hw Hd eq_refl)
    as (Hs' & Hw' & Hd' & Hl' & _).
  destruct (IH _ Hks Ht Hs' Hw' Hd') as (? & ? & ? & Hiff).
  split_and!; try done. cbn [rounds foldl]. unfold rounds in Hiff. rewrite Hiff, Hl'.
  rewrite orb_false_iff, bool_decide_eq_false, Forall_cons. tauto.
Qed.

(** An outage of the terminal is reported once. When a connected terminal
    is lost at time [t0] and stays away, a round warns exactly when 30
    seconds have passed since [t0] and no earlier round of the outage was
    due. *)
Theorem vt_outage_reported_once `{!TimingLaws} vt (lost : vt_call) (outage : list vt_call)
    (k : vt_call) (Hst : vtClientStarted vt = true) (Hwas : vtWasConnected vt = true)
    (Haway : Forall away (lost :: outage ++ [k])) (Ht : call_now lost <> 0) :
  let t0 := call_now lost in
  LogNotConnected ∈ (call_round k (rounds (lost :: outage) vt)).2 <->
  overdue t0 (call_now k) /\ Forall (fun k => ~ overdue t0 (call_now k)) outage.
Proof.
  cbn zeta. apply Forall_cons in Haway as [Hlost Haway].
  apply Forall_app in Haway as [Haway Henv]. apply Forall_cons in Henv as [Henv _].
  destruct (lost_round lost vt Hst Hwas Hlost) as (Hs1 & Hw1 & Hd1 & Hl1).
  destruct (disconnected_rounds outage _ _ Haway Ht Hs1 Hw1 Hd1) as (Hs2 & Hw2 & Hd2 & Hiff).
  destruct (disconnected_round k _ _ _ Hs2 Henv Ht Hw2 Hd2 eq_refl) as (_ & _ & _ & _ & Hk).
  change (rounds (lost :: outage) vt) with (rounds outage (call_round lost vt).1).
  rewrite Hk, Hiff. tauto.
Qed.
End rounds.

(** ** Switches *)

Section switches.
Context `{JsonApi}.

(** What the input field shows after the operator entered [value] and the
    terminal received [outs]. *)
Definition field_shows (objectID value : Z) (outs : list vt_out) : Z :=
  foldl (fun v o => match o with
                    | SendNumeric id x => if id =? objectID then x else v
                    | _ => v
                    end) value outs.

(** C30: after the operator changed one of the two switches the field on the
    terminal, the setting in memory and the settings file agree: either the
    new value is in force and saved, or nothing changed and the terminal is
    told the old value. NMEA sending cannot be switched without the NMEA 2000
    interface, and cyclic sending follows the setting. Other objects are
    ignored. Only an exception leaves the file behind. *)
Theorem vt_switch_consistent (env : SaveEnv) (has_nmea : bool) (id value : Z)
    (s : Settings) (d : Disk) :
  let '(r, s', es, outs) := on_change_numeric_value env has_nmea id value s in
  let enabled := negb (value =? 0) in
  match switch_of id with
  | None => r = Returns tt /\ s' = s /\ es = [] /\ outs = []
  | Some b =>
      match r with
      | Returns _ =>
          negb (field_shows id value outs =? 0) = get_bool b s' /\
          ((s' = put_bool b enabled s /\
            settings_file (run_fs d es) = dump (to_json s') /\
            (b = NmeaSend -> has_nmea = true /\ outs = [SetCogSogCyclic enabled])) \/
           (s' = s /\ settings_file (run_fs d es) = settings_file d /\
            forall x, SetCogSogCyclic x ∉ outs))
      | Throws => s' = put_bool b enabled s /\
          settings_file (run_fs d es) = settings_file d /\ outs = []
      end
  end.
Proof.
  unfold on_change_numeric_value, apply_switch.
  destruct (switch_of id) as [b|] eqn:Hid; [|done].
  assert (Hb : b = NmeaSend \/ b = Tecu)
    by (unfold switch_of in Hid; repeat case_match; naive_solver).
  pose proof (set_boolean_transactional env b (negb (value =? 0)) true s d) as Ht.
  assert (Hself : (id =? id) = true) by apply Z.eqb_refl.
  destruct Hb as [-> | ->]; [destruct has_nmea|].
  - unfold set_nmea_send_enabled.
    destruct (set_boolean _ _ _ _ _) as [[[[]|] s'] es]; cbn; rewrite ?Hself.
    + destruct Ht as (-> & Hg & Hf). split; [done|]. left. by split_and!.
    + destruct Ht as (-> & _ & Hf). split; [by destruct (nmeaSendEnabled s)|].
      right. split_and!; [done..|]. intros x.
      by intros [?|?%elem_of_nil]%elem_of_cons.
    + naive_solver.
  - cbn. rewrite Hself. split; [by destruct (nmeaSendEnabled s)|].
    right. split_and!; [done..|]. intros x. by intros [?|?%elem_of_nil]%elem_of_cons.
  - unfold set_tecu_enabled.
    destruct (set_boolean _ _ _ _ _) as [[[[]|] s'] es]; cbn; rewrite ?Hself.
    + destruct Ht as (-> & Hg & Hf). split; [done|]. left. by split_and!.
    + destruct Ht as (-> & _ & Hf). split; [by destruct (tecuEnabled s)|].
      right. split_and!; [done..|]. intros x.
      by intros [?|?%elem_of_nil]%elem_of_cons.
    + naive_solver.
Qed.
End switches.
