(* ===== verification/App.v ===== *)
(** * The application's update loop (src/app.cpp lines 621-838)

    [Application::update] is one round of the main loop: it polls the two
    sockets, hands packets to the packet handler, lets the task controller
    server work, and sends what is due. The model has the same steps in the
    same order, as functions of the whole state [Application]; [UpdateEnv] is
    everything one round reads from outside.

    The CAN stack has a thread of its own, which enters the overrides of
    [MyTCServer] and the listeners of the terminal client while a round is
    under way (docs/CONCURRENCY.md). [MyTCServer] is guarded by
    [clientsMutex], which every entry point takes; so the model cuts the round
    into [action]s, the parts that take the lock once, and lets the CAN thread
    run any events before each of them ([preempt]) and after the last
    ([sleep]). A round is thus one interleaving of the two threads, and the
    theorems hold for every schedule. ServerLocks.v shows that a call of the
    server may be taken as one step, and SettingsLocks.v the same of the
    settings, which have a mutex of their own. The calls of the terminal
    client, which nothing guards, are taken as atomic.

    One time stamp stands for all readings of the clock within a round,
    except that the terminal client has its own. Log output and the library's
    own periodic work are left out. *)

From S2P Require Import Prelude Ddop Hierarchy ClientState TcServer ServerFacts.
From S2P Require Import Setpoints Activation Subscription ServerInvariant Udp UdpFacts.
From S2P Require Import Settings PacketHandler Heartbeat DemandMonitor Network Vt.

(** How a round, or a part of it, ends: normally; in a loop without end;
    outside the memory of a buffer; by an exception on the main thread, which
    src/main.cpp catches; by an exception on the CAN thread, where nothing
    catches it and the process is terminated. *)
Inductive step_result (A : Type) : Type :=
  | Ok (a : A)
  | Diverges
  | Undefined
  | Escapes
  | Terminates.
Arguments Ok {_} _.
Arguments Diverges {_}.
Arguments Undefined {_}.
Arguments Escapes {_}.
Arguments Terminates {_}.

#[export] Instance step_bind : MBind step_result := fun A B f r =>
  match r with
  | Ok a => f a
  | Diverges => Diverges
  | Undefined => Undefined
  | Escapes => Escapes
  | Terminates => Terminates
  end.

#[export] Instance step_ret : MRet step_result := fun A a => Ok a.

(** The [static] and member time stamps that pace a round. *)
Record Timers := {
  lastHeartbeatTransmit : Z;
  lastSectionDemandCheckMs : Z;
  lastConflictCheck : Z;
  lastImplementScanMs : Z;
  lastJ1939SpeedTransmit : Z;
  lastTCStatusTransmit : Z;
  lastGnssSendMs : Z
}.

Definition with_lastHeartbeatTransmit (x : Z) (a : Timers) : Timers :=
  Build_Timers x (lastSectionDemandCheckMs a) (lastConflictCheck a)
    (lastImplementScanMs a) (lastJ1939SpeedTransmit a) (lastTCStatusTransmit a)
    (lastGnssSendMs a).

Definition with_lastSectionDemandCheckMs (x : Z) (a : Timers) : Timers :=
  Build_Timers (lastHeartbeatTransmit a) x (lastConflictCheck a)
    (lastImplementScanMs a) (lastJ1939SpeedTransmit a) (lastTCStatusTransmit a)
    (lastGnssSendMs a).

Definition with_lastConflictCheck (x : Z) (a : Timers) : Timers :=
  Build_Timers (lastHeartbeatTransmit a) (lastSectionDemandCheckMs a) x
    (lastImplementScanMs a) (lastJ1939SpeedTransmit a) (lastTCStatusTransmit a)
    (lastGnssSendMs a).

Definition with_lastImplementScanMs (x : Z) (a : Timers) : Timers :=
  Build_Timers (lastHeartbeatTransmit a) (lastSectionDemandCheckMs a)
    (lastConflictCheck a) x (lastJ1939SpeedTransmit a) (lastTCStatusTransmit a)
    (lastGnssSendMs a).

Definition with_lastJ1939SpeedTransmit (x : Z) (a : Timers) : Timers :=
  Build_Timers (lastHeartbeatTransmit a) (lastSectionDemandCheckMs a)
    (lastConflictCheck a) (lastImplementScanMs a) x (lastTCStatusTransmit a)
    (lastGnssSendMs a).

Definition with_lastTCStatusTransmit (x : Z) (a : Timers) : Timers :=
  Build_Timers (lastHeartbeatTransmit a) (lastSectionDemandCheckMs a)
    (lastConflictCheck a) (lastImplementScanMs a) (lastJ1939SpeedTransmit a) x
    (lastGnssSendMs a).

Definition with_lastGnssSendMs (x : Z) (a : Timers) : Timers :=
  Build_Timers (lastHeartbeatTransmit a) (lastSectionDemandCheckMs a)
    (lastConflictCheck a) (lastImplementScanMs a) (lastJ1939SpeedTransmit a)
    (lastTCStatusTransmit a) x.

Record ImplementSnapshot := {
  displayName : list Z;
  sections : Z;
  widthText : list Z
}.

Section app.
Context `{DdopApi} `{DdiCodes} `{Timing} `{JsonApi} `{Platform}.
(** [get_NAME ().get_full_name ()]. *)
Context (full_name : Z -> Z).

Record Application := {
  aog : Aog;
  settings : Settings;
  rxDetection : RxState;
  rxIncoming : RxState;
  demandLog : DemandLog;
  workingWithoutDemand : gmap Z WorkingWithoutDemand;
  implementSnapshots : gmap Z ImplementSnapshot;
  tecuAddressClaimFailed : bool;
  tcAddressConflictActive : bool;
  timers : Timers;
  vt : VtState;
  (** the address the connection to AgOpenGPS is bound to *)
  bound : option octets
}.

Definition with_aog (x : Aog) (a : Application) : Application :=
  Build_Application x (settings a) (rxDetection a) (rxIncoming a) (demandLog a)
    (workingWithoutDemand a) (implementSnapshots a) (tecuAddressClaimFailed a)
    (tcAddressConflictActive a) (timers a) (vt a) (bound a).

Definition with_settings (x : Settings) (a : Application) : Application :=
  Build_Application (aog a) x (rxDetection a) (rxIncoming a) (demandLog a)
    (workingWithoutDemand a) (implementSnapshots a) (tecuAddressClaimFailed a)
    (tcAddressConflictActive a) (timers a) (vt a) (bound a).

Definition with_rxDetection (x : RxState) (a : Application) : Application :=
  Build_Application (aog a) (settings a) x (rxIncoming a) (demandLog a)
    (workingWithoutDemand a) (implementSnapshots a) (tecuAddressClaimFailed a)
    (tcAddressConflictActive a) (timers a) (vt a) (bound a).

Definition with_rxIncoming (x : RxState) (a : Application) : Application :=
  Build_Application (aog a) (settings a) (rxDetection a) x (demandLog a)
    (workingWithoutDemand a) (implementSnapshots a) (tecuAddressClaimFailed a)
    (tcAddressConflictActive a) (timers a) (vt a) (bound a).

Definition with_demandLog (x : DemandLog) (a : Application) : Application :=
  Build_Application (aog a) (settings a) (rxDetection a) (rxIncoming a) x
    (workingWithoutDemand a) (implementSnapshots a) (tecuAddressClaimFailed a)
    (tcAddressConflictActive a) (timers a) (vt a) (bound a).

Definition with_workingWithoutDemand (x : gmap Z WorkingWithoutDemand) (a : Application) : Application :=
  Build_Application (aog a) (settings a) (rxDetection a) (rxIncoming a)
    (demandLog a) x (implementSnapshots a) (tecuAddressClaimFailed a)
    (tcAddressConflictActive a) (timers a) (vt a) (bound a).

Definition with_implementSnapshots (x : gmap Z ImplementSnapshot) (a : Application) : Application :=
  Build_Application (aog a) (settings a) (rxDetection a) (rxIncoming a)
    (demandLog a) (workingWithoutDemand a) x (tecuAddressClaimFailed a)
    (tcAddressConflictActive a) (timers a) (vt a) (bound a).

Definition with_tecuAddressClaimFailed (x : bool) (a : Application) : Application :=
  Build_Application (aog a) (settings a) (rxDetection a) (rxIncoming a)
    (demandLog a) (workingWithoutDemand a) (implementSnapshots a) x
    (tcAddressConflictActive a) (timers a) (vt a) (bound a).

Definition with_tcAddressConflictActive (x : bool) (a : Application) : Application :=
  Build_Application (aog a) (settings a) (rxDetection a) (rxIncoming a)
    (demandLog a) (workingWithoutDemand a) (implementSnapshots a)
    (tecuAddressClaimFailed a) x (timers a) (vt a) (bound a).

Definition with_timers (x : Timers) (a : Application) : Application :=
  Build_Application (aog a) (settings a) (rxDetection a) (rxIncoming a)
    (demandLog a) (workingWithoutDemand a) (implementSnapshots a)
    (tecuAddressClaimFailed a) (tcAddressConflictActive a) x (vt a) (bound a).

Definition with_vt (x : VtState) (a : Application) : Application :=
  Build_Application (aog a) (settings a) (rxDetection a) (rxIncoming a)
    (demandLog a) (workingWithoutDemand a) (implementSnapshots a)
    (tecuAddressClaimFailed a) (tcAddressConflictActive a) (timers a) x (bound a).

Definition with_bound (x : option octets) (a : Application) : Application :=
  Build_Application (aog a) (settings a) (rxDetection a) (rxIncoming a)
    (demandLog a) (workingWithoutDemand a) (implementSnapshots a)
    (tecuAddressClaimFailed a) (tcAddressConflictActive a) (timers a) (vt a) x.

Inductive vt_input : Type :=
  | SoftKey (pressed_or_latched : bool) (objectID : Z)
  | ChangeNumericValue (objectID value : Z).

(** What the CAN thread does at a time: it calls an override of
    [TaskControllerServer] in [MyTCServer], which holds [clientsMutex], or a
    listener of the terminal client. *)
Inductive can_event : Type :=
  | ServerCall (call : server_call)
  | Listener (input : vt_input).

(** The overrides, which are all that the CAN thread calls. *)
Definition callback (call : server_call) : bool :=
  match call with
  | Store _ _ | Activate _ _ _ | Deactivate _ | Delete _ | Timeout _ | Value _ _ _ _ => true
  | Request | UpdateSections _ | UpdateControlEnabled _ | SendGnss _ => false
  end.

Record UpdateEnv := {
  call_env : CallEnv;
  detection : Received;
  incoming : Received;
  save_env : SaveEnv;
  sockets : Sockets;
  (** whether there is a virtual terminal client, and what it reports *)
  has_vt_client : bool;
  terminal : VtEnv;
  bus : Network;
  tecu_address_valid : bool;
  speed_accepted : bool
}.

(** ** Implements *)

Definition snapshot_of (details : ImplementDetails) : ImplementSnapshot :=
  {| displayName := details_displayName details;
     sections := details_sections details;
     widthText := details_widthText details |}.

Definition current_snapshots (m : gmap Z ClientState) : gmap Z ImplementSnapshot :=
  foldl (fun acc c => match m !! c with
                      | Some st =>
                          if 0 <? get_number_of_sections st
                          then <[full_name c := snapshot_of (derive_implement_details st)]> acc
                          else acc
                      | None => acc
                      end) ∅ (client_order m).

Definition implement_text (i : ImplementSnapshot) : list Z :=
  bytes_of_string "Implement: " ++ displayName i ++ bytes_of_string " ("
  ++ to_string (sections i) ++ bytes_of_string " sections"
  ++ (match widthText i with
      | [] => []
      | w => bytes_of_string ", " ++ w ++ bytes_of_string " m"
      end)
  ++ bytes_of_string ")".

(** The entries of [m1] whose key [m2] lacks. *)
Definition only_in (m1 m2 : gmap Z ImplementSnapshot) : list ImplementSnapshot :=
  omap (fun k => if decide (is_Some (m2 !! k)) then None else m1 !! k) (key_order m1).

Definition implement_messages (old current : gmap Z ImplementSnapshot) : list app_out :=
  concat ((fun i => send_hardware_message (implement_text i) 5 HW_MSG_INFO)
            <$> only_in current old) ++
  concat ((fun i => send_hardware_message
                      (bytes_of_string "Implement lost: " ++ displayName i) 10 HW_MSG_ALERT)
            <$> only_in old current).

(** ** The round *)

Definition of_loop {A} (r : loop_result A) : step_result A :=
  match r with
  | Finished a => Ok a
  | OutOfRange => Undefined
  | Running => Diverges
  end.

Definition with_server (srv : MyTCServer) (app : Application) : Application :=
  with_aog (with_tcServer srv (aog app)) app.

Definition set_timer (f : Timers -> Timers) (app : Application) : Application :=
  with_timers (f (timers app)) app.

(** ** The CAN thread *)

(** A round under way: the application, what has been sent, and what the CAN
    thread is about to do before each of the next points at which the main
    thread takes a lock. *)
Record Round := {
  round_app : Application;
  sent : list app_out;
  schedule : list (list can_event)
}.

Definition with_round_app (app : Application) (r : Round) : Round :=
  {| round_app := app; sent := sent r; schedule := schedule r |}.

Definition with_schedule (evs : list (list can_event)) (r : Round) : Round :=
  {| round_app := round_app r; sent := sent r; schedule := evs |}.

Definition emit (app : Application) (outs : list app_out) (r : Round) : Round :=
  {| round_app := app; sent := sent r ++ outs; schedule := schedule r |}.

(** The listeners of the terminal client; one that saves a setting may
    throw. *)
Definition listen (env : UpdateEnv) (input : vt_input) (s : Settings)
    : step_result (Settings * list vt_out) :=
  match input with
  | SoftKey pressed_or_latched objectID => Ok (s, on_soft_key pressed_or_latched objectID)
  | ChangeNumericValue objectID value =>
      match on_change_numeric_value (save_env env) (has_nmea2000 (terminal env))
              objectID value s with
      | (Returns _, s, _, outs) => Ok (s, outs)
      | (Throws, _, _, _) => Terminates
      end
  end.

(** An exception that leaves an override of the server or a listener meets
    nothing on this thread that would catch it. The terminal client hears its
    partner once it is started. *)
Definition can_step (env : UpdateEnv) (event : can_event) (r : Round) : step_result Round :=
  let app := round_app r in
  match event with
  | ServerCall call =>
      let srv := tcServer (aog app) in
      if call_throws call srv then Terminates
      else Ok (emit (with_server (run_call call srv) app) (Bus <$> call_outputs call srv) r)
  | Listener input =>
      if has_vt_client env && vtClientStarted (vt app) then
        '(s, outs) ← listen env input (settings app);
        Ok (emit (with_settings s app) (Terminal <$> outs) r)
      else Ok r
  end.

Fixpoint run_events (env : UpdateEnv) (events : list can_event) (r : Round)
    : step_result Round :=
  match events with
  | [] => Ok r
  | event :: events => r ← can_step env event r; run_events env events r
  end.

(** The CAN thread gets in before the main thread takes a lock. *)
Definition preempt (env : UpdateEnv) (r : Round) : step_result Round :=
  match schedule r with
  | [] => Ok r
  | events :: rest => run_events env events (with_schedule rest r)
  end.

(** A part of the round that sees the shared state at one point only. *)
Definition action : Type := Round -> step_result Round.

Definition atomically (env : UpdateEnv)
    (part : Application -> Application * list app_out) : action := fun r =>
  r ← preempt env r;
  let '(app, outs) := part (round_app r) in Ok (emit app outs r).

Fixpoint run_actions (acts : list action) : action := fun r =>
  match acts with
  | [] => Ok r
  | act :: acts => r ← act r; run_actions acts r
  end.

(** ** The round *)

(** A new subnet is stored and the connection bound again, either of which
    may throw. *)
Definition apply_subnet (env : UpdateEnv) (out : subnet_out) : action := fun r =>
  let 'Udp.set_subnet a b c := out in
  r ← preempt env r;
  match Settings.set_subnet (save_env env) (a, b, c) true (settings (round_app r)) with
  | (Returns _, s, _) =>
      let app := with_settings s (round_app r) in
      match bind_connection (sockets env) (configuredSubnet s) with
      | Some endpoint => Ok (with_round_app (with_bound (Some endpoint) app) r)
      | None => Escapes
      end
  | (Throws, _, _) => Escapes
  end.

Definition poll_detection (env : UpdateEnv) : action := fun r =>
  '(rx, outs) ← of_loop (handle_address_detection 1024 (detection env)
                           (rxDetection (round_app r)));
  run_actions (apply_subnet env <$> outs)
    (with_round_app (with_rxDetection rx (round_app r)) r).

(** The packet handler enters the task controller server once at most. *)
Definition handle_packet (env : UpdateEnv) (p : Packet) : action :=
  atomically env (fun app =>
    let '(a, outs) := packetHandler (call_env env) p (aog app) in (with_aog a app, outs)).

Definition poll_incoming (env : UpdateEnv) : action := fun r =>
  '(rx, ps) ← of_loop (handle_incoming_packets 1024 (incoming env)
                         (rxIncoming (round_app r)));
  run_actions (handle_packet env <$> ps)
    (with_round_app (with_rxIncoming rx (round_app r)) r).

(** [tcServer->request_measurement_commands ()]. *)
Definition serve (app : Application) : Application * list app_out :=
  let '(srv, outs) := request_measurement_commands (tcServer (aog app)) in
  (with_server srv app, Bus <$> outs).

Definition update_strings (env : UpdateEnv) (app : Application)
    : Application * list app_out :=
  let env := with_bound_ip_address (get_bound_ip_address (bound app)) (terminal env) in
  let '(v, outs) :=
    update_vt_status_strings env (aog_connected env (aog app)) (settings app) (aog app)
      (vt app, []) in
  (with_vt v app, Terminal <$> outs).

(** [if (vtClient) update_vt_client ()]: two parts of the round when the
    status strings are due. *)
Definition update_terminal (env : UpdateEnv) : action := fun r =>
  if negb (has_vt_client env) then Ok r
  else
    r ← preempt env r;
    let app := round_app r in
    let '(v, outs, due) := vt_round (terminal env) (settings app) (aog app) (vt app) in
    let r := emit (with_vt v app) (Terminal <$> outs) r in
    if due then atomically env (update_strings env) r else Ok r.

Definition log_demand (env : UpdateEnv) (app : Application) : Application * list app_out :=
  let '(a, l, _) := log_section_demand (now (call_env env)) (aog app) (demandLog app) in
  (with_aog a (with_demandLog l app), []).

Definition watch_demand (env : UpdateEnv) (app : Application)
    : Application * list app_out :=
  let t := now (call_env env) in
  if time_expired_ms t (lastSectionDemandCheckMs (timers app)) 1000 then
    let '(w, outs) :=
      check_section_demand full_name t (aog app) (workingWithoutDemand app) in
    (set_timer (with_lastSectionDemandCheckMs t) (with_workingWithoutDemand w app), outs)
  else (app, []).

Definition check_conflict (env : UpdateEnv) (app : Application)
    : Application * list app_out :=
  let t := now (call_env env) in
  if time_expired_ms t (lastConflictCheck (timers app)) 15000 then
    let conflictActive := check_tc_address_conflict (bus env) in
    (set_timer (with_lastConflictCheck t)
       (with_tcAddressConflictActive conflictActive app),
     if conflictActive
     then send_hardware_message
            (bytes_of_string "TC address conflict: preferred address in use") 20 HW_MSG_ALERT
     else if tcAddressConflictActive app
     then send_hardware_message (bytes_of_string "TC address conflict resolved") 5 HW_MSG_INFO
     else [])
  else (app, []).

Definition scan_implements (env : UpdateEnv) (app : Application)
    : Application * list app_out :=
  let t := now (call_env env) in
  if time_expired_ms t (lastImplementScanMs (timers app)) 1000 then
    let current := current_snapshots (clients (tcServer (aog app))) in
    (set_timer (with_lastImplementScanMs t) (with_implementSnapshots current app),
     implement_messages (implementSnapshots app) current)
  else (app, []).

(** [TractorECU] is address 240 (docs/PROTOCOL.md line 260). *)
Definition report_tecu (app : Application) : Application * list app_out :=
  if tecuAddressClaimFailed app
  then (with_tecuAddressClaimFailed false app,
        send_hardware_message (bytes_of_string "TECU failed to claim address 240")
          10 HW_MSG_ALERT)
  else (app, []).

Definition send_heartbeat (env : UpdateEnv) (app : Application)
    : Application * list app_out :=
  let t := now (call_env env) in
  if time_expired_ms t (lastHeartbeatTransmit (timers app)) 100
  then (set_timer (with_lastHeartbeatTransmit t) app,
        send_heartbeats (aogHeartbeatEnabled (settings app)) (clients (tcServer (aog app))))
  else (app, []).

Definition send_speed (env : UpdateEnv) (app : Application) : Application * list app_out :=
  let t := now (call_env env) in
  if time_expired_ms t (lastJ1939SpeedTransmit (timers app)) 100 && tecu_address_valid env
  then (if speed_accepted env then set_timer (with_lastJ1939SpeedTransmit t) app else app,
        [CanSend 65256 (j1939_speed_data (lastSpeedValue (aog app)))]) (* 0xFEE8 *)
  else (app, []).

(** Task totals are switched on when the server is set up. *)
Definition send_status (env : UpdateEnv) (app : Application) : Application * list app_out :=
  let t := now (call_env env) in
  if time_expired_ms t (lastTCStatusTransmit (timers app)) 2000 && bool_decide (is_Some (tc_address (bus env)))
  then (set_timer (with_lastTCStatusTransmit t) app,
        [CanSend 51968 (tc_status_data true)]) (* 0xCB00 *)
  else (app, []).

Definition send_gnss (env : UpdateEnv) (app : Application) : Application * list app_out :=
  let t := now (call_env env) in
  if time_expired_ms t (lastGnssSendMs (timers app)) 250 then
    let '(srv, outs) :=
      send_gnss_quality (gnss_quality_to_send t (aog app)) (tcServer (aog app)) in
    (set_timer (with_lastGnssSendMs t) (with_server srv app), Bus <$> outs)
  else (app, []).

(** The parts after the terminal, which cannot fail, in their order. *)
Definition after_terminal (env : UpdateEnv)
    : list (Application -> Application * list app_out) :=
  [log_demand env; watch_demand env; check_conflict env; scan_implements env; report_tecu;
   send_heartbeat env; send_speed env; send_status env; send_gnss env].

Definition main_actions (env : UpdateEnv) : list action :=
  [poll_detection env; poll_incoming env; atomically env serve; update_terminal env]
  ++ (atomically env <$> after_terminal env).

(** What the CAN thread does before the next round. *)
Definition sleep (env : UpdateEnv) : action := fun r =>
  run_events env (concat (schedule r)) (with_schedule [] r).

(** A round of the main loop together with all that the CAN thread does from
    its beginning to the beginning of the next. *)
Definition update (env : UpdateEnv) (events : list (list can_event)) (app : Application)
    : step_result (Application * list app_out) :=
  r ← run_actions (main_actions env ++ [sleep env])
        {| round_app := app; sent := []; schedule := events |};
  Ok (round_app r, sent r).
End app.
