(* ===== verification/AppFacts.v ===== *)
(** * The update loop keeps its promises

    The invariant of the whole application, and that a round of the main
    loop keeps it, returns, and only puts datagrams on the wire that are
    complete frames; the pacing of the periodic messages; the announcements
    of implements. *)

From S2P Require Import Prelude Ddop Hierarchy ClientState TcServer ServerFacts.
From S2P Require Import Setpoints Activation Subscription ServerInvariant Udp UdpFacts.
From S2P Require Import Settings PacketHandler Heartbeat DemandMonitor Network Vt App.

#[local] Set Default Proof Using "All".

Section invariant.
Context `{DdopApi} `{DdiCodes} `{Timing} `{JsonApi} `{Platform}.

(** *** The packet handler *)

Record aog_ok (a : Aog) : Prop := {
  aog_server : server_wf (tcServer a);
  aog_gnss : 0 <= gnssFixQuality a <= 8;
  aog_sid : 0 <= xteSid a <= 253
}.

(** No part of the handler itself sends a datagram. *)
Definition no_udp (o : app_out) : Prop :=
  match o with UdpSend _ _ _ => False | _ => True end.

Lemma no_udp_bus outs : Forall no_udp (Bus <$> outs).
Proof. apply Forall_fmap, Forall_forall. done. Qed.

Lemma no_udp_fits outs : Forall no_udp outs -> Forall udp_fits outs.
Proof. intros Ho. eapply Forall_impl; [done|]. intros []; simpl; tauto. Qed.

Lemma byte_at_nonneg data j : Forall is_u8 data -> 0 <= byte_at data j.
Proof.
  intros Hd. unfold byte_at. destruct (zlookup data j) as [x|] eqn:E; simpl; [|lia].
  pose proof (Forall_zlookup _ _ _ _ Hd E) as Hx. unfold is_u8 in Hx. lia.
Qed.

Lemma packetHandler_ok `{!DdopLaws} env p a :
  aog_ok a -> Forall is_u8 (payload p) ->
  aog_ok (packetHandler env p a).1 /\ Forall no_udp (packetHandler env p a).2.
Proof.
  intros Ha Hp. pose proof Ha as [Hs Hg Hx]. unfold packetHandler.
  destruct (_ && _).
  { split; [|constructor]. unfold handle_gnss. destruct (_ <? _); [done|]. split; try done.
    simpl. pose proof (byte_at_nonneg (payload p) GNSS_FIX_QUALITY_OFFSET Hp).
    unfold GNSS_QUALITY_MAX. destruct (Z.leb_spec (byte_at (payload p) GNSS_FIX_QUALITY_OFFSET) 8);
      lia. }
  destruct (negb _); [by split|]. destruct (_ && _).
  { unfold handle_section_states.
    pose proof (run_call_wf (UpdateSections (decode_section_states (payload p)))
      (tcServer a) Hs) as Hs'. simpl in Hs'.
    case_decide; simpl; destruct (update_section_states _ (tcServer a)) as [srv outs];
      (split; [by split|apply no_udp_bus]). }
  destruct (_ && _).
  { unfold handle_section_control.
    pose proof (run_call_wf (UpdateControlEnabled (byte_at (payload p) 0 =? 1))
      (tcServer a) Hs) as Hs'. simpl in Hs'.
    destruct (update_section_control_enabled _ (tcServer a)) as [srv outs].
    split; [by split|apply no_udp_bus]. }
  destruct (_ && _); [|by split]. unfold handle_process_data.
  destruct (_ =? _).
  { unfold handle_speed. split; [by split|]. simpl.
    destruct (has_speed_interface env), (has_nmea2000_interface env); repeat constructor. }
  destruct (_ =? _).
  { unfold handle_xte. assert (Hsid : 0 <= u8 (Z.rem (xteSid a) 253 + 1) <= 253).
    { rewrite u8_id; pose proof (Z.rem_bound_pos (xteSid a) 253); [lia|unfold is_u8; lia]. }
    destruct (time_expired_ms _ _ _); [destruct (can_accepts env)|]; simpl;
      (split; [by split|repeat constructor]). }
  destruct (_ =? _); [|by split].
  unfold handle_distance. split; [by split|]. simpl.
  destruct (has_speed_interface env); repeat constructor.
Qed.

(** *** The whole state *)

Record app_ok (app : Application) : Prop := {
  app_aog : aog_ok (aog app);
  app_settings : settings_ok (settings app);
  app_detection : rx_ok (rxDetection app) /\ rxIndex (rxDetection app) < 8;
  app_incoming : rx_ok (rxIncoming app) /\ rxIndex (rxIncoming app) < 8
}.

(** What a part keeps that sees the shared state once. *)
Definition step_ok (step : Application -> Application * list app_out) : Prop :=
  forall app, app_ok app -> app_ok (step app).1 /\ Forall udp_fits (step app).2.

Lemma app_ok_timer f app : app_ok app -> app_ok (set_timer f app).
Proof. intros []. by split. Qed.

Lemma app_ok_server srv app : app_ok app -> server_wf srv -> app_ok (with_server srv app).
Proof. intros [[] ? ? ?] Hs. split; [by split|done..]. Qed.

Lemma serve_ok `{!DdopLaws} : step_ok serve.
Proof.
  intros app Ha. unfold serve.
  pose proof (run_call_wf Request _ (aog_server _ (app_aog _ Ha))) as Hs. simpl in Hs.
  destruct (request_measurement_commands _) as [srv outs].
  split; [by apply app_ok_server|apply no_udp_fits, no_udp_bus].
Qed.

Lemma log_section_demand_aog t a l :
  exists n, (log_section_demand t a l).1.1 = with_sectionDemandChangesSinceLog n a.
Proof.
  unfold log_section_demand. destruct (_ || _); simpl; [|by eexists].
  exists (sectionDemandChangesSinceLog a). by destruct a.
Qed.

Lemma udp_fits_monitor full_name t arriving demand m w outs l :
  Forall udp_fits outs ->
  Forall udp_fits (foldl (check_client full_name t arriving demand m) (w, outs) l).2.
Proof.
  intros Ho. apply (foldl_ind (fun acc => Forall udp_fits acc.2)); [done|].
  intros c [w' outs'] _ Ho'. unfold check_client. destruct (m !! c); [|done].
  destruct (monitor_step _ _ _) as [w'' warn]. cbn [fst snd] in *.
  apply Forall_app_2; [done|]. destruct warn; [apply udp_fits_hardware|constructor].
Qed.

Lemma log_demand_ok env : step_ok (log_demand env).
Proof.
  intros app Ha. unfold log_demand.
  destruct (log_section_demand_aog (now (call_env env)) (aog app) (demandLog app)) as [n Hn].
  destruct (log_section_demand _ _ _) as [[a l] line]. cbn [fst] in Hn. subst a.
  split; [|constructor]. destruct Ha as [[] ? ? ?]. split; [by split|done..].
Qed.

Lemma watch_demand_ok full_name env : step_ok (watch_demand full_name env).
Proof.
  intros app Ha. unfold watch_demand. destruct (time_expired_ms _ _ _); [|by split].
  pose proof (udp_fits_monitor full_name (now (call_env env)) (demand_arriving (now (call_env env)) (aog app))
    (sectionDemand (aog app)) (clients (tcServer (aog app)))
    (workingWithoutDemand app) [] (client_order (clients (tcServer (aog app)))) (Forall_nil_2 _)) as Ho.
  fold (check_section_demand full_name (now (call_env env)) (aog app)
    (workingWithoutDemand app)) in Ho.
  destruct (check_section_demand _ _ _ _) as [w outs].
  split; [apply app_ok_timer; by destruct Ha|done].
Qed.

Lemma check_conflict_ok env : step_ok (check_conflict env).
Proof.
  intros app Ha. unfold check_conflict. destruct (time_expired_ms _ _ _); [|by split].
  split; [apply app_ok_timer; by destruct Ha|]. simpl.
  destruct (check_tc_address_conflict (bus env)); [apply udp_fits_hardware|].
  destruct (tcAddressConflictActive app); [apply udp_fits_hardware|constructor].
Qed.

Lemma udp_fits_messages {A} (f : A -> list app_out) (l : list A) :
  (forall x, Forall udp_fits (f x)) -> Forall udp_fits (concat (f <$> l)).
Proof. intros Hf. induction l; simpl; [constructor|by apply Forall_app_2]. Qed.

Lemma scan_implements_ok full_name env : step_ok (scan_implements full_name env).
Proof.
  intros app Ha. unfold scan_implements. destruct (time_expired_ms _ _ _); [|by split].
  split; [apply app_ok_timer; by destruct Ha|].
  apply Forall_app_2; apply udp_fits_messages; intros; apply udp_fits_hardware.
Qed.

Lemma report_tecu_ok : step_ok report_tecu.
Proof.
  intros app Ha. unfold report_tecu. destruct (tecuAddressClaimFailed app); [|by split].
  split; [by destruct Ha|apply udp_fits_hardware].
Qed.

Lemma send_heartbeat_ok env : step_ok (send_heartbeat env).
Proof.
  intros app Ha. unfold send_heartbeat. destruct (time_expired_ms _ _ _); [|by split].
  split; [apply app_ok_timer; by destruct Ha|]. unfold send_heartbeats.
  apply Forall_app_2.
  - apply udp_fits_messages. intros c.
    destruct (clients (tcServer (aog app)) !! c) as [st|] eqn:E; [|constructor].
    apply udp_fits_client_heartbeat. by apply (aog_server _ (app_aog _ Ha) c).
  - destruct (_ && _); [|constructor]. constructor; [|constructor].
    apply send_finished. by vm_compute.
Qed.

Lemma send_speed_ok env : step_ok (send_speed env).
Proof.
  intros app Ha. unfold send_speed. destruct (_ && _); [|by split].
  split; [|by repeat constructor]. destruct (speed_accepted env); [by apply app_ok_timer|done].
Qed.

Lemma send_status_ok env : step_ok (send_status env).
Proof.
  intros app Ha. unfold send_status. destruct (_ && _); [|by split].
  split; [by apply app_ok_timer|by repeat constructor].
Qed.

Lemma send_gnss_ok `{!DdopLaws} env : step_ok (send_gnss env).
Proof.
  intros app Ha. unfold send_gnss. destruct (time_expired_ms _ _ _); [|by split].
  pose proof (run_call_wf (SendGnss (gnss_quality_to_send (now (call_env env)) (aog app)))
    _ (aog_server _ (app_aog _ Ha))) as Hs. simpl in Hs.
  destruct (send_gnss_quality _ _) as [srv outs].
  split; [by apply app_ok_timer, app_ok_server|apply no_udp_fits, no_udp_bus].
Qed.

(** The listeners only flip switches. *)
Lemma put_bool_ok b x s : settings_ok s -> settings_ok (put_bool b x s).
Proof. intros []. by split. Qed.

Lemma set_boolean_ok env b x s :
  settings_ok s ->
  match set_boolean env b x true s with
  | (Returns _, s', _) => settings_ok s'
  | (Throws, _, _) => exists s', (save env s').1 = Throws
  end.
Proof.
  intros Hs. unfold set_boolean. cbn [negb].
  destruct (save env (put_bool b x s)) as [[[]|] es] eqn:E;
    [by do 2 try apply put_bool_ok..|].
  exists (put_bool b x s). by rewrite E.
Qed.

Lemma on_change_numeric_value_ok env nmea id value s :
  settings_ok s ->
  match on_change_numeric_value env nmea id value s with
  | (Returns _, s', _, _) => settings_ok s'
  | (Throws, _, _, _) => exists s', (save env s').1 = Throws
  end.
Proof.
  intros Hs. unfold on_change_numeric_value. destruct (switch_of id) as [b|]; [|done].
  unfold apply_switch, set_nmea_send_enabled, set_tecu_enabled.
  pose proof (set_boolean_ok env NmeaSend (negb (value =? 0)) s Hs) as Hn.
  pose proof (set_boolean_ok env Tecu (negb (value =? 0)) s Hs) as Ht.
  destruct b, nmea;
    try (destruct (set_boolean env NmeaSend _ true s) as [[[[]|] ?] ?]; exact Hn);
    try (destruct (set_boolean env Tecu _ true s) as [[[[]|] ?] ?]; exact Ht);
    exact Hs.
Qed.

Lemma no_udp_terminal outs : Forall no_udp (Terminal <$> outs).
Proof. apply Forall_fmap, Forall_forall. done. Qed.

(** *** Results *)

Definition save_throws (env : UpdateEnv) : Prop :=
  exists s, (save (save_env env) s).1 = Throws.

Definition bind_throws (env : UpdateEnv) : Prop :=
  exists subnet, bind_connection (sockets env) subnet = None.

(** The path for the file of a pool cannot be had. *)
Definition activation_throws (events : list can_event) : Prop :=
  exists fs c name device, ServerCall (Activate fs c name) ∈ events /\
    path_throws fs (ddop_file_name name device) = true.

(** What may end the process besides a setting that cannot be saved. *)
Context (dies : Prop).

(** A part of a round stays in bounds and establishes [P] if it returns; it
    runs for ever only if [bad], and throws only if a setting cannot be saved,
    on the main thread also if the connection cannot be bound, and on the CAN
    thread also if [dies]. *)
Definition result_ok {A} (env : UpdateEnv) (bad : Prop) (P : A -> Prop) (m : step_result A)
    : Prop :=
  match m with
  | Ok a => P a
  | Diverges => bad
  | Undefined => False
  | Escapes => save_throws env \/ bind_throws env
  | Terminates => save_throws env \/ dies
  end.

Lemma result_ok_bind {A B} env bad (P : A -> Prop) (Q : B -> Prop) m f :
  result_ok env bad P m -> (forall a, P a -> result_ok env bad Q (f a)) ->
  result_ok env bad Q (m ≫= f).
Proof. intros Hm Hf. destruct m; [by apply Hf|done..]. Qed.

Lemma result_ok_mono {A} env (bad bad' : Prop) (P Q : A -> Prop) m :
  result_ok env bad P m -> (bad -> bad') -> (forall a, P a -> Q a) -> result_ok env bad' Q m.
Proof. intros Hm Hb HP. destruct m; simpl in *; auto. Qed.

(** *** Actions *)

(** An event that may throw only if [dies]. *)
Definition covered (event : can_event) : Prop := activation_throws [event] -> dies.

Lemma covered_all events : (activation_throws events -> dies) -> Forall covered events.
Proof.
  intros Hd. apply Forall_forall. intros event Hin (fs & c & name & device & He & Ht).
  apply list_elem_of_singleton in He as <-. apply Hd. by exists fs, c, name, device.
Qed.

Definition good_round (r : Round) : Prop :=
  app_ok (round_app r) /\ Forall udp_fits (sent r) /\ Forall covered (concat (schedule r)).

Lemma good_round_emit app outs r :
  good_round r -> app_ok app -> Forall udp_fits outs -> good_round (emit app outs r).
Proof. intros (_ & Ho & Hs) Ha Ho'. split_and!; [done|by apply Forall_app_2|done]. Qed.

(** The rest of the round, which does not touch the buffers. *)
Definition buffers (app : Application) : RxState * RxState := (rxDetection app, rxIncoming app).

Definition same_buffers (r r' : Round) : Prop :=
  buffers (round_app r') = buffers (round_app r).

Definition keeps_round (env : UpdateEnv) (act : action) : Prop :=
  forall r, good_round r ->
  result_ok env False (fun r' => good_round r' /\ same_buffers r r') (act r).

Lemma keeps_round_ok env act bad r :
  keeps_round env act -> good_round r -> result_ok env bad good_round (act r).
Proof. intros Hact Hr. eapply result_ok_mono; [by apply Hact|done..|by intros ? []]. Qed.

Lemma keeps_bind env (act : action) (k : action) :
  keeps_round env act -> keeps_round env k -> keeps_round env (fun r => r ← act r; k r).
Proof.
  intros Hact Hk r Hr. eapply result_ok_bind; [by apply Hact|].
  intros r1 [Hr1 Hb1]. eapply result_ok_mono; [by apply Hk|done..|].
  intros r2 [Hr2 Hb2]. split; [done|]. unfold same_buffers in *. congruence.
Qed.

Lemma keeps_ret env : keeps_round env (fun r => Ok r).
Proof. by intros r Hr. Qed.

Lemma listen_ok env input s :
  settings_ok s ->
  result_ok env False (fun r => settings_ok r.1) (listen env input s).
Proof.
  intros Hs. destruct input as [pressed id|id value]; [done|]. unfold listen.
  pose proof (on_change_numeric_value_ok (save_env env) (has_nmea2000 (terminal env))
    id value s Hs) as Hc.
  destruct (on_change_numeric_value _ _ _ _ _) as [[[[[]|] ?] ?] ?]; [done|by left].
Qed.

Lemma can_step_keeps `{!DdopLaws} env event :
  covered event -> keeps_round env (can_step env event).
Proof.
  intros Hcov r Hr. pose proof Hr as [Ha _]. destruct event as [call|input]; cbn [can_step].
  - destruct (call_throws _ _) eqn:Et.
    { right. apply Hcov. apply call_throws_path in Et as (fs & c & name & device & -> & Ht).
      exists fs, c, name, device. split; [by left|done]. }
    split; [|done]. apply good_round_emit; [done| |apply no_udp_fits, no_udp_bus].
    apply app_ok_server; [done|]. apply run_call_wf, aog_server, Ha.
  - destruct (_ && _); [|done].
    eapply result_ok_bind; [by apply listen_ok, Ha|]. intros [s outs] Hs. split; [|done].
    apply good_round_emit; [done|by destruct Ha|apply no_udp_fits, no_udp_terminal].
Qed.

Lemma run_events_keeps `{!DdopLaws} env events :
  Forall covered events -> keeps_round env (run_events env events).
Proof.
  induction 1; cbn [run_events]; [apply keeps_ret|].
  by apply keeps_bind; [apply can_step_keeps|].
Qed.

Lemma preempt_keeps `{!DdopLaws} env : keeps_round env (preempt env).
Proof.
  intros r Hr. unfold preempt. destruct Hr as (Ha & Ho & Hs).
  destruct (schedule r) as [|events rest] eqn:E; [split; [|done]; split_and!; [done..|by rewrite E]|].
  cbn [concat] in Hs. apply Forall_app in Hs as [Hev Hrest].
  by apply (run_events_keeps env events Hev (with_schedule rest r)).
Qed.

Lemma sleep_keeps `{!DdopLaws} env : keeps_round env (sleep env).
Proof.
  intros r (Ha & Ho & Hs). apply (run_events_keeps env _ Hs (with_schedule [] r)).
  split_and!; [done..|constructor].
Qed.

Lemma atomically_keeps `{!DdopLaws} env part :
  step_ok part -> (forall app, buffers (part app).1 = buffers app) ->
  keeps_round env (atomically env part).
Proof.
  intros Hpart Hb. apply keeps_bind; [apply preempt_keeps|]. intros r Hr.
  specialize (Hb (round_app r)). destruct (Hpart (round_app r) (proj1 Hr)) as [Ha Ho].
  destruct (part (round_app r)) as [app outs]. split; [by apply good_round_emit|done].
Qed.

Lemma run_actions_keeps env acts :
  Forall (keeps_round env) acts -> keeps_round env (run_actions acts).
Proof.
  induction 1; cbn [run_actions]; [apply keeps_ret|by apply keeps_bind].
Qed.

Lemma apply_subnet_keeps `{!DdopLaws} env a b c :
  is_u8 a /\ is_u8 b /\ is_u8 c -> keeps_round env (apply_subnet env (Udp.set_subnet a b c)).
Proof.
  intros Habc. apply keeps_bind; [apply preempt_keeps|]. intros r [Ha Ho].
  unfold Settings.set_subnet, maybe_save. set (s1 := Build_Settings _ _ _ _ _ _ _ _).
  destruct (save (save_env env) s1) as [[x|] es] eqn:E.
  - destruct (bind_connection _ _) as [endpoint|] eqn:Hb; [|right; by exists (configuredSubnet s1)].
    split; [|done]. split; [|done]. destruct Ha as [? [] ? ?]. by split.
  - left. exists s1. by rewrite E.
Qed.

Lemma handle_packet_keeps `{!DdopLaws} env p :
  Forall is_u8 (payload p) -> keeps_round env (handle_packet env p).
Proof.
  intros Hp. apply atomically_keeps.
  - intros app Ha. destruct (packetHandler_ok (call_env env) p (aog app) (app_aog _ Ha) Hp).
    destruct (packetHandler _ _ _) as [a outs]. destruct Ha. split; [done|by apply no_udp_fits].
  - intros app. by destruct (packetHandler _ _ _).
Qed.

Lemma update_strings_ok env : step_ok (update_strings env).
Proof.
  intros app Ha. unfold update_strings. destruct (update_vt_status_strings _ _ _ _ _) as [v outs].
  split; [by destruct Ha|apply no_udp_fits, no_udp_terminal].
Qed.

Lemma update_terminal_keeps `{!DdopLaws} env : keeps_round env (update_terminal env).
Proof.
  unfold update_terminal. destruct (has_vt_client env); cbn [negb]; [|apply keeps_ret].
  apply keeps_bind; [apply preempt_keeps|]. intros r Hr.
  destruct (vt_round _ _ _ _) as [[v outs] due].
  set (r1 := emit (with_vt v (round_app r)) _ r).
  assert (Hr1 : good_round r1).
  { apply good_round_emit; [done|by destruct Hr as [[] _]|apply no_udp_fits, no_udp_terminal]. }
  destruct due; [|done].
  eapply result_ok_mono;
    [apply (atomically_keeps env (update_strings env)); [apply update_strings_ok| |exact Hr1]
    |done..].
  intros app. unfold update_strings. by destruct (update_vt_status_strings _ _ _ _ _).
Qed.

(** The parts after the terminal leave the buffers alone. *)
Lemma after_terminal_buffers full_name env :
  Forall (fun part => forall app, buffers (part app).1 = buffers app)
    (after_terminal full_name env).
Proof.
  repeat constructor; intros app.
  - unfold log_demand. by destruct (log_section_demand _ _ _) as [[] ?].
  - unfold watch_demand. destruct (time_expired_ms _ _ _); [|done].
    by destruct (check_section_demand _ _ _ _).
  - unfold check_conflict. by destruct (time_expired_ms _ _ _).
  - unfold scan_implements. by destruct (time_expired_ms _ _ _).
  - unfold report_tecu. by destruct (tecuAddressClaimFailed app).
  - unfold send_heartbeat. by destruct (time_expired_ms _ _ _).
  - unfold send_speed. destruct (_ && _); [|done]. by destruct (speed_accepted env).
  - unfold send_status. by destruct (_ && _).
  - unfold send_gnss. destruct (time_expired_ms _ _ _); [|done].
    by destruct (send_gnss_quality _ _).
Qed.

Lemma after_terminal_ok `{!DdopLaws} full_name env :
  Forall step_ok (after_terminal full_name env).
Proof.
  unfold after_terminal. repeat (apply Forall_cons_2);
    eauto using Forall_nil_2, log_demand_ok, watch_demand_ok, check_conflict_ok,
      scan_implements_ok, report_tecu_ok, send_heartbeat_ok, send_speed_ok, send_status_ok,
      send_gnss_ok.
Qed.

Lemma serve_buffers app : buffers (serve app).1 = buffers app.
Proof. unfold serve. by destruct (request_measurement_commands _). Qed.

(** Everything after the sockets. *)
Lemma after_sockets_keeps `{!DdopLaws} full_name env :
  keeps_round env (run_actions ([atomically env serve; update_terminal env]
    ++ (atomically env <$> after_terminal full_name env) ++ [sleep env])).
Proof.
  apply run_actions_keeps. repeat apply Forall_app_2.
  - constructor; [apply atomically_keeps; [apply serve_ok|apply serve_buffers]|].
    by constructor; [apply update_terminal_keeps|].
  - apply Forall_fmap, Forall_forall. intros part Hin. apply atomically_keeps.
    + by pose proof (proj1 (Forall_forall _ _) (after_terminal_ok full_name env) part Hin).
    + by pose proof (proj1 (Forall_forall _ _) (after_terminal_buffers full_name env) part Hin).
  - constructor; [apply sleep_keeps|done].
Qed.
End invariant.

Section claims.
Context `{DdopApi} `{DdiCodes} `{Timing} `{JsonApi} `{Platform}.

Definition datagram_bytes (r : Received) : list Z :=
  match r with Datagram bytes => bytes | _ => [] end.

(** The byte 250 is in neither datagram nor buffer. *)
Definition no_250_pending (env : UpdateEnv) (app : Application) : Prop :=
  250 ∉ datagram_bytes (detection env) /\ 250 ∉ datagram_bytes (incoming env) /\
  no_250 (rxDetection app) /\ no_250 (rxIncoming app).

Lemma poll_detection_ok `{!DdopLaws} dies env r :
  good_round dies r -> Forall is_u8 (datagram_bytes (detection env)) ->
  result_ok dies env (handle_address_detection 1024 (detection env) (rxDetection (round_app r)) = Running)
    (fun r' => good_round dies r' /\ rxIncoming (round_app r') = rxIncoming (round_app r) /\
       (250 ∉ datagram_bytes (detection env) -> no_250 (rxDetection (round_app r)) ->
        no_250 (rxDetection (round_app r')))) (poll_detection env r).
Proof.
  intros [Ha Ho] Hb. pose proof Ha as [Haog Hset [Hrx H8] Hinc].
  assert (Hbytes : forall bytes, detection env = Datagram bytes -> Forall is_u8 bytes)
    by (intros bytes Hd; by rewrite Hd in Hb).
  destruct (poll_safe_round address_round (detection env) (rxDetection (round_app r))
    address_round_ok Hrx H8 Hbytes) as [Hsafe Hend].
  specialize (Hsafe 1024%nat). unfold poll_detection, handle_address_detection in *.
  destruct (handle_received address_round 1024 (detection env) (rxDetection (round_app r)))
    as [[rx outs]| |] eqn:E; cbn [of_loop mbind step_bind]; [|done|].
  - assert (Houts : Forall (fun o => match o with
      | Udp.set_subnet a b c => is_u8 a /\ is_u8 b /\ is_u8 c end) outs).
    { unfold handle_received in E. destruct (detection env) as [| |bytes];
        [by simplify_eq; constructor..|].
      eapply (rx_loop_outs address_round _ 1024 _ 0); [apply address_round_ok| | | |done];
        [apply address_round_outs|by apply fill_buffer_ok|done]. }
    eapply result_ok_mono; [apply (run_actions_keeps dies env); [|by split_and?]|done|].
    { apply Forall_fmap. eapply Forall_impl; [done|]. intros [a b c]. apply (apply_subnet_keeps dies). }
    intros r' [Hr' Hbuf]. injection Hbuf as Hd' Hi'. split_and!; [done..|].
    intros Hn Hno. rewrite Hd'. eapply handle_received_no_250; [apply address_round_ok|done| |done|].
    + intros bytes Hr. rewrite Hr in Hb, Hn. done.
    + exact E.
  - done.
Qed.

Lemma poll_incoming_ok `{!DdopLaws} dies env r :
  good_round dies r -> Forall is_u8 (datagram_bytes (incoming env)) ->
  result_ok dies env (handle_incoming_packets 1024 (incoming env) (rxIncoming (round_app r)) = Running)
    (fun r' => good_round dies r' /\ rxDetection (round_app r') = rxDetection (round_app r) /\
       (250 ∉ datagram_bytes (incoming env) -> no_250 (rxIncoming (round_app r)) ->
        no_250 (rxIncoming (round_app r')))) (poll_incoming env r).
Proof.
  intros [Ha Ho] Hb. pose proof Ha as [Haog Hset Hdet [Hrx H8]].
  assert (Hbytes : forall bytes, incoming env = Datagram bytes -> Forall is_u8 bytes)
    by (intros bytes Hd; by rewrite Hd in Hb).
  destruct (poll_safe_round incoming_round (incoming env) (rxIncoming (round_app r))
    incoming_round_ok Hrx H8 Hbytes) as [Hsafe Hend].
  specialize (Hsafe 1024%nat). unfold poll_incoming, handle_incoming_packets in *.
  destruct (handle_received incoming_round 1024 (incoming env) (rxIncoming (round_app r)))
    as [[rx ps]| |] eqn:E; cbn [of_loop mbind step_bind]; [|done|].
  - assert (Hps : Forall (fun p => Forall is_u8 (payload p)) ps).
    { unfold handle_received in E. destruct (incoming env) as [| |bytes];
        [by simplify_eq; constructor..|].
      eapply (rx_loop_outs incoming_round _ 1024 _ 0); [apply incoming_round_ok| | | |done];
        [apply incoming_round_outs|by apply fill_buffer_ok|done]. }
    eapply result_ok_mono; [apply (run_actions_keeps dies env); [|by split_and?]|done|].
    { apply Forall_fmap. eapply Forall_impl; [done|]. intros p. apply (handle_packet_keeps dies). }
    intros r' [Hr' Hbuf]. injection Hbuf as Hd' Hi'. split_and!; [done..|].
    intros Hn Hno. rewrite Hi'. eapply handle_received_no_250; [apply incoming_round_ok|done| |done|].
    + intros bytes Hr. rewrite Hr in Hb, Hn. done.
    + exact E.
  - done.
Qed.

(** A socket whose loop does not end has seen the byte 250. *)
Lemma running_250 {Out} (round : round_fn Out) received rx :
  round_ok round -> rx_ok rx -> rxIndex rx < 8 -> Forall is_u8 (datagram_bytes received) ->
  handle_received round 1024 received rx = Running ->
  ~ (250 ∉ datagram_bytes received /\ no_250 rx).
Proof.
  intros Hround Hrx H8 Hb Hrun [Hd Hn].
  destruct (poll_safe_round round received rx Hround Hrx H8) as [_ Hend].
  { intros bytes E. by rewrite E in Hb. }
  destruct (Hend Hn) as (rx' & outs & E); [|congruence]. intros bytes E. by rewrite E in Hd.
Qed.

Definition update_runs_on (env : UpdateEnv) (app : Application) : Prop :=
  handle_address_detection 1024 (detection env) (rxDetection app) = Running \/
  handle_incoming_packets 1024 (incoming env) (rxIncoming app) = Running.

Lemma update_result_ok `{!DdopLaws} full_name env events app :
  app_ok app -> Forall is_u8 (datagram_bytes (detection env)) ->
  Forall is_u8 (datagram_bytes (incoming env)) ->
  result_ok (activation_throws (concat events)) env (update_runs_on env app)
    (fun r => app_ok r.1 /\ Forall udp_fits r.2 /\
       (no_250_pending env app -> no_250 (rxDetection r.1) /\ no_250 (rxIncoming r.1)))
    (update full_name env events app).
Proof.
  intros Hok Hd Hi. set (r0 := {| round_app := app; sent := []; schedule := events |}).
  set (dies := activation_throws (concat events)).
  assert (Hr0 : good_round dies r0) by (split_and!; [done..|by apply covered_all]).
  set (clean (r : Round) := no_250_pending env app ->
    no_250 (rxDetection (round_app r)) /\ no_250 (rxIncoming (round_app r))).
  apply (result_ok_bind dies _ _ (fun r => good_round dies r /\ clean r));
    [|by intros [? ? ?] [(? & ? & ?) ?]].
  eapply result_ok_bind.
  { eapply result_ok_mono; [by apply (poll_detection_ok dies env r0)|by left|done]. }
  intros r1 (Hr1 & Hb1 & Hn1). eapply result_ok_bind.
  { eapply result_ok_mono; [by apply (poll_incoming_ok dies env r1)| |done].
    rewrite Hb1. by right. }
  intros r2 (Hr2 & Hb2 & Hn2).
  eapply (result_ok_mono dies env False); [exact (after_sockets_keeps dies full_name env r2 Hr2)|done|].
  intros r3 [Hr3 Hb3]. split; [done|]. injection Hb3 as Hd3 Hi3. unfold clean.
  rewrite Hd3, Hi3, Hb2. rewrite Hb1 in Hn2. intros (? & ? & ? & ?). split; auto.
Qed.

(** C9: a round of the main loop, whatever arrives and whatever the CAN thread
    does between any two of its critical sections, never touches memory
    outside the receive buffers. When it returns, the application invariant
    holds again (legal client states, settings, fix quality and sequence
    number, fewer than eight bytes pending) and every datagram it sent is one
    complete frame. It always returns unless the byte 250 has arrived, storing
    a setting throws, the connection cannot be bound to a new subnet, or the
    CAN thread activates a pool whose file has no place; on the CAN thread an
    exception ends the process. *)
Theorem update_keeps_invariant `{!DdopLaws} (full_name : Z -> Z)
    (env : UpdateEnv) (events : list (list can_event)) (app : Application)
    (Hok : app_ok app) (Hd : Forall is_u8 (datagram_bytes (detection env)))
    (Hi : Forall is_u8 (datagram_bytes (incoming env))) :
  match update full_name env events app with
  | Ok (app', outs) => app_ok app' /\ Forall udp_fits outs
  | Undefined => False
  | Diverges => ~ no_250_pending env app
  | Escapes => (exists s, (save (save_env env) s).1 = Throws) \/
      exists subnet, bind_connection (sockets env) subnet = None
  | Terminates => (exists s, (save (save_env env) s).1 = Throws) \/
      exists fs c name device, ServerCall (Activate fs c name) ∈ concat events /\
        path_throws fs (ddop_file_name name device) = true
  end.
Proof.
  pose proof (update_result_ok full_name env events app Hok Hd Hi) as Hr.
  destruct (update full_name env events app) as [[app' outs]| | | |];
    [by destruct Hr as (? & ? & _)| |done..].
  intros (Hnd & Hni & Hrd & Hri). destruct Hok as [_ _ [? ?] [? ?]].
  destruct Hr as [Hr|Hr]; revert Hr.
  - intros Hr. by eapply running_250; [apply address_round_ok| | | |exact Hr|].
  - intros Hr. by eapply running_250; [apply incoming_round_ok| | | |exact Hr|].
Qed.

(** ** Pacing *)

(** The four periodic messages are paced: each is sent in a round only
    when its period (100 ms heartbeat, 100 ms speed, 2000 ms status, 250 ms
    GNSS quality) has passed since its time stamp, and the round that sends
    it sets the time stamp, so that the message is not sent again within the
    period; only a speed message that the CAN stack rejects is retried. *)
Theorem periodic_messages_paced `{!TimingLaws} (env : UpdateEnv) (app : Application) :
  let t := now (call_env env) in
  let due last period := period <=? u32 (t - last) in
  (let r := send_heartbeat env app in
   if due (lastHeartbeatTransmit (timers app)) 100
   then lastHeartbeatTransmit (timers r.1) = t /\
        r.2 = send_heartbeats (aogHeartbeatEnabled (settings app)) (clients (tcServer (aog app)))
   else r = (app, [])) /\
  (let r := send_speed env app in
   if due (lastJ1939SpeedTransmit (timers app)) 100 && tecu_address_valid env
   then lastJ1939SpeedTransmit (timers r.1) =
          (if speed_accepted env then t else lastJ1939SpeedTransmit (timers app)) /\
        r.2 = [CanSend 65256 (j1939_speed_data (lastSpeedValue (aog app)))]
   else r = (app, [])) /\
  (let r := send_status env app in
   if due (lastTCStatusTransmit (timers app)) 2000 && bool_decide (is_Some (tc_address (bus env)))
   then lastTCStatusTransmit (timers r.1) = t /\
        r.2 = [CanSend 51968 [254; 255; 255; 255; 1; 0; 0; 255]]
   else r = (app, [])) /\
  (let r := send_gnss env app in
   if due (lastGnssSendMs (timers app)) 250
   then lastGnssSendMs (timers r.1) = t
   else r = (app, [])).
Proof.
  unfold send_heartbeat, send_speed, send_status, send_gnss.
  rewrite !time_expired_ms_spec. split_and!.
  - by destruct (100 <=? _).
  - destruct (_ && _); [|done]. by destruct (speed_accepted env).
  - by destruct (_ && _).
  - destruct (250 <=? _); [|done]. by destruct (send_gnss_quality _ _).
Qed.

(** ** Implements *)

Lemma elem_of_only_in m1 m2 i :
  i ∈ only_in m1 m2 <-> exists k, m1 !! k = Some i /\ m2 !! k = None.
Proof.
  unfold only_in. rewrite list_elem_of_omap. split.
  - intros (k & Hk & Hi). case_decide as Hd; [done|]. exists k.
    split; [done|]. by apply eq_None_not_Some.
  - intros (k & Hk1 & Hk2). exists k. split; [apply elem_of_key_order; eauto|].
    rewrite decide_False; [done|]. by apply eq_None_not_Some.
Qed.

Lemma only_in_nil m1 m2 : dom m1 ⊆ dom m2 -> only_in m1 m2 = [].
Proof.
  intros Hsub. destruct (only_in m1 m2) as [|i l] eqn:E; [done|exfalso].
  assert (Hi : i ∈ only_in m1 m2) by (rewrite E; left).
  apply elem_of_only_in in Hi as (k & Hk1 & Hk2%not_elem_of_dom).
  apply Hk2, Hsub, elem_of_dom. eauto.
Qed.

(** Comparing two scans announces exactly the implements whose NAME is
    new and reports lost exactly those whose NAME is gone, by the name they
    had when last seen; scans with the same NAMEs say nothing, even when
    an implement's details changed. *)
Theorem implement_messages_spec (old current : gmap Z ImplementSnapshot) (o : app_out) :
  (o ∈ implement_messages old current <->
   (exists k i, current !! k = Some i /\ old !! k = None /\
      o ∈ send_hardware_message (implement_text i) 5 1) \/
   (exists k i, old !! k = Some i /\ current !! k = None /\
      o ∈ send_hardware_message (bytes_of_string "Implement lost: " ++ displayName i) 10 0)) /\
  (dom old = dom current -> implement_messages old current = []).
Proof.
  split.
  - unfold implement_messages. rewrite elem_of_app, !elem_of_concat.
    setoid_rewrite list_elem_of_fmap. unfold HW_MSG_INFO, HW_MSG_ALERT. split.
    + intros [(l & Ho & i & -> & (k & ? & ?)%elem_of_only_in)|
              (l & Ho & i & -> & (k & ? & ?)%elem_of_only_in)]; [left|right]; eauto 6.
    + intros [(k & i & Hc & Hn & Ho)|(k & i & Hc & Hn & Ho)]; [left|right];
        (eexists; split; [exact Ho|]; exists i; split; [done|]; apply elem_of_only_in; eauto).
  - intros Hdom. unfold implement_messages.
    by rewrite (only_in_nil current old), (only_in_nil old current) by (by rewrite Hdom).
Qed.
End claims.
