(* ===== verification/EndToEnd.v ===== *)
(** * From the sockets to the bus

    What the parts amount to together. A round of the main loop enters the
    task controller server a number of times, once for each packet that
    carries section states or the section control switch, once to subscribe,
    once for the fix quality; between these the CAN thread enters it. The
    rounds therefore are a run of the server whose calls are an interleaving
    of the two ([Refinement]), and what the implements hear in any number of
    rounds is what the section controller of the specification says; a
    datagram with section states has reached the implement when the round
    that received it returns. *)

From S2P Require Import Prelude Ddop Hierarchy ClientState TcServer ServerFacts.
From S2P Require Import Setpoints Activation Subscription ServerInvariant Refinement Udp.
From S2P Require Import UdpFacts Settings PacketHandler Heartbeat DemandMonitor Network.
From S2P Require Import Vt App AppFacts.

#[local] Set Default Proof Using "All".

(** What goes out on the bus through the server. *)
Definition bus_part (outs : list app_out) : list bus_out :=
  omap (fun o => match o with Bus b => Some b | _ => None end) outs.

Lemma bus_part_app a b : bus_part (a ++ b) = bus_part a ++ bus_part b.
Proof. apply omap_app. Qed.

Lemma bus_part_bus outs : bus_part (Bus <$> outs) = outs.
Proof. induction outs as [|o outs IH]; [done|]. cbn. by f_equal. Qed.

Lemma bus_part_terminal outs : bus_part (Terminal <$> outs) = [].
Proof. by induction outs. Qed.

Lemma bus_part_udp outs : Forall (fun o => exists s p d, o = UdpSend s p d) outs -> bus_part outs = [].
Proof. induction 1 as [|o outs (s & p & d & ->) _ IH]; [done|exact IH]. Qed.

Section end_to_end.
Context `{DdopApi} `{DdiCodes} `{Timing} `{JsonApi} `{Platform}.

(** How a packet enters the server. *)
Definition packet_calls (p : Packet) : list server_call :=
  let data := payload p in
  if negb (src p =? 127) then []
  else if (pgn p =? 229) && (8 <=? zlength data) then [UpdateSections (decode_section_states data)]
  else if (pgn p =? 241) && negb (zlength data =? 0)
  then [UpdateControlEnabled (byte_at data 0 =? 1)]
  else [].

(** What the CAN thread calls. *)
Definition can_calls (events : list can_event) : list server_call :=
  omap (fun e => match e with ServerCall call => Some call | Listener _ => None end) events.

Definition round_server (r : Round) : MyTCServer * list bus_out :=
  (tcServer (aog (round_app r)), bus_part (sent r)).

Definition pending (r : Round) : list server_call := can_calls (concat (schedule r)).

(** From [r] to [r'] the server has run an interleaving of the calls [main]
    of the main thread with the first ones pending on the CAN thread. *)
Definition server_ran (main : list server_call) (r r' : Round) : Prop :=
  exists can calls, pending r = can ++ pending r' /\ merge can main calls /\
    foldl serve_call (round_server r) calls = round_server r'.

Lemma server_ran_nil r r' :
  round_server r' = round_server r -> pending r' = pending r -> server_ran [] r r'.
Proof. intros Hs Hp. exists [], []. split_and!; [by rewrite Hp|constructor|done]. Qed.

Lemma server_ran_trans m1 m2 r1 r2 r3 :
  server_ran m1 r1 r2 -> server_ran m2 r2 r3 -> server_ran (m1 ++ m2) r1 r3.
Proof.
  intros (b1 & c1 & Hp1 & Hm1 & Hr1) (b2 & c2 & Hp2 & Hm2 & Hr2).
  exists (b1 ++ b2), (c1 ++ c2). split_and!.
  - by rewrite Hp1, Hp2, app_assoc.
  - by apply merge_app.
  - by rewrite foldl_app, Hr1.
Qed.

(** Where the action returns it has made these calls. *)
Definition runs (calls : list server_call) (act : action) : Prop :=
  forall r r', act r = Ok r' -> server_ran calls r r'.

Lemma bind_Ok {A B} (m : step_result A) (f : A -> step_result B) b :
  m ≫= f = Ok b -> exists a, m = Ok a /\ f a = Ok b.
Proof. destruct m; [by eauto|done..]. Qed.

Lemma runs_ret : runs [] (fun r => Ok r).
Proof. intros r r' [= <-]. by apply server_ran_nil. Qed.

Lemma runs_bind c1 c2 (act k : action) :
  runs c1 act -> runs c2 k -> runs (c1 ++ c2) (fun r => r ← act r; k r).
Proof.
  intros Ha Hk r r' (r1 & Hr1 & Hr2)%bind_Ok. apply (server_ran_trans _ _ r r1 r'); auto.
Qed.

Lemma run_actions_runs acts callss :
  Forall2 runs callss acts -> runs (concat callss) (run_actions acts).
Proof. induction 1; cbn [run_actions concat]; [apply runs_ret|by apply runs_bind]. Qed.

(** *** The CAN thread *)

Lemma round_server_emit app outs r calls :
  foldl serve_call (tcServer (aog (round_app r)), []) calls = (tcServer (aog app), bus_part outs) ->
  foldl serve_call (round_server r) calls = round_server (emit app outs r).
Proof.
  intros Hc. unfold round_server, emit. cbn [round_app sent]. rewrite bus_part_app.
  rewrite <- (app_nil_r (bus_part (sent r))) at 1. by rewrite serve_calls_outputs, Hc.
Qed.

Lemma can_step_runs env event r r' :
  can_step env event r = Ok r' ->
  schedule r' = schedule r /\
  foldl serve_call (round_server r) (can_calls [event]) = round_server r'.
Proof.
  destruct event as [call|input]; cbn [can_step].
  - destruct (call_throws _ _); [done|]. intros [= <-]. split; [done|].
    apply round_server_emit. cbn. by rewrite bus_part_bus.
  - destruct (_ && _); [|by intros [= <-]]. intros ([s outs] & _ & [= <-])%bind_Ok.
    split; [done|]. apply round_server_emit. cbn. by rewrite bus_part_terminal.
Qed.

Lemma run_events_runs env events : forall r r',
  run_events env events r = Ok r' ->
  schedule r' = schedule r /\
  foldl serve_call (round_server r) (can_calls events) = round_server r'.
Proof.
  induction events as [|event events IH]; intros r r'; cbn [run_events]; [by intros [= <-]|].
  intros (r1 & Hr1 & Hr2)%bind_Ok.
  destruct (can_step_runs _ _ _ _ Hr1) as [Hs1 Hc1]. destruct (IH _ _ Hr2) as [Hs2 Hc2].
  split; [congruence|]. unfold can_calls in *. change (event :: events) with ([event] ++ events).
  by rewrite omap_app, foldl_app, Hc1.
Qed.

Lemma can_only r r' calls :
  pending r = calls ++ pending r' -> foldl serve_call (round_server r) calls = round_server r' ->
  server_ran [] r r'.
Proof. intros Hp Hr. exists calls, calls. split_and!; [done|apply merge_left_only|done]. Qed.

Lemma preempt_runs env : runs [] (preempt env).
Proof.
  intros r r'. unfold preempt. destruct (schedule r) as [|events rest] eqn:E.
  { intros [= <-]. by apply server_ran_nil. }
  intros [Hs Hr]%run_events_runs. apply (can_only _ _ (can_calls events)); [|done].
  unfold pending, can_calls. by rewrite E, Hs, <- omap_app.
Qed.

Lemma sleep_runs env r r' : sleep env r = Ok r' -> server_ran [] r r' /\ pending r' = [].
Proof.
  intros [Hs Hr]%run_events_runs. cbn in Hs.
  assert (Hp : pending r' = []) by (unfold pending; by rewrite Hs).
  split; [|done]. apply (can_only _ _ (pending r)); [by rewrite Hp, app_nil_r|done].
Qed.

(** *** The main thread *)

Definition part_runs (calls : list server_call)
    (part : Application -> Application * list app_out) (app : Application) : Prop :=
  foldl serve_call (tcServer (aog app), []) calls =
    (tcServer (aog (part app).1), bus_part (part app).2).

Lemma emit_runs calls app outs r :
  foldl serve_call (tcServer (aog (round_app r)), []) calls = (tcServer (aog app), bus_part outs) ->
  server_ran calls r (emit app outs r).
Proof.
  intros Hc. exists [], calls. split_and!; [done|apply merge_right_only|].
  by apply round_server_emit.
Qed.

Lemma atomically_runs env calls part :
  (forall app, part_runs calls part app) -> runs calls (atomically env part).
Proof.
  intros Hp. apply (runs_bind [] calls); [apply preempt_runs|]. intros r r'.
  specialize (Hp (round_app r)). unfold part_runs in Hp.
  destruct (part (round_app r)) as [app outs]. intros [= <-]. by apply emit_runs.
Qed.

Lemma packetHandler_runs env p a :
  foldl serve_call (tcServer a, []) (packet_calls p) =
    (tcServer (packetHandler env p a).1, bus_part (packetHandler env p a).2).
Proof.
  unfold packetHandler, packet_calls.
  destruct (Z.eqb_spec (src p) 127) as [Hs|Hs]; cbn [negb].
  2: { destruct (_ && _); [|done]. unfold handle_gnss. by destruct (_ <? _). }
  rewrite Hs. cbn [Z.eqb Pos.eqb andb].
  destruct (_ && (8 <=? _)); [|destruct (_ && negb _); [|destruct (_ && _); [|done]]].
  - unfold handle_section_states. cbn [foldl]. unfold serve_call. cbn [run_call call_outputs fst snd].
    case_decide; cbn [tcServer with_lastSectionDemandMs with_lastAogPacketMs
      with_sectionDemandChangesSinceLog with_sectionDemand];
      destruct (update_section_states _ (tcServer a)) as [srv outs];
      cbn [fst snd]; by rewrite bus_part_bus.
  - unfold handle_section_control. cbn [foldl]. unfold serve_call. cbn [run_call call_outputs fst snd].
    destruct (update_section_control_enabled _ (tcServer a)) as [srv outs].
    cbn [fst snd]. by rewrite bus_part_bus.
  - unfold handle_process_data. repeat case_match; try done.
    all: unfold handle_speed, handle_xte, handle_distance; repeat case_match; done.
Qed.

Lemma handle_packet_runs env p : runs (packet_calls p) (handle_packet env p).
Proof.
  apply atomically_runs. intros app. unfold part_runs.
  pose proof (packetHandler_runs (call_env env) p (aog app)) as Hp.
  by destruct (packetHandler _ _ _) as [a outs].
Qed.

Lemma serve_runs app : part_runs [Request] serve app.
Proof.
  unfold part_runs, serve. cbn [foldl]. unfold serve_call. cbn [run_call call_outputs fst snd].
  destruct (request_measurement_commands _) as [srv outs]. cbn [fst snd].
  by rewrite bus_part_bus.
Qed.

(** The parts that do not enter the server with a call of ours. *)
Definition not_bus (o : app_out) : Prop := match o with Bus _ => False | _ => True end.

Lemma bus_part_none outs : Forall not_bus outs -> bus_part outs = [].
Proof. induction 1 as [|[] outs Ho _ IH]; done. Qed.

Lemma not_bus_hardware text duration color : Forall not_bus (send_hardware_message text duration color).
Proof. unfold send_hardware_message. repeat case_match; repeat constructor. Qed.

Lemma not_bus_concat {A} (f : A -> list app_out) (l : list A) :
  (forall x, Forall not_bus (f x)) -> Forall not_bus (concat (f <$> l)).
Proof. intros Hf. induction l; simpl; [constructor|by apply Forall_app_2]. Qed.

Definition silent (part : Application -> Application * list app_out) : Prop :=
  forall app, tcServer (aog (part app).1) = tcServer (aog app) /\ Forall not_bus (part app).2.

Lemma silent_runs part app : silent part -> part_runs [] part app.
Proof. intros Hs. destruct (Hs app) as [Ht Ho]. unfold part_runs. by rewrite Ht, bus_part_none. Qed.

Lemma log_demand_silent env : silent (log_demand env).
Proof.
  intros app. unfold log_demand.
  destruct (log_section_demand_aog (now (call_env env)) (aog app) (demandLog app)) as [n Hn].
  destruct (log_section_demand _ _ _) as [[a l] line]. cbn [fst] in Hn. by subst a.
Qed.

Lemma not_bus_monitor full_name t arriving demand m l : forall w outs,
  Forall not_bus outs ->
  Forall not_bus (foldl (check_client full_name t arriving demand m) (w, outs) l).2.
Proof.
  intros w outs Ho. apply (foldl_ind (fun acc => Forall not_bus acc.2)); [done|].
  intros c [w' outs'] _ Ho'. unfold check_client. destruct (m !! c); [|done].
  destruct (monitor_step _ _ _) as [w'' warn]. cbn [fst snd] in *.
  apply Forall_app_2; [done|]. destruct warn; [apply not_bus_hardware|constructor].
Qed.

Lemma watch_demand_silent full_name env : silent (watch_demand full_name env).
Proof.
  intros app. unfold watch_demand. destruct (time_expired_ms _ _ _); [|by split].
  unfold check_section_demand.
  match goal with |- context [foldl (check_client ?f ?t ?a ?d ?m) (?w, []) ?l] =>
    pose proof (not_bus_monitor f t a d m l w [] (Forall_nil_2 _)) as Ho;
    destruct (foldl (check_client f t a d m) (w, []) l) as [w' outs] end.
  by split.
Qed.

Lemma send_heartbeat_silent env : silent (send_heartbeat env).
Proof.
  intros app. unfold send_heartbeat. destruct (time_expired_ms _ _ _); [|by split].
  split; [done|]. unfold send_heartbeats. apply Forall_app_2.
  - apply not_bus_concat. intros c. destruct (_ !! c); [|constructor].
    unfold client_heartbeat. repeat case_match; repeat constructor.
  - destruct (_ && _); repeat constructor.
Qed.

Lemma other_parts_silent full_name env :
  Forall silent [check_conflict env; scan_implements full_name env; report_tecu; send_speed env;
    send_status env; update_strings env].
Proof.
  repeat constructor; try (intros app; split).
  - unfold check_conflict. by destruct (time_expired_ms _ _ _).
  - unfold check_conflict. destruct (time_expired_ms _ _ _); [|done]. cbn [snd].
    destruct (check_tc_address_conflict _); [apply not_bus_hardware|].
    destruct (tcAddressConflictActive app); [apply not_bus_hardware|constructor].
  - unfold scan_implements. by destruct (time_expired_ms _ _ _).
  - unfold scan_implements. destruct (time_expired_ms _ _ _); [|done].
    apply Forall_app_2; apply not_bus_concat; intros; apply not_bus_hardware.
  - unfold report_tecu. by destruct (tecuAddressClaimFailed app).
  - unfold report_tecu. destruct (tecuAddressClaimFailed app); [apply not_bus_hardware|done].
  - unfold send_speed. destruct (_ && _); [|done]. by destruct (speed_accepted env).
  - unfold send_speed. destruct (_ && _); repeat constructor.
  - unfold send_status. by destruct (_ && _).
  - unfold send_status. destruct (_ && _); repeat constructor.
  - unfold update_strings. by destruct (update_vt_status_strings _ _ _ _ _).
  - unfold update_strings. destruct (update_vt_status_strings _ _ _ _ _).
    apply Forall_fmap, Forall_forall. done.
Qed.

Lemma update_terminal_runs env : runs [] (update_terminal env).
Proof.
  unfold update_terminal. destruct (has_vt_client env); cbn [negb]; [|apply runs_ret].
  apply (runs_bind [] []); [apply preempt_runs|]. intros r r'.
  destruct (vt_round _ _ _ _) as [[v outs] due].
  assert (Hr1 : server_ran [] r (emit (with_vt v (round_app r)) (Terminal <$> outs) r))
    by (apply emit_runs; cbn; by rewrite bus_part_terminal).
  destruct due; [|by intros [= <-]]. intros Hr2. apply (server_ran_trans [] [] _ _ _ Hr1).
  refine (atomically_runs env [] (update_strings env) _ _ _ Hr2). intros app.
  apply silent_runs. pose proof (other_parts_silent (fun c => c) env) as Ho.
  by repeat (apply Forall_cons in Ho as [? Ho]).
Qed.

Lemma apply_subnets_runs env outs : runs [] (run_actions (apply_subnet env <$> outs)).
Proof.
  induction outs as [|[a b c] outs IH]; [apply runs_ret|].
  apply (runs_bind [] []); [|done]. apply (runs_bind [] []); [apply preempt_runs|].
  intros r r'. destruct (Settings.set_subnet _ _ _ _) as [[[x|] s] es]; [|done].
  destruct (bind_connection _ _); [|done]. intros [= <-]. by apply server_ran_nil.
Qed.

(** The quality that is sent is read off the application. *)
Definition gnss_calls (calls : list server_call) : Prop :=
  calls = [] \/ exists quality, calls = [SendGnss quality].

Lemma send_gnss_runs env r r' :
  atomically env (send_gnss env) r = Ok r' -> exists calls, gnss_calls calls /\ server_ran calls r r'.
Proof.
  intros (r1 & Hr1%preempt_runs & Hr2)%bind_Ok. unfold send_gnss in Hr2.
  destruct (time_expired_ms _ _ _).
  - set (q := gnss_quality_to_send _ _) in Hr2. exists [SendGnss q]. split; [right; by exists q|].
    apply (server_ran_trans [] [SendGnss q] _ _ _ Hr1).
    destruct (send_gnss_quality q _) as [srv outs] eqn:E. injection Hr2 as <-. apply emit_runs.
    cbn [foldl]. unfold serve_call. cbn [run_call call_outputs fst snd].
    by rewrite E, bus_part_bus.
  - exists []. split; [by left|]. injection Hr2 as <-.
    apply (server_ran_trans [] [] _ _ _ Hr1). by apply emit_runs.
Qed.

(** *** A round *)

(** The packets the round hands to the packet handler. *)
Definition round_packets (env : UpdateEnv) (app : Application) : list Packet :=
  match handle_incoming_packets 1024 (incoming env) (rxIncoming app) with
  | Finished (_, ps) => ps
  | _ => []
  end.

Definition main_calls (env : UpdateEnv) (app : Application) : list server_call :=
  concat (packet_calls <$> round_packets env app) ++ [Request].

Lemma poll_incoming_runs env r r' :
  poll_incoming env r = Ok r' ->
  server_ran (concat (packet_calls <$> round_packets env (round_app r))) r r'.
Proof.
  unfold poll_incoming, round_packets.
  destruct (handle_incoming_packets _ _ _) as [[rx ps]| |]; [|done..].
  cbn [of_loop mbind step_bind]. intros Hr.
  apply (server_ran_trans [] _ _ (with_round_app (with_rxIncoming rx (round_app r)) r));
    [by apply server_ran_nil|].
  revert Hr. apply (run_actions_runs _ (packet_calls <$> ps)).
  apply Forall2_fmap, Forall_Forall2_diag, Forall_forall. intros p _. apply handle_packet_runs.
Qed.

Lemma poll_detection_runs env r r' : poll_detection env r = Ok r' -> server_ran [] r r'.
Proof.
  unfold poll_detection. destruct (handle_address_detection _ _ _) as [[rx outs]| |]; [|done..].
  cbn [of_loop mbind step_bind]. intros Hr.
  apply (server_ran_trans [] [] _ (with_round_app (with_rxDetection rx (round_app r)) r));
    [by apply server_ran_nil|]. by apply apply_subnets_runs in Hr.
Qed.

Definition octet_datagrams (env : UpdateEnv) : Prop :=
  Forall is_u8 (datagram_bytes (detection env)) /\ Forall is_u8 (datagram_bytes (incoming env)).

(** The calls a round makes, given what the CAN thread does. *)
Definition round_calls (env : UpdateEnv) (events : list (list can_event)) (app : Application)
    (calls : list server_call) : Prop :=
  exists gnss, gnss_calls gnss /\
    merge (can_calls (concat events)) (main_calls env app ++ gnss) calls.

Lemma run_actions_app a b r r' :
  run_actions (a ++ b) r = Ok r' -> exists r1, run_actions a r = Ok r1 /\ run_actions b r1 = Ok r'.
Proof.
  revert r. induction a as [|act a IH]; intros r Hr; [by exists r|].
  apply bind_Ok in Hr as (r1 & Hr1 & Hr2). destruct (IH _ Hr2) as (r2 & Hr3 & Hr4).
  exists r2. split; [|done]. cbn [run_actions]. by rewrite Hr1.
Qed.

Lemma silent_parts full_name env :
  Forall silent (take 8 (after_terminal full_name env)).
Proof.
  pose proof (other_parts_silent full_name env) as Ho. repeat (apply Forall_cons in Ho as [? Ho]).
  unfold after_terminal. cbn [take].
  repeat (apply Forall_cons_2); auto using Forall_nil_2, log_demand_silent, watch_demand_silent,
    send_heartbeat_silent.
Qed.

Lemma silent_parts_run env parts : Forall silent parts -> runs [] (run_actions (atomically env <$> parts)).
Proof.
  induction 1 as [|part parts Hp _ IH]; [apply runs_ret|].
  apply (runs_bind [] []); [|done]. apply atomically_runs. intros app. by apply silent_runs.
Qed.

Lemma after_terminal_runs full_name env r r' :
  run_actions ((atomically env <$> after_terminal full_name env) ++ [sleep env]) r = Ok r' ->
  exists gnss, gnss_calls gnss /\ server_ran gnss r r' /\ pending r' = [].
Proof.
  change (after_terminal full_name env)
    with (take 8 (after_terminal full_name env) ++ [send_gnss env]).
  rewrite fmap_app, <- app_assoc.
  intros (r1 & Hr1 & Hr2)%run_actions_app.
  apply silent_parts_run in Hr1; [|apply silent_parts].
  apply bind_Ok in Hr2 as (r2 & Hr2 & Hr3). apply bind_Ok in Hr3 as (r3 & Hr3 & [= <-]).
  destruct (send_gnss_runs env _ _ Hr2) as (gnss & Hg & Hrun).
  destruct (sleep_runs env _ _ Hr3) as [Hs Hp]. exists gnss. split_and!; [done| |done].
  apply (server_ran_trans [] gnss _ r1 _ Hr1).
  rewrite <- (app_nil_r gnss). by apply (server_ran_trans gnss [] _ r2).
Qed.

Lemma update_calls `{!DdopLaws} full_name env events app app' outs :
  app_ok app -> octet_datagrams env -> update full_name env events app = Ok (app', outs) ->
  exists calls, round_calls env events app calls /\
    serve_calls calls (tcServer (aog app)) = (tcServer (aog app'), bus_part outs).
Proof.
  intros Hok [Hd Hi] (r' & Hr & [= <- <-])%bind_Ok.
  set (r0 := {| round_app := app; sent := []; schedule := events |}) in *.
  assert (Hr0 : good_round True r0) by (split_and!; [done..|by apply covered_all]).
  apply bind_Ok in Hr as (r1 & Hr1 & Hr). apply bind_Ok in Hr as (r2 & Hr2 & Hr).
  apply bind_Ok in Hr as (r3 & Hr3 & Hr). apply bind_Ok in Hr as (r4 & Hr4 & Hr).
  assert (Hb : rxIncoming (round_app r1) = rxIncoming app).
  { pose proof (poll_detection_ok True env r0 Hr0 Hd) as Hp. rewrite Hr1 in Hp. apply Hp. }
  apply poll_detection_runs in Hr1. apply poll_incoming_runs in Hr2.
  apply (atomically_runs env [Request] serve serve_runs) in Hr3.
  apply update_terminal_runs in Hr4.
  destruct (after_terminal_runs full_name env r4 r' Hr) as (gnss & Hg & Hrun & Hp).
  assert (Hall : server_ran (main_calls env app ++ gnss) r0 r').
  { unfold main_calls. replace (round_packets env app) with (round_packets env (round_app r1))
      by (unfold round_packets; by rewrite Hb).
    rewrite <- app_assoc. apply (server_ran_trans [] _ _ r1 _ Hr1).
    apply (server_ran_trans _ _ _ r2 _ Hr2). apply (server_ran_trans _ _ _ r3 _ Hr3).
    by apply (server_ran_trans [] _ _ r4). }
  destruct Hall as (can & calls & Hcan & Hm & Hcalls). exists calls. split; [|done].
  exists gnss. split; [done|]. rewrite Hp, app_nil_r in Hcan. by rewrite <- Hcan in Hm.
Qed.

(** ** Rounds *)

Definition round_input : Type := UpdateEnv * list (list can_event).

Fixpoint run_rounds (full_name : Z -> Z) (rounds : list round_input) (app : Application)
    : step_result (Application * list app_out) :=
  match rounds with
  | [] => Ok (app, [])
  | (env, events) :: rounds =>
      '(app, outs) ← update full_name env events app;
      '(app, outs') ← run_rounds full_name rounds app;
      Ok (app, outs ++ outs')
  end.

(** The server calls of the rounds. *)
Fixpoint rounds_calls (full_name : Z -> Z) (rounds : list round_input) (app : Application)
    (calls : list server_call) : Prop :=
  match rounds with
  | [] => calls = []
  | (env, events) :: rounds =>
      exists now later app' outs, calls = now ++ later /\
        round_calls env events app now /\ update full_name env events app = Ok (app', outs) /\
        rounds_calls full_name rounds app' later
  end.

(** The client stays registered, and so do its elements if it needs them. *)
Definition rounds_permit (d : dialect) (c : Z) (rounds : list round_input) : Prop :=
  Forall (fun r => Forall (fun call => permits d c call = true) (can_calls (concat r.2))) rounds.

Lemma main_calls_keep c env app : Forall (fun call => keeps c call = true) (main_calls env app).
Proof.
  unfold main_calls. apply Forall_app_2; [|by repeat constructor].
  apply Forall_concat, Forall_fmap, Forall_forall. intros p _. unfold packet_calls, compose.
  repeat case_match; by repeat constructor.
Qed.

Lemma main_calls_permitted d c env app :
  Forall (fun call => permits d c call = true) (main_calls env app).
Proof.
  unfold main_calls. apply Forall_app_2; [|by destruct d; repeat constructor].
  apply Forall_concat, Forall_fmap, Forall_forall. intros p _. unfold packet_calls, compose.
  destruct d; repeat case_match; by repeat constructor.
Qed.

Lemma gnss_permitted d c gnss :
  gnss_calls gnss -> Forall (fun call => permits d c call = true) gnss.
Proof. intros [->|[q ->]]; destruct d; by repeat constructor. Qed.

Lemma round_calls_permitted d c env events app calls :
  round_calls env events app calls ->
  Forall (fun call => permits d c call = true) (can_calls (concat events)) ->
  Forall (fun call => permits d c call = true) calls.
Proof.
  intros (gnss & Hg & Hm) Hk. eapply merge_Forall; [done..|].
  apply Forall_app_2; [apply main_calls_permitted|by apply gnss_permitted].
Qed.

Lemma rounds_calls_spec `{!DdopLaws} full_name d c rounds : forall app app' outs,
  app_ok app -> Forall (fun r => octet_datagrams r.1) rounds -> rounds_permit d c rounds ->
  run_rounds full_name rounds app = Ok (app', outs) ->
  exists calls, rounds_calls full_name rounds app calls /\
    Forall (fun call => permits d c call = true) calls /\
    serve_calls calls (tcServer (aog app)) = (tcServer (aog app'), bus_part outs).
Proof.
  induction rounds as [|[env events] rounds IH]; intros app app' outs Hok Hb Hk; cbn [run_rounds].
  { intros [= <- <-]. by exists []. }
  apply Forall_cons in Hb as [Hb0 Hb]. apply Forall_cons in Hk as [Hk0 Hk].
  intros ([app1 outs1] & Hr1 & Hr)%bind_Ok. apply bind_Ok in Hr as ([app2 outs2] & Hr2 & [= <- <-]).
  pose proof (update_result_ok full_name env events app Hok (proj1 Hb0) (proj2 Hb0)) as Hok1.
  rewrite Hr1 in Hok1. destruct Hok1 as [Hok1 _]. cbn [fst] in Hok1.
  destruct (update_calls full_name env events app app1 outs1 Hok Hb0 Hr1) as (now & Hn & Hs1).
  destruct (IH app1 app2 outs2 Hok1 Hb Hk Hr2) as (later & Hl & Hkl & Hs2).
  exists (now ++ later). split_and!.
  - by exists now, later, app1, outs1.
  - apply Forall_app_2; [by eapply round_calls_permitted|done].
  - unfold serve_calls in *. rewrite foldl_app, Hs1, bus_part_app.
    rewrite <- (app_nil_r (bus_part outs1)) at 1. by rewrite serve_calls_outputs, Hs2.
Qed.

(** C1: the whole application implements the specification. Take any number of
    rounds of the main loop, whatever arrives at the sockets and whatever the
    CAN thread does in between, as long as client [c] stays registered: a
    subscribed client of dialect [d], in step with the server at the start,
    that sends no condensed reports if it takes its setpoints by element. When
    the rounds have returned, the implement, which only hears the messages of
    its dialect that the rounds sent to it, believes of every section what the
    section controller has as its target after the calls of these rounds,
    those of the packets and those of the CAN thread interleaved. *)
Theorem rounds_refine_controller `{!DdopLaws} `{!DdiLaws} (full_name : Z -> Z) (d : dialect)
    (c : Z) (rounds : list round_input) (app app' : Application) (outs : list app_out)
    (st : ClientState) (view : Z -> Z) (Hok : app_ok app)
    (Hbytes : Forall (fun r => octet_datagrams r.1) rounds) (Hk : rounds_permit d c rounds)
    (Hc : clients (tcServer (aog app)) !! c = Some st) (Hw : wired d st)
    (Hv : in_step st view) (Hrun : run_rounds full_name rounds app = Ok (app', outs)) :
  exists calls st', rounds_calls full_name rounds app calls /\
    clients (tcServer (aog app')) !! c = Some st' /\
    controller st' = foldl (controller_step c) (controller st) calls /\
    numberOfSections st' = numberOfSections st /\
    forall s, 0 <= s < numberOfSections st ->
      heard d (to_client c (bus_part outs)) view s =
      if nth (Z.to_nat s) (target (controller st')) false then ON else OFF.
Proof.
  destruct (rounds_calls_spec full_name d c rounds app app' outs Hok Hbytes Hk Hrun)
    as (calls & Hcalls & Hkeep & Hs).
  destruct (serve_calls_implements d c calls _ st view Hc) as (st' & Hc' & Hi); [by split|done|].
  rewrite Hs in Hc', Hi. cbn [fst snd] in *.
  pose proof (implements_sections _ _ _ st calls c Hi (wi_wf _ _ Hw)) as Hn.
  pose proof (im_controller _ _ _ _ Hi) as Hsc.
  exists calls, st'. split_and!; [done..|]. intros s Hsn. rewrite Hsc.
  eapply implements_target; [done|by rewrite Hn].
Qed.

(** ** Delivery *)

(** The calls of the CAN thread that are permitted and do not switch the
    automatic mode of client [c] off. *)
Definition undisturbed (d : dialect) (c : Z) (call : server_call) : bool :=
  callback call && permits d c call &&
  match call with
  | Value c' ddi _ v => negb ((c' =? c) && (ddi =? SectionControlState)) || (v =? 1)
  | _ => true
  end.

Lemma undisturbed_step d c call sc :
  undisturbed d c call = true -> automatic sc = true -> controller_step c sc call = sc.
Proof.
  destruct sc as [a t]. cbn [automatic]. intros Hu ->. destruct call; try done.
  apply andb_prop in Hu as [_ Hu]. cbn [controller_step].
  destruct (_ && _); [|done]. cbn [negb orb] in Hu. by rewrite Hu.
Qed.

Lemma main_call_automatic c call sc :
  callback call = false -> (forall e, call <> UpdateControlEnabled e) ->
  automatic sc = true -> automatic (controller_step c sc call) = true.
Proof.
  intros Hc He Ha. destruct call; try done; cbn [controller_step]; [by rewrite Ha|].
  by destruct (He enabled).
Qed.

Lemma frame_octets s p data :
  is_u8 s -> is_u8 p -> zlength data <= 255 -> Forall is_u8 data -> Forall is_u8 (frame s p data).
Proof.
  intros Hs Hp Hl Hd. unfold frame. apply Forall_app_2; [|apply Forall_app_2; [done|]].
  - pose proof (zlength_nonneg data). repeat (apply Forall_cons_2); try done; unfold is_u8; lia.
  - apply Forall_cons_2; [|done]. unfold checksum. rewrite land_255. unfold is_u8.
    pose proof (Z.mod_pos_bound (foldl Z.add 0 ([s; p; zlength data] ++ data)) 256). lia.
Qed.

Lemma round_packets_frame env app s p data :
  incoming env = Datagram (frame s p data) -> 2 <= zlength data <= 249 ->
  rx_ok (rxIncoming app) -> rxIndex (rxIncoming app) = 0 ->
  round_packets env app = [packet s p data] /\
  handle_incoming_packets 1024 (incoming env) (rxIncoming app) <> Running.
Proof.
  intros Hin Hd [Hl _ _] He. unfold round_packets. rewrite Hin.
  pose proof (holds_fill [] (frame s p data) (rxIncoming app) (holds_nil _ Hl He)) as Hf.
  rewrite zlength_frame in Hf. specialize (Hf ltac:(unfold zlength at 1; simpl; lia)).
  destruct (rx_loop_single s p data _ 1023 Hf Hd) as (rx' & Hrun & _).
  unfold handle_incoming_packets, handle_received. rewrite Hrun. done.
Qed.

Lemma update_returns `{!DdopLaws} full_name env events app :
  app_ok app -> octet_datagrams env ->
  250 ∉ datagram_bytes (detection env) /\ no_250 (rxDetection app) ->
  handle_incoming_packets 1024 (incoming env) (rxIncoming app) <> Running ->
  (forall s, (save (save_env env) s).1 <> Throws) ->
  (forall endpoint, bind_ok (sockets env) endpoint = true) ->
  ~ activation_throws (concat events) ->
  exists app' outs, update full_name env events app = Ok (app', outs).
Proof.
  intros Hok Hoct H250 Hends Hsave Hbind Hact.
  pose proof (update_result_ok full_name env events app Hok (proj1 Hoct) (proj2 Hoct)) as Hr.
  destruct (update full_name env events app) as [[app' outs]| | | |]; [by eauto| |done| |].
  2: { destruct Hr as [[s Hs]|[subnet Hs]]; [by destruct (Hsave s)|].
       unfold bind_connection in Hs. by rewrite Hbind in Hs. }
  2: by destruct Hr as [[s Hs]|]; [destruct (Hsave s)|].
  destruct Hr as [Hr|Hr]; [|by destruct Hends]. exfalso. destruct (app_detection _ Hok).
  by eapply (running_250 address_round); [apply address_round_ok| | |exact (proj1 Hoct)|exact Hr|].
Qed.

(** The controller after a round whose only packet carries section states. *)
Lemma demand_round_controller d c can gnss calls ss sc :
  merge can ([UpdateSections ss; Request] ++ gnss) calls -> gnss_calls gnss ->
  Forall (fun call => undisturbed d c call = true) can -> automatic sc = true ->
  foldl (controller_step c) sc calls =
    {| automatic := true; target := demand_targets ss (target sc) |}.
Proof.
  intros Hm Hg Hu Ha.
  rewrite (merge_foldl (fun sc => automatic sc = true) _ _ _ _ _ Hm); [| | |done].
  - cbn [app foldl controller_step]. rewrite Ha. by destruct Hg as [->|[q ->]].
  - eapply Forall_impl; [done|]. intros call Hcall sc'. by apply (undisturbed_step d).
  - apply Forall_app_2; [repeat apply Forall_cons_2|destruct Hg as [->|[q ->]]];
      repeat constructor; intros; by apply main_call_automatic.
Qed.

Lemma delivered_target data st view s :
  wf st -> in_step st view -> 0 <= s < numberOfSections st ->
  (if nth (Z.to_nat s) (demand_targets (decode_section_states data) (target (controller st))) false
   then ON else OFF) =
  if s <? 64 then (if Z.testbit (byte_at data (s / 8)) (s mod 8) then ON else OFF) else view s.
Proof.
  intros Hwf Hv Hs. rewrite (Hv s Hs). unfold get_section_setpoint_state.
  rewrite (proj2 (Z.ltb_lt _ _) (proj2 Hs)).
  destruct (zlookup_is_Some (sectionSetpointStates st) s) as [x Hx];
    [by rewrite (wf_setpoint_length _ Hwf)|].
  rewrite Hx. cbn [controller target default from_option].
  pose proof (Forall_zlookup _ _ _ _ (wf_setpoint_states _ Hwf) Hx) as Hstate.
  unfold zlookup in Hx.
  rewrite (nth_lookup_Some _ _ _ (default (x =? ON) (decode_section_states data !! Z.to_nat s)))
    by (unfold demand_targets; by rewrite list_lookup_imap, list_lookup_fmap, Hx).
  destruct (Z.ltb_spec s 64) as [Hlt|Hge].
  - pose proof (decode_section_states_bit data s ltac:(lia)) as Hb. unfold zlookup in Hb.
    by rewrite Hb.
  - rewrite lookup_ge_None_2 by (rewrite length_decode_section_states; lia).
    by destruct Hstate as [->| ->].
Qed.

(** A datagram with one frame of section states from AgOpenGPS comes in while
    client [c] is in automatic mode, subscribed, of dialect [d] and in step;
    the detection socket does not bring the byte 250, settings can be saved,
    the address can be bound and there is a place for the files of the pools
    that are activated meanwhile; the CAN thread leaves client [c] registered
    and in automatic mode. *)
Record demand_arrives (d : dialect) (c : Z) (env : UpdateEnv) (events : list (list can_event))
    (app : Application) (data : list Z) (st : ClientState) (view : Z -> Z) : Prop := {
  da_app : app_ok app;
  da_datagram : incoming env = Datagram (frame 127 229 data);
  da_length : 8 <= zlength data <= 249;
  da_data : Forall is_u8 data;
  da_empty : rxIndex (rxIncoming app) = 0;
  da_detection : Forall is_u8 (datagram_bytes (detection env));
  da_no_250 : 250 ∉ datagram_bytes (detection env) /\ no_250 (rxDetection app);
  da_save : forall s, (save (save_env env) s).1 <> Throws;
  da_bind : forall endpoint, bind_ok (sockets env) endpoint = true;
  da_places : ~ activation_throws (concat events);
  da_client : clients (tcServer (aog app)) !! c = Some st;
  da_wired : wired d st;
  da_automatic : is_section_control_enabled st = true;
  da_in_step : in_step st view;
  da_can_thread : Forall (fun call => undisturbed d c call = true) (can_calls (concat events))
}.

Lemma demand_octets d c env events app data st view :
  demand_arrives d c env events app data st view -> octet_datagrams env.
Proof.
  intros Ha. pose proof (da_length _ _ _ _ _ _ _ _ Ha). split; [apply Ha|].
  rewrite (da_datagram _ _ _ _ _ _ _ _ Ha). apply frame_octets; [unfold is_u8; lia..|lia|apply Ha].
Qed.

(** The calls of the round. *)
Lemma demand_calls d c env events app data st view calls :
  demand_arrives d c env events app data st view -> round_calls env events app calls ->
  exists gnss, gnss_calls gnss /\
    merge (can_calls (concat events))
      ([UpdateSections (decode_section_states data); Request] ++ gnss) calls.
Proof.
  intros Ha (gnss & Hg & Hm). exists gnss. split; [done|].
  pose proof (da_length _ _ _ _ _ _ _ _ Ha) as Hd.
  pose proof (app_incoming _ (da_app _ _ _ _ _ _ _ _ Ha)) as [Hrx _].
  destruct (round_packets_frame env app 127 229 data) as [Hps _]; [apply Ha|lia|done|apply Ha|].
  unfold main_calls in Hm. rewrite Hps in Hm.
  assert (Hpc : concat (packet_calls <$> [packet 127 229 data]) =
    [UpdateSections (decode_section_states data)]).
  { unfold packet_calls. cbn. by rewrite (proj2 (Z.leb_le 8 _)) by lia. }
  by rewrite Hpc in Hm.
Qed.

Lemma demand_delivered `{!DdopLaws} `{!DdiLaws} full_name d c env events app data st view :
  demand_arrives d c env events app data st view ->
  exists app' outs st', update full_name env events app = Ok (app', outs) /\ app_ok app' /\
    clients (tcServer (aog app')) !! c = Some st' /\ wired d st' /\
    numberOfSections st' = numberOfSections st /\
    forall s, 0 <= s < numberOfSections st ->
      heard d (to_client c (bus_part outs)) view s =
      if s <? 64 then (if Z.testbit (byte_at data (s / 8)) (s mod 8) then ON else OFF)
      else view s.
Proof.
  intros Ha. pose proof (demand_octets _ _ _ _ _ _ _ _ Ha) as Hoct.
  pose proof Ha as [Hok Hin Hd _ Hempty _ H250 Hsave Hbind Hplaces Hc Hw Hauto Hv Hcan].
  destruct (round_packets_frame env app 127 229 data Hin ltac:(lia)
    (proj1 (app_incoming _ Hok)) Hempty) as [_ Hends].
  destruct (update_returns full_name env events app Hok Hoct H250 Hends Hsave Hbind Hplaces)
    as (app' & outs & E).
  pose proof (update_result_ok full_name env events app Hok (proj1 Hoct) (proj2 Hoct)) as Hok'.
  rewrite E in Hok'. destruct Hok' as [Hok' _].
  destruct (update_calls full_name env events app app' outs Hok Hoct E) as (calls & Hcalls & Hrun).
  destruct (demand_calls _ _ _ _ _ _ _ _ _ Ha Hcalls) as (gnss & Hg & Hm).
  assert (Hkeep : Forall (fun call => permits d c call = true) calls).
  { eapply merge_Forall; [exact Hm| |].
    - eapply Forall_impl; [exact Hcan|]. intros call. unfold undisturbed.
      by intros [[_ ?]%andb_prop _]%andb_prop.
    - apply Forall_app_2; [by destruct d; repeat constructor|by apply gnss_permitted]. }
  destruct (serve_calls_implements d c calls _ st view Hc) as (st' & Hc' & Hi); [by split|done|].
  rewrite Hrun in Hi, Hc'. cbn [fst snd] in Hi, Hc'.
  pose proof (implements_sections _ _ _ st calls c Hi (wi_wf _ _ Hw)) as Hn.
  exists app', outs, st'. split_and!; [done..|apply Hi|done|].
  intros s Hs. rewrite (implements_target _ _ _ _ s Hi) by (by rewrite Hn).
  rewrite (demand_round_controller d c _ _ _ _ (controller st) Hm Hg Hcan Hauto). cbn [target].
  apply (delivered_target data st view s); [apply Hw|done..].
Qed.

End end_to_end.
