(* ===== verification/Feedback.v ===== *)
(** * From the implement back to AgOpenGPS

    The way of a report: the CAN thread files it ([on_value_command]), and
    the next heartbeat, every 100 ms on the main thread, tells AgOpenGPS which
    sections are on. In between both threads go on, with demands,
    subscriptions and the reports of other clients. The specification has
    none of that: it folds the client's own reports ([reported]); the theorem
    says that the heartbeat of a round shows this, for the reports that came
    in before it. *)

From S2P Require Import Prelude Ddop Hierarchy ClientState TcServer ServerFacts.
From S2P Require Import Setpoints Activation Subscription ServerInvariant Refinement Udp.
From S2P Require Import UdpFacts Settings PacketHandler Heartbeat DemandMonitor Network.
From S2P Require Import Vt App AppFacts EndToEnd.

#[local] Set Default Proof Using "All".

Section feedback.
Context `{DdopApi} `{DdiCodes} `{Timing} `{JsonApi} `{Platform}.
Implicit Types (st : ClientState) (srv : MyTCServer) (r : Round).

(** ** The specification *)

(** What client [c] reports in a sequence of calls. *)
Definition report_step (c : Z) st (call : server_call) : ClientState :=
  match call with
  | Value c' ddi e v => if c' =? c then client_value ddi (u16 e) v st else st
  | _ => st
  end.

Definition reported (c : Z) (calls : list server_call) st : ClientState :=
  foldl (report_step c) st calls.

(** The part of a client that the actual states depend on. *)
Definition reports st : Z * list Z * list Z * gmap Z Z * gmap Z bool * gmap Z Z * bool :=
  (numberOfSections st, sectionActualStates st, sectionToElementNumber st, elementToSection st,
   elementWorkStates st, elementParents st, usesPerElementControl st).

Definition same_reports st1 st2 : Prop := reports st1 = reports st2.

#[local] Instance same_reports_equiv : Equivalence same_reports.
Proof. split; red; unfold same_reports; congruence. Qed.

#[local] Instance numberOfSections_proper : Proper (same_reports ==> eq) numberOfSections.
Proof. intros st1 st2 Hs. unfold same_reports, reports in Hs. congruence. Qed.

#[local] Instance actual_state_proper s : Proper (same_reports ==> eq) (get_section_actual_state s).
Proof.
  intros [] [] Hs. injection Hs as -> -> -> -> -> -> ->.
  unfold get_section_actual_state, is_element_or_parent_off, get_element_number_for_section,
    try_get_element_work_state. reflexivity.
Qed.

(** Two clients with the same reports have the same fields, so that any
    function of those gives the same. *)
Ltac same_fields :=
  let Hs := fresh in
  intros [] [] Hs; injection Hs as -> -> -> -> -> -> ->; unfold same_reports, reports.

#[local] Instance set_section_actual_state_proper s v :
  Proper (same_reports ==> same_reports) (set_section_actual_state s v).
Proof. same_fields. unfold set_section_actual_state. cbn. by case_match. Qed.

#[local] Instance set_element_number_proper s e :
  Proper (same_reports ==> same_reports) (set_element_number_for_section s e).
Proof. same_fields. unfold set_element_number_for_section. cbn. by case_match. Qed.

#[local] Instance set_element_work_state_proper e b :
  Proper (same_reports ==> same_reports) (set_element_work_state e b).
Proof. same_fields. reflexivity. Qed.

#[local] Instance condensed_step_proper off e v :
  Proper (same_reports ==> eq ==> same_reports) (condensed_section_step off e v).
Proof. intros st1 st2 Hs i ? <-. unfold condensed_section_step. by rewrite Hs. Qed.

#[local] Instance uses_per_element_proper : Proper (same_reports ==> eq) uses_per_element_control.
Proof. same_fields. reflexivity. Qed.

#[local] Instance section_for_element_proper e :
  Proper (same_reports ==> eq) (try_get_section_for_element e).
Proof. same_fields. reflexivity. Qed.

#[local] Instance actual_work_state_proper e v :
  Proper (same_reports ==> same_reports) (on_actual_work_state e v).
Proof.
  intros st1 st2 Hs. unfold on_actual_work_state.
  assert (Hw : same_reports (set_element_work_state e (v =? 1) st1)
    (set_element_work_state e (v =? 1) st2)) by (by rewrite Hs).
  rewrite (uses_per_element_proper _ _ Hw), (section_for_element_proper e _ _ Hw).
  destruct (uses_per_element_control _); [|done].
  destruct (try_get_section_for_element _ _); by rewrite Hw.
Qed.

#[local] Instance client_value_proper ddi e v :
  Proper (same_reports ==> same_reports) (client_value ddi e v).
Proof.
  intros st1 st2 Hs. unfold client_value. destruct (is_actual_condensed ddi).
  - unfold on_condensed_work_state. revert st1 st2 Hs.
    generalize (seqZ 0 NUMBER_SECTIONS_PER_CONDENSED_MESSAGE) as l.
    intros l. induction l as [|i l IH]; intros st1 st2 Hs; [done|].
    cbn [foldl]. apply IH. by apply condensed_step_proper.
  - destruct (ddi =? SectionControlState); [by destruct st1, st2; injection Hs as -> -> -> -> -> -> ->|].
    destruct (ddi =? ActualWorkState); [by apply actual_work_state_proper|done].
Qed.

(** A call of the server moves the reports of a client as the specification
    does. *)
Lemma client_call_reports c call st st0 :
  wf st -> same_reports st st0 -> same_reports (client_call c call st).1 (report_step c st0 call).
Proof.
  intros Hwf Hs. destruct call as [| | | | |c' d e v| |ss|b|q]; try exact Hs; cbn [client_call].
  - cbn [fst report_step]. destruct (c' =? c); [by apply client_value_proper|done].
  - cbn [report_step]. rewrite <- Hs. destruct (request_client_cases st) as [Hk|[Hk Hn]].
    + by rewrite request_client_skipped.
    + destruct (request_client_spec c st Hk Hn) as ([m ->] & _). unfold same_reports. by destruct st.
  - cbn [report_step]. rewrite <- Hs. destruct (is_section_control_enabled st) eqn:Hen.
    + destruct (update_client_section_states_spec ss c st Hwf Hen) as [[w ->] _].
      unfold same_reports. by destruct st.
    + unfold update_client_section_states. by rewrite Hen.
  - cbn [report_step]. rewrite <- Hs. unfold same_reports, update_client_section_control_enabled.
    cbn [fst]. by destruct (negb _).
Qed.

Lemma serve_calls_reports `{!DdopLaws} c calls : forall srv outs st st0,
  server_wf srv -> clients srv !! c = Some st -> same_reports st st0 ->
  Forall (fun call => keeps c call = true) calls ->
  let srv' := (foldl serve_call (srv, outs) calls).1 in
  server_wf srv' /\
  exists st', clients srv' !! c = Some st' /\ same_reports st' (reported c calls st0).
Proof.
  induction calls as [|call calls IH]; intros srv outs st st0 Hwf Hc Hs Hk; [by eauto|].
  apply Forall_cons in Hk as [Hk Hks]. cbn [foldl reported].
  destruct (run_call_client c call srv st Hk Hc) as [Hl _].
  apply (IH _ _ (client_call c call st).1); [by apply run_call_wf|done| |done].
  apply client_call_reports; [by apply (Hwf c)|done].
Qed.

(** The main thread reports nothing. *)
Definition no_report (call : server_call) : bool :=
  match call with Value _ _ _ _ => false | _ => true end.

Lemma reported_merge c can main calls st :
  merge can main calls -> Forall (fun call => no_report call = true) main ->
  reported c calls st = reported c can st.
Proof.
  intros Hm. revert st. induction Hm as [|call can main calls _ IH|call can main calls _ IH];
    intros st Hn; [done|cbn; by apply IH|].
  apply Forall_cons in Hn as [Hc Hn]. cbn [reported foldl].
  assert (report_step c st call = st) as -> by (by destruct call). by apply IH.
Qed.

(** ** What the parts of a round pass on *)

Definition heartbeat_timer r : Z := lastHeartbeatTransmit (timers (round_app r)).

(** An action takes a number of entries off the schedule, adds to what is
    sent, and leaves the timer of the heartbeat alone. *)
Definition passed (k : nat) r r' : Prop :=
  schedule r' = drop k (schedule r) /\ (exists outs, sent r' = sent r ++ outs) /\
  heartbeat_timer r' = heartbeat_timer r.

Definition passes (least : nat) (act : action) : Prop :=
  forall r r', act r = Ok r' -> exists k, (least <= k)%nat /\ passed k r r'.

Lemma passed_here r r' :
  schedule r' = schedule r -> (exists outs, sent r' = sent r ++ outs) ->
  heartbeat_timer r' = heartbeat_timer r -> passed 0 r r'.
Proof. intros Hs Ho Ht. by split_and!. Qed.

Lemma passed_trans k1 k2 r1 r2 r3 : passed k1 r1 r2 -> passed k2 r2 r3 -> passed (k1 + k2) r1 r3.
Proof.
  intros (Hs1 & [o1 Ho1] & Ht1) (Hs2 & [o2 Ho2] & Ht2). split_and!.
  - by rewrite Hs2, Hs1, drop_drop.
  - exists (o1 ++ o2). by rewrite Ho2, Ho1, app_assoc.
  - congruence.
Qed.

Lemma passes_ret : passes 0 (fun r => Ok r).
Proof.
  intros r r' [= <-]. exists 0%nat. split; [done|]. apply passed_here; try done.
  exists []. by rewrite app_nil_r.
Qed.

Lemma passes_bind n1 n2 (act k : action) :
  passes n1 act -> passes n2 k -> passes (n1 + n2) (fun r => r ← act r; k r).
Proof.
  intros Ha Hk r r' (r1 & Hr1 & Hr2)%bind_Ok.
  destruct (Ha _ _ Hr1) as (k1 & Hl1 & Hp1). destruct (Hk _ _ Hr2) as (k2 & Hl2 & Hp2).
  exists (k1 + k2)%nat. split; [lia|]. by apply (passed_trans _ _ r r1).
Qed.

Lemma passes_run acts : Forall (passes 0) acts -> passes 0 (run_actions acts).
Proof. induction 1; cbn [run_actions]; [apply passes_ret|by apply (passes_bind 0 0)]. Qed.

Lemma can_step_passes env event r r' :
  can_step env event r = Ok r' -> passed 0 r r'.
Proof.
  destruct event as [call|input]; cbn [can_step].
  - destruct (call_throws _ _); [done|]. intros [= <-]. apply passed_here; [done|by eexists|done].
  - destruct (_ && _).
    + intros ([s outs] & _ & [= <-])%bind_Ok. apply passed_here; [done|by eexists|done].
    + intros [= <-]. apply passed_here; [done|exists []; by rewrite app_nil_r|done].
Qed.

Lemma run_events_passes env events : forall r r',
  run_events env events r = Ok r' -> passed 0 r r'.
Proof.
  induction events as [|event events IH]; intros r r'; cbn [run_events].
  - intros [= <-]. apply passed_here; [done|exists []; by rewrite app_nil_r|done].
  - intros (r1 & Hr1 & Hr2)%bind_Ok.
    apply (passed_trans 0 0 _ r1); [by apply can_step_passes in Hr1|by apply IH].
Qed.

Lemma preempt_passes env : passes 1 (preempt env).
Proof.
  intros r r'. unfold preempt. destruct (schedule r) as [|events rest] eqn:E.
  - intros [= <-]. exists 1%nat. split; [done|]. split_and!; [by rewrite E| |done].
    exists []. by rewrite app_nil_r.
  - intros (Hs & Ho & Ht)%run_events_passes. exists 1%nat. split; [done|].
    split_and!; [by rewrite E|exact Ho|exact Ht].
Qed.

Lemma sleep_passes env : passes 0 (sleep env).
Proof.
  intros r r' (Hs & Ho & Ht)%run_events_passes. exists (length (schedule r)).
  split; [lia|]. split_and!; [|exact Ho|exact Ht]. by rewrite Hs, drop_all.
Qed.

(** Parts that do not touch the timer. *)
Definition untimed (part : Application -> Application * list app_out) : Prop :=
  forall app, lastHeartbeatTransmit (timers (part app).1) = lastHeartbeatTransmit (timers app).

Lemma atomically_passes env part : untimed part -> passes 1 (atomically env part).
Proof.
  intros Hp. apply (passes_bind 1 0); [apply preempt_passes|]. intros r r'.
  specialize (Hp (round_app r)). destruct (part (round_app r)) as [app outs].
  intros [= <-]. exists 0%nat. split; [done|]. apply passed_here; [done|by eexists|exact Hp].
Qed.

Lemma weaker n (act : action) : passes n act -> passes 0 act.
Proof. intros Hp r r' Hr. destruct (Hp r r' Hr) as (k & _ & Hk). exists k. split; [lia|done]. Qed.

Lemma on_app_passes (f : Application -> Application) r :
  timers (f (round_app r)) = timers (round_app r) ->
  passed 0 r (with_round_app (f (round_app r)) r).
Proof.
  intros Hf. apply passed_here; [done|exists []; by rewrite app_nil_r|].
  unfold heartbeat_timer. cbn. by rewrite Hf.
Qed.

Lemma apply_subnet_passes env out : passes 0 (apply_subnet env out).
Proof.
  destruct out as [a b c]. apply (passes_bind 0 0); [apply (weaker 1), preempt_passes|].
  intros r r'. destruct (Settings.set_subnet _ _ _ _) as [[[x|] s] es]; [|done].
  destruct (bind_connection _ _) as [endpoint|]; [|done]. intros [= <-].
  exists 0%nat. split; [done|].
  by apply (on_app_passes (fun app => with_bound (Some endpoint) (with_settings s app))).
Qed.

Lemma poll_detection_passes env : passes 0 (poll_detection env).
Proof.
  intros r r'. unfold poll_detection.
  destruct (handle_address_detection _ _ _) as [[rx outs]| |]; [|done..]. cbn [of_loop mbind step_bind].
  intros Hr. apply (passes_run (apply_subnet env <$> outs)) in Hr as (k & _ & Hk).
  - exists k. split; [lia|]. eapply (passed_trans 0 k); [|exact Hk].
    by apply (on_app_passes (with_rxDetection rx)).
  - apply Forall_fmap, Forall_forall. intros out _. apply apply_subnet_passes.
Qed.

Lemma poll_incoming_passes env : passes 0 (poll_incoming env).
Proof.
  intros r r'. unfold poll_incoming.
  destruct (handle_incoming_packets _ _ _) as [[rx ps]| |]; [|done..]. cbn [of_loop mbind step_bind].
  intros Hr. apply (passes_run (handle_packet env <$> ps)) in Hr as (k & _ & Hk).
  - exists k. split; [lia|]. eapply (passed_trans 0 k); [|exact Hk].
    by apply (on_app_passes (with_rxIncoming rx)).
  - apply Forall_fmap, Forall_forall. intros p _. apply (weaker 1), atomically_passes.
    intros app. by destruct (packetHandler _ _ _).
Qed.

Lemma serve_untimed : untimed serve.
Proof. intros app. unfold serve. by destruct (request_measurement_commands _). Qed.

Lemma update_terminal_passes env : passes 0 (update_terminal env).
Proof.
  unfold update_terminal. destruct (has_vt_client env); cbn [negb]; [|apply passes_ret].
  apply (passes_bind 0 0); [apply (weaker 1), preempt_passes|]. intros r r'.
  destruct (vt_round _ _ _ _) as [[v outs] due].
  assert (Hp : passed 0 r (emit (with_vt v (round_app r)) (Terminal <$> outs) r))
    by (apply passed_here; [done|by eexists|done]).
  destruct due; [|intros [= <-]; by exists 0%nat].
  intros Hr. apply atomically_passes in Hr as (k & _ & Hk).
  - exists k. split; [lia|]. by eapply (passed_trans 0 k).
  - intros app. unfold update_strings. by destruct (update_vt_status_strings _ _ _ _ _).
Qed.

(** The parts before the heartbeat, and those after it. *)
Lemma other_parts_untimed full_name env :
  Forall untimed [log_demand env; watch_demand full_name env; check_conflict env;
    scan_implements full_name env; report_tecu; send_speed env; send_status env; send_gnss env].
Proof.
  repeat constructor; intros app.
  - unfold log_demand. by destruct (log_section_demand _ _ _) as [[a l] line].
  - unfold watch_demand. destruct (time_expired_ms _ _ _); [|done].
    by destruct (check_section_demand _ _ _ _).
  - unfold check_conflict. by destruct (time_expired_ms _ _ _).
  - unfold scan_implements. by destruct (time_expired_ms _ _ _).
  - unfold report_tecu. by destruct (tecuAddressClaimFailed app).
  - unfold send_speed. destruct (_ && _); [|done]. by destruct (speed_accepted env).
  - unfold send_status. by destruct (_ && _).
  - unfold send_gnss. destruct (time_expired_ms _ _ _); [|done]. by destruct (send_gnss_quality _ _).
Qed.
(** ** A round *)

Definition before_heartbeat (full_name : Z -> Z) (env : UpdateEnv) : list action :=
  [poll_detection env; poll_incoming env; atomically env serve; update_terminal env;
   atomically env (log_demand env); atomically env (watch_demand full_name env);
   atomically env (check_conflict env); atomically env (scan_implements full_name env);
   atomically env report_tecu].

Definition after_heartbeat (env : UpdateEnv) : list action :=
  [atomically env (send_speed env); atomically env (send_status env);
   atomically env (send_gnss env); sleep env].

Lemma main_actions_split full_name env :
  main_actions full_name env ++ [sleep env] =
  before_heartbeat full_name env ++ atomically env (send_heartbeat env) :: after_heartbeat env.
Proof. done. Qed.

Lemma after_heartbeat_passes env : passes 0 (run_actions (after_heartbeat env)).
Proof.
  apply passes_run. pose proof (other_parts_untimed (fun c => c) env) as Ho.
  repeat (apply Forall_cons in Ho as [? Ho]).
  repeat (apply Forall_cons_2); try by apply (weaker 1), atomically_passes.
  - apply sleep_passes.
  - constructor.
Qed.

Lemma before_heartbeat_passes full_name env r r' :
  run_actions (before_heartbeat full_name env) r = Ok r' ->
  exists k, (1 <= k)%nat /\ passed k r r'.
Proof.
  change (before_heartbeat full_name env) with
    (take 2 (before_heartbeat full_name env) ++ atomically env serve ::
     drop 3 (before_heartbeat full_name env)).
  pose proof (other_parts_untimed full_name env) as Ho. repeat (apply Forall_cons in Ho as [? Ho]).
  intros (r1 & Hr1 & (r2 & Hr2 & Hr3)%bind_Ok)%run_actions_app.
  apply passes_run in Hr1 as (k1 & _ & Hk1);
    [|by repeat (apply Forall_cons_2); [apply poll_detection_passes|apply poll_incoming_passes|]].
  apply (atomically_passes env serve serve_untimed) in Hr2 as (k2 & Hl & Hk2).
  apply passes_run in Hr3 as (k3 & _ & Hk3);
    [|by repeat (apply Forall_cons_2); try (by apply (weaker 1), atomically_passes);
      [apply update_terminal_passes|]].
  exists (k1 + (k2 + k3))%nat. split; [lia|].
  apply (passed_trans _ _ _ r1); [done|by apply (passed_trans _ _ _ r2)].
Qed.

Lemma packet_calls_no_report p : Forall (fun call => no_report call = true) (packet_calls p).
Proof. unfold packet_calls. repeat case_match; by repeat constructor. Qed.

(** The calls of the main thread before the heartbeat. *)
Lemma before_heartbeat_runs full_name env c r r' :
  run_actions (before_heartbeat full_name env) r = Ok r' ->
  exists main, server_ran main r r' /\ Forall (fun call => no_report call = true) main /\
    Forall (fun call => keeps c call = true) main.
Proof.
  intros (r1 & Hr1 & Hr)%bind_Ok. apply bind_Ok in Hr as (r2 & Hr2 & Hr).
  apply bind_Ok in Hr as (r3 & Hr3 & Hr). apply bind_Ok in Hr as (r4 & Hr4 & Hr).
  apply poll_detection_runs in Hr1. apply poll_incoming_runs in Hr2.
  apply (atomically_runs env [Request] serve serve_runs) in Hr3.
  apply update_terminal_runs in Hr4.
  change (run_actions (atomically env <$> take 5 (after_terminal full_name env)) r4 = Ok r') in Hr.
  apply silent_parts_run in Hr; [|exact (Forall_take _ 5%nat _ (silent_parts full_name env))].
  exists (main_calls env (round_app r1)). split_and!; [| |apply main_calls_keep].
  - apply (server_ran_trans [] _ _ r1 _ Hr1). unfold main_calls.
    apply (server_ran_trans _ _ _ r2 _ Hr2).
    apply (server_ran_trans [Request] [] _ r3 _ Hr3). by apply (server_ran_trans [] [] _ r4).
  - unfold main_calls. apply Forall_app_2; [|by repeat constructor].
    apply Forall_concat, Forall_fmap, Forall_forall. intros p _. apply packet_calls_no_report.
Qed.

Lemma client_heartbeat_sent enabled (m : gmap Z ClientState) c st :
  m !! c = Some st -> client_heartbeat st ⊆ send_heartbeats enabled m.
Proof.
  intros Hc o Ho. unfold send_heartbeats. apply elem_of_app. left.
  apply elem_of_concat. exists (client_heartbeat st). split; [done|].
  apply list_elem_of_fmap. exists c. rewrite Hc. split; [done|]. apply elem_of_client_order. by exists st.
Qed.

Lemma reported_sections c calls : forall st, numberOfSections (reported c calls st) = numberOfSections st.
Proof.
  induction calls as [|call calls IH]; intros st; [done|]. cbn [reported foldl].
  unfold reported in IH. rewrite IH. destruct call as [| | | | |c' d e v| | | |]; try done.
  cbn [report_step]. destruct (c' =? c); [|done]. unfold client_value.
  destruct (is_actual_condensed d); [apply same_control_report|].
  destruct (d =? SectionControlState); [done|].
  destruct (d =? ActualWorkState); [apply (same_control_actual Condensed)|done].
Qed.

(** The moment the heartbeat is considered: client [c] then has the state
    that its own reports so far give it, and the timer still stands as it did. *)
Lemma server_at_heartbeat `{!DdopLaws} full_name env c events app st r1 r2 :
  app_ok app -> clients (tcServer (aog app)) !! c = Some st ->
  Forall (fun call => keeps c call = true) (can_calls (concat events)) ->
  run_actions (before_heartbeat full_name env)
    {| round_app := app; sent := []; schedule := events |} = Ok r1 ->
  preempt env r1 = Ok r2 ->
  exists k st', (1 <= k)%nat /\ heartbeat_timer r2 = lastHeartbeatTransmit (timers app) /\
    clients (tcServer (aog (round_app r2))) !! c = Some st' /\ wf st' /\
    same_reports st' (reported c (can_calls (concat (take k events))) st).
Proof.
  intros Hok Hc Hk Hr1 Hr2.
  destruct (before_heartbeat_runs full_name env c _ _ Hr1) as (main & Hran & Hnr & Hkm).
  apply before_heartbeat_passes in Hr1 as (k1 & Hl & Hp1).
  pose proof (server_ran_trans _ [] _ _ _ Hran (preempt_runs env _ _ Hr2)) as Hran2.
  apply preempt_passes in Hr2 as (k2 & _ & Hp2).
  destruct (passed_trans _ _ _ _ _ Hp1 Hp2) as (Hs & _ & Ht). clear Hp1 Hp2 Hran.
  destruct Hran2 as (can & calls & Hcan & Hm & Hcalls). rewrite app_nil_r in Hm.
  assert (Hct : can = can_calls (concat (take (k1 + k2) events))).
  { unfold pending in Hcan. rewrite Hs in Hcan. cbn [schedule] in Hcan.
    rewrite <- (take_drop (k1 + k2) events) in Hcan at 1. unfold can_calls in *.
    rewrite concat_app, omap_app in Hcan. by apply app_inv_tail in Hcan. }
  assert (Hkc : Forall (fun call => keeps c call = true) calls).
  { apply (merge_Forall _ can main); [done| |done]. unfold pending in Hcan. cbn [schedule] in Hcan.
    rewrite Hcan in Hk. by apply Forall_app in Hk as [? _]. }
  destruct (serve_calls_reports c calls (tcServer (aog app)) [] st st) as (Hwf & st' & Hc' & Hsame);
    [apply (aog_server _ (app_aog _ Hok))|done|done|done|].
  change (foldl serve_call (tcServer (aog app), []) calls = round_server r2) in Hcalls.
  rewrite Hcalls in Hwf, Hc'. cbn [round_server fst] in Hwf, Hc'.
  rewrite (reported_merge c can main calls st Hm Hnr), Hct in Hsame.
  exists (k1 + k2)%nat, st'. split_and!; [lia|exact Ht|done|by apply (Hwf c)|done].
Qed.

(** The heartbeat of a round in which it is due. *)
Lemma heartbeat_shows_reports `{!DdopLaws} (full_name : Z -> Z) (c : Z) (env : UpdateEnv)
    (events : list (list can_event)) (app app' : Application) (outs : list app_out)
    (st : ClientState) (Hok : app_ok app) (Hc : clients (tcServer (aog app)) !! c = Some st)
    (Hn : numberOfSections st <> 0)
    (Hdue : time_expired_ms (now (call_env env)) (lastHeartbeatTransmit (timers app)) 100 = true)
    (Hk : Forall (fun call => keeps c call = true) (can_calls (concat events)))
    (Hrun : update full_name env events app = Ok (app', outs)) :
  exists k data, (1 <= k)%nat /\ UdpSend 128 240 data ∈ outs /\
    byte_at data 1 = numberOfSections st /\
    forall s, 0 <= s < numberOfSections st ->
      Z.testbit (byte_at data (2 + s / 8)) (s mod 8) =
      (get_section_actual_state s (reported c (can_calls (concat (take k events))) st) =? ON).
Proof.
  apply bind_Ok in Hrun as (r' & Hr & [= <- <-]). rewrite main_actions_split in Hr.
  apply run_actions_app in Hr as (r1 & Hr1 & (r3 & Hhb & Hr3)%bind_Ok).
  apply bind_Ok in Hhb as (r2 & Hr2 & Hhb).
  destruct (server_at_heartbeat full_name env c events app st r1 r2 Hok Hc Hk Hr1 Hr2)
    as (k & st' & Hk1 & Ht & Hc' & Hwf' & Hsame).
  destruct (heartbeat_encodes st' Hwf') as (data & Hd & Hlen & _ & Hnum & Hbits & _).
  assert (Hns : numberOfSections st' = numberOfSections st)
    by (by rewrite (numberOfSections_proper _ _ Hsame), reported_sections).
  exists k, data. split_and!; [done| |by rewrite Hnum|].
  - apply after_heartbeat_passes in Hr3 as (k3 & _ & _ & [more ->] & _).
    unfold send_heartbeat in Hhb. change (lastHeartbeatTransmit _) with (heartbeat_timer r2) in Hhb.
    rewrite Ht, Hdue in Hhb. injection Hhb as <-. cbn [emit sent].
    apply elem_of_app. left. apply elem_of_app. right.
    apply (client_heartbeat_sent _ _ c st' Hc'). unfold client_heartbeat.
    rewrite (proj2 (Z.eqb_neq _ _)) by (unfold get_number_of_sections; by rewrite Hns).
    rewrite Hd. left.
  - intros s Hsn. rewrite <- Hns in Hsn. rewrite Hbits by (rewrite Hlen; Z.div_mod_to_equations; lia).
    rewrite (proj2 (Z.ltb_lt _ _) (proj2 Hsn)). cbn [andb].
    by rewrite (actual_state_proper s _ _ Hsame).
Qed.

(** C4: reports reach AgOpenGPS. In every round that returns and in which the
    heartbeat is due, AgOpenGPS is sent a heartbeat for client [c], registered
    with sections and staying so. It has one bit per section, which is set
    exactly when the section is on by the client's own reports up to that
    moment: those before the round and those that the CAN thread has filed
    during the first [k] of its turns, one at least. What else both threads do
    in between does not matter. *)
Theorem reports_reach_aog `{!DdopLaws} (full_name : Z -> Z) (c : Z) (env : UpdateEnv)
    (events : list (list can_event)) (app app' : Application) (outs : list app_out)
    (st : ClientState) (Hok : app_ok app) (Hc : clients (tcServer (aog app)) !! c = Some st)
    (Hn : numberOfSections st <> 0)
    (Hdue : time_expired_ms (now (call_env env)) (lastHeartbeatTransmit (timers app)) 100 = true)
    (Hk : Forall (fun call => keeps c call = true) (can_calls (concat events)))
    (Hrun : update full_name env events app = Ok (app', outs)) :
  exists k data, (1 <= k)%nat /\ UdpSend 128 240 data ∈ outs /\
    byte_at data 1 = numberOfSections st /\
    forall s, 0 <= s < numberOfSections st ->
      Z.testbit (byte_at data (2 + s / 8)) (s mod 8) =
      (get_section_actual_state s (reported c (can_calls (concat (take k events))) st) =? ON).
Proof. by eapply heartbeat_shows_reports. Qed.
End feedback.
