(* ===== verification/ClosedLoop.v ===== *)
(** * From AgOpenGPS to the implement and back

    The two directions together. AgOpenGPS sends section states; the server
    passes them on to the implement ([EndToEnd]); the implement does what it
    heard and reports it; the next heartbeat shows AgOpenGPS what the implement
    reported ([Feedback]). For an implement that reports truthfully,
    in either dialect, the heartbeat shows the demand. *)

From S2P Require Import Prelude Ddop Hierarchy ClientState TcServer ServerFacts.
From S2P Require Import Setpoints Activation Subscription Reports ServerInvariant Refinement Udp.
From S2P Require Import UdpFacts Settings PacketHandler Heartbeat DemandMonitor Network.
From S2P Require Import Vt App AppFacts EndToEnd Feedback.

#[local] Set Default Proof Using "All".

Lemma condensed_ddi ddi :
  is_actual_condensed ddi = true <-> exists b, 0 <= b < 16 /\ ddi = ActualCondensedWorkState1_16 + b.
Proof.
  unfold is_actual_condensed, ActualCondensedWorkState1_16, ActualCondensedWorkState241_256.
  rewrite andb_true_iff, !Z.leb_le. split; [intros; exists (ddi - 161); lia|intros (b & ? & ->); lia].
Qed.

Section closed_loop.
Context `{DdopApi} `{DdiCodes} `{Timing} `{JsonApi} `{Platform}.
Implicit Types (st : ClientState).

(** ** A truthful implement *)

(** The sections that a report is about, and the state it gives them. *)
Definition speaks_of (d : dialect) (ddi e s : Z) : Prop :=
  match d with
  | Condensed => ddi = ActualCondensedWorkState1_16 + s / 16
  | PerElement elements => ddi = ActualWorkState /\ zlookup elements s = Some e
  end.

Definition told (d : dialect) (v s : Z) : Z :=
  match d with
  | Condensed => bit_pair v (s mod 16)
  | PerElement _ => if v =? 1 then ON else OFF
  end.

(** Client [c] says of its [n] sections what it believes, in its own dialect. *)
Definition truthful (d : dialect) (c n : Z) (view : Z -> Z) (call : server_call) : Prop :=
  match call with
  | Value c' ddi e v =>
      c' = c ->
      match d with Condensed => ddi <> ActualWorkState | PerElement _ => is_actual_condensed ddi = false end /\
      forall s, 0 <= s < n -> speaks_of d ddi (u16 e) s -> told d v s = view s
  | _ => True
  end.

Definition reports_all (d : dialect) (c n : Z) (calls : list server_call) : Prop :=
  forall s, 0 <= s < n -> exists ddi e v, Value c ddi e v ∈ calls /\ speaks_of d ddi (u16 e) s.

(** What it says is what the heartbeat shows: no element has been reported off,
    or each section has its element. *)
Definition visible (d : dialect) st : Prop :=
  match d with
  | Condensed => forall a, elementWorkStates st !! a <> Some false
  | PerElement elements =>
      usesPerElementControl st = true /\
      forall e s, elementToSection st !! e = Some s <->
        0 <= s < numberOfSections st /\ zlookup elements s = Some e
  end.

Definition believed (view : Z -> Z) st (s : Z) : Prop :=
  zlookup (sectionActualStates st) s = Some (view s).

(** What a truthful call does to the client's state: sections become as
    believed or stay as they are. *)
Record moves_towards (d : dialect) (view : Z -> Z) st st' : Prop := {
  mt_wf : wf st';
  mt_sections : numberOfSections st' = numberOfSections st;
  mt_visible : visible d st';
  mt_believed : forall s, 0 <= s < numberOfSections st -> believed view st s -> believed view st' s
}.

Lemma moves_towards_refl d view st : wf st -> visible d st -> moves_towards d view st st.
Proof. by split. Qed.

Lemma moves_towards_trans d view st1 st2 st3 :
  moves_towards d view st1 st2 -> moves_towards d view st2 st3 -> moves_towards d view st1 st3.
Proof.
  intros [_ Hn1 _ Hs1] [Hwf Hn2 Hv Hs2]. split; [done|congruence|done|].
  intros s Hs Hb. apply Hs2; [by rewrite Hn1|by apply Hs1].
Qed.

(** Each of the three kinds of report. *)
Lemma condensed_report view st b e v :
  wf st -> visible Condensed st -> 0 <= b < 16 ->
  (forall s, 0 <= s < numberOfSections st -> b = s / 16 -> bit_pair v (s mod 16) = view s) ->
  let st' := on_condensed_work_state (ActualCondensedWorkState1_16 + b) (u16 e) v st in
  moves_towards Condensed view st st' /\
  forall s, 0 <= s < numberOfSections st -> b = s / 16 -> believed view st' s.
Proof.
  intros Hwf Hvis Hb Hv. cbn zeta.
  destruct (on_condensed_work_state_unpacked st b (u16 e) v Hwf Hb (u16_range e))
    as (Hwf' & Hn & _ & He & _ & Hall).
  assert (Hin : forall s, 0 <= s < numberOfSections st -> b = s / 16 -> believed view
    (on_condensed_work_state (ActualCondensedWorkState1_16 + b) (u16 e) v st) s).
  { intros s Hs Hsb. unfold believed. destruct (Hall s Hs) as [-> _].
    rewrite (proj2 (Z.leb_le _ _)), (proj2 (Z.ltb_lt _ _)) by (Z.div_mod_to_equations; lia).
    cbn [andb]. f_equal. rewrite <- (Hv s Hs Hsb). f_equal. rewrite Z.mod_eq by lia. lia. }
  split; [|exact Hin]. split; [done..|intros a; rewrite He; apply Hvis|]. intros s Hs Hd.
  destruct (decide (b = s / 16)) as [E|E]; [by apply Hin|].
  unfold believed. destruct (Hall s Hs) as [-> _].
  destruct (Z.leb_spec (16 * b) s), (Z.ltb_spec s (16 * b + 16)); try exact Hd.
  exfalso. apply E. Z.div_mod_to_equations. lia.
Qed.

Lemma element_report elements view st e v :
  wf st -> visible (PerElement elements) st ->
  (forall s, 0 <= s < numberOfSections st -> zlookup elements s = Some e ->
     (if v =? 1 then ON else OFF) = view s) ->
  let st' := on_actual_work_state e v st in
  moves_towards (PerElement elements) view st st' /\
  forall s, 0 <= s < numberOfSections st -> zlookup elements s = Some e -> believed view st' s.
Proof.
  intros Hwf [Hu Hmap] Hv. pose proof (wf_on_actual_work_state e v st Hwf) as Hwf'.
  unfold on_actual_work_state, uses_per_element_control, try_get_section_for_element in *.
  cbn [set_element_work_state with_elementWorkStates usesPerElementControl elementToSection] in *.
  rewrite Hu in *. destruct (elementToSection st !! e) as [s0|] eqn:E.
  2: { split; [split; [done|done|by split|done]|]. intros s Hs Hl. exfalso.
       by rewrite (proj2 (Hmap e s) (conj Hs Hl)) in E. }
  destruct (proj1 (Hmap e s0) E) as [Hs0 Hl0].
  unfold set_section_actual_state in *. cbn [numberOfSections set_element_work_state
    with_elementWorkStates] in *. rewrite (proj2 (Z.ltb_lt _ _) (proj2 Hs0)) in *.
  assert (Hin : forall x, zlookup (zinsert s0 x (sectionActualStates st)) s0 = Some x)
    by (intros x; apply zlookup_insert_eq; by rewrite (wf_actual_length _ Hwf)).
  split.
  - split; [done|done|by split|]. intros s Hs Hb. unfold believed in *. cbn.
    destruct (decide (s = s0)) as [->|Hne]; [|by rewrite zlookup_insert_ne by lia].
    rewrite Hin. f_equal. by apply Hv.
  - intros s Hs Hl. assert (s = s0) as -> by
      (pose proof (proj2 (Hmap e s) (conj Hs Hl)) as E'; congruence).
    unfold believed. cbn. rewrite Hin. f_equal. by apply Hv.
Qed.

Lemma control_report d view st b :
  wf st -> visible d st -> moves_towards d view st (set_section_control_enabled b st).
Proof. intros Hwf Hv. split; [by apply wf_with_isSectionControlEnabled|done|by destruct d|done]. Qed.

Lemma truthful_value `{!DdiLaws} d c view st ddi e v :
  wf st -> visible d st -> truthful d c (numberOfSections st) view (Value c ddi e v) ->
  moves_towards d view st (client_value ddi (u16 e) v st) /\
  forall s, 0 <= s < numberOfSections st -> speaks_of d ddi (u16 e) s ->
    believed view (client_value ddi (u16 e) v st) s.
Proof.
  intros Hwf Hvis Ht. destruct (Ht eq_refl) as [Hd Hv]. clear Ht. unfold client_value.
  destruct SectionControlState_fresh as (Hfresh & _ & _).
  destruct d as [|elements]; cbn [speaks_of told] in *.
  - rewrite (proj2 (Z.eqb_neq _ _) Hd).
    destruct (is_actual_condensed ddi) eqn:Hc.
    + apply condensed_ddi in Hc as (b & Hb & ->).
      destruct (condensed_report view st b e v Hwf Hvis Hb) as [Hm Hin].
      { intros s Hs ->. by apply Hv. }
      split; [done|]. intros s Hs E. apply Hin; [done|lia].
    + split; [destruct (ddi =? SectionControlState); [by apply control_report|by apply moves_towards_refl]|].
      intros s Hs ->. exfalso. pose proof (wf_number _ Hwf) as Hn.
      assert (Hc' : is_actual_condensed (ActualCondensedWorkState1_16 + s / 16) = true); [|congruence].
      apply condensed_ddi. exists (s / 16). split; [width|done].
  - rewrite Hd. destruct (Z.eqb_spec ddi SectionControlState) as [->|_].
    + split; [by apply control_report|]. intros s _ [E _]. congruence.
    + destruct (Z.eqb_spec ddi ActualWorkState) as [->|Hne].
      * destruct (element_report elements view st (u16 e) v Hwf Hvis) as [Hm Hin].
        { intros s Hs Hl. by apply (Hv s Hs). }
        split; [done|]. intros s Hs [_ Hl]. by apply Hin.
      * split; [by apply moves_towards_refl|]. by intros s _ [? _].
Qed.

Lemma truthful_step `{!DdiLaws} d c view st call :
  wf st -> visible d st -> truthful d c (numberOfSections st) view call ->
  moves_towards d view st (report_step c st call).
Proof.
  intros Hwf Hvis Ht. destruct call as [| | | | |c' ddi e v| | | |];
    try by apply moves_towards_refl.
  cbn [report_step]. destruct (Z.eqb_spec c' c) as [->|]; [|by apply moves_towards_refl].
  by apply (truthful_value d c).
Qed.

Lemma truthful_reports `{!DdiLaws} d c view calls : forall st,
  wf st -> visible d st -> Forall (truthful d c (numberOfSections st) view) calls ->
  moves_towards d view st (reported c calls st) /\
  forall s ddi e v, 0 <= s < numberOfSections st -> Value c ddi e v ∈ calls ->
    speaks_of d ddi (u16 e) s -> believed view (reported c calls st) s.
Proof.
  induction calls as [|call calls IH]; intros st Hwf Hvis Ht.
  { split; [by apply moves_towards_refl|]. intros s ddi e v _ Hin. by apply elem_of_nil in Hin. }
  apply Forall_cons in Ht as [Ht Hts]. cbn [reported foldl].
  pose proof (truthful_step d c view st call Hwf Hvis Ht) as Hm. pose proof Hm as [Hwf1 Hn1 Hv1 _].
  destruct (IH (report_step c st call)) as [Hms Hall]; [done|done|by rewrite Hn1|].
  split; [by eapply moves_towards_trans|]. intros s ddi e v Hs [<-|Hin]%elem_of_cons Hsp.
  2: { apply (Hall s ddi e v); [by rewrite Hn1|done..]. }
  apply (mt_believed _ _ _ _ Hms); [by rewrite Hn1|].
  cbn [report_step]. rewrite Z.eqb_refl. by apply (truthful_value d c view st ddi e v).
Qed.

Lemma actual_as_believed d view st s :
  wf st -> visible d st -> 0 <= s < numberOfSections st -> believed view st s ->
  get_section_actual_state s st = view s.
Proof.
  intros Hwf Hon Hs Hb. unfold get_section_actual_state, believed in *.
  rewrite (proj2 (Z.ltb_lt _ _) (proj2 Hs)).
  destruct (usesPerElementControl st) eqn:Hu; [by rewrite Hb|].
  destruct d as [|elements]; [|destruct Hon; congruence]. cbn zeta.
  destruct (is_element_or_parent_off _ st) eqn:E; [|by rewrite Hb].
  apply is_element_or_parent_off_iff in E as (a & _ & Ha). by destruct (Hon a).
Qed.

(** ** Round trip *)

(** A round in which the heartbeat is due and in which client [c], which stays
    registered, is truthful and has reported every section by the first turn
    of the CAN thread. *)
Record truthful_round (d : dialect) (c n : Z) (view : Z -> Z) (env : UpdateEnv)
    (events : list (list can_event)) (app : Application) : Prop := {
  tr_due : time_expired_ms (now (call_env env)) (lastHeartbeatTransmit (timers app)) 100 = true;
  tr_keeps : Forall (fun call => keeps c call = true) (can_calls (concat events));
  tr_truthful : Forall (truthful d c n view) (can_calls (concat events));
  tr_reports : reports_all d c n (can_calls (default [] (head events)))
}.

Lemma first_turn (k : nat) (events : list (list can_event)) :
  (1 <= k)%nat -> can_calls (default [] (head events)) ⊆ can_calls (concat (take k events)).
Proof.
  intros Hk call Hin. destruct k as [|k]; [lia|]. destruct events as [|first rest]; [done|].
  cbn [take concat]. unfold can_calls in *. rewrite omap_app. apply elem_of_app. by left.
Qed.

Lemma taken_calls (P : server_call -> Prop) k events :
  Forall P (can_calls (concat events)) -> Forall P (can_calls (concat (take k events))).
Proof.
  rewrite <- (take_drop k events) at 1. unfold can_calls. rewrite concat_app, omap_app.
  by intros [? _]%Forall_app.
Qed.

(** The heartbeat of such a round shows what the implement believes. *)
Lemma beliefs_reach_aog `{!DdopLaws} `{!DdiLaws} full_name d c env events app app' outs st view :
  app_ok app -> clients (tcServer (aog app)) !! c = Some st -> numberOfSections st <> 0 ->
  visible d st -> truthful_round d c (numberOfSections st) view env events app ->
  update full_name env events app = Ok (app', outs) ->
  exists data, UdpSend 128 240 data ∈ outs /\ byte_at data 1 = numberOfSections st /\
    forall s, 0 <= s < numberOfSections st ->
      Z.testbit (byte_at data (2 + s / 8)) (s mod 8) = (view s =? ON).
Proof.
  intros Hok Hc Hn Hon [Hdue Hk Ht Hall] Hrun.
  destruct (heartbeat_shows_reports full_name c env events app app' outs st Hok Hc Hn Hdue Hk Hrun)
    as (k & data & Hk1 & Hin & Hnum & Hbits).
  exists data. split_and!; [done..|]. intros s Hs. rewrite (Hbits s Hs). f_equal.
  pose proof (aog_server _ (app_aog _ Hok) c st Hc) as Hwf.
  destruct (truthful_reports d c view (can_calls (concat (take k events))) st Hwf Hon
    (taken_calls _ k _ Ht)) as [[Hwf' Hn' Hvis' _] Hb].
  apply (actual_as_believed d); [done|done|by rewrite Hn'|].
  destruct (Hall s Hs) as (ddi & e & v & Hrep & Hsp).
  apply (Hb s ddi e v Hs); [by apply (first_turn k)|done].
Qed.

(** C3: what AgOpenGPS asks for is what it sees. A datagram of section states
    arrives for a subscribed client in automatic mode, of dialect [d], in a
    round that nothing ends early ([demand_arrives]: no byte 250, settings and
    pool files have their place, addresses can be bound). The round returns, and after it any round that returns and in which the
    heartbeat is due sends AgOpenGPS a heartbeat with exactly the demanded
    bits, for every one of the first 64 sections, provided that the implement,
    which heard nothing but the messages of the first round, has reported in
    its dialect what it believes by the first turn of the CAN thread, and
    contradicts it nowhere in the round; no element may have been reported off
    for a client with condensed messages, and each section must have its
    element for the other. *)
Theorem demand_comes_back `{!DdopLaws} `{!DdiLaws} (full_name : Z -> Z) (d : dialect) (c : Z)
    (env : UpdateEnv) (events : list (list can_event)) (app : Application) (data : list Z)
    (st : ClientState) (view : Z -> Z)
    (Ha : demand_arrives d c env events app data st view)
    (Hn : numberOfSections st <> 0) :
  exists app1 outs1 st1, update full_name env events app = Ok (app1, outs1) /\
    clients (tcServer (aog app1)) !! c = Some st1 /\
    let heard1 := heard d (to_client c (bus_part outs1)) view in
    forall env2 events2 app2 outs2,
      visible d st1 ->
      truthful_round d c (numberOfSections st) heard1 env2 events2 app1 ->
      update full_name env2 events2 app1 = Ok (app2, outs2) ->
      exists shown, UdpSend 128 240 shown ∈ outs2 /\ byte_at shown 1 = numberOfSections st /\
        forall s, 0 <= s < numberOfSections st -> s < 64 ->
          Z.testbit (byte_at shown (2 + s / 8)) (s mod 8) =
          Z.testbit (byte_at data (s / 8)) (s mod 8).
Proof.
  destruct (demand_delivered full_name _ _ _ _ _ _ _ _ Ha)
    as (app1 & outs1 & st1 & Hr & Hok1 & Hc1 & _ & Hn1 & Hv).
  exists app1, outs1, st1. split_and!; [done..|]. cbn zeta. rewrite <- Hn1.
  intros env2 events2 app2 outs2 Hon Ht Hr2.
  destruct (beliefs_reach_aog full_name d c env2 events2 app1 app2 outs2 st1 _ Hok1 Hc1
    ltac:(congruence) Hon Ht Hr2) as (shown & Hin & Hnum & Hbits).
  exists shown. split_and!; [done..|]. intros s Hs H64. rewrite (Hbits s Hs).
  rewrite Hn1 in Hs. rewrite (Hv s Hs), (proj2 (Z.ltb_lt _ _) H64). by destruct (Z.testbit _ _).
Qed.
End closed_loop.
