(* ===== verification/Wiring.v ===== *)
(** * From the pool to the dialect

    Which implements the theorems on section control are about, read off the
    pool they upload: after activation and subscription a client with a
    condensed process data object for every block takes condensed messages,
    and one without any, whose pool offers the work state of every element,
    takes its setpoints element by element. A client of the latter kind that
    also reports its actual states in condensed form, without taking them as
    setpoints, is never told anything. *)

From S2P Require Import Prelude Ddop Hierarchy ClientState TcServer ServerFacts.
From S2P Require Import Setpoints Activation Subscription Reports ServerInvariant Refinement Udp.
From S2P Require Import UdpFacts Settings PacketHandler Heartbeat DemandMonitor Network.
From S2P Require Import Vt App AppFacts EndToEnd Feedback ClosedLoop.

#[local] Set Default Proof Using "All".

Section wiring.
Context `{DdopApi} `{DdiCodes}.
Context `{!DdopLaws}.

(** A client once its pool is activated and its data are subscribed to. *)
Definition ready (c : Z) (p : pool) : ClientState :=
  (request_client_measurement_commands c (activated_state p)).1.

(** Some element lists process data with this DDI. *)
Definition listed (p : pool) (ddi : Z) : Prop :=
  exists pd el, listed_by p pd el /\ get_ddi pd = ddi.

Definition lists (p : pool) (ddi : Z) : bool :=
  existsb (fun pd => (get_ddi pd =? ddi) &&
      existsb (fun el => bool_decide (get_object_id pd ∈ get_child_object_ids el))
        (objects_of_type DeviceElement p))
    (objects_of_type DeviceProcessData p).

Lemma lists_spec p ddi : lists p ddi = true <-> listed p ddi.
Proof.
  unfold lists, listed, listed_by. rewrite existsb_exists. split.
  - intros (pd & Hpd & [Hd%Z.eqb_eq (el & Hel & Hin%bool_decide_eq_true)%existsb_exists]%andb_prop).
    exists pd, el. split; [|done]. split_and!; [by apply list_elem_of_In..|done].
  - intros (pd & el & (Hpd%list_elem_of_In & Hel%list_elem_of_In & Hin) & Hd). exists pd.
    split; [done|]. apply andb_true_iff. split; [by apply Z.eqb_eq|].
    apply existsb_exists. exists el. split; [done|by apply bool_decide_eq_true].
Qed.

Definition settable (p : pool) (ddi : Z) : bool := is_ddi_settable_loop ddi (pool_objects p).

Context (c : Z) (p : pool).
Context (Hsections : 0 < numberOfSections (activated_state p)).

Lemma ready_frame :
  exists m, ready c p = mark_measurement_commands_sent (with_ddiToElementNumber m (activated_state p)).
Proof.
  destruct (request_client_spec c (activated_state p)) as (Hm & _); [|done|exact Hm].
  apply activated_facts.
Qed.

Lemma ready_has d :
  is_setpoint_condensed d = true \/ is_actual_condensed d = true ->
  has_element_number_for_ddi d (ready c p) = true <-> listed p d.
Proof.
  intros Hd. destruct (request_client_spec c (activated_state p)) as (_ & Hhas & _);
    [apply activated_facts|done|].
  destruct (activated_frame p) as (Hp & Hddi & _). unfold ready. rewrite Hhas, Hp.
  unfold has_element_number_for_ddi. rewrite Hddi, lookup_empty. split.
  - intros [Hf|(pd & el & Hl & _ & Hpd)]; [by apply bool_decide_eq_true in Hf as [? ?]|].
    by exists pd, el.
  - intros (pd & el & Hl & <-). right. exists pd, el. split_and!; [done| |done].
    unfold addressed, is_work_state_ddi, is_section_control_ddi.
    destruct Hd as [->| ->]; by rewrite ?orb_true_r.
Qed.

Lemma ready_blocks b :
  0 <= b < number_of_blocks (ready c p) ->
  0 <= b < 16 /\ is_setpoint_condensed (SetpointCondensedWorkState1_16 + b) = true /\
  is_actual_condensed (ActualCondensedWorkState1_16 + b) = true.
Proof.
  intros Hb. assert (Hb16 : 0 <= b < 16).
  { unfold number_of_blocks in Hb. destruct ready_frame as [m Hm]. rewrite Hm in Hb.
    cbn in Hb. pose proof (wf_number _ (activated_state_wf p)). width. }
  split; [done|]. split; [|apply condensed_ddi; by exists b].
  unfold is_setpoint_condensed, SetpointCondensedWorkState1_16, SetpointCondensedWorkState241_256.
  rewrite andb_true_iff, !Z.leb_le. lia.
Qed.

Lemma ready_settable ddi : is_ddi_settable ddi (ready c p) = settable p ddi.
Proof.
  destruct ready_frame as [m ->]. unfold is_ddi_settable, get_pool. cbn.
  destruct (activated_frame p) as [-> _]. done.
Qed.

Lemma wf_ready : wf (ready c p).
Proof.
  destruct ready_frame as [m ->]. apply wf_with_areMeasurementCommandsSent, wf_with_ddiToElementNumber.
  apply activated_state_wf.
Qed.

(** What [activate_object_pool] looks for in the oldest method. *)
Lemma oldest_method :
  section_control_method p = Oldest ->
  forall pd, pd ∈ objects_of_type DeviceProcessData p ->
    is_setpoint_condensed (get_ddi pd) = false /\
    (is_actual_condensed (get_ddi pd) = true -> is_settable pd = false).
Proof.
  unfold section_control_method, has_condensed_setpoint, has_settable_condensed_actual.
  destruct (existsb _ _) eqn:E1; [done|]. destruct (existsb (fun o => _ && _) _) eqn:E2; [done|].
  intros _ pd Hpd%list_elem_of_In. split.
  - apply not_true_is_false. intros Ht. apply (eq_true_false_abs _ (proj2 (existsb_exists _ _)
      (ex_intro _ pd (conj Hpd Ht))) E1).
  - intros Ha. apply not_true_is_false. intros Ht.
    apply (eq_true_false_abs _ (proj2 (existsb_exists _ _)
      (ex_intro _ pd (conj Hpd (proj2 (andb_true_iff _ _) (conj Ha Ht))))) E2).
Qed.

Lemma oldest_not_settable ddi :
  section_control_method p = Oldest -> is_actual_condensed ddi = true -> settable p ddi = false.
Proof.
  intros Ho Ha. pose proof (oldest_method Ho) as Hm. unfold settable, objects_of_type in *.
  induction (pool_objects p) as [|o objs IH]; [done|]. cbn [is_ddi_settable_loop].
  rewrite filter_cons in Hm. case_decide as Ht; [|by apply IH].
  destruct (Z.eqb_spec (get_ddi o) ddi) as [<-|Hne].
  - apply (Hm o); [left|done].
  - apply IH. intros pd Hpd. apply Hm. by right.
Qed.

Lemma oldest_no_setpoint b :
  section_control_method p = Oldest -> 0 <= b < number_of_blocks (ready c p) ->
  has_element_number_for_ddi (SetpointCondensedWorkState1_16 + b) (ready c p) = false.
Proof.
  intros Ho Hb. apply not_true_is_false. destruct (ready_blocks b Hb) as (_ & Hs & _).
  intros (pd & el & (Hpd & _) & Hd)%ready_has; [|by left].
  destruct (oldest_method Ho pd Hpd) as [Hf _]. congruence.
Qed.

(** *** The three kinds of implement *)

(** A way to take sixteen sections in one message, for each block. *)
Definition condensed_pool : Prop := forall b, 0 <= b < number_of_blocks (ready c p) ->
  listed p (SetpointCondensedWorkState1_16 + b) \/
  listed p (ActualCondensedWorkState1_16 + b) /\ settable p (ActualCondensedWorkState1_16 + b) = true.

(** Only work states of elements, one for each section. *)
Definition per_element_pool : Prop :=
  section_control_method p = Oldest /\ zlength (section_element_numbers p) < 256 /\
  NoDup (section_element_numbers p) /\ 0 ∉ section_element_numbers p /\
  forall b, 0 <= b < number_of_blocks (ready c p) -> ~ listed p (ActualCondensedWorkState1_16 + b).

(** The same, but the actual states are also reported in condensed form. *)
Definition mixed_pool : Prop :=
  section_control_method p = Oldest /\
  forall b, 0 <= b < number_of_blocks (ready c p) -> listed p (ActualCondensedWorkState1_16 + b).

Lemma condensed_pool_wired : condensed_pool -> wired Condensed (ready c p).
Proof.
  intros Hp. split; [apply wf_ready|by destruct ready_frame as [m ->]|].
  intros b Hb. destruct (ready_blocks b Hb) as (Hb16 & Hs & Ha). unfold block_ddi.
  destruct (Hp b Hb) as [Hl|[Hl Hset]].
  - rewrite (proj2 (ready_has _ (or_introl Hs)) Hl). by eexists.
  - rewrite (proj2 (ready_has _ (or_intror Ha)) Hl), ready_settable, Hset.
    destruct (has_element_number_for_ddi _ _); by eexists.
Qed.

Lemma ready_elements :
  zlength (section_element_numbers p) < 256 ->
  numberOfSections (ready c p) = zlength (section_element_numbers p) /\
  sectionToElementNumber (ready c p) = section_element_numbers p.
Proof.
  intros Hlen. destruct (activated_facts p) as (Hwf & Hn & Hs & _).
  assert (Hn' : numberOfSections (ready c p) = numberOfSections (activated_state p))
    by (by destruct ready_frame as [m ->]).
  pose proof (zlength_nonneg (section_element_numbers p)).
  rewrite Z.mod_small in Hn by lia. split; [congruence|].
  assert (He : sectionToElementNumber (ready c p) = sectionToElementNumber (activated_state p))
    by (by destruct ready_frame as [m ->]).
  rewrite He. pose proof (wf_element_length _ Hwf) as Hl. unfold zlength in *.
  apply (list_eq_same_length _ _ (length (section_element_numbers p))); [lia|lia|].
  intros i x y Hi Hx Hy. specialize (Hs (Z.of_nat i) ltac:(lia)) as [Hs _].
  pose proof (element_of_section _ (Z.of_nat i) Hwf ltac:(lia)) as Hel.
  unfold zlookup in *. rewrite Nat2Z.id in *. congruence.
Qed.

Lemma per_element_pool_wired :
  per_element_pool -> wired (PerElement (section_element_numbers p)) (ready c p) /\
  visible (PerElement (section_element_numbers p)) (ready c p).
Proof.
  intros (Ho & Hlen & Hnd & Hz & Hno). destruct (ready_elements Hlen) as [Hn He].
  destruct (activated_facts p) as (_ & _ & Hs & Hrev & Huse & _).
  pose proof (proj2 Huse Ho) as Hu. destruct (activated_frame p) as (_ & _ & _ & Hddi).
  specialize (Hddi Ho). pose proof ready_frame as [m Hm].
  assert (Hu' : usesPerElementControl (ready c p) = true) by (rewrite Hm; exact Hu).
  assert (Hd' : perElementSetpointDDI (ready c p) = ActualWorkState) by (rewrite Hm; exact Hddi).
  split.
  - split; [apply wf_ready|by rewrite Hm|]. split_and!; try done. intros b Hb.
    split; [by apply oldest_no_setpoint|]. destruct (ready_blocks b Hb) as (_ & _ & Ha).
    apply not_true_is_false. rewrite (ready_has _ (or_intror Ha)). by apply Hno.
  - split; [done|]. assert (Hmap : elementToSection (ready c p) = elementToSection (activated_state p))
      by (by rewrite Hm).
    assert (Hna : numberOfSections (ready c p) = numberOfSections (activated_state p)) by (by rewrite Hm).
    rewrite Hmap, Hna. intros e s. split; [apply Hrev|]. intros [Hsn Hl].
    destruct (Hs s Hsn) as (Hes & [s' Hs'] & _). rewrite Hl in Hes. injection Hes as Hes. rewrite <- Hes in Hs'.
    destruct (Hrev _ _ Hs') as [Hsn' Hl'].
    unfold zlookup in Hl, Hl'. pose proof (NoDup_lookup _ _ _ _ Hnd Hl Hl').
    unfold try_get_section_for_element in Hs'. rewrite Hs'. f_equal. lia.
Qed.

(** Nothing that the calls change makes a block of such a client reachable. *)
Definition silent_client st : Prop :=
  wf st /\ are_measurement_commands_sent st = true /\
  forall b, 0 <= b < number_of_blocks st ->
    has_element_number_for_ddi (SetpointCondensedWorkState1_16 + b) st = false /\
    has_element_number_for_ddi (ActualCondensedWorkState1_16 + b) st = true /\
    is_ddi_settable (ActualCondensedWorkState1_16 + b) st = false.

Lemma mixed_pool_silent : mixed_pool -> silent_client (ready c p).
Proof.
  intros [Ho Hall]. split; [apply wf_ready|]. split; [by destruct ready_frame as [m ->]|].
  intros b Hb. destruct (ready_blocks b Hb) as (_ & _ & Ha).
  rewrite ready_settable, (ready_has _ (or_intror Ha)).
  split_and!; [by apply oldest_no_setpoint|by apply Hall|by apply oldest_not_settable].
Qed.

Lemma silent_step st st' :
  silent_client st -> same_wiring Condensed st st' -> wf st' -> silent_client st'.
Proof.
  intros (_ & Hs & Hb) (Hp & Hd & Hs' & Hn & _) Hwf'. split; [done|].
  unfold are_measurement_commands_sent, number_of_blocks, has_element_number_for_ddi,
    is_ddi_settable, get_pool in *. rewrite Hp, Hd, Hs', Hn. by split.
Qed.

Lemma silent_block st b :
  silent_client st -> 0 <= b < number_of_blocks st -> block_messages c st b = [].
Proof.
  intros (Hwf & _ & Hb) Hbn. destruct (Hb b Hbn) as (Hm & Hl & Hset).
  pose proof (wf_number _ Hwf) as Hn. unfold number_of_blocks in Hbn.
  unfold block_messages, send_section_setpoint_states.
  rewrite !u16_id by (unfold SetpointCondensedWorkState1_16, ActualCondensedWorkState1_16; width).
  by rewrite Hm, Hl, Hset.
Qed.

Lemma silent_demand ss st :
  silent_client st -> is_section_control_enabled st = true ->
  section_messages (update_client_section_states ss c st).2 = [].
Proof.
  intros Hs Hen. destruct (update_client_section_states_spec ss c st) as [_ ->]; [apply Hs|done|].
  unfold due_messages. apply concat_nil_Forall, Forall_fmap, Forall_forall.
  intros b (_ & Hb%elem_of_seqZ)%list_elem_of_filter.
  apply (silent_block (apply_demand ss st)); [|change (number_of_blocks (apply_demand ss st))
    with (number_of_blocks st); lia].
  apply (silent_step st); [done|done|apply wf_apply_demand, Hs].
Qed.

Lemma client_call_silent `{!DdiLaws} d call st view :
  silent_client st ->
  silent_client (client_call c call st).1 /\ heard d (client_call c call st).2 view = view.
Proof.
  intros Hs. pose proof Hs as (Hwf & Hsent & _).
  destruct call as [| | | | |c' ddi e v| |ss|b|q]; try done; cbn [client_call].
  - split; [|done]. cbn [fst]. destruct (c' =? c); [|done]. unfold client_value.
    destruct (is_actual_condensed ddi).
    { apply (silent_step st); [done|apply same_control_report|].
      apply wf_on_condensed_work_state; [done|apply u16_range]. }
    destruct (ddi =? SectionControlState).
    { apply (silent_step st); [done|done|by apply wf_with_isSectionControlEnabled]. }
    destruct (ddi =? ActualWorkState); [|done].
    apply (silent_step st); [done|apply (same_control_actual Condensed)|by apply wf_on_actual_work_state].
  - by rewrite request_client_skipped by (by left).
  - destruct (is_section_control_enabled st) eqn:Hen.
    + rewrite <- heard_section_messages, silent_demand by done. split; [|done].
      pose proof (wf_update_client_section_states ss c st Hwf) as Hwf'.
      destruct (update_client_section_states_spec ss c st Hwf Hen) as [[w Hst] _].
      apply (silent_step st); [done|by rewrite Hst|done].
    + unfold update_client_section_states. by rewrite Hen.
  - unfold update_client_section_control_enabled, send_section_control_state. cbn [fst snd]. split.
    + destruct (negb _); [|done].
      apply (silent_step st); [done|done|by apply wf_with_isSectionControlEnabled].
    + destruct (_ && _); [|done]. cbn [heard foldl]. by rewrite hear_control.
  - unfold send_client_gnss_quality. cbn [fst snd]. split; [done|].
    destruct (has_element_number_for_ddi _ _); [|done]. by destruct d.
Qed.

Lemma serve_calls_silent `{!DdiLaws} d calls srv st view :
  clients srv !! c = Some st -> silent_client st ->
  Forall (fun call => keeps c call = true) calls ->
  exists st', clients (serve_calls calls srv).1 !! c = Some st' /\ silent_client st' /\
    heard d (to_client c (serve_calls calls srv).2) view = view.
Proof.
  intros Hc Hs. induction calls as [|call calls IH] using rev_ind; [by exists st|].
  intros [Hk Hkc]%Forall_app. apply Forall_cons in Hkc as [Hkc _].
  destruct (IH Hk) as (st' & Hc' & Hs' & Hh). clear IH. rewrite serve_calls_app.
  destruct (serve_calls calls srv) as [srv' outs]. cbn [serve_call fst snd] in *.
  destruct (run_call_client c call srv' st' Hkc Hc') as [Hl Ho].
  destruct (client_call_silent d call st' view Hs') as [Hs2 Hh2].
  exists (client_call c call st').1. split_and!; [done..|].
  by rewrite to_client_app, heard_app, Ho, Hh.
Qed.

(** C15: which implements are controlled. After activation and subscription, a
    client whose pool lists a condensed process data object it takes
    setpoints on, for every block of sixteen sections, takes condensed
    messages; one of the oldest method that lists none, with an element
    other than 0 of its own for each of its at most 255 sections, is
    addressed by element, and its reports are shown. These are the clients of
    the theorems on section control. One of the oldest method that does list
    condensed actual states for each block, which it only reports, hears of no
    setpoint in either dialect, whatever the server is called with while the
    client stays registered. *)
Theorem pool_decides_dialect `{!DdiLaws} :
  (condensed_pool -> wired Condensed (ready c p)) /\
  (per_element_pool -> wired (PerElement (section_element_numbers p)) (ready c p) /\
     visible (PerElement (section_element_numbers p)) (ready c p)) /\
  (mixed_pool -> forall srv calls d view, clients srv !! c = Some (ready c p) ->
     Forall (fun call => keeps c call = true) calls ->
     heard d (to_client c (serve_calls calls srv).2) view = view).
Proof.
  split; [apply condensed_pool_wired|]. split; [apply per_element_pool_wired|].
  intros Hm srv calls d view Hc Hk.
  by destruct (serve_calls_silent d calls srv _ view Hc (mixed_pool_silent Hm) Hk) as (? & _ & _ & ?).
Qed.
End wiring.
