(* ===== verification/Setup.v ===== *)
(** * Setting the application up (src/app.cpp lines 155-453, 593-597, 1119-1236, 1575-1591)

    [Application::initialize] loads the settings, starts the CAN hardware,
    waits for the task controller and the tractor ECU to claim their
    addresses, and then creates the server, the interfaces, the terminal
    client and the sockets. All of it runs on the main thread, with waits that
    read the clock of the CAN stack, while the CAN thread changes what is
    seen of the control functions.

    [Boot] is the state of the set-up: the time, how often the clock and the
    control functions have been looked at, what has been created, and the
    calls of the CAN stack so far with the time of each; those that only let it
    process what has come in, in the rounds of the waits, are kept by
    themselves ([updates]). [SetupEnv] answers
    the looks: how long the process is held up before a reading of the clock,
    and the address of a control function when it is looked at. A sleep takes
    as long as it says; more is part of what holds up the next reading. *)

From S2P Require Import Prelude Ddop Hierarchy ClientState TcServer ServerInvariant Udp.
From S2P Require Import Settings PacketHandler Heartbeat DemandMonitor Network Vt App VtObjects.

(** The NAME of a control function of ours (lines 223-241). *)
Inductive cf_function : Type := TaskController | TractorECU.

Record Name := {
  arbitrary_address_capable : bool;
  industry_group : Z;
  device_class : Z;
  name_identity_number : Z;
  ecu_instance : Z;
  function_instance : Z;
  device_class_instance : Z;
  name_manufacturer_code : Z;
  name_function : cf_function
}.

Definition our_name (capable : bool) (f : cf_function) : Name := {|
  arbitrary_address_capable := capable;
  industry_group := 2;
  device_class := 0;
  name_identity_number := 20;
  ecu_instance := 0;
  function_instance := 0;
  device_class_instance := 0;
  name_manufacturer_code := 1407;
  name_function := f
|}.

Definition tcNAME : Name := our_name true TaskController.
Definition tecuNAME : Name := our_name false TractorECU.

Inductive TaskControllerVersion : Type :=
  | DraftInternationalStandard
  | FinalDraftInternationalStandardFirstEdition
  | FirstPublishedEdition
  | SecondEditionDraft
  | SecondPublishedEdition.

Definition version_enum (tc_version : Z) : TaskControllerVersion :=
  if tc_version =? 0 then DraftInternationalStandard
  else if tc_version =? 1 then FinalDraftInternationalStandardFirstEdition
  else if tc_version =? 2 then FirstPublishedEdition
  else if tc_version =? 3 then SecondEditionDraft
  else SecondPublishedEdition.

Inductive Functionality : Type :=
  | TaskControllerBasicServer
  | TaskControllerGeoServer
  | TaskControllerSectionControlServer
  | BasicTractorECUServer.

(** What the set-up asks of the CAN stack, and the two moments at which it
    notices an address. *)
Inductive setup_call : Type :=
  | SetNumberOfChannels (n : Z)
  | AssignFrameHandler (channel : Z)
  | StartHardware
  | SetPacketsPerCts (n : Z)
  | CreateControlFunction (name : Name) (preferred : Z)
  | TcClaimed (address : Z)
  | TecuClaimed (address : Z)
  | ReleaseTecu
  | CreateServer (booms sections channels : Z) (version : TaskControllerVersion)
  | SetLanguage (code : bytes)
  | SetCountry (code : bytes)
  | InitializeServer
  | SetTaskTotalsActive (active : bool)
  | SetFunctionality (f : Functionality) (generation : Z) (supported : bool)
  | SetPolygonMapsOption (supported : bool)
  | SetSectionControlOption (booms sections : Z)
  | SetBasicTecuOption
  | CreateSpeedMessages (wheel ground machine_selected selected_command : bool)
  | InitializeSpeedMessages
  | SetSpeedNotAvailable
  | SetNavigationBasedSpeed
  | CreateNmeaMessages (cog_sog : bool)
  | InitializeNmeaMessages
  | CreateVtClient
  | SetObjectPool (data version : list Z)
  | SetObjectPoolScaling (mask_size designator_height : Z)
  | AddTracked (objectID value : Z)
  | InitializeHelper
  | OpenSockets.

(** ** State *)

Record Boot := {
  clock : Z;
  readings : nat;
  tc_looks : nat;
  tecu_looks : nat;
  boot_settings : Settings;
  hardware_running : bool;
  tecu_exists : bool;
  tecu_claim_failed : bool;
  server_exists : bool;
  speed_interface : bool;
  vt_client : bool;
  udp_bound : option octets;
  calls : list (Z * setup_call);
  updates : list Z
}.

Record SetupEnv := {
  driver_present : bool;
  (** the answers of [CANHardwareInterface::start], of [is_running] after it
      and of [canDriver->get_is_valid] *)
  hardware_starts : bool;
  hardware_runs : bool;
  driver_valid : bool;
  lag : nat -> Z;
  tc_address_at : nat -> option Z;
  tecu_address_at : nat -> option Z;
  path_env : PathEnv;
  settings_contents : option bytes;
  (** the embedded object pool, and the library's hash of a pool *)
  AOG_TC_IOP_DATA : list Z;
  hash_object_pool_to_version : list Z -> list Z;
  socket_env : Sockets
}.

(** The waits are bounded by time; the fuel covers 5000 ms in steps of 10. *)
Definition wait_fuel : nat := 501.

Definition initial_boot : Boot := {|
  clock := 0; readings := 0; tc_looks := 0; tecu_looks := 0;
  boot_settings := default_settings; hardware_running := false; tecu_exists := false;
  tecu_claim_failed := false; server_exists := false; speed_interface := false;
  vt_client := false; udp_bound := None; calls := []; updates := [] |}.

Definition with_clock (x : Z) (w : Boot) : Boot :=
  Build_Boot x (readings w) (tc_looks w) (tecu_looks w) (boot_settings w)
    (hardware_running w) (tecu_exists w) (tecu_claim_failed w) (server_exists w)
    (speed_interface w) (vt_client w) (udp_bound w) (calls w) (updates w).

Definition with_readings (x : nat) (w : Boot) : Boot :=
  Build_Boot (clock w) x (tc_looks w) (tecu_looks w) (boot_settings w)
    (hardware_running w) (tecu_exists w) (tecu_claim_failed w) (server_exists w)
    (speed_interface w) (vt_client w) (udp_bound w) (calls w) (updates w).

Definition with_tc_looks (x : nat) (w : Boot) : Boot :=
  Build_Boot (clock w) (readings w) x (tecu_looks w) (boot_settings w)
    (hardware_running w) (tecu_exists w) (tecu_claim_failed w) (server_exists w)
    (speed_interface w) (vt_client w) (udp_bound w) (calls w) (updates w).

Definition with_tecu_looks (x : nat) (w : Boot) : Boot :=
  Build_Boot (clock w) (readings w) (tc_looks w) x (boot_settings w)
    (hardware_running w) (tecu_exists w) (tecu_claim_failed w) (server_exists w)
    (speed_interface w) (vt_client w) (udp_bound w) (calls w) (updates w).

Definition with_boot_settings (x : Settings) (w : Boot) : Boot :=
  Build_Boot (clock w) (readings w) (tc_looks w) (tecu_looks w) x (hardware_running w)
    (tecu_exists w) (tecu_claim_failed w) (server_exists w) (speed_interface w)
    (vt_client w) (udp_bound w) (calls w) (updates w).

Definition with_hardware_running (x : bool) (w : Boot) : Boot :=
  Build_Boot (clock w) (readings w) (tc_looks w) (tecu_looks w) (boot_settings w) x
    (tecu_exists w) (tecu_claim_failed w) (server_exists w) (speed_interface w)
    (vt_client w) (udp_bound w) (calls w) (updates w).

Definition with_tecu_exists (x : bool) (w : Boot) : Boot :=
  Build_Boot (clock w) (readings w) (tc_looks w) (tecu_looks w) (boot_settings w)
    (hardware_running w) x (tecu_claim_failed w) (server_exists w) (speed_interface w)
    (vt_client w) (udp_bound w) (calls w) (updates w).

Definition with_tecu_claim_failed (x : bool) (w : Boot) : Boot :=
  Build_Boot (clock w) (readings w) (tc_looks w) (tecu_looks w) (boot_settings w)
    (hardware_running w) (tecu_exists w) x (server_exists w) (speed_interface w)
    (vt_client w) (udp_bound w) (calls w) (updates w).

Definition with_server_exists (x : bool) (w : Boot) : Boot :=
  Build_Boot (clock w) (readings w) (tc_looks w) (tecu_looks w) (boot_settings w)
    (hardware_running w) (tecu_exists w) (tecu_claim_failed w) x (speed_interface w)
    (vt_client w) (udp_bound w) (calls w) (updates w).

Definition with_speed_interface (x : bool) (w : Boot) : Boot :=
  Build_Boot (clock w) (readings w) (tc_looks w) (tecu_looks w) (boot_settings w)
    (hardware_running w) (tecu_exists w) (tecu_claim_failed w) (server_exists w) x
    (vt_client w) (udp_bound w) (calls w) (updates w).

Definition with_vt_client (x : bool) (w : Boot) : Boot :=
  Build_Boot (clock w) (readings w) (tc_looks w) (tecu_looks w) (boot_settings w)
    (hardware_running w) (tecu_exists w) (tecu_claim_failed w) (server_exists w)
    (speed_interface w) x (udp_bound w) (calls w) (updates w).

Definition with_udp_bound (x : option octets) (w : Boot) : Boot :=
  Build_Boot (clock w) (readings w) (tc_looks w) (tecu_looks w) (boot_settings w)
    (hardware_running w) (tecu_exists w) (tecu_claim_failed w) (server_exists w)
    (speed_interface w) (vt_client w) x (calls w) (updates w).

Definition with_calls (x : list (Z * setup_call)) (w : Boot) : Boot :=
  Build_Boot (clock w) (readings w) (tc_looks w) (tecu_looks w) (boot_settings w)
    (hardware_running w) (tecu_exists w) (tecu_claim_failed w) (server_exists w)
    (speed_interface w) (vt_client w) (udp_bound w) x (updates w).

Definition with_updates (x : list Z) (w : Boot) : Boot :=
  Build_Boot (clock w) (readings w) (tc_looks w) (tecu_looks w) (boot_settings w)
    (hardware_running w) (tecu_exists w) (tecu_claim_failed w) (server_exists w)
    (speed_interface w) (vt_client w) (udp_bound w) (calls w) x.

(** ** A monad for the set-up: state, exceptions, and loops on fuel *)

Definition setup (A : Type) : Type := Boot -> loop_result (outcome A * Boot).

#[export] Instance setup_ret : MRet setup := fun A a w => Finished (Returns a, w).

#[export] Instance setup_bind : MBind setup := fun A B f m w =>
  match m w with
  | Finished (Returns a, w) => f a w
  | Finished (Throws, w) => Finished (Throws, w)
  | OutOfRange => OutOfRange
  | Running => Running
  end.

Definition raise {A} : setup A := fun w => Finished (Throws, w).
Definition out_of_fuel {A} : setup A := fun _ => Running.
Definition modify (f : Boot -> Boot) : setup unit := fun w => Finished (Returns tt, f w).
Definition gets {A} (f : Boot -> A) : setup A := fun w => Finished (Returns (f w), w).

(** A call of the CAN stack, with its time. *)
Definition note (c : setup_call) : setup unit :=
  modify (fun w => with_calls (calls w ++ [(clock w, c)]) w).

(** [CANNetworkManager::CANNetwork.update ()], which lets the stack process what
    has come in, and its own timers. *)
Definition update_network : setup unit :=
  modify (fun w => with_updates (updates w ++ [clock w]) w).

Definition sleep_for (ms : Z) : setup unit := modify (fun w => with_clock (clock w + ms) w).

Section setup.
Context `{Platform} `{JsonApi}.
Context (env : SetupEnv).

(** ** The clock and the control functions *)

Definition get_timestamp_ms : setup Z := fun w =>
  let w := with_readings (S (readings w)) (with_clock (clock w + lag env (readings w)) w) in
  Finished (Returns (u32 (clock w)), w).

Definition get_time_elapsed_ms (since : Z) : setup Z :=
  t ← get_timestamp_ms; mret (time_elapsed_ms t since).

(** [tcCF->get_address ()] if that is valid, at this moment. *)
Definition look_at_tc : setup (option Z) := fun w =>
  Finished (Returns (tc_address_at env (tc_looks w)), with_tc_looks (S (tc_looks w)) w).

Definition look_at_tecu : setup (option Z) := fun w =>
  Finished (Returns (tecu_address_at env (tecu_looks w)), with_tecu_looks (S (tecu_looks w)) w).

(** The loops [while (elapsed (start) < limit)]: an update of the network, what
    is waited for, if anything, then 10 ms of sleep. *)
Fixpoint wait_loop {A} (fuel : nat) (start limit : Z) (look : setup (option A))
    : setup (option A) :=
  elapsed ← get_time_elapsed_ms start;
  if elapsed <? limit then
    match fuel with
    | O => out_of_fuel
    | S fuel =>
        _ ← update_network;
        found ← look;
        match found with
        | Some a => mret (Some a)
        | None => _ ← sleep_for 10; wait_loop fuel start limit look
        end
    end
  else mret None.

Definition nothing : setup (option unit) := mret None.

(** ** Hardware (lines 188-216) *)

Definition setup_can_hardware : setup bool :=
  if negb (driver_present env) then mret false
  else
    _ ← note (SetNumberOfChannels 1);
    _ ← note (AssignFrameHandler 0);
    _ ← note StartHardware;
    _ ← modify (with_hardware_running (hardware_runs env));
    if negb (hardware_starts env) || negb (driver_valid env) then mret false
    else
      _ ← note (SetPacketsPerCts 255);
      start ← get_timestamp_ms;
      _ ← wait_loop wait_fuel start 100 nothing;
      mret true.

(** ** Control functions (lines 218-353) *)

Definition MINIMUM_ADDRESS_CLAIM_DELAY_MS : Z := 250.
Definition MAX_ADDRESS_CLAIM_WAIT_MS : Z := 5000.
Definition TaskController_MappingComputer : Z := PREFERRED_TC_ADDRESS.
Definition TractorECU_address : Z := 240.

(** The 250 ms after a claim. *)
Definition claim_delay : setup unit :=
  claimed ← get_timestamp_ms;
  elapsed ← get_time_elapsed_ms claimed;
  if elapsed <? MINIMUM_ADDRESS_CLAIM_DELAY_MS then
    let remaining := MINIMUM_ADDRESS_CLAIM_DELAY_MS - elapsed in
    start ← get_timestamp_ms;
    _ ← wait_loop wait_fuel start remaining nothing;
    mret tt
  else mret tt.

(** At most [attempts] times 100 ms until the TECU has an address. *)
Fixpoint wait_for_tecu (attempts : nat) : setup unit :=
  address ← look_at_tecu;
  match address, attempts with
  | Some _, _ | _, O => mret tt
  | None, S attempts => _ ← sleep_for 100; _ ← update_network; wait_for_tecu attempts
  end.

(** The TECU has its address, and that is the preferred one: two looks. *)
Definition tecu_has_address : setup bool :=
  valid ← look_at_tecu;
  match valid with
  | None => mret false
  | Some _ =>
      address ← look_at_tecu;
      mret (match address with Some a => a =? TractorECU_address | None => false end)
  end.

Definition setup_tecu : setup unit :=
  _ ← note (CreateControlFunction tecuNAME TractorECU_address);
  _ ← modify (with_tecu_exists true);
  _ ← wait_for_tecu 50;
  ok ← tecu_has_address;
  if ok : bool then
    _ ← note (TecuClaimed TractorECU_address);
    claim_delay
  else
    _ ← modify (with_tecu_claim_failed true);
    _ ← note ReleaseTecu;
    modify (with_tecu_exists false).

Definition setup_control_functions : setup bool :=
  _ ← note (CreateControlFunction tcNAME TaskController_MappingComputer);
  start ← get_timestamp_ms;
  claimed ← wait_loop wait_fuel start MAX_ADDRESS_CLAIM_WAIT_MS look_at_tc;
  match claimed with
  | None => mret false
  | Some address =>
      _ ← note (TcClaimed address);
      _ ← claim_delay;
      s ← gets boot_settings;
      _ ← (if is_tecu_enabled s then setup_tecu else mret tt);
      mret true
  end.

(** ** The server (lines 355-403) *)

Definition setup_task_controller_server : setup unit :=
  s ← gets boot_settings;
  _ ← note (CreateServer 1 64 64 (version_enum (get_tc_version s)));
  _ ← modify (with_server_exists true);
  _ ← note (SetLanguage (get_language_code s));
  _ ← note (SetCountry (get_country_code s));
  _ ← note InitializeServer;
  _ ← note (SetTaskTotalsActive true);
  _ ← note (SetFunctionality TaskControllerBasicServer 1 true);
  _ ← note (SetFunctionality TaskControllerGeoServer 1 false);
  _ ← note (SetPolygonMapsOption false);
  _ ← note (SetFunctionality TaskControllerSectionControlServer 1 true);
  note (SetSectionControlOption 1 64).

(** ** The tractor ECU (lines 405-447) *)

Definition setup_tecu_interfaces : setup unit :=
  exists_ ← gets tecu_exists;
  if negb exists_ then mret tt
  else
    address ← look_at_tecu;
    match address with
    | None => mret tt
    | Some _ =>
        s ← gets boot_settings;
        _ ← note (SetFunctionality BasicTractorECUServer 2 true);
        _ ← note SetBasicTecuOption;
        _ ← note (CreateSpeedMessages true true true false);
        _ ← note InitializeSpeedMessages;
        _ ← note SetSpeedNotAvailable;
        _ ← note SetNavigationBasedSpeed;
        _ ← note (CreateNmeaMessages (is_nmea_send_enabled s));
        _ ← note InitializeNmeaMessages;
        modify (with_speed_interface true)
    end.

(** ** Terminal and sockets (lines 449, 593-597, 1119-1236) *)

(** The bytes behind the version label of the pool: the scaling is part of
    them (lines 1128-1135). *)
Definition poolVersionData (pool : list Z) : list Z :=
  pool ++ bytes_of_string "scaled:" ++ to_string ISO_MASK_SIZE ++ bytes_of_string ":"
  ++ to_string ISO_DESIGNATOR_HEIGHT ++ bytes_of_string ":v1".

Definition setup_vt_client : setup unit :=
  s ← gets boot_settings;
  let pool := AOG_TC_IOP_DATA env in
  _ ← note CreateVtClient;
  _ ← note (SetObjectPool pool (hash_object_pool_to_version env (poolVersionData pool)));
  _ ← note (SetObjectPoolScaling ISO_MASK_SIZE ISO_DESIGNATOR_HEIGHT);
  _ ← note (AddTracked VTSpeedValue 0);
  _ ← note (AddTracked VTXteValue 0);
  _ ← note (AddTracked ConfigNmeaSend (if is_nmea_send_enabled s then 1 else 0));
  _ ← note (AddTracked ConfigTecuEnabled (if is_tecu_enabled s then 1 else 0));
  _ ← note InitializeHelper;
  modify (with_vt_client true).

Definition setup_udp_connections : setup unit :=
  s ← gets boot_settings;
  match open (socket_env env) (configuredSubnet s) with
  | Some endpoint => _ ← note OpenSockets; modify (with_udp_bound (Some endpoint))
  | None => raise
  end.

(** ** [Application::initialize] (lines 160-186) *)

(** [settings->load ()]. *)
Definition load_settings : setup unit := fun w =>
  match Settings.load (path_env env) (settings_contents env) (boot_settings w) with
  | (Returns _, s) => Finished (Returns tt, with_boot_settings s w)
  | (Throws, s) => Finished (Throws, with_boot_settings s w)
  end.

Definition initialize : setup bool :=
  _ ← load_settings;
  hardware ← setup_can_hardware;
  if negb hardware then mret false
  else
    functions ← setup_control_functions;
    if negb functions then mret false
    else
      _ ← setup_task_controller_server;
      _ ← setup_tecu_interfaces;
      s ← gets boot_settings;
      _ ← (if is_vt_enabled s then setup_vt_client else mret tt);
      _ ← setup_udp_connections;
      mret true.
End setup.

(** ** The application that results *)

Section started.
Context `{DdopApi}.

(** Nothing has been received and no timer has run. *)
Definition started_application (w : Boot) : Application := {|
  aog := initial_aog initial_server;
  settings := boot_settings w;
  rxDetection := initial_rx;
  rxIncoming := initial_rx;
  demandLog := {| loggedSectionDemand := []; lastSectionDemandLogMs := 0 |};
  workingWithoutDemand := ∅;
  implementSnapshots := ∅;
  tecuAddressClaimFailed := tecu_claim_failed w;
  tcAddressConflictActive := false;
  timers := Build_Timers 0 0 0 0 0 0 0;
  vt := initial_vt;
  bound := udp_bound w
|}.
End started.

(** ** [Application::stop] *)

Inductive stop_call : Type := TerminateVtClient | TerminateServer | StopHardware.

Definition stop (w : Boot) (vtClientStarted : bool) : list stop_call :=
  (if vt_client w && vtClientStarted then [TerminateVtClient] else []) ++
  (if server_exists w then [TerminateServer] else []) ++
  (if hardware_running w then [StopHardware] else []).
