(* ===== verification/SetupFacts.v ===== *)
(** * The set-up ends, in time, with what was asked for

    Every wait ends within its fuel ([wait_loop_spec]); [initialize] always
    ends and answers as the driver, the claim of the address, the settings
    file and the sockets decide; and the CAN stack is not asked for anything
    within 250 ms of an address claim. *)

From S2P Require Import Prelude Ddop Hierarchy ClientState TcServer ServerInvariant Udp.
From S2P Require Import Settings PacketHandler Heartbeat DemandMonitor Network Vt App Setup.

#[local] Set Default Proof Using "All".

(** The clock of the CAN stack: milliseconds in 32 bits. *)
Class ElapsedLaws `{Platform} := time_elapsed_ms_spec :
  forall now since, time_elapsed_ms now since = u32 (now - since).

(** ** Weakest preconditions *)

(** The set-up [m] ends, in an outcome and a state that satisfy [Q]. *)
Definition wp {A} (m : setup A) (Q : outcome A -> Boot -> Prop) (w : Boot) : Prop :=
  match m w with Finished (r, w') => Q r w' | _ => False end.

(** What follows a call that may throw. *)
Definition next {A B} (f : A -> setup B) (Q : outcome B -> Boot -> Prop) : outcome A -> Boot -> Prop :=
  fun r w => match r with Returns a => wp (f a) Q w | Throws => Q Throws w end.

Lemma wp_bind {A B} (m : setup A) (f : A -> setup B) Q w : wp m (next f Q) w -> wp (m ≫= f) Q w.
Proof.
  unfold wp, next, mbind, setup_bind. by destruct (m w) as [[[a|] w']| |].
Qed.

Lemma wp_mono {A} (m : setup A) (Q Q' : outcome A -> Boot -> Prop) w :
  wp m Q w -> (forall r w', Q r w' -> Q' r w') -> wp m Q' w.
Proof. unfold wp. intros Hm HQ. destruct (m w) as [[r w']| |]; auto. Qed.

Lemma wp_seq {A B} (m : setup A) (f : A -> setup B) P Q w :
  wp m P w -> (forall r w', P r w' -> next f Q r w') -> wp (m ≫= f) Q w.
Proof. intros Hm HP. by apply wp_bind, (wp_mono _ P). Qed.

Lemma wp_ret {A} (a : A) Q w : Q (Returns a) w -> wp (mret a) Q w.
Proof. done. Qed.

Lemma u32_difference a b : 0 <= b - a < 4294967296 -> u32 (u32 b - u32 a) = b - a.
Proof.
  intros Hab. unfold u32. rewrite <- Zminus_mod. apply Z.mod_small. lia.
Qed.

Section facts.
Context `{Platform} `{JsonApi} `{!ElapsedLaws}.
Context (env : SetupEnv).

(** The process is never held up for twelve days before it reads the clock. *)
Definition steady : Prop := forall n, 0 <= lag env n < 2 ^ 30.
Context (Hsteady : steady).

(** ** Waits *)

Definition at_time (c : Z) (r : nat) (u : list Z) (n : nat) (w : Boot) : Boot :=
  with_clock c (with_readings r (with_updates u (with_tc_looks n w))).

(** The looks of a wait: at the task controller, or at nothing. *)
Definition looks_at {A} (f : nat -> option A) (step : nat) (look : setup (option A)) : Prop :=
  forall w, look w = Finished (Returns (f (tc_looks w)), with_tc_looks (tc_looks w + step) w).

Lemma nothing_looks : looks_at (fun _ => None) 0 nothing.
Proof. intros []. unfold nothing, with_tc_looks. cbn. by rewrite Nat.add_0_r. Qed.

Lemma look_at_tc_looks : looks_at (tc_address_at env) 1 (look_at_tc env).
Proof. intros w. unfold look_at_tc. by rewrite Nat.add_1_r. Qed.

Lemma elapsed_spec t0 w Q :
  t0 <= clock w <= t0 + 2 ^ 31 ->
  (forall c r, clock w <= c < clock w + 2 ^ 30 ->
    Q (Returns (c - t0)) (with_clock c (with_readings r w))) ->
  wp (get_time_elapsed_ms env (u32 t0)) Q w.
Proof.
  intros Ht HQ. unfold get_time_elapsed_ms. apply wp_bind. unfold wp, get_timestamp_ms, next.
  cbv zeta. apply wp_ret. rewrite time_elapsed_ms_spec. cbn [clock with_readings with_clock].
  pose proof (Hsteady (readings w)) as Hlag.
  rewrite u32_difference by lia.
  apply (HQ (clock w + lag env (readings w)) (S (readings w))). lia.
Qed.

(** A wait of [limit] ms since [t0] ends: at once when the look finds
    something, and otherwise not before [limit] ms have passed. *)
Lemma wait_loop_spec {A} f step (look : setup (option A)) t0 limit fuel : forall w,
  looks_at f step look -> 0 <= limit <= 2 ^ 30 ->
  t0 <= clock w <= t0 + limit + 10 -> limit <= clock w - t0 + 10 * Z.of_nat fuel ->
  wp (wait_loop env fuel (u32 t0) limit look) (fun r w' => exists o c rd u n,
    r = Returns o /\ w' = at_time c rd u n w /\ clock w <= c /\
    match o with
    | Some a => exists k, n = (k + step)%nat /\ f k = Some a /\ (tc_looks w <= k)%nat /\
        (step = 1%nat -> forall j, (tc_looks w <= j < k)%nat -> f j = None)
    | None => limit <= c - t0 /\ (exists m, n = tc_looks w + m * step)%nat /\
        (step = 1%nat -> forall j, (tc_looks w <= j < n)%nat -> f j = None)
    end) w.
Proof.
  induction fuel as [|fuel IH]; intros w Hlook Hlimit Ht Hfuel; cbn [wait_loop];
    apply wp_bind, elapsed_spec; try lia; intros c r Hc; cbn [next].
  - destruct (Z.ltb_spec (c - t0) limit); [lia|]. apply wp_ret.
    exists None, c, r, (updates w), (tc_looks w). destruct w. cbn in *.
    split_and!; try done; try lia. by exists 0%nat; lia.
  - destruct (Z.ltb_spec (c - t0) limit) as [Hlt|Hge].
    2: { apply wp_ret. exists None, c, r, (updates w), (tc_looks w). destruct w. cbn in *.
         split_and!; try done; try lia. by exists 0%nat; lia. }
    apply wp_bind. unfold wp at 1, update_network, modify. cbn [next].
    apply wp_bind. unfold wp at 1. rewrite Hlook.
    cbn [next tc_looks with_clock with_readings with_updates].
    destruct (f (tc_looks w)) as [a|] eqn:Hf.
    + apply wp_ret. exists (Some a), c, r, (updates w ++ [c]), (tc_looks w + step)%nat. destruct w. cbn in *.
      split_and!; try done; [lia|]. exists tc_looks. split_and!; try done; lia.
    + apply wp_bind. unfold wp at 1. cbn [sleep_for modify next].
      eapply wp_mono; [apply IH; [done..| |]; destruct w; cbn in *; lia|].
      cbn beta. intros r' w' (o & c' & rd & u & n & -> & -> & Hc' & Ho).
      exists o, c', rd, u, n. destruct w. cbn in *. split_and!; try done; [lia|].
      destruct o as [a|].
      * destruct Ho as (k & Hn & Hk & Hle & Hall). exists k. split_and!; try done; [lia|].
        intros Hstep j Hj. destruct (decide (j = tc_looks)) as [->|]; [done|].
        apply Hall; [done|lia].
      * destruct Ho as (Hl & [m ->] & Hall). split_and!; try done; [by exists (S m); lia|].
        intros Hstep j Hj. destruct (decide (j = tc_looks)) as [->|]; [done|].
        apply Hall; [done|lia].
Qed.

Lemma wp_timestamp Q w :
  (forall c r, clock w <= c < clock w + 2 ^ 30 ->
    Q (Returns (u32 c)) (with_clock c (with_readings r w))) ->
  wp (get_timestamp_ms env) Q w.
Proof.
  intros HQ. unfold wp, get_timestamp_ms. cbv zeta. cbn [clock with_readings with_clock].
  pose proof (Hsteady (readings w)) as Hlag.
  apply (HQ (clock w + lag env (readings w)) (S (readings w))). lia.
Qed.

(** What a wait of [limit] ms, measured from its own beginning, finds. *)
Definition waited {A} (f : nat -> option A) (step : nat) (limit : Z) (w : Boot)
    (o : option A) (c : Z) (n : nat) : Prop :=
  clock w <= c /\
  match o with
  | Some a => exists k, n = (k + step)%nat /\ f k = Some a /\ (tc_looks w <= k)%nat /\
      (step = 1%nat -> forall j, (tc_looks w <= j < k)%nat -> f j = None)
  | None => clock w + limit <= c /\ (exists m, n = tc_looks w + m * step)%nat /\
      (step = 1%nat -> forall j, (tc_looks w <= j < n)%nat -> f j = None)
  end.

Lemma wp_timed_wait {A B} f step (look : setup (option A)) limit (k : option A -> setup B) Q w :
  looks_at f step look -> 0 <= limit <= 5000 ->
  (forall o c rd u n, waited f step limit w o c n -> wp (k o) Q (at_time c rd u n w)) ->
  wp (start ← get_timestamp_ms env; o ← wait_loop env wait_fuel start limit look; k o) Q w.
Proof.
  intros Hlook Hlimit HQ. apply wp_bind, wp_timestamp. intros c r Hc. cbn [next].
  eapply wp_seq.
  { apply (wait_loop_spec f step); [done|lia|cbn; lia|cbn; unfold wait_fuel; lia]. }
  cbn beta. intros r' w' (o & c' & rd & u & n & -> & -> & Hc' & Ho). cbn [next].
  specialize (HQ o c' rd u n). destruct w. cbn in *. apply HQ. split; [cbn; lia|].
  destruct o as [a|]; [exact Ho|]. cbn. split; [lia|]. apply Ho.
Qed.

Lemma wp_claim_delay w Q :
  (forall c rd u, clock w + 250 <= c ->
     Q (Returns tt) (with_clock c (with_readings rd (with_updates u w)))) ->
  wp (claim_delay env) Q w.
Proof.
  intros HQ. unfold claim_delay, MINIMUM_ADDRESS_CLAIM_DELAY_MS.
  apply wp_bind, wp_timestamp. intros c0 r0 Hc0. cbn [next].
  apply wp_bind, elapsed_spec; [cbn; lia|]. intros c1 r1 Hc1. cbn [next]. cbn in Hc1.
  destruct (Z.ltb_spec (c1 - c0) 250).
  - apply (wp_timed_wait (fun _ => None) 0 nothing); [apply nothing_looks|lia|].
    intros o c rd u n [Hc Ho]. apply wp_ret. destruct o as [[]|]; [by destruct Ho as (? & ? & ? & ?)|].
    destruct Ho as (Hl & [m ->] & _). cbn in Hc, Hl. specialize (HQ c rd u ltac:(lia)).
    destruct w. unfold at_time. cbn in *. by rewrite Nat.mul_0_r, Nat.add_0_r.
  - apply wp_ret. specialize (HQ c1 r1 (updates w) ltac:(lia)). by destruct w.
Qed.


(** ** The 250 ms after a claim *)

Definition is_claim (c : setup_call) : bool :=
  match c with TcClaimed _ | TecuClaimed _ => true | _ => false end.

(** Every call comes at least 250 ms after the claims before it. *)
Definition spaced (l : list (Z * setup_call)) : Prop :=
  forall i j t t' x y, l !! i = Some (t, x) -> l !! j = Some (t', y) -> (i < j)%nat ->
    is_claim x = true -> t + 250 <= t'.

(** The delay after every claim so far is over. *)
Definition log_ok (w : Boot) : Prop :=
  spaced (calls w) /\ forall t x, (t, x) ∈ calls w -> is_claim x = true -> t + 250 <= clock w.

Lemma spaced_snoc l t y :
  spaced l -> (forall t' x, (t', x) ∈ l -> is_claim x = true -> t' + 250 <= t) ->
  spaced (l ++ [(t, y)]).
Proof.
  intros Hs Ht i j t1 t2 x z Hi Hj Hij Hx.
  apply lookup_app_Some in Hj as [Hj|[Hlen Hj]].
  - rewrite lookup_app_l in Hi by (apply lookup_lt_Some in Hj; lia). by eapply Hs.
  - assert (Hz : j = length l).
    { apply lookup_lt_Some in Hj. cbn in Hj. lia. }
    subst j. rewrite Nat.sub_diag in Hj. injection Hj as <- <-.
    rewrite lookup_app_l in Hi by lia. apply (Ht _ x); [by apply list_elem_of_lookup_2 in Hi|done].
Qed.

Definition keeps_log {A} (m : setup A) : Prop :=
  forall w, log_ok w -> wp m (fun _ w' => log_ok w') w.

Lemma keeps_log_bind {A B} (m : setup A) (f : A -> setup B) :
  keeps_log m -> (forall a, keeps_log (f a)) -> keeps_log (m ≫= f).
Proof.
  intros Hm Hf w Hw. eapply wp_seq; [by apply Hm|]. cbn beta. intros [a|] w' Hw'; [by apply Hf|done].
Qed.

Lemma keeps_log_ret {A} (a : A) : keeps_log (mret a).
Proof. by intros w Hw. Qed.

Lemma log_ok_later w w' : log_ok w -> calls w' = calls w -> clock w <= clock w' -> log_ok w'.
Proof.
  intros [Hs Hr] Hc Ht. split; rewrite Hc; [done|]. intros t x Hin Hx.
  specialize (Hr t x Hin Hx). lia.
Qed.

Lemma keeps_log_modify f :
  (forall w, calls (f w) = calls w /\ clock w <= clock (f w)) -> keeps_log (modify f).
Proof. intros Hf w Hw. destruct (Hf w). by apply (log_ok_later w). Qed.

Lemma keeps_log_note c : is_claim c = false -> keeps_log (note c).
Proof.
  intros Hc w [Hs Hr]. unfold wp, note, modify. split; cbn [calls clock with_calls].
  - by apply spaced_snoc.
  - intros t x [Hin|Heq%list_elem_of_singleton]%elem_of_app Hx; [by apply (Hr t x)|].
    injection Heq as -> ->. congruence.
Qed.

(** A claim and the delay after it. *)
Lemma claim_log_ok c w : log_ok w ->
  wp (_ ← note c; claim_delay env) (fun r w' => r = Returns tt /\ log_ok w') w.
Proof.
  intros [Hs Hr]. apply wp_bind. unfold wp at 1, note, modify. cbn [next].
  apply wp_claim_delay. intros c' rd u Hc'. cbn in Hc'. split; [done|].
  split; cbn [calls clock with_calls with_clock with_readings with_updates].
  - by apply spaced_snoc.
  - intros t x [Hin|Heq%list_elem_of_singleton]%elem_of_app Hx.
    + specialize (Hr t x Hin Hx). lia.
    + injection Heq as -> ->. lia.
Qed.

Lemma keeps_log_claim c : keeps_log (_ ← note c; claim_delay env).
Proof. intros w Hw. eapply wp_mono; [by apply claim_log_ok|]. by intros ? ? []. Qed.

Lemma keeps_log_claim_then {A} c (k : unit -> setup A) :
  (forall u, keeps_log (k u)) -> keeps_log (_ ← note c; u ← claim_delay env; k u).
Proof.
  intros Hk w Hw. pose proof (claim_log_ok c w Hw) as Hc. revert Hc.
  unfold wp, mbind, setup_bind, note, modify. cbn.
  destruct (claim_delay env _) as [[r w']| |]; [|done..]. intros [-> Hw']. by apply Hk.
Qed.

Lemma keeps_log_gets {A} (f : Boot -> A) : keeps_log (gets f).
Proof. by intros w Hw. Qed.

Lemma keeps_log_wait {A B} f step (look : setup (option A)) limit (k : option A -> setup B) :
  looks_at f step look -> 0 <= limit <= 5000 -> (forall o, keeps_log (k o)) ->
  keeps_log (start ← get_timestamp_ms env; o ← wait_loop env wait_fuel start limit look; k o).
Proof.
  intros Hlook Hlimit Hk w Hw. apply (wp_timed_wait f step); [done..|].
  intros o c rd u n [Hc _]. apply Hk. by apply (log_ok_later w).
Qed.

Lemma keeps_log_look_at_tecu : keeps_log (look_at_tecu env).
Proof. intros w Hw. apply (log_ok_later w); [done..|]. cbn. lia. Qed.

Lemma keeps_log_wait_for_tecu attempts : keeps_log (wait_for_tecu env attempts).
Proof.
  induction attempts; cbn [wait_for_tecu];
    (apply keeps_log_bind; [apply keeps_log_look_at_tecu|]); intros [a|];
    try apply keeps_log_ret.
  apply keeps_log_bind; [apply keeps_log_modify; intros w; cbn; split; [done|lia]|]. intros _.
  apply keeps_log_bind; [|done]. apply keeps_log_modify. intros w. cbn. split; [done|lia].
Qed.

Create HintDb setup.
#[local] Hint Resolve keeps_log_ret keeps_log_gets keeps_log_look_at_tecu
  keeps_log_wait_for_tecu : setup.

Ltac keep_log :=
  repeat lazymatch goal with
    | |- keeps_log (_ ← note (TcClaimed _); _) => apply keeps_log_claim_then; intros
    | |- keeps_log (_ ← note (TecuClaimed _); _) => apply keeps_log_claim
    | |- keeps_log (start ← get_timestamp_ms _; _ ← wait_loop _ _ start _ nothing; _) =>
        apply (keeps_log_wait _ 0 _ _ _ nothing_looks); [lia|intros]
    | |- keeps_log (start ← get_timestamp_ms _; _ ← wait_loop _ _ start _ (look_at_tc _); _) =>
        apply (keeps_log_wait _ 1 _ _ _ look_at_tc_looks);
          [unfold MAX_ADDRESS_CLAIM_WAIT_MS; lia|intros]
    | |- keeps_log (mbind _ _) => apply keeps_log_bind; [|intros]
    | |- keeps_log (modify _) => apply keeps_log_modify; intros; split; [done|cbn; lia]
    | |- keeps_log (note _) => by apply keeps_log_note
    | |- keeps_log (match ?x with _ => _ end) => destruct x
    | |- keeps_log _ => solve [auto with setup]
    end.

Lemma keeps_log_load : keeps_log (load_settings env).
Proof.
  intros w Hw. unfold wp, load_settings. destruct (Settings.load _ _ _) as [[?|] s];
    by apply (log_ok_later w).
Qed.

Lemma keeps_log_sockets : keeps_log (setup_udp_connections env).
Proof.
  unfold setup_udp_connections. apply keeps_log_bind; [auto with setup|]. intros s.
  destruct (open _ _); [keep_log|]. by intros w Hw.
Qed.

Lemma keeps_log_tecu : keeps_log (setup_tecu env).
Proof.
  unfold setup_tecu, tecu_has_address. keep_log.
Qed.

Lemma keeps_log_initialize : keeps_log (initialize env).
Proof.
  unfold initialize, setup_can_hardware, setup_control_functions, setup_task_controller_server,
    setup_tecu_interfaces, setup_vt_client.
  pose proof keeps_log_load. pose proof keeps_log_sockets. pose proof keeps_log_tecu. keep_log.
Qed.

(** C14: the 250 ms of silence after an address claim. In the set-up every
    call of the CAN stack, but for the updates by which the waits let it process
    what has come in, comes at least 250 ms after the moment at which the
    address of the task controller, or of the tractor ECU, was seen to be
    claimed, whatever the settings, the sockets and the bus do, and however
    long, up to twelve days, the process is held up in between. *)
Theorem claim_delays_respected (i j : nat) (t t' : Z) (c c' : setup_call) (r : outcome bool)
    (w : Boot) (Hrun : initialize env initial_boot = Finished (r, w))
    (Hi : calls w !! i = Some (t, c)) (Hj : calls w !! j = Some (t', c')) (Hij : (i < j)%nat)
    (Hclaim : is_claim c = true) :
  t + 250 <= t'.
Proof.
  assert (Hinit : log_ok initial_boot).
  { split; [intros [|] ? ? ? ? ? Hn; discriminate Hn|]. by intros ? ? ?%elem_of_nil. }
  pose proof (keeps_log_initialize initial_boot Hinit) as Hw. unfold wp in Hw.
  rewrite Hrun in Hw. by apply (proj1 Hw i j t t' c c').
Qed.

(** ** What the set-up answers *)

(** What the rest of the set-up leaves alone while it waits. *)
Definition same_parts (w w' : Boot) : Prop :=
  boot_settings w' = boot_settings w /\ server_exists w' = server_exists w /\
  vt_client w' = vt_client w /\ udp_bound w' = udp_bound w /\ tc_looks w' = tc_looks w /\
  tecu_claim_failed w' = tecu_claim_failed w /\ tecu_exists w' = tecu_exists w /\
  speed_interface w' = speed_interface w.

Lemma same_parts_time c rd w : same_parts w (with_clock c (with_readings rd w)).
Proof. by destruct w. Qed.

Lemma wp_look_at_tecu Q w :
  Q (Returns (tecu_address_at env (tecu_looks w))) (with_tecu_looks (S (tecu_looks w)) w) ->
  wp (look_at_tecu env) Q w.
Proof. done. Qed.

Lemma wp_note c Q w : Q (Returns tt) (with_calls (calls w ++ [(clock w, c)]) w) -> wp (note c) Q w.
Proof. done. Qed.

Lemma wp_wait_for_tecu attempts : forall w,
  wp (wait_for_tecu env attempts) (fun r w' => r = Returns tt /\ same_parts w w') w.
Proof.
  assert (Hstop : forall w w', same_parts w w' ->
    wp (mret tt) (fun r w' => r = Returns tt /\ same_parts w w') w') by done.
  induction attempts as [|attempts IH]; intros w; cbn [wait_for_tecu];
    apply wp_bind, wp_look_at_tecu; cbn [next]; destruct (tecu_address_at _ _);
    try (apply Hstop; by destruct w).
  apply wp_bind. unfold wp at 1, sleep_for, modify. cbn [next].
  apply wp_bind. unfold wp at 1, update_network, modify. cbn [next].
  eapply wp_mono; [apply IH|]. intros r w' [-> Hw']. split; [done|]. by destruct w.
Qed.

Lemma wp_tecu_has_address w :
  wp (tecu_has_address env) (fun r w' => exists b, r = Returns b /\ same_parts w w') w.
Proof.
  apply wp_bind, wp_look_at_tecu. cbn [next]. destruct (tecu_address_at _ _).
  - apply wp_bind, wp_look_at_tecu. cbn [next]. apply wp_ret. eexists. by destruct w.
  - apply wp_ret. eexists. by destruct w.
Qed.

(** The tractor ECU is there or has failed, and nothing else changes. *)
Lemma wp_setup_tecu w :
  wp (setup_tecu env) (fun r w' => r = Returns tt /\
    boot_settings w' = boot_settings w /\ server_exists w' = server_exists w /\
    vt_client w' = vt_client w /\ udp_bound w' = udp_bound w /\ tc_looks w' = tc_looks w /\
    speed_interface w' = speed_interface w /\
    (tecu_exists w' = true /\ tecu_claim_failed w' = tecu_claim_failed w \/
     tecu_exists w' = false /\ tecu_claim_failed w' = true)) w.
Proof.
  apply wp_bind, wp_note. cbn [next]. apply wp_bind. unfold wp at 1, modify. cbn [next].
  eapply wp_seq; [apply wp_wait_for_tecu|]. intros r w1 [-> Hw1]. cbn [next].
  eapply wp_seq; [apply wp_tecu_has_address|]. intros r w2 (b & -> & Hw2). cbn [next].
  unfold same_parts in *. cbn in Hw1. destruct b.
  - apply wp_bind, wp_note. cbn [next]. apply wp_claim_delay. intros c rd u _.
    split; [done|]. cbn. intuition congruence.
  - apply wp_bind. unfold wp at 1, modify. cbn [next]. apply wp_bind, wp_note. cbn [next].
    unfold wp. split; [done|]. cbn. intuition congruence.
Qed.

Lemma wp_hardware w :
  wp (setup_can_hardware env) (fun r w' =>
    r = Returns (driver_present env && hardware_starts env && driver_valid env) /\
    boot_settings w' = boot_settings w /\ server_exists w' = server_exists w /\
    tc_looks w' = tc_looks w /\ tecu_exists w' = tecu_exists w /\
    tecu_claim_failed w' = tecu_claim_failed w /\ vt_client w' = vt_client w /\
    clock w <= clock w') w.
Proof.
  unfold setup_can_hardware. destruct (driver_present env); cbn [negb andb];
    [|by apply wp_ret; split_and!].
  do 3 (apply wp_bind, wp_note; cbn [next]).
  apply wp_bind. unfold wp at 1, modify. cbn [next].
  destruct (hardware_starts env); cbn [negb orb andb]; [|by apply wp_ret; split_and!].
  destruct (driver_valid env); cbn [negb]; [|by apply wp_ret; split_and!].
  apply wp_bind, wp_note. cbn [next].
  apply (wp_timed_wait (fun _ => None) 0 nothing); [apply nothing_looks|lia|].
  intros o c rd u n [Hc Ho]. apply wp_ret. destruct o; [by destruct Ho as (? & ? & ? & ?)|].
  destruct Ho as (_ & [m ->] & _). destruct w. cbn in *. split_and!; try done; lia.
Qed.

Lemma wp_modify f Q w : Q (Returns tt) (f w) -> wp (modify f) Q w.
Proof. done. Qed.

Lemma wp_gets {A} (f : Boot -> A) Q w : Q (Returns (f w)) w -> wp (gets f) Q w.
Proof. done. Qed.

(** What a call leaves alone. *)
Definition frame (w : Boot) : Settings * bool * nat * bool * bool * bool :=
  (boot_settings w, server_exists w, tc_looks w, tecu_exists w, tecu_claim_failed w, vt_client w).

Lemma wp_note_frame c Q w :
  (forall w', frame w' = frame w -> Q (Returns tt) w') -> wp (note c) Q w.
Proof. intros HQ. apply wp_note, HQ. by destruct w. Qed.

Lemma wp_server w :
  wp setup_task_controller_server
    (fun r w' => r = Returns tt /\ frame w' = frame (with_server_exists true w)) w.
Proof.
  unfold setup_task_controller_server. do 2 (apply wp_bind; try apply wp_gets; cbn [next]).
  apply wp_note_frame. intros w1 Hf1. cbn [next]. apply wp_bind, wp_modify. cbn [next].
  assert (Hw1 : frame (with_server_exists true w1) = frame (with_server_exists true w)).
  { unfold frame in *. cbn. congruence. }
  revert Hw1. generalize (with_server_exists true w1). clear w1 Hf1. intros w1 Hf1.
  repeat (apply wp_bind, wp_note_frame; intros ? ?; cbn [next]).
  apply wp_note_frame. intros ? ?. split; [done|]. congruence.
Qed.

Lemma wp_interfaces w :
  wp (setup_tecu_interfaces env) (fun r w' => r = Returns tt /\ frame w' = frame w) w.
Proof.
  unfold setup_tecu_interfaces. apply wp_bind, wp_gets. cbn [next].
  destruct (tecu_exists w); cbn [negb]; [|by apply wp_ret].
  apply wp_bind, wp_look_at_tecu. cbn [next].
  destruct (tecu_address_at env (tecu_looks w)); [|by apply wp_ret].
  apply wp_bind, wp_gets. cbn [next].
  repeat (apply wp_bind, wp_note_frame; intros ? ?; cbn [next]).
  apply wp_modify. split; [done|]. unfold frame in *. cbn in *. congruence.
Qed.

Lemma wp_vt_client w :
  wp (if is_vt_enabled (boot_settings w) then setup_vt_client env else mret tt)
    (fun r w' => r = Returns tt /\
       frame w' = frame (with_vt_client (is_vt_enabled (boot_settings w) || vt_client w) w)) w.
Proof.
  destruct (is_vt_enabled (boot_settings w)); [|apply wp_ret; by destruct w].
  unfold setup_vt_client. apply wp_bind, wp_gets. cbn [next].
  repeat (apply wp_bind, wp_note_frame; intros ? ?; cbn [next]).
  apply wp_modify. split; [done|]. unfold frame in *. cbn in *. congruence.
Qed.

Lemma wp_sockets w :
  wp (_ ← setup_udp_connections env; mret true) (fun r w' =>
    boot_settings w' = boot_settings w /\ server_exists w' = server_exists w /\
    vt_client w' = vt_client w /\ tecu_exists w' = tecu_exists w /\
    tecu_claim_failed w' = tecu_claim_failed w /\
    match open (socket_env env) (configuredSubnet (boot_settings w)) with
    | Some endpoint => r = Returns true /\ udp_bound w' = Some endpoint
    | None => r = Throws
    end) w.
Proof.
  unfold setup_udp_connections. apply wp_bind, wp_bind, wp_gets. cbn [next].
  destruct (open _ _); [|by split_and!].
  apply wp_bind, wp_note. cbn [next]. apply wp_modify. cbn [next]. apply wp_ret. by split_and!.
Qed.

(** The address of the task controller is seen at the look after the first
    [n], which all failed. *)
Definition claimed_after (n : nat) : Prop :=
  (forall k, (k < n)%nat -> tc_address_at env k = None) /\ is_Some (tc_address_at env n).

(** What follows the claim. *)
Definition completed (s : Settings) (r : outcome bool) (w : Boot) : Prop :=
  server_exists w = true /\ vt_client w = is_vt_enabled s /\
  (is_tecu_enabled s = false -> tecu_exists w = false /\ tecu_claim_failed w = false) /\
  (is_tecu_enabled s = true -> tecu_claim_failed w = negb (tecu_exists w)) /\
  match open (socket_env env) (configuredSubnet s) with
  | Some endpoint => r = Returns true /\ udp_bound w = Some endpoint
  | None => r = Throws
  end.

Definition answer (r : outcome bool) (w : Boot) : Prop :=
  match Settings.load (path_env env) (settings_contents env) default_settings with
  | (Throws, _) => r = Throws /\ calls w = []
  | (Returns _, s) =>
      boot_settings w = s /\
      if driver_present env && hardware_starts env && driver_valid env then
        (exists n, claimed_after n /\ completed s r w) \/
        (exists n, (forall k, (k < n)%nat -> tc_address_at env k = None) /\ tc_looks w = n /\
           5000 <= clock w /\ r = Returns false /\ server_exists w = false)
      else r = Returns false /\ server_exists w = false
  end.

Lemma wp_after_claim s w :
  boot_settings w = s -> vt_client w = false ->
  wp (_ ← setup_task_controller_server; _ ← setup_tecu_interfaces env;
      s ← gets boot_settings; _ ← (if is_vt_enabled s then setup_vt_client env else mret tt);
      _ ← setup_udp_connections env; mret true)
    (fun r w' => boot_settings w' = s /\ server_exists w' = true /\
       vt_client w' = is_vt_enabled s /\ tecu_exists w' = tecu_exists w /\
       tecu_claim_failed w' = tecu_claim_failed w /\
       match open (socket_env env) (configuredSubnet s) with
       | Some endpoint => r = Returns true /\ udp_bound w' = Some endpoint
       | None => r = Throws
       end) w.
Proof.
  intros <- Hvt.
  eapply wp_seq; [apply wp_server|]. intros r w1 [-> Hw1].
  cbn [next]. eapply wp_seq; [apply wp_interfaces|]. intros r w2 [-> Hw2]. cbn [next].
  assert (Hfr : frame w2 = frame (with_server_exists true w)) by congruence.
  unfold frame in Hfr. cbn in Hfr. injection Hfr as Hs2 Hx2 _ Ht2 Hf2 Hv2. clear w1 Hw1 Hw2.
  apply wp_bind. unfold wp at 1, gets. cbn [next].
  eapply wp_seq; [apply wp_vt_client|]. intros r w3 [-> Hw3]. cbn [next].
  unfold frame in Hw3. cbn in Hw3. injection Hw3 as Hs3 Hx3 _ Ht3 Hf3 Hv3.
  eapply wp_mono; [apply wp_sockets|]. cbn beta. intros r w4 (Hs4 & Hx4 & Hv4 & Ht4 & Hf4 & Ho).
  assert (Hs : boot_settings w3 = boot_settings w) by congruence. rewrite Hs in Ho.
  assert (Hv : vt_client w4 = is_vt_enabled (boot_settings w)).
  { rewrite Hv4, Hv3, Hv2, Hvt, Hs2. apply orb_false_r. }
  split_and!; congruence.
Qed.

Lemma wp_load w :
  wp (load_settings env) (fun r w' => let '(o, s) := Settings.load (path_env env)
      (settings_contents env) (boot_settings w) in
    r = match o with Returns _ => Returns tt | Throws => Throws end /\
    w' = with_boot_settings s w) w.
Proof. unfold wp, load_settings. by destruct (Settings.load _ _ _) as [[?|] s]. Qed.

(** The state of the tractor ECU when the server is set up. *)
Definition tecu_settled (s : Settings) (w : Boot) : Prop :=
  boot_settings w = s /\ vt_client w = false /\
  (is_tecu_enabled s = false -> tecu_exists w = false /\ tecu_claim_failed w = false) /\
  (is_tecu_enabled s = true -> tecu_claim_failed w = negb (tecu_exists w)).

Lemma wp_settle_tecu s w :
  boot_settings w = s -> vt_client w = false -> tecu_exists w = false ->
  tecu_claim_failed w = false ->
  wp (s ← gets boot_settings; _ ← (if is_tecu_enabled s then setup_tecu env else mret tt); mret true)
    (fun r w' => r = Returns true /\ tecu_settled s w') w.
Proof.
  intros <- Hvt Ht Hf. apply wp_bind, wp_gets. cbn [next]. unfold tecu_settled.
  destruct (is_tecu_enabled (boot_settings w)) eqn:He.
  - eapply wp_seq; [apply wp_setup_tecu|].
    intros r w' (-> & Hs & _ & Hv & _ & _ & _ & Htecu). cbn [next]. apply wp_ret.
    split; [done|]. split_and!; [done|congruence|done|]. intros _.
    destruct Htecu as [[-> ->]|[-> ->]]; [by rewrite Hf|done].
  - apply wp_bind, wp_ret. cbn [next]. apply wp_ret. by split_and!.
Qed.

Lemma wp_control_functions s w :
  boot_settings w = s -> vt_client w = false -> server_exists w = false ->
  tecu_exists w = false -> tecu_claim_failed w = false -> tc_looks w = 0%nat ->
  wp (setup_control_functions env) (fun r w' =>
    (r = Returns true /\ tecu_settled s w' /\ exists n, claimed_after n) \/
    (r = Returns false /\ boot_settings w' = s /\ server_exists w' = false /\
     clock w + 5000 <= clock w' /\
     forall k, (k < tc_looks w')%nat -> tc_address_at env k = None)) w.
Proof.
  intros Hset Hvt Hx Ht Hf Hlooks. apply wp_bind, wp_note. cbn [next].
  apply (wp_timed_wait (tc_address_at env) 1);
    [apply look_at_tc_looks|unfold MAX_ADDRESS_CLAIM_WAIT_MS; lia|].
  intros o c rd u n [Hc Ho]. cbn [clock tc_looks with_calls] in Hc, Ho. rewrite Hlooks in Ho.
  destruct o as [address|].
  - destruct Ho as (k & -> & Hk & _ & Hbefore). apply wp_bind, wp_note. cbn [next].
    apply wp_bind, wp_claim_delay. intros c' rd' u' _. cbn [next].
    eapply wp_mono; [by apply (wp_settle_tecu s)|]. cbn beta. intros r w' [-> Hw']. left.
    split_and!; [done..|]. exists k. split; [|by rewrite Hk]. intros j Hj. apply Hbefore; [done|lia].
  - destruct Ho as (Hl & _ & Hbefore). apply wp_ret. right. destruct w. cbn in *.
    split_and!; try done. intros k Hk. apply Hbefore; [done|lia].
Qed.

Lemma initialize_answers : wp (initialize env) answer initial_boot.
Proof.
  unfold initialize, answer. eapply wp_seq; [apply wp_load|]. cbn beta. intros r w0 Hload.
  cbn [boot_settings initial_boot] in Hload.
  destruct (Settings.load _ _ default_settings) as [o s]. destruct Hload as [-> ->].
  destruct o as [b|]; cbn [next]; [|done].
  eapply wp_seq; [apply wp_hardware|].
  intros r w1 (-> & Hs1 & Hx1 & Hl1 & Ht1 & Hf1 & Hv1 & Hc1). cbn [next].
  destruct (_ && driver_valid env); cbn [negb]; [|by apply wp_ret].
  eapply wp_seq; [by apply (wp_control_functions s)|].
  intros r w2 [(-> & Hsettled & n & Hn)|(-> & Hs2 & Hx2 & Hc2 & Hn)]; cbn [next negb].
  - destruct Hsettled as (Hs2 & Hv2 & Hoff & Hon).
    eapply wp_mono; [by apply (wp_after_claim s)|]. cbn beta.
    intros r w3 (Hs3 & Hx3 & Hv3 & Ht3 & Hf3 & Hr). split; [done|]. left. exists n.
    split; [done|]. unfold completed. rewrite Ht3, Hf3. by split_and!.
  - apply wp_ret. split; [done|]. right. exists (tc_looks w2). split_and!; try done. cbn in *. lia.
Qed.

Lemma initialize_settings_ok r w :
  initialize env initial_boot = Finished (r, w) -> r <> Throws -> settings_ok (boot_settings w).
Proof.
  intros Hrun Hr. pose proof initialize_answers as Hwp. unfold wp in Hwp. rewrite Hrun in Hwp.
  unfold answer in Hwp.
  pose proof (load_settings_ok (path_env env) (settings_contents env) _ default_settings_ok) as Hs.
  destruct (Settings.load _ _ _) as [[?|] s]; [by destruct Hwp as [-> _]|by destruct Hwp].
Qed.

(** C11: what the set-up does. It always ends: no wait runs for ever, whatever
    the bus does and however long, up to twelve days, the process is held up
    at a time. A settings file that cannot be parsed is the exception with
    nothing done. Without a working driver, or when the task controller has
    no address after 5000 ms of looking, it answers [false] and no server
    exists. Otherwise an address was seen, the server exists, the terminal
    client exists if the settings say so, the tractor ECU exists or has
    failed if the settings ask for it, and the answer is [true] with the
    connection bound, or the exception of a socket that cannot be bound. *)
Theorem initialize_spec :
  exists r w, initialize env initial_boot = Finished (r, w) /\ answer r w.
Proof.
  pose proof initialize_answers as Hwp. unfold wp in Hwp.
  destruct (initialize env initial_boot) as [[r w]| |]; [by exists r, w|done..].
Qed.
End facts.
