(* ===== verification/Diagnostics.v ===== *)
(** * Log lines, log files and crashes (src/logging.cpp,
    include/logging_utils.hpp, src/crash_handler.cpp)

    The prefix of a log line, the stream buffer that copies the console to a
    file, and what is left behind when the process dies: the crash file, the
    reason for [std::terminate], and the handler for fatal signals. The local
    time is the record [Tm]; the file system is that of Settings.v. Of POSIX
    signals as much is modelled as the handler depends on: it is installed
    with [SA_RESETHAND] and an empty mask and without [SA_NODEFER], so that
    while it runs its own signal has the default action and is blocked in its
    thread. Of the Windows build there is the exception filter. *)

From S2P Require Import Prelude Settings.

#[local] Set Default Proof Using "All".

(** [std::tm], with the milliseconds that [get_timestamp] adds. *)
Record Tm := {
  tm_year : Z;
  tm_mon : Z;
  tm_mday : Z;
  tm_hour : Z;
  tm_min : Z;
  tm_sec : Z;
  milliseconds : Z
}.

(** [%02d], [std::setw (2)] with [std::setfill ('0')]. *)
Definition pad (width : nat) (n : Z) : list Z :=
  replicate (width - length (to_string n)) 48 ++ to_string n.

(** ** Log lines *)

Definition get_timestamp (t : Tm) : list Z :=
  pad 2 (tm_hour t) ++ bytes_of_string ":" ++ pad 2 (tm_min t) ++ bytes_of_string ":"
  ++ pad 2 (tm_sec t) ++ bytes_of_string "." ++ pad 3 (milliseconds t).

Definition log (t : Tm) : list Z :=
  bytes_of_string "[" ++ get_timestamp t ++ bytes_of_string "] ".

Definition log_tag (t : Tm) (tag : list Z) : list Z :=
  log t ++ bytes_of_string "[" ++ tag ++ bytes_of_string "] ".

Inductive StackLevel : Type := Debug | Info | Warning | Error | Critical.

(** [CustomLogger::sink_CAN_stack_log]. *)
Definition sink_CAN_stack_log (t : Tm) (level : StackLevel) (text : list Z) : list Z :=
  log t
  ++ bytes_of_string (match level with
                      | Debug => "[Debug]"
                      | Info => "[Info]"
                      | Warning => "[Warn]"
                      | Error => "[Error]"
                      | Critical => "[Critical]"
                      end)
  ++ text ++ [10].

(** ** The log file *)

Definition log_filename (t : Tm) : list Z :=
  bytes_of_string "logs/AOG-TaskController_" ++ to_string (tm_year t + 1900)
  ++ bytes_of_string "-" ++ to_string (tm_mon t + 1) ++ bytes_of_string "-" ++ to_string (tm_mday t)
  ++ bytes_of_string "_" ++ to_string (tm_hour t) ++ bytes_of_string "-" ++ to_string (tm_min t)
  ++ bytes_of_string ".log".

(** [TeeStreambuf]: what the console and the file have received, and whether
    the file is open; the buffer has no space of its own, so that every
    character passes [overflow]. *)
Record TeeStreambuf := { consoleBuffer : list Z; fileStream : list Z; file_good : bool }.

Definition EOF : Z := -1.

Definition overflow (c : Z) (b : TeeStreambuf) : TeeStreambuf :=
  if c =? EOF then b
  else {| consoleBuffer := consoleBuffer b ++ [c];
          fileStream := fileStream b ++ (if file_good b then [c] else []);
          file_good := file_good b |}.

Definition tee_write (text : list Z) (b : TeeStreambuf) : TeeStreambuf :=
  foldl (fun b c => overflow c b) b text.

(** The file is opened for appending; its own name goes to the console only.
    [None]: an exception. *)
Definition setup_file_logging (env : PathEnv) (t : Tm) (opens : bool) (console contents : list Z)
    : option TeeStreambuf :=
  filename ← get_filename_path env (log_filename t);
  Some {| consoleBuffer := console ++ bytes_of_string "Logging to file: " ++ filename ++ [10];
          fileStream := contents; file_good := opens |}.

(** ** Crash files *)

(** [char stamp\[32\]] holds 31 characters. *)
Definition crash_stamp (t : Tm) : list Z :=
  take 31 (pad 4 (tm_year t + 1900) ++ bytes_of_string "-" ++ pad 2 (tm_mon t + 1)
    ++ bytes_of_string "-" ++ pad 2 (tm_mday t) ++ bytes_of_string "_" ++ pad 2 (tm_hour t)
    ++ bytes_of_string "-" ++ pad 2 (tm_min t) ++ bytes_of_string "-" ++ pad 2 (tm_sec t)).

Definition crash_file_path (env : PathEnv) (t : Tm) (extension : list Z) : list Z :=
  match get_filename_path env (bytes_of_string "logs/crash_" ++ crash_stamp t ++ extension) with
  | Some path => path
  | None => bytes_of_string "crash_" ++ crash_stamp t ++ extension
  end.

(** What [log_crash] does, in order. *)
Inductive crash_step : Type :=
  | OpenForAppending (path : list Z)
  | FlushQueue (ms : Z)
  | WriteToFile (text : list Z)
  | WriteToConsole (text : list Z).

Definition log_crash (env : PathEnv) (t : Tm) (file_opens : bool) (reason : list Z)
    : list crash_step :=
  let line := bytes_of_string "[" ++ get_timestamp t ++ bytes_of_string "] [Crash] " ++ reason ++ [10] in
  [OpenForAppending (crash_file_path env t (bytes_of_string ".log")); FlushQueue 500;
   if file_opens then WriteToFile line else WriteToConsole line].

(** The exception in flight, if any; [what] of a [std::exception]. *)
Inductive current_exception : Type :=
  | NoException
  | StdException (what : list Z)
  | UnknownException.

Definition terminate_reason (e : current_exception) : list Z :=
  bytes_of_string "std::terminate called"
  ++ match e with
     | StdException what => bytes_of_string " due to unhandled exception: " ++ what
     | UnknownException => bytes_of_string " due to an unhandled exception of unknown type"
     | NoException =>
         bytes_of_string " with no active exception (direct std::terminate()/std::abort(), a noexcept "
         ++ bytes_of_string "violation, or a failure during stack unwinding)"
     end.

Definition log_terminate_reason (env : PathEnv) (t : Tm) (file_opens : bool)
    (e : current_exception) : list crash_step :=
  log_crash env t file_opens (terminate_reason e).

(** ** Fatal signals *)

(** The signals as Linux numbers them. *)
Definition SIGILL : Z := 4.
Definition SIGABRT : Z := 6.
Definition SIGBUS : Z := 7.
Definition SIGFPE : Z := 8.
Definition SIGSEGV : Z := 11.

Definition fatalSignals : list Z := [SIGSEGV; SIGABRT; SIGFPE; SIGILL; SIGBUS].

Inductive disposition : Type := DefaultAction | FatalSignalHandler.

(** The process, as far as its signals go: their dispositions, those blocked
    in the thread that runs, what has gone to standard error, and how often
    the handler was entered. *)
Record Process := {
  dispositions : Z -> disposition;
  blocked : list Z;
  stderr : list Z;
  entered : nat
}.

Definition install_crash_handlers (p : Process) : Process := {|
  dispositions := fun s => if decide (s ∈ fatalSignals) then FatalSignalHandler else dispositions p s;
  blocked := blocked p;
  stderr := stderr p;
  entered := entered p
|}.

Definition signal_name (s : Z) : list Z :=
  bytes_of_string
    (if s =? SIGSEGV then "SIGSEGV (segmentation fault)"
     else if s =? SIGABRT then "SIGABRT (abort)"
     else if s =? SIGFPE then "SIGFPE (arithmetic error)"
     else if s =? SIGILL then "SIGILL (illegal instruction)"
     else if s =? SIGBUS then "SIGBUS (bus error)"
     else "unknown signal").

Inductive death : Type :=
  | BySignal (s : Z)
  | ByExit (code : Z).

(** The kernel enters the handler: [SA_RESETHAND], an empty mask, and no
    [SA_NODEFER]. *)
Definition enter_handler (s : Z) (p : Process) : Process := {|
  dispositions := fun s' => if s' =? s then DefaultAction else dispositions p s';
  blocked := s :: blocked p;
  stderr := stderr p;
  entered := S (entered p)
|}.

Definition writeRaw (text : list Z) (p : Process) : Process := {|
  dispositions := dispositions p; blocked := blocked p; stderr := stderr p ++ text;
  entered := entered p |}.

(** [::kill (::getpid (), s)]: delivered here unless blocked, or to another
    thread, if one takes it before this one gets to [_exit]. *)
Definition kill_self (other_takes : bool) (s : Z) (p : Process) : option death :=
  if bool_decide (s ∈ blocked p) && negb other_takes then None
  else match dispositions p s with
       | DefaultAction => Some (BySignal s)
       | FatalSignalHandler => None
       end.

Definition fatal_signal_handler (other_takes : bool) (s : Z) (p : Process) : death * Process :=
  let p := writeRaw (bytes_of_string "[Crash] Fatal signal: ") p in
  let p := writeRaw (signal_name s) p in
  let p := writeRaw [10] p in
  match kill_self other_takes s p with
  | Some d => (d, p)
  | None => (ByExit (128 + s), p)
  end.

(** A fatal signal arrives in a thread that does not block it. *)
Definition signal_arrives (other_takes : bool) (s : Z) (p : Process) : death * Process :=
  match dispositions p s with
  | DefaultAction => (BySignal s, p)
  | FatalSignalHandler => fatal_signal_handler other_takes s (enter_handler s p)
  end.

(** [std::terminate]: the handler returns, and the runtime aborts. *)
Definition terminate (env : PathEnv) (t : Tm) (file_opens other_takes : bool)
    (e : current_exception) (p : Process) : list crash_step * (death * Process) :=
  (log_terminate_reason env t file_opens e, signal_arrives other_takes SIGABRT p).

(** ** Structured exceptions on Windows *)

(** [std::hex] of a [DWORD]: no leading zeros. *)
Fixpoint strip_zeros (digits : list Z) : list Z :=
  match digits with
  | 48 :: (_ :: _) as rest => strip_zeros rest
  | _ => digits
  end.

Definition hex32 (n : Z) : list Z :=
  strip_zeros ((fun k => hex_digit (Z.land (Z.shiftr n (4 * (7 - k))) 15)) <$> seqZ 0 8).

(** What [unhandled_exception_filter] does, in order. *)
Inductive filter_step : Type :=
  | LogCrash_ (step : crash_step)
  | CreateDump (path : list Z)
  | MiniDumpWriteDump
  | CloseDump.

Definition EXCEPTION_EXECUTE_HANDLER : Z := 1.

(** The clock is read for the name of the dump and again for [log_crash]; how
    an address is printed is up to the library. *)
Definition unhandled_exception_filter (env : PathEnv) (t t' : Tm) (file_opens dump_opens : bool)
    (ExceptionCode : Z) (address : list Z) : list filter_step * Z :=
  let dumpPath := crash_file_path env t (bytes_of_string ".dmp") in
  let reason := bytes_of_string "Unhandled SEH exception 0x" ++ hex32 ExceptionCode
    ++ bytes_of_string " at address " ++ address ++ bytes_of_string ". Writing minidump to " ++ dumpPath in
  ((LogCrash_ <$> log_crash env t' file_opens reason)
   ++ CreateDump dumpPath :: (if dump_opens then [MiniDumpWriteDump; CloseDump] else []),
   EXCEPTION_EXECUTE_HANDLER).

(** ** Facts *)

(** The log line comes before the dump is tried and tells its name, which is
    that of the crash file but for the extension when the clock has not moved
    on. *)
Lemma filter_announces_dump env t file_opens dump_opens code address :
  exists stem, crash_file_path env t (bytes_of_string ".log") = stem ++ bytes_of_string ".log" /\
  unhandled_exception_filter env t t file_opens dump_opens code address =
    ([LogCrash_ (OpenForAppending (stem ++ bytes_of_string ".log")); LogCrash_ (FlushQueue 500);
      LogCrash_ ((if file_opens then WriteToFile else WriteToConsole)
        (log t ++ bytes_of_string "[Crash] Unhandled SEH exception 0x" ++ hex32 code
         ++ bytes_of_string " at address " ++ address ++ bytes_of_string ". Writing minidump to "
         ++ stem ++ bytes_of_string ".dmp" ++ [10]));
      CreateDump (stem ++ bytes_of_string ".dmp")]
     ++ (if dump_opens then [MiniDumpWriteDump; CloseDump] else []), EXCEPTION_EXECUTE_HANDLER).
Proof.
  assert (Hstem : exists stem, forall extension, crash_file_path env t extension = stem ++ extension).
  { unfold crash_file_path, get_filename_path, path_join.
    destruct (get_base_config_dir env) as [base|]; [destruct (create_ok env)|]; eexists;
      intros extension; by rewrite ?app_assoc. }
  destruct Hstem as [stem Hstem]. exists stem. split; [apply Hstem|].
  unfold unhandled_exception_filter. rewrite Hstem. unfold log_crash. rewrite Hstem.
  set (line := bytes_of_string "[" ++ _).
  replace (log t ++ _) with line; [by destruct file_opens|].
  unfold line, log. rewrite <- !app_assoc.
  change (bytes_of_string "[Crash] Unhandled SEH exception 0x")
    with (bytes_of_string "[Crash] " ++ bytes_of_string "Unhandled SEH exception 0x").
  change (bytes_of_string "] [Crash] ") with (bytes_of_string "] " ++ bytes_of_string "[Crash] ").
  by rewrite <- !app_assoc.
Qed.

Lemma tee_write_spec text b :
  EOF ∉ text ->
  tee_write text b = {|
    consoleBuffer := consoleBuffer b ++ text;
    fileStream := fileStream b ++ (if file_good b then text else []);
    file_good := file_good b |}.
Proof.
  revert b. induction text as [|c text IH]; intros b Hc; cbn [tee_write foldl].
  - destruct b as [cb fs []]; cbn; by rewrite !app_nil_r.
  - apply not_elem_of_cons in Hc as [Hne Hc]. unfold tee_write in IH. rewrite IH by done.
    unfold overflow. rewrite (proj2 (Z.eqb_neq c EOF)) by done. cbn.
    destruct (file_good b); cbn; by rewrite <- !app_assoc.
Qed.

Lemma signal_outcome other_takes s p :
  s ∈ fatalSignals ->
  let '(d, p') := signal_arrives other_takes s (install_crash_handlers p) in
  d = (if other_takes then BySignal s else ByExit (128 + s)) /\
  entered p' = S (entered p) /\
  stderr p' = stderr p ++ bytes_of_string "[Crash] Fatal signal: " ++ signal_name s ++ [10].
Proof.
  intros Hs. unfold signal_arrives. cbn [dispositions install_crash_handlers].
  rewrite decide_True by done. unfold fatal_signal_handler, kill_self.
  cbn [blocked writeRaw enter_handler dispositions]. rewrite Z.eqb_refl.
  rewrite (bool_decide_eq_true_2 (s ∈ s :: _)) by left.
  destruct other_takes; cbn; rewrite <- !app_assoc; by split_and!.
Qed.

Lemma terminate_trace env t file_opens other_takes e p :
  terminate env t file_opens other_takes e p =
    ([OpenForAppending (crash_file_path env t (bytes_of_string ".log")); FlushQueue 500;
      (if file_opens then WriteToFile else WriteToConsole)
        (log t ++ bytes_of_string "[Crash] " ++ terminate_reason e ++ [10])],
     signal_arrives other_takes SIGABRT p).
Proof.
  unfold terminate, log_terminate_reason, log_crash, log. f_equal. do 2 f_equal.
  rewrite <- !app_assoc. by destruct file_opens.
Qed.

(** C38: what is left of a crash. After [install_crash_handlers] a fatal signal
    enters the handler exactly once, standard error has the line that names
    the signal, and the process ends; by the signal, with the default action
    that may dump core, only if another thread takes it, and otherwise by
    [_exit] with the code 128 + signal, since the handler's own thread blocks
    the signal it raises again. [std::terminate] writes its reason to the
    crash file, or to the console when that cannot be opened, after the queue
    has been flushed, and ends in SIGABRT in the same way. *)
Theorem crash_leaves_trace (env : PathEnv) (t : Tm) (file_opens other_takes : bool)
    (e : current_exception) (s : Z) (p : Process) (Hs : s ∈ fatalSignals) :
  (let '(d, p') := signal_arrives other_takes s (install_crash_handlers p) in
   d = (if other_takes then BySignal s else ByExit (128 + s)) /\
   entered p' = S (entered p) /\
   stderr p' = stderr p ++ bytes_of_string "[Crash] Fatal signal: " ++ signal_name s ++ [10]) /\
  terminate env t file_opens other_takes e (install_crash_handlers p) =
    ([OpenForAppending (crash_file_path env t (bytes_of_string ".log")); FlushQueue 500;
      (if file_opens then WriteToFile else WriteToConsole)
        (log t ++ bytes_of_string "[Crash] " ++ terminate_reason e ++ [10])],
     signal_arrives other_takes SIGABRT (install_crash_handlers p)).
Proof. split; [by apply signal_outcome|apply terminate_trace]. Qed.
