(* ===== verification/LogTexts.v ===== *)
(** * What is only logged (src/app.cpp lines 47-153, src/task_controller.cpp
    lines 618-653)

    The report on the control functions of the bus, which the set-up makes
    twice; the warnings about another task controller at the preferred
    address, with the two static variables that pace them; and the callbacks
    of [MyTCServer] that do nothing but log. A line is its text without the
    time, in which [log] is asked for it; [log_line] adds the prefix. *)

From S2P Require Import Prelude Settings Diagnostics Ddop Hierarchy ClientState TcServer Udp.
From S2P Require Import PacketHandler Network.

(** A line of [log (tag)] or [log ()], or what goes to the stream without a
    prefix. *)
Inductive log_text : Type :=
  | Tagged (tag : string) (text : list Z)
  | Untagged (text : list Z)
  | Bare (text : list Z).

Definition log_line (t : Tm) (l : log_text) : list Z :=
  match l with
  | Tagged tag text => log_tag t (bytes_of_string tag) ++ text ++ [10]
  | Untagged text => log t ++ text ++ [10]
  | Bare text => text
  end.

(** [std::left] and [std::right] with [std::setw (n)]. *)
Definition left (n : nat) (text : list Z) : list Z := text ++ replicate (n - length text) 32.
Definition right (n : nat) (text : list Z) : list Z := replicate (n - length text) 32 ++ text.

(** ** The report *)

(** An entry of [get_control_functions (false)] that is not null, with the rest
    of its NAME. *)
Record BusEntry := {
  entry : ControlFunction;
  industry_group : Z;
  ecu_instance : Z;
  function_instance : Z;
  internal : bool
}.

Definition bus_row (e : BusEntry) (address : Z) : list Z :=
  let cf := entry e in
  bytes_of_string "  Address: " ++ right 3 (to_string address)
  ++ bytes_of_string " | Mfg: " ++ left 5 (to_string (manufacturer_code cf))
  ++ bytes_of_string " | Func: " ++ left 3 (to_string (function_code cf))
  ++ bytes_of_string " | IG: " ++ to_string (industry_group e)
  ++ bytes_of_string " | Identity: " ++ right 6 (to_string (identity_number cf))
  ++ bytes_of_string " | ECU Inst: " ++ to_string (ecu_instance e)
  ++ bytes_of_string " | Func Inst: " ++ to_string (function_instance e)
  ++ bytes_of_string (if internal e then " [INTERNAL]" else "").

Definition double_rule : list Z := replicate 50 61.
Definition single_rule : list Z := replicate 50 45.

(** The loop over [allCFs], in which [None] is a null pointer. *)
Fixpoint bus_rows (allCFs : list (option BusEntry)) (cfCount : Z) : list log_text * Z :=
  match allCFs with
  | [] => ([], cfCount)
  | None :: rest => bus_rows rest cfCount
  | Some e :: rest =>
      match cf_address (entry e) with
      | None => bus_rows rest cfCount
      | Some address =>
          let '(lines, n) := bus_rows rest (u32 (cfCount + 1)) in
          (Tagged "Bus CFs" (bus_row e address) :: lines, n)
      end
  end.

Definition enumerate_bus_control_functions (context : list Z) (allCFs : list (option BusEntry))
    : list log_text :=
  let '(rows, cfCount) := bus_rows allCFs 0 in
  [Bare [10]; Tagged "Bus CFs" context; Tagged "Bus CFs" double_rule;
   Tagged "Bus CFs" (bytes_of_string "Control Functions on ISOBUS:");
   Tagged "Bus CFs" single_rule]
  ++ rows
  ++ (if cfCount =? 0
      then [Tagged "Bus CFs" (bytes_of_string "  (No control functions detected on bus)")] else [])
  ++ [Tagged "Bus CFs" double_rule;
      Tagged "Bus CFs" (bytes_of_string "Total CFs found: " ++ to_string cfCount);
      Bare [10]].

(** A row for every entry with a valid address, in order, and their number. *)
Lemma bus_rows_spec allCFs : forall n, is_u32 n ->
  bus_rows allCFs n =
    (omap (fun e => e ← e; Tagged "Bus CFs" ∘ bus_row e <$> cf_address (entry e)) allCFs,
     u32 (n + zlength (omap (fun e => e ← e; cf_address (entry e)) allCFs))).
Proof.
  induction allCFs as [|[e|] rest IH]; intros n Hn; cbn [bus_rows omap list_omap].
  - unfold zlength. cbn. by rewrite Z.add_0_r, u32_id.
  - cbn [mbind option_bind]. destruct (cf_address (entry e)) as [address|]; [|by apply IH].
    rewrite IH by auto with aog. cbn [fmap option_fmap option_map compose].
    f_equal. unfold zlength, u32. cbn [length]. rewrite Zplus_mod_idemp_l. f_equal. lia.
  - cbn [mbind option_bind]. by apply IH.
Qed.

(** ** Address conflicts *)

(** The static variables. *)
Record ConflictState := { lastWarnTime : Z; conflictDetected : bool }.

Definition initial_conflict : ConflictState := {| lastWarnTime := 0; conflictDetected := false |}.

Section conflict.
Context `{Platform} `{Timing}.

(** The first control function that is in conflict with [our]. *)
Definition first_conflict (our : ControlFunction) (cfs : list BusEntry) : option BusEntry :=
  head (filter (fun e => conflicting our (entry e) = true) cfs).

Lemma existsb_first our cfs :
  match first_conflict our cfs with Some _ => true | None => false end =
  existsb (conflicting our) (entry <$> cfs).
Proof.
  unfold first_conflict. induction cfs as [|e cfs IH]; [done|].
  rewrite fmap_cons, filter_cons. cbn [existsb].
  destruct (conflicting our (entry e)); [by rewrite decide_True|by rewrite decide_False].
Qed.

Definition conflict_warning (our_address : Z) (other : BusEntry) : list log_text :=
  let cf := entry other in
  [Bare [10]; Tagged "WARN" double_rule;
   Tagged "WARN" (bytes_of_string "TC ADDRESS CONFLICT - Another TC at preferred address "
                  ++ to_string PREFERRED_TC_ADDRESS);
   Tagged "WARN" (bytes_of_string "Conflicting TC: Mfg=" ++ to_string (manufacturer_code cf)
                  ++ bytes_of_string ", Func=" ++ to_string (function_code cf)
                  ++ bytes_of_string ", Identity=" ++ to_string (identity_number cf)
                  ++ bytes_of_string ", ECU Inst=" ++ to_string (ecu_instance other)
                  ++ bytes_of_string ", Func Inst=" ++ to_string (function_instance other));
   Tagged "WARN" (bytes_of_string "Our TC using address: " ++ to_string our_address);
   Tagged "WARN" double_rule; Bare [10]].

(** [check_tc_address_conflict] with its log: the answer, the variables, and
    the lines. [tc] is our control function, which gives [our_address] as its
    address whether that is valid or not; [cfs] are those of the bus. *)
Definition report_address_conflict (now our_address : Z) (tc : option ControlFunction) (cfs : list BusEntry)
    (c : ConflictState) : bool * ConflictState * list log_text :=
  let net := {| tcCF := tc; control_functions := entry <$> cfs |} in
  let havePreferredAddress := have_preferred_address net in
  let other := match tc with
               | Some our => if havePreferredAddress then None else first_conflict our cfs
               | None => None
               end in
  let conflictActive := match other with Some _ => true | None => false end in
  let '(warned, lines) :=
    match other with
    | Some other =>
        if time_expired_ms now (lastWarnTime c) 30000
        then (now, conflict_warning our_address other)
        else (lastWarnTime c, [])
    | None => (lastWarnTime c, [])
    end in
  (conflictActive, {| lastWarnTime := warned; conflictDetected := conflictActive |},
   lines ++
   (if conflictDetected c && negb conflictActive
    then [Tagged "TC Address"
            (if havePreferredAddress
             then bytes_of_string "Successfully claimed preferred address " ++ to_string PREFERRED_TC_ADDRESS
             else bytes_of_string "TC address conflict resolved")]
    else [])).

(** The answer is that of Network.v. A warning comes in a call that finds a
    conflict 30 s or more after the last warning, and sets the time; the end of
    a conflict is logged in the first call that finds none. *)
Lemma report_address_conflict_spec `{!TimingLaws} now our_address tc cfs c :
  let '(answer, c', lines) := report_address_conflict now our_address tc cfs c in
  answer = check_tc_address_conflict {| tcCF := tc; control_functions := entry <$> cfs |} /\
  conflictDetected c' = answer /\
  (if answer && (30000 <=? u32 (now - lastWarnTime c))
   then lastWarnTime c' = now /\ exists other, other ∈ cfs /\ lines = conflict_warning our_address other
   else lastWarnTime c' = lastWarnTime c /\
     (lines <> [] <-> conflictDetected c = true /\ answer = false)).
Proof.
  unfold report_address_conflict, check_tc_address_conflict. cbn [tcCF control_functions].
  set (net := {| tcCF := tc; control_functions := entry <$> cfs |}).
  assert (Hnone : forall lines : list log_text,
    (if conflictDetected c && negb false then lines else []) <> [] <->
    conflictDetected c = true /\ lines <> []).
  { intros lines. destruct (conflictDetected c); cbn; split; [done|by intros [_ ?]|done|by intros [? _]]. }
  destruct tc as [our|]; [destruct (have_preferred_address net)|]; cbn.
  1,3: rewrite ?andb_false_r; split_and!; [done..|]; rewrite Hnone; split; intros [? _]; by split.
  rewrite <- (existsb_first our cfs). unfold first_conflict.
  destruct (filter _ cfs) as [|other others] eqn:Ef; cbn.
  - split_and!; [done..|]. rewrite Hnone. split; intros [? _]; by split.
  - rewrite andb_false_r, time_expired_ms_spec.
    destruct (30000 <=? _); cbn; rewrite ?app_nil_r; split_and!; try done.
    + exists other. split; [|done]. assert (Hin : other ∈ filter (fun e => conflicting our (entry e) = true) cfs)
        by (rewrite Ef; left). by apply list_elem_of_filter in Hin as [_ ?].
    + by split; [|intros []].
Qed.
End conflict.

(** ** Callbacks of the server *)

(** [std::bitset<8>], most significant bit first. *)
Definition bitset8 (b : Z) : list Z :=
  (fun k => if Z.testbit b (7 - k) then 49 else 48) <$> seqZ 0 8.

Definition identify_task_controller (tcNumber : Z) : list log_text :=
  [Untagged (replicate 40 61);
   Untagged (bytes_of_string "=== TC NUMBER " ++ to_string tcNumber ++ bytes_of_string " IDENTIFIED ===");
   Untagged (replicate 40 61)].

Definition on_client_version_received (full_name version : Z) : list log_text :=
  [Tagged "TC Server" (bytes_of_string "Client " ++ to_string full_name
     ++ bytes_of_string " reported TC version " ++ to_string version)].

Definition on_process_data_acknowledge (address dataDescriptionIndex elementNumber
    errorCodesFromClient processDataCommand : Z) : list log_text :=
  [Untagged (bytes_of_string "Received process data acknowledge from client " ++ to_string address
     ++ bytes_of_string " for DDI " ++ to_string dataDescriptionIndex
     ++ bytes_of_string " element " ++ to_string elementNumber
     ++ bytes_of_string " with error codes " ++ bitset8 errorCodesFromClient
     ++ bytes_of_string " and command " ++ to_string processDataCommand)].

(** The bits can be read back. *)
Lemma bitset8_spec b : is_u8 b ->
  foldl (fun n c => 2 * n + (c - 48)) 0 (bitset8 b) = b /\ length (bitset8 b) = 8%nat.
Proof.
  intros Hb. split; [|done]. unfold is_u8 in Hb.
  assert (Hall : forallb (fun b => foldl (fun n c => 2 * n + (c - 48)) 0 (bitset8 b) =? b) (seqZ 0 256) = true)
    by (vm_compute; reflexivity).
  rewrite forallb_forall in Hall. apply Z.eqb_eq, Hall, list_elem_of_In, elem_of_seqZ. lia.
Qed.
