(* ===== verification/Args.v ===== *)
(** * The command line (src/main.cpp lines 100-322)

    [ArgumentProcessor::process] reads every argument twice, as an option and
    as a [key=value] parameter, after turning it to lower case;
    [prepare_application] then opens the log file, prints the arguments and
    the version, and has [create_can_driver] pick the CAN driver. The builds
    differ in the last step only, which is an argument of [prepare_with];
    [create_can_driver] here is that of the build for Linux with SocketCAN, the
    one for Windows is in WindowsMain.v. Arguments are byte lists; what is
    printed while the arguments are read is left out. *)

From S2P Require Import Prelude Settings Diagnostics.

Inductive CANAdapter : Type :=
  | NONE
  | ADAPTER_PCAN_USB
  | ADAPTER_INNOMAKER_USB2CAN
  | ADAPTER_RUSOKU_TOUCAN
  | ADAPTER_SYS_TEC_USB2CAN
  | ADAPTER_SOCKETCAN.

#[export] Instance CANAdapter_eq_dec : EqDecision CANAdapter.
Proof. solve_decision. Defined.

Inductive LoggingLevel : Type := Debug_ | Info_ | Warning_ | Error_ | Critical_.

(** [logLevel] is the level last handed to the CAN stack's logger. *)
Record ArgumentProcessor := {
  canAdapter : CANAdapter;
  canChannel : list Z;
  fileLogging : bool;
  logLevel : option LoggingLevel
}.

Definition new_ArgumentProcessor : ArgumentProcessor :=
  {| canAdapter := NONE; canChannel := []; fileLogging := false; logLevel := None |}.

(** [std::tolower] in the C locale. *)
Definition tolower (c : Z) : Z := if (65 <=? c) && (c <=? 90) then c + 32 else c.

(** [parameter.find ('=')] and the two [substr]. *)
Fixpoint split_parameter (parameter : list Z) : option (list Z * list Z) :=
  match parameter with
  | [] => None
  | c :: rest =>
      if c =? 61 then Some ([], rest)
      else match split_parameter rest with
           | Some (key, value) => Some (c :: key, value)
           | None => None
           end
  end.

Definition is_text (s : string) (text : list Z) : bool := bool_decide (text = bytes_of_string s).

Definition adapterMap (value : list Z) : option CANAdapter :=
  if is_text "peak-pcan" value then Some ADAPTER_PCAN_USB
  else if is_text "innomaker-usb2can" value then Some ADAPTER_INNOMAKER_USB2CAN
  else if is_text "rusoku-toucan" value then Some ADAPTER_RUSOKU_TOUCAN
  else if is_text "sys-tec-usb2can" value then Some ADAPTER_SYS_TEC_USB2CAN
  else if is_text "socketcan" value then Some ADAPTER_SOCKETCAN
  else None.

Definition log_level_of (value : list Z) : option LoggingLevel :=
  if is_text "debug" value then Some Debug_
  else if is_text "info" value then Some Info_
  else if is_text "warning" value then Some Warning_
  else if is_text "error" value then Some Error_
  else if is_text "critical" value then Some Critical_
  else None.

(** [None]: [std::exit (0)]. *)
Definition parse_option (option_ : list Z) (p : ArgumentProcessor) : option ArgumentProcessor :=
  if is_text "--help" option_ then None
  else if is_text "--version" option_ then None
  else if is_text "--log2file" option_
  then Some {| canAdapter := canAdapter p; canChannel := canChannel p; fileLogging := true;
               logLevel := logLevel p |}
  else Some p.

Definition parse_parameter (parameter : list Z) (p : ArgumentProcessor) : ArgumentProcessor :=
  match split_parameter parameter with
  | None => p
  | Some (key, value) =>
      if is_text "--can_adapter" key then
        match adapterMap value with
        | Some adapter => {| canAdapter := adapter; canChannel := canChannel p;
                             fileLogging := fileLogging p; logLevel := logLevel p |}
        | None => p
        end
      else if is_text "--can_channel" key then
        {| canAdapter := canAdapter p; canChannel := value;
           fileLogging := fileLogging p; logLevel := logLevel p |}
      else if is_text "--log_level" key then
        match log_level_of value with
        | Some level => {| canAdapter := canAdapter p; canChannel := canChannel p;
                           fileLogging := fileLogging p; logLevel := Some level |}
        | None => p
        end
      else p
  end.

(** The loop of [process], which otherwise always answers [true]. *)
Fixpoint process (arguments : list (list Z)) (p : ArgumentProcessor)
    : option ArgumentProcessor :=
  match arguments with
  | [] => Some p
  | arg :: rest =>
      let arg := tolower <$> arg in
      match parse_option arg p with
      | None => None
      | Some p => process rest (parse_parameter arg p)
      end
  end.

(** What [create_can_driver] gives: a driver, a null pointer, or an
    exception. *)
Inductive created (D : Type) : Type :=
  | Created (d : D)
  | NotCreated
  | CreationThrows.
Arguments Created {D} _.
Arguments NotCreated {D}.
Arguments CreationThrows {D}.

(** On Linux: the interface a [SocketCANInterface] is made for. *)
Definition create_can_driver (p : ArgumentProcessor) : created (list Z) :=
  match canAdapter p with
  | ADAPTER_SOCKETCAN =>
      Created (match canChannel p with [] => bytes_of_string "can0" | channel => channel end)
  | _ => NotCreated
  end.

(** What the start depends on besides; [version] is that of the build. *)
Record StartEnv := {
  log_paths : PathEnv;
  local_time : Tm;
  log_opens : bool;
  log_contents : list Z;
  version : list Z
}.

(** [std::cout], without and with the log file. *)
Inductive Output : Type :=
  | ToConsole (text : list Z)
  | ToBoth (tee : TeeStreambuf).

Definition print (text : list Z) (out : Output) : Output :=
  match out with
  | ToConsole printed => ToConsole (printed ++ text)
  | ToBoth tee => ToBoth (tee_write text tee)
  end.

Definition announcement (env : StartEnv) (arguments : list (list Z)) : list Z :=
  concat ((fun arg => arg ++ [32]) <$> arguments) ++ [10]
  ++ bytes_of_string "AOG-TC version: v" ++ version env ++ [10].

Definition no_adapter : list Z :=
  bytes_of_string "No CAN adapter selected (or selected adapter not compiled into this build)."
  ++ [10].

(** [LogFails] and [DriverFails]: an exception leaves [prepare_application]. *)
Inductive prepared (D : Type) : Type :=
  | Exits
  | LogFails
  | DriverFails (out : Output)
  | NoDriver (out : Output)
  | Driver (driver : D) (out : Output).
Arguments Exits {D}.
Arguments LogFails {D}.
Arguments DriverFails {D} _.
Arguments NoDriver {D} _.
Arguments Driver {D} _ _.

(** The order matters: arguments, log file, announcement, driver. The builds
    differ in the drivers they can make. *)
Definition prepare_with {D} (create : ArgumentProcessor -> created D) (console : list Z)
    (env : StartEnv) (arguments : list (list Z)) : prepared D :=
  match process arguments new_ArgumentProcessor with
  | None => Exits
  | Some p =>
      match (if fileLogging p
             then ToBoth <$> setup_file_logging (log_paths env) (local_time env) (log_opens env)
                               console (log_contents env)
             else Some (ToConsole console)) with
      | None => LogFails
      | Some out =>
          let out := print (announcement env arguments) out in
          match create p with
          | Created driver => Driver driver out
          | NotCreated => NoDriver (print no_adapter out)
          | CreationThrows => DriverFails out
          end
      end
  end.

Definition prepare_application : StartEnv -> list (list Z) -> prepared (list Z) :=
  prepare_with create_can_driver [].

(** ** What a command line means *)

(** The last argument that [f] understands. *)
Fixpoint last_of {A} (f : list Z -> option A) (arguments : list (list Z)) (d : A) : A :=
  match arguments with
  | [] => d
  | arg :: rest => last_of f rest (default d (f (tolower <$> arg)))
  end.

Definition channel_in (arg : list Z) : option (list Z) :=
  match split_parameter arg with
  | Some (key, value) => if is_text "--can_channel" key then Some value else None
  | None => None
  end.

Definition adapter_in (arg : list Z) : option CANAdapter :=
  match split_parameter arg with
  | Some (key, value) => if is_text "--can_adapter" key then adapterMap value else None
  | None => None
  end.

Definition level_in (arg : list Z) : option (option LoggingLevel) :=
  match split_parameter arg with
  | Some (key, value) => if is_text "--log_level" key then Some <$> log_level_of value else None
  | None => None
  end.

Definition asks_to_log (arg : list Z) : bool := is_text "--log2file" (tolower <$> arg).

Definition asks_to_exit (arg : list Z) : bool :=
  is_text "--help" (tolower <$> arg) || is_text "--version" (tolower <$> arg).

Lemma is_text_spec s text : is_text s text = true <-> text = bytes_of_string s.
Proof. apply bool_decide_eq_true. Qed.

Lemma parse_option_exits arg p :
  parse_option (tolower <$> arg) p = None <-> asks_to_exit arg = true.
Proof.
  unfold parse_option, asks_to_exit. rewrite orb_true_iff.
  destruct (is_text "--help" _); [by split; [left|]|].
  destruct (is_text "--version" _); [by split; [right|]|].
  destruct (is_text "--log2file" _); split; intros; by intuition.
Qed.

Lemma parse_argument_fields arg p p' :
  parse_option arg p = Some p' ->
  canChannel (parse_parameter arg p') = default (canChannel p) (channel_in arg) /\
  canAdapter (parse_parameter arg p') = default (canAdapter p) (adapter_in arg) /\
  fileLogging (parse_parameter arg p') = fileLogging p || is_text "--log2file" arg /\
  logLevel (parse_parameter arg p') = default (logLevel p) (level_in arg).
Proof.
  intros Ho.
  assert (Hsame : canChannel p' = canChannel p /\ canAdapter p' = canAdapter p /\
    fileLogging p' = fileLogging p || is_text "--log2file" arg /\ logLevel p' = logLevel p).
  { unfold parse_option in Ho. repeat case_match; simplify_eq; cbn; by rewrite ?orb_false_r, ?orb_true_r. }
  destruct Hsame as (Hc & Ha & Hl & Hv). unfold parse_parameter, channel_in, adapter_in, level_in.
  destruct (split_parameter arg) as [[key value]|]; [|done].
  destruct (is_text "--can_adapter" key) eqn:E1.
  - apply is_text_spec in E1 as ->. by destruct (adapterMap value).
  - destruct (is_text "--can_channel" key) eqn:E2; [by apply is_text_spec in E2 as ->|].
    destruct (is_text "--log_level" key); [by destruct (log_level_of value)|done].
Qed.

Lemma process_spec arguments : forall p,
  match process arguments p with
  | None => existsb asks_to_exit arguments = true
  | Some p' => existsb asks_to_exit arguments = false /\
      canChannel p' = last_of channel_in arguments (canChannel p) /\
      canAdapter p' = last_of adapter_in arguments (canAdapter p) /\
      fileLogging p' = fileLogging p || existsb asks_to_log arguments /\
      logLevel p' = last_of level_in arguments (logLevel p)
  end.
Proof.
  induction arguments as [|arg rest IH]; intros p; [cbn; by rewrite orb_false_r|].
  cbn [process existsb last_of].
  pose proof (parse_option_exits arg p) as Hexit.
  destruct (parse_option (tolower <$> arg) p) as [p1|] eqn:Ho.
  - pose proof (parse_argument_fields _ p p1 Ho) as (Hc & Ha & Hl & Hv).
    specialize (IH (parse_parameter (tolower <$> arg) p1)).
    destruct (asks_to_exit arg); [discriminate (proj2 Hexit eq_refl)|].
    unfold asks_to_log at 1. rewrite orb_assoc, <- Hl. rewrite Hc, Ha, Hv in IH. exact IH.
  - by rewrite (proj1 Hexit eq_refl).
Qed.

(** What the arguments amount to: the last known [--can_adapter], the last
    [--can_channel] and the last known [--log_level], and whether some argument
    asks for a log file. Unknown arguments do not matter. *)
Definition meaning (arguments : list (list Z)) : ArgumentProcessor := {|
  canAdapter := last_of adapter_in arguments NONE;
  canChannel := last_of channel_in arguments [];
  fileLogging := existsb asks_to_log arguments;
  logLevel := last_of level_in arguments None
|}.

Lemma process_meaning arguments :
  process arguments new_ArgumentProcessor =
  if existsb asks_to_exit arguments then None else Some (meaning arguments).
Proof.
  pose proof (process_spec arguments new_ArgumentProcessor) as Hp.
  destruct (process arguments new_ArgumentProcessor) as [p|]; [|by rewrite Hp].
  destruct Hp as (-> & Hc & Ha & Hl & Hv). destruct p. cbn in *. by subst.
Qed.

Lemma prepare_with_spec {D} (create : ArgumentProcessor -> created D) console env arguments :
  prepare_with create console env arguments =
  if existsb asks_to_exit arguments then Exits
  else match (if existsb asks_to_log arguments
              then ToBoth <$> setup_file_logging (log_paths env) (local_time env) (log_opens env)
                                console (log_contents env)
              else Some (ToConsole console)) with
       | None => LogFails
       | Some out =>
           let out := print (announcement env arguments) out in
           match create (meaning arguments) with
           | Created driver => Driver driver out
           | NotCreated => NoDriver (print no_adapter out)
           | CreationThrows => DriverFails out
           end
       end.
Proof. unfold prepare_with. rewrite process_meaning. by destruct (existsb asks_to_exit arguments). Qed.

(** What a command line means. The program exits at once exactly when some
    argument asks for help or the version. Otherwise the log file is opened
    first if some argument says so, and the program fails if its directory
    cannot be had. The arguments and the version are announced, and there is a
    driver exactly when the last known [--can_adapter] is "socketcan", for the
    channel of the last [--can_channel] and for "can0" without one; unknown
    arguments do not matter. The channel is the argument in lower case. *)
Theorem prepare_application_spec (env : StartEnv) (arguments : list (list Z)) :
  prepare_application env arguments =
  if existsb asks_to_exit arguments then Exits
  else match (if existsb asks_to_log arguments
              then ToBoth <$> setup_file_logging (log_paths env) (local_time env) (log_opens env) []
                                (log_contents env)
              else Some (ToConsole [])) with
       | None => LogFails
       | Some out =>
           let out := print (announcement env arguments) out in
           if decide (last_of adapter_in arguments NONE = ADAPTER_SOCKETCAN)
           then Driver (match last_of channel_in arguments [] with
                        | [] => bytes_of_string "can0"
                        | channel => channel
                        end) out
           else NoDriver (print no_adapter out)
       end.
Proof.
  unfold prepare_application. rewrite prepare_with_spec. unfold create_can_driver. cbn [canAdapter meaning].
  destruct (existsb asks_to_exit arguments); [done|].
  by destruct (if existsb asks_to_log arguments then _ else _), (last_of adapter_in arguments NONE).
Qed.

(** On Linux making the driver cannot fail with an exception. *)
Lemma linux_driver_made env arguments :
  match prepare_application env arguments with DriverFails _ => False | _ => True end.
Proof. rewrite prepare_application_spec. by repeat case_match. Qed.

(** A log file that can be opened goes on with the announcement. *)
Lemma log_file_announces {D} (create : ArgumentProcessor -> created D) console env arguments
    tee driver :
  EOF ∉ announcement env arguments ->
  prepare_with create console env arguments = Driver driver (ToBoth tee) ->
  file_good tee = log_opens env /\
  fileStream tee =
    log_contents env ++ (if log_opens env then announcement env arguments else []).
Proof.
  intros He. unfold prepare_with, setup_file_logging.
  destruct (process _ _) as [p|]; [|done]. destruct (fileLogging p).
  - destruct (get_filename_path _ _); [|done]. cbn.
    destruct (create p); try done. intros [= _ <-]. by rewrite tee_write_spec.
  - cbn. by destruct (create p).
Qed.

(** An interface name with a capital letter cannot be chosen. *)
Example capital_channel env :
  exists out, prepare_application env
    [bytes_of_string "tc"; bytes_of_string "--can_adapter=SocketCAN";
     bytes_of_string "--can_channel=vCAN0"] = Driver (bytes_of_string "vcan0") out.
Proof. eexists. vm_compute. reflexivity. Qed.
