(* ===== verification/Program.v ===== *)
(** * The program (src/main.cpp lines 85-88, 324-381, 426-441)

    [main] turns the command line into a driver and hands it to
    [run_application_loop], which sets the application up, runs
    [Application::update] round after round until a signal clears [running],
    and stops the application. Exceptions of the set-up and of the rounds end
    up in its handlers; an exception elsewhere ends in [std::terminate] and,
    through the crash handlers that [main] has installed, in the death of the
    process ([run_process]). [main] is the one for Linux; [WinMain] is in
    WindowsMain.v. *)

From S2P Require Import Prelude Ddop Hierarchy ClientState TcServer Activation ServerInvariant Udp UdpFacts.
From S2P Require Import Settings PacketHandler Heartbeat DemandMonitor Network Vt App AppFacts.
From S2P Require Import Setup SetupFacts Diagnostics Args.

#[local] Set Default Proof Using "All".

Section program.
Context `{DdopApi} `{DdiCodes} `{Timing} `{JsonApi} `{Platform}.
Context (full_name : Z -> Z).

(** The interfaces a round finds are those that the set-up has created. *)
Definition connect (w : Boot) (env : UpdateEnv) : UpdateEnv := {|
  call_env := {|
    now := now (call_env env);
    has_speed_interface := speed_interface w;
    has_nmea2000_interface := speed_interface w;
    can_accepts := can_accepts (call_env env) |};
  detection := detection env;
  incoming := incoming env;
  save_env := save_env env;
  sockets := sockets env;
  has_vt_client := vt_client w;
  terminal := {|
    vt_now := vt_now (terminal env);
    partner_online := partner_online (terminal env);
    vt_is_connected := vt_is_connected (terminal env);
    has_update_helper := vt_client w;
    has_nmea2000 := speed_interface w;
    task_totals_active := true;
    bound_ip_address := bound_ip_address (terminal env);
    network := bus env |};
  bus := bus env;
  tecu_address_valid := tecu_exists w && tecu_address_valid env;
  speed_accepted := speed_accepted env
|}.

(** What the rounds meet: the environment and the CAN thread of each, and the
    value of [running] at each test, which [signal_handler] has cleared or
    not. What the CAN thread does between the set-up of the server and the
    first round counts to that round, and what it does between the last round
    and the end of the stack's threads to the last. *)
Record Life := {
  environment : nat -> UpdateEnv;
  can_thread : nat -> list (list can_event);
  still_running : nat -> bool
}.

(** What [run_application_loop] does besides. *)
Inductive main_event : Type :=
  | LogCrash
  | StopApplication (calls : list stop_call)
  | FlushLog (ms : Z).

(** How the loop ends: by the flag, by an exception that is caught, or not
    in the program's hands; with the application as the handlers see it, the
    rounds that returned and what they sent. An exception of a round leaves
    [update] before it reaches the terminal client. *)
Inductive loop_end : Type :=
  | Flag (app : Application) (rounds : nat) (outs : list app_out)
  | Caught (app : Application) (rounds : nat) (outs : list app_out)
  | Killed
  | Corrupted
  | Stuck
  | StillRunning (app : Application) (outs : list app_out).

(** [while (running)]; [update] always answers [true]. *)
Fixpoint main_loop (w : Boot) (life : Life) (fuel n : nat) (app : Application)
    (outs : list app_out) : loop_end :=
  if negb (still_running life n) then Flag app n outs
  else
    match fuel with
    | O => StillRunning app outs
    | S fuel =>
        match update full_name (connect w (environment life n)) (can_thread life n) app with
        | Ok (app, outs') => main_loop w life fuel (S n) app (outs ++ outs')
        | Escapes => Caught app n outs
        | Terminates => Killed
        | Undefined => Corrupted
        | Diverges => Stuck
        end
    end.

(** How the process ends. *)
Inductive program_end : Type :=
  | Exits (code : Z) (events : list main_event) (rounds : nat) (outs : list app_out)
  | Terminated
  | CorruptMemory
  | NeverEnds
  | OutOfFuel (outs : list app_out).

Definition shut_down (w : Boot) (vt_started : bool) : list main_event :=
  [StopApplication (stop w vt_started); FlushLog 2000].

Definition run_application_loop (senv : SetupEnv) (life : Life) (fuel : nat) : program_end :=
  match initialize senv initial_boot with
  | Finished (Returns false, w) => Exits (-1) (shut_down w false) 0 []
  | Finished (Throws, w) => Exits 0 (LogCrash :: shut_down w false) 0 []
  | Finished (Returns true, w) =>
      match main_loop w life fuel 0 (started_application w) [] with
      | Flag app n outs => Exits 0 (shut_down w (vtClientStarted (vt app))) n outs
      | Caught app n outs => Exits 0 (LogCrash :: shut_down w (vtClientStarted (vt app))) n outs
      | Killed => Terminated
      | Corrupted => CorruptMemory
      | Stuck => NeverEnds
      | StillRunning _ outs => OutOfFuel outs
      end
  | OutOfRange => CorruptMemory
  | Running => NeverEnds
  end.

(** [main]: the arguments decide whether there is a driver at all. *)
Definition main (start : StartEnv) (arguments : list (list Z)) (senv : list Z -> SetupEnv)
    (life : Life) (fuel : nat) : program_end :=
  match prepare_application start arguments with
  | Args.Exits => Exits 0 [] 0 []
  | LogFails | DriverFails _ => Terminated
  | NoDriver _ => Exits (-1) [] 0 []
  | Driver channel _ => run_application_loop (senv channel) life fuel
  end.

(** What a death in [std::terminate] depends on: see Diagnostics.v. *)
Record CrashEnv := {
  crash_paths : PathEnv;
  crash_time : Tm;
  crash_file_opens : bool;
  signal_taken : bool;
  in_flight : current_exception
}.

(** The end as the parent process and the next reader of the logs see it: an
    exit status of eight bits, or a death with its trace. *)
Inductive process_end : Type :=
  | Ended (status : Z) (events : list main_event) (rounds : nat) (outs : list app_out)
  | Aborted (trace : list crash_step) (d : death) (p : Process)
  | Wrecked
  | Endless
  | Unfinished (outs : list app_out).

Definition run_process (start : StartEnv) (arguments : list (list Z)) (senv : list Z -> SetupEnv)
    (life : Life) (crash : CrashEnv) (p : Process) (fuel : nat) : process_end :=
  let p := install_crash_handlers p in
  match main start arguments senv life fuel with
  | Exits code events n outs => Ended (u8 code) events n outs
  | Terminated =>
      let '(trace, (d, p)) :=
        terminate (crash_paths crash) (crash_time crash) (crash_file_opens crash)
          (signal_taken crash) (in_flight crash) p in
      Aborted trace d p
  | CorruptMemory => Wrecked
  | NeverEnds => Endless
  | OutOfFuel outs => Unfinished outs
  end.

(** ** The invariant over the whole run *)

Definition octets_only (life : Life) : Prop := forall n,
  Forall is_u8 (datagram_bytes (detection (environment life n))) /\
  Forall is_u8 (datagram_bytes (incoming (environment life n))).

Lemma initial_rx_invariant : rx_ok initial_rx /\ rxIndex initial_rx < 8.
Proof.
  split; [|done]. split; [done| |done]. apply Forall_replicate. unfold is_u8. lia.
Qed.

Lemma started_application_ok `{!DdopLaws} w :
  settings_ok (boot_settings w) -> app_ok (started_application w).
Proof.
  intros Hs. split; [|done|apply initial_rx_invariant..].
  split; cbn; [apply map_Forall_empty|lia..].
Qed.

Definition has_250 (env : UpdateEnv) : Prop :=
  250 ∈ datagram_bytes (detection env) \/ 250 ∈ datagram_bytes (incoming env).

#[local] Instance has_250_dec env : Decision (has_250 env).
Proof. unfold has_250. apply _. Defined.

(** The byte 250 is in no buffer, or has arrived at some time. *)
Definition buffers_clean (life : Life) (app : Application) : Prop :=
  (exists n, has_250 (environment life n)) \/
  no_250 (rxDetection app) /\ no_250 (rxIncoming app).

(** How the loop may end: the invariant holds and what was sent is whole
    frames; other ends have their reasons. *)
Definition end_ok (life : Life) (e : loop_end) : Prop :=
  match e with
  | Flag app n outs => app_ok app /\ Forall udp_fits outs /\ still_running life n = false
  | StillRunning app outs => app_ok app /\ Forall udp_fits outs
  | Caught app n outs => app_ok app /\ Forall udp_fits outs /\
      (save_throws (environment life n) \/ bind_throws (environment life n))
  | Killed => exists n, save_throws (environment life n) \/
      activation_throws (concat (can_thread life n))
  | Corrupted => False
  | Stuck => exists n, has_250 (environment life n)
  end.

Lemma stuck_250 life w n app :
  octets_only life -> app_ok app -> buffers_clean life app ->
  update_runs_on (connect w (environment life n)) app -> exists n, has_250 (environment life n).
Proof.
  intros Hoct Ha [Hc|[Hrd Hri]] Hrun; [done|]. destruct (Hoct n) as [Hd Hi].
  destruct Ha as [_ _ [Hrx1 Hb1] [Hrx2 Hb2]]. exists n.
  destruct (decide (has_250 (environment life n))) as [|Hn]; [done|exfalso].
  unfold has_250 in Hn. destruct Hrun as [Hrun|Hrun].
  - eapply (running_250 address_round); [apply address_round_ok|exact Hrx1|done|exact Hd|exact Hrun|].
    split; [tauto|done].
  - eapply (running_250 incoming_round); [apply incoming_round_ok|exact Hrx2|done|exact Hi|exact Hrun|].
    split; [tauto|done].
Qed.

Lemma round_clean life w n app app' :
  buffers_clean life app ->
  (no_250_pending (connect w (environment life n)) app ->
   no_250 (rxDetection app') /\ no_250 (rxIncoming app')) ->
  buffers_clean life app'.
Proof.
  intros [Hc|[Hrd Hri]] Hkeep; [by left|].
  destruct (decide (has_250 (environment life n))) as [Hn|Hn]; [left; by exists n|right].
  apply Hkeep. unfold has_250 in Hn. split_and!; [tauto|tauto|done..].
Qed.

Lemma main_loop_ok `{!DdopLaws} w life fuel : octets_only life ->
  forall n app outs, app_ok app -> buffers_clean life app -> Forall udp_fits outs ->
  end_ok life (main_loop w life fuel n app outs).
Proof.
  intros Hoct. induction fuel as [|fuel IH]; intros n app outs Ha Hc Ho; cbn [main_loop];
    (destruct (still_running life n) eqn:Hs; [cbn [negb]|by split_and!]); [by split|].
  destruct (Hoct n) as [Hd Hi].
  pose proof (update_result_ok full_name (connect w (environment life n)) (can_thread life n)
    app Ha Hd Hi) as Hr.
  destruct (update _ _ _ app) as [[app' outs']| | | |].
  - destruct Hr as (Ha' & Ho' & Hk). apply IH; [done| |by apply Forall_app_2].
    by apply (round_clean life w n app).
  - by apply (stuck_250 life w n app).
  - done.
  - by split_and!.
  - by exists n.
Qed.

Lemma initial_rx_no_250 : no_250 initial_rx.
Proof. intros Hin%elem_of_replicate. lia. Qed.

Context `{!DdopLaws} `{!ElapsedLaws}.

(** How the loop ends. *)
Definition loop_facts (senv : SetupEnv) (life : Life) (e : program_end) : Prop :=
  match e with
  | Exits code events n outs =>
      Forall udp_fits outs /\
      exists r w vt_started crashed, initialize senv initial_boot = Finished (r, w) /\
        code = match r with Returns false => -1 | _ => 0 end /\
        events = (if crashed : bool then [LogCrash] else []) ++
          [StopApplication (stop w vt_started); FlushLog 2000] /\
        (crashed = true -> r = Throws \/ save_throws (environment life n) \/
           bind_throws (environment life n)) /\
        (r = Returns true -> crashed = false -> still_running life n = false)
  | OutOfFuel outs => Forall udp_fits outs
  | Terminated => exists n, save_throws (environment life n) \/
      activation_throws (concat (can_thread life n))
  | NeverEnds => exists n, has_250 (environment life n)
  | CorruptMemory => False
  end.

Lemma run_application_loop_ends senv life fuel :
  steady senv -> octets_only life -> loop_facts senv life (run_application_loop senv life fuel).
Proof.
  intros Hsteady Hoct. unfold run_application_loop.
  pose proof (initialize_answers senv Hsteady) as Hwp. unfold wp in Hwp.
  destruct (initialize senv initial_boot) as [[r w]| |] eqn:Hrun; [|done..]. clear Hwp.
  destruct r as [[]|].
  - assert (Ha : app_ok (started_application w)).
    { apply started_application_ok, (initialize_settings_ok senv Hsteady (Returns true)); done. }
    pose proof (main_loop_ok w life fuel Hoct 0 _ [] Ha
      (or_intror (conj initial_rx_no_250 initial_rx_no_250)) (Forall_nil_2 _)) as He.
    destruct (main_loop w life fuel 0 _ []) as [app n outs|app n outs| | | |app outs];
      cbn [end_ok] in He.
    + destruct He as (_ & Ho & Hf). split; [done|].
      exists (Returns true), w, (vtClientStarted (vt app)), false. by split_and!.
    + destruct He as (_ & Ho & Hf). split; [done|].
      exists (Returns true), w, (vtClientStarted (vt app)), true. split_and!; try done. by right.
    + done.
    + done.
    + done.
    + by destruct He.
  - split; [constructor|]. exists (Returns false), w, false, false. by split_and!.
  - split; [constructor|]. exists Throws, w, false, true. split_and!; try done. by left.
Qed.

(** C10: how the process ends, from the command line on. The waits of the set-up
    all end. Asked for help or its version it exits with status 0, without a
    driver with 255. Otherwise an exit comes after exactly one stop of the
    application, which terminates what the set-up had created, and then a
    flush of the log; its status is 255 when the set-up answered [false] and 0
    otherwise, also after an exception, which is logged first and comes from
    the set-up or from a round that could not save a setting or bind the
    connection. Every datagram of the whole run is a complete frame. The
    process aborts when the directory of the log file cannot be had, a setting
    cannot be saved on the CAN thread, or a pool is activated there whose file
    has no place; it then leaves its reason in
    the crash file, or on the console when that cannot be opened, names
    SIGABRT on standard error, and ends by that signal or with status 134. A
    round that does not return has met the byte 250; memory outside the
    buffers is never touched. *)
Theorem program_ends_orderly (start : StartEnv) (arguments : list (list Z))
    (senv : list Z -> SetupEnv) (life : Life) (crash : CrashEnv) (p : Process) (fuel : nat)
    (Hsteady : forall channel, steady (senv channel)) (Hoct : octets_only life) :
  match run_process start arguments senv life crash p fuel with
  | Ended status events n outs =>
      Forall udp_fits outs /\
      match prepare_application start arguments with
      | Args.Exits => status = 0 /\ events = []
      | NoDriver _ => status = 255 /\ events = []
      | LogFails | DriverFails _ => False
      | Driver channel _ =>
          exists r w vt_started crashed, initialize (senv channel) initial_boot = Finished (r, w) /\
            status = match r with Returns false => 255 | _ => 0 end /\
            events = (if crashed : bool then [LogCrash] else []) ++
              [StopApplication (stop w vt_started); FlushLog 2000] /\
            (crashed = true -> r = Throws \/ save_throws (environment life n) \/
               bind_throws (environment life n)) /\
            (r = Returns true -> crashed = false -> still_running life n = false)
      end
  | Aborted trace d p' =>
      (prepare_application start arguments = LogFails \/
       exists n, save_throws (environment life n) \/
         exists fs c name device,
           ServerCall (Activate fs c name) ∈ concat (can_thread life n) /\
           path_throws fs (ddop_file_name name device) = true) /\
      trace = [OpenForAppending (crash_file_path (crash_paths crash) (crash_time crash)
                                   (bytes_of_string ".log")); FlushQueue 500;
        (if crash_file_opens crash then WriteToFile else WriteToConsole)
          (log (crash_time crash) ++ bytes_of_string "[Crash] "
           ++ terminate_reason (in_flight crash) ++ [10])] /\
      d = (if signal_taken crash then BySignal SIGABRT else ByExit 134) /\
      stderr p' = stderr p ++ bytes_of_string "[Crash] Fatal signal: SIGABRT (abort)" ++ [10]
  | Wrecked => False
  | Endless => exists n, has_250 (environment life n)
  | Unfinished outs => Forall udp_fits outs
  end.
Proof.
  unfold run_process, main. rewrite terminate_trace.
  pose proof (signal_outcome (signal_taken crash) SIGABRT p ltac:(by right; left)) as Habort.
  destruct (signal_arrives _ _ _) as [d p']. destruct Habort as (Hd & _ & He).
  pose proof (linux_driver_made start arguments) as Hmade.
  destruct (prepare_application start arguments) as [| | |out|channel out].
  - by split; [constructor|].
  - split_and!; [by left|done..].
  - done.
  - by split; [constructor|].
  - pose proof (run_application_loop_ends (senv channel) life fuel (Hsteady channel) Hoct) as Hl.
    destruct (run_application_loop _ _ _) as [code events n outs| | | |outs]; try done.
    + destruct Hl as (Ho & r & w & vt_started & crashed & Hi & -> & Hrest).
      split; [done|]. exists r, w, vt_started, crashed.
      split_and!; [done|by destruct r as [[]|]|apply Hrest..].
    + split_and!; [by right|done..].
Qed.

(** ** The program obeys the signal *)

Lemma round_returns w life n app :
  octets_only life -> app_ok app -> (forall n, ~ has_250 (environment life n)) ->
  (forall n s, (save (save_env (environment life n)) s).1 <> Throws) ->
  (forall n endpoint, bind_ok (sockets (environment life n)) endpoint = true) ->
  (forall n, ~ activation_throws (concat (can_thread life n))) ->
  no_250 (rxDetection app) /\ no_250 (rxIncoming app) ->
  exists app' outs, update full_name (connect w (environment life n)) (can_thread life n) app =
      Ok (app', outs) /\ app_ok app' /\ no_250 (rxDetection app') /\ no_250 (rxIncoming app').
Proof.
  intros Hoct Ha Hn250 Hsave Hbind Hplaces [Hrd Hri]. destruct (Hoct n) as [Hd Hi].
  pose proof (update_result_ok full_name (connect w (environment life n)) (can_thread life n)
    app Ha Hd Hi) as Hr.
  assert (Hns : ~ save_throws (connect w (environment life n))).
  { intros [s Hs]. by apply (Hsave n s). }
  destruct (update _ _ _ app) as [[app' outs]| | | |]; [| |done| |].
  - destruct Hr as (Ha' & _ & Hk). exists app', outs. split_and!; [done..| |]; apply Hk;
      specialize (Hn250 n); unfold has_250 in Hn250; (split_and!; [tauto|tauto|done..]).
  - destruct (stuck_250 life w n app Hoct Ha) as [m Hm]; [by right|done|by destruct (Hn250 m)].
  - destruct Hr as [Hs|[subnet Hs]]; [done|]. unfold bind_connection in Hs.
    cbn in Hs. by rewrite Hbind in Hs.
  - destruct Hr as [Hs|Hs]; [done|by destruct (Hplaces n)].
Qed.

(** The loop performs the rounds up to the first test that finds the flag
    cleared. *)
Lemma loop_stops (senv : SetupEnv) (life : Life) (w : Boot) (k fuel : nat)
    (Hsteady : steady senv) (Hoct : octets_only life)
    (Hinit : initialize senv initial_boot = Finished (Returns true, w))
    (Hon : forall n, (n < k)%nat -> still_running life n = true)
    (Hoff : still_running life k = false)
    (H250 : forall n, ~ has_250 (environment life n))
    (Hsave : forall n s, (save (save_env (environment life n)) s).1 <> Throws)
    (Hbind : forall n endpoint, bind_ok (sockets (environment life n)) endpoint = true)
    (Hplaces : forall n, ~ activation_throws (concat (can_thread life n)))
    (Hfuel : (k <= fuel)%nat) :
  exists vt_started outs,
    run_application_loop senv life fuel = Exits 0 (shut_down w vt_started) k outs.
Proof.
  assert (Hloop : forall (d n : nat) app outs (f : nat), (n + d)%nat = k -> (d <= f)%nat -> app_ok app ->
    no_250 (rxDetection app) /\ no_250 (rxIncoming app) ->
    exists app' outs', main_loop w life f n app outs = Flag app' k outs').
  { induction d as [|d IH]; intros n app outs f Hnd Hf Ha Hc.
    - assert (n = k) as -> by lia. exists app, outs. by destruct f; cbn [main_loop]; rewrite Hoff.
    - destruct f as [|f]; [lia|]. cbn [main_loop]. rewrite Hon by lia. cbn [negb].
      destruct (round_returns w life n app Hoct Ha H250 Hsave Hbind Hplaces Hc)
        as (app' & outs' & -> & Ha' & Hc'). apply IH; [lia|lia|done|done]. }
  unfold run_application_loop. rewrite Hinit.
  destruct (Hloop k 0%nat (started_application w) [] fuel) as (app' & outs' & ->); [lia|done| | |].
  - apply started_application_ok, (initialize_settings_ok senv Hsteady (Returns true)); done.
  - split; apply initial_rx_no_250.
  - by exists (vtClientStarted (vt app')), outs'.
Qed.
(** C12: the program obeys the signal. Set up and running, with no byte 250 on
    the network and disk and sockets in order (settings can be saved, the files
    of activated pools have their place, addresses can be bound), it performs exactly the rounds
    up to the first test at which the flag is cleared, then stops the
    application, flushes the log and exits with code 0. *)
Theorem program_stops_when_asked (senv : SetupEnv) (life : Life) (w : Boot) (k fuel : nat)
    (Hsteady : steady senv) (Hoct : octets_only life)
    (Hinit : initialize senv initial_boot = Finished (Returns true, w))
    (Hon : forall n, (n < k)%nat -> still_running life n = true)
    (Hoff : still_running life k = false)
    (H250 : forall n, ~ has_250 (environment life n))
    (Hsave : forall n s, (save (save_env (environment life n)) s).1 <> Throws)
    (Hbind : forall n endpoint, bind_ok (sockets (environment life n)) endpoint = true)
    (Hplaces : forall n, ~ activation_throws (concat (can_thread life n)))
    (Hfuel : (k <= fuel)%nat) :
  exists vt_started outs,
    run_application_loop senv life fuel = Exits 0 (shut_down w vt_started) k outs.
Proof. by apply (loop_stops senv life w k fuel). Qed.
End program.
