(* ===== verification/WindowsMain.v ===== *)
(** * The program on Windows (src/main.cpp lines 35-82, 245-286, 339-347,
    383-424)

    The other entry point. [WinMain] takes the command line apart itself,
    makes a driver for one of four USB adapters, whose channel is a number,
    and creates a hidden window, so that AOG can ask the program to close. The
    window has the thread of the main loop, which dispatches its messages
    before each round. The set-up, the rounds and the end are those of
    Program.v.

    The calls of Windows are an environment: what they answer is a field, and
    what the program makes of it is a definition. *)

From S2P Require Import Prelude Ddop Hierarchy ClientState TcServer ServerInvariant Udp UdpFacts.
From S2P Require Import Settings PacketHandler Heartbeat DemandMonitor Network Vt App AppFacts.
From S2P Require Import Setup SetupFacts Diagnostics Args Program.

#[local] Set Default Proof Using "All".

(** ** [std::stoi] *)

(** [std::isspace] in the C locale. *)
Definition isspace (c : Z) : bool := (c =? 32) || (9 <=? c) && (c <=? 13).

Fixpoint skip_spaces (text : list Z) : list Z :=
  match text with
  | c :: rest => if isspace c then skip_spaces rest else text
  | [] => []
  end.

(** The sign, and what comes after it. *)
Definition read_sign (text : list Z) : Z * list Z :=
  match text with
  | c :: rest => if c =? 45 then (-1, rest) else if c =? 43 then (1, rest) else (1, text)
  | [] => (1, [])
  end.

(** The value of the leading digits, and how many there are. *)
Fixpoint read_digits (value : Z) (count : nat) (text : list Z) : Z * nat :=
  match text with
  | c :: rest =>
      if (48 <=? c) && (c <=? 57) then read_digits (10 * value + (c - 48)) (S count) rest
      else (value, count)
  | [] => (value, count)
  end.

(** [None]: [std::invalid_argument] without a digit, [std::out_of_range] for a
    number that is no [int]. What follows the digits is ignored. *)
Definition stoi (text : list Z) : option Z :=
  let '(sign, rest) := read_sign (skip_spaces text) in
  let '(value, count) := read_digits 0 0 rest in
  if (count =? 0)%nat then None
  else if (-2147483648 <=? sign * value) && (sign * value <=? 2147483647) then Some (sign * value)
  else None.

Lemma read_digits_number x : forall count s, exists len,
  read_digits 0 count (bytes_of_string (pretty_N_go x s)) =
    read_digits (Z.of_N x) (count + len) (bytes_of_string s) /\ ((0 < x)%N -> (0 < len)%nat).
Proof.
  induction (N.lt_wf_0 x) as [x _ IH]. intros count s.
  destruct (decide (x = 0)%N) as [->|Hx].
  { exists 0%nat. rewrite pretty_N_go_0, Nat.add_0_r. split; [done|lia]. }
  rewrite pretty_N_go_step by lia.
  destruct (IH (x `div` 10)%N) with (count := count) (s := String (pretty_N_char (x `mod` 10)) s)
    as (len & -> & _); [apply N.div_lt; lia|].
  exists (S len). split; [|lia]. cbn [bytes_of_string read_digits].
  pose proof (N.mod_lt x 10 ltac:(lia)) as Hlt. pose proof (N.div_mod x 10 ltac:(lia)) as Hx10.
  revert Hlt Hx10. generalize (x `mod` 10)%N as d, (x `div` 10)%N as q. intros d q Hlt Hx10.
  assert (Hc : Z.of_N (Ascii.N_of_ascii (pretty_N_char d)) = 48 + Z.of_N d).
  { destruct d as [|[[[[]|[]|]|[[]|[]|]|]|[[[]|[]|]|[[]|[]|]|]|]]; try lia; reflexivity. }
  rewrite Hc, (proj2 (Z.leb_le 48 _)), (proj2 (Z.leb_le _ 57)) by lia. cbn [andb].
  f_equal; lia.
Qed.

(** Every number of the range in decimal is read as itself. *)
Lemma stoi_to_string n : 0 <= n <= 2147483647 -> stoi (to_string n) = Some n.
Proof.
  intros Hn. pose proof (to_string_digits n) as Hd.
  assert (Hr : exists count, read_digits 0 0 (to_string n) = (n, S count)).
  { unfold to_string, pretty, pretty_N. case_decide as Hz.
    - exists 0%nat. assert (n = 0) as -> by lia. reflexivity.
    - destruct (read_digits_number (Z.to_N n) 0 "") as ([|len] & -> & Hlen); [lia|].
      exists len. cbn. f_equal. lia. }
  destruct Hr as [count Hr]. unfold stoi.
  destruct (to_string n) as [|c rest]; [done|]. apply Forall_cons in Hd as [Hc _].
  unfold is_digit in Hc. cbn [skip_spaces]. unfold isspace.
  rewrite (proj2 (Z.eqb_neq c 32)), (proj2 (Z.leb_gt c 13)), andb_false_r by lia. cbn [orb read_sign].
  rewrite (proj2 (Z.eqb_neq c 45)), (proj2 (Z.eqb_neq c 43)), Hr by lia. cbn [Nat.eqb].
  rewrite Z.mul_1_l, (proj2 (Z.leb_le _ n)), (proj2 (Z.leb_le n _)) by lia. done.
Qed.

(** ** The command line *)

(** What Windows answers: the arguments as wide strings, the sizes and bytes of
    their conversions to UTF-8 (0 or [None] for a failure), whether there is a
    console to attach to, and whether the window could be created. *)
Record WinApi := {
  CommandLineToArgvW : option (list (list Z));
  utf8_size : list Z -> Z;
  utf8_bytes : list Z -> option (list Z);
  AttachConsole : bool;
  CreateWindowEx : bool
}.

(** One argument: a string of [requiredSize - 1] zeros whose start is
    overwritten. *)
Definition convert_argument (api : WinApi) (argv : list Z) : option (list Z) :=
  let requiredSize := utf8_size api argv in
  if requiredSize =? 0 then None
  else
    let length := Z.to_nat (requiredSize - 1) in
    (fun text => take length (text ++ replicate length 0)) <$> utf8_bytes api argv.

Definition ParseCommandLine (api : WinApi) : list (list Z) :=
  match CommandLineToArgvW api with
  | None => []
  | Some argv => omap (convert_argument api) argv
  end.

(** What a new console shows first. *)
Definition greeting : list Z :=
  replicate 100 10
  ++ bytes_of_string "WARNING: Only start the application if you know what you are doing. It is intended to be started from AgIO!" ++ [10]
  ++ bytes_of_string "Press Ctrl+C to stop the application..." ++ [10] ++ [10].

(** ** The drivers *)

Inductive CanDriver : Type :=
  | PCANBasicWindowsPlugin (channel : Z)
  | InnoMakerUSB2CANWindowsPlugin (channel : Z)
  | TouCANPlugin (channel serial : Z)
  | SysTecWindowsPlugin (handle : Z).

(** ** The window *)

Inductive message : Type := WM_CLOSE | AnotherMessage.

(** The new value of [running]. *)
Definition WndProc (m : message) (running : bool) : bool :=
  match m with WM_CLOSE => false | AnotherMessage => running end.

(** One round of [MsgWaitForMultipleObjects] and [PeekMessage]: whether there
    was input within the millisecond, and what was retrieved and dispatched
    until the queue was empty. *)
Record Pump := { input : bool; retrieved : list message }.

Definition pump_messages (p : Pump) (running : bool) : bool :=
  if input p then foldl (fun running m => WndProc m running) running (retrieved p) else running.

(** [running] at the test before round [n]. *)
Fixpoint running_at (pumps : nat -> Pump) (n : nat) : bool :=
  match n with
  | O => true
  | S n => pump_messages (pumps n) (running_at pumps n)
  end.

Definition asks_to_close (p : Pump) : bool :=
  input p && existsb (fun m => match m with WM_CLOSE => true | AnotherMessage => false end) (retrieved p).

Lemma pump_messages_spec p running : pump_messages p running = running && negb (asks_to_close p).
Proof.
  unfold pump_messages, asks_to_close. destruct (input p); [|by rewrite andb_true_r].
  revert running. induction (retrieved p) as [|m ms IH]; intros running; [by rewrite andb_true_r|].
  cbn [foldl]. rewrite IH. cbn [andb existsb]. by destruct m, running.
Qed.

Lemma running_at_spec pumps n :
  running_at pumps n = true <-> forall k, (k < n)%nat -> asks_to_close (pumps k) = false.
Proof.
  induction n as [|n IH]; cbn [running_at].
  - split; [intros _ k Hk; lia|done].
  - rewrite pump_messages_spec, andb_true_iff, IH, negb_true_iff. split.
    + intros [Hall Hn] k Hk. destruct (decide (k = n)) as [->|]; [done|apply Hall; lia].
    + intros Hall. split; [intros k Hk; apply Hall; lia|apply Hall; lia].
Qed.

Section windows.
Context `{DdopApi} `{DdiCodes} `{Timing} `{JsonApi} `{Platform}.
Context (full_name : Z -> Z).

(** The first channel of the PCAN library. *)
Context (PCAN_USBBUS1 : Z).

(** What each case of [create_can_driver] makes of the number; [None]: no case
    of this build. *)
Definition windows_driver (adapter : CANAdapter) : option (Z -> CanDriver) :=
  match adapter with
  | ADAPTER_PCAN_USB => Some (fun n => PCANBasicWindowsPlugin (PCAN_USBBUS1 - 1 + n))
  | ADAPTER_INNOMAKER_USB2CAN => Some (fun n => InnoMakerUSB2CANWindowsPlugin (n - 1))
  | ADAPTER_RUSOKU_TOUCAN => Some (fun n => TouCANPlugin n n)
  | ADAPTER_SYS_TEC_USB2CAN => Some (fun n => SysTecWindowsPlugin (u8 n))
  | NONE | ADAPTER_SOCKETCAN => None
  end.

(** [create_can_driver] of this build. *)
Definition create_windows_driver (p : ArgumentProcessor) : created CanDriver :=
  match windows_driver (canAdapter p) with
  | None => NotCreated
  | Some make =>
      match stoi (canChannel p) with
      | Some n => Created (make n)
      | None => CreationThrows
      end
  end.

(** What the rounds meet on Windows. *)
Record WindowsLife := {
  windows_environment : nat -> UpdateEnv;
  windows_can_thread : nat -> list (list can_event);
  pumps : nat -> Pump
}.

Definition as_life (life : WindowsLife) : Life := {|
  environment := windows_environment life;
  can_thread := windows_can_thread life;
  still_running := running_at (pumps life)
|}.

(** [Terminated] is an exception that leaves [WinMain]. *)
Definition WinMain (start : StartEnv) (api : WinApi) (senv : CanDriver -> SetupEnv)
    (life : WindowsLife) (fuel : nat) : program_end :=
  let console := if AttachConsole api then greeting else [] in
  match prepare_with create_windows_driver console start (ParseCommandLine api) with
  | Args.Exits => Exits 0 [] 0 []
  | LogFails | DriverFails _ => Terminated
  | NoDriver _ => Exits (-1) [] 0 []
  | Driver driver _ =>
      if CreateWindowEx api then run_application_loop full_name (senv driver) (as_life life) fuel
      else Exits (-1) [] 0 []
  end.

Context `{!DdopLaws} `{!ElapsedLaws}.

Lemma WinMain_driver start api senv life fuel :
  let arguments := ParseCommandLine api in
  existsb asks_to_exit arguments = false ->
  (existsb asks_to_log arguments = true ->
   is_Some (get_filename_path (log_paths start) (log_filename (local_time start)))) ->
  WinMain start api senv life fuel =
  match windows_driver (last_of adapter_in arguments NONE) with
  | None => Exits (-1) [] 0 []
  | Some make =>
      match stoi (last_of channel_in arguments []) with
      | None => Terminated
      | Some n =>
          if CreateWindowEx api
          then run_application_loop full_name (senv (make n)) (as_life life) fuel
          else Exits (-1) [] 0 []
      end
  end.
Proof.
  cbn zeta. intros Hexit Hlog. unfold WinMain. rewrite prepare_with_spec, Hexit.
  unfold create_windows_driver. cbn [canAdapter canChannel meaning].
  assert (Hout : exists out, (if existsb asks_to_log (ParseCommandLine api)
    then ToBoth <$> setup_file_logging (log_paths start) (local_time start) (log_opens start)
           (if AttachConsole api then greeting else []) (log_contents start)
    else Some (ToConsole (if AttachConsole api then greeting else []))) = Some out).
  { destruct (existsb asks_to_log _); [|by eexists]. destruct Hlog as [path Hpath]; [done|].
    unfold setup_file_logging. rewrite Hpath. by eexists. }
  destruct Hout as [out ->]. destruct (windows_driver _); [|done].
  by destruct (stoi _).
Qed.

(** C13: the program on Windows. Unless it is asked for help, and with a place
    for its log file, it ends with -1 for an adapter it does not know, and
    lets an exception escape from [WinMain] when the adapter is one of the four
    but the channel is missing or no number. With a number, a window, a set-up
    that succeeds, no byte 250 on the network and disk and sockets in order
    (settings can be saved, the files of activated pools have their place,
    addresses can be bound), it goes on until the window is asked to close: the round whose messages
    include the first [WM_CLOSE] is the last one; then it stops the
    application, flushes the log and ends with 0. *)
Theorem windows_program_closes (start : StartEnv) (api : WinApi) (senv : CanDriver -> SetupEnv)
    (life : WindowsLife) (fuel : nat)
    (Hexit : existsb asks_to_exit (ParseCommandLine api) = false)
    (Hlog : existsb asks_to_log (ParseCommandLine api) = true ->
      is_Some (get_filename_path (log_paths start) (log_filename (local_time start)))) :
  let channel := last_of channel_in (ParseCommandLine api) [] in
  match windows_driver (last_of adapter_in (ParseCommandLine api) NONE) with
  | None => WinMain start api senv life fuel = Exits (-1) [] 0 []
  | Some make =>
      (channel = [] \/ stoi channel = None -> WinMain start api senv life fuel = Terminated) /\
      forall n w k, 0 <= n <= 2147483647 -> channel = to_string n -> CreateWindowEx api = true ->
        steady (senv (make n)) -> octets_only (as_life life) ->
        initialize (senv (make n)) initial_boot = Finished (Returns true, w) ->
        (forall i, ~ has_250 (windows_environment life i)) ->
        (forall i s, (save (save_env (windows_environment life i)) s).1 <> Throws) ->
        (forall i endpoint, bind_ok (sockets (windows_environment life i)) endpoint = true) ->
        (forall i, ~ activation_throws (concat (windows_can_thread life i))) ->
        (forall i, (i < k)%nat -> asks_to_close (pumps life i) = false) ->
        asks_to_close (pumps life k) = true -> (k < fuel)%nat ->
        exists vt_started outs,
          WinMain start api senv life fuel = Exits 0 (shut_down w vt_started) (S k) outs
  end.
Proof.
  cbn zeta. rewrite WinMain_driver by done.
  destruct (windows_driver _) as [make|]; [|done]. split.
  - by intros [-> | ->].
  - intros n w k Hn -> Hwin Hsteady Hoct Hinit H250 Hsave Hbind Hplaces Hopen Hclose Hfuel.
    rewrite stoi_to_string, Hwin by done.
    apply (loop_stops full_name _ (as_life life) w (S k)); try done.
    + intros i Hi. apply running_at_spec. intros j Hj. apply Hopen. lia.
    + cbn. by rewrite pump_messages_spec, Hclose, andb_false_r.
Qed.
End windows.
