(* ===== verification/IopValidator.v ===== *)
(** * The object pool validator (tools/iop_validator.cpp)

    A tool of the build: it reads an object pool for virtual terminals with
    the parser of the CAN stack and refuses it when the parser complains, an
    object is invalid, refers to an object that is not there, or has a value
    outside its own limits. The parser and the accessors of the objects are
    the class [VtObjectApi]; the tool is [check_object] for every object of
    the tree, and [iop_main]. The theorem states what it accepts without
    lists of messages. *)

From S2P Require Import Prelude.

Inductive LogLevel : Type := LevelDebug | LevelInfo | LevelWarning | LevelError | LevelCritical.

Definition level_rank (l : LogLevel) : Z :=
  match l with
  | LevelDebug => 0 | LevelInfo => 1 | LevelWarning => 2 | LevelError => 3 | LevelCritical => 4
  end.

(** The types the tool tells apart. *)
Inductive ObjectType : Type :=
  | InputBoolean | InputList | OutputList | InputNumber
  | OutputMeter | OutputLinearBarGraph | OutputArchedBarGraph | OtherType.

Definition complaint : Type := LogLevel * list Z.

(** The objects of the CAN stack. A validity check may write to the log. The
    minimum and maximum are those of the object's own class. *)
Class VtObjectApi := {
  VTObject : Type;
  get_is_valid : gmap Z (option VTObject) -> VTObject -> bool * list complaint;
  get_number_children : VTObject -> Z;
  get_child_id : VTObject -> Z -> Z;
  as_WorkingSet : VTObject -> option VTObject;
  get_active_mask : VTObject -> Z;
  get_object_type : VTObject -> ObjectType;
  get_value : VTObject -> Z;
  get_minimum_value : VTObject -> Z;
  get_maximum_value : VTObject -> Z;
  (** the bytes of a file, and what they parse to *)
  read_iop_file : list Z -> list Z;
  parse_iop_into_objects : list Z -> bool * gmap Z (option VTObject) * list complaint
}.

Section validator.
Context `{VtObjectApi}.

#[local] Notation tree := (gmap Z (option VTObject)).

Definition NULL_OBJECT_ID : Z := 65535.

(** ** Violations *)

Definition flag (objectID : Z) (reason : list Z) : list (list Z) :=
  [bytes_of_string "object " ++ to_string objectID ++ bytes_of_string ": " ++ reason].

(** [FailOnParserComplaint]. *)
Definition sink_CAN_stack_log (c : complaint) : list (list Z) :=
  if level_rank LevelWarning <=? level_rank c.1 then [bytes_of_string "parser: " ++ c.2] else [].

Definition present (id : Z) (t : tree) : bool := bool_decide (is_Some (t !! id)).

Definition check_reference (objectID : Z) (label : string) (referencedID : Z) (t : tree)
    : list (list Z) :=
  if negb (referencedID =? NULL_OBJECT_ID) && negb (present referencedID t)
  then flag objectID (bytes_of_string label ++ bytes_of_string " references object "
         ++ to_string referencedID ++ bytes_of_string " which is not in the pool")
  else [].

Definition outside (objectID : Z) (label : string) (o : VTObject) : list (list Z) :=
  if (get_value o <? get_minimum_value o) || (get_maximum_value o <? get_value o)
  then flag objectID (bytes_of_string label ++ bytes_of_string " value " ++ to_string (get_value o)
         ++ bytes_of_string " outside [" ++ to_string (get_minimum_value o)
         ++ bytes_of_string ", " ++ to_string (get_maximum_value o) ++ bytes_of_string "]")
  else [].

(** The [switch] over the type. *)
Definition check_value (objectID : Z) (o : VTObject) : list (list Z) :=
  match get_object_type o with
  | InputBoolean =>
      if 1 <? get_value o
      then flag objectID (bytes_of_string "InputBoolean value " ++ to_string (get_value o)
             ++ bytes_of_string " is not 0 or 1")
      else []
  | InputList | OutputList =>
      let itemCount := get_number_children o in
      if negb (itemCount =? 0) && negb (get_value o =? 255) && (itemCount <=? get_value o)
      then flag objectID (bytes_of_string "list value " ++ to_string (get_value o)
             ++ bytes_of_string " selects item beyond the " ++ to_string itemCount
             ++ bytes_of_string " present")
      else []
  | InputNumber => outside objectID "InputNumber" o
  | OutputMeter => outside objectID "OutputMeter" o
  | OutputLinearBarGraph => outside objectID "OutputLinearBarGraph" o
  | OutputArchedBarGraph => outside objectID "OutputArchedBarGraph" o
  | OtherType => []
  end.

Definition check_children (objectID : Z) (o : VTObject) (t : tree) : list (list Z) :=
  concat ((fun i => check_reference objectID "child" (get_child_id o i) t)
            <$> seqZ 0 (get_number_children o)).

(** The body of the loop over the tree. *)
Definition check_object (t : tree) (entry : Z * option VTObject) : list (list Z) :=
  match entry.2 with
  | None => []
  | Some o =>
      let '(valid, log) := get_is_valid t o in
      concat (sink_CAN_stack_log <$> log) ++
      (if valid then [] else flag entry.1 (bytes_of_string "failed object pool structural validation")) ++
      check_children entry.1 o t ++
      (match as_WorkingSet o with
       | Some ws => check_reference entry.1 "active mask" (get_active_mask ws) t
       | None => []
       end) ++
      check_value entry.1 o
  end.

Definition entries (t : tree) : list (Z * option VTObject) :=
  (fun id => (id, default None (t !! id))) <$> key_order t.

(** ** [main] *)

Definition load (path : list Z) : option (tree * list (list Z)) :=
  match read_iop_file path with
  | [] => None
  | data =>
      let '(ok, t, log) := parse_iop_into_objects data in
      if ok : bool then Some (t, concat (sink_CAN_stack_log <$> log)) else None
  end.

(** The exit code and the violations printed. *)
Definition iop_main (argv : list (list Z)) : Z * list (list Z) :=
  match argv with
  | [_; path] =>
      match load path with
      | None => (1, [])
      | Some (t, complaints) =>
          let violations := complaints ++ concat (check_object t <$> entries t) in
          (match violations with [] => 0 | _ => 1 end, violations)
      end
  | _ => (2, [])
  end.

(** ** What is accepted *)

Definition quiet_log (log : list complaint) : Prop :=
  Forall (fun c => c.1 = LevelDebug \/ c.1 = LevelInfo) log.

Definition resolves (t : tree) (id : Z) : Prop := id = NULL_OBJECT_ID \/ is_Some (t !! id).

Definition value_fits (o : VTObject) : Prop :=
  match get_object_type o with
  | InputBoolean => get_value o <= 1
  | InputList | OutputList =>
      get_number_children o = 0 \/ get_value o = 255 \/ get_value o < get_number_children o
  | InputNumber | OutputMeter | OutputLinearBarGraph | OutputArchedBarGraph =>
      get_minimum_value o <= get_value o <= get_maximum_value o
  | OtherType => True
  end.

Record object_ok (t : tree) (o : VTObject) : Prop := {
  obj_valid : (get_is_valid t o).1 = true;
  obj_quiet : quiet_log (get_is_valid t o).2;
  obj_children : forall i, 0 <= i < get_number_children o -> resolves t (get_child_id o i);
  obj_mask : forall ws, as_WorkingSet o = Some ws -> resolves t (get_active_mask ws);
  obj_value : value_fits o
}.

Lemma concat_nil {A B} (f : A -> list B) (l : list A) :
  concat (f <$> l) = [] <-> Forall (fun x => f x = []) l.
Proof.
  induction l as [|x l IH]; cbn; [by split|]. rewrite Forall_cons, app_nil. by rewrite IH.
Qed.

Lemma quiet_log_spec log : concat (sink_CAN_stack_log <$> log) = [] <-> quiet_log log.
Proof.
  rewrite concat_nil. unfold quiet_log. apply Forall_iff. intros [[] text]; cbn;
    (split; [intros; try done; auto|]); by intros [|].
Qed.

Lemma flag_not_nil id reason : flag id reason <> [].
Proof. done. Qed.

Lemma check_reference_nil id label r t : check_reference id label r t = [] <-> resolves t r.
Proof.
  unfold check_reference, resolves, present. destruct (Z.eqb_spec r NULL_OBJECT_ID); cbn;
    [by split; auto|]. case_bool_decide as Hp; cbn; [by split; auto|].
  split; [by intros ?%flag_not_nil|]. by intros [|].
Qed.

Lemma outside_nil id label o :
  outside id label o = [] <-> get_minimum_value o <= get_value o <= get_maximum_value o.
Proof.
  unfold outside. destruct (Z.ltb_spec (get_value o) (get_minimum_value o)),
    (Z.ltb_spec (get_maximum_value o) (get_value o)); cbn [orb];
    (split; [try by intros ?%flag_not_nil|try done]; lia).
Qed.

Lemma check_value_nil id o : check_value id o = [] <-> value_fits o.
Proof.
  unfold check_value, value_fits. destruct (get_object_type o); try apply outside_nil; [| | |done].
  - destruct (Z.ltb_spec 1 (get_value o)); (split; [try by intros ?%flag_not_nil|try done]; lia).
  - destruct (Z.eqb_spec (get_number_children o) 0), (Z.eqb_spec (get_value o) 255),
      (Z.leb_spec (get_number_children o) (get_value o)); cbn [negb andb];
      (split; [try by intros ?%flag_not_nil|try done]; lia).
  - destruct (Z.eqb_spec (get_number_children o) 0), (Z.eqb_spec (get_value o) 255),
      (Z.leb_spec (get_number_children o) (get_value o)); cbn [negb andb];
      (split; [try by intros ?%flag_not_nil|try done]; lia).
Qed.

Lemma check_children_nil id o t :
  check_children id o t = [] <->
  forall i, 0 <= i < get_number_children o -> resolves t (get_child_id o i).
Proof.
  unfold check_children. rewrite concat_nil, Forall_forall. setoid_rewrite elem_of_seqZ.
  setoid_rewrite check_reference_nil. split; intros Hc i Hi; apply Hc; lia.
Qed.

Lemma check_object_nil t id o : check_object t (id, Some o) = [] <-> object_ok t o.
Proof.
  unfold check_object. cbn [fst snd].
  pose proof (quiet_log_spec (get_is_valid t o).2) as Hlog.
  destruct (get_is_valid t o) as [valid log] eqn:E. cbn [snd] in Hlog.
  rewrite !app_nil, Hlog, check_children_nil, check_value_nil. split.
  - intros (Hq & Hv & Hc & Hm & Hf). split; rewrite ?E; try done.
    + destruct valid; [done|]. by apply flag_not_nil in Hv.
    + intros ws Hws. rewrite Hws in Hm. by apply check_reference_nil in Hm.
  - intros [Hv Hq Hc Hm Hf]. rewrite E in Hv, Hq. cbn [fst snd] in Hv, Hq. rewrite Hv.
    split_and!; try done. destruct (as_WorkingSet o); [|done].
    apply check_reference_nil. by apply Hm.
Qed.

Lemma entries_checked t :
  concat (check_object t <$> entries t) = [] <-> forall id o, t !! id = Some (Some o) -> object_ok t o.
Proof.
  unfold entries. rewrite concat_nil, Forall_fmap, Forall_forall. cbn.
  setoid_rewrite elem_of_key_order. split.
  - intros Hall id o Hid. specialize (Hall id (mk_is_Some _ _ Hid)). rewrite Hid in Hall.
    by apply check_object_nil in Hall.
  - intros Hall id [e He]. rewrite He. destruct e as [o|]; [|done].
    apply check_object_nil. by apply (Hall id).
Qed.

(** C39: the validator accepts what it should. It exits with 0 exactly when it is
    given one file, which is not empty and parses without a warning, and every
    object of the pool is valid without a warning, refers only to objects of
    the pool (children, and the active mask of a working set) and has a value
    that its own limits allow. *)
Theorem iop_validator_accepts (argv : list (list Z)) :
  (iop_main argv).1 = 0 <->
  exists program path t log, argv = [program; path] /\ read_iop_file path <> [] /\
    parse_iop_into_objects (read_iop_file path) = (true, t, log) /\ quiet_log log /\
    forall id o, t !! id = Some (Some o) -> object_ok t o.
Proof.
  split.
  - destruct argv as [|program [|path [|]]]; try done. cbn. unfold load.
    destruct (read_iop_file path) as [|b data] eqn:Ef; [done|].
    destruct (parse_iop_into_objects (b :: data)) as [[[] t] log] eqn:Ep; [|done]. cbn.
    destruct (concat (sink_CAN_stack_log <$> log) ++ concat (check_object t <$> entries t))
      eqn:Ev; [|done]. intros _. apply app_nil in Ev as [Hq Ho].
    exists program, path, t, log. rewrite Ef. split_and!; try done.
    + by apply quiet_log_spec.
    + by apply entries_checked.
  - intros (program & path & t & log & -> & Hf & Hp & Hq & Ho). cbn. unfold load.
    destruct (read_iop_file path) as [|b data]; [done|]. rewrite Hp. cbn.
    apply quiet_log_spec in Hq. apply entries_checked in Ho. by rewrite Hq, Ho.
Qed.
End validator.
