(* ===== verification/Lateness.v ===== *)
(** * Warnings about a late main loop (src/app.cpp lines 599-619, 791-805)

    Every periodic message is paced by how often [Application::update] is
    called, and two checks write to the log when that is too seldom: the gaps
    between two calls of [update] and of two parts of it, and the
    transmission of the task controller status. They only log, so the round
    of App.v leaves them out. Every reading of the clock is an argument here,
    because the text of the warning is computed from another reading than the
    condition. *)

From S2P Require Import Prelude PacketHandler.

#[local] Set Default Proof Using "All".

Section lateness.
Context `{Timing}.

(** [warn_if_late]: by how much and after what gap, if at all, and the new
    [lastCallMs]. [now] is read first, and the clock stands at [later] when
    [time_expired_ms] reads it. *)
Definition warn_if_late (now later lastCallMs thresholdMs : Z) : option (Z * Z) * Z :=
  (if negb (lastCallMs =? 0) && time_expired_ms later lastCallMs thresholdMs
   then Some (u32 (u32 (now - lastCallMs) - thresholdMs), u32 (now - lastCallMs))
   else None,
   now).

(** The warning about the task controller status, and the new
    [lastLateWarningMs]; the four readings of the clock in their order. *)
Definition warn_late_status (t1 t2 t3 t4 lastTCStatusTransmit lastLateWarningMs : Z)
    (address_valid : bool) : option Z * Z :=
  if negb (lastTCStatusTransmit =? 0) && address_valid
     && time_expired_ms t1 lastTCStatusTransmit 2500
     && time_expired_ms t2 lastLateWarningMs 2500
  then (Some (u32 (u32 (t3 - lastTCStatusTransmit) - 2000)), t4)
  else (None, lastLateWarningMs).

(** The calls of [warn_if_late] with one [lastCallMs], by their two readings. *)
Fixpoint gap_warnings (readings : list (Z * Z)) (lastCallMs thresholdMs : Z)
    : list (option (Z * Z)) :=
  match readings with
  | [] => []
  | (now, later) :: readings =>
      let '(w, lastCallMs) := warn_if_late now later lastCallMs thresholdMs in
      w :: gap_warnings readings lastCallMs thresholdMs
  end.

Context `{!TimingLaws}.

Lemma u32_shift x y : u32 (u32 x - u32 y) = u32 (x - y).
Proof. unfold u32. by rewrite <- Zminus_mod. Qed.

(** One call, on clocks that do not wrap: [u32 t] is what a clock shows. *)
Lemma warn_if_late_spec last now later thresholdMs :
  u32 last <> 0 -> last <= now <= later -> later - last < 4294967296 -> is_u32 thresholdMs ->
  (warn_if_late (u32 now) (u32 later) (u32 last) thresholdMs).1 =
  if later - last <? thresholdMs then None
  else Some (if thresholdMs <=? now - last then now - last - thresholdMs
             else now - last - thresholdMs + 4294967296, now - last).
Proof.
  intros Hzero Hnow Hlater Hthr. unfold is_u32 in Hthr. unfold warn_if_late. cbn [fst].
  rewrite (proj2 (Z.eqb_neq _ _) Hzero), time_expired_ms_spec, !u32_shift. cbn [negb andb].
  rewrite !(u32_id (_ - last)) by (unfold is_u32; lia).
  destruct (Z.leb_spec thresholdMs (later - last)), (Z.ltb_spec (later - last) thresholdMs);
    try lia; [|done].
  destruct (Z.leb_spec thresholdMs (now - last)); do 2 f_equal.
  - apply u32_id. unfold is_u32. lia.
  - unfold u32. rewrite <- (Z_mod_plus_full _ 1). apply Z.mod_small. lia.
Qed.

(** C40: the warnings about a late main loop. Over any sequence of calls, a call
    warns exactly when the clock, at the second of its readings, is
    [thresholdMs] or more past the first reading of the call before; the gap
    it reports is that between the first readings. So the delay it reports is
    right when that gap has reached the threshold, and otherwise, when the
    clock ticked in between, wraps to more than 49 days. The first call never
    warns. *)
Theorem gap_warnings_spec (thresholdMs first second : Z) (readings : list (Z * Z)) (i : nat)
    (last last' now later : Z) (Hthr : is_u32 thresholdMs)
    (Hprev : ((first, second) :: readings) !! i = Some (last, last'))
    (Hcur : readings !! i = Some (now, later))
    (Hzero : u32 last <> 0) (Horder : last <= now <= later) (Hspan : later - last < 4294967296) :
  let shown := gap_warnings (prod_map u32 u32 <$> ((first, second) :: readings)) 0 thresholdMs in
  shown !! 0%nat = Some None /\
  shown !! S i = Some
    (if later - last <? thresholdMs then None
     else Some (if thresholdMs <=? now - last then now - last - thresholdMs
                else now - last - thresholdMs + 4294967296, now - last)).
Proof.
  cbn -[u32]. split; [done|].
  revert first second i Hprev Hcur. induction readings as [|[n l] readings IH];
    intros first second i Hprev Hcur; [done|].
  cbn -[u32]. destruct i as [|i].
  - injection Hprev as -> ->. injection Hcur as -> ->. cbn [lookup list_lookup]. f_equal.
    by apply warn_if_late_spec.
  - cbn in Hprev, Hcur |- *. by apply (IH n l).
Qed.
End lateness.
