(* ===== verification/AsyncLog.v ===== *)
(** * The asynchronous log (src/async_log.cpp)

    Every thread collects its output in a [thread_local] [LineBuffer] and
    hands it over to one shared queue a whole line at a time; one detached
    writer thread takes the queue in batches and writes it to the console.
    The model is a transition system over the queue, the buffers and the
    writer. Each critical section of [queue.mutex] is one transition, and so
    is each call that the writer makes outside the mutex, so that all
    interleavings of the threads are runs of the system. A condition variable
    is a sleeping writer together with the number of pushed lines whose
    [notify_one] is still to come; it may also wake up spuriously.

    Strings are byte lists. The fields [submitted] and [printed] are history:
    the lines that entered the queue with the thread they came from, and
    everything each thread has ever written to its stream. *)

From S2P Require Import Prelude.

(** ** The queue *)

Definition maxQueuedBytes : Z := 8 * 1024 * 1024.

Record Queue := {
  lines : list (list Z);
  bytes : Z;
  droppedBytes : Z;
  writing : bool
}.

Definition new_Queue : Queue :=
  {| lines := []; bytes := 0; droppedBytes := 0; writing := false |}.

(** [while ((q.bytes > maxQueuedBytes) && (q.lines.size() > 1))]. *)
Fixpoint drop_oldest (ls : list (list Z)) (bytes dropped : Z) : list (list Z) * Z * Z :=
  match ls with
  | front :: (_ :: _) as rest =>
      if maxQueuedBytes <? bytes
      then drop_oldest rest (u64 (bytes - zlength front)) (u64 (dropped + zlength front))
      else (ls, bytes, dropped)
  | _ => (ls, bytes, dropped)
  end.

(** The critical section of [submit]. *)
Definition submit (line : list Z) (q : Queue) : Queue :=
  let '(ls, b, d) :=
    drop_oldest (lines q ++ [line]) (u64 (bytes q + zlength line)) (droppedBytes q) in
  {| lines := ls; bytes := b; droppedBytes := d; writing := writing q |}.

(** What the writer puts on the console in one call. *)
Inductive chunk : Type :=
  | Notice (dropped : Z)
  | Line (line : list Z).

Definition chunk_text (c : chunk) : list Z :=
  match c with
  | Notice dropped =>
      bytes_of_string "[AsyncLog] dropped " ++ to_string dropped
      ++ bytes_of_string " bytes of backlogged log output" ++ [10]
  | Line line => line
  end.

Definition console_text (cs : list chunk) : list Z := concat (chunk_text <$> cs).

(** The batch the writer leaves the critical section with, and the queue. *)
Definition take_batch (q : Queue) : list chunk * Queue :=
  ((if droppedBytes q =? 0 then [] else [Notice (droppedBytes q)]) ++ (Line <$> lines q),
   {| lines := []; bytes := 0; droppedBytes := 0; writing := true |}).

(** ** The line buffer *)

(** [line.rfind ('\n')]. *)
Fixpoint rfind_newline (line : list Z) : option nat :=
  match line with
  | [] => None
  | c :: rest =>
      match rfind_newline rest with
      | Some k => Some (S k)
      | None => if c =? 10 then Some O else None
      end
  end.

(** [LineBuffer::append]: what is submitted, if anything, and what stays.
    [overflow] and [xsputn] do nothing else. *)
Definition append (text line : list Z) : option (list Z) * list Z :=
  let line := line ++ text in
  match rfind_newline line with
  | Some end_ => (Some (take (S end_) line), drop (S end_) line)
  | None => (None, line)
  end.

(** ** The system *)

Inductive writer : Type :=
  (** blocked in [hasLines.wait] *)
  | Sleeping
  (** about to test the predicate under the lock *)
  | Woken
  (** outside the lock, these writes to go *)
  | Writing (batch : list chunk).

Record System := {
  queue : Queue;
  writer_at : writer;
  unnotified : nat;
  buffers : gmap Z (list Z);
  console : list chunk;
  submitted : list (Z * list Z);
  printed : gmap Z (list Z)
}.

(** The writer thread starts at the top of its loop. *)
Definition initial_System : System := {|
  queue := new_Queue; writer_at := Woken; unnotified := 0; buffers := ∅;
  console := []; submitted := []; printed := ∅ |}.

Inductive event : Type :=
  (** thread [t] writes [text] to its stream *)
  | Print (t : Z) (text : list Z)
  (** thread [t] ends; its buffer is destroyed *)
  | Exit (t : Z)
  (** the [notify_one] of an earlier push *)
  | Notify
  | Spurious
  | Wake
  | WriteChunk
  | Finish.

Definition buffer_of (s : System) (t : Z) : list Z := default [] (buffers s !! t).
Definition printed_by (s : System) (t : Z) : list Z := default [] (printed s !! t).

(** [submit] up to the end of its critical section. *)
Definition push (t : Z) (line : list Z) (s : System) : System := {|
  queue := submit line (queue s);
  writer_at := writer_at s;
  unnotified := S (unnotified s);
  buffers := buffers s;
  console := console s;
  submitted := submitted s ++ [(t, line)];
  printed := printed s |}.

Definition set_buffer (t : Z) (text rest : list Z) (s : System) : System := {|
  queue := queue s;
  writer_at := writer_at s;
  unnotified := unnotified s;
  buffers := <[t := rest]> (buffers s);
  console := console s;
  submitted := submitted s;
  printed := <[t := printed_by s t ++ text]> (printed s) |}.

Definition set_writer (w : writer) (n : nat) (s : System) : System := {|
  queue := queue s;
  writer_at := w;
  unnotified := n;
  buffers := buffers s;
  console := console s;
  submitted := submitted s;
  printed := printed s |}.

(** The predicate of [hasLines.wait], under the lock: take a batch or go (back)
    to sleep. *)
Definition check_lines (q : Queue) (s : System) : System := {|
  queue := match lines q with [] => q | _ => (take_batch q).2 end;
  writer_at := match lines q with [] => Sleeping | _ => Writing (take_batch q).1 end;
  unnotified := unnotified s;
  buffers := buffers s;
  console := console s;
  submitted := submitted s;
  printed := printed s |}.

Definition write_out (c : chunk) (rest : list chunk) (s : System) : System := {|
  queue := queue s;
  writer_at := Writing rest;
  unnotified := unnotified s;
  buffers := buffers s;
  console := console s ++ [c];
  submitted := submitted s;
  printed := printed s |}.

(** [None]: the event cannot happen now. *)
Definition step (e : event) (s : System) : option System :=
  match e with
  | Print t text =>
      let '(out, rest) := append text (buffer_of s t) in
      let s := set_buffer t text rest s in
      Some (match out with Some line => push t line s | None => s end)
  | Exit t =>
      match buffer_of s t with
      | [] => Some s
      | line => Some (push t line (set_buffer t [] [] s))
      end
  | Notify =>
      match unnotified s with
      | O => None
      | S n => Some (set_writer (match writer_at s with
                                 | Sleeping => Woken
                                 | w => w
                                 end) n s)
      end
  | Spurious =>
      match writer_at s with
      | Sleeping => Some (set_writer Woken (unnotified s) s)
      | _ => None
      end
  | Wake =>
      match writer_at s with
      | Woken => Some (check_lines (queue s) s)
      | _ => None
      end
  | WriteChunk =>
      match writer_at s with
      | Writing (c :: rest) => Some (write_out c rest s)
      | _ => None
      end
  | Finish =>
      match writer_at s with
      | Writing [] =>
          let q := queue s in
          Some (check_lines {| lines := lines q; bytes := bytes q;
                               droppedBytes := droppedBytes q; writing := false |} s)
      | _ => None
      end
  end.

Fixpoint run (es : list event) (s : System) : option System :=
  match es with
  | [] => Some s
  | e :: es => match step e s with Some s => run es s | None => None end
  end.

Definition reachable_log (s : System) : Prop := exists es, run es initial_System = Some s.

(** The predicate of [drained.wait_until]: [flush] returns [true] at a moment
    at which it has the lock and this holds. *)
Definition drained (s : System) : bool :=
  match lines (queue s) with
  | [] => negb (writing (queue s))
  | _ => false
  end.
