(* ===== verification/AsyncLogFacts.v ===== *)
(** * The asynchronous log keeps its lines (facts about AsyncLog.v)

    Invariants of the transition system by induction over its runs: what was
    submitted is on the console, in the writer's batch or in the queue, in
    order, except for counted drops; the queue stays bounded; no wake-up is
    lost; and the background work ends. *)

From S2P Require Import Prelude AsyncLog.

(** ** Measuring lines and chunks *)

(** The bytes of some lines together. *)
Definition total (ls : list (list Z)) : Z := zlength (concat ls).

Definition lines_of (cs : list chunk) : list (list Z) :=
  omap (fun c => match c with Line l => Some l | Notice _ => None end) cs.

(** The bytes reported as dropped. *)
Definition noticed (cs : list chunk) : Z :=
  foldr (fun c n => match c with Notice d => d + n | Line _ => n end) 0 cs.

Definition positive_notices (cs : list chunk) : Prop :=
  Forall (fun c => match c with Notice d => 0 < d | Line _ => True end) cs.

Definition size_limit : Z := 18446744073709551616. (* 2^64 *)

Lemma zlength_app {A} (l k : list A) : zlength (l ++ k) = zlength l + zlength k.
Proof. unfold zlength. rewrite length_app. lia. Qed.

Lemma total_nil : total [] = 0.
Proof. done. Qed.

Lemma total_app a b : total (a ++ b) = total a + total b.
Proof. unfold total. by rewrite concat_app, zlength_app. Qed.

Lemma total_cons l a : total (l :: a) = zlength l + total a.
Proof. unfold total. cbn [concat]. by rewrite zlength_app. Qed.

Lemma total_nonneg a : 0 <= total a.
Proof. apply zlength_nonneg. Qed.

#[export] Hint Resolve total_nonneg : aog.

Lemma lines_of_app a b : lines_of (a ++ b) = lines_of a ++ lines_of b.
Proof. apply omap_app. Qed.

Lemma lines_of_lines ls : lines_of (Line <$> ls) = ls.
Proof. induction ls as [|l ls IH]; [done|]. cbn. f_equal. exact IH. Qed.

Lemma noticed_app a b : noticed (a ++ b) = noticed a + noticed b.
Proof. induction a as [|[d|l] a IH]; simpl; lia. Qed.

Lemma noticed_lines ls : noticed (Line <$> ls) = 0.
Proof. induction ls; done. Qed.

Lemma noticed_nonneg cs : positive_notices cs -> 0 <= noticed cs.
Proof. induction 1 as [|[d|l] cs Hd Hcs IH]; simpl; lia. Qed.

Lemma console_text_lines cs :
  positive_notices cs -> noticed cs = 0 -> console_text cs = concat (lines_of cs).
Proof.
  induction 1 as [|[d|l] cs Hd Hcs IH]; simpl; intros Hn; [done| |].
  - pose proof (noticed_nonneg cs Hcs). lia.
  - unfold console_text in *. cbn. by rewrite IH.
Qed.

Lemma sublist_total a b : a `sublist_of` b -> total a <= total b.
Proof.
  induction 1 as [|x a b Hs IH|x a b Hs IH]; rewrite ?total_cons; [done|lia|].
  pose proof (zlength_nonneg x). lia.
Qed.

Lemma sublist_same_total a b :
  a `sublist_of` b -> total a = total b -> concat a = concat b.
Proof.
  induction 1 as [|x a b Hs IH|x a b Hs IH]; rewrite ?total_cons; intros Ht; [done| |].
  - cbn. rewrite IH; [done|lia].
  - pose proof (sublist_total a b Hs) as Hle.
    assert (x = []) as ->.
    { apply nil_length_inv. pose proof (zlength_nonneg x). unfold zlength in *. lia. }
    cbn. apply IH. unfold zlength in Ht. cbn in Ht. lia.
Qed.

Arguments lines_of : simpl never.
Arguments noticed : simpl never.
Arguments total : simpl never.

(** ** One submission *)

Lemma u64_id x : 0 <= x < size_limit -> u64 x = x.
Proof. unfold size_limit, u64. intros. by apply Z.mod_small. Qed.

Lemma drop_oldest_cons front next rest b d :
  drop_oldest (front :: next :: rest) b d =
  if maxQueuedBytes <? b
  then drop_oldest (next :: rest) (u64 (b - zlength front)) (u64 (d + zlength front))
  else (front :: next :: rest, b, d).
Proof. done. Qed.

Lemma drop_oldest_spec ls : forall dropped,
  0 <= dropped -> dropped + total ls < size_limit ->
  let '(ls', b, d) := drop_oldest ls (total ls) dropped in
  exists pre, ls = pre ++ ls' /\ b = total ls' /\ d = dropped + total pre /\
    (b <= maxQueuedBytes \/ (length ls' <= 1)%nat) /\ (ls <> [] -> ls' <> []).
Proof.
  induction ls as [|front [|next rest] IH]; intros dropped Hd Hs.
  - cbn. exists []. rewrite total_nil, Z.add_0_r. split_and!; auto.
  - cbn [drop_oldest]. exists []. rewrite total_nil, Z.add_0_r. split_and!; auto.
  - rewrite drop_oldest_cons. destruct (Z.ltb_spec maxQueuedBytes (total (front :: next :: rest))).
    + rewrite (total_cons front) in *.
      pose proof (zlength_nonneg front). pose proof (total_nonneg (next :: rest)).
      rewrite !u64_id by lia.
      replace (zlength front + total (next :: rest) - zlength front)
        with (total (next :: rest)) by lia.
      specialize (IH (dropped + zlength front) ltac:(lia) ltac:(lia)).
      destruct (drop_oldest (next :: rest) _ _) as [[ls' b] d].
      destruct IH as (pre & Heq & Hb & Hd' & Hm & Hne).
      exists (front :: pre). rewrite total_cons, Heq.
      split_and!; [done|done|lia|done|]. intros _. by apply Hne.
    + exists []. rewrite total_nil, Z.add_0_r. split_and!; auto.
Qed.

(** ** The invariant of the queue and its writer *)

Definition batch_of (w : writer) : list chunk :=
  match w with Writing batch => batch | _ => [] end.

(** The lines that are still somewhere, oldest first, and the drops that were
    reported, are about to be, or will be. *)
Definition kept (s : System) : list (list Z) :=
  lines_of (console s) ++ lines_of (batch_of (writer_at s)) ++ lines (queue s).

Definition accounted (s : System) : Z :=
  noticed (console s) + noticed (batch_of (writer_at s)) + droppedBytes (queue s).

Record queue_ok (s : System) : Prop := {
  ok_order : kept s `sublist_of` (submitted s).*2;
  ok_count : total (submitted s).*2 = total (kept s) + accounted s;
  ok_bytes : bytes (queue s) = total (lines (queue s));
  ok_dropped : 0 <= droppedBytes (queue s);
  ok_empty : lines (queue s) = [] -> droppedBytes (queue s) = 0;
  ok_notices : positive_notices (console s ++ batch_of (writer_at s));
  ok_bound : bytes (queue s) <= maxQueuedBytes \/ (length (lines (queue s)) <= 1)%nat;
  ok_writing : writing (queue s) =
    match writer_at s with Writing _ => true | _ => false end;
  ok_wakeup : writer_at s = Sleeping -> lines (queue s) <> [] -> unnotified s <> O
}.

Lemma accounted_nonneg s : queue_ok s -> 0 <= accounted s.
Proof.
  intros []. unfold accounted. apply Forall_app in ok_notices0 as [Hc Hb].
  pose proof (noticed_nonneg _ Hc). pose proof (noticed_nonneg _ Hb). lia.
Qed.

Lemma queue_ok_initial : queue_ok initial_System.
Proof.
  split; cbn; try done; try lia. constructor.
Qed.

Lemma queue_ok_push t line s :
  queue_ok s -> total ((submitted s).*2 ++ [line]) < size_limit ->
  queue_ok (push t line s).
Proof.
  intros Hok Hs. pose proof (accounted_nonneg s Hok) as Ha. destruct Hok.
  assert (Hsub : (submitted (push t line s)).*2 = (submitted s).*2 ++ [line])
    by (cbn; by rewrite fmap_app).
  rewrite total_app in Hs.
  unfold kept, accounted in *. rewrite !total_app in *.
  apply Forall_app in ok_notices0 as Hn. destruct Hn as [Hnc Hnb].
  pose proof (noticed_nonneg _ Hnc). pose proof (noticed_nonneg _ Hnb).
  pose proof (total_nonneg (lines_of (console s))).
  pose proof (total_nonneg (lines_of (batch_of (writer_at s)))).
  pose proof (total_nonneg (lines (queue s))).
  pose proof (total_nonneg [line]) as Hl. rewrite (total_cons line []) in *.
  rewrite total_nil in *.
  pose proof (drop_oldest_spec (lines (queue s) ++ [line]) (droppedBytes (queue s)) ok_dropped0
    ltac:(rewrite total_app, total_cons, total_nil; lia)) as Hdrop.
  assert (Hq : queue (push t line s) = submit line (queue s)) by done.
  unfold submit in Hq. rewrite ok_bytes0, u64_id in Hq by lia.
  rewrite total_app, total_cons in Hdrop. rewrite total_nil in Hdrop.
  rewrite Z.add_0_r in Hdrop.
  destruct (drop_oldest _ _ _) as [[ls b] d].
  destruct Hdrop as (pre & Heq & Hb & Hd & Hbound & Hne).
  assert (Hpre : total (lines (queue s)) + zlength line = total pre + total ls).
  { rewrite <- total_app, <- Heq, total_app, total_cons, total_nil. lia. }
  split; unfold kept, accounted; rewrite ?Hq, ?Hsub; cbn [writer_at console unnotified push
    lines bytes droppedBytes writing]; rewrite ?total_app, ?total_cons, ?total_nil;
    try done.
  - etransitivity; [|apply sublist_app; [exact ok_order0|reflexivity]].
    unfold kept. rewrite <- !app_assoc, Heq.
    repeat apply sublist_app; [done..|]. by apply sublist_inserts_l.
  - lia.
  - pose proof (total_nonneg pre). lia.
  - intros ->. exfalso. apply Hne; [by destruct (lines (queue s))|done].
Qed.

Lemma queue_ok_fields s s' :
  queue s' = queue s -> writer_at s' = writer_at s -> unnotified s' = unnotified s ->
  console s' = console s -> submitted s' = submitted s -> queue_ok s -> queue_ok s'.
Proof.
  intros Hq Hw Hu Hc Hs []. split; unfold kept, accounted in *;
    rewrite ?Hq, ?Hw, ?Hu, ?Hc, ?Hs; auto.
Qed.

(** Waking the writer, or not, costs nothing. *)
Lemma queue_ok_set_writer w n s :
  queue_ok s -> batch_of w = batch_of (writer_at s) ->
  (w = Sleeping -> writer_at s = Sleeping /\ n = unnotified s) ->
  match w with Writing _ => true | _ => false end =
    match writer_at s with Writing _ => true | _ => false end ->
  queue_ok (set_writer w n s).
Proof.
  intros [] Hb Hw Hk. split; unfold kept, accounted in *; cbn; rewrite ?Hb, ?Hk; auto.
  intros -> Hne. destruct (Hw eq_refl) as [Hw1 ->]. by apply ok_wakeup0.
Qed.

Lemma take_batch_spec q :
  0 <= droppedBytes q ->
  lines_of (take_batch q).1 = lines q /\
  noticed (take_batch q).1 = droppedBytes q /\
  positive_notices (take_batch q).1.
Proof.
  intros Hd. unfold take_batch. cbn [fst].
  rewrite lines_of_app, noticed_app, lines_of_lines, noticed_lines.
  assert (positive_notices (Line <$> lines q))
    by (apply Forall_fmap, Forall_true; done).
  destruct (Z.eqb_spec (droppedBytes q) 0) as [Hz|Hz]; cbn.
  - split_and!; [done| |done]. change (0 + 0 = droppedBytes q). lia.
  - split_and!; [done| |].
    + change (droppedBytes q + 0 + 0 = droppedBytes q). lia.
    + constructor; [lia|done].
Qed.

(** The critical section of the writer, with nothing left to write. *)
Lemma queue_ok_check s :
  queue_ok s -> batch_of (writer_at s) = [] ->
  queue_ok (check_lines {| lines := lines (queue s); bytes := bytes (queue s);
    droppedBytes := droppedBytes (queue s); writing := false |} s).
Proof.
  intros [] Hw. unfold kept, accounted in *. rewrite Hw in *.
  change (lines_of []) with (@nil (list Z)) in *. change (noticed []) with 0 in *.
  rewrite app_nil_r in ok_notices0. rewrite app_nil_l in *.
  set (q := {| lines := _; bytes := _; droppedBytes := _; writing := false |}).
  destruct (take_batch_spec q ok_dropped0) as (Hl & Hn & Hp).
  unfold check_lines. change (lines q) with (lines (queue s)) in *.
  destruct (lines (queue s)) as [|l ls] eqn:El.
  - rewrite app_nil_r in ok_order0, ok_count0.
    split; unfold kept, accounted; cbn; change (lines_of []) with (@nil (list Z));
      change (noticed []) with 0; unfold q; cbn; rewrite ?app_nil_r, ?El; auto; lia.
  - change ((take_batch q).2)
      with {| lines := []; bytes := 0; droppedBytes := 0; writing := true |}.
    set (batch := (take_batch q).1) in *. clearbody batch.
    change (droppedBytes q) with (droppedBytes (queue s)) in Hn.
    split; unfold kept, accounted; cbn; rewrite ?app_nil_r, ?Hl, ?Hn; auto; try lia; try done.
    + by apply Forall_app.
Qed.

(** ** Runs *)

(** The lines one thread submitted, in order. *)
Definition lines_by (s : System) (t : Z) : list (list Z) :=
  (filter (fun p => p.1 = t) (submitted s)).*2.

Lemma rfind_newline_spec line :
  match rfind_newline line with
  | Some k => line !! k = Some 10 /\ 10 ∉ drop (S k) line
  | None => 10 ∉ line
  end.
Proof.
  induction line as [|c line IH]; cbn; [apply not_elem_of_nil|].
  destruct (rfind_newline line) as [k|]; [done|].
  destruct (Z.eqb_spec c 10) as [->|Hc]; [done|].
  apply not_elem_of_cons. split; congruence.
Qed.

Lemma append_spec text line :
  let '(out, rest) := append text line in
  line ++ text = default [] out ++ rest /\ 10 ∉ rest /\
  (forall l, out = Some l -> last l = Some 10).
Proof.
  unfold append. pose proof (rfind_newline_spec (line ++ text)) as Hf.
  destruct (rfind_newline (line ++ text)) as [k|]; [|by split_and!].
  destruct Hf as [Hk Hn]. cbn. rewrite take_drop. split_and!; [done..|].
  intros l [= <-]. rewrite last_lookup, length_take.
  assert (k < length (line ++ text))%nat by by eapply lookup_lt_Some.
  replace (Nat.pred (S k `min` length (line ++ text))) with k by lia.
  rewrite lookup_take_lt by lia. done.
Qed.

Lemma submitted_step e s s' :
  step e s = Some s' -> exists more, submitted s' = submitted s ++ more.
Proof.
  destruct e; cbn; intros Hs; repeat case_match; simplify_eq; cbn; eauto;
    exists []; by rewrite app_nil_r.
Qed.

Lemma submitted_run es : forall s s',
  run es s = Some s' -> exists more, submitted s' = submitted s ++ more.
Proof.
  induction es as [|e es IH]; cbn; intros s s' Hr.
  { exists []. rewrite app_nil_r. congruence. }
  destruct (step e s) as [s1|] eqn:He; [|done].
  apply submitted_step in He as [m1 Hm1]. apply IH in Hr as [m2 Hm2].
  exists (m1 ++ m2). by rewrite Hm2, Hm1, app_assoc.
Qed.

Lemma queue_ok_step e s s' :
  step e s = Some s' -> total (submitted s').*2 < size_limit ->
  queue_ok s -> queue_ok s'.
Proof.
  intros Hs Hlim Hok.
  destruct e as [t text|t| | | | |]; cbn in Hs.
  - destruct (append text (buffer_of s t)) as [[line|] rest]; simplify_eq.
    + cbn in Hlim. rewrite fmap_app in Hlim.
      apply queue_ok_push; [|done]. by apply (queue_ok_fields s).
    + by apply (queue_ok_fields s).
  - destruct (buffer_of s t) as [|c line]; simplify_eq; [done|].
    cbn in Hlim. rewrite fmap_app in Hlim.
    apply queue_ok_push; [|done]. by apply (queue_ok_fields s).
  - destruct (unnotified s) as [|n]; simplify_eq.
    apply queue_ok_set_writer; destruct (writer_at s); done.
  - destruct (writer_at s) eqn:Ew; simplify_eq.
    apply queue_ok_set_writer; rewrite ?Ew; done.
  - destruct (writer_at s) eqn:Ew; simplify_eq.
    pose proof (ok_writing s Hok) as Hw. rewrite Ew in Hw.
    pose proof (queue_ok_check s Hok) as Hc. rewrite Ew in Hc.
    replace (queue s) with {| lines := lines (queue s); bytes := bytes (queue s);
      droppedBytes := droppedBytes (queue s); writing := false |}; [by apply Hc|].
    rewrite <- Hw. by destruct (queue s).
  - destruct (writer_at s) as [| |[|c rest]] eqn:Ew; simplify_eq.
    destruct Hok. unfold kept, accounted in *. rewrite Ew in *.
    change (batch_of (Writing (c :: rest))) with ([c] ++ rest) in *.
    rewrite lines_of_app, noticed_app in *.
    rewrite <- !app_assoc in ok_order0, ok_count0.
    split; unfold kept, accounted; cbn; rewrite ?lines_of_app, ?noticed_app, <- ?app_assoc;
      try done; lia.
  - destruct (writer_at s) as [| |[|c rest]] eqn:Ew; simplify_eq.
    apply queue_ok_check; [done|]. by rewrite Ew.
Qed.

Lemma queue_ok_run es : forall s s',
  run es s = Some s' -> total (submitted s').*2 < size_limit ->
  queue_ok s -> queue_ok s'.
Proof.
  induction es as [|e es IH]; cbn; intros s s' Hr Hlim Hok; [by simplify_eq|].
  destruct (step e s) as [s1|] eqn:He; [|done].
  apply (IH s1 s' Hr Hlim). apply (queue_ok_step e s s1 He); [|done].
  apply submitted_run in Hr as [more Hm]. rewrite Hm, fmap_app, total_app in Hlim.
  pose proof (total_nonneg more.*2). lia.
Qed.

(** ** Threads *)

Definition thread_ok (s : System) (t : Z) : Prop :=
  printed_by s t = concat (lines_by s t) ++ buffer_of s t /\ 10 ∉ buffer_of s t.

Lemma lines_by_push s t line s0 t' :
  submitted s0 = submitted s ->
  lines_by (push t line s0) t' = lines_by s t' ++ (if decide (t = t') then [line] else []).
Proof.
  intros Hs. unfold lines_by. cbn. rewrite Hs, filter_app, fmap_app.
  by case_decide; rewrite ?filter_cons_True, ?filter_cons_False by done.
Qed.

Lemma thread_ok_step e s s' t : step e s = Some s' -> thread_ok s t -> thread_ok s' t.
Proof.
  intros Hs [Hp Hb]. unfold thread_ok.
  destruct e as [t' text|t'| | | | |]; cbn in Hs;
    try (repeat case_match; simplify_eq; done).
  - pose proof (append_spec text (buffer_of s t')) as Ha.
    destruct (append text (buffer_of s t')) as [out rest].
    destruct Ha as (Happ & Hrest & _).
    assert (Hl : lines_by s' t = lines_by s t ++
      (if decide (t' = t) then option_list out else [])).
    { destruct out; simplify_eq; [by rewrite (lines_by_push s)|].
      by case_decide; rewrite app_nil_r. }
    assert (Hbuf : buffer_of s' t = if decide (t' = t) then rest else buffer_of s t).
    { unfold buffer_of. destruct out; simplify_eq; cbn; case_decide; subst;
        by rewrite ?lookup_insert_eq, ?lookup_insert_ne. }
    assert (Hpr : printed_by s' t = printed_by s t ++ (if decide (t' = t) then text else [])).
    { unfold printed_by. destruct out; simplify_eq; cbn; case_decide; subst;
        by rewrite ?lookup_insert_eq, ?lookup_insert_ne, ?app_nil_r. }
    rewrite Hl, Hbuf, Hpr. case_decide; [subst t'|by rewrite !app_nil_r].
    split; [|done]. rewrite Hp, <- app_assoc, Happ, concat_app, <- app_assoc.
    destruct out; cbn; by rewrite ?app_nil_r.
  - destruct (buffer_of s t') as [|c line] eqn:Eb; simplify_eq; [done|].
    rewrite (lines_by_push s) by done.
    assert (Hbuf : buffer_of (push t' (c :: line) (set_buffer t' [] [] s)) t =
      if decide (t' = t) then [] else buffer_of s t).
    { unfold buffer_of; cbn; case_decide; subst;
        by rewrite ?lookup_insert_eq, ?lookup_insert_ne. }
    assert (Hpr : printed_by (push t' (c :: line) (set_buffer t' [] [] s)) t = printed_by s t).
    { unfold printed_by; cbn. destruct (decide (t' = t)) as [->|];
        by rewrite ?lookup_insert_eq, ?lookup_insert_ne, ?app_nil_r. }
    rewrite Hbuf, Hpr. case_decide; [subst t'|by rewrite app_nil_r].
    split; [|apply not_elem_of_nil].
    rewrite Hp, Eb, concat_app. cbn. by rewrite !app_nil_r.
Qed.

Lemma thread_ok_run es : forall s s' t,
  run es s = Some s' -> thread_ok s t -> thread_ok s' t.
Proof.
  induction es as [|e es IH]; cbn; intros s s' t Hr Hok; [by simplify_eq|].
  destruct (step e s) as [s1|] eqn:He; [|done].
  apply (IH s1 s' t Hr). by apply (thread_ok_step e s).
Qed.

Lemma thread_ok_initial t : thread_ok initial_System t.
Proof. split; [done|apply not_elem_of_nil]. Qed.

(** What enters the queue ends its line, unless its thread ends. *)
Lemma submitted_step_whole e s s' t l :
  step e s = Some s' -> (t, l) ∈ submitted s' ->
  (t, l) ∈ submitted s \/ last l = Some 10 \/ e = Exit t.
Proof.
  intros Hs Hin.
  destruct e as [t' text|t'| | | | |]; cbn in Hs;
    try (repeat case_match; simplify_eq; by left).
  - pose proof (append_spec text (buffer_of s t')) as Ha.
    destruct (append text (buffer_of s t')) as [[line|] rest]; simplify_eq; [|by left].
    cbn in Hin. apply elem_of_app in Hin as [Hin|Hin%list_elem_of_singleton]; [by left|].
    right; left. apply Ha. congruence.
  - destruct (buffer_of s t') as [|c line]; simplify_eq; [by left|].
    cbn in Hin. apply elem_of_app in Hin as [Hin|Hin%list_elem_of_singleton]; [by left|].
    right; right. congruence.
Qed.

Lemma submitted_run_whole es : forall s s' t l,
  run es s = Some s' -> (t, l) ∈ submitted s' ->
  (t, l) ∈ submitted s \/ last l = Some 10 \/ Exit t ∈ es.
Proof.
  induction es as [|e es IH]; cbn; intros s s' t l Hr Hin; [simplify_eq; by left|].
  destruct (step e s) as [s1|] eqn:He; [|done].
  destruct (IH s1 s' t l Hr Hin) as [H1|[Hl|Hx]]; [|by right; left|].
  - destruct (submitted_step_whole e s s1 t l He H1) as [?|[?| ->]]; [by left|auto|].
    right; right. by left.
  - right; right. by right.
Qed.

(** C24: whatever the threads print and however they are scheduled, no line is
    torn, reordered or lost without account. A thread's output is exactly its
    submissions in order plus an unfinished line, and every submission is
    made of whole lines unless its thread has ended. The lines on the
    console, in the writer's hands and in the queue, in this order, are the
    submitted ones in submission order except for dropped ones, whose bytes
    are the ones reported or about to be. The queue holds at most 8 MiB, or a
    single line. *)
Theorem log_keeps_lines (es : list event) (s : System)
    (Hr : run es initial_System = Some s) (Hs : total (submitted s).*2 < size_limit) :
  (forall t, printed_by s t = concat (lines_by s t) ++ buffer_of s t /\
             10 ∉ buffer_of s t) /\
  (forall t l, (t, l) ∈ submitted s -> last l = Some 10 \/ Exit t ∈ es) /\
  kept s `sublist_of` (submitted s).*2 /\
  total (submitted s).*2 = total (kept s) + accounted s /\ 0 <= accounted s /\
  (total (lines (queue s)) <= maxQueuedBytes \/ (length (lines (queue s)) <= 1)%nat).
Proof.
  pose proof (queue_ok_run es _ s Hr Hs queue_ok_initial) as Hok.
  pose proof (accounted_nonneg s Hok). destruct Hok.
  split_and!; try done.
  - intros t. apply (thread_ok_run es _ s t Hr), thread_ok_initial.
  - intros t l Hin.
    destruct (submitted_run_whole es _ s t l Hr Hin) as [Hn|?]; [by inversion Hn|done].
  - by rewrite <- ok_bytes0.
Qed.

(** When the predicate of [flush] holds, everything submitted so far is on the
    console, in order: all of it if the console shows no drop notice, and
    otherwise all but as many bytes as the notices report. *)
Lemma written_when_drained (s : System) (Hr : reachable_log s)
    (Hs : total (submitted s).*2 < size_limit) (Hd : drained s = true) :
  let ls := (submitted s).*2 in
  lines_of (console s) `sublist_of` ls /\
  total ls = total (lines_of (console s)) + noticed (console s) /\
  (noticed (console s) = 0 -> console_text (console s) = concat ls).
Proof.
  destruct Hr as [es Hr].
  destruct (queue_ok_run es _ s Hr Hs queue_ok_initial).
  unfold drained in Hd. destruct (lines (queue s)) eqn:El; [|done].
  assert (Hb : batch_of (writer_at s) = []) by (rewrite ok_writing0 in Hd; by destruct (writer_at s)).
  unfold kept, accounted in *. rewrite Hb, El, ok_empty0 in * by done.
  rewrite !app_nil_r in *. change (noticed []) with 0 in *.
  cbn zeta. split_and!; [done|lia|]. intros Hn.
  rewrite console_text_lines by done. apply sublist_same_total; [done|lia].
Qed.

(** ** The background work ends *)

(** An upper bound on the background transitions that are still to come. *)
Definition work (s : System) : nat :=
  3 * unnotified s + 4 * length (lines (queue s)) +
  match writer_at s with
  | Sleeping => 0
  | Woken => 1
  | Writing batch => 2 + length batch
  end.

(** What happens without any thread printing; a spurious wake-up is an extra. *)
Definition background (e : event) : bool :=
  match e with Notify | Wake | WriteChunk | Finish => true | _ => false end.

Lemma length_batch q : (length (take_batch q).1 <= 1 + length (lines q))%nat.
Proof. unfold take_batch. cbn. destruct (_ =? 0); cbn; rewrite length_fmap; lia. Qed.

Lemma work_check_lines q s :
  lines q = lines (queue s) ->
  (work (check_lines q s) <= 3 * unnotified s + 4 * length (lines (queue s)))%nat.
Proof.
  intros Hq. unfold work, check_lines. cbn [queue writer_at unnotified].
  pose proof (length_batch q) as Hl. rewrite <- Hq.
  destruct (lines q) as [|l ls] eqn:El; [rewrite El; cbn; lia|].
  change (lines (take_batch q).2) with (@nil (list Z)). cbn [length] in *. lia.
Qed.

Lemma work_decreases e s s' :
  background e = true -> step e s = Some s' -> (work s' < work s)%nat.
Proof.
  intros Hb Hs. destruct e; try done; cbn in Hs.
  - destruct (unnotified s) as [|n] eqn:Eu; simplify_eq.
    unfold work. cbn [set_writer queue writer_at unnotified]. rewrite Eu.
    destruct (writer_at s); lia.
  - destruct (writer_at s) eqn:Ew; simplify_eq.
    pose proof (work_check_lines (queue s) s eq_refl). unfold work at 2. rewrite Ew. lia.
  - destruct (writer_at s) as [| |[|c rest]] eqn:Ew; simplify_eq.
    unfold work. cbn. rewrite Ew. cbn. lia.
  - destruct (writer_at s) as [| |[|c rest]] eqn:Ew; simplify_eq.
    pose proof (work_check_lines {| lines := lines (queue s); bytes := bytes (queue s);
      droppedBytes := droppedBytes (queue s); writing := false |} s eq_refl).
    unfold work at 2. rewrite Ew. cbn [length]. lia.
Qed.

Lemma run_background_length es : forall s s',
  Forall (fun e => background e = true) es -> run es s = Some s' ->
  (length es + work s' <= work s)%nat.
Proof.
  induction es as [|e es IH]; cbn [run length]; intros s s' Hb Hr; [simplify_eq; lia|].
  apply Forall_cons in Hb as [He Hb].
  destruct (step e s) as [s1|] eqn:Hs; [|done].
  pose proof (work_decreases e s s1 He Hs). pose proof (IH s1 s' Hb Hr). lia.
Qed.

(** Until everything is written, some background step can happen: no wake-up
    is ever lost. *)
Lemma background_enabled s :
  queue_ok s -> drained s = false -> exists e, background e = true /\ is_Some (step e s).
Proof.
  intros [] Hd. unfold drained in Hd.
  destruct (writer_at s) as [| |[|c rest]] eqn:Ew.
  - assert (Hne : lines (queue s) <> [])
      by (intros El; rewrite El, ok_writing0 in Hd; done).
    exists Notify. split; [done|]. cbn.
    destruct (unnotified s); [|done]. by destruct (ok_wakeup0 eq_refl Hne).
  - exists Wake. split; [done|]. cbn. by rewrite Ew.
  - exists Finish. split; [done|]. cbn. by rewrite Ew.
  - exists WriteChunk. split; [done|]. cbn. by rewrite Ew.
Qed.

Lemma drain n : forall s,
  (work s <= n)%nat -> queue_ok s -> total (submitted s).*2 < size_limit ->
  exists es s', Forall (fun e => background e = true) es /\ run es s = Some s' /\
    drained s' = true /\ submitted s' = submitted s.
Proof.
  induction n as [|n IH]; intros s Hw Hok Hs;
    (destruct (drained s) eqn:Hd; [by exists [], s|]);
    destruct (background_enabled s Hok Hd) as (e & He & s1 & Hs1);
    pose proof (work_decreases e s s1 He Hs1); [lia|].
  assert (Hsub : submitted s1 = submitted s)
    by (destruct e; try done; cbn in Hs1; by repeat case_match; simplify_eq).
  destruct (IH s1) as (es & s' & Hb & Hr & Hdr & Hsub'); [lia| |by rewrite Hsub|].
  { apply (queue_ok_step e s); by rewrite ?Hsub. }
  exists (e :: es), s'. split_and!; [by constructor| |done|congruence].
  cbn. by rewrite Hs1.
Qed.

(** C27: no wake-up is lost and the writer cannot stall: from every reachable
    state the pending notifications and the writer alone, in any order, run
    for at most [work s] steps, can always go on until everything is written,
    and there is a way to get there; [flush] then answers [true]. *)
Theorem log_drains (s : System) (Hr : reachable_log s)
    (Hs : total (submitted s).*2 < size_limit) :
  (forall es s', Forall (fun e => background e = true) es -> run es s = Some s' ->
     (length es <= work s)%nat /\
     (drained s' = true \/ exists e, background e = true /\ is_Some (step e s'))) /\
  exists es s', Forall (fun e => background e = true) es /\ run es s = Some s' /\
    drained s' = true /\ submitted s' = submitted s.
Proof.
  destruct Hr as [es0 Hr].
  pose proof (queue_ok_run es0 _ s Hr Hs queue_ok_initial) as Hok.
  split; [|by apply (drain (work s))].
  intros es s' Hb Hrun. pose proof (run_background_length es s s' Hb Hrun). split; [lia|].
  assert (Hsub : submitted s' = submitted s).
  { clear - Hb Hrun. revert s Hrun.
    induction Hb as [|e es He Hb IH]; cbn; intros s Hrun; [by simplify_eq|].
    destruct (step e s) as [s1|] eqn:Hs1; [|done]. rewrite (IH s1 Hrun).
    destruct e; try done; cbn in Hs1; by repeat case_match; simplify_eq. }
  destruct (drained s') eqn:Hd; [by left|right].
  apply background_enabled; [|done]. by apply (queue_ok_run es s); rewrite ?Hsub.
Qed.

(** ** A run *)

(** Two threads print, one of them in two pieces, while the writer works. *)
Definition log_events : list event :=
  [Print 1 (bytes_of_string "speed " ++ to_string 7); Wake;
   Print 2 (bytes_of_string "TC up" ++ [10]);
   Print 1 ([10] ++ bytes_of_string "next"); Notify; Wake; WriteChunk;
   Print 2 (bytes_of_string "ok" ++ [10]); WriteChunk; Finish; Notify; Notify; WriteChunk;
   Finish].

Definition log_end : System := default initial_System (run log_events initial_System).

Lemma log_end_reached : run log_events initial_System = Some log_end.
Proof. vm_compute. reflexivity. Qed.

Lemma log_keeps_lines_witness :
  printed_by log_end 1 = bytes_of_string "speed 7" ++ [10] ++ bytes_of_string "next" /\
  concat (lines_by log_end 1) ++ buffer_of log_end 1 = printed_by log_end 1.
Proof.
  split; [vm_compute; reflexivity|].
  destruct (log_keeps_lines log_events log_end log_end_reached
    ltac:(vm_compute; reflexivity)) as (Ht & _).
  symmetry. apply (proj1 (Ht 1)).
Defined.

(** After the first push the writer still sleeps. *)
Definition log_middle : System := default initial_System (run (take 3 log_events) initial_System).

Lemma log_middle_reached : run (take 3 log_events) initial_System = Some log_middle.
Proof. vm_compute. reflexivity. Qed.

Lemma log_drains_witness :
  drained log_middle = false /\
  exists es s', run es log_middle = Some s' /\ drained s' = true.
Proof.
  split; [vm_compute; reflexivity|].
  destruct (log_drains log_middle (ex_intro _ _ log_middle_reached)
    ltac:(vm_compute; reflexivity)) as (_ & es & s' & _ & Hr & Hd & _).
  exists es, s'. split; [exact Hr|exact Hd].
Defined.
