(* ===== verification/Flush.v ===== *)
(** * Waiting for the log (async_log::flush of src/async_log.cpp)

    The caller of [flush] next to the threads of AsyncLog.v: it tries to get
    the mutex, a millisecond apart, and then waits on [drained] until the
    queue is empty and nothing is being written, at most until its deadline.
    [abandoned] says that a thread has died inside a critical section before,
    so that nobody gets the mutex any more; that is why the code tries. Time
    is that of the steady clock, in nanoseconds; every event comes with the
    moment at which it happens. *)

From S2P Require Import Prelude AsyncLog AsyncLogFacts.

Definition millisecond : Z := 1000000.

(** Where the caller is: in the loop around [try_lock], in [wait_until] with
    the mutex released, woken there and in need of the mutex, or back. *)
Inductive Caller : Type :=
  | Trying
  | Waiting
  | Roused
  | Answered (answer : bool).

Record FlushState := {
  system : System;
  caller : Caller;
  clock : Z;
  next_try : Z;
  attempts : Z
}.

(** [attempts], the number of calls of [try_lock], is history. *)
Definition flush_called (start : Z) (s : System) : FlushState :=
  {| system := s; caller := Trying; clock := start; next_try := start; attempts := 0 |}.

Inductive flush_event : Type :=
  (** another thread *)
  | Other (e : event)
  (** [lock.try_lock ()] with its answer; it may fail without cause *)
  | TryLock (got : bool)
  (** the wait ends, at its deadline or spuriously *)
  | EndWait
  (** the mutex is taken again, and the predicate is tested *)
  | Retake.

Section flush.
Context (abandoned : bool) (deadline : Z).

(** The events that enter a critical section. *)
Definition locks (e : event) (s : System) : bool :=
  match e with
  | Print t text => if (append text (buffer_of s t)).1 then true else false
  | Exit t => match buffer_of s t with [] => false | _ => true end
  | Wake | Finish => true
  | Notify | Spurious | WriteChunk => false
  end.

(** [drained.notify_all ()] of the writer, when it has written its batch and
    finds the queue empty. *)
Definition notify_drained (e : event) (s : System) (c : Caller) : Caller :=
  match e, lines (queue s), c with
  | Finish, [], Waiting => Roused
  | _, _, _ => c
  end.

(** The predicate under the mutex, in the loop of [wait_until]. *)
Definition test_drained (now : Z) (first : bool) (s : System) : Caller :=
  if drained s then Answered true
  else if negb first && (deadline <=? now) then Answered false
  else Waiting.

Definition set_caller (now : Z) (c : Caller) (f : FlushState) : FlushState :=
  {| system := system f; caller := c; clock := now; next_try := next_try f;
     attempts := attempts f |}.

(** A call of [try_lock]; if it fails, the next one is a millisecond away. *)
Definition tried (now : Z) (c : Caller) (f : FlushState) : FlushState :=
  {| system := system f; caller := c; clock := now; next_try := now + millisecond;
     attempts := attempts f + 1 |}.

Definition flush_step (now : Z) (e : flush_event) (f : FlushState) : option FlushState :=
  if now <? clock f then None else
  match e, caller f with
  | _, Answered _ => None
  | Other e, c =>
      if abandoned && locks e (system f) then None
      else
        s ← step e (system f);
        Some {| system := s; caller := notify_drained e (system f) c; clock := now;
                next_try := next_try f; attempts := attempts f |}
  | TryLock got, Trying =>
      if (now <? next_try f) || abandoned && got then None
      else Some (tried now
        (if got then test_drained now true (system f)
         else if deadline <=? now then Answered false else Trying) f)
  | EndWait, Waiting => Some (set_caller now Roused f)
  | Retake, Roused =>
      if abandoned then None else Some (set_caller now (test_drained now false (system f)) f)
  | _, _ => None
  end.

Fixpoint flush_run (es : list (Z * flush_event)) (f : FlushState) : option FlushState :=
  match es with
  | [] => Some f
  | (now, e) :: es => f ← flush_step now e f; flush_run es f
  end.

(** ** What holds while it waits *)

Definition writer_flag (s : System) : Prop :=
  writing (queue s) = match writer_at s with Writing _ => true | _ => false end.

Lemma writing_submit line q : writing (submit line q) = writing q.
Proof. unfold submit. by destruct (drop_oldest _ _ _) as [[]]. Qed.

Lemma writer_flag_step e s s' : step e s = Some s' -> writer_flag s -> writer_flag s'.
Proof.
  intros Hs Hw. destruct e; cbn in Hs; repeat case_match; simplify_eq;
    unfold writer_flag, check_lines in *; cbn in *; rewrite ?writing_submit;
    repeat case_match; cbn in *; congruence.
Qed.

Lemma writer_flag_reachable s : reachable_log s -> writer_flag s.
Proof.
  intros [es Hr]. assert (Hi : writer_flag initial_System) by done.
  revert Hr Hi. generalize initial_System. induction es as [|e es IH]; intros s0 Hr Hi;
    cbn in Hr; [by simplify_eq|].
  destruct (step e s0) as [s1|] eqn:He; [|done]. eapply IH; [done|by eapply writer_flag_step].
Qed.

Lemma reachable_log_step e s s' : step e s = Some s' -> reachable_log s -> reachable_log s'.
Proof.
  intros Hs [es Hr]. exists (es ++ [e]). revert Hr. generalize initial_System.
  induction es as [|e0 es IH]; intros s0 Hr; cbn in Hr |- *; [simplify_eq; by rewrite Hs|].
  destruct (step e0 s0); [|done]. by apply IH.
Qed.

Lemma lines_submit line q : lines (submit line q) <> [].
Proof.
  unfold submit.
  assert (Hd : forall ls b d, ls <> [] -> (drop_oldest ls b d).1.1 <> []).
  { induction ls as [|l [|l' ls] IH]; intros b d Hne; [done|done|]. cbn [drop_oldest].
    destruct (maxQueuedBytes <? b); [by apply IH|done]. }
  specialize (Hd (lines q ++ [line]) (u64 (bytes q + zlength line)) (droppedBytes q)).
  destruct (drop_oldest _ _ _) as [[ls b] d]. apply Hd. by destruct (lines q).
Qed.

(** Nothing but the writer's [Finish], with the queue empty, makes the predicate
    true. *)
Lemma drained_by_finish e s s' :
  writer_flag s -> step e s = Some s' -> drained s = false -> drained s' = true ->
  e = Finish /\ lines (queue s) = [].
Proof.
  intros Hw Hs Hd Hd'. destruct e; cbn in Hs; repeat case_match; simplify_eq;
    unfold writer_flag, drained, check_lines in *; cbn in *;
    try (repeat case_match; cbn in *; congruence).
  3: { split; [done|]. by destruct (lines (queue s)). }
  all: match type of Hd' with context [submit ?line ?q] =>
    pose proof (lines_submit line q); by destruct (lines (submit line q)) end.
Qed.

(** ** The invariant of a call *)

Record flush_ok (start : Z) (f : FlushState) : Prop := {
  fo_log : reachable_log (system f);
  fo_waiting : caller f = Waiting -> drained (system f) = false;
  fo_true : caller f = Answered true -> drained (system f) = true;
  fo_false : caller f = Answered false -> deadline <= clock f;
  fo_abandoned : abandoned = true -> caller f = Trying \/ caller f = Answered false;
  fo_paced : caller f = Trying -> start + attempts f * millisecond <= next_try f /\
    (attempts f = 0 \/ start + (attempts f - 1) * millisecond < deadline);
  fo_attempts : attempts f = 0 \/ attempts f = 1 \/
    start + (attempts f - 2) * millisecond < deadline
}.

Lemma flush_ok_called start s : reachable_log s -> flush_ok start (flush_called start s).
Proof. intros Hr. split; cbn; auto; try done. intros _. split; [lia|by left]. Qed.

(** What each event does, if it can happen. *)
Lemma flush_step_inv now e f f' :
  flush_step now e f = Some f' -> clock f <= now /\
  match e with
  | Other e => (forall b, caller f <> Answered b) /\ (abandoned = true -> locks e (system f) = false) /\
      exists s, step e (system f) = Some s /\ f' = {|
        system := s; caller := notify_drained e (system f) (caller f); clock := now;
        next_try := next_try f; attempts := attempts f |}
  | TryLock got => caller f = Trying /\ next_try f <= now /\ (abandoned = true -> got = false) /\
      f' = tried now
        (if got then test_drained now true (system f)
         else if deadline <=? now then Answered false else Trying) f
  | EndWait => caller f = Waiting /\ f' = set_caller now Roused f
  | Retake => caller f = Roused /\ abandoned = false /\
      f' = set_caller now (test_drained now false (system f)) f
  end.
Proof.
  unfold flush_step. destruct (Z.ltb_spec now (clock f)) as [|Hclock]; [done|]. intros Hs.
  split; [done|]. destruct (caller f) eqn:Hc, e; try done.
  all: try (destruct (abandoned && locks e (system f)) eqn:Hl; [done|];
    destruct (step e (system f)) as [s|]; [|done]; injection Hs as <-;
    split_and!; [done| |by exists s]; intros Ha; by rewrite Ha in Hl).
  - destruct (_ || _) eqn:Hg; [done|]. apply orb_false_iff in Hg as [Hg%Z.ltb_ge Hab].
    injection Hs as <-. split_and!; try done. intros Ha. rewrite Ha in Hab. by destruct got.
  - by injection Hs as <-.
  - destruct abandoned; [done|]. by injection Hs as <-.
Qed.

Lemma flush_ok_other start now e f f' :
  flush_step now (Other e) f = Some f' -> flush_ok start f -> flush_ok start f'.
Proof.
  intros (Hclock & Hc & _ & s & Hs & ->)%flush_step_inv [Hlog Hw Ht Hf Ha Hp Hn].
  assert (Hn' : notify_drained e (system f) (caller f) = caller f \/
    caller f = Waiting /\ notify_drained e (system f) (caller f) = Roused).
  { unfold notify_drained. destruct e, (lines (queue (system f))), (caller f); auto. }
  split; cbn [system caller clock attempts next_try]; [by eapply reachable_log_step|..| |].
  - intros Hw'. destruct Hn' as [Hn'|[? Hn']]; [|congruence].
    destruct (drained s) eqn:Hd; [|done].
    destruct (drained_by_finish e _ s (writer_flag_reachable _ Hlog) Hs) as [-> Hl]; [|done|].
    + apply Hw. congruence.
    + unfold notify_drained in *. rewrite Hl in Hw'. destruct (caller f); done.
  - intros E. destruct Hn' as [Hn'|[? Hn']]; [|congruence]. by destruct (Hc true); congruence.
  - intros E. destruct Hn' as [Hn'|[? Hn']]; [|congruence]. by destruct (Hc false); congruence.
  - intros Hab. destruct (Ha Hab) as [E|E]; [|by destruct (Hc false)].
    left. destruct Hn' as [Hn'|[? ?]]; congruence.
  - intros E. apply Hp. destruct Hn' as [Hn'|[? ?]]; congruence.
  - done.
Qed.

Lemma test_drained_cases now first s :
  test_drained now first s = Answered true /\ drained s = true \/
  drained s = false /\ (test_drained now first s = Waiting \/
    test_drained now first s = Answered false /\ deadline <= now).
Proof.
  unfold test_drained. destruct (drained s); [by left|right]. split; [done|].
  destruct first; [by left|]. cbn. destruct (Z.leb_spec deadline now); auto.
Qed.

Lemma flush_ok_try start now got f f' :
  flush_step now (TryLock got) f = Some f' -> flush_ok start f -> flush_ok start f'.
Proof.
  intros (Hclock & Hc & Hnow & Hab & ->)%flush_step_inv [Hlog Hw Ht Hf Ha Hp Hn].
  destruct (Hp Hc) as [Hpace Hlast].
  assert (Hn' : attempts f + 1 = 0 \/ attempts f + 1 = 1 \/
    start + (attempts f + 1 - 2) * millisecond < deadline)
    by (destruct Hlast as [->|]; [by right; left|right; right; lia]).
  destruct got.
  - destruct (test_drained_cases now true (system f)) as [[E Hd]|[Hd [E|[E Hl]]]]; rewrite E;
      split; cbn; try done; try congruence; try (intros Hab'; by discriminate (Hab Hab')).
  - destruct (Z.leb_spec deadline now) as [Hl|Hl]; split; cbn; try done; auto.
    intros _. split; [lia|right; lia].
Qed.

Lemma flush_ok_step start now e f f' :
  flush_step now e f = Some f' -> flush_ok start f -> flush_ok start f'.
Proof.
  destruct e as [e|got| |]; [apply flush_ok_other|apply flush_ok_try|..].
  - intros (Hclock & Hc & ->)%flush_step_inv [Hlog Hw Ht Hf Ha Hp Hn].
    split; cbn; try done. intros Hab. destruct (Ha Hab); congruence.
  - intros (Hclock & Hc & Hab & ->)%flush_step_inv [Hlog Hw Ht Hf Ha Hp Hn].
    destruct (test_drained_cases now false (system f)) as [[E Hd]|[Hd [E|[E Hl]]]]; rewrite E;
      split; cbn; try done; congruence.
Qed.

Lemma flush_ok_run start es : forall f f',
  flush_run es f = Some f' -> flush_ok start f -> flush_ok start f'.
Proof.
  induction es as [|[now e] es IH]; intros f f' Hr Hok; cbn in Hr; [by simplify_eq|].
  destruct (flush_step now e f) as [f1|] eqn:He; [|done].
  by eapply IH, flush_ok_step.
Qed.

(** ** After the deadline *)

Definition own (e : Z * flush_event) : bool :=
  match e.2 with Other _ => false | _ => true end.

(** The steps the caller has still to make. *)
Definition steps_left (f : FlushState) : nat :=
  match caller f with Trying => 3 | Waiting => 2 | Roused => 1 | Answered _ => 0 end.

Lemma steps_left_step now e f f' :
  deadline <= now -> flush_step now e f = Some f' ->
  (steps_left f' + (if own (now, e) then 1 else 0) <= steps_left f)%nat.
Proof.
  intros Hd [_ Hs]%flush_step_inv. unfold steps_left. destruct e as [e|got| |]; cbn [own snd].
  - destruct Hs as (_ & _ & s & _ & ->). cbn [caller]. unfold notify_drained.
    destruct e, (lines (queue (system f))), (caller f); lia.
  - destruct Hs as (-> & _ & _ & ->). cbn [tried caller]. destruct got.
    + destruct (test_drained_cases now true (system f)) as [[-> _]|[_ [-> |[-> _]]]]; lia.
    + rewrite (proj2 (Z.leb_le _ _)) by done. lia.
  - destruct Hs as (-> & ->). cbn. lia.
  - destruct Hs as (-> & _ & ->). cbn [set_caller caller]. unfold test_drained.
    rewrite (proj2 (Z.leb_le _ _)) by done. destruct (drained _); cbn; lia.
Qed.

Lemma steps_left_run es : forall f f',
  Forall (fun e => deadline <= e.1) es -> flush_run es f = Some f' ->
  (steps_left f' + length (filter (fun e => own e = true) es) <= steps_left f)%nat.
Proof.
  induction es as [|[now e] es IH]; intros f f' Hd Hr; cbn in Hr; [simplify_eq; cbn; lia|].
  apply Forall_cons in Hd as [Hnow Hd].
  destruct (flush_step now e f) as [f1|] eqn:He; [|done].
  pose proof (steps_left_step now e f f1 Hnow He). pose proof (IH f1 f' Hd Hr).
  rewrite filter_cons. destruct (own (now, e)) eqn:Ho; [rewrite decide_True by done|
    rewrite decide_False by done]; cbn [length]; lia.
Qed.

(** The caller is never stuck, a dead owner of the mutex included. *)
Lemma own_step_possible start now f :
  flush_ok start f -> (forall b, caller f <> Answered b) ->
  clock f <= now -> next_try f <= now ->
  exists e f', own (now, e) = true /\ flush_step now e f = Some f'.
Proof.
  intros Hok Hc Hnow Htry. unfold flush_step. rewrite (proj2 (Z.ltb_ge _ _)) by done.
  destruct (caller f) eqn:E; [| | |by destruct (Hc answer)].
  - exists (TryLock false). rewrite (proj2 (Z.ltb_ge _ _)), andb_false_r by done. by eexists.
  - exists EndWait. by eexists.
  - exists Retake. destruct abandoned eqn:Ha; [|by eexists].
    destruct (fo_abandoned _ _ Hok Ha); congruence.
Qed.
End flush.

(** C25: what [flush] answers, and that it does. It is called at [start] with a
    deadline while other threads print and the writer writes, in any order.
    The answer [true] means that everything submitted so far is on the
    console, in order: all of it if the console shows no drop notice, and
    otherwise all but as many bytes as the notices report. The answer [false]
    is not given before the deadline. While it waits, the log is not drained:
    the writer's notification is not missed. It calls [try_lock] once per
    millisecond, so at most as often as the time has milliseconds, and twice
    more. Once the deadline has passed it makes at most three more steps, and
    one is always possible, even when the mutex is never released again. *)
Theorem flush_answers (abandoned : bool) (start deadline : Z) (s : System)
    (es : list (Z * flush_event)) (f : FlushState) (Hs : reachable_log s)
    (Hrun : flush_run abandoned deadline es (flush_called start s) = Some f)
    (Hsize : total (submitted (system f)).*2 < size_limit) :
  (caller f = Answered true ->
     let ls := (submitted (system f)).*2 in
     lines_of (console (system f)) `sublist_of` ls /\
     total ls = total (lines_of (console (system f))) + noticed (console (system f)) /\
     (noticed (console (system f)) = 0 -> console_text (console (system f)) = concat ls)) /\
  (caller f = Answered false -> deadline <= clock f) /\
  (caller f = Waiting -> drained (system f) = false) /\
  (attempts f <= 1 \/ (attempts f - 2) * millisecond < deadline - start) /\
  (forall later f', Forall (fun e => deadline <= e.1) later ->
     flush_run abandoned deadline later f = Some f' ->
     (length (filter (fun e => own e = true) later) <= 3)%nat /\
     ((exists b, caller f' = Answered b) \/
      forall now, clock f' <= now -> next_try f' <= now ->
        exists e, own (now, e) = true /\ is_Some (flush_step abandoned deadline now e f'))).
Proof.
  pose proof (flush_ok_run abandoned deadline start es _ _ Hrun
    (flush_ok_called abandoned deadline start s Hs)) as Hok.
  split_and!.
  - intros Ha. apply written_when_drained; [apply Hok|done|by apply Hok].
  - apply Hok.
  - apply Hok.
  - destruct (fo_attempts _ _ _ _ Hok) as [->|[->|]]; [lia..|right; lia].
  - intros later f' Hl Hr. split.
    + pose proof (steps_left_run abandoned deadline later f f' Hl Hr).
      assert (steps_left f <= 3)%nat by (unfold steps_left; destruct (caller f); lia). lia.
    + pose proof (flush_ok_run abandoned deadline start later _ _ Hr Hok) as Hok'.
      destruct (caller f') eqn:E; [..|left; by eexists]; right; intros now Hn1 Hn2;
        (destruct (own_step_possible abandoned deadline start now f' Hok') as (e & f2 & Ho & He);
          [congruence|done..|]; exists e; by rewrite He).
Qed.

(** ** A call *)

(** The writer is busy when [flush] is called; another thread holds the mutex
    at the first try. At the second one a batch is still being written, so the
    caller waits; it is woken when the writer is done. *)
Definition busy_log : System := default initial_System (run (take 6 log_events) initial_System).

Lemma busy_log_reached : reachable_log busy_log.
Proof. exists (take 6 log_events). vm_compute. reflexivity. Qed.

Definition flush_events : list (Z * flush_event) :=
  [(0, TryLock false); (400, Other WriteChunk); (1000000, TryLock true);
   (1200000, Other WriteChunk); (1300000, Other Finish); (1310000, Retake)].

Definition after_flush : FlushState :=
  default (flush_called 0 busy_log)
    (flush_run false 2000000000 flush_events (flush_called 0 busy_log)).

Lemma after_flush_reached :
  flush_run false 2000000000 flush_events (flush_called 0 busy_log) = Some after_flush.
Proof. vm_compute. reflexivity. Qed.

(** The call ends after 1.31 ms with the whole log on the console. *)
Lemma flush_answers_witness :
  caller after_flush = Answered true /\ clock after_flush = 1310000 /\
  console_text (console (system after_flush)) = concat (submitted (system after_flush)).*2.
Proof.
  split; [vm_compute; reflexivity|]. split; [vm_compute; reflexivity|].
  destruct (flush_answers false 0 2000000000 busy_log flush_events after_flush busy_log_reached
    after_flush_reached ltac:(vm_compute; reflexivity)) as (Hw & _).
  apply (Hw ltac:(vm_compute; reflexivity)). vm_compute. reflexivity.
Defined.

(** With the mutex in the hands of a dead thread: three tries, then [false]. *)
Example flush_gives_up :
  caller <$> flush_run true 2000000
    [(0, TryLock false); (1000000, TryLock false); (2000000, TryLock false)]
    (flush_called 0 busy_log) = Some (Answered false).
Proof. vm_compute. reflexivity. Qed.
