(* ===== verification/LogFile.v ===== *)
(** * The log on the disk (src/logging.cpp below src/async_log.cpp)

    The writer thread of AsyncLog.v writes to [std::cout]; with [--log2file]
    that is the [TeeStreambuf] of Diagnostics.v, which hands every character to
    the console and then to the log file. The file stream has a buffer of its
    own, is never closed, and reaches the disk for certain only by a flush: the
    writer makes one after each batch, before it says that it is done.

    Some code prints to [std::cout] itself, past the queue, and [TeeStreambuf]
    has no lock. So the calls of several threads are taken apart here: each
    character is put on the console, then the thread enters [fileStream.put]
    and leaves it, and other threads do as much in between as they like. The
    standard streams take characters from several threads; a [std::ofstream]
    does not, so that two threads inside it at once are a race, after which the
    program may do anything. The model records that one has happened and
    promises nothing about what follows.

    These sinks stand next to the transition system of the log: what its writer
    does to them is driven by its events. *)

From S2P Require Import Prelude Settings Diagnostics Args AsyncLog AsyncLogFacts Flush.

(** Who calls: the writer of the log, or thread [t] past the queue. *)
Inductive printer : Type :=
  | TheWriter
  | Thread (t : Z).

#[export] Instance printer_eq_dec : EqDecision printer.
Proof. solve_decision. Defined.

#[export] Instance printer_countable : Countable printer.
Proof.
  apply (inj_countable' (fun p => match p with TheWriter => None | Thread t => Some t end)
    (fun o => match o with None => TheWriter | Some t => Thread t end)). by intros [].
Defined.

(** Where a thread is in [TeeStreambuf]: in no call; about to hand over the
    first of some characters; with that character on the console; inside
    [fileStream.put]; in [sync], before and inside [fileStream.flush]. *)
Inductive activity : Type :=
  | Idle
  | Between (rest : list Z)
  | Shown (c : Z) (rest : list Z)
  | Filing (rest : list Z)
  | Syncing
  | Flushing.

(** The stream buffer, its callers, and the one inside the file stream.
    [flushed] says that the writer has flushed since its last write. The rest
    is history: the characters on the console and in the file stream with their
    callers, how many of the latter are on the disk for certain, and the texts
    that each caller was to write. *)
Record Sinks := {
  tee : TeeStreambuf;
  activities : gmap printer activity;
  inside : option printer;
  raced : bool;
  flushed : bool;
  shown : list (printer * Z);
  filed : list (printer * Z);
  synced : nat;
  given : gmap printer (list Z)
}.

Definition new_Sinks (tee : TeeStreambuf) : Sinks := {|
  tee := tee; activities := ∅; inside := None; raced := false; flushed := false;
  shown := []; filed := []; synced := 0; given := ∅ |}.

Definition activity_of (k : Sinks) (p : printer) : activity := default Idle (activities k !! p).
Definition given_by (k : Sinks) (p : printer) : list Z := default [] (given k !! p).

Definition set_activity (p : printer) (a : activity) (k : Sinks) : Sinks := {|
  tee := tee k; activities := <[p := a]> (activities k); inside := inside k; raced := raced k;
  flushed := flushed k; shown := shown k; filed := filed k; synced := synced k; given := given k |}.

Definition with_flushed (x : bool) (k : Sinks) : Sinks := {|
  tee := tee k; activities := activities k; inside := inside k; raced := raced k;
  flushed := x; shown := shown k; filed := filed k; synced := synced k; given := given k |}.

(** [consoleBuffer->sputc (c)] *)
Definition sputc (p : printer) (c : Z) (k : Sinks) : Sinks := {|
  tee := {| consoleBuffer := consoleBuffer (tee k) ++ [c]; fileStream := fileStream (tee k);
            file_good := file_good (tee k) |};
  activities := activities k; inside := inside k; raced := raced k; flushed := flushed k;
  shown := shown k ++ [(p, c)]; filed := filed k; synced := synced k; given := given k |}.

(** Into a member of the file stream and out again. *)
Definition enter (p : printer) (k : Sinks) : Sinks := {|
  tee := tee k; activities := activities k; inside := Some p;
  raced := raced k || bool_decide (is_Some (inside k)); flushed := flushed k;
  shown := shown k; filed := filed k; synced := synced k; given := given k |}.

Definition leave (k : Sinks) : Sinks := {|
  tee := tee k; activities := activities k; inside := None; raced := raced k;
  flushed := flushed k; shown := shown k; filed := filed k; synced := synced k; given := given k |}.

(** [fileStream.put (c)]; nothing is kept of it when the file is not open. *)
Definition file_put (p : printer) (c : Z) (k : Sinks) : Sinks := {|
  tee := {| consoleBuffer := consoleBuffer (tee k);
            fileStream := fileStream (tee k) ++ (if file_good (tee k) then [c] else []);
            file_good := file_good (tee k) |};
  activities := activities k; inside := inside k; raced := raced k; flushed := flushed k;
  shown := shown k; filed := filed k ++ [(p, c)]; synced := synced k; given := given k |}.

(** [fileStream.flush ()] *)
Definition file_flush (p : printer) (k : Sinks) : Sinks := {|
  tee := tee k; activities := activities k; inside := inside k; raced := raced k;
  flushed := match p with TheWriter => true | Thread _ => flushed k end;
  shown := shown k; filed := filed k; synced := length (filed k); given := given k |}.

(** [std::cout << text] *)
Definition begin_print (p : printer) (text : list Z) (k : Sinks) : Sinks := {|
  tee := tee k; activities := <[p := Between text]> (activities k); inside := inside k;
  raced := raced k; flushed := flushed k; shown := shown k; filed := filed k; synced := synced k;
  given := <[p := given_by k p ++ text]> (given k) |}.

(** The next step of a thread in a call: through [overflow] character by
    character, or through [sync]. The writer's write ends with the event of the
    log. *)
Definition proceed (p : printer) (k : Sinks) : option Sinks :=
  match activity_of k p with
  | Idle => None
  | Between [] =>
      match p with TheWriter => None | Thread _ => Some (set_activity p Idle k) end
  | Between (c :: rest) =>
      Some (if c =? EOF then set_activity p (Between rest) k
            else set_activity p (Shown c rest) (sputc p c k))
  | Shown c rest => Some (set_activity p (Filing rest) (file_put p c (enter p k)))
  | Filing rest => Some (set_activity p (Between rest) (leave k))
  | Syncing => Some (set_activity p Flushing (enter p k))
  | Flushing => Some (set_activity p Idle (leave (file_flush p k)))
  end.

(** What the events of the log do to the sinks. [WriteChunk] is the return from
    writing a chunk, and [Finish] the lock that the writer takes after
    [std::cout << std::flush]. *)
Definition follow (e : event) (k : Sinks) : option Sinks :=
  match e with
  | WriteChunk =>
      match activity_of k TheWriter with
      | Between [] => Some (set_activity TheWriter Idle k)
      | _ => None
      end
  | Wake => Some (with_flushed false k)
  | Finish => if flushed k then Some (with_flushed false k) else None
  | _ => Some k
  end.

(** Calls and steps that concern the sinks only. *)
Inductive sink_event : Type :=
  (** the writer comes to the next chunk, or flushes after the last *)
  | BeginChunk
  | BeginFlush
  (** a thread prints past the queue, or flushes *)
  | PrintDirectly (t : Z) (text : list Z)
  | FlushDirectly (t : Z)
  | Advance (p : printer).

Definition sink_step (e : sink_event) (s : System) (k : Sinks) : option Sinks :=
  match e with
  | BeginChunk =>
      match writer_at s, activity_of k TheWriter with
      | Writing (c :: _), Idle => Some (with_flushed false (begin_print TheWriter (chunk_text c) k))
      | _, _ => None
      end
  | BeginFlush =>
      match writer_at s, activity_of k TheWriter with
      | Writing [], Idle => Some (with_flushed false (set_activity TheWriter Syncing k))
      | _, _ => None
      end
  | PrintDirectly t text =>
      match activity_of k (Thread t) with
      | Idle => Some (begin_print (Thread t) text k)
      | _ => None
      end
  | FlushDirectly t =>
      match activity_of k (Thread t) with
      | Idle => Some (set_activity (Thread t) Syncing k)
      | _ => None
      end
  | Advance p => proceed p k
  end.

(** The log with its sinks. *)
Fixpoint log_run (es : list (event + sink_event)) (s : System) (k : Sinks)
    : option (System * Sinks) :=
  match es with
  | [] => Some (s, k)
  | inl e :: es => s' ← step e s; k' ← follow e k; log_run es s' k'
  | inr e :: es => k' ← sink_step e s k; log_run es s k'
  end.

(** The same while some thread is in [flush]. *)
Fixpoint flush_log_run (abandoned : bool) (deadline : Z)
    (es : list (Z * (flush_event + sink_event))) (f : FlushState) (k : Sinks)
    : option (FlushState * Sinks) :=
  match es with
  | [] => Some (f, k)
  | (now, inl e) :: es =>
      f' ← flush_step abandoned deadline now e f;
      k' ← match e with Other e => follow e k | _ => Some k end;
      flush_log_run abandoned deadline es f' k'
  | (_, inr e) :: es =>
      k' ← sink_step e (system f) k;
      flush_log_run abandoned deadline es f k'
  end.

(** What a reader can find in the log file when the process dies now: all that
    was there at the start, all that was flushed, and some of what was not. *)
Definition readable (start : TeeStreambuf) (k : Sinks) (contents : list Z) : Prop :=
  exists n, (synced k <= n <= length (filed k))%nat /\
    contents = fileStream start ++ (take n (filed k)).*2.

(** ** Who wrote what *)

(** The characters of one caller. *)
Definition of_printer (p : printer) (l : list (printer * Z)) : list Z :=
  (filter (fun x => x.1 = p) l).*2.

Lemma of_printer_app p l l' : of_printer p (l ++ l') = of_printer p l ++ of_printer p l'.
Proof. unfold of_printer. by rewrite filter_app, fmap_app. Qed.

Lemma of_printer_eq p c : of_printer p [(p, c)] = [c].
Proof. unfold of_printer. by rewrite filter_cons_True by done. Qed.

Lemma of_printer_ne p q c : q <> p -> of_printer p [(q, c)] = [].
Proof. intros Hne. unfold of_printer. by rewrite filter_cons_False by done. Qed.

Lemma of_printer_only p l : (forall q, q <> p -> of_printer q l = []) -> of_printer p l = l.*2.
Proof.
  induction l as [|[q c] l IH] using rev_ind; intros Ho; [done|].
  assert (q = p) as ->.
  { destruct (decide (q = p)) as [|Hne]; [done|]. specialize (Ho q Hne).
    rewrite of_printer_app, of_printer_eq in Ho. by destruct (of_printer q l). }
  rewrite of_printer_app, of_printer_eq, fmap_app. cbn. f_equal. apply IH.
  intros q Hne. specialize (Ho q Hne). rewrite of_printer_app, of_printer_ne, app_nil_r in Ho by done.
  done.
Qed.

(** The characters that reach the console: all but [EOF], which is none. *)
Definition characters (text : list Z) : list Z := filter (fun c => c <> EOF) text.

Arguments characters : simpl never.
Arguments of_printer : simpl never.

Lemma characters_app a b : characters (a ++ b) = characters a ++ characters b.
Proof. apply filter_app. Qed.

Lemma characters_octets text : Forall is_u8 text -> characters text = text.
Proof.
  intros Ho. apply filter_all. eapply Forall_impl; [exact Ho|].
  unfold is_u8, EOF. cbv beta. lia.
Qed.

(** What a call has still to put on the console and into the file. *)
Definition to_show (a : activity) : list Z :=
  match a with
  | Between rest | Shown _ rest | Filing rest => characters rest
  | Idle | Syncing | Flushing => []
  end.

Definition to_file (a : activity) : list Z :=
  match a with
  | Shown c rest => c :: characters rest
  | Between rest | Filing rest => characters rest
  | Idle | Syncing | Flushing => []
  end.

Lemma activity_of_insert p a (m : gmap printer activity) q :
  default Idle (<[p := a]> m !! q) = if decide (q = p) then a else default Idle (m !! q).
Proof. case_decide as E; [subst; by rewrite lookup_insert_eq|by rewrite lookup_insert_ne]. Qed.

(** ** The sinks follow the log *)

Section start.
Context (start : TeeStreambuf).

(** Each character is on its way from the caller to the console and from there
    to the file. *)
Record conveyed (k : Sinks) : Prop := {
  cv_console : consoleBuffer (tee k) = consoleBuffer start ++ (shown k).*2;
  cv_file : fileStream (tee k) =
    fileStream start ++ (if file_good start then (filed k).*2 else []);
  cv_good : file_good (tee k) = file_good start;
  cv_shown : forall p, of_printer p (shown k) ++ to_show (activity_of k p) = characters (given_by k p);
  cv_filed : forall p, of_printer p (filed k) ++ to_file (activity_of k p) = characters (given_by k p);
  cv_synced : (synced k <= length (filed k))%nat
}.

(** The writer is where the log says. *)
Definition written (s : System) (k : Sinks) : Prop :=
  match activity_of k TheWriter with
  | Idle => given_by k TheWriter = console_text (console s)
  | Syncing | Flushing =>
      given_by k TheWriter = console_text (console s) /\ writer_at s = Writing []
  | Between _ | Shown _ _ | Filing _ => exists c rest, writer_at s = Writing (c :: rest) /\
      given_by k TheWriter = console_text (console s) ++ chunk_text c
  end.

(** Nothing of the log waits in the buffer of the file stream. *)
Definition settled (k : Sinks) : Prop :=
  activity_of k TheWriter = Idle /\ of_printer TheWriter (drop (synced k) (filed k)) = [].

Record sinks_ok (s : System) (k : Sinks) : Prop := {
  so_conveyed : conveyed k;
  so_written : written s k;
  so_flushed : flushed k = true -> writer_at s = Writing [] /\ settled k;
  so_idle : (forall batch, writer_at s <> Writing batch) -> settled k
}.

Lemma of_printer_own p ds : of_printer p (pair p <$> ds) = ds.
Proof.
  induction ds as [|c ds IH]; [done|]. change (pair p <$> c :: ds) with ([(p, c)] ++ (pair p <$> ds)).
  by rewrite of_printer_app, of_printer_eq, IH.
Qed.

Lemma of_printer_other p q ds : q <> p -> of_printer q (pair p <$> ds) = [].
Proof.
  intros Hne. induction ds as [|c ds IH]; [done|].
  change (pair p <$> c :: ds) with ([(p, c)] ++ (pair p <$> ds)).
  rewrite of_printer_app, of_printer_ne, IH; [done|]. congruence.
Qed.

(** A step of [p] that puts [ds] on the console and [df] into the file. *)
Lemma conveyed_step p a ds df k k' :
  conveyed k ->
  consoleBuffer (tee k') = consoleBuffer (tee k) ++ ds ->
  fileStream (tee k') = fileStream (tee k) ++ (if file_good (tee k) then df else []) ->
  file_good (tee k') = file_good (tee k) ->
  shown k' = shown k ++ (pair p <$> ds) -> filed k' = filed k ++ (pair p <$> df) ->
  activities k' = <[p := a]> (activities k) -> given k' = given k ->
  ds ++ to_show a = to_show (activity_of k p) -> df ++ to_file a = to_file (activity_of k p) ->
  (synced k' = synced k \/ synced k' = length (filed k)) ->
  conveyed k'.
Proof.
  intros [Hcons Hfile Hgood Hshown Hfiled Hsync] Hc Hf Hg Hs Hfi Ha Hgi Hds Hdf Hsy.
  assert (Hsnd : forall l : list Z, (pair p <$> l).*2 = l)
    by (intros l; induction l as [|x l IH]; [done|]; cbn; by f_equal).
  split.
  - by rewrite Hc, Hcons, Hs, fmap_app, Hsnd, app_assoc.
  - rewrite Hf, Hfile, Hgood, Hfi, fmap_app, Hsnd. destruct (file_good start);
      by rewrite ?app_nil_r, ?app_assoc.
  - by rewrite Hg, Hgood.
  - intros q. unfold activity_of, given_by. rewrite Ha, Hgi, activity_of_insert, Hs, of_printer_app.
    specialize (Hshown q). unfold given_by in Hshown. rewrite <- Hshown. case_decide as E.
    + subst q. by rewrite of_printer_own, <- app_assoc, Hds.
    + by rewrite of_printer_other, app_nil_r.
  - intros q. unfold activity_of, given_by. rewrite Ha, Hgi, activity_of_insert, Hfi, of_printer_app.
    specialize (Hfiled q). unfold given_by in Hfiled. rewrite <- Hfiled. case_decide as E.
    + subst q. by rewrite of_printer_own, <- app_assoc, Hdf.
    + by rewrite of_printer_other, app_nil_r.
  - rewrite Hfi, length_app. destruct Hsy as [->| ->]; lia.
Qed.

Lemma proceed_conveyed p k k' : proceed p k = Some k' -> conveyed k -> conveyed k'.
Proof.
  unfold proceed. intros Hk Hok. destruct (activity_of k p) as [|[|c rest]|c rest|rest| |] eqn:Ea.
  - done.
  - destruct p; simplify_eq.
    apply (conveyed_step (Thread t) Idle [] [] k); rewrite ?Ea; cbn; rewrite ?app_nil_r; auto.
    by destruct (file_good _); rewrite app_nil_r.
  - destruct (Z.eqb_spec c EOF) as [Hc|Hc]; simplify_eq.
    + apply (conveyed_step p (Between rest) [] [] k); rewrite ?Ea; cbn; rewrite ?app_nil_r; auto;
        [by destruct (file_good _); rewrite app_nil_r|..];
        unfold characters; by rewrite filter_cons_False by naive_solver.
    + apply (conveyed_step p (Shown c rest) [c] [] k); rewrite ?Ea; cbn; rewrite ?app_nil_r; auto;
        [by destruct (file_good _); rewrite app_nil_r|..];
        unfold characters; by rewrite filter_cons_True by done.
  - simplify_eq. apply (conveyed_step p (Filing rest) [] [c] k); rewrite ?Ea; cbn; rewrite ?app_nil_r; auto.
  - simplify_eq. apply (conveyed_step p (Between rest) [] [] k); rewrite ?Ea; cbn; rewrite ?app_nil_r; auto.
    by destruct (file_good _); rewrite app_nil_r.
  - simplify_eq. apply (conveyed_step p Flushing [] [] k); rewrite ?Ea; cbn; rewrite ?app_nil_r; auto.
    by destruct (file_good _); rewrite app_nil_r.
  - simplify_eq. apply (conveyed_step p Idle [] [] k); rewrite ?Ea; cbn; rewrite ?app_nil_r; auto.
    by destruct (file_good _); rewrite app_nil_r.
Qed.

Lemma begin_print_conveyed p text k :
  activity_of k p = Idle -> conveyed k -> conveyed (begin_print p text k).
Proof.
  intros Ha [Hcons Hfile Hgood Hshown Hfiled Hsync]. split; try done; intros q;
    [specialize (Hshown q)|specialize (Hfiled q)]; unfold activity_of, given_by in *; cbn;
    unfold given_by; rewrite activity_of_insert; (case_decide as E; [subst q; rewrite Ha in *|by rewrite lookup_insert_ne]);
    rewrite lookup_insert_eq; cbn in *; rewrite app_nil_r in *; rewrite characters_app; congruence.
Qed.

Lemma idle_conveyed p a k :
  to_show a = to_show (activity_of k p) -> to_file a = to_file (activity_of k p) ->
  conveyed k -> conveyed (set_activity p a k).
Proof.
  intros Hs Hf Hok. apply (conveyed_step p a [] [] k); cbn; rewrite ?app_nil_r; auto.
  by destruct (file_good _); rewrite app_nil_r.
Qed.

Lemma flushed_conveyed x k : conveyed k -> conveyed (with_flushed x k).
Proof. intros []. by split. Qed.

(** What others do does not unsettle the writer. *)
Lemma proceed_settled p k k' : proceed p k = Some k' -> conveyed k -> settled k -> settled k'.
Proof.
  unfold proceed, settled. intros Hk [_ _ _ _ _ Hsync] [Hi Hu]. destruct p as [|t]; [by rewrite Hi in Hk|].
  assert (Hidle : forall a k', activities k' = <[Thread t := a]> (activities k) ->
    activity_of k' TheWriter = Idle)
    by (intros a k1 E; unfold activity_of; by rewrite E, activity_of_insert).
  destruct (activity_of k (Thread t)) as [|[|c rest]|c rest|rest| |]; [done|..];
    [|destruct (c =? EOF)|..]; simplify_eq; (split; [by eapply Hidle; reflexivity|]); cbn; try done.
  - rewrite drop_app_le, of_printer_app, Hu by done. by rewrite of_printer_ne.
  - by rewrite drop_all.
Qed.

Lemma proceed_flushed p k k' :
  proceed p k = Some k' -> flushed k' = true ->
  flushed k = true \/ (p = TheWriter /\ activity_of k TheWriter = Flushing /\ settled k').
Proof.
  unfold proceed. intros Hk Hf. destruct (activity_of k p) as [|[|c rest]|c rest|rest| |] eqn:Ea;
    [done|..]; [destruct p|destruct (c =? EOF)|..]; simplify_eq; try by left.
  destruct p; [|by left]. right. split; [done|]. split; [done|]. split; cbn.
  - unfold activity_of. cbn. by rewrite activity_of_insert.
  - by rewrite drop_all.
Qed.

Lemma proceed_written p s k k' : proceed p k = Some k' -> written s k -> written s k'.
Proof.
  unfold proceed. intros Hk Hw. destruct p as [|t].
  - unfold written in Hw. destruct (activity_of k TheWriter) as [|[|c rest]|c rest|rest| |];
      [done|..]; [|destruct (c =? EOF)|..]; simplify_eq;
      unfold written, activity_of; cbn; rewrite activity_of_insert, decide_True by done; try done.
    by destruct Hw.
  - assert (Hsame : activity_of k' TheWriter = activity_of k TheWriter /\ given k' = given k).
    { destruct (activity_of k (Thread t)) as [|[|c rest]|c rest|rest| |]; [done|..];
        [|destruct (c =? EOF)|..]; simplify_eq; unfold activity_of; cbn;
        by rewrite activity_of_insert. }
    destruct Hsame as [Ha Hg]. unfold written, given_by in *. by rewrite Ha, Hg.
Qed.

Lemma sinks_ok_advance p s k k' : proceed p k = Some k' -> sinks_ok s k -> sinks_ok s k'.
Proof.
  intros Hk [Hc Hw Hf Hi]. split.
  - by eapply proceed_conveyed.
  - by eapply proceed_written.
  - intros Hf'. destruct (proceed_flushed _ _ _ Hk Hf') as [[? ?]%Hf|(-> & Ha & Hs)].
    + split; [done|]. by eapply proceed_settled.
    + split; [|done]. unfold written in Hw. rewrite Ha in Hw. apply Hw.
  - intros Hn. eapply proceed_settled; [done..|by apply Hi].
Qed.

(** Steps of other threads that begin a call. *)
Lemma sinks_ok_thread t a text s k :
  activity_of k (Thread t) = Idle -> a = Syncing \/ a = Between text -> sinks_ok s k ->
  sinks_ok s (match a with Syncing => set_activity (Thread t) a k | _ => begin_print (Thread t) text k end).
Proof.
  intros Ht Ha [Hc Hw Hf Hi].
  assert (Hact : forall b m, default Idle (<[Thread t := b]> m !! TheWriter) =
    default Idle (m !! TheWriter)) by (intros b m; by rewrite activity_of_insert).
  assert (Hgiven : forall (x : list Z) m, default [] (<[Thread t := x]> m !! TheWriter) =
    default [] (m !! TheWriter)) by (intros x m; by rewrite lookup_insert_ne).
  destruct Ha as [-> | ->]; split.
  - apply idle_conveyed; [by rewrite Ht..|done].
  - unfold written, activity_of, given_by in *. cbn. by rewrite Hact.
  - intros [? ?]%Hf. split; [done|]. unfold settled, activity_of in *. cbn. by rewrite Hact.
  - intros Hn%Hi. unfold settled, activity_of in *. cbn. by rewrite Hact.
  - by apply begin_print_conveyed.
  - unfold written, activity_of, given_by in *. cbn. by rewrite Hact, Hgiven.
  - intros [? ?]%Hf. split; [done|]. unfold settled, activity_of in *. cbn. by rewrite Hact.
  - intros Hn%Hi. unfold settled, activity_of in *. cbn. by rewrite Hact.
Qed.

Lemma sink_step_ok e s k k' : sink_step e s k = Some k' -> sinks_ok s k -> sinks_ok s k'.
Proof.
  intros He Hok. destruct e as [| |t text|t|p]; cbn [sink_step] in He.
  - destruct (writer_at s) as [| |[|c rest]] eqn:Ew; try done.
    destruct (activity_of k TheWriter) eqn:Ea; simplify_eq. destruct Hok as [Hc Hw _ _].
    unfold written in Hw. rewrite Ea in Hw. split.
    + by apply flushed_conveyed, begin_print_conveyed.
    + unfold written, activity_of. cbn. rewrite activity_of_insert, decide_True by done.
      exists c, rest. split; [done|]. unfold given_by at 1. cbn. by rewrite lookup_insert_eq, Hw.
    + done.
    + intros Hn. by destruct (Hn (c :: rest)).
  - destruct (writer_at s) as [| |[|c rest]] eqn:Ew; try done.
    destruct (activity_of k TheWriter) eqn:Ea; simplify_eq. destruct Hok as [Hc Hw _ _].
    unfold written in Hw. rewrite Ea in Hw. split.
    + apply flushed_conveyed, idle_conveyed; [by rewrite Ea..|done].
    + unfold written, activity_of. cbn. by rewrite activity_of_insert, decide_True by done.
    + done.
    + intros Hn. by destruct (Hn []).
  - destruct (activity_of k (Thread t)) eqn:Ea; simplify_eq.
    apply (sinks_ok_thread t (Between text) text); auto.
  - destruct (activity_of k (Thread t)) eqn:Ea; simplify_eq.
    apply (sinks_ok_thread t Syncing []); auto.
  - by eapply sinks_ok_advance.
Qed.

(** Events that touch neither the console nor the writer's batch. *)
Lemma sinks_ok_same s s' k :
  console s' = console s ->
  (writer_at s' = writer_at s \/ writer_at s = Sleeping /\ writer_at s' = Woken) ->
  sinks_ok s k -> sinks_ok s' k.
Proof.
  intros Hc Hw [Hcv Hwr Hf Hi]. split; [done|..].
  - unfold written in *. rewrite Hc. destruct Hw as [->|[Hs Hs']]; [done|]. rewrite Hs in Hwr.
    destruct (activity_of k TheWriter); try done; by destruct_and?; naive_solver.
  - intros [E ?]%Hf. destruct Hw as [->|[]]; [done|congruence].
  - intros Hn. apply Hi. intros batch E. destruct Hw as [Hw|[]]; [|congruence].
    apply (Hn batch). congruence.
Qed.

(** The writer looks at the queue with nothing left to flush. *)
Lemma sinks_ok_check q s k :
  settled k -> sinks_ok s k -> sinks_ok (check_lines q s) (with_flushed false k).
Proof.
  intros Hs [Hc Hw _ _]. split; [by apply flushed_conveyed| |done|done].
  destruct Hs as [Hi _]. unfold written in *. rewrite Hi in Hw. unfold activity_of in *. cbn.
  by rewrite Hi.
Qed.

Lemma console_text_app a b : console_text (a ++ b) = console_text a ++ console_text b.
Proof. unfold console_text. by rewrite fmap_app, concat_app. Qed.

Lemma follow_ok e s s' k k' :
  step e s = Some s' -> follow e k = Some k' -> sinks_ok s k -> sinks_ok s' k'.
Proof.
  intros Hs Hk Hok. destruct e as [t text|t| | | | |]; cbn in Hs, Hk.
  1-4: simplify_eq; apply (sinks_ok_same s); repeat case_match; cbn in *; simplify_eq; by auto.
  - destruct (writer_at s) eqn:Ew; simplify_eq.
    apply sinks_ok_check; [|done]. apply (so_idle _ _ Hok). congruence.
  - destruct (writer_at s) as [| |[|c rest]] eqn:Ew; simplify_eq.
    destruct (activity_of k TheWriter) as [|[|]| | | |] eqn:Ea; simplify_eq.
    destruct Hok as [Hc Hw Hf _]. split.
    + apply idle_conveyed; [by rewrite Ea..|done].
    + unfold written in Hw. rewrite Ea in Hw. destruct Hw as (c' & rest' & Hw & Hg).
      rewrite Ew in Hw. simplify_eq. unfold written, activity_of.
      change (activities (set_activity TheWriter Idle k)) with (<[TheWriter := Idle]> (activities k)).
      rewrite activity_of_insert, decide_True by done.
      change (given_by k TheWriter = console_text (console s ++ [c'])).
      rewrite Hg, console_text_app. unfold console_text at 3. cbn. by rewrite app_nil_r.
    + intros [_ [Hi _]]%Hf. congruence.
    + intros Hn. by destruct (Hn rest).
  - destruct (writer_at s) as [| |[|c rest]] eqn:Ew; simplify_eq.
    destruct (flushed k) eqn:Ef; simplify_eq. apply sinks_ok_check; [|done]. by apply (so_flushed _ _ Hok).
Qed.

Lemma sinks_ok_new : sinks_ok initial_System (new_Sinks start).
Proof.
  split; [split|..]; cbn; rewrite ?app_nil_r; try done. by destruct (file_good start); rewrite app_nil_r.
Qed.

Lemma log_run_ok es : forall s k s' k',
  log_run es s k = Some (s', k') -> sinks_ok s k -> sinks_ok s' k'.
Proof.
  induction es as [|[e|e] es IH]; intros s k s' k' Hr Hok; cbn in Hr; [by simplify_eq|..].
  - apply bind_Some in Hr as (s1 & Hs & (k1 & Hk & Hr)%bind_Some).
    eapply IH, follow_ok; eauto.
  - apply bind_Some in Hr as (k1 & Hk & Hr). eapply IH, sink_step_ok; eauto.
Qed.
End start.

(** ** One run *)

(** What is in a run of [flush] for the log and its sinks. *)
Definition other_event (e : Z * (flush_event + sink_event)) : option (event + sink_event) :=
  match e.2 with
  | inl (Other e) => Some (inl e)
  | inl _ => None
  | inr e => Some (inr e)
  end.

Lemma flush_log_run_log abandoned deadline es : forall f k f' k',
  flush_log_run abandoned deadline es f k = Some (f', k') ->
  log_run (omap other_event es) (system f) k = Some (system f', k').
Proof.
  induction es as [|[now [e|e]] es IH]; intros f k f' k' Hr; cbn in Hr; [by simplify_eq|..].
  - apply bind_Some in Hr as (f1 & Hf & (k1 & Hk & Hr)%bind_Some).
    apply IH in Hr. apply flush_step_inv in Hf as [_ Hf].
    destruct e as [e| | |]; cbn; [|simplify_eq; destruct_and? Hf; by subst..].
    destruct Hf as (_ & _ & s & Hs & ->). rewrite Hs. cbn. rewrite Hk. exact Hr.
  - apply bind_Some in Hr as (k1 & Hk & Hr). cbn. rewrite Hk. by apply IH.
Qed.

Lemma log_run_app es es' s k s' k' s2 k2 :
  log_run es s k = Some (s', k') -> log_run es' s' k' = Some (s2, k2) ->
  log_run (es ++ es') s k = Some (s2, k2).
Proof.
  revert s k. induction es as [|[e|e] es IH]; intros s k Hr Hr'; cbn in *; [by simplify_eq|..].
  - apply bind_Some in Hr as (s1 & -> & (k1 & Hk & Hr)%bind_Some). cbn. rewrite Hk. by apply IH.
  - apply bind_Some in Hr as (k1 & -> & Hr). by apply IH.
Qed.

(** The log below the sinks runs as in AsyncLog.v and Flush.v. *)
Lemma log_run_run es : forall s k s' k',
  log_run es s k = Some (s', k') -> exists events, run events s = Some s'.
Proof.
  induction es as [|[e|e] es IH]; intros s k s' k' Hr; cbn in Hr; [simplify_eq; by exists []|..].
  - apply bind_Some in Hr as (s1 & Hs & (k1 & _ & [events Hr]%IH)%bind_Some).
    exists (e :: events). cbn. by rewrite Hs.
  - apply bind_Some in Hr as (k1 & _ & [events Hr]%IH). by exists events.
Qed.

Lemma flush_log_run_run abandoned deadline es : forall f k f' k',
  flush_log_run abandoned deadline es f k = Some (f', k') ->
  exists events, flush_run abandoned deadline events f = Some f'.
Proof.
  induction es as [|[now [e|e]] es IH]; intros f k f' k' Hr; cbn in Hr; [simplify_eq; by exists []|..].
  - apply bind_Some in Hr as (f1 & Hs & (k1 & _ & [events Hr]%IH)%bind_Some).
    exists ((now, e) :: events). cbn. by rewrite Hs.
  - apply bind_Some in Hr as (k1 & _ & [events Hr]%IH). by exists events.
Qed.

(** *** What is printed past the queue *)

Definition past_queue (e : event + sink_event) : bool :=
  match e with inr (PrintDirectly _ _) | inr (FlushDirectly _) => true | _ => false end.

(** By one thread. *)
Definition printed_past (t : Z) (es : list (event + sink_event)) : list Z :=
  concat (omap (fun e =>
    match e with
    | inr (PrintDirectly t' text) => if decide (t' = t) then Some text else None
    | _ => None
    end) es).

Lemma printed_past_cons t e es : printed_past t (e :: es) = printed_past t [e] ++ printed_past t es.
Proof.
  unfold printed_past. rewrite (omap_app _ [e] es), concat_app. done.
Qed.

Lemma printed_past_one t t' text :
  printed_past t [inr (PrintDirectly t' text)] = if decide (t' = t) then text else [].
Proof.
  unfold printed_past, omap. cbn [list_omap]. destruct (decide (t' = t)); cbn; by rewrite ?app_nil_r.
Qed.

Lemma proceed_given p k k' : proceed p k = Some k' -> given k' = given k.
Proof.
  unfold proceed. destruct (activity_of k p) as [|[|c rest]|c rest|rest| |];
    [done|destruct p|destruct (c =? EOF)|..]; intros; by simplify_eq.
Qed.

Lemma sink_step_given t e s k k' :
  sink_step e s k = Some k' ->
  given_by k' (Thread t) = given_by k (Thread t) ++ printed_past t [inr e].
Proof.
  intros Hk. unfold given_by.
  destruct e as [| |t' text|t'|p]; cbn [sink_step] in Hk.
  - repeat case_match; simplify_eq; cbn. by rewrite lookup_insert_ne, app_nil_r.
  - repeat case_match; simplify_eq; cbn. by rewrite app_nil_r.
  - destruct (activity_of k (Thread t')); simplify_eq. rewrite printed_past_one. cbn [given begin_print].
    destruct (decide (t' = t)) as [->|Hne].
    + by rewrite lookup_insert_eq.
    + rewrite lookup_insert_ne by congruence. by rewrite app_nil_r.
  - destruct (activity_of k (Thread t')); simplify_eq. cbn. by rewrite app_nil_r.
  - rewrite (proceed_given _ _ _ Hk). by rewrite app_nil_r.
Qed.

Lemma follow_given e k k' : follow e k = Some k' -> given k' = given k.
Proof. destruct e; cbn; repeat case_match; intros; by simplify_eq. Qed.

Lemma log_run_given t es : forall s k s' k',
  log_run es s k = Some (s', k') ->
  given_by k' (Thread t) = given_by k (Thread t) ++ printed_past t es.
Proof.
  induction es as [|[e|e] es IH]; intros s k s' k' Hr; cbn in Hr;
    [simplify_eq; by rewrite app_nil_r|rewrite printed_past_cons..].
  - apply bind_Some in Hr as (s1 & _ & (k1 & Hk & Hr)%bind_Some).
    rewrite (IH _ _ _ _ Hr). unfold given_by. by rewrite (follow_given _ _ _ Hk).
  - apply bind_Some in Hr as (k1 & Hk & Hr).
    rewrite (IH _ _ _ _ Hr), (sink_step_given t _ _ _ _ Hk). by rewrite app_assoc.
Qed.

(** *** Races *)

(** Only the writer is at the file stream. *)
Record alone (k : Sinks) : Prop := {
  al_idle : forall t, activity_of k (Thread t) = Idle;
  al_inside : inside k =
    match activity_of k TheWriter with Filing _ | Flushing => Some TheWriter | _ => None end;
  al_raced : raced k = false
}.

Lemma alone_writer a k k' :
  activities k' = <[TheWriter := a]> (activities k) ->
  inside k' = match a with Filing _ | Flushing => Some TheWriter | _ => None end ->
  raced k' = false -> alone k -> alone k'.
Proof.
  intros Ha Hi Hr [Ht _ _]. split; [|rewrite Hi; unfold activity_of; by rewrite Ha, lookup_insert_eq|done].
  intros t. specialize (Ht t). unfold activity_of in *. by rewrite Ha, lookup_insert_ne.
Qed.

Lemma proceed_alone p k k' : proceed p k = Some k' -> alone k -> alone k'.
Proof.
  unfold proceed. intros Hk Hok. pose proof Hok as [Ht Hi Hr].
  destruct p as [|t]; [|by rewrite Ht in Hk].
  destruct (activity_of k TheWriter) as [|[|c rest]|c rest|rest| |] eqn:Ea; [done|done|..];
    [destruct (c =? EOF)|..]; simplify_eq; (eapply (alone_writer _ k); [cbn; reflexivity|..]); cbn;
    rewrite ?Hi, ?Hr; try done.
Qed.

Lemma log_run_alone es : forall s k s' k',
  log_run es s k = Some (s', k') -> Forall (fun e => past_queue e = false) es ->
  alone k -> alone k'.
Proof.
  induction es as [|[e|e] es IH]; intros s k s' k' Hr He Hok; cbn in Hr; [by simplify_eq|..];
    apply Forall_cons in He as [He Hes].
  - apply bind_Some in Hr as (s1 & _ & (k1 & Hk & Hr)%bind_Some).
    apply (IH _ _ _ _ Hr Hes). pose proof Hok as [Ht Hi Hra]. destruct e; cbn in Hk; simplify_eq; try done.
    + destruct (activity_of k TheWriter) as [|[|]| | | |]; simplify_eq.
      by apply (alone_writer Idle k).
    + destruct (flushed k); simplify_eq. by split.
  - apply bind_Some in Hr as (k1 & Hk & Hr). apply (IH _ _ _ _ Hr Hes). pose proof Hok as [Ht Hi Hra].
    destruct e as [| |t text|t|p]; cbn [sink_step] in Hk; try done.
    + destruct (writer_at s) as [| |[|c rest]]; try done.
      destruct (activity_of k TheWriter); simplify_eq.
      by apply (alone_writer (Between (chunk_text c)) k).
    + destruct (writer_at s) as [| |[|c rest]]; try done.
      destruct (activity_of k TheWriter); simplify_eq. by apply (alone_writer Syncing k).
    + by eapply proceed_alone.
Qed.

(** A call that nothing comes in between of does what Diagnostics.v says. *)
Fixpoint proceeds (n : nat) (p : printer) (k : Sinks) : option Sinks :=
  match n with
  | O => Some k
  | S n => k ← proceed p k; proceeds n p k
  end.

Lemma call_alone p text : forall k,
  activity_of k p = Between text -> inside k = None ->
  exists n k', proceeds n p k = Some k' /\ activity_of k' p = Between [] /\
    tee k' = tee_write text (tee k) /\ raced k' = raced k /\ inside k' = None.
Proof.
  induction text as [|c text IH]; intros k Ha Hi; [by exists 0%nat, k|].
  assert (Hset : forall a k1, activity_of (set_activity p a k1) p = a)
    by (intros a k1; unfold activity_of; cbn; by rewrite lookup_insert_eq).
  destruct (Z.eqb_spec c EOF) as [Hc|Hc].
  - destruct (IH (set_activity p (Between text) k) (Hset _ _) Hi) as (n & k' & Hn & Ha' & Ht & Hr & Hi').
    exists (S n), k'. cbn [proceeds]. unfold proceed. rewrite Ha, (proj2 (Z.eqb_eq _ _) Hc).
    split_and!; [exact Hn|done| |done..]. rewrite Ht. cbn [tee_write foldl]. unfold overflow at 2.
    by rewrite (proj2 (Z.eqb_eq _ _) Hc).
  - set (k1 := set_activity p (Shown c text) (sputc p c k)).
    set (k2 := set_activity p (Filing text) (file_put p c (enter p k1))).
    set (k3 := set_activity p (Between text) (leave k2)).
    assert (H1 : proceed p k = Some k1)
      by (unfold proceed; by rewrite Ha, (proj2 (Z.eqb_neq _ _) Hc)).
    assert (H2 : proceed p k1 = Some k2)
      by (unfold proceed; by rewrite (Hset (Shown c text) _ : activity_of k1 p = _)).
    assert (H3 : proceed p k2 = Some k3)
      by (unfold proceed; by rewrite (Hset (Filing text) _ : activity_of k2 p = _)).
    destruct (IH k3 (Hset _ _) eq_refl) as (n & k' & Hn & Ha' & Ht & Hr & Hi').
    exists (S (S (S n))), k'. cbn [proceeds]. rewrite H1. cbn [mbind option_bind].
    rewrite H2. cbn [mbind option_bind]. rewrite H3. cbn [mbind option_bind].
    split_and!; [exact Hn|done| | |done].
    + rewrite Ht. cbn [tee_write foldl]. unfold overflow at 2. by rewrite (proj2 (Z.eqb_neq _ _) Hc).
    + rewrite Hr. unfold k3. cbn. rewrite Hi. apply orb_false_r.
Qed.

(** ** Octets *)

Definition event_octets (e : event + sink_event) : Prop :=
  match e with
  | inl (Print _ text) | inr (PrintDirectly _ text) => Forall is_u8 text
  | _ => True
  end.

Lemma bytes_of_string_octets s : Forall is_u8 (bytes_of_string s).
Proof.
  induction s as [|c s IH]; cbn [bytes_of_string]; constructor; [|done].
  unfold is_u8. pose proof (Ascii.N_ascii_bounded c). lia.
Qed.

Lemma drop_oldest_suffix ls : forall b d, exists pre, ls = pre ++ (drop_oldest ls b d).1.1.
Proof.
  induction ls as [|l [|l' ls] IH]; intros b d; [by exists []|by exists []|].
  rewrite drop_oldest_cons. destruct (maxQueuedBytes <? b); [|by exists []].
  destruct (IH (u64 (b - zlength l)) (u64 (d + zlength l))) as [pre Hpre].
  exists (l :: pre). by rewrite Hpre at 1.
Qed.

Lemma lines_submit_Forall (P : list Z -> Prop) line q :
  Forall P (lines q) -> P line -> Forall P (lines (submit line q)).
Proof.
  intros Hq Hl. unfold submit.
  destruct (drop_oldest_suffix (lines q ++ [line]) (u64 (bytes q + zlength line)) (droppedBytes q))
    as [pre Hpre]. destruct (drop_oldest _ _ _) as [[ls b] d]. cbn in *.
  assert (Hall : Forall P (lines q ++ [line])) by (apply Forall_app; by repeat constructor).
  rewrite Hpre in Hall. by apply Forall_app in Hall as [_ ?].
Qed.

(** What is on its way to the console. *)
Record octets_in (s : System) : Prop := {
  oi_buffers : forall t, Forall is_u8 (buffer_of s t);
  oi_lines : Forall (Forall is_u8) (lines (queue s));
  oi_batch : Forall (fun c => Forall is_u8 (chunk_text c)) (batch_of (writer_at s))
}.

Lemma octets_in_push t line s0 s :
  (forall t', Forall is_u8 (buffer_of s0 t')) -> queue s0 = queue s -> writer_at s0 = writer_at s ->
  Forall is_u8 line -> octets_in s -> octets_in (push t line s0).
Proof.
  intros Hb Hq Hw Hl [_ Hls Hbatch]. split; cbn; [done| |by rewrite Hw].
  rewrite Hq. by apply lines_submit_Forall.
Qed.

Lemma octets_in_check q s :
  lines q = lines (queue s) -> octets_in s -> octets_in (check_lines q s).
Proof.
  intros Hq [Hb Hl _]. split; [done|..]; unfold check_lines; cbn.
  - rewrite <- Hq in Hl. destruct (lines q) eqn:E; [by rewrite E|constructor].
  - destruct (lines q) as [|l ls] eqn:E; [constructor|]. cbn [batch_of].
    apply Forall_app. split.
    + destruct (_ =? 0); [constructor|]. constructor; [|constructor].
      cbn [chunk_text]. rewrite !Forall_app. unfold to_string.
      split_and!; [apply bytes_of_string_octets..|by repeat constructor].
    + apply Forall_fmap. rewrite Hq. exact Hl.
Qed.

Lemma octets_in_step e s s' :
  step e s = Some s' -> event_octets (inl e) -> octets_in s -> octets_in s'.
Proof.
  intros Hs He Hok. pose proof Hok as [Hb Hl Hbatch].
  destruct e as [t text|t| | | | |]; cbn in Hs.
  - pose proof (append_spec text (buffer_of s t)) as Ha.
    destruct (append text (buffer_of s t)) as [out rest]. destruct Ha as (Happ & _ & _).
    assert (Hboth : Forall is_u8 (default [] out ++ rest)) by (rewrite <- Happ; by apply Forall_app).
    apply Forall_app in Hboth as [Hout Hrest].
    assert (Hb' : forall t', Forall is_u8 (buffer_of (set_buffer t text rest s) t')).
    { intros t'. unfold buffer_of. cbn. destruct (decide (t = t')) as [<-|];
        rewrite ?lookup_insert_eq, ?lookup_insert_ne by done; [done|apply Hb]. }
    destruct out; simplify_eq; [by apply (octets_in_push _ _ _ s)|by split].
  - destruct (buffer_of s t) as [|c line] eqn:E; simplify_eq; [done|].
    apply (octets_in_push _ _ _ s); try done; [|by rewrite <- E].
    intros t'. unfold buffer_of. cbn. destruct (decide (t = t')) as [<-|];
      rewrite ?lookup_insert_eq, ?lookup_insert_ne by done; [constructor|apply Hb].
  - destruct (unnotified s); simplify_eq. split; try done. cbn. by destruct (writer_at s).
  - destruct (writer_at s); simplify_eq. by split.
  - destruct (writer_at s); simplify_eq. by apply octets_in_check.
  - destruct (writer_at s) as [| |[|c rest]]; simplify_eq. split; try done.
    cbn in *. by apply Forall_cons in Hbatch as [_ ?].
  - destruct (writer_at s) as [| |[|c rest]]; simplify_eq. by apply octets_in_check.
Qed.

(** Everything that was to be written is octets. *)
Definition octets_out (k : Sinks) : Prop := forall p, Forall is_u8 (given_by k p).

Lemma octets_out_begin p text k :
  Forall is_u8 text -> octets_out k -> octets_out (begin_print p text k).
Proof.
  intros Ht Ho q. unfold given_by. cbn. destruct (decide (q = p)) as [->|].
  - rewrite lookup_insert_eq. by apply Forall_app.
  - rewrite lookup_insert_ne by done. apply Ho.
Qed.

Lemma log_run_octets es : forall s k s' k',
  log_run es s k = Some (s', k') -> Forall event_octets es ->
  octets_in s -> octets_out k -> octets_out k'.
Proof.
  induction es as [|[e|e] es IH]; intros s k s' k' Hr He Hs Hk; cbn in Hr; [by simplify_eq|..];
    apply Forall_cons in He as [He Hes].
  - apply bind_Some in Hr as (s1 & Hstep & (k1 & Hf & Hr)%bind_Some).
    apply (IH s1 k1 _ _ Hr Hes); [by eapply octets_in_step|].
    intros p. unfold given_by. rewrite (follow_given _ _ _ Hf). apply Hk.
  - apply bind_Some in Hr as (k1 & Hf & Hr). apply (IH s k1 _ _ Hr Hes); [done|].
    destruct e as [| |t text|t|p]; cbn [sink_step] in Hf.
    + destruct (writer_at s) as [| |[|c rest]] eqn:Ew; try done.
      destruct (activity_of k TheWriter); simplify_eq. apply (octets_out_begin _ _ k); [|done].
      destruct Hs as [_ _ Hb]. rewrite Ew in Hb. by apply Forall_cons in Hb as [? _].
    + destruct (writer_at s) as [| |[|c rest]]; try done.
      by destruct (activity_of k TheWriter); simplify_eq.
    + destruct (activity_of k (Thread t)); simplify_eq. by apply octets_out_begin.
    + by destruct (activity_of k (Thread t)); simplify_eq.
    + intros q. unfold given_by. rewrite (proceed_given _ _ _ Hf). apply Hk.
Qed.

Lemma octets_in_initial : octets_in initial_System.
Proof. split; [|constructor..]. intros t. constructor. Qed.

(** ** What the file holds *)

(** The writer is between two batches when the log is drained. *)
Lemma drained_settled start s k :
  reachable_log s -> drained s = true -> sinks_ok start s k -> settled k.
Proof.
  intros Hr%writer_flag_reachable Hd Hok. apply (so_idle _ _ _ Hok). intros batch E.
  unfold writer_flag in Hr. rewrite E in Hr. unfold drained in Hd. rewrite Hr in Hd.
  by destruct (lines (queue s)).
Qed.

(** The console is ahead of the file, and both are behind what was to be
    written. *)
Lemma conveyed_order start k p :
  conveyed start k -> Forall is_u8 (given_by k p) ->
  of_printer p (filed k) `prefix_of` of_printer p (shown k) /\
  of_printer p (shown k) `prefix_of` given_by k p /\
  (activity_of k p = Idle ->
   of_printer p (shown k) = given_by k p /\ of_printer p (filed k) = given_by k p).
Proof.
  intros Hcv Ho. pose proof (cv_shown _ _ Hcv p) as Hs. pose proof (cv_filed _ _ Hcv p) as Hf.
  rewrite (characters_octets _ Ho) in Hs, Hf. split_and!.
  - assert (Hsame : exists cs, to_file (activity_of k p) = cs ++ to_show (activity_of k p)).
    { destruct (activity_of k p) as [|rest|c rest|rest| |]; (by exists []) || by exists [c]. }
    destruct Hsame as [cs Hcs]. rewrite Hcs, app_assoc, <- Hs in Hf. apply app_inv_tail in Hf.
    by exists cs.
  - by exists (to_show (activity_of k p)).
  - intros Hi. rewrite Hi in Hs, Hf. cbn in Hs, Hf. by rewrite app_nil_r in Hs, Hf.
Qed.

(** What the writer has been at: the chunks it has written and the next. *)
Lemma written_order start s k :
  sinks_ok start s k -> octets_out k ->
  console_text (console s) `prefix_of` given_by k TheWriter /\
  given_by k TheWriter `prefix_of` console_text (console s ++ batch_of (writer_at s)).
Proof.
  intros Hok Ho. pose proof (so_written _ _ _ Hok) as Hw. unfold written in Hw.
  rewrite console_text_app.
  assert (Hnext : (exists c rest, writer_at s = Writing (c :: rest) /\
      given_by k TheWriter = console_text (console s) ++ chunk_text c) ->
    console_text (console s) `prefix_of` given_by k TheWriter /\
    given_by k TheWriter `prefix_of`
      console_text (console s) ++ console_text (batch_of (writer_at s))).
  { intros (c & rest & -> & ->). split; [by apply prefix_app_r|]. apply prefix_app.
    by exists (console_text rest). }
  assert (Hdone : given_by k TheWriter = console_text (console s) ->
    console_text (console s) `prefix_of` given_by k TheWriter /\
    given_by k TheWriter `prefix_of`
      console_text (console s) ++ console_text (batch_of (writer_at s))).
  { intros ->. split; [done|by apply prefix_app_r]. }
  destruct (activity_of k TheWriter); auto; by apply Hdone, Hw.
Qed.

(** A settled writer has all of the log in the file, up to the last flush. *)
Lemma settled_file start s k n :
  sinks_ok start s k -> octets_out k -> settled k -> (synced k <= n)%nat ->
  of_printer TheWriter (take n (filed k)) = console_text (console s).
Proof.
  intros Hok Ho [Hi Hu] Hn. pose proof (so_written _ _ _ Hok) as Hw. unfold written in Hw.
  rewrite Hi in Hw. rewrite <- Hw.
  destruct (conveyed_order _ _ TheWriter (so_conveyed _ _ _ Hok) (Ho TheWriter)) as (_ & _ & Hall).
  destruct (Hall Hi) as [_ <-].
  rewrite <- (take_drop n (filed k)) at 2. rewrite of_printer_app.
  replace (of_printer TheWriter (drop n (filed k))) with (@nil Z); [by rewrite app_nil_r|].
  rewrite <- (take_drop (n - synced k) (drop (synced k) (filed k))), of_printer_app, drop_drop in Hu.
  replace (synced k + (n - synced k))%nat with n in Hu by lia.
  by apply app_nil in Hu as [_ ->].
Qed.

(** Everything is the log's when nothing is printed past the queue. *)
Lemma nothing_past start k n :
  conveyed start k -> octets_out k -> (forall t, given_by k (Thread t) = []) ->
  (take n (filed k)).*2 = of_printer TheWriter (take n (filed k)).
Proof.
  intros Hcv Ho Hnone. symmetry. apply of_printer_only. intros [|t] Hne; [done|].
  destruct (conveyed_order _ _ (Thread t) Hcv (Ho _)) as (Hfs & Hsg & _).
  rewrite Hnone in Hsg. apply prefix_nil_inv in Hsg. rewrite Hsg in Hfs. apply prefix_nil_inv in Hfs.
  rewrite <- (take_drop n (filed k)), of_printer_app in Hfs. by apply app_nil in Hfs as [? _].
Qed.

(** What a reader finds when the log is drained. *)
Lemma drained_contents start s k :
  sinks_ok start s k -> octets_out k -> reachable_log s -> drained s = true ->
  total (submitted s).*2 < size_limit ->
  let ls := (submitted s).*2 in
  let log := console s in
  lines_of log `sublist_of` ls /\ total ls = total (lines_of log) + noticed log /\
  forall contents, readable start k contents ->
    exists n, contents = fileStream start ++ (take n (filed k)).*2 /\
      of_printer TheWriter (take n (filed k)) = console_text log /\
      (noticed log = 0 -> of_printer TheWriter (take n (filed k)) = concat ls) /\
      (noticed log = 0 -> (forall t, given_by k (Thread t) = []) ->
       contents = fileStream start ++ concat ls).
Proof.
  intros Hok Ho Hr Hd Hsize. destruct (written_when_drained s Hr Hsize Hd) as (Hsub & Htot & Hlines).
  cbn zeta. split_and!; [done..|]. intros contents (n & [Hn _] & ->). exists n.
  pose proof (settled_file _ _ _ n Hok Ho (drained_settled _ _ _ Hr Hd Hok) Hn) as Hw.
  rewrite Hw. split_and!; [done|done|exact Hlines|]. intros Hn0 Hnone.
  by rewrite (nothing_past start k n (so_conveyed _ _ _ Hok) Ho Hnone), Hw, (Hlines Hn0).
Qed.

(** C26: the log file is complete. Started with [--log2file] and a file that can
    be opened, the program prints through the queue and past it, any threads
    taking turns at every character and inside the calls of the file stream,
    and at some time some thread calls [flush]. Two threads are inside the
    file stream at once only if some thread prints or flushes past the queue.
    As long as that has not happened, console and file hold what they held and
    the characters of all callers, each caller's in the order it wrote them and
    the console ahead of the file, but each of the two in an interleaving of its
    own. When [flush] answers [true], nothing of the log waits in the buffer of
    the file stream: whenever the process dies then, what the writer wrote
    into the file is every line submitted, in order, except for dropped bytes
    that it reports; and when nothing was dropped or printed past the queue,
    the file is what it held, the announcement and these lines, exactly. *)
Theorem log_file_complete (env : StartEnv) (arguments : list (list Z)) (channel : list Z)
    (tee0 : TeeStreambuf) (es : list (event + sink_event)) (s : System) (k : Sinks)
    (abandoned : bool) (start deadline : Z) (es' : list (Z * (flush_event + sink_event)))
    (f : FlushState) (k' : Sinks)
    (Hstart : prepare_application env arguments = Driver channel (ToBoth tee0))
    (Hopens : log_opens env = true) (Hversion : EOF ∉ announcement env arguments)
    (Hrun : log_run es initial_System (new_Sinks tee0) = Some (s, k))
    (Hflush : flush_log_run abandoned deadline es' (flush_called start s) k = Some (f, k'))
    (Hoctets : Forall event_octets (es ++ omap other_event es'))
    (Hsize : total (submitted (system f)).*2 < size_limit) :
  let old := log_contents env ++ announcement env arguments in
  let ls := (submitted (system f)).*2 in
  let events := es ++ omap other_event es' in
  let log := console (system f) in
  (Forall (fun e => past_queue e = false) events -> raced k' = false) /\
  (raced k' = false ->
    (consoleBuffer (tee k') = consoleBuffer tee0 ++ (shown k').*2 /\
     fileStream (tee k') = old ++ (filed k').*2 /\
     forall contents, readable tee0 k' contents -> contents `prefix_of` fileStream (tee k')) /\
    (forall p, of_printer p (filed k') `prefix_of` of_printer p (shown k') /\
       of_printer p (shown k') `prefix_of` given_by k' p /\
       (activity_of k' p = Idle -> of_printer p (filed k') = given_by k' p)) /\
    (forall t, given_by k' (Thread t) = printed_past t events) /\
    console_text log `prefix_of` given_by k' TheWriter /\
    given_by k' TheWriter `prefix_of` console_text (log ++ batch_of (writer_at (system f))) /\
    (caller f = Answered true ->
       lines_of log `sublist_of` ls /\
       total ls = total (lines_of log) + noticed log /\
       forall contents, readable tee0 k' contents ->
         exists n, contents = old ++ (take n (filed k')).*2 /\
           of_printer TheWriter (take n (filed k')) = console_text log /\
           (noticed log = 0 -> of_printer TheWriter (take n (filed k')) = concat ls) /\
           (noticed log = 0 -> (forall t, printed_past t events = []) ->
            contents = old ++ concat ls))).
Proof.
  cbn zeta. destruct (log_file_announces _ _ _ _ _ _ Hversion Hstart) as [Hgood Hold].
  rewrite Hopens in Hgood, Hold.
  pose proof (log_run_app _ _ _ _ _ _ _ _ Hrun (flush_log_run_log _ _ _ _ _ _ _ Hflush)) as Hall.
  assert (Ho : octets_out k')
    by (apply (log_run_octets _ _ _ _ _ Hall Hoctets octets_in_initial); intros p; constructor).
  pose proof (log_run_ok _ _ _ _ _ _ Hall (sinks_ok_new tee0)) as Hok.
  pose proof (so_conveyed _ _ _ Hok) as Hcv.
  assert (Hpast : forall t, given_by k' (Thread t) = printed_past t (es ++ omap other_event es'))
    by (intros t; exact (log_run_given t _ _ _ _ _ Hall)).
  assert (Hfile : fileStream (tee k') =
      log_contents env ++ announcement env arguments ++ (filed k').*2)
    by (by rewrite (cv_file _ _ Hcv), Hgood, Hold, <- app_assoc).
  split; [|intros _; split_and!].
  - intros Hnone. refine (al_raced _ (log_run_alone _ _ _ _ _ Hall Hnone _)). by split.
  - apply Hcv.
  - by rewrite Hfile, app_assoc.
  - intros contents (n & _ & ->). rewrite (cv_file _ _ Hcv), Hgood. apply prefix_app.
    exists (drop n (filed k')).*2. by rewrite <- fmap_app, take_drop.
  - intros p. destruct (conveyed_order _ _ p Hcv (Ho p)) as (? & ? & Hi). split_and!; [done..|apply Hi].
  - exact Hpast.
  - by apply (written_order tee0 _ _ Hok Ho).
  - by apply (written_order tee0 _ _ Hok Ho).
  - intros Ha. destruct (log_run_run _ _ _ _ _ Hrun) as [events Hev].
    destruct (flush_log_run_run _ _ _ _ _ _ _ Hflush) as [events' Hev'].
    pose proof (flush_ok_run abandoned deadline start events' _ _ Hev'
      (flush_ok_called abandoned deadline start s (ex_intro _ _ Hev))) as Hf.
    pose proof (fo_true _ _ _ _ Hf Ha) as Hd.
    pose proof (drained_contents _ _ _ Hok Ho (fo_log _ _ _ _ Hf) Hd Hsize) as Hanswer.
    rewrite Hold in Hanswer. destruct Hanswer as (Hsub & Htot & Hc). split_and!; [done..|].
    intros contents Hread. destruct (Hc contents Hread) as (n & ? & ? & ? & Hexact). exists n.
    split_and!; [done..|]. intros Hn0 Hnone. apply Hexact; [done|]. intros t. by rewrite Hpast.
Qed.

(** ** Two threads at once *)

(** The writer, at the line "a", and a thread that prints "b", seen from the
    moment at which the writer has its batch. *)
Definition at_line : list (event + sink_event) :=
  inl <$> [Print 1 [97; 10]; Notify; Wake].

(** The thread puts its character on the console after the writer, and into the
    file before it. *)
Example console_and_file_differ :
  match log_run (at_line ++ (inr <$>
      [BeginChunk; Advance TheWriter; PrintDirectly 2 [98]; Advance (Thread 2); Advance (Thread 2);
       Advance (Thread 2); Advance TheWriter; Advance TheWriter])) initial_System
    (new_Sinks {| consoleBuffer := []; fileStream := []; file_good := true |}) with
  | Some (_, k) => consoleBuffer (tee k) = [97; 98] /\ fileStream (tee k) = [98; 97] /\ raced k = false
  | None => False
  end.
Proof. vm_compute. by split_and!. Qed.

(** Both are inside the file stream. *)
Example overlapping_prints_race :
  match log_run (at_line ++ (inr <$>
      [BeginChunk; Advance TheWriter; Advance TheWriter; PrintDirectly 2 [98]; Advance (Thread 2);
       Advance (Thread 2)])) initial_System
    (new_Sinks {| consoleBuffer := []; fileStream := []; file_good := true |}) with
  | Some (_, k) => raced k = true
  | None => False
  end.
Proof. vm_compute. reflexivity. Qed.
