(* ===== verification/JsonExample.v ===== *)
(** * A concrete JSON library and clock for the witnesses

    The simplest functions that satisfy [JsonLaws] and [TimingLaws]: an
    object is its list of members, latest first, and its text one number
    that encodes it. No theorem about the program depends on this file. *)

From S2P Require Import Prelude Settings PacketHandler.

Definition json_code (v : json_value) : (Z * Z * Z) + (bool + (Z + list Z)) :=
  match v with
  | JArray a b c => inl (a, b, c)
  | JBool b => inr (inl b)
  | JInt n => inr (inr (inl n))
  | JString s => inr (inr (inr s))
  end.

Definition json_decode (c : (Z * Z * Z) + (bool + (Z + list Z))) : json_value :=
  match c with
  | inl (a, b, c) => JArray a b c
  | inr (inl b) => JBool b
  | inr (inr (inl n)) => JInt n
  | inr (inr (inr s)) => JString s
  end.

#[export] Instance json_value_eq_dec : EqDecision json_value.
Proof. solve_decision. Defined.

#[export] Instance json_value_countable : Countable json_value.
Proof. apply (inj_countable' json_code json_decode). by intros []. Defined.

Definition members : Type := list (string * json_value).

Fixpoint member (k : string) (j : members) : option json_value :=
  match j with
  | [] => None
  | (k', v) :: j => if decide (k = k') then Some v else member k j
  end.

#[export] Instance list_json : JsonApi := {|
  json := members;
  json_null := [];
  set_member k v j := (k, v) :: j;
  contains k j := bool_decide (is_Some (member k j));
  get_array3 k j := match member k j with Some (JArray a b c) => Some (a, b, c) | _ => None end;
  get_int k j := match member k j with Some (JInt n) => Some n | _ => None end;
  get_string k j := match member k j with Some (JString s) => Some s | _ => None end;
  value_bool k d j :=
    match member k j with
    | None => Some d
    | Some (JBool b) => Some b
    | Some _ => None
    end;
  dump j := Some [Z.pos (encode j)];
  parse text := match text with [Z.pos p] => decode p | _ => None end
|}.

#[export] Instance list_json_laws : JsonLaws.
Proof.
  split; simpl; intros; simplify_eq/=;
    rewrite ?decode_encode, ?decide_True, ?decide_False by done; try done.
  - case_decide; case_bool_decide; try done; case_bool_decide; try done.
    all: exfalso; naive_solver.
  - left. case_bool_decide as Hs; [done|]. destruct (member k j); [|done]. by destruct Hs.
Qed.

(** A 32-bit clock. *)
#[export] Instance wrapping_clock : Timing :=
  fun now timestamp timeout => timeout <=? u32 (now - timestamp).

#[export] Instance wrapping_clock_laws : TimingLaws.
Proof. done. Qed.
