(* ===== verification/Tests.v ===== *)
(** * The tests of the repository, on the models
    (tools/test_element_hierarchy.cpp, tools/test_async_log.cpp)

    Every test function is a boolean with the checks of the original, and
    the lemmas evaluate them: where the tests pin the program down, the
    models agree with it. The pools are built from the concrete objects of
    DdopExample.v. *)

From S2P Require Import Prelude Ddop DdopExample Hierarchy AsyncLog.

(** ** The element hierarchy *)

Module HierarchyTests.
#[local] Instance api : DdopApi := list_ddop (fun _ => None).

Definition pool_of (objects : list ListObject) : pool :=
  {| lp_objects := Some <$> objects; lp_geometry := {| booms := [] |} |}.

(** Device, root element 0, boom 1, sections 2 and 3, and an orphan whose
    parent is process data. *)
Definition build_boom_pool : pool := pool_of
  [device [] (bytes_of_string "Sprayer");
   element 1 0 0 [];
   element 20 2 10 [];
   element 21 3 10 [];
   element 10 1 1 [];
   process_data 30 141 false false;
   element 40 7 30 []].

Definition parents : gmap Z Z := build_parent_map build_boom_pool.

Definition entry (element : Z) (parent : option Z) : bool :=
  bool_decide (parents !! element = parent).

Definition test_parents_come_from_parent_object_ids : bool :=
  bool_decide (size parents = 3%nat)
  && entry 2 (Some 1) && entry 3 (Some 1) && entry 1 (Some 0)
  && entry 0 None && entry 7 None.

Definition is_off (off : list Z) (element : Z) : bool := bool_decide (element ∈ off).

(** An element is visited when its own predicate is found on the chain. *)
Definition visited (parents : gmap Z Z) (start : Z) (among : list Z) : list Z :=
  filter (fun e => any_in_chain parents start (Z.eqb e) = true) among.

Definition test_chain_walks_ancestors_only : bool :=
  bool_decide (visited parents 2 [0; 1; 2; 3; 7; 99] = [0; 1; 2])
  && any_in_chain parents 2 (is_off [0])
  && any_in_chain parents 2 (is_off [1])
  && negb (any_in_chain parents 2 (is_off [3]))
  && negb (any_in_chain parents 1 (is_off [2]))
  && any_in_chain parents 99 (is_off [99]).

Definition cyclic : gmap Z Z := build_parent_map (pool_of
  [device [] (bytes_of_string "Broken"); element 50 5 51 []; element 51 6 50 []]).

(** The walk ends by definition: [any_in_chain] looks at [size cyclic + 1]
    elements at most, three here. *)
Definition test_parent_cycle_terminates : bool :=
  bool_decide (size cyclic = 2%nat) && negb (any_in_chain cyclic 5 (fun _ => false)).

Lemma all_hierarchy_tests_pass :
  [test_parents_come_from_parent_object_ids; test_chain_walks_ancestors_only;
   test_parent_cycle_terminates] = [true; true; true].
Proof. vm_compute. reflexivity. Qed.
End HierarchyTests.

(** ** The asynchronous log *)

Module LogTests.

Definition newline : list Z := [10].
Definition text : string -> list Z := bytes_of_string.

(** What the writer does next, if anything. *)
Definition background (s : System) : option event :=
  if (0 <? unnotified s)%nat then Some Notify
  else match writer_at s with
       | Sleeping => None
       | Woken => Some Wake
       | Writing [] => Some Finish
       | Writing (_ :: _) => Some WriteChunk
       end.

(** [flush]: the writer goes on until it has nothing to do. *)
Fixpoint flush (fuel : nat) (s : System) : System :=
  match fuel with
  | O => s
  | S fuel =>
      match background s with
      | None => s
      | Some e => match step e s with Some s => flush fuel s | None => s end
      end
  end.

Definition prints (es : list (Z * list Z)) (s : System) : System :=
  default s (run ((fun '(t, x) => Print t x) <$> es) s).

(** The lines on the console. *)
Definition written (s : System) : list (list Z) :=
  omap (fun c => match c with Line l => Some l | Notice _ => None end) (console s).

Definition sink (s : System) : list Z := console_text (console s).

Definition test_lines_reach_cout_in_order : bool :=
  let s := prints [(0, text "first "); (0, to_string 1); (0, newline);
                   (0, text "second" ++ newline)] initial_System in
  let s := flush 20 s in
  drained s && bool_decide (sink s = text "first 1" ++ newline ++ text "second" ++ newline).

Definition test_partial_line_waits_for_newline : bool :=
  let s := flush 20 (prints [(0, text "partial")] initial_System) in
  let s' := flush 20 (prints [(0, text " done"); (0, newline)] s) in
  bool_decide (sink s = []) && bool_decide (sink s' = text "partial done" ++ newline).

(** The pieces that a thread prints for its line [i]. *)
Definition pieces (id i : Z) : list (list Z) :=
  [text "thread"; to_string id; text " line "; to_string i; text " end"; newline].

(** The four threads take turns after every piece. *)
Definition interleaved : list (Z * list Z) :=
  concat ((fun i =>
    concat ((fun k => (fun id => (id, nth k (pieces id i) [])) <$> seqZ 0 4) <$> seq 0 6))
    <$> seqZ 0 200).

Definition line_intact (line : list Z) : bool :=
  bool_decide (take 6 line = text "thread")
  && bool_decide (drop (length line - 5) line = text " end" ++ newline).

Definition test_threads_do_not_interleave_lines : bool :=
  let s := flush 3000 (prints interleaved initial_System) in
  drained s && bool_decide (length (console s) = 800%nat)
  && bool_decide (length (written s) = 800%nat) && forallb line_intact (written s).

(** The sink is stuck: the writer has taken the first line and cannot write
    it. *)
Definition test_stuck_sink_does_not_block_callers : bool :=
  let queued (n : nat) := concat ((fun i =>
    [(0, text "queued "); (0, to_string i); (0, newline)]) <$> seqZ (100 - Z.of_nat n) (Z.of_nat n)) in
  let s := prints (take 3 (queued 100%nat)) initial_System in
  match run [Notify; Wake] s with
  | Some s =>
      let stuck := prints (queued 99%nat) s in
      let s := flush 1000 stuck in
      bool_decide (length (submitted stuck) = 100%nat) && negb (drained stuck)
      && bool_decide (sink stuck = []) && drained s
      && bool_decide (last (written s) = Some (text "queued 99" ++ newline))
  | None => false
  end.

Lemma all_log_tests_pass :
  [test_lines_reach_cout_in_order; test_partial_line_waits_for_newline;
   test_threads_do_not_interleave_lines; test_stuck_sink_does_not_block_callers] =
  [true; true; true; true].
Proof. vm_compute. reflexivity. Qed.
End LogTests.
