(* ===== verification/Witnesses.v ===== *)
(** * Witnesses

    Each theorem with hypotheses, applied at a concrete input where they
    hold: the sprayer of DdopExample.v, uploaded, activated, subscribed and
    in automatic mode as client 7. *)

From S2P Require Import Locking SettingsLocks.
From S2P Require Import Prelude Ddop DdopExample Hierarchy ClientState TcServer.
From S2P Require Import ServerFacts Setpoints Activation FileNames Subscription Reports.
From S2P Require Import ServerInvariant Refinement Udp UdpFacts Settings PacketHandler Heartbeat.
From S2P Require Import DemandMonitor Network Vt VtFacts App AppFacts EndToEnd Feedback ClosedLoop Wiring.
From S2P Require Import JsonExample BusMessages VtObjects Locking ServerLocks.

#[local] Instance sprayer_api : DdopApi := list_ddop decode_sprayer.

#[local] Existing Instance list_ddop_laws.

(** A file system in which everything works. *)
Definition good_fs : FileSystem := {|
  path_throws := fun _ => false;
  file_exists := fun _ => false;
  can_open := fun _ => true |}.

Definition run_calls (calls : list server_call) : MyTCServer :=
  foldl (fun srv call => run_call call srv) initial_server calls.

Definition upload_calls : list server_call := [Store 7 [1]; Activate good_fs 7 99].

Definition sprayer_server : MyTCServer :=
  run_calls (upload_calls ++ [Request; UpdateControlEnabled true]).

Definition sprayer_client : ClientState := client_ref 7 sprayer_server.

Lemma run_calls_reachable calls : reachable (run_calls calls).
Proof.
  unfold run_calls. apply (foldl_ind reachable); [constructor|]. intros. by constructor.
Qed.

Lemma sprayer_server_wf : server_wf sprayer_server.
Proof.
  unfold sprayer_server, run_calls. apply foldl_ind; [apply map_Forall_empty|].
  intros. by apply run_call_wf.
Qed.

Lemma sprayer_client_wf : wf sprayer_client.
Proof. apply client_ref_wf, sprayer_server_wf. Qed.

Definition has_client (c : Z) (srv : MyTCServer) : bool :=
  match clients srv !! c with Some _ => true | None => false end.

Lemma has_client_found c srv :
  has_client c srv = true -> clients srv !! c = Some (client_ref c srv).
Proof. unfold has_client, client_ref. by destruct (clients srv !! c). Qed.

Lemma sprayer_client_found : clients sprayer_server !! 7 = Some sprayer_client.
Proof. apply has_client_found. vm_compute. reflexivity. Qed.

Lemma sprayer_client_auto : is_section_control_enabled sprayer_client = true.
Proof. vm_compute. reflexivity. Qed.

Lemma sprayer_client_sections : numberOfSections sprayer_client = 2.
Proof. vm_compute. reflexivity. Qed.

(** Unfolded last when terms are compared. *)
#[local] Strategy 1000 [sprayer_server sprayer_client run_calls].

(** ** Setpoints *)

(** Section 0 on, section 1 off, fourteen not installed; then DDI 289, for
    no section was on before. *)
Lemma update_section_states_spec_witness :
  let r := update_section_states [true; false] sprayer_server in
  exists st',
    clients r.1 !! 7 = Some st' /\
    st' = setpoint_variant true (sectionSetpointStates (apply_demand [true; false] sprayer_client))
            sprayer_client /\
    to_client 7 r.2 = [send_set_value 7 290 1 4294967281; send_set_value 7 289 1 1].
Proof.
  pose proof (update_section_states_spec [true; false] sprayer_server 7 sprayer_client
    sprayer_client_found sprayer_client_wf) as Hs.
  cbv zeta in Hs |- *. rewrite sprayer_client_auto, sprayer_client_sections in Hs.
  destruct Hs as (st' & Hl & Hst & _ & Hm & _). exists st'. split_and!; [exact Hl|..].
  - rewrite Hst. f_equal.
  - rewrite Hm. vm_compute. reflexivity.
Defined.

Lemma block_messages_branches_witness :
  block_messages 7 sprayer_client 0 =
  [send_set_value 7 290 1 (condensed_setpoint_value 0 sprayer_client)].
Proof.
  exact (block_messages_branches 7 sprayer_client 0 (conj (Z.le_refl 0) eq_refl)
    ltac:(vm_compute; discriminate)).
Defined.

Lemma sprayer_modern : modern_client sprayer_client.
Proof.
  split; [vm_compute; reflexivity|]. intros b Hb.
  assert (Hn : number_of_blocks sprayer_client = 1) by (vm_compute; reflexivity).
  assert (b = 0) as -> by lia. vm_compute. reflexivity.
Qed.

Lemma master_follows_setpoints_witness :
  let r := update_section_states [true; false] sprayer_server in
  exists st', clients r.1 !! 7 = Some st' /\
    commanded_work_state (get_setpoint_work_state sprayer_client) (to_client 7 r.2) =
      is_any_section_setpoint_on st' /\
    get_setpoint_work_state st' = is_any_section_setpoint_on st'.
Proof.
  exact (master_follows_setpoints [true; false] sprayer_server 7 sprayer_client
    sprayer_client_found sprayer_client_wf sprayer_modern eq_refl).
Defined.

(** A client whose setpoint moves from the first to the second block of
    sixteen sections is told for a moment that its overall work state is
    off, although it was on before and is on afterwards. *)
Definition two_blocks : ClientState :=
  with_setpointWorkState true
    (with_isSectionControlEnabled true
       (with_ddiToElementNumber (<[289 := 1]> (<[290 := 1]> (<[291 := 1]> ∅)))
          (set_section_setpoint_state 0 ON
             (set_number_of_sections 32 new_ClientState)))).

Example overall_state_drops_between_blocks :
  (update_client_section_states ((fun i => i =? 16) <$> seqZ 0 32) 7 two_blocks).2 =
  [send_set_value 7 290 1 0; send_set_value 7 289 1 0;
   send_set_value 7 291 1 1; send_set_value 7 289 1 1].
Proof. vm_compute. reflexivity. Qed.

(** The calls that made the sprayer a client, and the message above. *)
Lemma bus_messages_declared_witness :
  let calls := upload_calls ++ [Request; UpdateControlEnabled true] in
  let o := send_set_value 7 290 1 4294967281 in
  typed_out o /\
  message_for (UpdateSections [true; false]) 7 (reported calls 7) sprayer_client o.
Proof.
  intros calls o.
  assert (Ho : call_outputs (UpdateSections [true; false]) (run_calls calls) =
    [o; send_set_value 7 289 1 1]) by (vm_compute; reflexivity).
  destruct (bus_messages_declared calls (UpdateSections [true; false]) o I) as (Ht & st & Hst & Hm).
  { change (o ∈ call_outputs (UpdateSections [true; false]) (run_calls calls)).
    rewrite Ho. left. }
  split; [exact Ht|]. change (foldl _ _ calls) with sprayer_server in Hst.
  change (bus_client o) with 7 in Hst, Hm. rewrite sprayer_client_found in Hst.
  injection Hst as <-. exact Hm.
Defined.

(** *** The specification *)

Lemma sprayer_condensed : wired Condensed sprayer_client.
Proof.
  split; [apply sprayer_client_wf|vm_compute; reflexivity|]. intros b Hb.
  assert (Hn : number_of_blocks sprayer_client = 1) by (vm_compute; reflexivity).
  assert (b = 0) as -> by lia. exists 290. vm_compute. reflexivity.
Qed.

Lemma sprayer_in_step : in_step sprayer_client (fun _ => OFF).
Proof.
  intros s Hs. rewrite sprayer_client_sections in Hs.
  assert (s = 0 \/ s = 1) as [-> | ->] by lia; vm_compute; reflexivity.
Qed.

(** A demand, a report, manual mode with a demand that is ignored, and the
    fix quality. *)
Definition sprayer_calls : list server_call :=
  [UpdateSections [false; true]; Value 7 161 1 5; UpdateControlEnabled false;
   UpdateSections [true; false]; SendGnss 4].

(** A client with an element of its own for each section, 2 and 3, which it
    takes the actual work state of as setpoint. *)
Definition spreader_client : ClientState :=
  with_areMeasurementCommandsSent true
    (with_isSectionControlEnabled true
       (with_perElementSetpointDDI ActualWorkState
          (with_usesPerElementControl true
             (set_element_number_for_section 1 3
                (set_element_number_for_section 0 2
                   (set_number_of_sections 2 new_ClientState)))))).

Definition spreader_server : MyTCServer := with_clients (<[9 := spreader_client]> ∅) initial_server.

Lemma spreader_wired : wired (PerElement [2; 3]) spreader_client.
Proof.
  split; [|vm_compute; reflexivity|].
  - unfold spreader_client. apply wf_with_areMeasurementCommandsSent, wf_with_isSectionControlEnabled,
      wf_with_perElementSetpointDDI, wf_with_usesPerElementControl.
    apply wf_set_element_number_for_section; [|lia|unfold is_u16; lia].
    apply wf_set_element_number_for_section; [|lia|unfold is_u16; lia].
    apply wf_set_number_of_sections; [apply wf_new|unfold is_u8; lia|vm_compute; discriminate].
  - split_and!; [vm_compute; reflexivity..| | |].
    + repeat constructor; set_solver.
    + set_solver.
    + intros b Hb. assert (Hn : number_of_blocks spreader_client = 1) by (vm_compute; reflexivity).
      assert (b = 0) as -> by lia. split; vm_compute; reflexivity.
Qed.

Lemma spreader_in_step : in_step spreader_client (fun _ => OFF).
Proof.
  intros s Hs. assert (Hn : numberOfSections spreader_client = 2) by (vm_compute; reflexivity).
  rewrite Hn in Hs. assert (s = 0 \/ s = 1) as [-> | ->] by lia; vm_compute; reflexivity.
Qed.

Definition spreader_calls : list server_call :=
  [UpdateSections [true; true]; Value 9 ActualWorkState 3 1; UpdateSections [false; true]].

(** What the spreader hears: an element at a time. *)
Example spreader_messages :
  section_messages (serve_calls spreader_calls spreader_server).2 =
  [send_set_value 9 141 2 1; send_set_value 9 141 3 1;
   send_set_value 9 141 2 0; send_set_value 9 141 3 1].
Proof. vm_compute. reflexivity. Qed.

(** In either dialect. *)
Lemma server_refines_controller_witness :
  (let view := heard Condensed (to_client 7 (serve_calls sprayer_calls sprayer_server).2)
     (fun _ => OFF) in
   view 0 = OFF /\ view 1 = ON) /\
  (let view := heard (PerElement [2; 3])
     (to_client 9 (serve_calls spreader_calls spreader_server).2) (fun _ => OFF) in
   view 0 = OFF /\ view 1 = ON).
Proof.
  split.
  - pose proof (server_refines_controller Condensed 7 sprayer_calls sprayer_server sprayer_client
      (fun _ => OFF) sprayer_client_found sprayer_condensed sprayer_in_step
      ltac:(repeat constructor)) as Hr.
    destruct (serve_calls sprayer_calls sprayer_server) as [srv' outs].
    destruct Hr as (st' & _ & _ & _ & Hv). rewrite sprayer_client_sections in Hv. cbn [snd].
    split; [rewrite (Hv 0)|rewrite (Hv 1)]; (lia || (vm_compute; reflexivity)).
  - pose proof (server_refines_controller (PerElement [2; 3]) 9 spreader_calls spreader_server
      spreader_client (fun _ => OFF) eq_refl spreader_wired spreader_in_step
      ltac:(repeat constructor)) as Hr.
    destruct (serve_calls spreader_calls spreader_server) as [srv' outs].
    destruct Hr as (st' & _ & _ & _ & Hv).
    assert (Hn : numberOfSections spreader_client = 2) by (vm_compute; reflexivity).
    rewrite Hn in Hv. cbn [snd].
    split; [rewrite (Hv 0)|rewrite (Hv 1)]; (lia || (vm_compute; reflexivity)).
Defined.

(** Activated and in automatic mode, but not yet subscribed. *)
Definition early_server : MyTCServer := run_calls (upload_calls ++ [UpdateControlEnabled true]).

Definition early_client : ClientState := client_ref 7 early_server.

Lemma early_server_wf : server_wf early_server.
Proof.
  unfold early_server, run_calls. apply foldl_ind; [apply map_Forall_empty|].
  intros. by apply run_call_wf.
Qed.

Lemma early_client_found : clients early_server !! 7 = Some early_client.
Proof. apply has_client_found. vm_compute. reflexivity. Qed.

(** The spreader before its subscription. *)
Definition early_spreader : ClientState := with_areMeasurementCommandsSent false spreader_client.

Definition early_spreader_server : MyTCServer :=
  with_clients (<[9 := early_spreader]> ∅) initial_server.

(** The sprayer's setpoints are on in the end, and the implement, which does
    have the condensed process data by then, has heard nothing; the spreader
    was told of both of its elements. *)
Lemma early_demand_never_sent_witness :
  (let r1 := update_section_states [true; true] early_server in
   let srv2 := (request_measurement_commands r1.1).1 in
   to_client 7 r1.2 = [] /\ to_client 7 (update_section_states [true; true] srv2).2 = [] /\
   block_ddi (client_ref 7 srv2) 0 = Some 290 /\
   get_section_setpoint_state 0 (client_ref 7 srv2) = ON) /\
  to_client 9 (update_section_states [true; true] early_spreader_server).2 =
    [send_set_value 9 141 2 1; send_set_value 9 141 3 1].
Proof.
  split.
  - pose proof (early_demand_never_sent [true; true] 7 early_server early_client
      early_client_found (early_server_wf 7 _ early_client_found)
      ltac:(vm_compute; reflexivity) ltac:(vm_compute; reflexivity)) as He.
    cbv zeta. split_and!; [..|vm_compute; reflexivity|vm_compute; reflexivity];
      destruct (update_section_states [true; true] early_server) as [srv1 outs1]; cbn [fst snd];
      cbv zeta in He;
      destruct (update_section_states [true; true] _) as [srv3 outs3];
      [exact (proj1 He)|exact (proj1 (proj2 He))].
  - pose proof (early_demand_never_sent [true; true] 9 early_spreader_server early_spreader
      eq_refl ltac:(apply wf_with_areMeasurementCommandsSent, spreader_wired)
      ltac:(vm_compute; reflexivity) ltac:(vm_compute; reflexivity)) as He.
    destruct (update_section_states [true; true] early_spreader_server) as [srv1 outs1]. cbn [snd].
    cbv zeta in He. destruct (update_section_states [true; true] _) as [srv3 outs3].
    rewrite (proj1 He). vm_compute. reflexivity.
Defined.

Lemma condensed_report_unpacked_witness :
  let st' := on_condensed_work_state (ActualCondensedWorkState1_16 + 0) 1 4 sprayer_client in
  wf st' /\ numberOfSections st' = 2 /\
  zlookup (sectionActualStates st') 1 = Some ON /\
  get_element_number_for_section 1 st' = 1.
Proof.
  destruct (condensed_report_unpacked sprayer_client 0 1 4 1 sprayer_client_wf
    (conj (Z.le_refl 0) eq_refl) (conj (Z.le_0_1) eq_refl)
    (conj (Z.le_0_1) eq_refl)) as (Hwf & Hn & _ & Hs & He).
  split_and!; [exact Hwf|exact Hn|exact Hs|exact He].
Defined.

Lemma condensed_roundtrip_witness :
  zlookup (sectionActualStates
    (on_condensed_work_state (ActualCondensedWorkState1_16 + 0) 1
       (i32 (condensed_setpoint_value (16 * 0) sprayer_client)) sprayer_client)) 1 =
  Some (get_section_setpoint_state 1 sprayer_client).
Proof.
  refine (condensed_roundtrip sprayer_client sprayer_client 0 1 1 sprayer_client_wf
    sprayer_client_wf _ _ eq_refl _ eq_refl); unfold is_u16; lia.
Defined.

(** ** The server *)

(** The sprayer has condensed setpoints. *)
Lemma activated_state_spec_witness :
  let st := activated_state (sprayer : @pool sprayer_api) in
  wf st /\ numberOfSections st = 2 /\ is_section_control_enabled st = false /\
  uses_per_element_control st = false /\ get_per_element_setpoint_ddi st = 0 /\
  offers (sprayer : @pool sprayer_api) 290 305 false.
Proof.
  destruct (activated_state_spec (sprayer : @pool sprayer_api))
    as (Hwf & Hn & _ & _ & Hu & Hd & Hm & Hs & _).
  assert (Ho : offers (sprayer : @pool sprayer_api) 290 305 false).
  { assert (He : section_control_method (sprayer : @pool sprayer_api) = Modern)
      by (vm_compute; reflexivity).
    rewrite He in Hm. exact Hm. }
  assert (Hf : uses_per_element_control (activated_state (sprayer : @pool sprayer_api)) = false).
  { apply not_true_is_false. intros [Hno _]%Hu. exact (Hno Ho). }
  split_and!; [exact Hwf|exact Hn|exact Hs|exact Hf| |exact Ho].
  rewrite Hd, Hf. reflexivity.
Defined.

Lemma server_reachable_wf_witness :
  wf sprayer_client /\ is_Some (zlookup (sectionActualStates sprayer_client) 1).
Proof.
  destruct (server_reachable_wf sprayer_server 7 sprayer_client (run_calls_reachable _)
    sprayer_client_found) as [Hwf Hs].
  split; [exact Hwf|]. refine (proj1 (proj2 (Hs 1 _))). vm_compute. split; discriminate || reflexivity.
Defined.

Definition uploaded_server : MyTCServer := run_calls upload_calls.

Lemma uploaded_client_found :
  clients uploaded_server !! 7 = Some (client_ref 7 uploaded_server).
Proof. apply has_client_found. vm_compute. reflexivity. Qed.

Lemma request_measurement_commands_spec_witness :
  let r := request_measurement_commands uploaded_server in
  exists st', clients r.1 !! 7 = Some st' /\
    (forall o, o ∈ to_client 7 r.2 <-> exists pd el,
       listed_by (cs_pool (client_ref 7 uploaded_server)) pd el /\ subscription 7 pd el o).
Proof.
  destruct (request_measurement_commands_spec uploaded_server 7
    (client_ref 7 uploaded_server) uploaded_client_found) as (_ & st' & Hl & H2).
  exists st'. split; [exact Hl|].
  exact (proj2 (proj2 (proj2 H2))).
Defined.

Example sprayer_subscriptions :
  to_client 7 (request_measurement_commands uploaded_server).2 =
  [send_change_threshold_measurement_command 7 141 2 1;
   send_change_threshold_measurement_command 7 290 1 1;
   send_change_threshold_measurement_command 7 289 1 1;
   send_change_threshold_measurement_command 7 160 1 1].
Proof. vm_compute. reflexivity. Qed.

(** Section 0 reported on, but the implement's root element reported that it
    is not working. *)
Definition raised_server : MyTCServer :=
  run_calls (upload_calls ++ [Request; Value 7 161 1 5; Value 7 141 0 0]).

Definition raised_client : ClientState := client_ref 7 raised_server.

Lemma raised_client_wf : wf raised_client.
Proof.
  apply client_ref_wf. unfold raised_server, run_calls.
  apply foldl_ind; [apply map_Forall_empty|]. intros. by apply run_call_wf.
Qed.

Lemma sprayer_objects :
  pool_objects (cs_pool raised_client) = omap (fun o => o) (lp_objects sprayer).
Proof. vm_compute. reflexivity. Qed.

Lemma sprayer_unique : unique_element_numbers (cs_pool raised_client).
Proof.
  assert (Hnd : NoDup (lo_element <$> filter (fun o => lo_type o = DeviceElement)
    (omap (fun o => o) (lp_objects sprayer)))).
  { apply (bool_decide_unpack _). vm_compute. exact I. }
  intros o1 o2 H1 H2 Ht1 Ht2 He. rewrite sprayer_objects in H1, H2.
  assert (Hin : forall o, o ∈ omap (fun o => o) (lp_objects sprayer) ->
    lo_type o = DeviceElement -> o ∈ filter (fun o => lo_type o = DeviceElement)
      (omap (fun o => o) (lp_objects sprayer)) /\ u16 (lo_element o) = lo_element o).
  { intros o Ho Ht. split; [by apply list_elem_of_filter|].
    assert (Hall : Forall (fun o => u16 (lo_element o) = lo_element o)
      (omap (fun o => o) (lp_objects sprayer))) by (repeat constructor).
    rewrite Forall_forall in Hall. by apply Hall. }
  destruct (Hin o1 H1 Ht1) as [Hf1 Hu1], (Hin o2 H2 Ht2) as [Hf2 Hu2].
  assert (Heq : lo_element o1 = lo_element o2) by (rewrite <- Hu1, <- Hu2; exact He).
  apply list_elem_of_lookup in Hf1 as [i Hi], Hf2 as [j Hj].
  assert (i = j) as ->; [|congruence].
  apply (NoDup_lookup _ _ _ (lo_element o1) Hnd); rewrite list_lookup_fmap;
    [by rewrite Hi|rewrite Hj; simpl; congruence].
Qed.

Lemma sprayer_boom_parent : declared_parent (cs_pool raised_client) 1 0.
Proof.
  exists (element 10 1 1 [31; 32; 33; 34] : @object sprayer_api). rewrite sprayer_objects.
  split; [vm_compute; do 4 right; left|]. split; [reflexivity|].
  split; [reflexivity|]. exists (element 1 0 0 [] : @object sprayer_api).
  split_and!; vm_compute; done.
Qed.

Lemma get_section_actual_state_spec_witness :
  zlookup (sectionActualStates raised_client) 0 = Some ON /\
  get_section_actual_state 0 raised_client = OFF.
Proof.
  destruct (get_section_actual_state_spec raised_client 0 raised_client_wf
    ltac:(vm_compute; reflexivity) sprayer_unique
    ltac:(vm_compute; split; [discriminate|reflexivity])) as (reported & Hr & Hoff & _).
  split; [vm_compute; reflexivity|]. apply Hoff. split; [vm_compute; reflexivity|].
  exists 0. split; [|vm_compute; reflexivity].
  assert (He : get_element_number_for_section 0 raised_client = 1) by (vm_compute; reflexivity).
  rewrite He. apply rtc_once. exact sprayer_boom_parent.
Defined.

Lemma actual_work_state_report_witness :
  let srv' := (on_value_command 7 ActualWorkState 2 0 sprayer_server).2 in
  exists st', clients srv' !! 7 = Some st' /\
    elementWorkStates st' = <[2 := (0 =? 1)]> (elementWorkStates sprayer_client).
Proof.
  destruct (actual_work_state_report sprayer_server 7 2 0 sprayer_client sprayer_client_found
    sprayer_client_wf) as (_ & st' & Hl & He & _).
  exists st'. split; [exact Hl|exact He].
Defined.

Lemma value_from_unknown_client_witness :
  let srv' := (on_value_command 8 161 1 5 sprayer_server).2 in
  exists st, clients srv' !! 8 = Some st /\ numberOfSections st = 0 /\
    to_client 8 (update_section_states [true] srv').2 = [].
Proof.
  assert (Hnone : clients sprayer_server !! 8 = None) by
    (apply eq_None_not_Some; intros [st Hst];
     assert (has_client 8 sprayer_server = false) as Hc by (vm_compute; reflexivity);
     unfold has_client in Hc; rewrite Hst in Hc; discriminate).
  pose proof (value_from_unknown_client sprayer_server 8 161 1 5 Hnone) as Hv.
  cbv zeta in Hv |- *. change (handled_ddi 161) with true in Hv. cbv iota in Hv.
  destruct Hv as ((st & Hl & Hn & _) & _ & Hu & _).
  exists st. split_and!; [exact Hl|exact Hn|apply Hu].
Defined.

Lemma update_section_control_enabled_spec_witness :
  clients (update_section_control_enabled false sprayer_server).1 !! 7 =
  Some (with_isSectionControlEnabled false sprayer_client).
Proof.
  exact (proj1 (update_section_control_enabled_spec sprayer_server 7 false sprayer_client
    sprayer_client_found)).
Defined.

(** ** AgOpenGPS *)

Definition sprayer_aog : Aog := initial_aog sprayer_server.

Definition moment : CallEnv := {|
  now := 5000; has_speed_interface := true; has_nmea2000_interface := true;
  can_accepts := true |}.

Lemma section_demand_packet_witness :
  let a' := (packetHandler moment
    {| src := 127; pgn := 229; payload := [2; 0; 0; 0; 0; 0; 0; 0] |} sprayer_aog).1 in
  zlookup (sectionDemand a') 1 = Some true /\ zlookup (sectionDemand a') 0 = Some false /\
  exists st', clients (tcServer a') !! 7 = Some st' /\
    get_section_setpoint_state 1 st' = ON.
Proof.
  destruct (section_demand_packet moment [2; 0; 0; 0; 0; 0; 0; 0] sprayer_aog 7 sprayer_client
    ltac:(vm_compute; discriminate) sprayer_client_found sprayer_client_wf)
    as (_ & Hd & _ & _ & st' & Hl & Hs).
  split_and!; [exact (Hd 1 ltac:(lia))|exact (Hd 0 ltac:(lia))|].
  exists st'. split; [exact Hl|].
  rewrite (Hs 1 ltac:(rewrite sprayer_client_sections; lia)), sprayer_client_auto. reflexivity.
Defined.

Lemma process_data_packet_witness :
  lastSpeedValue (packetHandler moment
    {| src := 127; pgn := 242; payload := le16 397 ++ le32 (-1500) ++ [] |} sprayer_aog).1 = -1500.
Proof.
  pose proof (process_data_packet moment sprayer_aog 397 (-1500) []
    ltac:(unfold is_u16; lia) ltac:(unfold is_i32; lia)) as Hp.
  cbv zeta in Hp. destruct (packetHandler _ _ _) as [a' outs].
  destruct Hp as (_ & _ & Hs & _). exact (proj1 (Hs eq_refl)).
Defined.

Lemma xte_packet_witness :
  let p := {| src := 127; pgn := 242; payload := le16 513 ++ le32 (-2500) ++ [] |} in
  xteSid (packetHandler moment p sprayer_aog).1 = 1.
Proof.
  pose proof (xte_packet moment sprayer_aog (-2500) []
    ltac:(vm_compute; split; [discriminate|reflexivity])
    ltac:(unfold is_i32; lia) ltac:(vm_compute; split; discriminate)) as Hp.
  cbv zeta in Hp |- *. destruct (packetHandler _ _ _) as [a' outs].
  exact (proj1 Hp).
Defined.

Lemma gnss_and_foreign_packets_witness :
  let p := {| src := 124; pgn := 214; payload := replicate 38 0 ++ [9] |} in
  gnssFixQuality (packetHandler moment p sprayer_aog).1 = 1.
Proof.
  intros p. assert (Hb : Forall is_u8 (payload p))
    by (repeat constructor; unfold is_u8; lia).
  destruct (gnss_and_foreign_packets moment p sprayer_aog Hb) as [Hg _].
  destruct (Hg eq_refl eq_refl ltac:(vm_compute; discriminate)) as (_ & _ & _ & _ & H9).
  apply H9. vm_compute. reflexivity.
Defined.

Lemma heartbeat_encodes_sections_witness :
  exists data, heartbeat_data sprayer_client = Finished data /\ zlength data = 3.
Proof.
  destruct (heartbeat_encodes_sections sprayer_client sprayer_client_wf)
    as (data & Hd & Hl & _).
  exists data. split; [exact Hd|]. rewrite Hl, sprayer_client_sections. reflexivity.
Defined.

Lemma j1939_speed_rounding_witness : speed_j1939 2778 = 2560.
Proof.
  destruct (j1939_speed_rounding 2778 ltac:(vm_compute; discriminate)) as (H1 & _).
  vm_compute. reflexivity.
Defined.

Lemma gnss_quality_choice_witness : gnss_quality_to_send 5000 sprayer_aog = 1.
Proof.
  destruct (gnss_quality_choice 5000 sprayer_aog ltac:(vm_compute; split; discriminate)) as (_ & Hnone & _).
  exact (Hnone eq_refl).
Defined.

(** ** The wire *)

Definition receiver : RxState := initial_rx.

Lemma initial_rx_ok : rx_ok initial_rx.
Proof. split; [reflexivity|apply Forall_replicate; unfold is_u8; lia|simpl; lia]. Qed.

Lemma send_receive_roundtrip_witness :
  exists f rx', send 256 127 241 [1; 0] = Finished f /\
    handle_incoming_packets 1 (Datagram f) receiver =
      Finished (rx', [{| src := 127; pgn := 241; payload := [1; 0] |}]).
Proof.
  destruct (send_receive_roundtrip 127 241 [1; 0] receiver 0
    ltac:(vm_compute; split; discriminate) eq_refl eq_refl) as (f & rx' & Hs & Hr & _).
  exists f, rx'. split; [exact Hs|exact Hr].
Defined.

Lemma receive_handlers_safe_witness :
  poll_safe incoming_round (Datagram [1; 2; 3]) receiver.
Proof.
  refine (proj1 (receive_handlers_safe (Datagram [1; 2; 3]) receiver initial_rx_ok eq_refl _)).
  intros bytes [= <-]. repeat constructor; unfold is_u8; lia.
Defined.

Lemma length_250_never_returns_witness :
  handle_incoming_packets 1000 (Datagram ([128; 129; 127; 241; 250] ++ [0; 0; 0])) receiver =
  Running.
Proof.
  refine (proj1 (length_250_never_returns receiver 127 241 [0; 0; 0] 1000 eq_refl eq_refl _)).
  vm_compute. split; discriminate.
Defined.

Lemma second_frame_in_buffer_witness :
  exists rx', rxIndex rx' = 0 /\
    handle_incoming_packets 2
      (Datagram (frame 127 1 [1; 2] ++ frame 127 2 [1; 2; 3; 4])) receiver =
    Finished (rx', [packet 127 1 [1; 2]]).
Proof.
  destruct (second_frame_in_buffer receiver []
    (frame 127 1 [1; 2] ++ frame 127 2 [1; 2; 3; 4]) 127 1 127 2 [1; 2] [1; 2; 3; 4] 0
    (holds_nil receiver eq_refl eq_refl) eq_refl ltac:(vm_compute; discriminate)
    ltac:(vm_compute; discriminate) ltac:(repeat constructor; vm_compute; congruence))
    as [_ Hlost].
  apply Hlost; [vm_compute; discriminate|]. vm_compute. congruence.
Defined.

Lemma one_byte_payload_delayed_witness :
  exists rx1 rx2,
    handle_incoming_packets 1 (Datagram (frame 127 241 [1])) receiver = Finished (rx1, []) /\
    handle_incoming_packets 2 (Datagram (frame 127 229 [0; 0; 0; 0; 0; 0; 0; 0])) rx1 =
      Finished (rx2, [packet 127 241 [1]]).
Proof.
  destruct (one_byte_payload_delayed receiver 127 241 1 127 229 [0; 0; 0; 0; 0; 0; 0; 0] 0
    eq_refl eq_refl ltac:(vm_compute; split; discriminate)
    ltac:(repeat constructor; vm_compute; congruence) ltac:(vm_compute; congruence))
    as (rx1 & rx2 & Hfirst & Hsecond & _).
  exists rx1, rx2. split; [|exact Hsecond].
  rewrite <- Hfirst. vm_compute. reflexivity.
Defined.

Lemma subnet_detection_spec_witness :
  exists rx', handle_address_detection 1
    (Datagram (frame 127 201 [201; 201; 10; 0; 0])) receiver =
    Finished (rx', [Udp.set_subnet 10 0 0]).
Proof.
  destruct (subnet_detection_spec 127 201 [201; 201; 10; 0; 0] receiver 0
    ltac:(vm_compute; split; discriminate) eq_refl eq_refl) as (rx' & Hr & _).
  exists rx'. exact Hr.
Defined.

(** ** Settings *)

Definition good_paths : PathEnv := {|
  config_root := Unix None (Some (bytes_of_string "/home/u"));
  PROJECT_NAME := bytes_of_string "AOG-TaskController"; create_ok := true |}.

Definition good_save : SaveEnv := {|
  paths := good_paths; open_ok := true; write_ok := true; written := 0; rename_ok := true |}.

Definition empty_disk : Disk := {| settings_file := None; temporary_file := None |}.

Definition some_settings : Settings :=
  Build_Settings (10, 0, 0) false true false true 4 (bytes_of_string "de") (bytes_of_string "DE").

Lemma some_settings_ok : settings_ok some_settings.
Proof. split; simpl; unfold is_u8; lia. Qed.

Lemma save_load_roundtrip_witness :
  load good_paths (settings_file (run_fs empty_disk (save good_save some_settings).2))
    default_settings = (Returns true, some_settings).
Proof.
  exact (save_load_roundtrip good_save some_settings default_settings empty_disk
    some_settings_ok eq_refl).
Defined.

(** A file with two numbers too large for a subnet, a version that does not
    exist, a switch that is a number, and a country that is a switch. *)
Definition edited_data : json :=
  set_member "subnet" (JArray 10 256 300)
    (set_member "tecuEnabled" (JBool false)
       (set_member "vtEnabled" (JInt 0)
          (set_member "tcVersion" (JInt 9)
             (set_member "languageCode" (JString (bytes_of_string "nl"))
                (set_member "countryCode" (JBool true) json_null))))).

Definition edited_file : list Z := default [] (dump edited_data).

Lemma load_spec_witness :
  load good_paths (Some edited_file) some_settings =
    (Returns true,
     Build_Settings (10, 0, 44) false true true true 3 (bytes_of_string "nl") (bytes_of_string "US")) /\
  (load good_paths (Some []) some_settings).2 = some_settings.
Proof.
  pose proof (load_spec good_paths (Some edited_file) some_settings some_settings_ok) as Hl.
  pose proof (load_spec good_paths (Some []) some_settings some_settings_ok) as Hbad.
  split.
  - assert (Hr : (load good_paths (Some edited_file) some_settings).1 = Returns true)
      by (vm_compute; reflexivity).
    destruct (load good_paths (Some edited_file) some_settings) as [r s']. cbn [fst] in Hr. subst r.
    destruct Hl as (_ & _ & text & data & [= <-] & Hdata & (Hsub & _) & Htecu & Hnmea & Haog & Hvt &
      (Hver & _) & Hlang & Hcountry).
    assert (data = edited_data) as -> by (vm_compute in Hdata; by injection Hdata).
    clear Hdata. destruct s'. cbn in *. f_equal. f_equal.
    + exact (Hsub 10 256 300 eq_refl eq_refl).
    + exact (proj1 Htecu false eq_refl eq_refl).
    + exact (proj1 (proj2 Hnmea) eq_refl).
    + exact (proj1 (proj2 Haog) eq_refl).
    + exact (proj2 (proj2 Hvt) eq_refl).
    + exact (Hver 9 eq_refl eq_refl).
    + exact (proj1 Hlang (bytes_of_string "nl") eq_refl eq_refl).
    + exact (proj2 (proj2 Hcountry) eq_refl).
  - assert (Hr : (load good_paths (Some []) some_settings).1 = Throws) by (vm_compute; reflexivity).
    destruct (load good_paths (Some []) some_settings) as [r s']. cbn [fst] in Hr. subst r.
    exact (proj1 (proj2 Hbad)).
Defined.

(** ** Watching the demand *)

Definition observations : list (Z * bool) := [(1000, false); (2000, true); (7000, true)].

Lemma observations_clocked : clocked (observations ++ [(12000, true)]).
Proof.
  split; [repeat constructor; simpl; lia|].
  intros i j t u t' u' Hij Hi Hj. unfold observations in *.
  do 4 (try destruct i as [|i]); do 4 (try destruct j as [|j]); simplify_eq/=; lia.
Qed.

Lemma warning_once_per_spell_witness :
  exists j tj, spell (observations ++ [(12000, true)]) j tj /\ warning_due 12000 tj.
Proof.
  destruct (proj1 (warning_once_per_spell observations 12000 true observations_clocked) eq_refl)
    as (j & tj & Hs & Hd & _).
  exists j, tj. split; [exact Hs|exact Hd].
Defined.

Lemma check_section_demand_spec_witness :
  (check_section_demand (fun c => c) 5000 sprayer_aog ∅).1 !! 7 = None.
Proof.
  destruct (check_section_demand_spec (fun c => c) 5000 sprayer_aog ∅
    (fun c1 c2 Heq => Heq)) as (Hc & _).
  rewrite (Hc 7 sprayer_client sprayer_client_found). vm_compute. reflexivity.
Defined.

(** Sections 3 to 6 of eight. *)
Lemma describe_section_demand_spec_witness :
  describe_section_demand [false; false; true; true; true; true; false; false] 8 =
    bytes_of_string "4 on: 3-6" /\
  exists runs,
    describe_section_demand [false; false; true; true; true; true; false; false] 8 =
    to_string 4 ++ bytes_of_string " on: " ++ render_runs runs.
Proof.
  split; [vm_compute; reflexivity|].
  destruct (describe_section_demand_spec
    [false; false; true; true; true; true; false; false] 8 ltac:(lia)) as (runs & Heq & _).
  exists runs. rewrite Heq. reflexivity.
Defined.

(** ** The virtual terminal *)

#[local] Instance platform : Platform := {|
  time_elapsed_ms := fun now_ since => u32 (now_ - since);
  PREFERRED_TC_ADDRESS := 247;
  TaskControllerFunction := 61;
  format_metres := to_string;
  format_signed_metres := to_string;
  format_m := to_string;
  format_km := to_string |}.

Definition one_network : Network := {|
  tcCF := Some {| cf_handle := 1; cf_address := Some 247; function_code := 61;
                  manufacturer_code := 1407; identity_number := 1 |};
  control_functions :=
    [{| cf_handle := 7; cf_address := Some 128; function_code := 133;
        manufacturer_code := 1407; identity_number := 20 |}] |}.

Definition terminal_at (t : Z) (connected : bool) : VtEnv := {|
  vt_now := t;
  partner_online := true;
  vt_is_connected := connected;
  has_update_helper := true;
  has_nmea2000 := true;
  task_totals_active := true;
  bound_ip_address := bytes_of_string "192.168.5.10";
  network := one_network
|}.

(** ** A round of the main loop *)

Definition sprayer_app : Application :=
  Build_Application sprayer_aog default_settings initial_rx initial_rx
    {| loggedSectionDemand := []; lastSectionDemandLogMs := 0 |} ∅ ∅ false false
    (Build_Timers 0 0 0 0 0 0 0) (with_vtClientStarted true initial_vt) (Some (192, 168, 5, 10)).

Definition good_sockets : Sockets := {|
  interfaces := Some [loopback; (192, 168, 5, 10)];
  resolved := [];
  bind_ok := fun _ => true;
  bind_any_ok := true
|}.

Definition one_round : UpdateEnv := {|
  call_env := moment;
  detection := WouldBlock;
  incoming := Datagram (frame 127 229 [2; 0; 0; 0; 0; 0; 0; 0]);
  save_env := good_save;
  sockets := good_sockets;
  has_vt_client := true;
  terminal := terminal_at 5000 true;
  bus := one_network;
  tecu_address_valid := true;
  speed_accepted := true
|}.

(** Before the packet is handled the implement reports a work state, and
    after the subscription the operator switches a page and the TECU off. *)
Definition one_schedule : list (list can_event) :=
  [[ServerCall (Value 7 161 1 5)]; [];
   [Listener (SoftKey true NavConfig); Listener (ChangeNumericValue ConfigTecuEnabled 0)]].

Lemma sprayer_app_ok : app_ok sprayer_app.
Proof.
  split; [|apply default_settings_ok|split; [apply initial_rx_ok|reflexivity]..].
  split; [apply sprayer_server_wf|simpl; lia..].
Qed.

Lemma update_keeps_invariant_witness :
  match update (fun c => c) one_round one_schedule sprayer_app with
  | Ok (app', outs) => app_ok app' /\ Forall udp_fits outs
  | Undefined => False
  | Diverges => ~ no_250_pending one_round sprayer_app
  | Escapes => (exists s, (save good_save s).1 = Throws) \/
      exists subnet, bind_connection good_sockets subnet = None
  | Terminates => (exists s, (save good_save s).1 = Throws) \/
      activation_throws (concat one_schedule)
  end.
Proof.
  exact (update_keeps_invariant (fun c => c) one_round one_schedule sprayer_app sprayer_app_ok
    ltac:(constructor) ltac:(repeat constructor; vm_compute; congruence)).
Defined.

(** With nowhere to put the file of the pool, the activation of another
    client ends the process, whatever the main loop is at. *)
Definition no_place : FileSystem := {|
  path_throws := fun _ => true;
  file_exists := fun _ => false;
  can_open := fun _ => true |}.

Example activation_kills_the_process :
  match update (fun c => c) one_round [[]; [ServerCall (Store 8 [1]); ServerCall (Activate no_place 8 99)]]
    sprayer_app with
  | Terminates => true
  | _ => false
  end = true.
Proof. vm_compute. reflexivity. Qed.

(** *** From the sockets to the bus *)

Lemma good_save_returns s : (save good_save s).1 <> Throws.
Proof. done. Qed.

Lemma initial_no_250 : no_250 initial_rx.
Proof. intros Hin%elem_of_replicate. lia. Qed.

Lemma one_schedule_undisturbed :
  Forall (fun call => undisturbed Condensed 7 call = true) (can_calls (concat one_schedule)).
Proof. constructor; [vm_compute; reflexivity|constructor]. Qed.

Lemma one_schedule_activates_none : ~ activation_throws (concat one_schedule).
Proof.
  intros (fs & c & name & device & Hin & _). cbn in Hin.
  repeat (apply elem_of_cons in Hin as [Hin|Hin]; [discriminate|]).
  by apply elem_of_nil in Hin.
Qed.

Lemma one_round_octets : octet_datagrams one_round.
Proof. split; [constructor|repeat constructor; vm_compute; congruence]. Qed.

Lemma sprayer_app_found : clients (tcServer (aog sprayer_app)) !! 7 = Some sprayer_client.
Proof. exact sprayer_client_found. Qed.

Lemma one_demand : demand_arrives Condensed 7 one_round one_schedule sprayer_app
  [2; 0; 0; 0; 0; 0; 0; 0] sprayer_client (fun _ => OFF).
Proof.
  constructor.
  - exact sprayer_app_ok.
  - reflexivity.
  - vm_compute. split; discriminate.
  - repeat constructor; vm_compute; congruence.
  - reflexivity.
  - exact (proj1 one_round_octets).
  - exact (conj (not_elem_of_nil _) initial_no_250).
  - exact good_save_returns.
  - reflexivity.
  - exact one_schedule_activates_none.
  - exact sprayer_app_found.
  - exact sprayer_condensed.
  - exact sprayer_client_auto.
  - exact sprayer_in_step.
  - exact one_schedule_undisturbed.
Qed.


(** Two hundred milliseconds later the implement reports section 0 off and
    section 1 on. *)
Definition next_round : UpdateEnv := {|
  call_env := {| now := now moment + 200; has_speed_interface := true;
                 has_nmea2000_interface := true; can_accepts := can_accepts moment |};
  detection := WouldBlock;
  incoming := WouldBlock;
  save_env := good_save;
  sockets := good_sockets;
  has_vt_client := true;
  terminal := terminal_at 5200 true;
  bus := one_network;
  tecu_address_valid := true;
  speed_accepted := true
|}.

Definition next_schedule : list (list can_event) := [[ServerCall (Value 7 161 1 4)]].

Definition app_after : Application :=
  match update (fun c => c) one_round one_schedule sprayer_app with
  | Ok (app, _) => app
  | _ => sprayer_app
  end.

Definition sent_before : list app_out :=
  match update (fun c => c) one_round one_schedule sprayer_app with
  | Ok (_, outs) => outs
  | _ => []
  end.

Definition next_result : Application * list app_out :=
  match update (fun c => c) next_round next_schedule app_after with
  | Ok r => r
  | _ => (sprayer_app, [])
  end.

Lemma next_round_truthful :
  truthful_round Condensed 7 2
    (heard Condensed (to_client 7 (bus_part sent_before)) (fun _ => OFF))
    next_round next_schedule app_after.
Proof.
  split; [vm_compute; reflexivity|repeat constructor| |].
  - change (can_calls (concat next_schedule)) with [Value 7 161 1 4].
    apply Forall_singleton. intros _. split; [discriminate|]. intros s Hs _.
    assert (s = 0 \/ s = 1) as [-> | ->] by lia; vm_compute; reflexivity.
  - intros s Hs. exists 161, 1, 4. split; [left|].
    assert (s = 0 \/ s = 1) as [-> | ->] by lia; reflexivity.
Qed.

(** The spreader's sections have their elements. *)
Lemma spreader_visible : visible (PerElement [2; 3]) spreader_client.
Proof.
  split; [vm_compute; reflexivity|]. intros e s.
  assert (He : elementToSection spreader_client = <[3 := 1]> (<[2 := 0]> ∅))
    by (apply map_eq; intros i; vm_compute; reflexivity).
  assert (Hn : numberOfSections spreader_client = 2) by (vm_compute; reflexivity).
  rewrite He, Hn, lookup_insert_Some, lookup_insert_Some, lookup_empty. split.
  - intros [[<- <-]|[_ [[<- <-]|[_ [=]]]]]; by split; [lia|].
  - intros [Hs Hl]. assert (s = 0 \/ s = 1) as [-> | ->] by lia; vm_compute in Hl; simplify_eq;
      [right; split; [done|by left]|by left].
Qed.

Lemma demand_comes_back_witness :
  exists shown, UdpSend 128 240 shown ∈ next_result.2 /\
    Z.testbit (byte_at shown 2) 0 = false /\ Z.testbit (byte_at shown 2) 1 = true.
Proof.
  destruct (demand_comes_back (fun c => c) Condensed 7 one_round one_schedule sprayer_app
    [2; 0; 0; 0; 0; 0; 0; 0] sprayer_client (fun _ => OFF) one_demand
    ltac:(rewrite sprayer_client_sections; discriminate)) as (app1 & outs1 & st1 & Hr & Hc & Hnext).
  assert (app1 = app_after) as -> by (unfold app_after; rewrite Hr; reflexivity).
  assert (outs1 = sent_before) as -> by (unfold sent_before; rewrite Hr; reflexivity).
  assert (Hon : map_Forall (fun _ b => b = true) (elementWorkStates st1)).
  { assert (He : bool_decide (map_Forall (fun _ b => b = true)
      (elementWorkStates (client_ref 7 (tcServer (aog app_after))))) = true)
      by (vm_compute; reflexivity).
    apply bool_decide_eq_true in He. unfold client_ref in He. rewrite Hc in He. exact He. }
  assert (Hok : match update (fun c => c) next_round next_schedule app_after with
                | Ok _ => true | _ => false end = true) by (vm_compute; reflexivity).
  rewrite sprayer_client_sections in Hnext. unfold next_result.
  destruct (update _ next_round next_schedule app_after) as [[app2 outs2]| | | |] eqn:E;
    [|discriminate Hok..].
  destruct (Hnext next_round next_schedule app2 outs2) as (shown & Hin & _ & Hbits).
  - intros a Ha. discriminate (map_Forall_lookup_1 _ _ _ _ Hon Ha).
  - exact next_round_truthful.
  - exact E.
  - exists shown. split; [exact Hin|].
    split; [exact (Hbits 0 ltac:(lia) ltac:(lia))|exact (Hbits 1 ltac:(lia) ltac:(lia))].
Defined.

(** The report before the round, both sections on, is in its heartbeat. *)
Lemma reports_reach_aog_witness :
  exists app' outs data, update (fun c => c) one_round one_schedule sprayer_app = Ok (app', outs) /\
    UdpSend 128 240 data ∈ outs /\ byte_at data 1 = 2 /\
    Z.testbit (byte_at data 2) 0 = true /\ Z.testbit (byte_at data 2) 1 = true.
Proof.
  assert (Hok : match update (fun c => c) one_round one_schedule sprayer_app with
                | Ok _ => true | _ => false end = true) by (vm_compute; reflexivity).
  destruct (update _ _ _ _) as [[app' outs]| | | |] eqn:E; [|discriminate Hok..].
  destruct (reports_reach_aog (fun c => c) 7 one_round one_schedule sprayer_app app' outs
    sprayer_client sprayer_app_ok sprayer_app_found
    ltac:(rewrite sprayer_client_sections; discriminate) ltac:(vm_compute; reflexivity)
    ltac:(repeat constructor) E) as (k & data & Hk & Hin & Hn & Hs).
  exists app', outs, data. rewrite sprayer_client_sections in Hn, Hs.
  assert (Hc : can_calls (concat (take k one_schedule)) = [Value 7 161 1 5])
    by (destruct k as [|[|[|k]]]; [lia|reflexivity|reflexivity|by destruct k]).
  rewrite Hc in Hs. split_and!; [reflexivity|exact Hin|exact Hn| |].
  - pose proof (Hs 0 ltac:(lia)) as H0. vm_compute in H0 |- *. exact H0.
  - pose proof (Hs 1 ltac:(lia)) as H1. vm_compute in H1 |- *. exact H1.
Defined.

(** Two rounds, in the second of which the implement leaves automatic mode. *)
Definition two_rounds : list round_input :=
  [(one_round, one_schedule); (one_round, [[ServerCall (Value 7 160 1 0)]])].

Lemma two_rounds_octets : Forall (fun r => octet_datagrams r.1) two_rounds.
Proof. constructor; [exact one_round_octets|]. constructor; [exact one_round_octets|constructor]. Qed.

Lemma two_rounds_return :
  exists app' outs, run_rounds (fun c => c) two_rounds sprayer_app = Ok (app', outs).
Proof.
  assert (Hok : match run_rounds (fun c => c) two_rounds sprayer_app with
                | Ok _ => true | _ => false end = true) by (vm_compute; reflexivity).
  destruct (run_rounds _ _ _) as [[app' outs]| | | |]; [by exists app', outs|discriminate..].
Qed.

Lemma rounds_refine_controller_witness :
  exists app' outs, run_rounds (fun c => c) two_rounds sprayer_app = Ok (app', outs) /\
    exists st', clients (tcServer (aog app')) !! 7 = Some st' /\
      heard Condensed (to_client 7 (bus_part outs)) (fun _ => OFF) 1 =
        if nth 1 (target (controller st')) false then ON else OFF.
Proof.
  destruct two_rounds_return as (app' & outs & E).
  exists app', outs. split; [done|].
  destruct (rounds_refine_controller (fun c => c) Condensed 7 two_rounds sprayer_app app' outs
    sprayer_client (fun _ => OFF) sprayer_app_ok
    two_rounds_octets
    ltac:(repeat constructor) sprayer_app_found sprayer_condensed sprayer_in_step E)
    as (calls & st' & _ & Hc & _ & _ & Hv).
  exists st'. split; [done|]. apply (Hv 1). rewrite sprayer_client_sections. lia.
Defined.

(** ** Two threads *)

(** A scheduler that switches after every step it can. *)
Fixpoint switching {St Out} (recursive : bool) (fuel : nat) (t : thread_id)
    (m : Machine St Out) : list thread_id * Machine St Out :=
  match fuel with
  | O => ([], m)
  | S fuel =>
      let other := match t with MainThread => CanThread | CanThread => MainThread end in
      match thread_step recursive other m, thread_step recursive t m with
      | Some m', _ => let '(ts, m') := switching recursive fuel other m' in (other :: ts, m')
      | None, Some m' => let '(ts, m') := switching recursive fuel t m' in (t :: ts, m')
      | None, None => ([], m)
      end
  end.

(** The main loop passes a demand on while the client reports on its
    sections. *)
Definition demand_calls : list entry :=
  [Enter (UpdateSections [true; false]); GetClients; Enter (UpdateSections [false; true])].
Definition report_calls : list server_call := [Value 7 161 1 5; Value 7 161 1 1].

Definition both_threads : Machine MyTCServer produced :=
  start sprayer_server (entry_code <$> demand_calls) (entry_code <$> (Enter <$> report_calls)).

Definition switched : list thread_id * Machine MyTCServer produced :=
  switching true 200 MainThread both_threads.

Lemma switching_run {St Out} recursive fuel : forall t (m : Machine St Out),
  run_schedule recursive (switching recursive fuel t m).1 m = Some (switching recursive fuel t m).2.
Proof.
  induction fuel as [|fuel IH]; intros t m; [done|]. cbn [switching]. cbn zeta.
  set (other := match t with MainThread => CanThread | CanThread => MainThread end).
  destruct (thread_step recursive other m) as [m'|] eqn:Ho.
  - specialize (IH other m'). destruct (switching _ _ _ _) as [ts m1].
    cbn [fst snd run_schedule] in *. by rewrite Ho.
  - destruct (thread_step recursive t m) as [m'|] eqn:Ht; [|done].
    specialize (IH t m'). destruct (switching _ _ _ _) as [ts m1].
    cbn [fst snd run_schedule] in *. by rewrite Ht.
Qed.

Definition at_end {St Out} (m : Machine St Out) (t : thread_id) : bool :=
  match threads m t with Between [] => true | _ => false end.

Lemma at_end_finished {St Out} (m : Machine St Out) : at_end m MainThread && at_end m CanThread = true -> finished m.
Proof.
  unfold at_end. intros [Hm Hc]%andb_prop t.
  destruct t; [clear Hc; rename Hm into H|clear Hm; rename Hc into H];
    destruct (threads m _) as [[|? ?]|? ? ?]; by try discriminate H.
Qed.

Lemma switched_finished : finished switched.2.
Proof. apply at_end_finished. vm_compute. reflexivity. Qed.

Lemma threads_take_turns_witness :
  heard Condensed (to_client 7 (messages_of (sent switched.2))) (fun _ => OFF) 0 = OFF /\
  exists es, merge demand_calls (Enter <$> report_calls) es /\
    serve_entries es sprayer_server = (shared switched.2, sent switched.2).
Proof.
  split; [vm_compute; reflexivity|].
  destruct (proj2 (threads_take_turns demand_calls report_calls sprayer_server)
    switched.1 switched.2 (switching_run _ _ _ _) switched_finished) as (es & Hm & Hs & _).
  exists es. split; [exact Hm|exact Hs].
Defined.

(** With a mutex that is not recursive the main loop would wait for itself as
    soon as it has something to send. *)
Definition blocked (t : thread_id) (m : Machine MyTCServer produced) : bool :=
  match thread_step false t m with None => true | Some _ => false end.

Example plain_mutex_blocks :
  let m := (switching false 200 MainThread (start sprayer_server (entry_code <$> demand_calls) [])).2 in
  (holder m, length (sent m), at_end m MainThread, blocked MainThread m, blocked CanThread m) =
    (Some (MainThread, 1%nat), 0%nat, false, true, true).
Proof. vm_compute. reflexivity. Qed.

(** The main loop stores a subnet while the operator changes two switches; the
    second of them cannot be saved. *)
Definition failing_save : SaveEnv := {|
  paths := paths good_save; open_ok := true; write_ok := true; written := 0; rename_ok := false |}.

Definition subnet_calls : list settings_call :=
  [SetSubnet good_save (10, 0, 7) true; IsEnabled NmeaSend].
Definition switch_calls : list settings_call :=
  [SetEnabled good_save Tecu false true; SetEnabled failing_save NmeaSend false true].

Definition both_setters : Machine SettingsStore answer :=
  start {| memory := some_settings; disk := empty_disk |}
    (settings_code <$> subnet_calls) (settings_code <$> switch_calls).

(** All of it, and up to the middle of the first save. *)
Definition settings_switched : list thread_id * Machine SettingsStore answer :=
  switching true 200 MainThread both_setters.
Definition settings_cut : list thread_id * Machine SettingsStore answer :=
  switching true 9 MainThread both_setters.

Lemma settings_finished : finished settings_switched.2.
Proof. apply at_end_finished. vm_compute. reflexivity. Qed.

Lemma settings_take_turns_witness :
  (exists calls, merge subnet_calls switch_calls calls /\
    run_settings_calls calls (shared both_setters) =
      (shared settings_switched.2, sent settings_switched.2)) /\
  sent settings_switched.2 =
    [Ended (Returns true); Ended (Returns true); Ended (Returns false); SwitchIs true] /\
  exists main1 can1 calls, main1 `prefix_of` subnet_calls /\ can1 `prefix_of` switch_calls /\
    merge main1 can1 calls /\ settings_file (disk (shared settings_cut.2)) =
      settings_file (disk (run_settings_calls calls (shared both_setters)).1).
Proof.
  pose proof (proj2 (settings_take_turns subnet_calls switch_calls (shared both_setters))) as Hrun.
  split; [|split].
  - exact (proj2 (Hrun settings_switched.1 settings_switched.2 (switching_run _ _ _ _))
      settings_finished).
  - vm_compute. reflexivity.
  - exact (proj1 (Hrun settings_cut.1 settings_cut.2 (switching_run _ _ _ _))).
Defined.

(** ** Pools *)

(** The sprayer's elements with a settable work state each, and with or
    without the condensed actual states at the boom. *)
Definition spreader_pool (boom_children : list Z) : ListPool := {|
  lp_objects :=
    [Some (device [] []);
     Some (element 20 2 10 [30]);
     Some (element 21 3 10 [30]);
     Some (element 10 1 0 boom_children);
     Some (process_data 30 141 true true);
     Some (process_data 31 161 false true)];
  lp_geometry := lp_geometry sprayer
|}.

(** A server at which only the mixed implement is registered. *)
Definition mixed_server : MyTCServer :=
  with_clients {[9 := ready 9 (spreader_pool [31])]} initial_server.

Lemma mixed_found : clients mixed_server !! 9 = Some (ready 9 (spreader_pool [31])).
Proof.
  unfold mixed_server. set (st := ready 9 _). clearbody st. apply lookup_singleton_eq.
Qed.

Lemma not_lists p ddi : lists p ddi = false -> ~ listed p ddi.
Proof. intros Hf Hl%lists_spec. congruence. Qed.

Lemma spreader_elements : section_element_numbers (spreader_pool []) = [2; 3].
Proof. vm_compute. reflexivity. Qed.

Lemma spreader_per_element : per_element_pool 9 (spreader_pool []).
Proof.
  split; [vm_compute; reflexivity|]. rewrite spreader_elements. split_and!; [done|..].
  - repeat constructor; set_solver.
  - set_solver.
  - intros b Hb. assert (Hn : number_of_blocks (ready 9 (spreader_pool [])) = 1) by (vm_compute; reflexivity).
    assert (b = 0) as -> by lia. apply not_lists. vm_compute. reflexivity.
Qed.

Lemma spreader_mixed : mixed_pool 9 (spreader_pool [31]).
Proof.
  split; [vm_compute; reflexivity|]. intros b Hb. assert (Hn : number_of_blocks (ready 9 (spreader_pool [31])) = 1) by (vm_compute; reflexivity).
    assert (b = 0) as -> by lia. apply lists_spec. vm_compute. reflexivity.
Qed.

Lemma pool_decides_dialect_witness :
  wired Condensed (ready 7 sprayer) /\
  wired (PerElement [2; 3]) (ready 9 (spreader_pool [])) /\
  heard Condensed (to_client 9
    (serve_calls [UpdateControlEnabled true; UpdateSections [true; true]] mixed_server).2)
    (fun _ => OFF) = fun _ => OFF.
Proof.
  split; [|split].
  - apply (proj1 (pool_decides_dialect 7 (sprayer : @pool sprayer_api) ltac:(vm_compute; reflexivity))).
    intros b Hb. left.
    assert (Hn : number_of_blocks (ready 7 sprayer) = 1) by (vm_compute; reflexivity).
    assert (b = 0) as -> by lia. apply lists_spec. vm_compute. reflexivity.
  - exact (proj1 (proj1 (proj2 (pool_decides_dialect 9 (spreader_pool [] : @pool sprayer_api)
      ltac:(vm_compute; reflexivity))) spreader_per_element)).
  - exact (proj2 (proj2 (pool_decides_dialect 9 (spreader_pool [31] : @pool sprayer_api)
      ltac:(vm_compute; reflexivity))) spreader_mixed mixed_server
      [UpdateControlEnabled true; UpdateSections [true; true]] Condensed (fun _ => OFF)
      mixed_found ltac:(repeat constructor)).
Defined.

(** ** Rounds of the terminal *)

Definition started : VtState := with_vtClientStarted true initial_vt.

Definition terminal_call (t : Z) (connected : bool) : vt_call :=
  (terminal_at t connected, (default_settings, sprayer_aog), (default_settings, sprayer_aog)).

Lemma vt_display_current_witness :
  let r := call_round (terminal_call 5000 true) started in
  shown ∅ r.2 !! DiagnosticsAlarmValue = Some (bytes_of_string "AOG heartbeat missing") /\
  lastVtStrings r.1 ⊆ shown ∅ r.2.
Proof.
  split; [vm_compute; reflexivity|].
  exact (proj1 (vt_display_current (terminal_at 5000 true) default_settings sprayer_aog
    default_settings sprayer_aog started ∅ (map_empty_subseteq _))).
Defined.

(** Lost at 1 s, the warning comes with the first round after 31 s. *)
Lemma vt_outage_reported_once_witness :
  LogNotConnected ∈ (call_round (terminal_call 31500 false)
    (rounds [terminal_call 1000 false; terminal_call 30500 false]
       (with_vtWasConnected true started))).2.
Proof.
  apply (vt_outage_reported_once (with_vtWasConnected true started)
    (terminal_call 1000 false) [terminal_call 30500 false] (terminal_call 31500 false)
    eq_refl eq_refl ltac:(repeat constructor) ltac:(discriminate)).
  split; [vm_compute; discriminate|]. repeat constructor. vm_compute. congruence.
Defined.
