(* ===== verification/ProgramWitnesses.v ===== *)
(** * Witnesses for the set-up, the program and the crash handler

    The task controller alone on a quiet bus, with nothing configured: it
    sees its address at the third look, is set up, runs two rounds and is
    asked to stop. *)

From S2P Require Import Prelude Ddop DdopExample Hierarchy ClientState TcServer.
From S2P Require Import ServerInvariant Udp UdpFacts Settings PacketHandler Heartbeat.
From S2P Require Import DemandMonitor Network Vt App AppFacts JsonExample Witnesses.
From S2P Require Import Setup SetupFacts Diagnostics Args Program Lateness.
From S2P Require Import AsyncLog AsyncLogFacts Flush LogFile WindowsMain.

#[local] Existing Instance sprayer_api.
#[local] Existing Instance list_ddop_laws.
#[local] Existing Instance platform.

#[local] Instance platform_elapsed : ElapsedLaws.
Proof. intros now since. reflexivity. Defined.

(** The first look at the address finds none, nor does the second; every
    reading of the clock comes a millisecond late. *)
Definition quiet_bus : SetupEnv := {|
  driver_present := true;
  hardware_starts := true;
  hardware_runs := true;
  driver_valid := true;
  lag := fun _ => 1;
  tc_address_at := fun n => if (n <? 2)%nat then None else Some 247;
  tecu_address_at := fun _ => Some 240;
  path_env := good_paths;
  settings_contents := None;
  AOG_TC_IOP_DATA := [0; 0];
  hash_object_pool_to_version := fun data => take 7 data;
  socket_env := good_sockets
|}.

Lemma quiet_bus_steady : steady quiet_bus.
Proof. intros n. cbn. lia. Qed.

Definition quiet_boot : Boot :=
  match initialize quiet_bus initial_boot with
  | Finished (_, w) => w
  | _ => initial_boot
  end.

Lemma quiet_bus_initialized :
  initialize quiet_bus initial_boot = Finished (Returns true, quiet_boot).
Proof. vm_compute. reflexivity. Qed.

(** The claim, seen at the third look, and the address of the connection. *)
Example quiet_boot_claim :
  omap (fun '(t, c) => match c with TcClaimed a => Some (t, a) | _ => None end) (calls quiet_boot) =
    [(125, 247)] /\
  udp_bound quiet_boot = Some (192, 168, 5, 10).
Proof. vm_compute. split; reflexivity. Qed.

Lemma claim_delays_respected_witness :
  exists t t' c', calls quiet_boot !! 5%nat = Some (t, TcClaimed 247) /\
    calls quiet_boot !! 6%nat = Some (t', c') /\ t + 250 <= t'.
Proof.
  destruct (calls quiet_boot !! 6%nat) as [[t' c']|] eqn:Hj; [|vm_compute in Hj; discriminate].
  exists 125, t', c'. split; [vm_compute; reflexivity|]. split; [reflexivity|].
  exact (claim_delays_respected quiet_bus quiet_bus_steady 5 6 125 t' (TcClaimed 247) c'
    (Returns true) quiet_boot quiet_bus_initialized ltac:(vm_compute; reflexivity) Hj
    ltac:(lia) eq_refl).
Defined.

Lemma initialize_spec_witness :
  exists r w, initialize quiet_bus initial_boot = Finished (r, w) /\ answer quiet_bus r w.
Proof. exact (initialize_spec quiet_bus quiet_bus_steady). Defined.

(** *** The run of the program *)

Definition two_round_life : Life := {|
  environment := fun _ => one_round;
  can_thread := fun _ => one_schedule;
  still_running := fun n => (n <? 2)%nat
|}.

Lemma two_round_octets : octets_only two_round_life.
Proof. intros n. split; [constructor|repeat constructor; vm_compute; congruence]. Qed.

Definition noon : Tm := {|
  tm_year := 125; tm_mon := 5; tm_mday := 9; tm_hour := 12; tm_min := 0; tm_sec := 7;
  milliseconds := 42 |}.

Definition healthy : Process := {|
  dispositions := fun _ => DefaultAction; blocked := []; stderr := []; entered := 0 |}.

Definition start_here : StartEnv := {|
  log_paths := good_paths; local_time := noon; log_opens := true;
  log_contents := bytes_of_string "earlier" ++ [10];
  version := bytes_of_string "1.2.3" |}.

(** Neither [HOME] nor [XDG_CONFIG_HOME]. *)
Definition homeless : StartEnv := {|
  log_paths := {| config_root := Unix None None;
                  PROJECT_NAME := bytes_of_string "AOG-TaskController"; create_ok := true |};
  local_time := noon; log_opens := true; log_contents := []; version := [] |}.

Definition can0_arguments : list (list Z) :=
  [bytes_of_string "tc"; bytes_of_string "--can_adapter=socketcan"; bytes_of_string "--log2file"].

Definition crash_here : CrashEnv := {|
  crash_paths := log_paths homeless; crash_time := noon; crash_file_opens := true;
  signal_taken := false;
  in_flight := StdException (bytes_of_string "HOME environment variable not set") |}.

(** The log file goes on with the command line. *)
Example log_file_continues :
  match prepare_application start_here can0_arguments with
  | Driver _ (ToBoth tee) => fileStream tee
  | _ => []
  end = bytes_of_string "earlier" ++ [10]
    ++ bytes_of_string "tc --can_adapter=socketcan --log2file " ++ [10]
    ++ bytes_of_string "AOG-TC version: v1.2.3" ++ [10].
Proof. vm_compute. reflexivity. Qed.

#[local] Notation run_here start :=
  (run_process (fun c => c) start can0_arguments (fun _ => quiet_bus) two_round_life
     crash_here healthy 5).

(** A run that is asked to stop, and one that cannot have its log file: its
    reason ends up in the working directory. *)
Lemma program_ends_orderly_witness :
  (exists events n outs, run_here start_here = Ended 0 events n outs /\ Forall udp_fits outs) /\
  exists p, run_here homeless =
    Aborted [OpenForAppending (bytes_of_string "crash_2025-06-09_12-00-07.log"); FlushQueue 500;
      WriteToFile (bytes_of_string "[12:00:07.042] [Crash] std::terminate called due to unhandled exception: HOME environment variable not set" ++ [10])]
      (ByExit 134) p.
Proof.
  pose proof (fun start => program_ends_orderly (fun c => c) start can0_arguments
    (fun _ => quiet_bus) two_round_life crash_here healthy 5 (fun _ => quiet_bus_steady)
    two_round_octets) as Hends. split.
  - specialize (Hends start_here).
    assert (Hexit : match run_here start_here with Ended 0 _ _ _ => true | _ => false end = true)
      by (vm_compute; reflexivity).
    destruct (run_process _ _ _ _ _ _ _ _) as [[] events n outs| | | |]; try discriminate Hexit.
    exists events, n, outs. split; [reflexivity|exact (proj1 Hends)].
  - specialize (Hends homeless).
    assert (Habort : match run_here homeless with Aborted _ _ _ => true | _ => false end = true)
      by (vm_compute; reflexivity).
    destruct (run_process _ _ _ _ _ _ _ _) as [|trace d p| | |]; try discriminate Habort.
    destruct Hends as (_ & Ht & Hd & _). exists p. rewrite Ht, Hd. vm_compute. reflexivity.
Defined.

Lemma no_250_on_the_wire n : ~ has_250 (environment two_round_life n).
Proof.
  unfold has_250. cbn. intros [H|H]; [by apply elem_of_nil in H|].
  assert (Hn : bool_decide (250 ∈ datagram_bytes (incoming one_round)) = false)
    by (vm_compute; reflexivity).
  by apply bool_decide_eq_false in Hn.
Qed.

Lemma program_stops_when_asked_witness :
  exists vt_started outs, run_application_loop (fun c => c) quiet_bus two_round_life 5 =
    Exits 0 (shut_down quiet_boot vt_started) 2 outs.
Proof.
  apply (program_stops_when_asked (fun c => c) quiet_bus two_round_life quiet_boot 2 5
    quiet_bus_steady two_round_octets quiet_bus_initialized).
  - intros n Hn. apply Nat.ltb_lt, Hn.
  - reflexivity.
  - exact no_250_on_the_wire.
  - intros n s. exact (good_save_returns s).
  - reflexivity.
  - exact (fun _ => one_schedule_activates_none).
  - lia.
Defined.

(** *** A crash *)

(** A segmentation fault in the only thread that does not block it. *)
Lemma crash_leaves_trace_witness :
  (signal_arrives false SIGSEGV (install_crash_handlers healthy)).1 = ByExit 139 /\
  stderr (signal_arrives false SIGSEGV (install_crash_handlers healthy)).2 =
    bytes_of_string "[Crash] Fatal signal: SIGSEGV (segmentation fault)" ++ [10].
Proof.
  destruct (crash_leaves_trace good_paths noon true false (StdException (bytes_of_string "bad"))
    SIGSEGV healthy ltac:(left)) as [Hs _].
  destruct (signal_arrives false SIGSEGV _) as [d p']. destruct Hs as (Hd & _ & He).
  split; [exact Hd|exact He].
Defined.

Example crash_file :
  crash_file_path good_paths noon (bytes_of_string ".log") =
  bytes_of_string "/home/u/.config/AOG-TaskController/logs/crash_2025-06-09_12-00-07.log".
Proof. vm_compute. reflexivity. Qed.

(** *** A late main loop *)

(** The clock reaches the threshold between the two readings of a call: a
    delay of 49 days is reported. *)
Lemma gap_warnings_spec_witness :
  gap_warnings [(1000, 1000); (1199, 1200); (1400, 1400)] 0 200 !! 1%nat =
    Some (Some (4294967295, 199)).
Proof.
  exact (proj2 (gap_warnings_spec 200 1000 1000 [(1199, 1200); (1400, 1400)] 0 1000 1000 1199 1200
    ltac:(unfold is_u32; lia) eq_refl eq_refl ltac:(discriminate) ltac:(lia) ltac:(lia))).
Defined.

(** *** The log file *)

(** The run of Flush.v with the writer's characters and its flush, and an exit
    right after the answer. *)
Definition written_at (now : Z) (text : list Z) : list (Z * (flush_event + sink_event)) :=
  ((fun e => (now, inr e)) <$> BeginChunk :: replicate (3 * length text) (Advance TheWriter)) ++
  [(now, inl (Other WriteChunk))].

Definition logged_flush : list (Z * (flush_event + sink_event)) :=
  [(0, inl (TryLock false))] ++ written_at 400 (bytes_of_string "TC up" ++ [10]) ++
  [(1000000, inl (TryLock true))] ++ written_at 1200000 (bytes_of_string "speed 7" ++ [10]) ++
  [(1250000, inr BeginFlush); (1250000, inr (Advance TheWriter));
   (1260000, inr (Advance TheWriter)); (1300000, inl (Other Finish)); (1310000, inl Retake)].

Definition start_tee : TeeStreambuf :=
  match prepare_application start_here can0_arguments with
  | Driver _ (ToBoth tee) => tee
  | _ => {| consoleBuffer := []; fileStream := []; file_good := false |}
  end.

Definition logged_start : System * Sinks :=
  default (initial_System, new_Sinks start_tee)
    (log_run (inl <$> take 6 log_events) initial_System (new_Sinks start_tee)).

Definition logged_end : FlushState * Sinks :=
  default (flush_called 0 logged_start.1, logged_start.2)
    (flush_log_run false 2000000000 logged_flush (flush_called 0 logged_start.1) logged_start.2).

Lemma log_file_complete_witness :
  caller logged_end.1 = Answered true /\
  forall contents, readable start_tee logged_end.2 contents ->
    contents = fileStream start_tee ++ bytes_of_string "TC up" ++ [10] ++ bytes_of_string "speed 7" ++ [10].
Proof.
  split; [vm_compute; reflexivity|]. intros contents Hc.
  destruct (log_file_complete start_here can0_arguments (bytes_of_string "can0") start_tee
    (inl <$> take 6 log_events) logged_start.1 logged_start.2 false 0 2000000000 logged_flush
    logged_end.1 logged_end.2 ltac:(vm_compute; reflexivity) eq_refl
    ltac:(apply (bool_decide_unpack _); vm_compute; exact I)
    ltac:(vm_compute; reflexivity) ltac:(vm_compute; reflexivity)
    ltac:(repeat constructor; vm_compute; congruence) ltac:(vm_compute; reflexivity)) as [Hrace Hrest].
  destruct (Hrest (Hrace ltac:(repeat constructor))) as (_ & _ & _ & _ & _ & Hanswer).
  destruct (Hanswer ltac:(vm_compute; reflexivity)) as (_ & _ & Hall).
  destruct (Hall contents Hc) as (n & _ & _ & _ & Hexact).
  rewrite Hexact; [vm_compute; reflexivity|vm_compute; reflexivity|].
  intros t. reflexivity.
Defined.

(** *** Windows *)

(** Windows with a window and without a console; the wide strings are plain
    ASCII. *)
Definition windows_with (arguments : list string) : WinApi := {|
  CommandLineToArgvW := Some (bytes_of_string <$> arguments);
  utf8_size := fun arg => zlength arg + 1;
  utf8_bytes := fun arg => Some (arg ++ [0]);
  AttachConsole := false;
  CreateWindowEx := true |}.

Definition pcan_1 : WinApi := windows_with ["tc"; "--can_adapter=PEAK-PCAN"; "--can_channel=1"].

(** AOG asks the window to close in the third round. *)
Definition closing_life : WindowsLife := {|
  windows_environment := fun _ => one_round;
  windows_can_thread := fun _ => one_schedule;
  pumps := fun n => {| input := true; retrieved := if (n =? 2)%nat then [AnotherMessage; WM_CLOSE] else [AnotherMessage] |} |}.

Lemma windows_program_closes_witness :
  (exists vt_started outs, WinMain (fun c => c) 81 start_here pcan_1 (fun _ => quiet_bus) closing_life 5 =
     Exits 0 (shut_down quiet_boot vt_started) 3 outs) /\
  WinMain (fun c => c) 81 start_here (windows_with ["tc"; "--can_adapter=peak-pcan"])
    (fun _ => quiet_bus) closing_life 5 = Terminated.
Proof.
  split.
  - apply (proj2 (windows_program_closes (fun c => c) 81 start_here pcan_1 (fun _ => quiet_bus)
      closing_life 5 ltac:(vm_compute; reflexivity) ltac:(vm_compute; discriminate))
      1 quiet_boot 2%nat); try lia.
    + vm_compute. reflexivity.
    + reflexivity.
    + exact quiet_bus_steady.
    + exact two_round_octets.
    + exact quiet_bus_initialized.
    + exact no_250_on_the_wire.
    + intros n s. exact (good_save_returns s).
    + reflexivity.
    + exact (fun _ => one_schedule_activates_none).
    + intros i Hi. by destruct i as [|[|]]; [..|lia].
    + reflexivity.
  - apply (proj1 (windows_program_closes (fun c => c) 81 start_here
      (windows_with ["tc"; "--can_adapter=peak-pcan"]) (fun _ => quiet_bus)
      closing_life 5 ltac:(vm_compute; reflexivity) ltac:(vm_compute; discriminate))).
    left. vm_compute. reflexivity.
Defined.
